(* ===== verification/_CoqProject ===== *)
-Q . S2P
Prelude.v
Queue.v
QueueCrc.v
QueueSpec.v
QueueRefine.v
QueueLap.v
QueueRecovery.v
QueueInv.v
QueueFindings.v
QueueWitnesses.v
TxQueue.v
CLib.v
Json.v
Network.v
NetworkSpec.v
NetworkUpload.v
NetworkWitnesses.v
Daemon.v
Frame.v
DaemonSpec.v
Config.v
JsonTree.v
ConfigSpec.v
DaemonLive.v
DaemonNetwork.v
DaemonWitnesses.v
DaemonPatience.v
DeviceSettings.v
RateLimiter.v
RateLimiterSpec.v
Plugins.v
Shutdown.v
ShutdownSpec.v
PluginsSpec.v
Startup.v
StartupSpec.v
RebootReason.v
Reboot.v
RebootSpec.v
TicosCtl.v
TicosCtlSpec.v
Systemd.v
Collectd.v
CollectdSpec.v
ShutdownWitnesses.v
Swupdate.v
SwupdateSpec.v
Cbor.v
CborSpec.v
ElfNote.v
ElfMetadata.v
Elf.v
ElfWriter.v
ElfWriterSpec.v
ElfWriterFile.v
ElfFileIO.v
GzipIO.v
ElfReader.v
ElfReaderSpec.v
ElfReaderFile.v
ElfTransformer.v
ElfTransformerSpec.v
Ownership.v
Procfs.v
GzipSpec.v
DeviceInv.v
CoreHandler.v
Coredump.v
CoredumpSpec.v
CoreHandlerSpec.v
CoredumpRun.v
CoredumpWitnesses.v
Device.v
DeviceSpec.v
DeviceWitnesses.v
Lifetime.v
LifetimeSpec.v
Console.v
MemoryIO.v
UnitTests.v
