(* ===== verification/Prelude.v ===== *)
(** * ticosd: a verification library for the Ticos Linux SDK

    ticosd is a daemon for embedded Linux devices: plugins watch the device and put entries
    into a persistent queue, the main loop sends the entries to a server.  ticosctl is its
    command line tool, ticos-core-handler the program the kernel starts with every core dump.
    File names below are relative to src/meta-ticos/recipes-ticos/ticosd/files/ticosd/ under
    src/; the core handler is in recipes-ticos/ticos-core-handler/ beside it.

    ** How the program is modelled

    C functions are Rocq functions of the same name.  State is explicit: a function that
    changes it takes and returns a record of the source's fields, in the monad [M] of CLib.v
    where calls are many.  A result is an [outcome]: [Val], [Fault] for undefined behaviour
    (an access outside an object, a signed overflow, a NULL that is followed), [OutOfFuel].
    Fuel occurs where a loop has no bound of its own: entries sent in one turn, turns of a
    write or read loop that may be interrupted for ever, the walks through a queue file; the
    theorems say how much is enough, and those about recovery and the reader that the code's
    own bound is.  Integers are [Z] with their wrap-around ([u32], [u64], [i32] ...), bytes
    are [Z] below 256 in lists, text is [string].  The machine is 64-bit and little-endian.

    What the program calls but the repository does not hold is a parameter: curl, json-c, zlib,
    libconfig and sd-bus are type classes with their documented laws in a second class
    ([Curl]/[CurlSpec], [JsonC], [JsonLaws], [Zlib]/[ZlibLaws], [Libconfig]/[LibconfigLaws],
    [SdBus]), each with an instance that shows the laws can hold.  What the operating system
    and the allocator answer is data: environment records, lists of answers.  Messages on
    stderr are left out, but for the few Console has.  What is taken and given back - memory,
    descriptors, the mapping of the queue file and so on - is in files of its own beside the
    data: Ownership for the buffers of a core dump, Lifetime for the daemon's handles.

    ** The parts, their files here and there

    - Prelude, CLib: outcomes, bytes and stores; C strings, printf and the allocator
      (src/util/string.c), gmtime and strftime.
    - The transmit queue (src/queue.c).  Queue: the operations on the buffer.  QueueSpec: the
      byte format and the list of payloads a buffer stands for ([repr]).  QueueRefine: each
      operation is one on that list.  QueueLap: whole traces of operations refine a list
      within the first lap.  QueueRecovery: reopening the file.  QueueInv: what holds after any
      calls and restarts on any file.  QueueCrc: the checksum, what it detects and that it is a
      polynomial remainder.  QueueFindings: where the queue is not one, and the repository's
      unit tests replayed.  TxQueue: the interface the daemon uses
      ([TxQueue], [TxQueueSpec]) and queue.c as an instance, with other threads writing in
      between.
    - The network (src/network.c).  Network, NetworkSpec (one request), NetworkUpload (the
      three exchanges of an upload), over Json and JsonTree (json-c).
    - The daemon (src/ticosd.c).  Daemon: sending, main loop, signals, queueing, over the
      interfaces of queue, configuration and network.  DaemonSpec: delivery in order.
      DaemonLive: the back-off; an outage that ends delays but loses nothing.
      DaemonNetwork and DaemonPatience: the functions of network.c fulfil the daemon's
      interfaces.  Startup, StartupSpec: [ticosd_main] up to the loop.  Shutdown, ShutdownSpec:
      the IPC thread, the main thread from the loop to its end and the signal handler as a step
      relation.  DeviceSettings: the device's identity and the PID file
      (src/util/device_settings.c, src/util/pid.c).
    - Configuration (src/util/config.c, runtime_config.c): Config, ConfigSpec.
    - Lifetime, LifetimeSpec: the init and destroy functions of the daemon, the limiter, the
      configuration, the device settings, the queue, the network and the plugins, and the handler
      of the core dump plugin, with what they hold.
    - Plugins and their messages (src/util/plugins.c, the IPC thread, src/plugins/attributes):
      Plugins, PluginsSpec.  Rate limiting (src/util/rate_limiter.c): RateLimiter,
      RateLimiterSpec.  The reboot plugin (src/plugins/reboot, src/util/reboot_reason.c,
      linux_boot_id.c): RebootReason, Reboot, RebootSpec.  Services (src/util/systemd.c):
      Systemd.  collectd (src/plugins/collectd): Collectd, CollectdSpec.  swupdate
      (src/plugins/swupdate.c): Swupdate, SwupdateSpec.
    - Core dumps (src/plugins/coredump, src/util/cbor.c, disk.c).  Cbor, CborSpec: the encoder
      and a reference decoder.  ElfNote, ElfMetadata, Elf: notes, the metadata note, the
      structures.  ElfWriter, ElfWriterSpec, ElfWriterFile, ElfFileIO, GzipIO, GzipSpec:
      writing to a file, compressed or not.  ElfReader, ElfReaderSpec, ElfReaderFile: reading.
      ElfTransformer, ElfTransformerSpec: from the kernel's core to the one that is uploaded.
      Ownership: which of the transformer's buffers are freed, when, and which are lost.
      Procfs: the memory of the dead process.  DeviceInv: what every output device keeps.
      Coredump, CoredumpSpec, CoredumpRun: the plugin.  CoreHandler, CoreHandlerSpec: the
      program the kernel starts, as a function and statement by statement with its signals.
    - ticosctl (src/ticosctl, src/util/ipc.c): TicosCtl, TicosCtlSpec.  Console: the one binary
      under two names (src/main.c), what the programs print (src/util/version.c,
      dump_settings.c, the usage texts, the log lines that take some work), the crashes of
      src/ticosctl/crash.c, and the sample application for statsd
      (src/meta-ticos-example/recipes-ticos/statsd-sampleapp-c/files/main.c).
    - The whole device: Device has the table with every plugin over one state, with the files
      shared between plugins and network; DeviceSpec follows it from the command line through
      every interleaving of the threads.  Frame: rules for what a computation leaves alone.
    - The tests (test/).  MemoryIO: the memory devices and hexadecimal strings they use.
      UnitTests: the tests of the encoder, notes, cores, rate limiter, device settings, boot
      ids and pstore, replayed on the model; those of the queue are in QueueFindings.

    Files named Witnesses, and the ends of some files of theorems, apply the theorems to concrete
    devices.

    ** How the parts interact

    Plugins call [ticosd_txdata], which writes to the queue; the main loop reads the queue's
    head, sends it through the network functions and completes the read.  The daemon's
    theorems use the queue and the network through classes, the files of those components
    prove the instances, so that a theorem about the daemon is one about queue.c and
    network.c.  Messages go from ticosctl and ticos-core-handler over the IPC thread to the
    plugins; the theorems about attributes, reboot reasons and core dumps follow them from
    the command line or the kernel to the request that reaches the server.

    ** What the theorems show

    - Queue: every operation is the one of a first-in first-out queue (refinement); traces and
      restarts within a lap; the walk through an arbitrary file ends.
    - Delivery: entries are sent in order and each until it is no longer to be retried
      (refinement); back-off; after an outage everything is delivered (liveness); files of
      core dumps are removed only once the server has them (safety).
    - Consent: without it nothing is sent or kept, for the whole device with all its plugins;
      and more closely for the reboot plugin and collectd.
    - Encodings read back: CBOR, notes, metadata, the ELF file, attributes, reboot reasons, the
      rate limiter's file, runtime settings, the PID in the core handler's message.
    - Bounds: no write outside an encoder's buffer; a core within the configured limits.
    - Invariants: a queue is well-formed after any calls on any file; every core file on the
      device has had its queue entry, over all interleavings of messages and sending.
    - Memory and other resources: no buffer of a core dump is freed twice, and which ones stay
      behind; the end of the daemon gives back everything its start took, once, but for what the
      findings name; a message about a core keeps no descriptor open, however it ends.
    - Errors: what each failure of a request or of a core becomes.
    - Threads and signals: in every interleaving the plugins are destroyed last, and the daemon
      stops when a signal tells it to; the core handler comes to its end and cleans up whenever
      signals arrive.
    - Termination: the reader on every input, the recovery on every file.
    - Behaviours that go wrong are theorems too; their names are in the list of findings.

    ** Not modelled

    What the calls of a plugin take and give back before they return, but for the core dump
    plugin's handler and the transformer.  Log lines that only print their arguments.  The
    compiler headers of include/ticos/core, whose macros stand for attributes.  The mocks of the
    test programs, and the tests that consist of calls of mocks.  Hardware and scheduling: memory
    is sequentially consistent, and a message or a turn of the loop is one step of its thread.
    The parts of the repository that are no programs:
    recipes, scripts and images. *)
From Stdlib Require Export ZArith Lia.
From stdpp Require Export base tactics list numbers option.

#[global] Open Scope Z_scope.

(** ** Outcomes of C code

    [Val a] is a normal result, [Fault] is undefined behaviour (an access outside
    an object, a call through a null pointer), [OutOfFuel] means the bound given to
    a loop was too small. *)
Inductive outcome (A : Type) : Type :=
| Val (a : A)
| Fault
| OutOfFuel.
Arguments Val {A} _.
Arguments Fault {A}.
Arguments OutOfFuel {A}.

Lemma Val_inj {A} (a b : A) : Val a = Val b -> a = b.
Proof. congruence. Qed.

Definition obind {A B} (m : outcome A) (f : A -> outcome B) : outcome B :=
  match m with
  | Val a => f a
  | Fault => Fault
  | OutOfFuel => OutOfFuel
  end.

Notation "'let!' x := m 'in' k" := (obind m (fun x => k))
  (at level 10, x pattern, m at level 200, k at level 200).

(** [defined m]: the computation ends, without undefined behaviour. *)
Definition defined {A} (m : outcome A) : Prop := exists a, m = Val a.

(** ** Machine integers *)
Definition u8 (z : Z) : Z := z mod 2 ^ 8.
Definition u16 (z : Z) : Z := z mod 2 ^ 16.
Definition u32 (z : Z) : Z := z mod 2 ^ 32.
Definition u64 (z : Z) : Z := z mod 2 ^ 64.

(** Two's complement reading of the low [w] bits. *)
Definition swrap (w z : Z) : Z := (z + 2 ^ (w - 1)) mod 2 ^ w - 2 ^ (w - 1).
Definition i32 (z : Z) : Z := swrap 32 z.
Definition i64 (z : Z) : Z := swrap 64 z.

Lemma u32_small n : 0 <= n < 2 ^ 32 -> u32 n = n.
Proof. intros. apply Z.mod_small. lia. Qed.

Lemma u64_small n : 0 <= n < 2 ^ 64 -> u64 n = n.
Proof. intros. apply Z.mod_small. lia. Qed.

Lemma u64_add a b : u64 (u64 a + b) = u64 (a + b).
Proof. unfold u64. now rewrite Zplus_mod_idemp_l. Qed.

(** ** Bytes and memory *)
Abbreviation zlen l := (Z.of_nat (length l)).

Definition is_byte (z : Z) : Prop := 0 <= z < 256.
Abbreviation bytes_ok l := (Forall is_byte l).

Fixpoint le_bytes (n : nat) (z : Z) : list Z :=
  match n with
  | O => []
  | S k => (z mod 256) :: le_bytes k (z / 256)
  end.

Fixpoint le_val (bs : list Z) : Z :=
  match bs with
  | [] => 0
  | b :: r => b + 256 * le_val r
  end.

Definition zeros (n : Z) : list Z := replicate (Z.to_nat n) 0.

(** [load b off len]: the [len] bytes of object [b] at byte offset [off]. *)
Definition load (b : list Z) (off len : Z) : outcome (list Z) :=
  if (0 <=? off) && (0 <=? len) && (off + len <=? zlen b)
  then Val (take (Z.to_nat len) (drop (Z.to_nat off) b))
  else Fault.

(** [store b off bs]: object [b] after writing [bs] at byte offset [off]. *)
Definition store (b : list Z) (off : Z) (bs : list Z) : outcome (list Z) :=
  if (0 <=? off) && (off + zlen bs <=? zlen b)
  then Val (take (Z.to_nat off) b ++ bs ++ drop (Z.to_nat off + length bs) b)
  else Fault.

Definition load8 (b : list Z) (off : Z) : outcome Z := let! bs := load b off 1 in Val (le_val bs).
Definition load32 (b : list Z) (off : Z) : outcome Z := let! bs := load b off 4 in Val (le_val bs).

(** [bytes_at b off bs]: the object [b] holds the bytes [bs] at offset [off]. *)
Definition bytes_at (b : list Z) (off : Z) (bs : list Z) : Prop :=
  0 <= off /\ off + zlen bs <= zlen b /\
  forall i : nat, (i < length bs)%nat -> b !! (Z.to_nat off + i)%nat = bs !! i.

Declare Scope mem_scope.
Notation "b '@' off '↦' bs" := (bytes_at b off bs) (at level 70, off at level 65, bs at level 65) : mem_scope.
#[global] Open Scope mem_scope.

(** ** Tactics *)

(** Split the hypotheses and case-analyse the tests of the code. *)
Ltac case_test :=
  match goal with
  | |- context [if ?b then _ else _] => destruct b eqn:?
  end.

(** Turn boolean comparisons of the context into propositions. *)
Ltac tests_to_props :=
  repeat match goal with
  | H : (_ && _) = true |- _ => apply andb_true_iff in H; destruct H
  | H : (_ || _) = false |- _ => apply orb_false_iff in H; destruct H
  | H : (_ && _) = false |- _ => apply andb_false_iff in H
  | H : (_ || _) = true |- _ => apply orb_true_iff in H
  | H : negb _ = true |- _ => apply negb_true_iff in H
  | H : negb _ = false |- _ => apply negb_false_iff in H
  | H : (_ <=? _) = true |- _ => apply Z.leb_le in H
  | H : (_ <=? _) = false |- _ => apply Z.leb_gt in H
  | H : (_ <? _) = true |- _ => apply Z.ltb_lt in H
  | H : (_ <? _) = false |- _ => apply Z.ltb_ge in H
  | H : (_ =? _) = true |- _ => apply Z.eqb_eq in H
  | H : (_ =? _) = false |- _ => apply Z.eqb_neq in H
  | H : (_ >=? _) = _ |- _ => rewrite Z.geb_leb in H
  | H : (_ >? _) = _ |- _ => rewrite Z.gtb_ltb in H
  end.

(** Decide a boolean test of the goal by arithmetic. *)
Ltac test_true t :=
  replace t with true by (symmetry; rewrite ?Z.geb_leb, ?Z.gtb_ltb, ?andb_true_iff, ?orb_true_iff,
    ?Z.leb_le, ?Z.ltb_lt, ?Z.eqb_eq; lia).
Ltac test_false t :=
  replace t with false by (symmetry; rewrite ?Z.geb_leb, ?Z.gtb_ltb;
    first [ rewrite Z.leb_gt; lia | rewrite Z.ltb_ge; lia | rewrite Z.eqb_neq; lia
          | apply not_true_iff_false; intros ?; tests_to_props; lia ]).

(** ** Little-endian words *)
Lemma le_bytes_length n z : length (le_bytes n z) = n.
Proof. revert z; induction n; intros; simpl; auto. Qed.

Lemma le_bytes_ok n z : bytes_ok (le_bytes n z).
Proof.
  revert z; induction n; intros z; simpl; constructor; auto.
  unfold is_byte. pose proof (Z.mod_pos_bound z 256). lia.
Qed.

Lemma le_val_le_bytes n z : le_val (le_bytes n z) = z mod 256 ^ Z.of_nat n.
Proof.
  revert z; induction n as [|n IH]; intros z; cbn [le_bytes le_val].
  - now rewrite Z.mod_1_r.
  - rewrite IH, Nat2Z.inj_succ, Z.pow_succ_r, Z.rem_mul_r by lia. lia.
Qed.

Lemma le_val_bound bs : bytes_ok bs -> 0 <= le_val bs < 256 ^ zlen bs.
Proof.
  induction 1 as [|b r Hb Hr IH]; cbn [le_val length]; [lia|].
  rewrite Nat2Z.inj_succ, Z.pow_succ_r by lia. unfold is_byte in Hb. lia.
Qed.

Lemma le_val_le32 z : 0 <= z < 2 ^ 32 -> le_val (le_bytes 4 z) = z.
Proof. intros. rewrite le_val_le_bytes. apply Z.mod_small. exact H. Qed.

Lemma zeros_length n : 0 <= n -> zlen (zeros n) = n.
Proof. intros. unfold zeros. rewrite length_replicate. lia. Qed.

Lemma zeros_ok n : bytes_ok (zeros n).
Proof. apply Forall_replicate. unfold is_byte. lia. Qed.

(** ** Memory *)
Lemma bytes_at_nil b off : 0 <= off <= zlen b -> bytes_at b off [].
Proof. intros; repeat split; simpl; try lia. Qed.

Lemma bytes_at_app b off x y :
  bytes_at b off (x ++ y) <-> bytes_at b off x /\ bytes_at b (off + zlen x) y.
Proof.
  unfold bytes_at. rewrite length_app. split.
  - intros (H0 & H1 & H). repeat split; try lia; intros i Hi.
    + rewrite H by lia. now rewrite lookup_app_l by lia.
    + specialize (H (length x + i)%nat). rewrite lookup_app_r in H by lia.
      rewrite Z2Nat.inj_add, Nat2Z.id by lia. rewrite <- Nat.add_assoc, H by lia.
      f_equal; lia.
  - intros ((H0 & H1 & H) & (H2 & H3 & H4)). repeat split; try lia; intros i Hi.
    destruct (decide (i < length x)%nat).
    + rewrite lookup_app_l by lia. auto.
    + rewrite lookup_app_r by lia. rewrite <- H4 by lia. f_equal. lia.
Qed.

Lemma bytes_at_cons b off x y :
  bytes_at b off (x :: y) <-> bytes_at b off [x] /\ bytes_at b (off + 1) y.
Proof. change (x :: y) with ([x] ++ y). apply bytes_at_app. Qed.

Lemma load_bytes_at b off bs len :
  bytes_at b off bs -> zlen bs = len -> load b off len = Val bs.
Proof.
  intros (H0 & H1 & H) <-. unfold load.
  test_true ((0 <=? off) && (0 <=? zlen bs) && (off + zlen bs <=? zlen b)).
  f_equal. apply list_eq; intros i. rewrite Nat2Z.id.
  destruct (decide (i < length bs)%nat).
  - rewrite lookup_take_lt, lookup_drop by lia. auto.
  - rewrite lookup_take_ge by lia. symmetry. apply lookup_ge_None. lia.
Qed.

Lemma load_val b off len bs :
  load b off len = Val bs -> bytes_at b off bs /\ zlen bs = len.
Proof.
  unfold load. case_test; [|discriminate]. tests_to_props. intros [= <-].
  assert (E : length (take (Z.to_nat len) (drop (Z.to_nat off) b)) = Z.to_nat len)
    by (rewrite length_take, length_drop; lia).
  split; [|lia]. repeat split; try lia. intros i Hi. rewrite lookup_take_lt, lookup_drop by lia. done.
Qed.

Lemma load_defined b off len : 0 <= off -> 0 <= len -> off + len <= zlen b ->
  exists bs, load b off len = Val bs /\ zlen bs = len /\ bytes_at b off bs.
Proof.
  intros. assert (E : exists bs, load b off len = Val bs).
  { unfold load. test_true ((0 <=? off) && (0 <=? len) && (off + len <=? zlen b)). eauto. }
  destruct E as [bs E]. exists bs. split; [done|]. apply load_val in E. tauto.
Qed.

Lemma load_fault b off len : zlen b < off + len -> load b off len = Fault.
Proof. intros. unfold load. case_test; [|done]. tests_to_props. lia. Qed.

Lemma load_after (pre rest : list Z) n : 0 <= n <= zlen rest ->
  load (pre ++ rest) (zlen pre) n = Val (take (Z.to_nat n) rest).
Proof.
    intros Hn. apply load_bytes_at; [|rewrite length_take; lia].
    assert (E : pre ++ rest = pre ++ take (Z.to_nat n) rest ++ drop (Z.to_nat n) rest) by now rewrite take_drop.
    rewrite E. repeat split; rewrite ?length_app; try lia. intros i Hi. rewrite Nat2Z.id.
    rewrite lookup_app_r by lia. rewrite lookup_app_l by lia. f_equal. lia.
Qed.

Lemma load8_bytes_at b off x : bytes_at b off [x] -> load8 b off = Val x.
Proof. intros. unfold load8. rewrite (load_bytes_at _ _ [x]) by done. cbn. f_equal. lia. Qed.

Lemma load32_bytes_at b off z :
  bytes_at b off (le_bytes 4 z) -> 0 <= z < 2 ^ 32 -> load32 b off = Val z.
Proof.
  intros. unfold load32. rewrite (load_bytes_at _ _ (le_bytes 4 z)) by done. cbn [obind].
  now rewrite le_val_le32.
Qed.

Lemma load32_defined b off : 0 <= off -> off + 4 <= zlen b -> exists z, load32 b off = Val z.
Proof.
  intros. destruct (load_defined b off 4) as (bs & E & _); try lia.
  unfold load32. rewrite E. eauto.
Qed.

Lemma store_spec b off bs :
  0 <= off -> off + zlen bs <= zlen b ->
  exists b', store b off bs = Val b' /\ zlen b' = zlen b /\ bytes_at b' off bs /\
    forall off' bs', bytes_at b off' bs' ->
      off' + zlen bs' <= off \/ off + zlen bs <= off' -> bytes_at b' off' bs'.
Proof.
  intros H0 H1. unfold store.
  test_true ((0 <=? off) && (off + zlen bs <=? zlen b)).
  eexists; split; [reflexivity|].
  assert (L : length (take (Z.to_nat off) b) = Z.to_nat off) by (rewrite length_take; lia).
  repeat split; try lia.
  - rewrite !length_app, length_drop. lia.
  - rewrite !length_app, length_drop. lia.
  - intros i Hi. rewrite lookup_app_r by lia. rewrite lookup_app_l by lia. f_equal. lia.
  - destruct H as (? & ? & ?); lia.
  - destruct H as (? & ? & ?). rewrite !length_app, length_drop. lia.
  - destruct H as (Ha & Hb & Hc). intros i Hi. rewrite <- Hc by done. destruct H2.
    + rewrite lookup_app_l by lia. now rewrite lookup_take_lt by lia.
    + rewrite lookup_app_r by lia. rewrite lookup_app_r by lia. rewrite lookup_drop. f_equal. lia.
Qed.

(** The bytes outside the written range keep their value. *)
Lemma store_load_disjoint b off bs b' off' len :
  store b off bs = Val b' -> off' + len <= off \/ off + zlen bs <= off' -> load b' off' len = load b off' len.
Proof.
  unfold store. case_test; [|discriminate]. tests_to_props. intros [= <-] D.
  destruct (store_spec b off bs) as (b'' & E & L & _ & F); try lia.
  unfold store in E. rewrite andb_true_intro in E by (split; apply Z.leb_le; lia).
  injection E as E. rewrite E.
  destruct (load b off' len) as [x| |] eqn:X.
  - apply load_val in X as [X1 X2]. apply load_bytes_at; [|done]. apply F; [done|]. lia.
  - revert X. unfold load. rewrite L. case_test; [discriminate|done].
  - revert X. unfold load. case_test; discriminate.
Qed.

(** ** Bits *)
Lemma lxor_bound n a b : 0 <= n -> 0 <= a < 2 ^ n -> 0 <= b < 2 ^ n -> 0 <= Z.lxor a b < 2 ^ n.
Proof.
  intros Hn Ha Hb. assert (H0 : 0 <= Z.lxor a b) by (apply Z.lxor_nonneg; lia).
  split; [done|]. destruct (Z.eq_dec (Z.lxor a b) 0) as [Ez|E]; [lia|].
  apply Z.log2_lt_pow2; [lia|].
  pose proof (Z.log2_lxor a b ltac:(lia) ltac:(lia)).
  assert (Z.log2 a < n \/ a = 0) by (destruct (Z.eq_dec a 0); [lia|]; left; apply Z.log2_lt_pow2; lia).
  assert (Z.log2 b < n \/ b = 0) by (destruct (Z.eq_dec b 0); [lia|]; left; apply Z.log2_lt_pow2; lia).
  pose proof (Z.log2_nonneg a). pose proof (Z.log2_nonneg b).
  destruct H1 as [?| ->]; destruct H2 as [?| ->]; try lia;
    rewrite ?Z.lxor_0_l, ?Z.lxor_0_r in *; try lia.
Qed.

Lemma lxor_byte a b : is_byte a -> is_byte b -> is_byte (Z.lxor a b).
Proof. intros. apply (lxor_bound 8); unfold is_byte in *; lia. Qed.

(** Decide a property of bytes by running through all of them. *)
Lemma forall_byte (P : Z -> bool) :
  forallb P (seqZ 0 256) = true -> forall z, is_byte z -> P z = true.
Proof.
  intros H z Hz. rewrite forallb_forall in H. apply H. apply list_elem_of_In, elem_of_seqZ.
  unfold is_byte in Hz. lia.
Qed.

Lemma bytes_ok_app x y : bytes_ok (x ++ y) <-> bytes_ok x /\ bytes_ok y.
Proof. apply Forall_app. Qed.

Lemma store_bytes_ok b off bs b' :
  store b off bs = Val b' -> bytes_ok b -> bytes_ok bs -> bytes_ok b' /\ zlen b' = zlen b.
Proof.
  unfold store. case_test; [|discriminate]. tests_to_props. intros [= <-] Hb Hbs. split.
  - repeat apply Forall_app_2; auto using Forall_take, Forall_drop.
  - rewrite !length_app, length_take, length_drop. lia.
Qed.

(** [bytes_ok] by computation. *)
Lemma bytes_ok_compute l : forallb (fun z => (0 <=? z) && (z <? 256)) l = true -> bytes_ok l.
Proof.
  rewrite forallb_forall, Forall_forall. intros H z Hz. apply H in Hz.
  tests_to_props. split; assumption.
Qed.

(** [bytes_at] by computation. *)
Lemma bytes_at_compute b off bs : load b off (zlen bs) = Val bs -> bytes_at b off bs.
Proof. intros H. now apply load_val in H as [? _]. Qed.

(** ** Big-endian words *)
Fixpoint be_bytes (n : nat) (z : Z) : list Z :=
  match n with
  | O => []
  | S k => ((z / 256 ^ Z.of_nat k) mod 256) :: be_bytes k z
  end.

Fixpoint be_val (bs : list Z) : Z :=
  match bs with
  | [] => 0
  | b :: r => b * 256 ^ zlen r + be_val r
  end.

Lemma be_bytes_length n z : length (be_bytes n z) = n.
Proof. induction n; simpl; auto. Qed.

Lemma be_bytes_ok n z : bytes_ok (be_bytes n z).
Proof. induction n; simpl; constructor; auto. apply Z.mod_pos_bound. lia. Qed.

Lemma be_val_be_bytes n z : be_val (be_bytes n z) = z mod 256 ^ Z.of_nat n.
Proof.
  induction n as [|n IH]; cbn [be_bytes be_val]; [now rewrite Z.mod_1_r|].
  rewrite IH, be_bytes_length, Nat2Z.inj_succ, Z.pow_succ_r, (Z.mul_comm 256), Z.rem_mul_r by lia. lia.
Qed.

(** The bytes C code peels off with a shift and a mask. *)
Lemma shift_mask_byte z k : 0 <= k -> Z.land (Z.shiftr z k) 0xff = (z / 2 ^ k) mod 256.
Proof. intros. change 0xff with (Z.ones 8). now rewrite Z.land_ones, Z.shiftr_div_pow2 by lia. Qed.

(** ** Frames *)

(** A write changes no byte outside its range. *)
Definition unchanged_outside (b b' : list Z) (lo hi : Z) : Prop :=
  zlen b' = zlen b /\ forall off len, off + len <= lo \/ hi <= off -> load b' off len = load b off len.

Lemma unchanged_refl b lo hi : unchanged_outside b b lo hi.
Proof. done. Qed.

Lemma unchanged_trans b1 b2 b3 lo mid hi : unchanged_outside b1 b2 lo mid -> unchanged_outside b2 b3 mid hi ->
  lo <= mid <= hi -> unchanged_outside b1 b3 lo hi.
Proof.
  intros [L1 H1] [L2 H2] Hm. split; [lia|]. intros off len Ho. rewrite H2 by lia. apply H1. lia.
Qed.

Lemma unchanged_weaken b b' lo hi lo' hi' : unchanged_outside b b' lo hi -> lo' <= lo -> hi <= hi' ->
  unchanged_outside b b' lo' hi'.
Proof. intros [L H] ? ?. split; [done|]. intros. apply H. lia. Qed.

Lemma unchanged_bytes_at b b' lo hi off bs : unchanged_outside b b' lo hi ->
  off + zlen bs <= lo \/ hi <= off -> b @ off ↦ bs -> b' @ off ↦ bs.
Proof.
  intros [_ H] D A. apply bytes_at_compute. rewrite H by done. now apply load_bytes_at.
Qed.

Lemma store_unchanged b off bs b' : store b off bs = Val b' -> unchanged_outside b b' off (off + zlen bs).
Proof.
  intros S. split; [|intros off' len D; eapply store_load_disjoint; [done|lia]].
  revert S. unfold store. case_test; [|discriminate]. tests_to_props. intros [= <-].
  rewrite !length_app, length_take, length_drop. lia.
Qed.

Lemma bytes_at_all b bs : b @ 0 ↦ bs -> zlen bs = zlen b -> b = bs.
Proof.
  intros A E. apply load_bytes_at with (len := zlen bs) in A; [|done]. revert A. unfold load.
  case_test; [|discriminate]. intros [= <-]. rewrite drop_0. symmetry. apply take_ge. lia.
Qed.

(** Take a [Forall] over an explicit list apart. *)
Ltac forall_inv H := repeat (apply Forall_cons_1 in H; destruct H as [? H]); clear H.

(** ** Automation the components share *)

(** [lens]: the lengths of the pieces a buffer is made of. *)
#[export] Hint Rewrite @length_app @length_take @length_drop @length_replicate @length_insert le_bytes_length be_bytes_length
  Nat2Z.inj_add : lens.

Ltac lens := cbn [length]; autorewrite with lens; cbn [length]; lia.

(** [mem]: well-formed bytes and unchanged memory. *)
Create HintDb mem.
#[export] Hint Resolve le_bytes_ok be_bytes_ok zeros_ok unchanged_refl bytes_at_nil : mem.
#[export] Hint Constructors Forall : mem.
