(* ===== verification/Queue.v ===== *)
(** * The transmit queue (src/queue.c)

    The state [sTicosdQueue] as a record over a byte buffer and one definition per
    function of the file.  Indices into [buf] ([read_ptr], ...) count 32-bit words, as in
    the code; header fields and payloads are bytes.  Reading or writing outside [buf] is
    [Fault].  The mutex makes each operation one atomic step, so it has no state here;
    [msync] has no effect on the bytes a process sees. *)
From S2P Require Import Prelude.

Record sTicosdQueue := MkQueue {
  is_file_backed : bool;
  size : Z;
  buf : list Z;
  read_ptr : Z;
  write_ptr : Z;
  prev_ptr : Z;
  can_complete_read : bool }.

Definition set_buf (q : sTicosdQueue) b : sTicosdQueue :=
  MkQueue (is_file_backed q) (size q) b (read_ptr q) (write_ptr q) (prev_ptr q) (can_complete_read q).
Definition set_read_ptr (q : sTicosdQueue) r : sTicosdQueue :=
  MkQueue (is_file_backed q) (size q) (buf q) r (write_ptr q) (prev_ptr q) (can_complete_read q).
Definition set_write_ptr (q : sTicosdQueue) w : sTicosdQueue :=
  MkQueue (is_file_backed q) (size q) (buf q) (read_ptr q) w (prev_ptr q) (can_complete_read q).
Definition set_prev_ptr (q : sTicosdQueue) p : sTicosdQueue :=
  MkQueue (is_file_backed q) (size q) (buf q) (read_ptr q) (write_ptr q) p (can_complete_read q).
Definition set_can_complete_read (q : sTicosdQueue) c : sTicosdQueue :=
  MkQueue (is_file_backed q) (size q) (buf q) (read_ptr q) (write_ptr q) (prev_ptr q) c.

(** sizeof(sTicosQueueMsgHeader) is 12; in words: *)
Definition HEADER_LEN : Z := 3.
Definition HEADER_MAGIC_NUMBER : Z := 0xa5.
Definition HEADER_VERSION_NUMBER : Z := 0x01.
Definition HEADER_FLAGS_FLAG_READ_MASK : Z := Z.shiftl 1 0.
Definition END_POINTER : Z := 0x5aa55aa5.
Definition QUEUE_SIZE_MIN : Z := 12 + 4.
Definition QUEUE_SIZE_MAX : Z := 1024 * 1024 * 1024.
Definition QUEUE_SIZE_ALIGNMENT : Z := 4.

(** ** Checksum *)

(** One turn of the inner loop: [if (crc & 1) crc ^= 0x91; crc >>= 1]. *)
Definition crc8_bit (crc : Z) : Z :=
  Z.shiftr (if Z.land crc 1 =? 0 then crc else Z.lxor crc 0x91) 1.

(** One turn of the outer loop: xor the byte, then eight turns of the inner one. *)
Definition crc8_byte (crc b : Z) : Z := Nat.iter 8 crc8_bit (Z.lxor crc b).

Definition prv_queue_crc8 (data : list Z) : Z := foldl crc8_byte 0 data.

(** ** Headers *)

(** uint32 arithmetic: [size_bytes + 3] wraps before the division. *)
Definition prv_bytes_to_words_round_up (size_bytes : Z) : Z := u32 (size_bytes + 3) / 4.

(** The packed header at word [ptr] of the buffer, field by field. *)
Definition header_magic (b : list Z) (ptr : Z) : outcome Z := load8 b (4 * ptr).
Definition header_crc (b : list Z) (ptr : Z) : outcome Z := load8 b (4 * ptr + 2).
Definition header_flags (b : list Z) (ptr : Z) : outcome Z := load8 b (4 * ptr + 3).
Definition header_prev_header (b : list Z) (ptr : Z) : outcome Z := load32 b (4 * ptr + 4).
Definition header_payload_size_bytes (b : list Z) (ptr : Z) : outcome Z := load32 b (4 * ptr + 8).

(** The 12 bytes of a header structure. *)
Definition header_bytes (crc flags prev payload_size : Z) : list Z :=
  [HEADER_MAGIC_NUMBER; HEADER_VERSION_NUMBER; crc; flags] ++ le_bytes 4 prev ++ le_bytes 4 payload_size.

Definition prv_get_next_message (q : sTicosdQueue) (ptr : Z) : outcome Z :=
  let! psize := header_payload_size_bytes (buf q) ptr in
  let next_ptr := u32 (ptr + HEADER_LEN + prv_bytes_to_words_round_up psize) in
  if next_ptr >=? size q / 4 then Val 0
  else
    let! w := load32 (buf q) (4 * next_ptr) in
    if w =? END_POINTER then Val 0 else Val next_ptr.

(** The first conjunct of the C test, [header >= buf], always holds: [ptr] is unsigned. *)
Definition prv_is_msg_in_bounds (q : sTicosdQueue) (ptr : Z) : outcome bool :=
  let! psize := header_payload_size_bytes (buf q) ptr in
  Val ((4 * ptr >=? 0) && (4 * ptr + 12 + psize <? size q)).

Definition prv_is_msg_read (q : sTicosdQueue) (ptr : Z) : outcome bool :=
  let! flags := header_flags (buf q) ptr in
  Val (negb (Z.land flags HEADER_FLAGS_FLAG_READ_MASK =? 0)).

Definition prv_is_msg_valid (q : sTicosdQueue) (ptr : Z) : outcome bool :=
  let! in_bounds := prv_is_msg_in_bounds q ptr in
  if negb in_bounds then Val false
  else
    let! magic := header_magic (buf q) ptr in
    if negb (magic =? HEADER_MAGIC_NUMBER) then Val false
    else
      let! psize := header_payload_size_bytes (buf q) ptr in
      let! payload := load (buf q) (4 * ptr + 12) psize in
      let! crc := header_crc (buf q) ptr in
      Val (prv_queue_crc8 payload =? crc).

(** ** Recovery of the indices at start-up *)

(** The forward loop; its locals are [tmp], [read_ptr], [prev_ptr] and [last_read].
    Returns (read_ptr, write_ptr, prev_ptr). *)
Fixpoint find_forward (fuel : nat) (q : sTicosdQueue) (tmp read_ptr prev_ptr : Z) (last_read : bool)
    : outcome (Z * Z * Z) :=
  match fuel with
  | O => OutOfFuel
  | S fuel =>
      let! valid := prv_is_msg_valid q tmp in
      if negb valid then Val (if last_read then tmp else read_ptr, tmp, prev_ptr)
      else
        let! is_msg_read := prv_is_msg_read q tmp in
        if is_msg_read && negb last_read then Val (read_ptr, tmp, prev_ptr)
        else
          let read_ptr := if negb is_msg_read && last_read then tmp else read_ptr in
          let last_read := is_msg_read in
          let prev_ptr := tmp in
          let! tmp := prv_get_next_message q tmp in
          if tmp =? 0 then Val (read_ptr, tmp, prev_ptr)
          else find_forward fuel q tmp read_ptr prev_ptr last_read
  end.

(** The backward [do ... while (read_ptr > 0)] loop. *)
Fixpoint find_backward (fuel : nat) (q : sTicosdQueue) (read_ptr : Z) : outcome Z :=
  match fuel with
  | O => OutOfFuel
  | S fuel =>
      let! prev := header_prev_header (buf q) read_ptr in
      if read_ptr =? prev then Val read_ptr
      else
        let! valid := prv_is_msg_valid q prev in
        if negb valid then Val read_ptr
        else
          let! is_msg_read := prv_is_msg_read q prev in
          if is_msg_read then Val read_ptr
          else if prev >? 0 then find_backward fuel q prev else Val prev
  end.

(** Enough for both loops to visit every word of the buffer once. *)
Definition queue_fuel (q : sTicosdQueue) : nat := S (Z.to_nat (size q / 4)).

Definition prv_queue_find_read_write_ptr (q : sTicosdQueue) : outcome sTicosdQueue :=
  let! (r, w, p) := find_forward (queue_fuel q) q 0 0 0 true in
  let! r := (if (r =? 0) && negb (w =? 0) then find_backward (queue_fuel q) q r else Val r) in
  Val (set_prev_ptr (set_write_ptr (set_read_ptr q r) w) p).

(** ** Construction *)

(** The aligned size, and whether it is accepted ([%] and [/] on a C int truncate). *)
Definition prv_check_queue_size (queue_size : Z) : Z * bool :=
  let queue_size :=
    if negb (Z.rem queue_size QUEUE_SIZE_ALIGNMENT =? 0)
    then Z.quot queue_size QUEUE_SIZE_ALIGNMENT * QUEUE_SIZE_ALIGNMENT else queue_size in
  if queue_size <? QUEUE_SIZE_MIN then (queue_size, false)
  else if queue_size >? QUEUE_SIZE_MAX then (queue_size, false)
  else (queue_size, true).

(** What the operating system answers during [ticosd_queue_init]. *)
Record init_env := MkInitEnv {
  mutex_init_ok : bool;
  queue_file : bool;                   (** ticosd_generate_rw_filename gave a name *)
  open_contents : option (list Z);     (** the file's bytes once opened, [None] if open fails *)
  ftruncate_ok : bool;
  mmap_ok : bool;
  calloc_ok : bool }.

(** [ftruncate]: cut or extend with zero bytes. *)
Definition ftruncate_bytes (size : Z) (contents : list Z) : list Z :=
  resize (Z.to_nat size) 0 contents.

(** The mapped file, or [None] for the in-memory fallback ([fd == -1]). *)
Definition map_queue_file (env : init_env) (size : Z) : option (list Z) :=
  if queue_file env then
    match open_contents env with
    | Some contents =>
        if ftruncate_ok env then
          if mmap_ok env then Some (ftruncate_bytes size contents) else None
        else None
    | None => None
    end
  else None.

(** [None] is the NULL handle. *)
Definition ticosd_queue_init (env : init_env) (size : Z) : outcome (option sTicosdQueue) :=
  if negb (mutex_init_ok env) then Val None
  else
    let '(size, ok) := prv_check_queue_size size in
    let size := if ok then size else 1024 * 1024 in
    match map_queue_file env size with
    | Some b => let! q := prv_queue_find_read_write_ptr (MkQueue true size b 0 0 0 false) in Val (Some q)
    | None =>
        if negb (calloc_ok env) then Fault  (* buf == NULL is dereferenced *)
        else let! q := prv_queue_find_read_write_ptr (MkQueue false size (zeros size) 0 0 0 false) in Val (Some q)
    end.

(** ** Operations *)

Definition ticosd_queue_reset (q : sTicosdQueue) : outcome sTicosdQueue :=
  let q := set_prev_ptr (set_write_ptr (set_read_ptr q 0) 0) 0 in
  let! b := store (buf q) 0 (zeros (HEADER_LEN * 4)) in
  Val (set_buf q b).

(** [malloc_ok] is the allocator's answer.  The result is the payload copy, [None] for NULL. *)
Definition ticosd_queue_read_head (malloc_ok : bool) (q : sTicosdQueue)
    : outcome (sTicosdQueue * option (list Z)) :=
  let nothing_to_read :=
    if read_ptr q =? write_ptr q then
      let! valid := prv_is_msg_valid q (read_ptr q) in
      if negb valid then Val true else prv_is_msg_read q (read_ptr q)
    else Val false in
  let! nothing := nothing_to_read in
  if (nothing : bool) then Val (q, None)
  else
    let! psize := header_payload_size_bytes (buf q) (read_ptr q) in
    if negb malloc_ok then Val (q, None)
    else
      let! payload := load (buf q) (4 * read_ptr q + 12) psize in
      Val (set_can_complete_read q true, Some payload).

Definition ticosd_queue_complete_read (q : sTicosdQueue) : outcome (sTicosdQueue * bool) :=
  if negb (can_complete_read q) then Val (q, false)
  else
    let! flags := header_flags (buf q) (read_ptr q) in
    let! b := store (buf q) (4 * read_ptr q + 3) [Z.lor flags HEADER_FLAGS_FLAG_READ_MASK] in
    let q := set_buf q b in
    let! r := prv_get_next_message q (read_ptr q) in
    Val (set_can_complete_read (set_read_ptr q r) false, true).

(** The loop that moves the read index past the bytes about to be overwritten. *)
Fixpoint skip_overwritten (fuel : nat) (q : sTicosdQueue) (read_ptr write_end : Z) : outcome Z :=
  match fuel with
  | O => OutOfFuel
  | S fuel =>
      let! r := prv_get_next_message q read_ptr in
      if (r >=? write_end) || (r =? 0) then Val r
      else skip_overwritten fuel q r write_end
  end.

(** A message too big for the rest of the buffer: end marker, then back to the start. *)
Definition write_wrap (q : sTicosdQueue) (message_size_words : Z) : outcome sTicosdQueue :=
  if u32 (write_ptr q + message_size_words) >? size q / 4 then
    let! b := store (buf q) (4 * write_ptr q) (le_bytes 4 END_POINTER) in
    Val (set_write_ptr (set_buf q b) 0)
  else Val q.

(** The read index follows the write index, or is moved past what gets overwritten. *)
Definition write_move_read_ptr (q : sTicosdQueue) (read_ptr_equals_write_ptr : bool) (write_end : Z)
    : outcome sTicosdQueue :=
  if read_ptr_equals_write_ptr then Val (set_read_ptr q (write_ptr q))
  else if (read_ptr q >? write_ptr q) && (read_ptr q <? write_end) then
    let! r := skip_overwritten (queue_fuel q) q (read_ptr q) write_end in
    Val (set_can_complete_read (set_read_ptr q r) false)
  else Val q.

(** Header, payload and zeroed padding at the write index. *)
Definition write_message (q : sTicosdQueue) (data : list Z) (payload_size_bytes : Z) : outcome (list Z) :=
  let! data := load data 0 payload_size_bytes in
  let! b := store (buf q) (4 * write_ptr q)
              (header_bytes (prv_queue_crc8 data) 0 (prev_ptr q) payload_size_bytes) in
  let! b := store b (4 * write_ptr q + 12) data in
  let padding_size_bytes := u64 (prv_bytes_to_words_round_up payload_size_bytes * 4 - payload_size_bytes) in
  if padding_size_bytes >? 0
  then store b (4 * write_ptr q + 12 + payload_size_bytes) (zeros padding_size_bytes)
  else Val b.

(** [payload] is the caller's buffer, [None] for NULL. *)
Definition ticosd_queue_write (q : sTicosdQueue) (payload : option (list Z)) (payload_size_bytes : Z)
    : outcome (sTicosdQueue * bool) :=
  match payload with
  | None => Val (q, false)
  | Some data =>
    if payload_size_bytes =? 0 then Val (q, false)
    else
      let payload_padded_size_words := prv_bytes_to_words_round_up payload_size_bytes in
      let message_size_words := u32 (HEADER_LEN + payload_padded_size_words) in
      if message_size_words >? size q / 4 then Val (q, false)
      else
        let read_ptr_equals_write_ptr := read_ptr q =? write_ptr q in
        let! q := write_wrap q message_size_words in
        let write_end := u32 (write_ptr q + message_size_words) in
        let next_write_ptr := write_end mod (size q / 4) in
        let! q := write_move_read_ptr q read_ptr_equals_write_ptr write_end in
        let! b := write_message q data payload_size_bytes in
        Val (set_write_ptr (set_prev_ptr (set_buf q b) (write_ptr q)) next_write_ptr, true)
  end.
