(* ===== verification/QueueCrc.v ===== *)
(** * The queue's payload checksum

    [prv_queue_crc8] xors its polynomial before the shift, so bit 7 is never set in a
    result: it is a 7-bit CRC.  It still detects the corruption of a single byte, unless
    the error pattern is the polynomial 0x91 itself. *)
From S2P Require Import Prelude Queue.

Lemma crc8_iter_small : forallb (fun x => Nat.iter 8 crc8_bit x <? 128) (seqZ 0 256) = true.
Proof. vm_compute. reflexivity. Qed.

Lemma crc8_iter_nonneg : forallb (fun x => 0 <=? Nat.iter 8 crc8_bit x) (seqZ 0 256) = true.
Proof. vm_compute. reflexivity. Qed.

(** Eight turns of the loop identify exactly [x] and [x ^ 0x91]. *)
Lemma crc8_iter_kernel :
  forallb (fun x => forallb (fun y => Bool.eqb (Nat.iter 8 crc8_bit x =? Nat.iter 8 crc8_bit y)
    ((x =? y) || (Z.lxor x y =? 0x91))) (seqZ 0 256)) (seqZ 0 256) = true.
Proof. vm_compute. reflexivity. Qed.

Lemma crc8_iter_eq x y : is_byte x -> is_byte y ->
  Nat.iter 8 crc8_bit x = Nat.iter 8 crc8_bit y <-> x = y \/ Z.lxor x y = 0x91.
Proof.
  intros Hx Hy. pose proof (forall_byte _ (forall_byte _ crc8_iter_kernel x Hx) y Hy) as E.
  apply eqb_prop in E. rewrite <- Z.eqb_eq, E, orb_true_iff, !Z.eqb_eq. done.
Qed.

Lemma crc8_byte_range s b : is_byte s -> is_byte b -> 0 <= crc8_byte s b < 128.
Proof.
  intros Hs Hb. pose proof (lxor_byte s b Hs Hb) as Hx. split.
  - apply Z.leb_le. apply (forall_byte (fun x => 0 <=? Nat.iter 8 crc8_bit x)); auto using crc8_iter_nonneg.
  - apply Z.ltb_lt. apply (forall_byte (fun x => Nat.iter 8 crc8_bit x <? 128)); auto using crc8_iter_small.
Qed.

Lemma crc8_foldl_range bs s : bytes_ok bs -> 0 <= s < 128 -> 0 <= foldl crc8_byte s bs < 128.
Proof.
  intros H; revert s. induction H as [|b bs Hb Hbs IH]; intros s Hs; cbn [foldl]; [done|].
  apply IH. apply crc8_byte_range; unfold is_byte in *; lia.
Qed.

Lemma crc8_range bs : bytes_ok bs -> 0 <= prv_queue_crc8 bs < 128.
Proof. intros. apply crc8_foldl_range; [done|lia]. Qed.

Lemma lxor_cancel_r a b c : Z.lxor (Z.lxor a c) (Z.lxor b c) = Z.lxor a b.
Proof.
  apply Z.bits_inj'; intros n _. rewrite !Z.lxor_spec.
  destruct (Z.testbit a n), (Z.testbit b n), (Z.testbit c n); done.
Qed.

Lemma crc8_byte_inj_state s s' b : 0 <= s < 128 -> 0 <= s' < 128 -> is_byte b ->
  crc8_byte s b = crc8_byte s' b -> s = s'.
Proof.
  intros Hs Hs' Hb E. unfold crc8_byte in E.
  apply crc8_iter_eq in E; [|apply lxor_byte; unfold is_byte in *; lia..].
  pose proof (lxor_bound 7 s s' ltac:(lia) Hs Hs') as Hx.
  assert (E' : Z.lxor s s' = 0).
  { rewrite <- (lxor_cancel_r s s' b). destruct E as [->|E]; [apply Z.lxor_nilpotent|].
    rewrite lxor_cancel_r in E. lia. }
  now apply Z.lxor_eq.
Qed.

Lemma crc8_foldl_inj_state bs s s' : bytes_ok bs -> 0 <= s < 128 -> 0 <= s' < 128 ->
  foldl crc8_byte s bs = foldl crc8_byte s' bs -> s = s'.
Proof.
  intros H; revert s s'. induction H as [|b bs Hb Hbs IH]; intros s s' Hs Hs'; cbn [foldl]; [done|].
  intros E. apply IH in E; [|apply crc8_byte_range; unfold is_byte in *; lia..].
  eapply crc8_byte_inj_state; eauto.
Qed.

(** two payloads that differ in one byte have the same checksum exactly when the
    xor of the two bytes is the polynomial 0x91; in particular every single-bit
    error changes the checksum, so [prv_is_msg_valid] rejects it. *)
Theorem crc8_single_byte pre post b b' :
  bytes_ok pre -> bytes_ok post -> is_byte b -> is_byte b' ->
  prv_queue_crc8 (pre ++ b :: post) = prv_queue_crc8 (pre ++ b' :: post) <->
  b = b' \/ Z.lxor b b' = 0x91.
Proof.
  intros Hpre Hpost Hb Hb'. unfold prv_queue_crc8. rewrite !foldl_app. cbn [foldl].
  pose proof (crc8_foldl_range pre 0 Hpre ltac:(lia)) as Hs.
  set (s := foldl crc8_byte 0 pre) in *.
  assert (E : crc8_byte s b = crc8_byte s b' <-> b = b' \/ Z.lxor b b' = 0x91).
  { unfold crc8_byte. rewrite !(Z.lxor_comm s), crc8_iter_eq, lxor_cancel_r
      by (apply lxor_byte; unfold is_byte in *; lia).
    split; (intros [E|E]; [left|now right]); [|now subst].
    apply (f_equal (fun x => Z.lxor x s)) in E.
    now rewrite !Z.lxor_assoc, !Z.lxor_nilpotent, !Z.lxor_0_r in E. }
  rewrite <- E. split; [|now intros ->].
  apply crc8_foldl_inj_state; [done|apply crc8_byte_range; unfold is_byte in *; lia..].
Qed.

(** ** The checksum as the remainder of a division

    Bit strings are polynomials over the field with two elements, here with the highest power in
    bit 0.  The checksum of a payload is its remainder by x^7 + x^3 + 1, which is 0x91. *)

Definition generator : Z := 0x91.

(** The product with the polynomial of the bits [q], lowest bit first. *)
Fixpoint clmul (q : list bool) (g : Z) : Z :=
  match q with
  | [] => 0
  | b :: q => Z.lxor (if b then g else 0) (Z.shiftl (clmul q g) 1)
  end.

(** [r] is what is left of [m], of which [length q] bits have been divided off. *)
Definition remainder (m : Z) (q : list bool) (r : Z) : Prop :=
  Z.lxor m (clmul q generator) = Z.shiftl r (Z.of_nat (length q)).

Lemma clmul_app q1 q2 g : clmul (q1 ++ q2) g = Z.lxor (clmul q1 g) (Z.shiftl (clmul q2 g) (Z.of_nat (length q1))).
Proof.
  induction q1 as [|b q1 IH]; cbn [app clmul length].
  - now rewrite Z.lxor_0_l, Z.shiftl_0_r.
  - rewrite IH, Z.shiftl_lxor, Z.shiftl_shiftl, Z.lxor_assoc by lia. do 3 f_equal. lia.
Qed.

(** Dividing goes on with the next bits of the dividend. *)
Lemma remainder_app m1 m2 q1 q2 r1 r : remainder m1 q1 r1 -> remainder (Z.lxor r1 m2) q2 r ->
  remainder (Z.lxor m1 (Z.shiftl m2 (Z.of_nat (length q1)))) (q1 ++ q2) r.
Proof.
  unfold remainder. intros E1 E2. rewrite clmul_app, length_app, Nat2Z.inj_add, Z.add_comm, <- Z.shiftl_shiftl, <- E2 by lia.
  rewrite !Z.shiftl_lxor, <- E1. apply Z.bits_inj'. intros n _. rewrite !Z.lxor_spec.
  repeat match goal with |- context [Z.testbit ?a n] => destruct (Z.testbit a n) end; reflexivity.
Qed.

Lemma shiftl_even r n : (0 < n)%nat -> Z.testbit (Z.shiftl r (Z.of_nat n)) 0 = false.
Proof. intros Hn. now rewrite Z.shiftl_spec_low by lia. Qed.

Lemma remainder_unique q : forall m q' r r', length q' = length q -> remainder m q r -> remainder m q' r' -> r = r'.
Proof.
  unfold remainder. induction q as [|b q IH]; intros m q' r r' Hl E E'; destruct q' as [|b' q']; try done.
  - cbn [clmul length Z.of_nat] in *. rewrite Z.shiftl_0_r in *. congruence.
  - assert (B : forall b q r, Z.lxor m (clmul (b :: q) generator) = Z.shiftl r (Z.of_nat (length (b :: q))) -> Z.testbit m 0 = b).
    { clear. intros b q r E. apply (f_equal (fun x => Z.testbit x 0)) in E. rewrite shiftl_even in E by (cbn; lia).
      cbn [clmul] in E. rewrite !Z.lxor_spec, (Z.shiftl_spec_low _ 1 0) in E by lia. destruct b, (Z.testbit m 0); done. }
    pose proof (B _ _ _ E) as Hb. pose proof (B _ _ _ E') as Hb'. rewrite Hb' in Hb. subst b'.
    assert (D : forall q r, Z.lxor m (clmul (b :: q) generator) = Z.shiftl r (Z.of_nat (length (b :: q))) ->
      Z.lxor (Z.shiftr (Z.lxor m (if b then generator else 0)) 1) (clmul q generator) = Z.shiftl r (Z.of_nat (length q))).
    { clear. intros q r E. cbn [clmul length] in E. rewrite <- Z.lxor_assoc in E. apply (f_equal (fun x => Z.shiftr x 1)) in E.
      rewrite Z.shiftr_lxor, (Z.shiftr_shiftl_l (clmul _ _)), Z.shiftr_shiftl_l in E by lia.
      rewrite Z.shiftl_0_r in E. rewrite E. f_equal. lia. }
    injection Hl as Hl. exact (IH _ q' r r' Hl (D _ _ E) (D _ _ E')).
Qed.

(** ** One byte *)
Fixpoint quotient_bits (n : nat) (x : Z) : list bool :=
  match n with O => [] | Datatypes.S n => Z.odd x :: quotient_bits n (crc8_bit x) end.

Lemma byte_remainder : forallb (fun x => Z.lxor x (clmul (quotient_bits 8 x) generator) =? Z.shiftl (Nat.iter 8 crc8_bit x) 8) (seqZ 0 256) = true.
Proof. vm_compute. reflexivity. Qed.

Lemma crc8_byte_remainder s b : is_byte s -> is_byte b -> remainder (Z.lxor s b) (quotient_bits 8 (Z.lxor s b)) (crc8_byte s b).
Proof. intros Hs Hb. apply Z.eqb_eq. exact (forall_byte _ byte_remainder (Z.lxor s b) (lxor_byte s b Hs Hb)). Qed.

(** Bytes are appended above. *)
Lemma le_val_snoc p b : bytes_ok p -> is_byte b -> le_val (p ++ [b]) = Z.lxor (le_val p) (Z.shiftl b (8 * zlen p)).
Proof.
  intros Hp Hb. rewrite <- Z.add_nocarry_lxor.
  - rewrite Z.shiftl_mul_pow2 by lia. clear Hp. induction p as [|a p IH]; cbn [app le_val length]; [lia|].
    rewrite IH. replace (8 * Z.of_nat (Datatypes.S (length p))) with (8 + 8 * zlen p) by lia. rewrite Z.pow_add_r by lia. lia.
  - apply Z.bits_inj'. intros n Hn. rewrite Z.land_spec, Z.bits_0. destruct (Z.ltb_spec n (8 * zlen p)) as [Hlt|Hge].
    + rewrite (Z.shiftl_spec_low _ _ n) by lia. apply andb_false_r.
    + pose proof (le_val_bound p Hp) as Hv. replace (256 ^ zlen p) with (2 ^ (8 * zlen p)) in Hv by (rewrite Z.pow_mul_r by lia; reflexivity).
      assert (Z.testbit (le_val p) n = false) as ->; [|done]. destruct (Z.eqb_spec (le_val p) 0) as [->|]; [apply Z.bits_0|].
      apply Z.bits_above_log2; [lia|]. apply Z.log2_lt_pow2; [lia|]. eapply Z.lt_le_trans; [apply Hv|]. now apply Z.pow_le_mono_r.
Qed.

Lemma payload_remainder p : bytes_ok p -> exists q, length q = (8 * length p)%nat /\ remainder (le_val p) q (prv_queue_crc8 p).
Proof.
  induction p as [|b p IH] using rev_ind; intros Hp; [now exists []|]. apply bytes_ok_app in Hp as [Hp Hb].
  apply Forall_cons_1 in Hb as [Hb _]. destruct (IH Hp) as (q & Hl & R). pose proof (crc8_range p Hp) as Hr.
  unfold prv_queue_crc8 in *. rewrite foldl_app. cbn [foldl]. set (s := foldl crc8_byte 0 p) in *.
  exists (q ++ quotient_bits 8 (Z.lxor s b)). split; [rewrite !length_app, Hl; cbn [length quotient_bits]; lia|].
  rewrite le_val_snoc by done. replace (8 * zlen p) with (Z.of_nat (length q)) by lia.
  apply (remainder_app _ _ _ _ _ _ R). apply crc8_byte_remainder; unfold is_byte in *; lia.
Qed.

(** C39: the checksum of a payload is the one value that the division of the payload's bits,
    lowest bit of the first byte first, by x^7 + x^3 + 1 leaves. *)
Theorem crc_is_remainder p r : bytes_ok p ->
  prv_queue_crc8 p = r <-> exists q, length q = (8 * length p)%nat /\ remainder (le_val p) q r.
Proof.
  intros Hp. destruct (payload_remainder p Hp) as (q & Hl & R). split.
  - intros <-. eauto.
  - intros (q' & Hl' & R'). exact (remainder_unique q _ q' _ _ ltac:(congruence) R R').
Qed.

(** "1" is 0x31. *)
Lemma crc_is_remainder_witness :
  prv_queue_crc8 [0x31] = 0x5A <-> exists q, length q = (8 * length [0x31])%nat /\ remainder (le_val [0x31]) q 0x5A.
Proof. apply (crc_is_remainder [0x31] 0x5A). now repeat constructor. Defined.
