(* ===== verification/QueueSpec.v ===== *)
(** * What the queue buffer means

    The byte format of one message ([encode_msg]), the payloads a buffer holds between
    its indices ([layout], [repr]) and the lemmas that connect the accessors of
    [Queue] with them. *)
From S2P Require Import Prelude Queue.

Definition payload := list Z.

(** Words taken by a message: header and padded payload. *)
Definition msg_words (m : payload) : Z := HEADER_LEN + (zlen m + 3) / 4.

(** A payload the queue accepts; one that fits the largest queue is below 2^30 bytes. *)
Definition payload_ok (m : payload) : Prop := bytes_ok m /\ 0 < zlen m < 2 ^ 30.

(** The bytes of a message, as documented above [sTicosQueueMsgHeader]. *)
Definition encode_msg (prev flags : Z) (m : payload) : list Z :=
  header_bytes (prv_queue_crc8 m) flags prev (zlen m) ++ m ++ zeros ((zlen m + 3) / 4 * 4 - zlen m).

(** Message [m] with flag byte [flags] is stored at word [p]. *)
Definition msg_at (b : list Z) (flags p : Z) (m : payload) : Prop :=
  payload_ok m /\ exists prev, 0 <= prev < 2 ^ 32 /\ b @ (4 * p) ↦ encode_msg prev flags m.

(** Messages [ms], all with flag byte [flags], lie back to back from word [p] to word [e]. *)
Fixpoint seg (b : list Z) (flags p : Z) (ms : list payload) (e : Z) : Prop :=
  match ms with
  | [] => p = e
  | m :: ms => msg_at b flags p m /\ seg b flags (p + msg_words m) ms e
  end.

Definition end_marker_at (b : list Z) (p : Z) : Prop := b @ (4 * p) ↦ le_bytes 4 END_POINTER.

(** A chain of messages may be left at word [e]: end of the buffer or end marker. *)
Definition wrap_at (b : list Z) (N e : Z) : Prop := e = N \/ (e < N /\ end_marker_at b e).

(** The unread payloads, oldest first, of a buffer of [N] words with read index [r] and
    write index [w]. *)
Inductive layout (b : list Z) (N r w : Z) : list payload -> Prop :=
| layout_linear ms :
    0 <= r -> r <= w -> w < N -> seg b 0 r ms w -> layout b N r w ms
| layout_wrapped ms1 ms2 e :
    0 <= w -> w <= r -> r < N -> ms1 <> [] ->
    seg b 0 r ms1 e -> wrap_at b N e -> seg b 0 0 ms2 w ->
    layout b N r w (ms1 ++ ms2).

(** The sizes [ticosd_queue_init] establishes. *)
Definition queue_ok (q : sTicosdQueue) : Prop :=
  QUEUE_SIZE_MIN <= size q <= QUEUE_SIZE_MAX /\ size q mod 4 = 0 /\
  zlen (buf q) = size q /\ bytes_ok (buf q) /\ 0 <= prev_ptr q < size q / 4.

(** The queue [q] holds exactly the unread payloads [ms], oldest first. *)
Definition repr (q : sTicosdQueue) (ms : list payload) : Prop :=
  queue_ok q /\ layout (buf q) (size q / 4) (read_ptr q) (write_ptr q) ms.

(** Nothing that looks like an unread message at word [p]. *)
Definition quiet (q : sTicosdQueue) (p : Z) : Prop :=
  prv_is_msg_valid q p = Val false \/
  (prv_is_msg_valid q p = Val true /\ prv_is_msg_read q p = Val true).

(** There is room for [m] without touching an unread message: at the end of the buffer,
    at its start after a wrap, or between the two indices. *)
Definition room (q : sTicosdQueue) (ms : list payload) (m : payload) : Prop :=
  let N := size q / 4 in
  match ms with
  | [] => msg_words m <= N
  | _ =>
      if read_ptr q <? write_ptr q
      then write_ptr q + msg_words m <= N \/ msg_words m <= read_ptr q
      else write_ptr q + msg_words m <= read_ptr q
  end.

(** ** Arithmetic of sizes *)
Lemma queue_words q : queue_ok q ->
  zlen (buf q) = 4 * (size q / 4) /\ size q = 4 * (size q / 4) /\ 4 <= size q / 4 <= 2 ^ 28.
Proof.
  intros (Hs & Hm & Hl & _). unfold QUEUE_SIZE_MIN, QUEUE_SIZE_MAX in Hs.
  pose proof (Z.div_mod (size q) 4). lia.
Qed.

Lemma words_round_up n : 0 <= n < 2 ^ 32 - 3 -> prv_bytes_to_words_round_up n = (n + 3) / 4.
Proof. intros. unfold prv_bytes_to_words_round_up, u32. now rewrite Z.mod_small by lia. Qed.

Lemma msg_words_bounds m : payload_ok m ->
  4 <= msg_words m <= 2 ^ 28 + 3 /\ 4 * msg_words m >= 12 + zlen m.
Proof.
  intros [_ H]. unfold msg_words, HEADER_LEN.
  pose proof (Z.div_mod (zlen m + 3) 4). pose proof (Z.mod_pos_bound (zlen m + 3) 4). lia.
Qed.

Lemma encode_msg_length prev flags m : zlen (encode_msg prev flags m) = 4 * msg_words m.
Proof.
  unfold encode_msg, header_bytes, msg_words, HEADER_LEN.
  rewrite !length_app, !le_bytes_length. cbn [length].
  pose proof (Z.div_mod (zlen m + 3) 4). pose proof (Z.mod_pos_bound (zlen m + 3) 4).
  pose proof (zeros_length ((zlen m + 3) / 4 * 4 - zlen m)). lia.
Qed.

(** ** Reading the fields of a stored message *)
Section MsgFields.
Context (b : list Z) (flags p : Z) (m : payload).
Context (prev : Z) (Hprev : 0 <= prev < 2 ^ 32) (Hm : payload_ok m).
Context (H : b @ (4 * p) ↦ encode_msg prev flags m).

Lemma msg_parts :
    b @ (4 * p) ↦ [HEADER_MAGIC_NUMBER; HEADER_VERSION_NUMBER; prv_queue_crc8 m; flags] /\
    b @ (4 * p + 4) ↦ le_bytes 4 prev /\ b @ (4 * p + 8) ↦ le_bytes 4 (zlen m) /\
    b @ (4 * p + 12) ↦ m.
Proof.
    revert H. unfold encode_msg, header_bytes. rewrite !bytes_at_app, !length_app, !le_bytes_length.
    cbn [length]. intros ((H1 & H2 & H3) & H4 & H5).
    rewrite <- Z.add_assoc in H3. auto.
Qed.

Lemma msg_magic : header_magic b p = Val HEADER_MAGIC_NUMBER.
Proof. apply load8_bytes_at. destruct msg_parts as [P _]. now apply bytes_at_cons in P as [P _]. Qed.

Lemma msg_crc : header_crc b p = Val (prv_queue_crc8 m).
Proof.
    apply load8_bytes_at. destruct msg_parts as [P _].
    apply (bytes_at_app _ _ [_; _] [_; _]) in P as [_ P]. now apply bytes_at_cons in P as [P _].
Qed.

Lemma msg_flags : header_flags b p = Val flags.
Proof.
    apply load8_bytes_at. destruct msg_parts as [P _].
    now apply (bytes_at_app _ _ [_; _; _] [_]) in P as [_ P].
Qed.

Lemma msg_prev : header_prev_header b p = Val prev.
Proof. destruct msg_parts as (_ & P & _). now apply load32_bytes_at. Qed.

Lemma msg_payload_size : header_payload_size_bytes b p = Val (zlen m).
Proof. destruct msg_parts as (_ & _ & P & _), Hm. apply load32_bytes_at; [done|lia]. Qed.

Lemma msg_payload : load b (4 * p + 12) (zlen m) = Val m.
Proof. destruct msg_parts as (_ & _ & _ & P). now apply load_bytes_at. Qed.

Lemma msg_not_end_marker : exists w, load32 b (4 * p) = Val w /\ w <> END_POINTER.
Proof.
    destruct msg_parts as [P _]. unfold load32. rewrite (load_bytes_at _ _ _ 4 P) by done.
    eexists; split; [reflexivity|]. cbn [le_val].
    unfold HEADER_MAGIC_NUMBER, HEADER_VERSION_NUMBER, END_POINTER. lia.
Qed.

Lemma msg_extent : 0 <= p /\ 4 * p + 4 * msg_words m <= zlen b.
Proof. destruct H as (? & E & _). rewrite encode_msg_length in E. lia. Qed.
End MsgFields.

(** A field of a message found through [msg_at]. *)
Ltac msg_at_intro H :=
  let prev := fresh "prev" in let Hp := fresh "Hprev" in let Hb := fresh "Hbytes" in
  let Hok := fresh "Hok" in destruct H as [Hok (prev & Hp & Hb)].

Lemma msg_at_extent b flags p m : msg_at b flags p m -> 0 <= p /\ 4 * p + 4 * msg_words m <= zlen b.
Proof. intros H. msg_at_intro H. eauto using msg_extent. Qed.

(** ** Chains of messages *)
Lemma seg_app b flags p ms1 ms2 e :
  seg b flags p (ms1 ++ ms2) e <-> exists k, seg b flags p ms1 k /\ seg b flags k ms2 e.
Proof.
  revert p; induction ms1 as [|m ms1 IH]; intros p; cbn [seg app].
  - split; [eauto|]. now intros (k & -> & ?).
  - rewrite IH. split; [intros (? & k & ? & ?)|intros (k & (? & ?) & ?)]; eauto.
Qed.

Lemma seg_le b flags p ms e : seg b flags p ms e -> p <= e /\ (ms <> [] -> p + 4 <= e).
Proof.
  revert p; induction ms as [|m ms IH]; intros p; cbn [seg].
  - intros ->; split; [lia|done].
  - intros [H Hs]. apply IH in Hs as [Hs _]. destruct H as [Hm _].
    apply msg_words_bounds in Hm. split; intros; lia.
Qed.

Lemma seg_extent b flags p ms e : ms <> [] -> seg b flags p ms e -> 0 <= p /\ 4 * e <= zlen b.
Proof.
  revert p; induction ms as [|m [|m' ms] IH]; intros p Hne; cbn [seg]; [done| |].
  - intros [H <-]. apply msg_at_extent in H. lia.
  - intros [H Hs]. apply IH in Hs; [|done]. apply msg_at_extent in H. lia.
Qed.

Lemma seg_snoc b flags p ms k m : seg b flags p ms k -> msg_at b flags k m ->
  seg b flags p (ms ++ [m]) (k + msg_words m).
Proof. intros. apply seg_app. exists k. cbn [seg]. auto. Qed.

(** A write that stays clear of a message, or a chain, keeps it. *)
Definition keeps (b b' : list Z) (lo hi : Z) : Prop :=
  forall off bs, lo <= off -> off + zlen bs <= hi -> b @ off ↦ bs -> b' @ off ↦ bs.

Lemma msg_at_keeps b b' flags p m lo hi : keeps b b' lo hi -> lo <= 4 * p ->
  4 * p + 4 * msg_words m <= hi -> msg_at b flags p m -> msg_at b' flags p m.
Proof.
  intros K Hl Hh (Hm & prev & Hp & Hb). split; [done|]. exists prev; split; [done|].
  apply K; [done| |done]. rewrite encode_msg_length. lia.
Qed.

Lemma seg_keeps b b' flags p ms e lo hi : keeps b b' lo hi -> lo <= 4 * p -> 4 * e <= hi ->
  seg b flags p ms e -> seg b' flags p ms e.
Proof.
  intros K; revert p; induction ms as [|m ms IH]; intros p Hl Hh; cbn [seg]; [done|].
  intros [H Hs]. pose proof (seg_le _ _ _ _ _ Hs) as [L _].
  pose proof (msg_words_bounds m (proj1 H)).
  split; [apply (msg_at_keeps b b' flags p m lo hi); auto; lia|]. apply IH; auto; lia.
Qed.

Lemma keeps_weaken b b' lo hi lo' hi' : keeps b b' lo hi -> lo <= lo' -> hi' <= hi -> keeps b b' lo' hi'.
Proof. intros K ? ? off bs ? ?. apply K; lia. Qed.

Lemma keeps_trans b1 b2 b3 lo hi : keeps b1 b2 lo hi -> keeps b2 b3 lo hi -> keeps b1 b3 lo hi.
Proof. intros K1 K2 off bs ? ? ?. apply K2, K1; auto. Qed.

Lemma store_keeps b off bs b' lo hi : store b off bs = Val b' ->
  hi <= off \/ off + zlen bs <= lo -> keeps b b' lo hi.
Proof.
  intros S D off' bs' ? ? H.
  assert (L : load b off' (zlen bs') = Val bs') by now apply load_bytes_at.
  rewrite <- (store_load_disjoint b off bs b' off' (zlen bs') S) in L by lia.
  now apply load_val in L as [? _].
Qed.

(** ** Validity and the step to the next message *)
Section Accessors.
Context (q : sTicosdQueue).
Context (Hq : queue_ok q).

Lemma valid_msg flags p m : msg_at (buf q) flags p m -> 4 * p + 12 + zlen m < size q ->
    prv_is_msg_valid q p = Val true.
Proof.
    intros H Hb. pose proof (msg_at_extent _ _ _ _ H) as [Hp _]. msg_at_intro H.
    unfold prv_is_msg_valid, prv_is_msg_in_bounds.
    erewrite msg_payload_size by eauto. cbn [obind].
    test_true ((4 * p >=? 0) && (4 * p + 12 + zlen m <? size q)). cbn [negb].
    erewrite msg_magic by eauto. cbn [obind]. rewrite Z.eqb_refl. cbn [negb].
    erewrite msg_payload by eauto. cbn [obind].
    erewrite msg_crc by eauto. cbn [obind]. now rewrite Z.eqb_refl.
Qed.

Lemma read_flag flags p m : msg_at (buf q) flags p m ->
    prv_is_msg_read q p = Val (negb (Z.land flags 1 =? 0)).
Proof. intros H. msg_at_intro H. unfold prv_is_msg_read. erewrite msg_flags by eauto. done. Qed.

Lemma next_message flags p m : msg_at (buf q) flags p m ->
    prv_get_next_message q p =
      if p + msg_words m >=? size q / 4 then Val 0
      else let! w := load32 (buf q) (4 * (p + msg_words m)) in
           if w =? END_POINTER then Val 0 else Val (p + msg_words m).
Proof.
    intros H. pose proof (msg_at_extent _ _ _ _ H) as [Hp Hx]. msg_at_intro H.
    pose proof (msg_words_bounds m Hok). pose proof (queue_words q Hq).
    unfold prv_get_next_message. erewrite msg_payload_size by eauto. cbn [obind].
    rewrite words_round_up by (destruct Hok; lia).
    replace (p + HEADER_LEN + (zlen m + 3) / 4) with (p + msg_words m) by (unfold msg_words; lia).
    unfold u32. rewrite Z.mod_small by lia. done.
Qed.

Lemma next_message_end flags p m : msg_at (buf q) flags p m ->
    wrap_at (buf q) (size q / 4) (p + msg_words m) -> prv_get_next_message q p = Val 0.
Proof.
    intros H W. rewrite (next_message flags p m H). destruct W as [->|[Hlt E]].
    - test_true (size q / 4 >=? size q / 4). done.
    - case_test; [done|]. rewrite (load32_bytes_at _ _ END_POINTER E) by (unfold END_POINTER; lia). done.
Qed.

Lemma next_message_msg flags flags' p m m' : msg_at (buf q) flags p m ->
    msg_at (buf q) flags' (p + msg_words m) m' -> prv_get_next_message q p = Val (p + msg_words m).
Proof.
    intros H H'. rewrite (next_message flags p m H).
    pose proof (msg_at_extent _ _ _ _ H') as [? ?].
    msg_at_intro H'. pose proof (msg_words_bounds m' Hok). pose proof (queue_words q Hq).
    test_false (p + msg_words m >=? size q / 4).
    edestruct msg_not_end_marker as (w & -> & ?); [exact Hbytes|]. cbn [obind].
    now test_false (w =? END_POINTER).
Qed.
End Accessors.
