(* ===== verification/QueueRefine.v ===== *)
(** * The queue operations implement a first-in first-out queue

    Each operation is related to the list of unread payloads [repr] gives a queue:
    a write appends, a head read peeks, a completed read pops, an overflowing write
    drops from the front. *)
From S2P Require Import Prelude Queue QueueCrc QueueSpec.

(** ** Storing one message *)
Lemma padding_size m : payload_ok m ->
  u64 (prv_bytes_to_words_round_up (zlen m) * 4 - zlen m) = (zlen m + 3) / 4 * 4 - zlen m.
Proof.
  intros [_ H]. rewrite words_round_up by lia. unfold u64.
  pose proof (Z.div_mod (zlen m + 3) 4). pose proof (Z.mod_pos_bound (zlen m + 3) 4).
  rewrite Z.mod_small; lia.
Qed.

Lemma header_bytes_ok crc flags prev n : is_byte crc -> is_byte flags ->
  bytes_ok (header_bytes crc flags prev n).
Proof.
  intros. unfold header_bytes. repeat apply Forall_app_2; auto using le_bytes_ok.
  repeat constructor; unfold is_byte, HEADER_MAGIC_NUMBER, HEADER_VERSION_NUMBER in *; lia.
Qed.

Lemma header_bytes_length crc flags prev n : zlen (header_bytes crc flags prev n) = 12.
Proof. unfold header_bytes. rewrite !length_app, !le_bytes_length. done. Qed.

Lemma load_all l : load l 0 (zlen l) = Val l.
Proof. apply load_bytes_at; [|done]. repeat split; auto; lia. Qed.

Lemma write_message_ok q m w : queue_ok q -> payload_ok m -> write_ptr q = w -> 0 <= w ->
  w + msg_words m <= size q / 4 ->
  exists b', write_message q m (zlen m) = Val b' /\ zlen b' = zlen (buf q) /\ bytes_ok b' /\
    b' @ (4 * w) ↦ encode_msg (prev_ptr q) 0 m /\
    forall lo hi, hi <= 4 * w \/ 4 * (w + msg_words m) <= lo -> keeps (buf q) b' lo hi.
Proof.
  intros Hq Hm Hw H0 Hfit. pose proof (queue_words q Hq) as (Hl & Hs & HN).
  pose proof (msg_words_bounds m Hm) as [Hmw Hmw4]. destruct Hm as [Hmb Hml] eqn:E; clear E.
  destruct Hq as (_ & _ & _ & Hbb & Hprev).
  assert (Hcrc : is_byte (prv_queue_crc8 m)) by (pose proof (crc8_range m Hmb); unfold is_byte; lia).
  unfold write_message. rewrite load_all. cbn [obind]. rewrite padding_size, Hw by done.
  set (H := header_bytes (prv_queue_crc8 m) 0 (prev_ptr q) (zlen m)).
  assert (HL : zlen H = 12) by apply header_bytes_length.
  assert (Hpad : 4 * msg_words m = 12 + zlen m + ((zlen m + 3) / 4 * 4 - zlen m))
    by (unfold msg_words, HEADER_LEN; lia).
  set (pad := (zlen m + 3) / 4 * 4 - zlen m) in *.
  assert (0 <= pad) by (pose proof (Z.div_mod (zlen m + 3) 4); pose proof (Z.mod_pos_bound (zlen m + 3) 4); lia).
  destruct (store_spec (buf q) (4 * w) H) as (b1 & E1 & L1 & A1 & F1); try lia.
  rewrite E1. cbn [obind].
  destruct (store_spec b1 (4 * w + 12) m) as (b2 & E2 & L2 & A2 & F2); try lia.
  rewrite E2. cbn [obind].
  assert (B1 : bytes_ok b1) by (eapply store_bytes_ok; eauto; apply header_bytes_ok; unfold is_byte in *; lia).
  assert (B2 : bytes_ok b2) by (eapply store_bytes_ok; eauto).
  assert (K2 : forall lo hi, hi <= 4 * w \/ 4 * (w + msg_words m) <= lo -> keeps (buf q) b2 lo hi).
  { intros lo hi D. eapply keeps_trans; [eapply store_keeps; [exact E1|]|eapply store_keeps; [exact E2|]]; lia. }
  assert (A2' : b2 @ (4 * w) ↦ (H ++ m)).
  { apply bytes_at_app. rewrite HL. split; [|done]. apply F2; [done|lia]. }
  case_test; tests_to_props.
  - destruct (store_spec b2 (4 * w + 12 + zlen m) (zeros pad)) as (b3 & E3 & L3 & A3 & F3);
      rewrite ?zeros_length by lia; try lia.
    exists b3. rewrite E3. split; [done|]. split; [lia|]. split.
    { eapply store_bytes_ok; [exact E3|done|]. apply zeros_ok. }
    split.
    + unfold encode_msg. fold pad H. rewrite app_assoc. apply bytes_at_app. rewrite length_app. split.
      * apply F3; [done|]. rewrite length_app. lia.
      * replace (4 * w + zlen (H ++ m)) with (4 * w + 12 + zlen m) by (rewrite length_app; lia).
        rewrite <- length_app. replace (4 * w + zlen (H ++ m)) with (4 * w + 12 + zlen m) by (rewrite length_app; lia).
        done.
    + intros lo hi D. eapply keeps_trans; [eapply K2; lia|].
      eapply store_keeps; [exact E3|]. rewrite zeros_length by lia. lia.
  - exists b2. split; [done|]. split; [lia|]. split; [done|]. split; [|done].
    unfold encode_msg. fold pad H. replace pad with 0 by lia. unfold zeros. cbn [Z.to_nat replicate].
    now rewrite app_nil_r.
Qed.

(** ** The parts of a write *)
Section WriteParts.
Context (q : sTicosdQueue) (m : payload).
Context (Hq : queue_ok q) (Hm : payload_ok m) (Hw : 0 <= write_ptr q < size q / 4).
Let N := size q / 4.

Lemma write_unfold : msg_words m <= N ->
    ticosd_queue_write q (Some m) (zlen m) =
      let! q1 := write_wrap q (msg_words m) in
      let! q2 := write_move_read_ptr q1 (read_ptr q =? write_ptr q) (u32 (write_ptr q1 + msg_words m)) in
      let! b := write_message q2 m (zlen m) in
      Val (set_write_ptr (set_prev_ptr (set_buf q2 b) (write_ptr q2))
             (u32 (write_ptr q1 + msg_words m) mod (size q1 / 4)), true).
Proof using Hm.
    intros Hfit. pose proof (msg_words_bounds m Hm). pose proof Hm as [_ Hl].
    unfold ticosd_queue_write. test_false (zlen m =? 0).
    rewrite words_round_up by lia. fold (msg_words m).
    replace (u32 (msg_words m)) with (msg_words m) by (unfold u32; rewrite Z.mod_small; lia).
    subst N. now test_false (msg_words m >? size q / 4).
Qed.

Lemma write_wrap_no : write_ptr q + msg_words m <= N -> write_wrap q (msg_words m) = Val q.
Proof using Hq Hm Hw.
    intros. pose proof (queue_words q Hq). pose proof (msg_words_bounds m Hm). unfold write_wrap, u32.
    subst N. rewrite Z.mod_small by lia. now test_false (write_ptr q + msg_words m >? size q / 4).
Qed.

Lemma write_wrap_yes : N < write_ptr q + msg_words m ->
    exists b, write_wrap q (msg_words m) = Val (set_write_ptr (set_buf q b) 0) /\
      queue_ok (set_write_ptr (set_buf q b) 0) /\ end_marker_at b (write_ptr q) /\
      forall lo hi, hi <= 4 * write_ptr q \/ 4 * write_ptr q + 4 <= lo -> keeps (buf q) b lo hi.
Proof using Hq Hm Hw.
    intros. pose proof (queue_words q Hq) as (HL & Hs & HN). pose proof (msg_words_bounds m Hm).
    unfold write_wrap, u32. subst N. rewrite Z.mod_small by lia.
    test_true (write_ptr q + msg_words m >? size q / 4).
    destruct (store_spec (buf q) (4 * write_ptr q) (le_bytes 4 END_POINTER)) as (b & E & L & A & F);
      rewrite ?le_bytes_length; try lia.
    exists b. rewrite E. split; [done|]. split; [|split; [done|]].
    - destruct Hq as (? & ? & ? & Hb & ?). repeat split; try apply H2; cbn; try lia.
      eapply store_bytes_ok; eauto using le_bytes_ok.
    - intros lo hi D. eapply store_keeps; [exact E|]. rewrite le_bytes_length. lia.
Qed.

  (** No unread message starts in the range to be written. *)
Lemma write_move_none (eq : bool) e : eq = false -> (read_ptr q <= write_ptr q \/ e <= read_ptr q) ->
    write_move_read_ptr q eq e = Val q.
Proof using.
    intros -> D. unfold write_move_read_ptr.
    replace ((read_ptr q >? write_ptr q) && (read_ptr q <? e)) with false; [done|].
    symmetry. apply andb_false_iff. rewrite Z.gtb_ltb, !Z.ltb_ge. lia.
Qed.

  (** The state after header, payload and padding are stored. *)
Lemma write_store : write_ptr q + msg_words m <= N ->
    exists b, write_message q m (zlen m) = Val b /\
      let q' := set_write_ptr (set_prev_ptr (set_buf q b) (write_ptr q))
                  (u32 (write_ptr q + msg_words m) mod N) in
      queue_ok q' /\ write_ptr q' = (write_ptr q + msg_words m) mod N /\
      b @ (4 * write_ptr q) ↦ encode_msg (prev_ptr q) 0 m /\ msg_at b 0 (write_ptr q) m /\
      forall lo hi, hi <= 4 * write_ptr q \/ 4 * (write_ptr q + msg_words m) <= lo -> keeps (buf q) b lo hi.
Proof using Hq Hm Hw.
    intros Hfit. pose proof (queue_words q Hq) as (HL & Hs & HN). pose proof (msg_words_bounds m Hm).
    destruct (write_message_ok q m (write_ptr q)) as (b & E & L & B & A & K); auto; try lia.
    exists b. split; [done|]. cbn zeta. destruct Hq as (? & ? & ? & ? & Hp).
    split; [|split; [|split; [done|split; [|done]]]].
    - repeat split; cbn; auto; try lia; subst N; lia.
    - cbn. unfold u32. now rewrite (Z.mod_small (_ + _) (2 ^ 32)) by (subst N; lia).
    - split; [done|]. exists (prev_ptr q). split; [lia|done].
Qed.
End WriteParts.

(** ** Layouts after a write *)
Lemma layout_append b N r w ms m : 0 <= r -> r <= w -> w < N -> w + msg_words m <= N ->
  seg b 0 r ms w -> msg_at b 0 w m -> layout b N r ((w + msg_words m) mod N) (ms ++ [m]).
Proof.
  intros Hr Hrw Hw Hfit Hs Hm. pose proof (msg_words_bounds m (proj1 Hm)).
  pose proof (seg_snoc _ _ _ _ _ _ Hs Hm) as Hs'.
  destruct (Z.eq_dec (w + msg_words m) N) as [E|].
  - rewrite E, Z.mod_same, <- (app_nil_r (ms ++ [m])) by lia.
    eapply layout_wrapped; eauto; try lia.
    + now destruct ms.
    + rewrite E. now left.
    + done.
  - rewrite Z.mod_small by lia. apply layout_linear; auto; lia.
Qed.

Lemma layout_bounds b N r w ms : layout b N r w ms -> 0 <= r < N /\ 0 <= w < N.
Proof. destruct 1; lia. Qed.

Lemma layout_nil b N r w : layout b N r w [] -> r = w.
Proof.
  remember [] as l eqn:El. destruct 1 as [ms ? ? ? Hs|ms1 ms2 e ? ? ? Hne]; [now subst|].
  apply app_eq_nil in El as [-> _]. done.
Qed.

(** A chain that starts at the read index is not empty when the indices cross. *)
Lemma layout_cases b N r w m ms : layout b N r w (m :: ms) ->
  (r < w /\ seg b 0 r (m :: ms) w) \/
  (w <= r /\ exists ms1 ms2 e, m :: ms = (m :: ms1) ++ ms2 /\ seg b 0 r (m :: ms1) e /\
     wrap_at b N e /\ seg b 0 0 ms2 w).
Proof.
  remember (m :: ms) as l eqn:El. destruct 1 as [l ? ? ? Hs|ms1 ms2 e ? ? ? Hne Hs]; subst.
  - left. pose proof (seg_le _ _ _ _ _ Hs) as [? Hlt]. specialize (Hlt ltac:(done)). split; [lia|done].
  - right. split; [done|]. destruct ms1 as [|m' ms1]; [done|]. injection El as -> <-. eauto 8.
Qed.

(** ** A write with room appends *)
Section WriteAppends.
Context (q : sTicosdQueue) (m : payload).
Context (Hq : queue_ok q) (Hm : payload_ok m).
Let N := size q / 4.

  (** What a successful write of [m] behind [ms] means. *)
Definition appended (ms : list payload) (q' : sTicosdQueue) : Prop :=
    repr q' (ms ++ [m]) /\ can_complete_read q' = can_complete_read q /\ size q' = size q /\
    buf q' @ (4 * prev_ptr q') ↦ encode_msg (prev_ptr q) 0 m.

  (** The message goes directly behind the chain that ends at the write index. *)
Lemma write_at_end (q1 : sTicosdQueue) (ms : list payload) b0 :
    queue_ok q1 -> 0 <= read_ptr q1 -> read_ptr q1 <= write_ptr q1 < size q1 / 4 ->
    write_ptr q1 + msg_words m <= size q1 / 4 -> b0 = buf q1 ->
    seg b0 0 (read_ptr q1) ms (write_ptr q1) ->
    can_complete_read q1 = can_complete_read q -> size q1 = size q -> prev_ptr q1 = prev_ptr q ->
    exists q', (let! b := write_message q1 m (zlen m) in
                Val (set_write_ptr (set_prev_ptr (set_buf q1 b) (write_ptr q1))
                       (u32 (write_ptr q1 + msg_words m) mod (size q1 / 4)), true)) = Val (q', true) /\
      appended ms q'.
Proof using Hm.
    intros Hq1 Hr Hrw Hfit -> Hs Hc Hsz Hp.
    destruct (write_store q1 m Hq1 Hm) as (b & E & Hq' & Ew & Hb & Hat & K); [lia|done|].
    rewrite E. cbn [obind]. eexists; split; [reflexivity|]. cbn zeta in *. unfold appended.
    rewrite <- Hp, <- Hc, <- Hsz. cbn in Ew |- *. split; [|auto].
    split; [done|]. cbn. rewrite Ew. apply layout_append; auto; try lia.
    eapply (seg_keeps _ _ _ _ _ _ (4 * read_ptr q1) (4 * write_ptr q1)); [apply K| | |exact Hs]; lia.
Qed.

Lemma write_empty : repr q [] -> msg_words m <= N ->
    exists q', ticosd_queue_write q (Some m) (zlen m) = Val (q', true) /\ appended [] q'.
Proof using Hq Hm.
    intros [_ L] Hfit. pose proof (layout_bounds _ _ _ _ _ L). pose proof (layout_nil _ _ _ _ L) as E.
    rewrite write_unfold by auto. rewrite E, Z.eqb_refl.
    destruct (Z.le_gt_cases (write_ptr q + msg_words m) N).
    - rewrite write_wrap_no by (auto; lia). cbn [obind write_move_read_ptr].
      apply (write_at_end (set_read_ptr q (write_ptr q)) []  (buf q)); cbn; auto; lia.
    - destruct (write_wrap_yes q m Hq Hm) as (b & -> & Hq1 & _ & _); [lia|done|]. cbn [obind write_move_read_ptr].
      apply (write_at_end (set_read_ptr (set_write_ptr (set_buf q b) 0) 0) [] b); cbn; auto; subst N; lia.
Qed.

Lemma write_linear ms : seg (buf q) 0 (read_ptr q) ms (write_ptr q) ->
    0 <= read_ptr q -> read_ptr q < write_ptr q < N -> ms <> [] ->
    write_ptr q + msg_words m <= N \/ msg_words m <= read_ptr q ->
    exists q', ticosd_queue_write q (Some m) (zlen m) = Val (q', true) /\ appended ms q'.
Proof using Hq Hm.
    intros Hs Hr Hrw Hne Hroom. pose proof (msg_words_bounds m Hm). pose proof (queue_words q Hq).
    rewrite write_unfold by (auto; lia). test_false (read_ptr q =? write_ptr q).
    destruct (Z.le_gt_cases (write_ptr q + msg_words m) N).
    - rewrite write_wrap_no by (auto; lia). cbn [obind]. rewrite write_move_none by (auto; lia). cbn [obind].
      apply (write_at_end q ms (buf q)); auto; lia.
    - destruct (write_wrap_yes q m Hq Hm) as (b & -> & Hq1 & Hend & K); [lia|done|]. cbn [obind].
      rewrite write_move_none by (cbn; unfold u32; rewrite ?Z.mod_small; auto; lia). cbn [obind].
      destruct (write_store (set_write_ptr (set_buf q b) 0) m Hq1 Hm) as (b' & E & Hq' & Ew & Hb & Hat & K');
        cbn; [lia|lia|]. cbn in E, Ew, Hb, Hat, K'.
      rewrite E. cbn [obind]. eexists; split; [reflexivity|]. unfold appended. cbn. split; [|auto].
      split; [done|]. cbn. rewrite Ew, Z.mod_small by lia.
      apply (layout_wrapped _ _ _ _ ms [m] (write_ptr q)); auto; try lia.
      + apply (seg_keeps b b' 0 _ _ _ (4 * read_ptr q) (4 * write_ptr q)); try lia; [apply K'; lia|].
        apply (seg_keeps (buf q) b 0 _ _ _ (4 * read_ptr q) (4 * write_ptr q)); try lia; [apply K; lia|done].
      + right. split; [lia|]. apply (K' (4 * write_ptr q) (4 * write_ptr q + 4)); [lia|lia| |done].
        rewrite le_bytes_length. lia.
      + cbn [seg]. split; [done|lia].
Qed.

Lemma write_between ms1 ms2 e : 0 <= write_ptr q -> write_ptr q + msg_words m <= read_ptr q ->
    read_ptr q < N -> ms1 <> [] -> seg (buf q) 0 (read_ptr q) ms1 e -> wrap_at (buf q) N e ->
    seg (buf q) 0 0 ms2 (write_ptr q) ->
    exists q', ticosd_queue_write q (Some m) (zlen m) = Val (q', true) /\ appended (ms1 ++ ms2) q'.
Proof using Hq Hm.
    intros Hw Hroom Hr Hne Hs1 Hwr Hs2. pose proof (msg_words_bounds m Hm). pose proof (queue_words q Hq).
    rewrite write_unfold by (auto; lia). test_false (read_ptr q =? write_ptr q).
    rewrite write_wrap_no by (auto; lia). cbn [obind].
    rewrite write_move_none by (unfold u32; rewrite ?Z.mod_small; auto; lia). cbn [obind].
    destruct (write_store q m Hq Hm) as (b & E & Hq' & Ew & Hb & Hat & K); [lia|lia|].
    rewrite E. cbn [obind]. eexists; split; [reflexivity|]. unfold appended. cbn in Ew |- *. split; [|auto].
    split; [done|]. cbn. rewrite Ew, Z.mod_small, <- app_assoc by lia.
    pose proof (seg_le _ _ _ _ _ Hs1) as [He _]. fold N.
    apply (layout_wrapped _ _ _ _ ms1 (ms2 ++ [m]) e); auto; try lia.
    - eapply (seg_keeps _ _ _ _ _ _ (4 * read_ptr q) (4 * e)); [apply K| | |exact Hs1]; lia.
    - destruct Hwr as [->|[Hlt Hend]]; [now left|right]. split; [done|].
      apply (K (4 * e) (4 * e + 4)); [lia|lia| |done]. rewrite le_bytes_length. lia.
    - apply seg_snoc; [|done]. eapply (seg_keeps _ _ _ _ _ _ 0 (4 * write_ptr q)); [apply K| | |exact Hs2]; lia.
Qed.
End WriteAppends.

(** C1: as long as there is room, [ticosd_queue_write] succeeds without undefined
    behaviour, and the queue then holds the same unread payloads followed by the new one;
    the new message links back to the previously written one. *)
Theorem write_appends q ms m : repr q ms -> payload_ok m -> room q ms m ->
  exists q', ticosd_queue_write q (Some m) (zlen m) = Val (q', true) /\
    repr q' (ms ++ [m]) /\ can_complete_read q' = can_complete_read q /\ size q' = size q /\
    buf q' @ (4 * prev_ptr q') ↦ encode_msg (prev_ptr q) 0 m.
Proof.
  intros [Hq L] Hm Hroom. destruct ms as [|m0 ms].
  - apply (write_empty q m Hq Hm); [split; done|exact Hroom].
  - pose proof (layout_bounds _ _ _ _ _ L). cbn [room] in Hroom.
    destruct (layout_cases _ _ _ _ _ _ L) as [[Hlt Hs]|(Hle & ms1 & ms2 & e & E & Hs1 & Hw & Hs2)].
    + rewrite (proj2 (Z.ltb_lt _ _) Hlt) in Hroom.
      apply (write_linear q m Hq Hm); auto; lia.
    + rewrite (proj2 (Z.ltb_ge _ _) Hle) in Hroom. rewrite E.
      apply (write_between q m Hq Hm _ _ e); auto; lia.
Qed.

(** ** Reading the head *)
Lemma layout_head b N r w m ms : layout b N r w (m :: ms) -> msg_at b 0 r m.
Proof.
  intros L. destruct (layout_cases _ _ _ _ _ _ L) as [[_ [H _]]|(_ & ? & ? & ? & _ & [H _] & _)]; done.
Qed.

Lemma read_head_msg q m : msg_at (buf q) 0 (read_ptr q) m ->
  (read_ptr q = write_ptr q -> 4 * read_ptr q + 12 + zlen m < size q) ->
  ticosd_queue_read_head true q = Val (set_can_complete_read q true, Some m).
Proof.
  intros H Hfull. unfold ticosd_queue_read_head.
  assert (E : (if read_ptr q =? write_ptr q then
      let! valid := prv_is_msg_valid q (read_ptr q) in
      if negb valid then Val true else prv_is_msg_read q (read_ptr q) else Val false) = Val false).
  { case_test; [|done]. tests_to_props. rewrite (valid_msg q 0 _ m) by auto. cbn [obind negb].
    now rewrite (read_flag q 0 _ m). }
  rewrite E. cbn [obind]. msg_at_intro H. erewrite msg_payload_size by eauto. cbn [obind negb].
  erewrite msg_payload by eauto. done.
Qed.

Lemma read_head_quiet q ok : read_ptr q = write_ptr q -> quiet q (write_ptr q) ->
  ticosd_queue_read_head ok q = Val (q, None).
Proof.
  intros L Hquiet. unfold ticosd_queue_read_head.
  rewrite L, Z.eqb_refl. destruct Hquiet as [-> |[-> ->]]; done.
Qed.

(** on a queue with unread payloads, [ticosd_queue_read_head] returns the oldest one,
    whole and unmodified, and arms [ticosd_queue_complete_read].  (When the queue is
    entirely full the head must not end flush with the buffer.) *)
Theorem read_head_oldest q m ms : repr q (m :: ms) ->
  (read_ptr q = write_ptr q -> 4 * read_ptr q + 12 + zlen m < size q) ->
  ticosd_queue_read_head true q = Val (set_can_complete_read q true, Some m).
Proof. intros [Hq L] Hfull. apply read_head_msg; eauto using layout_head. Qed.

(** on a queue with no unread payload [ticosd_queue_read_head] returns NULL and leaves the
    queue unchanged, provided no stale unread message shows at the write index. *)
Theorem read_head_empty q ok : repr q [] -> quiet q (write_ptr q) ->
  ticosd_queue_read_head ok q = Val (q, None).
Proof. intros [_ L] Hquiet. apply read_head_quiet; eauto using layout_nil. Qed.

(** ** Completing a read *)
Lemma msg_set_read b p m prev : 0 <= prev < 2 ^ 32 -> payload_ok m -> b @ (4 * p) ↦ encode_msg prev 0 m ->
  exists b', store b (4 * p + 3) [1] = Val b' /\ zlen b' = zlen b /\ msg_at b' 1 p m /\
    forall lo hi, hi <= 4 * p \/ 4 * (p + msg_words m) <= lo -> keeps b b' lo hi.
Proof.
  intros Hp Hm H. pose proof (msg_words_bounds m Hm). destruct (msg_extent b 0 p m prev H) as [Hp0 Hx].
  destruct (store_spec b (4 * p + 3) [1]) as (b' & E & L & A & F); cbn [length] in *; try lia.
  exists b'. split; [done|]. split; [done|]. split.
  - split; [done|]. exists prev. split; [done|]. revert H. unfold encode_msg, header_bytes.
    change ([HEADER_MAGIC_NUMBER; HEADER_VERSION_NUMBER; prv_queue_crc8 m; ?f])
      with ([HEADER_MAGIC_NUMBER; HEADER_VERSION_NUMBER; prv_queue_crc8 m] ++ [f]).
    rewrite <- !app_assoc, !(bytes_at_app _ _ [_; _; _]), !(bytes_at_app _ _ [_]). cbn [length].
    intros (H1 & _ & H3). split; [|split]; [apply F; [done|cbn; lia]|done|apply F; [done|cbn; lia]].
  - intros lo hi D. eapply store_keeps; [exact E|]. cbn [length]. lia.
Qed.

(** The flag update: only the flag byte of the message changes. *)
Lemma complete_read_step q m : queue_ok q -> msg_at (buf q) 0 (read_ptr q) m -> can_complete_read q = true ->
  exists b, store (buf q) (4 * read_ptr q + 3) [1] = Val b /\ queue_ok (set_buf q b) /\
    msg_at b 1 (read_ptr q) m /\
    (forall lo hi, hi <= 4 * read_ptr q \/ 4 * (read_ptr q + msg_words m) <= lo -> keeps (buf q) b lo hi) /\
    b @ (4 * read_ptr q) ↦ [HEADER_MAGIC_NUMBER; HEADER_VERSION_NUMBER; prv_queue_crc8 m; 1] /\
    ticosd_queue_complete_read q =
      let! r := prv_get_next_message (set_buf q b) (read_ptr q) in
      Val (set_can_complete_read (set_read_ptr (set_buf q b) r) false, true).
Proof.
  intros Hq H Hc. msg_at_intro H. unfold ticosd_queue_complete_read. rewrite Hc. cbn [negb].
  erewrite msg_flags by eauto. cbn [obind]. change (Z.lor 0 HEADER_FLAGS_FLAG_READ_MASK) with 1.
  destruct (msg_set_read _ _ _ _ Hprev Hok Hbytes) as (b & E & Lb & Hat & K). rewrite E. cbn [obind].
  exists b. split; [done|]. split; [|split; [done|split; [done|split; [|done]]]].
  - destruct Hq as (? & ? & ? & Hb & ?). repeat split; cbn; try tauto; try lia.
    eapply store_bytes_ok; [exact E|done|]. repeat constructor; lia.
  - destruct Hat as [_ (prev' & Hp' & Hb')]. eapply msg_parts; eauto.
Qed.

(** The state between the flag update and the move of the read index. *)
Section CompleteRead.
Context (q : sTicosdQueue) (b : list Z) (m : payload).
Context (Hq : queue_ok q) (Hq' : queue_ok (set_buf q b)).
Context (Hat : msg_at b 1 (read_ptr q) m).
Context (E : store (buf q) (4 * read_ptr q + 3) [1] = Val b).
Context (K : forall lo hi, hi <= 4 * read_ptr q \/ 4 * (read_ptr q + msg_words m) <= lo ->
             keeps (buf q) b lo hi).
Context (Hr : 0 <= read_ptr q < size q / 4) (Hw : 0 <= write_ptr q < size q / 4).

  (** Where the read index goes, and what the queue then holds. *)
Definition popped (ms : list payload) : Prop := exists r,
    prv_get_next_message (set_buf q b) (read_ptr q) = Val r /\ layout b (size q / 4) r (write_ptr q) ms.

Lemma seg_after ms e : seg (buf q) 0 (read_ptr q + msg_words m) ms e ->
    seg b 0 (read_ptr q + msg_words m) ms e.
Proof using K.
    intros H. eapply seg_keeps; [apply (K (4 * (read_ptr q + msg_words m)) (4 * e)); lia| | |exact H]; lia.
Qed.

Lemma pop_next m' ms e : seg (buf q) 0 (read_ptr q + msg_words m) (m' :: ms) e ->
    prv_get_next_message (set_buf q b) (read_ptr q) = Val (read_ptr q + msg_words m).
Proof using Hq' Hat K.
    intros H. apply seg_after in H as [H _]. apply (next_message_msg (set_buf q b) Hq' 1 0 _ m m'); done.
Qed.

Lemma pop_linear ms : seg (buf q) 0 (read_ptr q + msg_words m) ms (write_ptr q) ->
    (ms = [] -> exists v, load32 (buf q) (4 * write_ptr q) = Val v /\ v <> END_POINTER) -> popped ms.
Proof using Hq Hq' Hat E K Hr Hw.
    intros Hs Hlast. pose proof (queue_words q Hq). pose proof (msg_words_bounds m (proj1 Hat)).
    exists (read_ptr q + msg_words m). split.
    - destruct ms as [|m' ms]; [|eapply pop_next; eauto].
      cbn [seg] in Hs. destruct (Hlast eq_refl) as (v & Ev & Hv).
      rewrite (next_message (set_buf q b) Hq' 1 _ m) by done. cbn [size buf set_buf]. rewrite Hs.
      test_false (write_ptr q >=? size q / 4). unfold load32 in *.
      rewrite (store_load_disjoint _ _ _ _ _ _ E) by (right; cbn; lia). rewrite Ev. cbn [obind].
      now test_false (v =? END_POINTER).
    - pose proof (seg_le _ _ _ _ _ Hs) as [? _]. apply layout_linear; try lia. now apply seg_after.
Qed.

Lemma pop_wrapped ms1 ms2 e : write_ptr q <= read_ptr q ->
    seg (buf q) 0 (read_ptr q + msg_words m) ms1 e -> wrap_at (buf q) (size q / 4) e ->
    seg (buf q) 0 0 ms2 (write_ptr q) -> popped (ms1 ++ ms2).
Proof using Hq Hq' Hat K Hr Hw.
    intros Hle Hs1 Hwr Hs2. pose proof (queue_words q Hq). pose proof (msg_words_bounds m (proj1 Hat)).
    pose proof (seg_le _ _ _ _ _ Hs1) as [He Hlt].
    assert (Hwr' : wrap_at b (size q / 4) e).
    { destruct Hwr as [->|[? He']]; [now left|right; split; [done|]].
      apply (K (4 * e) (4 * e + 4)); [lia|lia|rewrite le_bytes_length; lia|done]. }
    assert (Hs2' : seg b 0 0 ms2 (write_ptr q)).
    { eapply seg_keeps; [apply (K 0 (4 * write_ptr q)); lia| | |exact Hs2]; lia. }
    destruct ms1 as [|m' ms1].
    - cbn [seg] in Hs1. subst e. exists 0. split.
      + apply (next_message_end (set_buf q b) Hq' 1 _ m); done.
      + cbn [app]. apply layout_linear; auto; lia.
    - assert (Hne : m' :: ms1 <> []) by done. pose proof (seg_extent _ _ _ _ _ Hne Hs1). specialize (Hlt Hne).
      exists (read_ptr q + msg_words m). split; [eapply pop_next; eauto|].
      apply (layout_wrapped _ _ _ _ (m' :: ms1) ms2 e); auto using seg_after; try lia.
Qed.
End CompleteRead.

(** C8: after a head read, [ticosd_queue_complete_read] removes exactly the oldest payload:
    the remaining ones stay, in order, and the message is flagged as read in the buffer.
    (The last payload of a queue that has not wrapped needs that no stale end marker
    shows at the write index.) *)
Theorem complete_read_pops q m ms : repr q (m :: ms) -> can_complete_read q = true ->
  (ms = [] -> read_ptr q < write_ptr q ->
     exists v, load32 (buf q) (4 * write_ptr q) = Val v /\ v <> END_POINTER) ->
  exists q', ticosd_queue_complete_read q = Val (q', true) /\ repr q' ms /\
    can_complete_read q' = false /\ write_ptr q' = write_ptr q /\ prev_ptr q' = prev_ptr q /\
    msg_at (buf q') 1 (read_ptr q) m.
Proof.
  intros [Hq L] Hc Hlast. apply layout_head in L as H. pose proof (layout_bounds _ _ _ _ _ L) as [Hr Hw].
  destruct (complete_read_step q m Hq H Hc) as (b & E & Hq' & Hat & K & _ & ->).
  assert (P : popped q b ms).
  { destruct (layout_cases _ _ _ _ _ _ L) as [[Hlt [_ Hs]]|(Hle & ms1 & ms2 & e & Em & [_ Hs1] & Hwr & Hs2)].
    - eapply pop_linear; eauto.
    - injection Em as ->. eapply pop_wrapped; eauto. }
  destruct P as (r & En & Lr). rewrite En. cbn [obind].
  eexists; split; [reflexivity|]. split; [split|]; auto.
Qed.

(** without a preceding head read, [ticosd_queue_complete_read] does nothing. *)
Theorem complete_read_requires_read q : can_complete_read q = false ->
  ticosd_queue_complete_read q = Val (q, false).
Proof. intros H. unfold ticosd_queue_complete_read. now rewrite H. Qed.

(** ** A write without room drops the oldest messages *)

(** The messages of a chain from word [p] that start at or behind word [e]. *)
Fixpoint survivors (p e : Z) (ms : list payload) : list payload :=
  match ms with
  | [] => []
  | m :: rest => if p >=? e then ms else survivors (p + msg_words m) e rest
  end.

Lemma skip_overwritten_spec q e we ms fuel p m : queue_ok q -> (length ms < fuel)%nat ->
  seg (buf q) 0 p (m :: ms) e -> wrap_at (buf q) (size q / 4) e ->
  exists r, skip_overwritten fuel q p we = Val r /\
    ((survivors (p + msg_words m) we ms = [] /\ r = 0) \/
     (survivors (p + msg_words m) we ms <> [] /\ we <= r /\
      seg (buf q) 0 r (survivors (p + msg_words m) we ms) e)).
Proof.
  intros Hq. revert fuel p m. induction ms as [|m' ms IH]; intros fuel p m Hf [Hat Hs] Hwr;
    (destruct fuel as [|fuel]; [cbn [length] in Hf; lia|]); cbn [skip_overwritten survivors].
  - cbn [seg] in Hs. subst e. rewrite (next_message_end q Hq 0 p m) by done. cbn [obind].
    rewrite orb_true_r. eauto.
  - destruct Hs as [Hat' Hs]. rewrite (next_message_msg q Hq 0 0 p m m') by done. cbn [obind].
    pose proof (msg_words_bounds m (proj1 Hat)). pose proof (msg_at_extent _ _ _ _ Hat) as [Hp _].
    test_false (p + msg_words m =? 0). rewrite orb_false_r. case_test; tests_to_props.
    + exists (p + msg_words m). split; [done|right]. split; [done|]. split; [lia|]. split; done.
    + apply IH; [cbn [length] in Hf; lia|split; done|done].
Qed.

(** A buffer of [N] words cannot hold more than [N] messages. *)
Lemma seg_count b flags p ms e : seg b flags p ms e -> p + 4 * zlen ms <= e.
Proof.
  revert p; induction ms as [|m ms IH]; intros p; cbn [seg length]; [lia|].
  intros [[Hm _] Hs]. apply IH in Hs. pose proof (msg_words_bounds m Hm). lia.
Qed.

(** C11: when the unread messages wrap around the end of the buffer and the new message
    reaches into the oldest ones, [ticosd_queue_write] drops exactly the messages whose
    start is overwritten, oldest first; all others survive in order, the new one is last,
    and a pending [ticosd_queue_complete_read] is cancelled. *)
Theorem write_drops_oldest q m0 ms1 ms2 e m : queue_ok q -> payload_ok m ->
  seg (buf q) 0 (read_ptr q) (m0 :: ms1) e -> wrap_at (buf q) (size q / 4) e ->
  seg (buf q) 0 0 ms2 (write_ptr q) -> 0 <= write_ptr q < read_ptr q -> read_ptr q < size q / 4 ->
  read_ptr q < write_ptr q + msg_words m <= size q / 4 ->
  exists q', ticosd_queue_write q (Some m) (zlen m) = Val (q', true) /\
    repr q' (survivors (read_ptr q) (write_ptr q + msg_words m) (m0 :: ms1) ++ ms2 ++ [m]) /\
    can_complete_read q' = false.
Proof.
  intros Hq Hm Hs1 Hwr Hs2 Hw Hr Hov. pose proof (queue_words q Hq) as (HL & Hsz & HN).
  pose proof (msg_words_bounds m Hm) as [Hmw _].
  rewrite write_unfold by (auto; lia). test_false (read_ptr q =? write_ptr q).
  rewrite write_wrap_no by (auto; lia). cbn [obind].
  unfold write_move_read_ptr. unfold u32 at 1 2. rewrite !(Z.mod_small (_ + _) (2 ^ 32)) by lia.
  test_true ((read_ptr q >? write_ptr q) && (read_ptr q <? write_ptr q + msg_words m)).
  cbn [survivors]. test_false (read_ptr q >=? write_ptr q + msg_words m).
  assert (Hlen : (length ms1 < queue_fuel q)%nat).
  { pose proof (seg_count _ _ _ _ _ Hs1). cbn [length] in *. unfold queue_fuel.
    destruct Hwr as [->|[? _]]; lia. }
  destruct (skip_overwritten_spec q e (write_ptr q + msg_words m) ms1 (queue_fuel q) (read_ptr q) m0 Hq Hlen Hs1 Hwr)
    as (r & -> & Hsurv). cbn [obind].
  set (surv := survivors _ _ ms1) in *.
  set (q2 := set_can_complete_read (set_read_ptr q r) false).
  destruct (write_store q2 m Hq Hm) as (b & E & Hq' & Ew & _ & Hat & K); cbn; [lia|lia|].
  cbn in E, Ew, Hat, K. rewrite E. cbn [obind]. eexists; split; [reflexivity|]. split; [|done].
  split; [done|]. cbn. rewrite Ew.
  assert (Hs2' : seg b 0 0 ms2 (write_ptr q)).
  { eapply (seg_keeps _ _ _ _ _ _ 0 (4 * write_ptr q)); [apply K| | |exact Hs2]; lia. }
  destruct Hsurv as [[-> ->]|(Hne & Hge & Hs)].
  - cbn [app]. apply layout_append; auto; lia.
  - pose proof (seg_extent _ _ _ _ _ Hne Hs) as [_ He]. pose proof (seg_le _ _ _ _ _ Hs) as [_ Hlt].
    specialize (Hlt Hne). rewrite Z.mod_small by lia.
    apply (layout_wrapped _ _ _ _ surv (ms2 ++ [m]) e); auto; try lia.
    + eapply (seg_keeps _ _ _ _ _ _ (4 * r) (4 * e)); [apply K| | |exact Hs]; lia.
    + destruct Hwr as [->|[? Hend]]; [now left|right; split; [done|]].
      apply (K (4 * e) (4 * e + 4)); [lia|lia|rewrite le_bytes_length; lia|done].
    + now apply seg_snoc.
Qed.

(** [ticosd_queue_write] refuses a NULL or empty payload and a payload that the whole
    buffer could not hold, and then changes nothing. *)
Theorem write_rejects q data n :
  data = None \/ n = 0 \/ (0 < n < 2 ^ 32 - 3 /\ size q / 4 < HEADER_LEN + (n + 3) / 4) ->
  ticosd_queue_write q data n = Val (q, false).
Proof.
  intros H. unfold ticosd_queue_write. destruct data as [data|]; [|done].
  destruct H as [H|[->|[Hn H]]]; [done|done|].
  test_false (n =? 0). rewrite words_round_up by lia. unfold u32, HEADER_LEN in *.
  assert ((n + 3) / 4 < 2 ^ 30) by (apply Z.div_lt_upper_bound; lia).
  assert (0 <= (n + 3) / 4) by (apply Z.div_pos; lia).
  rewrite Z.mod_small by lia. now test_true (3 + (n + 3) / 4 >? size q / 4).
Qed.
