(* ===== verification/QueueLap.v ===== *)
(** * The first lap: traces of operations and restarts

    Until the write index first reaches the end of the buffer, a queue that started empty
    is exactly a first-in first-out queue, and reopening its file finds the same indices
    again.  [lap] is the invariant: read messages, then unread ones, then zero bytes. *)
From S2P Require Import Prelude Queue QueueCrc QueueSpec QueueRefine.

(** ** Abstract queue and traces *)
Inductive op :=
| OpWrite (m : payload)
| OpReadHead
| OpCompleteRead.

Inductive answer :=
| AnsWrite (ok : bool)
| AnsReadHead (m : option payload)
| AnsCompleteRead (ok : bool).

(** One call on the implementation. *)
Definition exec (q : sTicosdQueue) (o : op) : outcome (sTicosdQueue * answer) :=
  match o with
  | OpWrite m => let! (q, ok) := ticosd_queue_write q (Some m) (zlen m) in Val (q, AnsWrite ok)
  | OpReadHead => let! (q, r) := ticosd_queue_read_head true q in Val (q, AnsReadHead r)
  | OpCompleteRead => let! (q, ok) := ticosd_queue_complete_read q in Val (q, AnsCompleteRead ok)
  end.

Fixpoint exec_all (q : sTicosdQueue) (os : list op) : outcome (sTicosdQueue * list answer) :=
  match os with
  | [] => Val (q, [])
  | o :: os => let! (q, a) := exec q o in let! (q, rest) := exec_all q os in Val (q, a :: rest)
  end.

(** The abstract queue: pending payloads, and whether the head has been handed out. *)
Definition fifo : Type := list payload * bool.

Definition fifo_step (s : fifo) (o : op) : fifo * answer :=
  match o, s with
  | OpWrite m, (ms, c) => ((ms ++ [m], c), AnsWrite true)
  | OpReadHead, ([], c) => (([], c), AnsReadHead None)
  | OpReadHead, (m :: ms, _) => ((m :: ms, true), AnsReadHead (Some m))
  | OpCompleteRead, (ms, true) => ((tail ms, false), AnsCompleteRead true)
  | OpCompleteRead, (ms, false) => ((ms, false), AnsCompleteRead false)
  end.

Fixpoint fifo_run (s : fifo) (os : list op) : fifo * list answer :=
  match os with
  | [] => (s, [])
  | o :: os => let '(s, a) := fifo_step s o in let '(s, rest) := fifo_run s os in (s, a :: rest)
  end.

(** Words written by a trace. *)
Fixpoint words_written (os : list op) : Z :=
  match os with
  | [] => 0
  | OpWrite m :: os => msg_words m + words_written os
  | _ :: os => words_written os
  end.

Definition op_ok (o : op) : Prop := match o with OpWrite m => payload_ok m | _ => True end.

(** ** The invariant *)

(** Where the last message of a chain from [p] starts, [prev] when there is none. *)
Fixpoint last_pos (p prev : Z) (ms : list payload) : Z :=
  match ms with
  | [] => prev
  | m :: ms => last_pos (p + msg_words m) p ms
  end.

Record lap (q : sTicosdQueue) (ds ms : list payload) : Prop := {
  lap_ok : queue_ok q;
  lap_read : seg (buf q) 1 0 ds (read_ptr q);
  lap_unread : seg (buf q) 0 (read_ptr q) ms (write_ptr q);
  lap_rest : buf q @ (4 * write_ptr q) ↦ zeros (size q - 4 * write_ptr q);
  lap_room : write_ptr q + 3 <= size q / 4;
  lap_prev : prev_ptr q = last_pos 0 0 (ds ++ ms);
  lap_first : ds ++ ms <> [] -> header_prev_header (buf q) 0 = Val 0 }.

Lemma lap_bounds q ds ms : lap q ds ms -> 0 <= read_ptr q <= write_ptr q /\ write_ptr q + 3 <= size q / 4.
Proof.
  intros [? H1 H2 ? ? ? ?]. apply seg_le in H1 as [? _], H2 as [? _]. lia.
Qed.

Lemma lap_repr q ds ms : lap q ds ms -> repr q ms.
Proof.
  intros H. pose proof (lap_bounds _ _ _ H). destruct H. split; [done|]. apply layout_linear; auto; lia.
Qed.

(** ** Zero bytes *)
Lemma zeros_split a b : 0 <= a -> 0 <= b -> zeros (a + b) = zeros a ++ zeros b.
Proof. intros. unfold zeros. rewrite Z2Nat.inj_add by lia. apply replicate_add. Qed.

Lemma zeros_sub b off n k l : b @ off ↦ zeros n -> 0 <= k -> 0 <= l -> k + l <= n -> b @ (off + k) ↦ zeros l.
Proof.
  intros H ? ? ?. replace n with (k + (l + (n - k - l))) in H by lia.
  rewrite !zeros_split, !bytes_at_app in H by lia. destruct H as (_ & H & _).
  now rewrite zeros_length in H by lia.
Qed.

Lemma zeros_prefix b off n l : b @ off ↦ zeros n -> 0 <= l <= n -> b @ off ↦ zeros l.
Proof. intros H ?. rewrite <- (Z.add_0_r off). apply (zeros_sub _ _ n); [done|lia..]. Qed.

Lemma zeros_quiet q p : zlen (buf q) = size q -> 0 <= p -> 4 * p + 12 <= size q ->
  buf q @ (4 * p) ↦ zeros (size q - 4 * p) -> prv_is_msg_valid q p = Val false.
Proof.
  intros Hl Hp Hs H. unfold prv_is_msg_valid, prv_is_msg_in_bounds.
  assert (E : header_payload_size_bytes (buf q) p = Val 0).
  { apply (load32_bytes_at _ _ 0); [|lia]. apply (zeros_sub _ _ _ 8 4 H); lia. }
  rewrite E. cbn [obind]. case_test; [done|].
  unfold header_magic. tests_to_props.
  rewrite (load8_bytes_at _ _ 0) by (apply (zeros_prefix _ _ _ 1 H); lia). done.
Qed.

Lemma zeros_no_end b p n : 4 <= n -> b @ (4 * p) ↦ zeros n ->
  exists v, load32 b (4 * p) = Val v /\ v <> END_POINTER.
Proof.
  intros Hn H. exists 0. split; [|done]. apply (load32_bytes_at _ _ 0); [|lia].
  apply (zeros_prefix _ _ _ 4 H); lia.
Qed.

(** ** Each operation on a first-lap queue *)
Lemma last_pos_snoc p prev ms m e b flags : seg b flags p ms e ->
  last_pos p prev (ms ++ [m]) = e.
Proof.
  revert p prev. induction ms as [|m' ms IH]; intros p prev; cbn [seg last_pos app].
  - now intros ->.
  - intros [_ H]. eauto.
Qed.

Lemma seg_last b1 b2 p ds ms k e m : seg b1 1 p ds k -> seg b2 0 k ms e ->
  forall prev, last_pos p prev ((ds ++ ms) ++ [m]) = e.
Proof.
  intros H1 H2. revert p H1. induction ds as [|d ds IH]; intros p H1 prev; cbn [seg last_pos app] in *.
  - subst. eapply last_pos_snoc; eauto.
  - destruct H1 as [_ H1]. eauto.
Qed.

Lemma first_prev b flags p m prev : 0 <= prev < 2 ^ 32 -> b @ (4 * p) ↦ encode_msg prev flags m ->
  header_prev_header b p = Val prev.
Proof. intros. eapply msg_prev; eauto. Qed.

Lemma lap_write q ds ms m : lap q ds ms -> payload_ok m ->
  write_ptr q + msg_words m + 3 <= size q / 4 ->
  exists q', ticosd_queue_write q (Some m) (zlen m) = Val (q', true) /\ lap q' ds (ms ++ [m]) /\
    can_complete_read q' = can_complete_read q /\ size q' = size q /\
    write_ptr q' = write_ptr q + msg_words m.
Proof.
  intros H Hm Hroom. pose proof (lap_bounds _ _ _ H) as [Hr Hw]. destruct H as [Hq H1 H2 H3 _ Hp Hf].
  pose proof (queue_words q Hq) as (HL & Hsz & HN). pose proof (msg_words_bounds m Hm) as [Hmw _].
  rewrite write_unfold by (auto; lia). rewrite write_wrap_no by (auto; lia). cbn [obind].
  assert (Em : write_move_read_ptr q (read_ptr q =? write_ptr q) (u32 (write_ptr q + msg_words m)) = Val q).
  { destruct (Z.eqb_spec (read_ptr q) (write_ptr q)) as [Er|]; [|apply write_move_none; [done|lia]].
    cbn. unfold set_read_ptr. rewrite <- Er at 1. now destruct q. }
  rewrite Em. cbn [obind].
  destruct (write_store q m Hq Hm) as (b & E & Hq' & Ew & Hb & Hat & K); [lia|lia|]. cbn in Ew.
  rewrite E. cbn [obind]. eexists; split; [reflexivity|]. rewrite (Z.mod_small (write_ptr q + msg_words m) (size q / 4)) in Ew by lia.
  cbn. rewrite Ew. split; [|done]. split; cbn; rewrite ?Ew; auto; try lia.
  - eapply (seg_keeps _ _ _ _ _ _ 0 (4 * read_ptr q)); [apply K| | |exact H1]; lia.
  - apply seg_snoc; [|done].
    eapply (seg_keeps _ _ _ _ _ _ (4 * read_ptr q) (4 * write_ptr q)); [apply K| | |exact H2]; lia.
  - apply (K (4 * (write_ptr q + msg_words m)) (size q)); [lia|lia|rewrite zeros_length; lia|].
    replace (4 * (write_ptr q + msg_words m)) with (4 * write_ptr q + 4 * msg_words m) by lia.
    apply (zeros_sub _ _ _ _ _ H3); lia.
  - rewrite app_assoc. symmetry. eapply seg_last; eauto.
  - intros _. destruct (ds ++ ms) as [|m' l] eqn:El.
    + apply app_eq_nil in El as [-> ->]. cbn [seg] in H1, H2. rewrite <- H2, <- H1 in Hb.
      cbn [app last_pos] in Hp. rewrite Hp in Hb. eapply first_prev; [|exact Hb]. lia.
    + specialize (Hf ltac:(done)). unfold header_prev_header, load32 in *.
      rewrite <- Hf. destruct (load (buf q) (4 * 0 + 4) 4) as [x| |] eqn:X; cbn [obind] in Hf; try discriminate.
      apply load_val in X as [X1 X2]. rewrite (load_bytes_at b _ x); [done| |done].
      apply (K 0 (4 * write_ptr q)); [lia|lia| |done].
      destruct ms; [destruct ds; [done|]|]; [apply seg_le in H1 as [_ H1]; specialize (H1 ltac:(done)); lia|].
      apply seg_le in H2 as [_ H2]; specialize (H2 ltac:(done)); lia.
Qed.

Lemma lap_complete q ds m ms : lap q ds (m :: ms) -> can_complete_read q = true ->
  exists q', ticosd_queue_complete_read q = Val (q', true) /\ lap q' (ds ++ [m]) ms /\
    can_complete_read q' = false /\ size q' = size q /\ write_ptr q' = write_ptr q.
Proof.
  intros H Hc. pose proof (lap_bounds _ _ _ H) as [Hr Hw]. destruct H as [Hq H1 [H2 H2'] H3 H4 Hp Hf].
  pose proof (queue_words q Hq) as (HL & Hsz & HN). pose proof (msg_words_bounds m (proj1 H2)) as [Hmw _].
  destruct (complete_read_step q m Hq H2 Hc) as (b & E & Hq' & Hat & K & _ & ->).
  pose proof (seg_le _ _ _ _ _ H2') as [He _].
  assert (Hs : seg b 0 (read_ptr q + msg_words m) ms (write_ptr q)).
  { eapply seg_keeps; [apply (K (4 * (read_ptr q + msg_words m)) (zlen b)); lia| | |exact H2']; try lia.
    pose proof (queue_words _ Hq') as (HL' & _). cbn in HL'. lia. }
  assert (Hz : b @ (4 * write_ptr q) ↦ zeros (size q - 4 * write_ptr q)).
  { apply (K (4 * write_ptr q) (size q)); [lia|lia|rewrite zeros_length; lia|done]. }
  assert (En : prv_get_next_message (set_buf q b) (read_ptr q) = Val (read_ptr q + msg_words m)).
  { destruct ms as [|m' ms].
    - cbn [seg] in Hs. rewrite (next_message (set_buf q b) Hq' 1 _ m) by done. cbn [size buf set_buf].
      rewrite Hs. test_false (write_ptr q >=? size q / 4).
      destruct (zeros_no_end b (write_ptr q) (size q - 4 * write_ptr q)) as (v & -> & Hv); [lia|done|].
      cbn [obind]. now test_false (v =? END_POINTER).
    - destruct Hs as [Hs _]. apply (next_message_msg (set_buf q b) Hq' 1 0 _ m m'); done. }
  rewrite En. cbn [obind]. eexists; split; [reflexivity|]. cbn. split; [|done].
  split; cbn; auto.
  - apply seg_snoc; [|done]. eapply (seg_keeps _ _ _ _ _ _ 0 (4 * read_ptr q)); [apply K| | |exact H1]; lia.
  - rewrite Hp, <- app_assoc. done.
  - intros _. unfold header_prev_header, load32.
    rewrite (store_load_disjoint _ _ _ _ _ _ E); [apply Hf; now destruct ds|cbn].
    destruct ds as [|d ds]; [cbn [seg] in H1; lia|].
    apply seg_le in H1 as [_ H1]. specialize (H1 ltac:(done)). lia.
Qed.

Lemma lap_quiet q ds ms : lap q ds ms -> quiet q (write_ptr q).
Proof.
  intros H. pose proof (lap_bounds _ _ _ H). destruct H. left. pose proof (queue_words q lap_ok0).
  apply zeros_quiet; auto; lia.
Qed.

Lemma lap_set_can q ds ms c : lap q ds ms -> lap (set_can_complete_read q c) ds ms.
Proof. intros []. split; auto. Qed.

(** ** Traces *)

(** The implementation state [q] after some first-lap trace, and the abstract state. *)
Definition lap_state (q : sTicosdQueue) (s : fifo) : Prop :=
  can_complete_read q = snd s /\ (snd s = true -> fst s <> []) /\ exists ds, lap q ds (fst s).

(** One operation, implementation and abstract queue in step. *)
Lemma exec_refines q s o : lap_state q s -> op_ok o ->
  write_ptr q + words_written [o] + 3 <= size q / 4 ->
  exists q', exec q o = Val (q', snd (fifo_step s o)) /\ lap_state q' (fst (fifo_step s o)) /\
    size q' = size q /\ write_ptr q' = write_ptr q + words_written [o].
Proof.
  destruct s as [ms c]. intros (Hc & Hne & ds & H) Ho Hroom. cbn [fst snd] in *.
  destruct o as [m| |]; cbn [exec fifo_step words_written] in *; rewrite ?Z.add_0_r in *.
  - destruct (lap_write q ds ms m H Ho) as (q' & -> & H' & Hc' & Hsz & Hw); [lia|].
    exists q'. split; [done|]. split; [|auto]. cbn [fst snd]. split; [cbn; congruence|].
    split; [now destruct ms|eauto].
  - destruct ms as [|m ms].
    + destruct (lap_repr _ _ _ H) as [_ L].
      rewrite (read_head_quiet q true (layout_nil _ _ _ _ L) (lap_quiet _ _ _ H)).
      exists q. repeat split; eauto.
    + rewrite (read_head_msg q m (proj1 (lap_unread _ _ _ H))).
      * exists (set_can_complete_read q true). repeat split; auto. cbn [fst]. eauto using lap_set_can.
      * pose proof (lap_unread _ _ _ H) as Hs. apply seg_le in Hs as [_ Hs]. specialize (Hs ltac:(done)). lia.
  - destruct c.
    + destruct ms as [|m ms]; [now destruct (Hne eq_refl)|].
      destruct (lap_complete q ds m ms H Hc) as (q' & -> & H' & Hc' & Hsz & Hw).
      exists q'. cbn [tail fst snd]. split; [done|]. split; [|auto]. split; [done|]. split; [done|eauto].
    + unfold ticosd_queue_complete_read. rewrite Hc. exists q. repeat split; eauto.
Qed.

Lemma words_written_cons o os : words_written (o :: os) = words_written [o] + words_written os.
Proof. destruct o; cbn [words_written]; lia. Qed.

Lemma words_written_nonneg os : Forall op_ok os -> 0 <= words_written os.
Proof.
  induction 1 as [|o os Ho _ IH]; [done|]. rewrite words_written_cons.
  destruct o as [m| |]; cbn [words_written]; try lia. pose proof (msg_words_bounds m Ho). lia.
Qed.

Lemma exec_all_refines os q s : lap_state q s -> Forall op_ok os ->
  write_ptr q + words_written os + 3 <= size q / 4 ->
  exists q', exec_all q os = Val (q', snd (fifo_run s os)) /\ lap_state q' (fst (fifo_run s os)) /\
    size q' = size q.
Proof.
  revert q s. induction os as [|o os IH]; intros q s H Hok Hroom.
  - exists q. cbn. auto.
  - apply Forall_cons_1 in Hok as [Ho Hok]. rewrite words_written_cons in Hroom.
    pose proof (words_written_nonneg os Hok).
    destruct (exec_refines q s o H Ho) as (q1 & E1 & H1 & S1 & W1); [lia|].
    cbn [exec_all fifo_run]. destruct (fifo_step s o) as [s1 a]. cbn [fst snd] in *.
    destruct (IH q1 s1 H1 Hok) as (q2 & E2 & H2 & S2); [rewrite S1, W1; lia|].
    rewrite E1. cbn [obind]. rewrite E2. cbn [obind]. destruct (fifo_run s1 os) as [s2 rest].
    exists q2. cbn [fst snd] in *. split; [done|]. split; [done|congruence].
Qed.

(** ** An empty queue *)
Definition size_ok (n : Z) : Prop := QUEUE_SIZE_MIN <= n <= QUEUE_SIZE_MAX /\ n mod 4 = 0.

Lemma check_size_ok n : size_ok n -> prv_check_queue_size n = (n, true).
Proof.
  unfold size_ok, prv_check_queue_size, QUEUE_SIZE_MIN, QUEUE_SIZE_MAX, QUEUE_SIZE_ALIGNMENT. intros [H Hm].
  rewrite Z.rem_mod_nonneg, Hm by lia. cbn [negb Z.eqb].
  test_false (n <? 12 + 4). now test_false (n >? 1024 * 1024 * 1024).
Qed.

Lemma zeros_at_all n : 0 <= n -> zeros n @ 0 ↦ zeros n.
Proof. intros. repeat split; lia || auto. Qed.

(** What is stored on a fresh medium: nothing but zero bytes. *)
Definition empty_queue (file_backed : bool) (n : Z) : sTicosdQueue :=
  MkQueue file_backed n (zeros n) 0 0 0 false.

Lemma empty_queue_lap fb n : size_ok n -> lap (empty_queue fb n) [] [].
Proof.
  unfold size_ok, QUEUE_SIZE_MIN, QUEUE_SIZE_MAX. intros [H Hm].
  pose proof (Z.div_mod n 4). split; cbn; auto; try lia; try done.
  - repeat split; cbn; unfold QUEUE_SIZE_MIN, QUEUE_SIZE_MAX; try lia; auto using zeros_ok.
    apply zeros_length; lia.
  - rewrite Z.sub_0_r. apply zeros_at_all. lia.
Qed.

(** C2: starting from an empty buffer, every trace of writes, head reads and completed reads
    that stays within the first lap runs without undefined behaviour and gives exactly
    the answers of an abstract first-in first-out queue; in the end the buffer holds the
    abstract queue's contents. *)
Theorem first_lap_is_fifo fb n os : size_ok n -> Forall op_ok os -> words_written os + 3 <= n / 4 ->
  exists q', exec_all (empty_queue fb n) os = Val (q', snd (fifo_run ([], false) os)) /\
    repr q' (fst (fst (fifo_run ([], false) os))).
Proof.
  intros Hn Hok Hroom. destruct (exec_all_refines os (empty_queue fb n) ([], false)) as (q' & E & (_ & _ & ds & H) & _).
  - split; [done|]. split; [done|]. exists []. now apply empty_queue_lap.
  - done.
  - cbn. lia.
  - eauto using lap_repr.
Qed.
