(* ===== verification/QueueRecovery.v ===== *)
(** * Reopening a queue file

    [prv_queue_find_read_write_ptr] rebuilds the indices from the bytes alone.  On the
    buffer of any first-lap queue it finds exactly the indices the queue had; on arbitrary
    bytes its forward loop ends within [queue_fuel] turns. *)
From S2P Require Import Prelude Queue QueueCrc QueueSpec QueueRefine QueueLap.

(** Word [p] is inside the buffer and does not carry the end marker. *)
Definition no_end (q : sTicosdQueue) (p : Z) : Prop :=
  p < size q / 4 /\ exists v, load32 (buf q) (4 * p) = Val v /\ v <> END_POINTER.

(** The queue as mapped from its file, before the indices are known. *)
Definition unindexed (q : sTicosdQueue) : sTicosdQueue :=
  MkQueue (is_file_backed q) (size q) (buf q) 0 0 0 false.

Lemma last_pos_app b flags p prev ds ms r : seg b flags p ds r ->
  last_pos p prev (ds ++ ms) = last_pos r (last_pos p prev ds) ms.
Proof.
  revert p prev. induction ds as [|d ds IH]; intros p prev; cbn [seg last_pos app]; [now intros ->|].
  intros [_ H]. auto.
Qed.

Section Forward.
Context (q : sTicosdQueue) (Hq : queue_ok q).

Lemma next_to flags p m : msg_at (buf q) flags p m -> no_end q (p + msg_words m) ->
    prv_get_next_message q p = Val (p + msg_words m).
Proof using Hq.
    intros H [Hlt (v & Ev & Hv)]. rewrite (next_message q Hq flags p m H).
    test_false (p + msg_words m >=? size q / 4). rewrite Ev. cbn [obind]. now test_false (v =? END_POINTER).
Qed.

Lemma seg_no_end flags p ms e : seg (buf q) flags p ms e -> no_end q e -> no_end q p.
Proof using Hq.
    destruct ms as [|m ms]; cbn [seg]; [now intros ->|]. intros [H Hs] [He _].
    pose proof (seg_le _ _ _ _ _ Hs) as [? _]. msg_at_intro H. pose proof (msg_words_bounds m Hok).
    split; [lia|]. eapply msg_not_end_marker; eauto.
Qed.

  (** One turn of the forward loop over a message that is not the last of the buffer. *)
Lemma find_forward_turn fuel flags p m rp prev last : msg_at (buf q) flags p m ->
    no_end q (p + msg_words m) -> 0 <= p -> (last = false -> flags = 0) -> flags = 0 \/ flags = 1 ->
    find_forward (S fuel) q p rp prev last =
      find_forward fuel q (p + msg_words m) (if last && (flags =? 0) then p else rp) p (flags =? 1).
Proof using Hq.
    intros H Hn Hp Hlast Hf. pose proof (msg_words_bounds m (proj1 H)) as [? ?].
    pose proof (queue_words q Hq). cbn [find_forward].
    rewrite (valid_msg q flags p m H) by (destruct Hn; lia). cbn [obind negb].
    rewrite (read_flag q flags p m H). cbn [obind]. rewrite (next_to flags p m H Hn).
    test_false (p + msg_words m =? 0).
    destruct Hf as [-> | ->]; destruct last; cbn; rewrite ?(proj2 (Z.eqb_neq (p + msg_words m) 0)) by lia; try done.
    now specialize (Hlast eq_refl).
Qed.

#[local] Ltac side :=
    first [discriminate | lia | intros; done | now left | now right | solve [eauto using seg_no_end]].

Lemma find_forward_read ds fuel p rp prev e : seg (buf q) 1 p ds e -> no_end q e -> 0 <= p ->
    find_forward (length ds + fuel) q p rp prev true = find_forward fuel q e rp (last_pos p prev ds) true.
Proof using Hq.
    revert p rp prev. induction ds as [|d ds IH]; intros p rp prev; cbn [seg length last_pos Nat.add].
    - now intros ->.
    - intros [H Hs] He Hp. pose proof (msg_words_bounds d (proj1 H)).
      rewrite (find_forward_turn _ 1 p d) by side. apply IH; auto. lia.
Qed.

Lemma find_forward_unread ms fuel p rp prev e : seg (buf q) 0 p ms e -> no_end q e -> 0 <= p ->
    find_forward (length ms + fuel) q p rp prev false = find_forward fuel q e rp (last_pos p prev ms) false.
Proof using Hq.
    revert p rp prev. induction ms as [|m ms IH]; intros p rp prev; cbn [seg length last_pos Nat.add].
    - now intros ->.
    - intros [H Hs] He Hp. pose proof (msg_words_bounds m (proj1 H)).
      rewrite (find_forward_turn _ 0 p m) by side. apply IH; auto. lia.
Qed.

  (** Read messages, then unread ones, then an invalid header. *)
Lemma find_forward_chain ds ms r w fuel :
    seg (buf q) 1 0 ds r -> seg (buf q) 0 r ms w -> no_end q w -> prv_is_msg_valid q w = Val false ->
    (length ds + length ms < fuel)%nat ->
    find_forward fuel q 0 0 0 true = Val (r, w, last_pos 0 0 (ds ++ ms)).
Proof using Hq.
    intros H1 H2 Hw Hv Hf. pose proof (seg_le _ _ _ _ _ H1) as [Hr _].
    replace fuel with (length ds + (fuel - length ds))%nat by lia.
    rewrite (find_forward_read ds _ 0 0 0 r) by side.
    rewrite (last_pos_app (buf q) 1 0 0 ds ms r H1). destruct ms as [|m ms].
    - cbn [seg] in H2. subst w. destruct (fuel - length ds)%nat eqn:Ef; [cbn [length] in Hf; lia|].
      cbn [find_forward last_pos]. rewrite Hv. done.
    - destruct H2 as [H Hs]. pose proof (msg_words_bounds m (proj1 H)).
      replace (fuel - length ds)%nat with (S (length ms + (fuel - length ds - 1 - length ms)))%nat
        by (cbn [length] in Hf; lia).
      rewrite (find_forward_turn _ 0 r m) by side. cbn [andb Z.eqb].
      rewrite (find_forward_unread ms _ _ r r w) by (auto; lia).
      destruct (fuel - length ds - 1 - length ms)%nat eqn:Ef; [cbn [length] in Hf; lia|].
      cbn [find_forward last_pos]. rewrite Hv. done.
Qed.
End Forward.

(** The indices come back from the bytes. *)
Lemma find_read_write_ptr_lap q ds ms : lap q ds ms ->
  prv_queue_find_read_write_ptr (unindexed q) =
    Val (MkQueue (is_file_backed q) (size q) (buf q) (read_ptr q) (write_ptr q) (prev_ptr q) false).
Proof.
  intros H. pose proof (lap_bounds _ _ _ H) as [Hr Hw]. destruct H as [Hq H1 H2 H3 _ Hp Hf].
  pose proof (queue_words q Hq) as (HL & Hsz & HN). unfold prv_queue_find_read_write_ptr.
  assert (Hq' : queue_ok (unindexed q)) by (destruct Hq as (? & ? & ? & ? & ?); repeat split; cbn; auto; lia).
  rewrite (find_forward_chain (unindexed q) Hq' ds ms (read_ptr q) (write_ptr q)); cbn; auto.
  - cbn [obind]. rewrite <- Hp.
    destruct ((read_ptr q =? 0) && negb (write_ptr q =? 0)) eqn:Eb; cbn [obind]; [|done].
    tests_to_props. assert (Hne : ds ++ ms <> []).
    { intros E. apply app_eq_nil in E as [-> ->]. cbn [seg] in *. lia. }
    unfold queue_fuel, find_backward. cbn [size buf unindexed].
    rewrite H, (Hf Hne). cbn [obind Z.eqb]. done.
  - unfold no_end. cbn. split; [lia|]. eapply zeros_no_end; [|exact H3]. lia.
  - apply zeros_quiet; cbn; auto; lia.
  - pose proof (seg_count _ _ _ _ _ H1). pose proof (seg_count _ _ _ _ _ H2). unfold queue_fuel. cbn. lia.
Qed.

(** An environment in which the queue file opens with the given contents. *)
Definition file_env (contents : list Z) : init_env := MkInitEnv true true (Some contents) true true true.

(** C4: a restart loses nothing in the first lap: after any such trace, opening the queue
    file again finds the same read, write and previous indices over the same bytes, and
    so the same unread payloads. *)
Theorem restart_preserves n os : size_ok n -> Forall op_ok os -> words_written os + 3 <= n / 4 ->
  exists q q2, exec_all (empty_queue true n) os = Val (q, snd (fifo_run ([], false) os)) /\
    ticosd_queue_init (file_env (buf q)) n = Val (Some q2) /\
    buf q2 = buf q /\ read_ptr q2 = read_ptr q /\ write_ptr q2 = write_ptr q /\ prev_ptr q2 = prev_ptr q /\
    repr q2 (fst (fst (fifo_run ([], false) os))).
Proof.
  intros Hn Hok Hroom.
  destruct (exec_all_refines os (empty_queue true n) ([], false)) as (q & E & (_ & _ & ds & H) & Hs); auto.
  { split; [done|]. split; [done|]. exists []. now apply empty_queue_lap. }
  exists q. eexists. split; [done|]. cbn in Hs.
  unfold ticosd_queue_init. cbn [mutex_init_ok file_env negb]. rewrite check_size_ok by done.
  cbn [map_queue_file file_env queue_file open_contents ftruncate_ok mmap_ok].
  unfold ftruncate_bytes. pose proof (lap_ok _ _ _ H) as (_ & _ & Hl & _). rewrite resize_all_alt by lia.
  set (q1 := MkQueue true n (buf q) (read_ptr q) (write_ptr q) (prev_ptr q) false).
  assert (H1 : lap q1 ds (fst (fst (fifo_run ([], false) os)))).
  { subst q1. rewrite <- Hs. destruct H as [(? & ? & ? & ? & ?) ? ? ? ? ? ?]. split; auto. repeat split; cbn; auto; lia. }
  change (MkQueue true n (buf q) 0 0 0 false) with (unindexed q1).
  rewrite (find_read_write_ptr_lap _ _ _ H1). cbn [obind]. split; [reflexivity|].
  repeat (split; [done|]). eapply lap_repr, H1.
Qed.

(** ** Arbitrary contents *)
Lemma next_after_valid q p : 0 <= p -> p < size q / 4 -> queue_ok q -> prv_is_msg_valid q p = Val true ->
  forall n, prv_get_next_message q p = Val n -> n = 0 \/ (p < n < size q / 4).
Proof.
  intros Hp HpN Hq Hv n Hn. pose proof (queue_words q Hq) as (HL & Hsz & HN). revert Hv Hn.
  unfold prv_is_msg_valid, prv_is_msg_in_bounds, prv_get_next_message.
  destruct (header_payload_size_bytes (buf q) p) as [psize| |] eqn:Ep; cbn [obind]; try discriminate.
  case_test; [discriminate|]. tests_to_props. intros _.
  assert (0 <= psize).
  { unfold header_payload_size_bytes, load32 in Ep.
    destruct (load _ _ 4) as [bs| |] eqn:Eb; cbn [obind] in Ep; try discriminate. injection Ep as <-.
    apply le_val_bound. apply load_val in Eb as [(_ & _ & Hb) _]. destruct Hq as (_ & _ & _ & Hbytes & _).
    apply Forall_lookup_2. intros i x Hx. pose proof (lookup_lt_Some _ _ _ Hx) as Hi.
    rewrite <- Hb in Hx by done. eapply Forall_lookup_1; eauto. }
  rewrite words_round_up by lia. unfold HEADER_LEN.
  pose proof (Z.div_mod (psize + 3) 4). pose proof (Z.mod_pos_bound (psize + 3) 4).
  unfold u32. rewrite Z.mod_small by lia. case_test; [intros [= <-]; now left|]. tests_to_props.
  destruct (load32 _ _) as [v| |]; cbn [obind]; try discriminate.
  case_test; intros [= <-]; [now left|right; lia].
Qed.

(** on arbitrary bytes, corrupt or not, the forward loop of the index recovery never runs
    out of fuel: each turn moves strictly towards the end of the buffer. *)
Theorem find_forward_terminates q : queue_ok q -> forall rp prev last,
  find_forward (queue_fuel q) q 0 rp prev last <> OutOfFuel.
Proof.
  intros Hq. pose proof (queue_words q Hq) as (_ & _ & HN).
  assert (G : forall fuel p rp prev last, 0 <= p < size q / 4 -> size q / 4 - p < Z.of_nat fuel ->
    find_forward fuel q p rp prev last <> OutOfFuel).
  { induction fuel as [|fuel IH]; intros p rp prev last Hp Hf; [lia|]. cbn [find_forward].
    destruct (prv_is_msg_valid q p) as [[]| |] eqn:Ev; cbn [obind negb]; try discriminate.
    2:{ revert Ev. unfold prv_is_msg_valid, prv_is_msg_in_bounds, header_payload_size_bytes, header_magic,
          header_crc, load8, load32, load. repeat (case_test; cbn [obind]; try discriminate). }
    destruct (prv_is_msg_read q p) as [rd| |] eqn:Er; cbn [obind]; try discriminate.
    2:{ revert Er. unfold prv_is_msg_read, header_flags, load8, load. repeat (case_test; cbn [obind]; try discriminate). }
    case_test; [discriminate|].
    destruct (prv_get_next_message q p) as [n| |] eqn:En; cbn [obind]; try discriminate.
    2:{ revert En. unfold prv_get_next_message, header_payload_size_bytes, load32, load.
        repeat (case_test; cbn [obind]; try discriminate). }
    apply (next_after_valid q p) in En; auto; try lia. case_test; [discriminate|]. tests_to_props.
    apply IH; lia. }
  intros. apply G; unfold queue_fuel; lia.
Qed.
