(* ===== verification/QueueInv.v ===== *)
(** * What always holds of a queue

    Whatever the file contained and whatever was called, also outside the hypotheses of
    [QueueRefine] and after any number of laps: sizes and bytes are kept and the indices stay
    inside the buffer. *)
From stdpp Require Import relations.
From S2P Require Import Prelude Queue QueueCrc QueueSpec QueueRefine QueueLap.

(** The type of queues: a size the code accepts, a buffer of that size, indices in it. *)
Definition well_formed (q : sTicosdQueue) : Prop :=
  queue_ok q /\ 0 <= read_ptr q < size q / 4 /\ 0 <= write_ptr q < size q / 4.

(** One call, or the daemon restarting with the file as it is or as a crash left it. *)
Inductive queue_call : sTicosdQueue -> sTicosdQueue -> Prop :=
| call_write q data n q' ok : bytes_ok data -> ticosd_queue_write q (Some data) n = Val (q', ok) -> queue_call q q'
| call_write_null q n q' ok : ticosd_queue_write q None n = Val (q', ok) -> queue_call q q'
| call_read_head q malloc_ok q' r : ticosd_queue_read_head malloc_ok q = Val (q', r) -> queue_call q q'
| call_complete_read q q' ok : ticosd_queue_complete_read q = Val (q', ok) -> queue_call q q'
| call_reset q q' : ticosd_queue_reset q = Val q' -> queue_call q q'
| call_restart q env n q' : default True (Forall is_byte <$> open_contents env) ->
    ticosd_queue_init env n = Val (Some q') -> queue_call q q'.

(** ** Indices *)
Lemma words_positive q : queue_ok q -> 0 < size q / 4 <= 2 ^ 28.
Proof. intros H. pose proof (queue_words q H). lia. Qed.

Lemma next_in_buffer q p r : 0 < size q / 4 -> prv_get_next_message q p = Val r -> 0 <= r < size q / 4.
Proof.
  intros Hs. unfold prv_get_next_message. destruct (header_payload_size_bytes _ _) as [n| |]; [|done..]. cbn [obind].
  set (p' := u32 _). assert (0 <= p') by (apply Z.mod_pos_bound; lia).
  destruct (p' >=? size q / 4) eqn:E; [intros [= <-]; lia|]. rewrite Z.geb_leb in E. apply Z.leb_gt in E.
  destruct (load32 _ _) as [w| |]; [|done..]. cbn [obind]. destruct (w =? END_POINTER); intros [= <-]; lia.
Qed.

Lemma header_in_buffer q p n : queue_ok q -> header_payload_size_bytes (buf q) p = Val n -> 0 <= 4 * p + 8 /\ p < size q / 4.
Proof.
  intros H E. pose proof (queue_words q H). unfold header_payload_size_bytes, load32 in E.
  destruct (load (buf q) (4 * p + 8) 4) as [bs| |] eqn:L; [|done..]. apply load_val in L as [(? & ? & _) Hl]. lia.
Qed.

Lemma forward_in_buffer fuel : forall q tmp r p b r' w' p', queue_ok q -> 0 <= tmp < size q / 4 -> 0 <= r < size q / 4 -> 0 <= p < size q / 4 ->
  find_forward fuel q tmp r p b = Val (r', w', p') -> 0 <= r' < size q / 4 /\ 0 <= w' < size q / 4 /\ 0 <= p' < size q / 4.
Proof.
  induction fuel as [|fuel IH]; intros q tmp r p b r' w' p' H Ht Hr Hp; [done|]. cbn [find_forward].
  destruct (prv_is_msg_valid q tmp) as [valid| |]; [|done..]. cbn [obind]. destruct valid; cbn [negb].
  2: { intros [= <- <- <-]. destruct b; lia. }
  destruct (prv_is_msg_read q tmp) as [is_read| |]; [|done..]. cbn [obind].
  destruct (is_read && negb b); [intros [= <- <- <-]; lia|].
  destruct (prv_get_next_message q tmp) as [next| |] eqn:E; [|done..]. cbn [obind].
  pose proof (next_in_buffer q tmp next (proj1 (words_positive q H)) E) as Hn.
  assert (0 <= (if negb is_read && b then tmp else r) < size q / 4) by (destruct (negb is_read && b); lia).
  destruct (next =? 0); [intros [= <- <- <-]; lia|]. now apply IH.
Qed.

Lemma backward_in_buffer fuel : forall q r r', queue_ok q -> 0 <= r < size q / 4 -> find_backward fuel q r = Val r' -> 0 <= r' < size q / 4.
Proof.
  induction fuel as [|fuel IH]; intros q r r' H Hr; [done|]. cbn [find_backward].
  destruct (header_prev_header (buf q) r) as [prev| |] eqn:E; [|done..]. cbn [obind].
  destruct (r =? prev); [now intros [= <-]|]. destruct (prv_is_msg_valid q prev) as [valid| |] eqn:V; [|done..]. cbn [obind].
  destruct valid; cbn [negb]; [|now intros [= <-]]. destruct (prv_is_msg_read q prev) as [is_read| |]; [|done..]. cbn [obind].
  destruct is_read; [now intros [= <-]|].
  assert (Hp : 0 <= prev < size q / 4).
  { split.
    - unfold header_prev_header, load32 in E. destruct (load (buf q) (4 * r + 4) 4) as [bs| |] eqn:L; [|done..]. injection E as <-.
      apply le_val_bound. unfold load in L. case_match; [|done]. injection L as <-. apply Forall_take, Forall_drop, H.
    - unfold prv_is_msg_valid, prv_is_msg_in_bounds in V.
      destruct (header_payload_size_bytes (buf q) prev) as [n| |] eqn:Eh; [|done..]. now apply (header_in_buffer q prev n). }
  destruct (prev >? 0); [|now intros [= <-]]. now apply IH.
Qed.

Lemma skip_in_buffer fuel : forall q r e r', 0 < size q / 4 -> skip_overwritten fuel q r e = Val r' -> 0 <= r' < size q / 4.
Proof.
  induction fuel as [|fuel IH]; intros q r e r' Hs; [done|]. cbn [skip_overwritten].
  destruct (prv_get_next_message q r) as [next| |] eqn:E; [|done..]. cbn [obind].
  destruct ((next >=? e) || (next =? 0)); [intros [= <-]; now apply (next_in_buffer q r)|]. now apply IH.
Qed.

(** ** Calls *)
Lemma check_size_range n : let '(size, ok) := prv_check_queue_size n in ok = true -> size_ok size.
Proof.
  unfold prv_check_queue_size, size_ok, QUEUE_SIZE_MIN, QUEUE_SIZE_MAX, QUEUE_SIZE_ALIGNMENT.
  set (size := if negb (Z.rem n 4 =? 0) then Z.quot n 4 * 4 else n).
  destruct (size <? 12 + 4) eqn:E1; [done|]. destruct (size >? 1024 * 1024 * 1024) eqn:E2; [done|]. tests_to_props. intros _.
  split; [lia|]. subst size. destruct (Z.rem n 4 =? 0) eqn:Er; cbn [negb] in *.
  - tests_to_props. rewrite <- Z.rem_mod_nonneg by lia. exact Er.
  - apply Z.mod_mul. lia.
Qed.

Lemma mapped_well_formed q q' : queue_ok q -> read_ptr q = 0 -> write_ptr q = 0 -> prev_ptr q = 0 ->
  prv_queue_find_read_write_ptr q = Val q' -> well_formed q'.
Proof.
  intros H Hr Hw Hp. pose proof (words_positive q H). unfold prv_queue_find_read_write_ptr.
  destruct (find_forward _ q 0 0 0 true) as [[[r w] p]| |] eqn:E; [|done..]. cbn [obind].
  assert (I : 0 <= 0 < size q / 4) by lia. destruct (forward_in_buffer _ _ _ _ _ _ _ _ _ H I I I E) as (Br & Bw & Bp).
  set (back := if _ && _ then _ else _). destruct back as [r'| |] eqn:Eb; [|done..]. cbn [obind]. intros [= <-].
  assert (0 <= r' < size q / 4).
  { subst back. destruct ((r =? 0) && negb (w =? 0)); [exact (backward_in_buffer _ _ _ _ H Br Eb)|now injection Eb as <-]. }
  destruct H as (A1 & A2 & A3 & A4 & _). split; [|cbn; tauto]. repeat (split; [done|]). cbn. tauto.
Qed.

Lemma zeros_queue_ok fb n : size_ok n -> queue_ok (MkQueue fb n (zeros n) 0 0 0 false).
Proof.
  intros [H Hm]. unfold queue_ok, QUEUE_SIZE_MIN in *. cbn [size buf prev_ptr]. pose proof (Z.div_mod n 4).
  split; [exact H|]. split; [exact Hm|]. split; [apply zeros_length; lia|]. split; [apply zeros_ok|lia].
Qed.

Lemma ftruncate_ok_bytes n contents : 0 <= n -> bytes_ok contents -> zlen (ftruncate_bytes n contents) = n /\ bytes_ok (ftruncate_bytes n contents).
Proof.
  intros Hn Hc. unfold ftruncate_bytes. split; [rewrite length_resize; lia|]. apply Forall_resize; [unfold is_byte; lia|done].
Qed.

Lemma init_well_formed env n q : default True (Forall is_byte <$> open_contents env) ->
  ticosd_queue_init env n = Val (Some q) -> well_formed q.
Proof.
  intros Hc. unfold ticosd_queue_init. destruct (mutex_init_ok env); [|done]. cbn [negb].
  pose proof (check_size_range n) as Hs. destruct (prv_check_queue_size n) as [size ok].
  set (s := if ok then size else 1024 * 1024).
  assert (S : size_ok s) by (subst s; destruct ok; [now apply Hs|split; [split; discriminate|reflexivity]]).
  destruct (map_queue_file env s) as [b|] eqn:M.
  - destruct (prv_queue_find_read_write_ptr _) as [q'| |] eqn:E; [|done..]. intros [= <-].
    refine (mapped_well_formed _ _ _ _ _ _ E); [|done..]. unfold map_queue_file in M.
    destruct (queue_file env); [|done]. destruct (open_contents env) as [contents|]; [|done].
    destruct (ftruncate_ok env); [|done]. destruct (mmap_ok env); [|done]. injection M as <-.
    destruct S as [S Sm]. unfold queue_ok, QUEUE_SIZE_MIN in *. cbn [Queue.size buf prev_ptr].
    destruct (ftruncate_ok_bytes s contents) as [L B]; [lia|exact Hc|]. pose proof (Z.div_mod s 4).
    split; [exact S|]. split; [exact Sm|]. split; [exact L|]. split; [exact B|lia].
  - destruct (calloc_ok env); [|done]. cbn [negb].
    destruct (prv_queue_find_read_write_ptr _) as [q'| |] eqn:E; [|done..]. intros [= <-].
    refine (mapped_well_formed _ _ _ _ _ _ E); [|done..]. now apply zeros_queue_ok.
Qed.

Lemma load_bytes_ok b off n bs : load b off n = Val bs -> bytes_ok b -> bytes_ok bs.
Proof. unfold load. case_test; [|done]. intros [= <-] Hb. now apply Forall_take, Forall_drop. Qed.

Lemma set_buf_well_formed q b : well_formed q -> bytes_ok b -> zlen b = zlen (buf q) -> well_formed (set_buf q b).
Proof. intros ((A1 & A2 & A3 & _ & A5) & B) Hb Hl. split; [|exact B]. repeat (split; [done|]). cbn. rewrite Hl. auto. Qed.

Lemma set_read_well_formed q r : well_formed q -> 0 <= r < size q / 4 -> well_formed (set_read_ptr q r).
Proof. intros (A & _ & B) Hr. split; [exact A|]. now split. Qed.

Lemma set_write_well_formed q w : well_formed q -> 0 <= w < size q / 4 -> well_formed (set_write_ptr q w).
Proof. intros (A & B & _) Hw. split; [exact A|]. now split. Qed.

Lemma set_prev_well_formed q p : well_formed q -> 0 <= p < size q / 4 -> well_formed (set_prev_ptr q p).
Proof. intros ((A1 & A2 & A3 & A4 & _) & B) Hp. split; [|exact B]. now repeat (split; [done|]). Qed.

Lemma store_well_formed q off bs b : well_formed q -> bytes_ok bs -> store (buf q) off bs = Val b -> well_formed (set_buf q b).
Proof.
  intros H Hbs E. destruct (store_bytes_ok _ _ _ _ E) as [Hb Hl]; [apply H|exact Hbs|]. now apply set_buf_well_formed.
Qed.

Lemma write_message_ok_bytes q data n b : well_formed q -> bytes_ok data -> write_message q data n = Val b ->
  bytes_ok b /\ zlen b = zlen (buf q).
Proof.
  intros H Hd. unfold write_message. destruct (load data 0 n) as [d| |] eqn:El; [|done..]. cbn [obind].
  apply load_bytes_ok in El; [|done]. destruct (store (buf q) _ _) as [b1| |] eqn:E1; [|done..]. cbn [obind].
  apply store_bytes_ok in E1 as [H1 L1]; [|apply H|].
  2: { pose proof (crc8_range d El). apply header_bytes_ok; unfold is_byte; lia. }
  destruct (store b1 _ d) as [b2| |] eqn:E2; [|done..]. cbn [obind]. apply store_bytes_ok in E2 as [H2 L2]; [|done..].
  destruct (u64 _ >? 0); [|intros [= <-]; split; [done|congruence]].
  intros E3. apply store_bytes_ok in E3 as [H3 L3]; [|done|apply zeros_ok]. split; [done|congruence].
Qed.

Lemma write_well_formed q payload n q' ok : well_formed q -> default True (Forall is_byte <$> payload) ->
  ticosd_queue_write q payload n = Val (q', ok) -> well_formed q'.
Proof.
  intros H Hd. unfold ticosd_queue_write. destruct payload as [data|]; [|now intros [= <- _]].
  destruct (n =? 0); [now intros [= <- _]|]. set (words := u32 (HEADER_LEN + _)). destruct (words >? size q / 4); [now intros [= <- _]|].
  destruct (write_wrap q words) as [q1| |] eqn:E1; [|done..]. cbn [obind].
  assert (H1 : well_formed q1).
  { unfold write_wrap in E1. destruct (u32 _ >? size q / 4); [|now injection E1 as <-].
    destruct (store _ _ _) as [b| |] eqn:Es; [|done..]. injection E1 as <-.
    apply set_write_well_formed; [now apply (store_well_formed _ _ _ _ H (le_bytes_ok 4 END_POINTER) Es)|].
    cbn. pose proof (words_positive q (proj1 H)). lia. }
  destruct (write_move_read_ptr q1 _ _) as [q2| |] eqn:E2; [|done..]. cbn [obind].
  assert (H2 : well_formed q2 /\ size q2 = size q1 /\ write_ptr q2 = write_ptr q1).
  { unfold write_move_read_ptr in E2. destruct (read_ptr q =? write_ptr q); [injection E2 as <-; split; [|done]; apply set_read_well_formed; [done|apply H1]|].
    destruct ((read_ptr q1 >? write_ptr q1) && _); [|now injection E2 as <-].
    destruct (skip_overwritten _ _ _ _) as [r| |] eqn:Er; [|done..]. injection E2 as <-. split; [|done].
    apply (set_read_well_formed q1 r H1). apply skip_in_buffer in Er; [done|]. apply words_positive, H1. }
  destruct H2 as (H2 & S2 & W2). destruct (write_message q2 data n) as [b| |] eqn:E3; [|done..]. intros [= <- _].
  destruct (write_message_ok_bytes q2 data n b H2 Hd E3) as [Hb Hl].
  apply set_write_well_formed; [|cbn; rewrite S2; apply Z.mod_pos_bound, words_positive, H1].
  apply set_prev_well_formed; [now apply set_buf_well_formed|]. cbn. apply H2.
Qed.

Lemma complete_well_formed q q' ok : well_formed q -> ticosd_queue_complete_read q = Val (q', ok) -> well_formed q'.
Proof.
  intros H. unfold ticosd_queue_complete_read. destruct (can_complete_read q); [|now intros [= <- _]]. cbn [negb].
  destruct (header_flags (buf q) (read_ptr q)) as [flags| |] eqn:Ef; [|done..]. cbn [obind].
  destruct (store _ _ _) as [b| |] eqn:Es; [|done..]. cbn [obind].
  assert (Hf : is_byte flags).
  { unfold header_flags, load8 in Ef. destruct (load _ _ 1) as [bs| |] eqn:El; [|done..]. injection Ef as <-.
    pose proof (load_bytes_ok _ _ _ _ El ltac:(apply H)) as Hb. apply load_val in El as [_ Hl]. apply le_val_bound in Hb. now rewrite Hl in Hb. }
  assert (H1 : well_formed (set_buf q b)).
  { refine (store_well_formed _ _ _ _ H _ Es). repeat constructor; unfold is_byte in *; change (HEADER_FLAGS_FLAG_READ_MASK) with 1.
    - apply Z.lor_nonneg. lia.
    - destruct (Z.eqb_spec (Z.lor flags 1) 0) as [->|]; [lia|]. assert (0 <= Z.lor flags 1) by (apply Z.lor_nonneg; lia).
      apply (Z.log2_lt_pow2 _ 8); [lia|]. rewrite Z.log2_lor by lia. apply Z.max_lub_lt; [|reflexivity].
      destruct (Z.eqb_spec flags 0) as [->|]; [reflexivity|]. apply Z.log2_lt_pow2; lia. }
  destruct (prv_get_next_message _ _) as [r| |] eqn:En; [|done..]. intros [= <- _].
  apply (next_in_buffer (set_buf q b)) in En; [|apply words_positive, H1]. exact (set_read_well_formed _ r H1 En).
Qed.

Lemma reset_well_formed q q' : well_formed q -> ticosd_queue_reset q = Val q' -> well_formed q'.
Proof.
  intros H. unfold ticosd_queue_reset. destruct (store _ _ _) as [b| |] eqn:Es; [|done..]. intros [= <-].
  pose proof (words_positive q (proj1 H)).
  assert (H1 : well_formed (set_prev_ptr (set_write_ptr (set_read_ptr q 0) 0) 0)).
  { apply set_prev_well_formed; [|cbn; lia]. apply set_write_well_formed; [|cbn; lia]. apply set_read_well_formed; [done|lia]. }
  exact (store_well_formed _ _ _ _ H1 (zeros_ok _) Es).
Qed.

Lemma head_well_formed malloc_ok q q' r : well_formed q -> ticosd_queue_read_head malloc_ok q = Val (q', r) ->
  well_formed q' /\ default True ((fun m => bytes_ok m /\ zlen m + 12 <= size q) <$> r).
Proof.
  intros H. unfold ticosd_queue_read_head. set (nothing := if read_ptr q =? write_ptr q then _ else _).
  destruct nothing as [[]| |]; [now intros [= <- <-]| |done..]. cbn [obind].
  destruct (header_payload_size_bytes _ _) as [n| |]; [|done..]. cbn [obind]. destruct malloc_ok; [|now intros [= <- <-]]. cbn [negb].
  destruct (load _ _ n) as [m| |] eqn:El; [|done..]. intros [= <- <-]. split; [exact H|]. cbn.
  split; [exact (load_bytes_ok _ _ _ _ El ltac:(apply H))|]. apply load_val in El as [(? & ? & _) _].
  destruct H as ((_ & _ & Hl & _) & Hr & _). lia.
Qed.

Lemma call_well_formed q q' : queue_call q q' -> well_formed q -> well_formed q'.
Proof.
  destruct 1 as [q data n q' ok Hd E|q n q' ok E|q malloc_ok q' r E|q q' ok E|q q' E|q env n q' Hc E]; intros H.
  - exact (write_well_formed _ (Some data) _ _ _ H Hd E).
  - exact (write_well_formed _ None _ _ _ H I E).
  - exact (proj1 (head_well_formed _ _ _ _ H E)).
  - exact (complete_well_formed _ _ _ H E).
  - exact (reset_well_formed _ _ H E).
  - exact (init_well_formed _ _ _ Hc E).
Qed.

(** C5: a queue is well-formed for ever: opened on a file of any bytes and of any size asked
    for, and after any calls and restarts, its buffer has the size it should have and holds
    bytes, the three indices are inside it, and a payload that is handed out consists of bytes
    of the buffer. *)
Theorem queue_always_well_formed env n q0 q malloc_ok q' r :
  default True (Forall is_byte <$> open_contents env) -> ticosd_queue_init env n = Val (Some q0) -> rtc queue_call q0 q ->
  well_formed q /\
  (ticosd_queue_read_head malloc_ok q = Val (q', r) -> default True ((fun m => bytes_ok m /\ zlen m + 12 <= size q) <$> r)).
Proof.
  intros Hc E0 Hrun. assert (H : well_formed q).
  { apply init_well_formed in E0; [|done]. induction Hrun as [|q0 q1 q2 Hcall _ IH]; [done|]. apply IH. exact (call_well_formed _ _ Hcall E0). }
  split; [exact H|]. intros E. exact (proj2 (head_well_formed _ _ _ _ H E)).
Qed.

(** A file of garbage, a write, a restart. *)
Definition garbage_env : init_env := MkInitEnv true true (Some (replicate 50 165)) true true true.

Definition or_else (q : sTicosdQueue) (o : outcome sTicosdQueue) : sTicosdQueue := match o with Val q => q | _ => q end.

Definition garbage_queue : sTicosdQueue :=
  or_else (empty_queue true 64) (let! q := ticosd_queue_init garbage_env 67 in Val (default (empty_queue true 64) q)).

Definition garbage_written : sTicosdQueue :=
  or_else garbage_queue (let! (q, _) := ticosd_queue_write garbage_queue (Some [1; 2]) 2 in Val q).

Definition garbage_restarted : sTicosdQueue :=
  or_else garbage_written (let! q := ticosd_queue_init (MkInitEnv true true (Some (buf garbage_written)) true true true) 67 in
    Val (default garbage_written q)).

Lemma queue_always_well_formed_witness :
  well_formed garbage_restarted /\
  (ticosd_queue_read_head true garbage_restarted = Val (set_can_complete_read garbage_restarted true, Some [1; 2]) ->
   bytes_ok [1; 2] /\ zlen [1; 2] + 12 <= size garbage_restarted).
Proof.
  apply (queue_always_well_formed garbage_env 67 garbage_queue garbage_restarted true (set_can_complete_read garbage_restarted true) (Some [1; 2])).
  - apply bytes_ok_compute. reflexivity.
  - vm_compute. reflexivity.
  - apply rtc_l with garbage_written.
    + apply (call_write _ [1; 2] 2 _ true); [apply bytes_ok_compute; reflexivity|vm_compute; reflexivity].
    + apply rtc_once. refine (call_restart _ (MkInitEnv true true (Some (buf garbage_written)) true true true) 67 _ _ _).
      * apply bytes_ok_compute. vm_compute. reflexivity.
      * vm_compute. reflexivity.
Defined.

Example garbage_read : ticosd_queue_read_head true garbage_restarted = Val (set_can_complete_read garbage_restarted true, Some [1; 2]).
Proof. vm_compute. reflexivity. Qed.
