(* ===== verification/QueueFindings.v ===== *)
(** * Where the queue is not a queue

    Behaviours of src/queue.c outside the hypotheses of [QueueRefine] and [QueueLap]: a stale
    end marker, a message flush with the end of the buffer, header reads past the buffer,
    a cyclic file, an overwritten oldest message, and sizes close to 2^32. *)
From S2P Require Import Prelude Queue QueueCrc QueueSpec QueueRefine QueueLap QueueRecovery.

(** ** A stale end marker *)

(** A 28-byte queue: one message goes through; the second one wraps and leaves an end marker
    at word 4, where it will itself end. *)
Definition stale_trace : list op :=
  [OpWrite [1]; OpReadHead; OpCompleteRead; OpWrite [2]; OpReadHead; OpCompleteRead].

Definition drain_once : list op := [OpReadHead; OpCompleteRead].

Lemma exec_all_app os1 os2 q : exec_all q (os1 ++ os2) =
  let! (q, a) := exec_all q os1 in let! (q, b) := exec_all q os2 in Val (q, a ++ b).
Proof.
  revert q. induction os1 as [|o os1 IH]; intros q; cbn [exec_all app obind].
  - destruct (exec_all q os2) as [[]| |]; done.
  - destruct (exec q o) as [[q' a]| |]; cbn [obind]; try done. rewrite IH.
    destruct (exec_all q' os1) as [[q'' x]| |]; cbn [obind]; try done.
    destruct (exec_all q'' os2) as [[]| |]; done.
Qed.

(** The state the trace leads to: both messages are read, yet the indices differ. *)
Definition stale_state : sTicosdQueue :=
  MkQueue true 28
    (encode_msg 0 1 [2] ++ le_bytes 4 END_POINTER ++ zeros 8) 0 4 0 false.

Lemma stale_reached : exec_all (empty_queue true 28) stale_trace =
  Val (stale_state, [AnsWrite true; AnsReadHead (Some [1]); AnsCompleteRead true;
                     AnsWrite true; AnsReadHead (Some [2]); AnsCompleteRead true]).
Proof. vm_compute. reflexivity. Qed.

Lemma stale_drain : exec_all stale_state drain_once =
  Val (stale_state, [AnsReadHead (Some [2]); AnsCompleteRead true]).
Proof. vm_compute. reflexivity. Qed.

(** once a message ends where an earlier lap left its end marker, completing it sends
    the read index to 0 although the write index is elsewhere: the queue, whose two
    payloads have both been read, hands out the last one again on every further read,
    any number of times. *)
Theorem stale_end_marker_redelivers k :
  exec_all (empty_queue true 28) (stale_trace ++ concat (replicate k drain_once)) =
    Val (stale_state,
      [AnsWrite true; AnsReadHead (Some [1]); AnsCompleteRead true;
       AnsWrite true; AnsReadHead (Some [2]); AnsCompleteRead true] ++
      concat (replicate k [AnsReadHead (Some [2]); AnsCompleteRead true])).
Proof.
  rewrite exec_all_app, stale_reached. cbn [obind].
  assert (E : exec_all stale_state (concat (replicate k drain_once)) =
    Val (stale_state, concat (replicate k [AnsReadHead (Some [2]); AnsCompleteRead true]))).
  { induction k as [|k IH]; [done|]. cbn [replicate concat].
    rewrite exec_all_app, stale_drain. cbn [obind]. rewrite IH. done. }
  now rewrite E.
Qed.

(** ** A message flush with the end of the buffer *)

(** [prv_is_msg_in_bounds] uses [<] where the last byte of the buffer still belongs to
    it: on a full queue whose oldest message ends flush with the buffer,
    [ticosd_queue_read_head] reports an empty queue. *)
Theorem flush_message_lost q m ms ok : repr q (m :: ms) -> read_ptr q = write_ptr q ->
  4 * read_ptr q + 12 + zlen m = size q -> ticosd_queue_read_head ok q = Val (q, None).
Proof.
  intros [Hq L] E Hend. apply layout_head in L as H. msg_at_intro H.
  unfold ticosd_queue_read_head. rewrite E, Z.eqb_refl, <- E.
  unfold prv_is_msg_valid, prv_is_msg_in_bounds. erewrite msg_payload_size by eauto. cbn [obind].
  replace (4 * read_ptr q + 12 + zlen m <? size q) with false by (symmetry; apply Z.ltb_ge; lia).
  now rewrite andb_false_r.
Qed.

(** The smallest queue accepts a 4-byte payload and never gives it back. *)
Example flush_message_lost_minimal :
  (let! (q, a) := exec_all (empty_queue true 16) [OpWrite [34; 34; 34; 34]; OpReadHead] in Val a) =
  Val [AnsWrite true; AnsReadHead None].
Proof. vm_compute. reflexivity. Qed.

(** ** Header reads past the buffer *)

(** with equal indices in the last two words of the buffer, [ticosd_queue_read_head]
    reads the payload size of a header that does not fit: undefined behaviour. *)
Theorem read_head_out_of_bounds q ok : zlen (buf q) = size q -> size q mod 4 = 0 ->
  read_ptr q = write_ptr q -> size q / 4 < write_ptr q + 3 -> ticosd_queue_read_head ok q = Fault.
Proof.
  intros HL Hm E Hw. unfold ticosd_queue_read_head. rewrite E, Z.eqb_refl.
  unfold prv_is_msg_valid, prv_is_msg_in_bounds, header_payload_size_bytes, load32.
  pose proof (Z.div_mod (size q) 4). rewrite load_fault by lia. done.
Qed.

(** It happens on the read after the first message of a 20-byte queue. *)
Example read_head_out_of_bounds_reached :
  exec_all (empty_queue true 20) [OpWrite [1]; OpReadHead; OpCompleteRead; OpReadHead] = Fault.
Proof. vm_compute. reflexivity. Qed.

(** ** A cyclic file *)

(** Four messages; the links of the last two point at each other. *)
Definition cyclic_file : list Z :=
  encode_msg 8 0 [1] ++ encode_msg 0 1 [2] ++ encode_msg 12 0 [3] ++ encode_msg 8 0 [4].

Definition cyclic_queue : sTicosdQueue := MkQueue true 64 cyclic_file 0 0 0 false.

Lemma find_backward_step fuel r p : header_prev_header cyclic_file r = Val p -> r <> p -> 0 < p ->
  prv_is_msg_valid cyclic_queue p = Val true -> prv_is_msg_read cyclic_queue p = Val false ->
  find_backward (S fuel) cyclic_queue r = find_backward fuel cyclic_queue p.
Proof.
  intros E Hne Hp Hv Hr. cbn [find_backward buf cyclic_queue]. rewrite E. cbn [obind].
  rewrite (proj2 (Z.eqb_neq r p) Hne), Hv. cbn [obind negb]. rewrite Hr. cbn [obind].
  now test_true (p >? 0).
Qed.

(** the guard [while (read_ptr > 0)], meant as a failsafe, does not bound the backward
    walk: on a file whose links form a cycle the start-up code never returns. *)
Theorem find_backward_diverges : forall fuel, find_backward fuel cyclic_queue 0 = OutOfFuel.
Proof.
  assert (A : forall fuel, find_backward (S fuel) cyclic_queue 8 = find_backward fuel cyclic_queue 12)
    by (intros; apply find_backward_step; vm_compute; done).
  assert (B : forall fuel, find_backward (S fuel) cyclic_queue 12 = find_backward fuel cyclic_queue 8)
    by (intros; apply find_backward_step; vm_compute; done).
  assert (C : forall fuel, find_backward fuel cyclic_queue 8 = OutOfFuel /\ find_backward fuel cyclic_queue 12 = OutOfFuel).
  { induction fuel as [|fuel [IH1 IH2]]; [done|]. now rewrite A, B. }
  intros [|fuel]; [done|]. rewrite (find_backward_step fuel 0 8) by (vm_compute; done). apply C.
Qed.

(** The forward loop does hand this file to the backward walk. *)
Lemma cyclic_file_reaches_backward :
  find_forward (queue_fuel cyclic_queue) cyclic_queue 0 0 0 true = Val (0, 4, 0).
Proof. vm_compute. reflexivity. Qed.

(** ** A full queue is not first-in first-out *)

(** when the writer laps a reader that stands at the start of a full buffer, the newest
    payload is delivered before the older ones that are still there. *)
Theorem full_queue_newest_first :
  (let! (_, a) := exec_all (empty_queue true 64)
     ([OpWrite [1]; OpWrite [2]; OpWrite [3]; OpWrite [4]; OpWrite [5]] ++ drain_once ++ drain_once) in Val a) =
  Val [AnsWrite true; AnsWrite true; AnsWrite true; AnsWrite true; AnsWrite true;
       AnsReadHead (Some [5]); AnsCompleteRead true; AnsReadHead (Some [2]); AnsCompleteRead true].
Proof. vm_compute. reflexivity. Qed.

(** ** Sizes close to 2^32 *)

(** The rounding of the payload size wraps to 0 for the three largest sizes, so the size check
    of [ticosd_queue_write] accepts a payload of 4 GiB, and the copy runs out of the buffer. *)
Theorem write_huge_overflows q data n : queue_ok q -> 0 <= write_ptr q < size q / 4 ->
  2 ^ 32 - 3 <= n < 2 ^ 32 -> write_ptr q + 3 <= size q / 4 -> read_ptr q = write_ptr q ->
  ticosd_queue_write q (Some data) n = Fault.
Proof.
  intros Hq Hw Hn Hw3 Hr. pose proof (queue_words q Hq) as (HL & Hs & HN).
  assert (E : prv_bytes_to_words_round_up n = 0).
  { unfold prv_bytes_to_words_round_up, u32. replace (n + 3) with ((n + 3 - 2 ^ 32) + 1 * 2 ^ 32) by lia.
    rewrite Z.mod_add, Z.mod_small, Z.div_small by lia. done. }
  unfold ticosd_queue_write. test_false (n =? 0). rewrite E. change (u32 (HEADER_LEN + 0)) with 3.
  test_false (3 >? size q / 4). rewrite Hr, Z.eqb_refl. unfold write_wrap, u32 at 1.
  rewrite Z.mod_small by lia. test_false (write_ptr q + 3 >? size q / 4). cbn [obind write_move_read_ptr].
  unfold write_message. destruct (load data 0 n) as [x| |] eqn:X; cbn [obind]; try done.
  2:{ revert X. unfold load. case_test; discriminate. }
  apply load_val in X as [_ X]. set (h := header_bytes _ _ _ _).
  assert (Hh : zlen h = 12) by apply header_bytes_length.
  destruct (store_spec (buf q) (4 * write_ptr q) h) as (b & Eb & L & _); try lia.
  cbn [buf set_read_ptr write_ptr]. rewrite Eb. cbn [obind]. unfold store.
  case_test; [|done]. tests_to_props. lia.
Qed.

(** ** The repository's unit tests of the queue, evaluated on the model

    Each example replays a test of test/queue.test.cpp: same file contents, same calls, same
    expected indices and bytes. *)

(** read, write and previous index after opening a file with these bytes *)
Definition open_indices (contents : list Z) (n : Z) : outcome (option (Z * Z * Z)) :=
  let! q := ticosd_queue_init (file_env contents) n in
  Val (match q with Some q => Some (read_ptr q, write_ptr q, prev_ptr q) | None => None end).

Definition hdr (crc flags prev len : Z) : list Z := header_bytes crc flags prev len.

Example Test_QueueSizeTooSmall : prv_check_queue_size 15 = (12, false).
Proof. reflexivity. Qed.

Example Test_QueueSizeTooLarge : snd (prv_check_queue_size (1024 * 1024 * 1024 + 4)) = false.
Proof. reflexivity. Qed.

Example Test_QueueSizeNotAligned : prv_check_queue_size 17 = (16, true).
Proof. reflexivity. Qed.

Example Test_NewFile : open_indices [] 16 = Val (Some (0, 0, 0)).
Proof. vm_compute. reflexivity. Qed.

Example Test_OneUnreadMessageAtStartAndExtraSpaceAtEnd :
  open_indices (hdr 0x48 0 0 1 ++ [0x11; 0; 0; 0] ++ zeros 16) 32 = Val (Some (0, 4, 0)).
Proof. vm_compute. reflexivity. Qed.

Example Test_OneUnreadMessageAfterOneReadMessageAndExtraSpaceAtEnd :
  open_indices (hdr 0x48 1 0 1 ++ [0x11; 0; 0; 0] ++ hdr 0x01 0 0 1 ++ [0x22; 0; 0; 0] ++ zeros 16) 48 =
    Val (Some (4, 8, 4)).
Proof. vm_compute. reflexivity. Qed.

Example Test_OneUnreadMessageAfterOneReadMessageAndNoSpaceAtEnd :
  open_indices (hdr 0x48 1 0 1 ++ [0x11; 0; 0; 0] ++ hdr 0x01 0 0 1 ++ [0x22; 0; 0; 0]) 32 =
    Val (Some (4, 0, 4)).
Proof. vm_compute. reflexivity. Qed.

Example Test_UnreadWrapAround :
  open_indices (hdr 0x02 0 8 1 ++ [0x44; 0; 0; 0] ++ hdr 0x01 1 0 1 ++ [0x22; 0; 0; 0] ++
                hdr 0x49 0 4 1 ++ [0x33; 0; 0; 0]) 48 = Val (Some (8, 4, 0)).
Proof. vm_compute. reflexivity. Qed.

(** The test expects (0, 4, 0); the code gets there by reading the header at word 8 of an
    8-word file, outside the buffer. *)
Example Test_TruncatedFileWithWrapAround :
  open_indices (hdr 0x02 0 8 1 ++ [0x44; 0; 0; 0] ++ hdr 0x01 1 0 1 ++ [0x22; 0; 0; 0]) 32 = Fault.
Proof. vm_compute. reflexivity. Qed.

Example Test_AllRead :
  open_indices (hdr 0x02 1 8 1 ++ [0x44; 0; 0; 0] ++ hdr 0x01 1 0 1 ++ [0x22; 0; 0; 0] ++
                hdr 0x49 1 4 1 ++ [0x33; 0; 0; 0]) 48 = Val (Some (0, 0, 8)).
Proof. vm_compute. reflexivity. Qed.

Example Test_TruncatedFileWithinMessage :
  open_indices (hdr 0x02 1 0 1 ++ [0x44; 0; 0; 0] ++ hdr 0x01 0 0 1 ++ [0x22; 0; 0; 0]) 28 =
    Val (Some (4, 4, 0)).
Proof. vm_compute. reflexivity. Qed.

Example Test_AllUnread :
  open_indices (hdr 0x02 0 8 1 ++ [0x44; 0; 0; 0] ++ hdr 0x01 0 0 1 ++ [0x22; 0; 0; 0] ++
                hdr 0x49 0 4 1 ++ [0x33; 0; 0; 0]) 48 = Val (Some (0, 0, 8)).
Proof. vm_compute. reflexivity. Qed.

(** buffer, read and write index after a trace on an empty queue *)
Definition after (n : Z) (os : list op) : outcome (list Z * Z * Z) :=
  let! (q, _) := exec_all (empty_queue true n) os in Val (buf q, read_ptr q, write_ptr q).

Example Test_SimpleWriteIntoNewQueueFile :
  after 32 [OpWrite [0xff]] = Val (hdr 0x4f 0 0 1 ++ [0xff; 0; 0; 0] ++ zeros 16, 0, 4).
Proof. vm_compute. reflexivity. Qed.

Example Test_WriteLargerThanQueue : after 16 [OpWrite (zeros 8)] = Val (zeros 16, 0, 0).
Proof. vm_compute. reflexivity. Qed.

Example Test_WriteFitsExactly :
  after 16 [OpWrite [0x22; 0x22; 0x22; 0x22]] = Val (hdr 0x74 0 0 4 ++ [0x22; 0x22; 0x22; 0x22], 0, 0).
Proof. vm_compute. reflexivity. Qed.

Example Test_WriteWrapAround :
  after 32 [OpWrite (repeat 0x22 8); OpWrite [0x11]] =
    Val (hdr 0x48 0 0 1 ++ [0x11; 0; 0; 0] ++ [0x22; 0x22; 0x22; 0x22; 0xa5; 0x5a; 0xa5; 0x5a] ++ zeros 8, 0, 4).
Proof. vm_compute. reflexivity. Qed.

Example Test_WritePreviousHeaderPointer :
  after 52 [OpWrite [0x11]; OpWrite [0x22]; OpWrite [0x33]; OpWrite [0x44]] =
    Val (hdr 0x02 0 8 1 ++ [0x44; 0; 0; 0] ++ hdr 0x01 0 0 1 ++ [0x22; 0; 0; 0] ++
         hdr 0x49 0 4 1 ++ [0x33; 0; 0; 0] ++ [0xa5; 0x5a; 0xa5; 0x5a], 0, 4).
Proof. vm_compute. reflexivity. Qed.

(** Four 16-byte messages, one read, one handed out, then a big write. *)
Definition move_read_pointer_trace (n : nat) : list op :=
  [OpWrite [0x11]; OpWrite [0x22]; OpWrite [0x33]; OpWrite [0x44]; OpReadHead; OpCompleteRead;
   OpReadHead; OpWrite (repeat 0xaa n); OpCompleteRead].

Definition move_read_pointer (n : nat) : outcome (Z * Z * option answer) :=
  let! (q, a) := exec_all (empty_queue true 64) (move_read_pointer_trace n) in
  Val (read_ptr q, write_ptr q, head (rev a)).

Example Test_WriteMoveReadPointer : move_read_pointer 32 = Val (12, 11, Some (AnsCompleteRead false)).
Proof. vm_compute. reflexivity. Qed.

Example Test_WriteMoveReadPointerWrapAround :
  move_read_pointer 40 = Val (0, 13, Some (AnsCompleteRead false)).
Proof. vm_compute. reflexivity. Qed.

Example Test_ReadAndMarkRead :
  (let! (q, a) := exec_all (empty_queue true 16) [OpWrite [0x11]; OpReadHead; OpCompleteRead; OpCompleteRead; OpReadHead] in
   Val (buf q, a)) =
  Val (hdr 0x48 1 0 1 ++ [0x11; 0; 0; 0],
       [AnsWrite true; AnsReadHead (Some [0x11]); AnsCompleteRead true; AnsCompleteRead false; AnsReadHead None]).
Proof. vm_compute. reflexivity. Qed.

Example Test_PopulatedQueueThenReset :
  (let! q := ticosd_queue_init (file_env (hdr 0x48 1 0 1 ++ [0x11; 0; 0; 0] ++ hdr 0x01 1 0 1 ++
       [0x22; 0; 0; 0] ++ zeros 16)) 48 in
   match q with
   | Some q => let! q := ticosd_queue_reset q in Val (Some (buf q, read_ptr q, write_ptr q, prev_ptr q))
   | None => Val None
   end) = Val (Some (zeros 12 ++ [0x11; 0; 0; 0] ++ hdr 0x01 1 0 1 ++ [0x22; 0; 0; 0] ++ zeros 16, 0, 0, 0)).
Proof. vm_compute. reflexivity. Qed.
