(* ===== verification/QueueWitnesses.v ===== *)
(** * Concrete instances of the queue theorems

    Each lemma applies one theorem of the queue files to a queue that a short trace of
    calls produces, so its hypotheses hold of reachable states. *)
From S2P Require Import Prelude Queue QueueCrc QueueSpec QueueRefine QueueLap QueueRecovery QueueFindings.

(** The queue after a trace on an empty one of [n] bytes. *)
Definition queue_after (n : Z) (os : list op) : sTicosdQueue :=
  match exec_all (empty_queue true n) os with
  | Val (q, _) => q
  | _ => empty_queue true n
  end.

(** Two unread messages in a 64-byte queue. *)
Definition two_messages : sTicosdQueue := queue_after 64 [OpWrite [1]; OpWrite [2; 3]].

(** Messages 3 and 4 at the end of the buffer, 5 at its start. *)
Definition wrapped_messages : sTicosdQueue :=
  queue_after 64 ([OpWrite [1]; OpWrite [2]; OpWrite [3]; OpWrite [4]] ++ drain_once ++ [OpWrite [5]] ++ drain_once).

(** Closed goals about concrete buffers. *)
Ltac concrete_payload := split; [apply bytes_ok_compute; reflexivity | cbn; lia].
Ltac concrete_bytes := apply bytes_at_compute; vm_compute; reflexivity.
Ltac concrete_msg := split; [concrete_payload | exists 0; split; [lia | concrete_bytes]].
Ltac concrete_queue :=
  split; [split; vm_compute; congruence|]; split; [vm_compute; reflexivity|]; split; [vm_compute; reflexivity|];
  split; [apply bytes_ok_compute; vm_compute; reflexivity|]; split; vm_compute; congruence.

Lemma two_messages_repr : repr two_messages [[1]; [2; 3]].
Proof.
  split; [concrete_queue|]. apply layout_linear; [vm_compute; congruence.. | ].
  cbn [seg]. split; [concrete_msg|]. split; [|vm_compute; reflexivity].
  concrete_msg.
Qed.

Lemma one_message_repr : repr (queue_after 64 [OpWrite [1]; OpReadHead]) [[1]].
Proof.
  split; [concrete_queue|]. apply layout_linear; [vm_compute; congruence.. | ].
  cbn [seg]. split; [concrete_msg|]. vm_compute; reflexivity.
Qed.

Lemma no_message_repr n : n = 16 \/ n = 64 -> repr (empty_queue true n) [].
Proof.
  intros [-> | ->]; (split; [concrete_queue|]); apply layout_linear; vm_compute; congruence.
Qed.

(** ** The checksum and the single operations *)
Lemma crc8_single_byte_witness :
  (prv_queue_crc8 ([1; 2] ++ 7 :: [3]) = prv_queue_crc8 ([1; 2] ++ 6 :: [3])) <-> (7 = 6 \/ Z.lxor 7 6 = 0x91).
Proof. apply crc8_single_byte; try (apply bytes_ok_compute; reflexivity); split; reflexivity || discriminate. Defined.

Lemma write_appends_witness :
  exists q', ticosd_queue_write two_messages (Some [9]) 1 = Val (q', true) /\
    repr q' [[1]; [2; 3]; [9]] /\ can_complete_read q' = can_complete_read two_messages /\
    size q' = size two_messages /\
    buf q' @ (4 * prev_ptr q') ↦ encode_msg (prev_ptr two_messages) 0 [9].
Proof.
  apply (write_appends two_messages [[1]; [2; 3]] [9]);
    [apply two_messages_repr | concrete_payload | left; vm_compute; congruence].
Defined.

Lemma read_head_oldest_witness :
  ticosd_queue_read_head true two_messages = Val (set_can_complete_read two_messages true, Some [1]).
Proof. apply (read_head_oldest two_messages [1] [[2; 3]]); [apply two_messages_repr | discriminate]. Defined.

Lemma read_head_empty_witness :
  ticosd_queue_read_head true (empty_queue true 64) = Val (empty_queue true 64, None).
Proof. apply read_head_empty; [apply no_message_repr; auto | left; vm_compute; reflexivity]. Defined.

Lemma complete_read_pops_witness :
  exists q', ticosd_queue_complete_read (queue_after 64 [OpWrite [1]; OpReadHead]) = Val (q', true) /\ repr q' [] /\
    can_complete_read q' = false /\ write_ptr q' = 4 /\ prev_ptr q' = 0 /\ msg_at (buf q') 1 0 [1].
Proof.
  apply (complete_read_pops (queue_after 64 [OpWrite [1]; OpReadHead]) [1] []).
  - apply one_message_repr.
  - vm_compute; reflexivity.
  - intros _ _. exists 0. split; [vm_compute; reflexivity | discriminate].
Defined.

Lemma complete_read_requires_read_witness :
  ticosd_queue_complete_read two_messages = Val (two_messages, false).
Proof. apply complete_read_requires_read. vm_compute; reflexivity. Defined.

Lemma write_drops_oldest_witness :
  exists q', ticosd_queue_write wrapped_messages (Some (replicate 16 7)) 16 = Val (q', true) /\
    repr q' [[4]; [5]; replicate 16 7] /\ can_complete_read q' = false.
Proof.
  apply (write_drops_oldest wrapped_messages [3] [[4]] [[5]] 16 (replicate 16 7)).
  - concrete_queue.
  - split; [apply bytes_ok_compute; reflexivity | cbn; lia].
  - cbn [seg]. split; [split; [concrete_payload | exists 4; split; [lia | concrete_bytes]]|].
    split; [|vm_compute; reflexivity].
    split; [concrete_payload | exists 8; split; [lia | concrete_bytes]].
  - left; vm_compute; reflexivity.
  - cbn [seg]. split; [|vm_compute; reflexivity].
    split; [concrete_payload | exists 12; split; [lia | concrete_bytes]].
  - split; vm_compute; congruence.
  - vm_compute; reflexivity.
  - split; vm_compute; congruence.
Defined.

Lemma write_rejects_witness :
  ticosd_queue_write two_messages (Some (zeros 100)) 100 = Val (two_messages, false).
Proof. apply write_rejects. right; right. split; [split|]; vm_compute; reflexivity. Defined.

(** ** Traces and restarts *)
Definition short_trace : list op := [OpWrite [1]; OpReadHead; OpWrite [2; 3]; OpCompleteRead; OpReadHead].

Lemma short_trace_ok : Forall op_ok short_trace.
Proof. unfold short_trace. repeat first [apply Forall_nil_2 | apply Forall_cons_2; [first [exact I | concrete_payload] |]]. Qed.

Lemma first_lap_is_fifo_witness :
  exists q', exec_all (empty_queue true 64) short_trace =
    Val (q', [AnsWrite true; AnsReadHead (Some [1]); AnsWrite true; AnsCompleteRead true; AnsReadHead (Some [2; 3])]) /\
    repr q' [[2; 3]].
Proof.
  apply (first_lap_is_fifo true 64 short_trace);
    [split; [split|]; vm_compute; congruence | apply short_trace_ok | vm_compute; congruence].
Defined.

Lemma restart_preserves_witness :
  exists q q2, exec_all (empty_queue true 64) short_trace = Val (q, snd (fifo_run ([], false) short_trace)) /\
    ticosd_queue_init (file_env (buf q)) 64 = Val (Some q2) /\
    buf q2 = buf q /\ read_ptr q2 = read_ptr q /\ write_ptr q2 = write_ptr q /\ prev_ptr q2 = prev_ptr q /\
    repr q2 [[2; 3]].
Proof.
  apply (restart_preserves 64 short_trace);
    [split; [split|]; vm_compute; congruence | apply short_trace_ok | vm_compute; congruence].
Defined.

Lemma find_forward_terminates_witness : find_forward (queue_fuel two_messages) two_messages 0 0 0 true <> OutOfFuel.
Proof. apply find_forward_terminates. concrete_queue. Defined.

(** ** Findings *)
Lemma flush_message_lost_witness :
  let q := queue_after 16 [OpWrite [1; 2; 3; 4]] in ticosd_queue_read_head true q = Val (q, None).
Proof.
  apply (flush_message_lost (queue_after 16 [OpWrite [1; 2; 3; 4]]) [1; 2; 3; 4] []);
    [|vm_compute; reflexivity..].
  split; [concrete_queue|].
  apply (layout_wrapped _ _ _ _ [[1; 2; 3; 4]] [] 4); [discriminate | discriminate | reflexivity | discriminate | | |].
  - cbn [seg]. split; [concrete_msg | vm_compute; reflexivity].
  - left; vm_compute; reflexivity.
  - vm_compute; reflexivity.
Defined.

Lemma read_head_out_of_bounds_witness :
  ticosd_queue_read_head true (MkQueue true 20 (zeros 20) 4 4 0 false) = Fault.
Proof. apply read_head_out_of_bounds; vm_compute; reflexivity. Defined.
