(* ===== verification/TxQueue.v ===== *)
(** * The transmit queue as the daemon sees it

    [TxQueue] are the operations of queue.h the daemon calls, [TxQueueSpec] what it may
    rely on while other threads write: the calls of the main thread act on a list of unread
    payloads to which others append at any time.  [shared_queue] is the implementation: the
    queue of queue.c with a schedule of the writes other threads make before each call. *)
From S2P Require Import Prelude Queue QueueCrc QueueSpec QueueRefine QueueLap.

Class TxQueue (Q : Type) := {
  queue_read_head : Q -> outcome (Q * option (list Z));
  queue_complete_read : Q -> outcome (Q * bool);
  queue_write : Q -> option (list Z) -> Z -> outcome (Q * bool);
  queue_reset : Q -> outcome Q }.

(** [holds q c ms fut]: [ms] are unread, [c] tells whether the first of them was handed out,
    and others will still write [fut]. *)
Class TxQueueSpec (Q : Type) `{TxQueue Q} := {
  holds : Q -> bool -> list payload -> list payload -> Prop;
  read_head_holds q c ms fut : holds q c ms fut ->
    exists q' new fut', fut = new ++ fut' /\ queue_read_head q = Val (q', head (ms ++ new)) /\
      holds q' (match ms ++ new with [] => c | _ => true end) (ms ++ new) fut';
  complete_read_holds q m ms fut : holds q true (m :: ms) fut ->
    exists q' new fut', fut = new ++ fut' /\ queue_complete_read q = Val (q', true) /\
      holds q' false (ms ++ new) fut' }.

(** ** queue.c behind its mutex *)
Record shared_queue := MkShared {
  shared : sTicosdQueue;
  schedule : list (list payload) }.

Fixpoint write_all (q : sTicosdQueue) (ms : list payload) : outcome sTicosdQueue :=
  match ms with
  | [] => Val q
  | m :: ms => let! (q, _) := ticosd_queue_write q (Some m) (zlen m) in write_all q ms
  end.

(** What the other threads write before the main thread gets the mutex. *)
Definition others (s : shared_queue) : outcome shared_queue :=
  let! q := write_all (shared s) (hd [] (schedule s)) in Val (MkShared q (tail (schedule s))).

#[export] Instance shared_tx_queue : TxQueue shared_queue := {
  queue_read_head s :=
    let! s := others s in
    let! (q, r) := ticosd_queue_read_head true (shared s) in Val (MkShared q (schedule s), r);
  queue_complete_read s :=
    let! s := others s in
    let! (q, r) := ticosd_queue_complete_read (shared s) in Val (MkShared q (schedule s), r);
  queue_write s p n :=
    let! s := others s in
    let! (q, r) := ticosd_queue_write (shared s) p n in Val (MkShared q (schedule s), r);
  queue_reset s :=
    let! s := others s in
    let! q := ticosd_queue_reset (shared s) in Val (MkShared q (schedule s)) }.

(** ** The contract holds within the first lap *)
Definition words (ms : list payload) : Z := words_written (map OpWrite ms).

Definition shared_holds (s : shared_queue) (c : bool) (ms fut : list payload) : Prop :=
  lap_state (shared s) (ms, c) /\ fut = concat (schedule s) /\ Forall payload_ok fut /\
  write_ptr (shared s) + words fut + 3 <= size (shared s) / 4.

Lemma words_app a b : words (a ++ b) = words a + words b.
Proof.
  unfold words. induction a as [|m a IH]; [done|]. cbn [app map words_written]. lia.
Qed.

Lemma words_one m : words [m] = msg_words m.
Proof. unfold words. cbn [map words_written]. lia. Qed.

Lemma words_nonneg ms : Forall payload_ok ms -> 0 <= words ms.
Proof. intros H. apply words_written_nonneg, Forall_map. exact H. Qed.

Lemma write_all_lap new : forall q ms c, lap_state q (ms, c) -> Forall payload_ok new ->
  write_ptr q + words new + 3 <= size q / 4 ->
  exists q', write_all q new = Val q' /\ lap_state q' (ms ++ new, c) /\ size q' = size q /\
    write_ptr q' = write_ptr q + words new.
Proof.
  induction new as [|m new IH]; intros q ms c H Hok Hroom; cbn [write_all].
  - exists q. rewrite app_nil_r. unfold words. cbn [map words_written]. rewrite Z.add_0_r. auto.
  - apply Forall_cons_1 in Hok as [Hm Hok]. change (m :: new) with ([m] ++ new). change (m :: new) with ([m] ++ new) in Hroom.
    rewrite words_app, words_one in *.
    pose proof (words_nonneg new Hok).
    destruct (exec_refines q (ms, c) (OpWrite m) H Hm) as (q1 & E & H1 & S1 & W1); [cbn [words_written]; lia|].
    unfold exec in E. destruct (ticosd_queue_write q (Some m) (zlen m)) as [[q1' ok]| |]; [|done..].
    cbn [obind] in E. apply Val_inj in E. injection E as -> _. cbn [obind].
    destruct (IH q1 (ms ++ [m]) c) as (q2 & E2 & H2 & S2 & W2); [exact H1|done| |].
    { rewrite W1, S1. cbn [words_written]. lia. }
    exists q2. rewrite E2, app_assoc. split; [done|]. split; [exact H2|]. split; [congruence|].
    rewrite W2, W1. cbn [words_written]. lia.
Qed.

Lemma others_holds s c ms fut : shared_holds s c ms fut ->
  exists s' new fut', fut = new ++ fut' /\ others s = Val s' /\ shared_holds s' c (ms ++ new) fut'.
Proof.
  destruct s as [q sched]. intros (H & -> & Hok & Hroom). cbn [shared schedule] in *.
  assert (E : concat sched = hd [] sched ++ concat (tail sched)) by now destruct sched.
  rewrite E in *. apply Forall_app in Hok as [Hn Hf]. rewrite words_app in Hroom. pose proof (words_nonneg _ Hf).
  destruct (write_all_lap (hd [] sched) q ms c H Hn) as (q' & E' & H' & S' & W'); [lia|].
  exists (MkShared q' (tail sched)), (hd [] sched), (concat (tail sched)). split; [done|].
  unfold others. cbn [shared schedule]. rewrite E'. split; [done|]. split; [done|]. split; [done|]. split; [done|].
  cbn [shared]. rewrite W', S'. lia.
Qed.

Lemma exec_step s o st fut : shared_holds s (snd st) (fst st) fut -> op_ok o -> words_written [o] = 0 ->
  exists q', exec (shared s) o = Val (q', snd (fifo_step st o)) /\
    shared_holds (MkShared q' (schedule s)) (snd (fst (fifo_step st o))) (fst (fst (fifo_step st o))) fut.
Proof.
  intros (H & Hf & Hok & Hroom) Ho Hw. destruct st as [ms c]. pose proof (words_nonneg _ Hok).
  destruct (exec_refines (shared s) (ms, c) o H Ho) as (q' & E & H' & S' & W'); [lia|].
  exists q'. split; [exact E|]. split; [now destruct (fst (fifo_step _ o))|]. split; [exact Hf|]. split; [exact Hok|].
  cbn [shared]. rewrite W', S'. lia.
Qed.

#[export] Instance shared_tx_queue_spec : TxQueueSpec shared_queue.
Proof.
  apply (Build_TxQueueSpec shared_queue _ shared_holds).
  - intros s c ms fut H. destruct (others_holds s c ms fut H) as (s1 & new & fut' & E & Eo & H1).
    destruct (exec_step s1 OpReadHead (ms ++ new, c) fut' H1 I eq_refl) as (q' & Ex & H2).
    exists (MkShared q' (schedule s1)), new, fut'. split; [done|]. cbn [queue_read_head shared_tx_queue].
    rewrite Eo. cbn [obind exec] in *.
    destruct (ticosd_queue_read_head true (shared s1)) as [[q1 r]| |]; [|done..]. cbn [obind] in *.
    apply Val_inj in Ex. destruct (ms ++ new) as [|m rest]; cbn in Ex, H2; injection Ex as -> ->; auto.
  - intros s m ms fut H. destruct (others_holds s true (m :: ms) fut H) as (s1 & new & fut' & E & Eo & H1).
    destruct (exec_step s1 OpCompleteRead (m :: ms ++ new, true) fut' H1 I eq_refl) as (q' & Ex & H2).
    exists (MkShared q' (schedule s1)), new, fut'. split; [done|]. cbn [queue_complete_read shared_tx_queue].
    rewrite Eo. cbn [obind exec] in *.
    destruct (ticosd_queue_complete_read (shared s1)) as [[q1 r]| |]; [|done..]. cbn [obind] in *.
    apply Val_inj in Ex. cbn in Ex, H2. injection Ex as -> ->. auto.
Defined.
