(* ===== verification/CLib.v ===== *)
(** * C strings, the allocator, printf formats and calendar time

    What several components use of the C library and of src/util/string.c.  Text is
    [string]; a byte buffer that holds a C string is read up to its NUL with [c_string].
    The allocator answers from a list of booleans that is part of the state: [false] is a
    NULL from malloc, the empty list means no more failures. *)
From Stdlib Require Export String Ascii.
From stdpp Require Export strings.
From S2P Require Import Prelude.

(** ** Stateful computations *)

(** A computation over the state [S] that may run into undefined behaviour. *)
Definition M (S A : Type) : Type := S -> outcome (S * A).

Definition ret {S A} (a : A) : M S A := fun s => Val (s, a).
Definition bind {S A B} (m : M S A) (f : A -> M S B) : M S B :=
  fun s => let! (s', a) := m s in f a s'.
Definition lift {S A} (m : outcome A) : M S A := fun s => let! a := m in Val (s, a).
Definition gets {S A} (f : S -> A) : M S A := fun s => Val (s, f s).
Definition modify {S} (f : S -> S) : M S unit := fun s => Val (f s, tt).
Definition fault {S A} : M S A := fun _ => Fault.

Notation "'let*' x := m 'in' k" := (bind m (fun x => k))
  (at level 10, x pattern, m at level 200, k at level 200).
Notation "'do*' m 'in' k" := (bind m (fun _ => k))
  (at level 10, m at level 200, k at level 200).

(** ** C strings *)
Definition byte_of_ascii (a : ascii) : Z := Z.of_nat (nat_of_ascii a).
Definition ascii_of_byte (b : Z) : ascii := ascii_of_nat (Z.to_nat b).

Fixpoint bytes_of_string (s : string) : list Z :=
  match s with
  | EmptyString => []
  | String a r => byte_of_ascii a :: bytes_of_string r
  end.

(** The text of a file's bytes. *)
Fixpoint string_of_bytes (bs : list Z) : string :=
  match bs with
  | [] => EmptyString
  | b :: bs => String (ascii_of_byte b) (string_of_bytes bs)
  end.

(** The C string at the start of a buffer; without a NUL in it, the reader runs past its end. *)
Fixpoint c_string (bs : list Z) : outcome string :=
  match bs with
  | [] => Fault
  | b :: r => if b =? 0 then Val EmptyString else let! s := c_string r in Val (String (ascii_of_byte b) s)
  end.

(** The characters of a C string: none is NUL. *)
Definition no_nul (s : string) : Prop := Forall (fun b => b <> 0) (bytes_of_string s).

(** ** Allocation *)

Class Heap (S : Type) := {
  heap_get : S -> list bool;
  heap_set : list bool -> S -> S }.

Definition malloc_ok {S} `{Heap S} : M S bool := fun s =>
  match heap_get s with
  | [] => Val (s, true)
  | ok :: rest => Val (heap_set rest s, ok)
  end.

(** ** Decimal numbers *)

(** The digits of [n >= 0] before [rest]; [fuel] bounds their number. *)
Fixpoint print_digits (fuel : nat) (n : Z) (rest : string) : string :=
  let rest' := String (ascii_of_byte (48 + n mod 10)) rest in
  match fuel with
  | O => rest'
  | S fuel => if n <? 10 then rest' else print_digits fuel (n / 10) rest'
  end.

(** The text of a signed integer, as [%d] and [%ld] print it. *)
Definition print_Z (z : Z) : string :=
  let n := Z.abs z in
  let digits := print_digits (Z.to_nat (Z.log2 n)) n EmptyString in
  if z <? 0 then String "-" digits else digits.

Definition is_digit (a : ascii) : bool := (48 <=? byte_of_ascii a) && (byte_of_ascii a <=? 57).

(** isspace *)
Definition is_space (a : ascii) : bool :=
  (byte_of_ascii a =? 32) || ((9 <=? byte_of_ascii a) && (byte_of_ascii a <=? 13)).

Fixpoint skip_spaces (s : string) : string :=
  match s with
  | String a r => if is_space a then skip_spaces r else s
  | EmptyString => s
  end.

(** The value of the digits at the start of [s] after [acc], and what follows them. *)
Fixpoint scan_digits (acc : Z) (s : string) : Z * string :=
  match s with
  | String a r => if is_digit a then scan_digits (10 * acc + (byte_of_ascii a - 48)) r else (acc, s)
  | EmptyString => (acc, s)
  end.

(** A number as [%d] and [%ld] read it: spaces, a sign, at least one digit. *)
Definition scan_Z (s : string) : option (Z * string) :=
  let s := skip_spaces s in
  let '(sign, s) :=
    match s with
    | String "-" r => (-1, r)
    | String "+" r => (1, r)
    | _ => (1, s)
    end in
  match s with
  | String a _ => if is_digit a then let '(n, r) := scan_digits 0 s in Some (sign * n, r) else None
  | EmptyString => None
  end.

(** What [%ld] makes of a number out of range: glibc saturates. *)
Definition clamp_long (t : Z) : Z := Z.max (- 2 ^ 63) (Z.min (2 ^ 63 - 1) t).

(** A number as scanf stores it for [%d], and as atoi returns it: the low 32 bits of that. *)
Definition scan_int (s : string) : option Z :=
  match scan_Z s with
  | Some (n, _) => Some (i32 (clamp_long n))
  | None => None
  end.

(** ** printf *)

(** Arguments: a [char *] ([None] is NULL) or an integer. *)
Inductive printf_arg :=
| ArgS (s : option string)
| ArgZ (z : Z).

(** vsprintf for the directives the source uses.  glibc prints NULL as "(null)"; [%d] reads
    an int, whatever was passed.  A directive without its argument is undefined. *)
Fixpoint vsprintf (fmt : string) (args : list printf_arg) : outcome string :=
  match fmt with
  | EmptyString => Val EmptyString
  | String "%" (String "s" fmt) =>
      match args with
      | ArgS s :: args => let! rest := vsprintf fmt args in Val (default "(null)"%string s +:+ rest)
      | _ => Fault
      end
  | String "%" (String "d" fmt) =>
      match args with
      | ArgZ z :: args => let! rest := vsprintf fmt args in Val (print_Z (i32 z) +:+ rest)
      | _ => Fault
      end
  | String "%" _ => Fault
  | String a fmt => let! rest := vsprintf fmt args in Val (String a rest)
  end.

(** src/util/string.c: [None] is the -1 of a failed malloc. *)
Definition ticos_asprintf {S} `{Heap S} (fmt : string) (args : list printf_arg) : M S (option string) :=
  let* str := lift (vsprintf fmt args) in
  let* ok := malloc_ok in
  ret (if ok : bool then Some str else None).

(** strdup *)
Definition strdup {S} `{Heap S} (s : string) : M S (option string) :=
  let* ok := malloc_ok in
  ret (if ok : bool then Some s else None).

(** ** Laws *)
Lemma string_app_nil_r (a : string) : a +:+ EmptyString = a.
Proof. induction a as [|x a IH]; [done|]. change (String x (a +:+ EmptyString) = String x a). now rewrite IH. Qed.

Lemma byte_of_ascii_ok a : is_byte (byte_of_ascii a).
Proof. unfold byte_of_ascii, is_byte. pose proof (nat_ascii_bounded a). lia. Qed.

Lemma ascii_of_byte_of_ascii a : ascii_of_byte (byte_of_ascii a) = a.
Proof. unfold ascii_of_byte, byte_of_ascii. now rewrite Nat2Z.id, ascii_nat_embedding. Qed.

Lemma string_app_assoc (a b c : string) : (a +:+ b) +:+ c = a +:+ (b +:+ c).
Proof.
  induction a as [|x a IH]; [done|]. change (String x ((a +:+ b) +:+ c) = String x (a +:+ (b +:+ c))). now rewrite IH.
Qed.

Lemma bytes_of_string_app a b : bytes_of_string (a +:+ b) = (bytes_of_string a ++ bytes_of_string b)%list.
Proof.
  induction a as [|x a IH]; [done|].
  change (byte_of_ascii x :: bytes_of_string (a +:+ b) = byte_of_ascii x :: (bytes_of_string a ++ bytes_of_string b)%list).
  now rewrite IH.
Qed.

Lemma byte_of_digit d : 0 <= d < 10 -> byte_of_ascii (ascii_of_byte (48 + d)) = 48 + d.
Proof. intros. unfold byte_of_ascii, ascii_of_byte. rewrite nat_ascii_embedding; lia. Qed.

Lemma scan_digit d acc r : 0 <= d < 10 ->
  scan_digits acc (String (ascii_of_byte (48 + d)) r) = scan_digits (10 * acc + d) r.
Proof.
  intros Hd. cbn [scan_digits]. unfold is_digit. rewrite byte_of_digit by done.
  test_true ((48 <=? 48 + d) && (48 + d <=? 57)). f_equal. lia.
Qed.

Lemma scan_print_digits fuel : forall n r, 0 <= n < 2 ^ (Z.of_nat fuel + 1) ->
  scan_digits 0 (print_digits fuel n r) = scan_digits n r.
Proof.
  induction fuel as [|fuel IH]; intros n r Hn; cbn [print_digits].
  - change (2 ^ (Z.of_nat 0 + 1)) with 2 in Hn. rewrite scan_digit by (apply Z.mod_pos_bound; lia).
    f_equal. rewrite Z.mod_small; lia.
  - pose proof (Z.mod_pos_bound n 10 ltac:(lia)). pose proof (Z.div_mod n 10 ltac:(lia)).
    destruct (n <? 10) eqn:E; tests_to_props.
    + rewrite scan_digit by lia. f_equal. rewrite Z.mod_small; lia.
    + rewrite IH; [rewrite scan_digit by lia; f_equal; lia|].
      rewrite Nat2Z.inj_succ, <- Z.add_1_l, Z.add_comm, Z.add_assoc in Hn.
      split; [apply Z.div_pos; lia|]. apply Z.div_lt_upper_bound; [lia|].
      replace (Z.of_nat fuel + 1) with (1 + Z.of_nat fuel) by lia.
      replace (1 + 1 + Z.of_nat fuel) with (Z.succ (1 + Z.of_nat fuel)) in Hn by lia.
      rewrite Z.pow_succ_r in Hn by lia. pose proof (Z.pow_nonneg 2 (1 + Z.of_nat fuel)). lia.
Qed.

Lemma string_of_bytes_of_string s : string_of_bytes (bytes_of_string s) = s.
Proof. induction s as [|a s IH]; cbn; [done|]. now rewrite ascii_of_byte_of_ascii, IH. Qed.

Lemma c_string_of_bytes s rest : no_nul s -> c_string (bytes_of_string s ++ 0 :: rest) = Val s.
Proof.
  induction s as [|a s IH]; intros H; [done|]. cbn in H. apply Forall_cons_1 in H as [Ha Hs].
  cbn [bytes_of_string app c_string]. test_false (byte_of_ascii a =? 0).
  rewrite IH by done. cbn. now rewrite ascii_of_byte_of_ascii.
Qed.

(** The rest of the buffer after the NUL does not matter. *)
Lemma c_string_app bs rest s : c_string bs = Val s -> c_string (bs ++ rest) = Val s.
Proof.
  revert s. induction bs as [|b bs IH]; intros s; [done|]. cbn. case_test; [done|].
  destruct (c_string bs) as [t| |]; [|done..]. now rewrite (IH t).
Qed.

Lemma c_string_defined bs : In 0 bs -> defined (c_string bs).
Proof.
  induction bs as [|b bs IH]; [done|]. cbn. intros H. case_test; [now eexists|].
  destruct H as [->|H]; [discriminate|]. destruct (IH H) as [s ->]. now eexists.
Qed.

Lemma bind_val {S A B} (m : M S A) (f : A -> M S B) s s' a :
  m s = Val (s', a) -> bind m f s = f a s'.
Proof. intros H. unfold bind. now rewrite H. Qed.

(** Take a successful bind apart. *)
Lemma bind_inv {S A B} (m : M S A) (f : A -> M S B) s r :
  bind m f s = Val r -> exists s' a, m s = Val (s', a) /\ f a s' = Val r.
Proof. unfold bind. destruct (m s) as [[s' a]| |]; [|done..]. eauto. Qed.

(** ** Printed numbers are read back *)
Lemma print_digits_app fuel : forall n r1 r2, print_digits fuel n r1 +:+ r2 = print_digits fuel n (r1 +:+ r2).
Proof.
  induction fuel as [|fuel IH]; intros n r1 r2; cbn [print_digits]; [done|]. destruct (n <? 10); [done|]. apply IH.
Qed.

Lemma print_digits_head fuel : forall n r, 0 <= n -> exists d r', 0 <= d < 10 /\
  print_digits fuel n r = String (ascii_of_byte (48 + d)) r'.
Proof.
  induction fuel as [|fuel IH]; intros n r Hn; cbn [print_digits].
  - exists (n mod 10). pose proof (Z.mod_pos_bound n 10). eexists. split; [lia|done].
  - destruct (n <? 10); [|apply IH, Z.div_pos; lia].
    exists (n mod 10). pose proof (Z.mod_pos_bound n 10). eexists. split; [lia|done].
Qed.

Lemma digit_is_digit d : 0 <= d < 10 -> is_digit (ascii_of_byte (48 + d)) = true /\ is_space (ascii_of_byte (48 + d)) = false.
Proof. intros Hd. unfold is_digit, is_space. rewrite byte_of_digit by done. split; lia. Qed.

Lemma scan_digit_start d r : 0 <= d < 10 ->
  scan_Z (String (ascii_of_byte (48 + d)) r) =
    let '(n, r) := scan_digits 0 (String (ascii_of_byte (48 + d)) r) in Some (1 * n, r).
Proof.
  intros Hd. assert (D : d = 0 \/ d = 1 \/ d = 2 \/ d = 3 \/ d = 4 \/ d = 5 \/ d = 6 \/ d = 7 \/ d = 8 \/ d = 9) by lia.
  now repeat (destruct D as [-> |D]; [reflexivity|]); subst.
Qed.

Lemma scan_minus_digit d r : 0 <= d < 10 ->
  scan_Z (String "-" (String (ascii_of_byte (48 + d)) r)) =
    let '(n, r) := scan_digits 0 (String (ascii_of_byte (48 + d)) r) in Some (-1 * n, r).
Proof.
  intros Hd. assert (D : d = 0 \/ d = 1 \/ d = 2 \/ d = 3 \/ d = 4 \/ d = 5 \/ d = 6 \/ d = 7 \/ d = 8 \/ d = 9) by lia.
  now repeat (destruct D as [-> |D]; [reflexivity|]); subst.
Qed.

(** Text that does not continue a number. *)
Definition no_digit (s : string) : Prop :=
  match s with String a _ => is_digit a = false | EmptyString => True end.

Lemma scan_digits_end n r : no_digit r -> scan_digits n r = (n, r).
Proof. destruct r as [|a r]; cbn; [done|]. now intros ->. Qed.

Lemma scan_print_Z z r : no_digit r -> scan_Z (print_Z z +:+ r) = Some (z, r).
Proof.
  intros Hr. unfold print_Z. set (n := Z.abs z). set (fuel := Z.to_nat (Z.log2 n)).
  assert (Hn : 0 <= n < 2 ^ (Z.of_nat fuel + 1)).
  { split; [lia|]. unfold fuel. rewrite Z2Nat.id by apply Z.log2_nonneg. destruct (Z.eq_dec n 0) as [->|]; [done|].
    pose proof (Z.log2_spec n). rewrite Z.add_1_r. lia. }
  pose proof (scan_print_digits fuel n r Hn) as S. rewrite (scan_digits_end n r Hr) in S.
  destruct (print_digits_head fuel n r (proj1 Hn)) as (d & r' & Hd & E). rewrite E in S.
  destruct (z <? 0) eqn:Ez; tests_to_props.
  - change (String "-" ?a +:+ r) with (String "-" (a +:+ r)). rewrite print_digits_app. change (EmptyString +:+ r) with r.
    rewrite E, scan_minus_digit, S by done. f_equal. f_equal. lia.
  - rewrite print_digits_app. change (EmptyString +:+ r) with r. rewrite E, scan_digit_start, S by done. f_equal. f_equal. lia.
Qed.

Lemma i32_small z : - 2 ^ 31 <= z < 2 ^ 31 -> i32 z = z.
Proof. intros Hz. unfold i32, swrap. change (2 ^ (32 - 1)) with (2 ^ 31). rewrite Z.mod_small; lia. Qed.

Lemma i32_range z : - 2 ^ 31 <= i32 z < 2 ^ 31.
Proof. unfold i32, swrap. change (2 ^ (32 - 1)) with (2 ^ 31). pose proof (Z.mod_pos_bound (z + 2 ^ 31) (2 ^ 32)). lia. Qed.

Lemma clamp_long_small z : - 2 ^ 63 <= z < 2 ^ 63 -> clamp_long z = z.
Proof. unfold clamp_long. lia. Qed.

Lemma scan_int_print z r : - 2 ^ 31 <= z < 2 ^ 31 -> no_digit r -> scan_int (print_Z z +:+ r) = Some z.
Proof. intros Hz Hr. unfold scan_int. rewrite scan_print_Z by done. f_equal. rewrite clamp_long_small by lia. now apply i32_small. Qed.

(** ** The text of a number *)
Lemma no_nul_print_digits fuel : forall n r, no_nul r -> no_nul (print_digits fuel n r).
Proof.
  assert (D : forall n, 48 + n mod 10 <> 0 /\ 0 <= n mod 10 < 10) by (intros n; pose proof (Z.mod_pos_bound n 10); lia).
  induction fuel as [|fuel IH]; intros n r Hr; cbn [print_digits]; [|destruct (n <? 10); [|apply IH]];
    (apply Forall_cons_2; [rewrite byte_of_digit; apply D|exact Hr]).
Qed.

Lemma no_nul_print_Z z : no_nul (print_Z z).
Proof.
  unfold print_Z. destruct (z <? 0); [apply Forall_cons_2; [discriminate|]|]; apply no_nul_print_digits; constructor.
Qed.

Lemma print_digits_length fuel : forall n r k, 0 <= n < 10 ^ (Z.of_nat k + 1) ->
  zlen (bytes_of_string (print_digits fuel n r)) <= Z.of_nat k + 1 + zlen (bytes_of_string r).
Proof.
  induction fuel as [|fuel IH]; intros n r k Hn; cbn [print_digits].
  - cbn [bytes_of_string length]. lia.
  - destruct (n <? 10) eqn:E; [cbn [bytes_of_string length]; lia|]. tests_to_props. destruct k as [|k].
    { change (10 ^ (Z.of_nat 0 + 1)) with 10 in Hn. lia. }
    etransitivity; [apply (IH (n / 10) _ k)|cbn [bytes_of_string length]; lia].
    split; [apply Z.div_pos; lia|]. apply Z.div_lt_upper_bound; [lia|].
    rewrite <- (Z.pow_succ_r 10 (Z.of_nat k + 1)) by lia. replace (Z.succ (Z.of_nat k + 1)) with (Z.of_nat (S k) + 1) by lia. lia.
Qed.

Lemma print_Z_length n k : 0 <= n < 10 ^ (Z.of_nat k + 1) -> zlen (bytes_of_string (print_Z n)) <= Z.of_nat k + 1.
Proof.
  intros Hn. unfold print_Z. test_false (n <? 0). rewrite Z.abs_eq by lia.
  pose proof (print_digits_length (Z.to_nat (Z.log2 n)) n EmptyString k Hn). cbn [bytes_of_string length] in *. lia.
Qed.

(** ** Calendar time: gmtime and strftime with "%FT%TZ"

    A timestamp is a signed 64-bit number of seconds since 1970-01-01T00:00:00Z; the
    calendar is the proleptic Gregorian one. *)
Record tm := MkTm { tm_year : Z; tm_mon : Z; tm_mday : Z; tm_hour : Z; tm_min : Z; tm_sec : Z }.

(** *** Days and dates *)

(** Days from 1970-01-01; years are counted from March, so the leap day comes last. *)
Definition days_from_civil (y m d : Z) : Z :=
  let y := if m <=? 2 then y - 1 else y in
  let mp := if m >? 2 then m - 3 else m + 9 in
  365 * y + y / 4 - y / 100 + y / 400 + (153 * mp + 2) / 5 + d - 1 - 719468.

(** Year of the 400-year era, day of that year. *)
Definition year_of_era (doe : Z) : Z := (doe - doe / 1460 + doe / 36524 - doe / 146096) / 365.
Definition day_of_year (doe yoe : Z) : Z := doe - (365 * yoe + yoe / 4 - yoe / 100).

Definition civil_from_days (days : Z) : Z * Z * Z :=
  let z := days + 719468 in
  let era := z / 146097 in
  let doe := z mod 146097 in
  let yoe := year_of_era doe in
  let doy := day_of_year doe yoe in
  let mp := (5 * doy + 2) / 153 in
  let d := doy - (153 * mp + 2) / 5 + 1 in
  let m := if mp <? 10 then mp + 3 else mp - 9 in
  let y := yoe + era * 400 in
  (if m <=? 2 then y + 1 else y, m, d).

Definition gmtime (timestamp : Z) : tm :=
  let '(y, m, d) := civil_from_days (timestamp / 86400) in
  let s := timestamp mod 86400 in
  MkTm y m d (s / 3600) (s / 60 mod 60) (s mod 60).

Definition timegm (t : tm) : Z :=
  86400 * days_from_civil (tm_year t) (tm_mon t) (tm_mday t) + 3600 * tm_hour t + 60 * tm_min t + tm_sec t.

(** *** Text *)
Definition digit (n : Z) : string := String (ascii_of_byte (48 + n mod 10)) EmptyString.
Definition pad2 (n : Z) : string := digit (n / 10) +:+ digit n.
Definition pad4 (n : Z) : string := pad2 (n / 100) +:+ pad2 n.

Definition iso_text (t : tm) : string :=
  pad4 (tm_year t) +:+ "-" +:+ pad2 (tm_mon t) +:+ "-" +:+ pad2 (tm_mday t) +:+ "T" +:+
  pad2 (tm_hour t) +:+ ":" +:+ pad2 (tm_min t) +:+ ":" +:+ pad2 (tm_sec t) +:+ "Z".

(** strftime into [char iso_timestamp[21]].  Outside the years 0 to 9999 the text does not
    fit or gmtime gives none, and the array is left with unspecified contents. *)
Definition strftime_iso (timestamp : Z) : outcome string :=
  let t := gmtime timestamp in
  if (0 <=? tm_year t) && (tm_year t <=? 9999) then Val (iso_text t) else Fault.

(** The timestamp in the declaration of the array. *)
Example iso_sample : strftime_iso 1669807440 = Val "2022-11-30T11:24:00Z".
Proof. vm_compute. reflexivity. Qed.

Example iso_leap_day : strftime_iso 951782400 = Val "2000-02-29T00:00:00Z".
Proof. vm_compute. reflexivity. Qed.

(** *** Laws *)

(** Within one era the day is found again from its year. *)
Lemma year_of_era_spec doe : 0 <= doe < 146097 ->
  0 <= year_of_era doe <= 399 /\ 0 <= day_of_year doe (year_of_era doe) <= 365.
Proof. intros H. unfold day_of_year, year_of_era. Z.to_euclidean_division_equations. lia. Qed.

Lemma march_year yoe era : 0 <= yoe <= 399 ->
  let y := yoe + era * 400 in
  365 * y + y / 4 - y / 100 + y / 400 = 146097 * era + (365 * yoe + yoe / 4 - yoe / 100).
Proof. intros H y. unfold y. Z.to_euclidean_division_equations. lia. Qed.

Lemma month_range doy : 0 <= doy <= 365 ->
  let mp := (5 * doy + 2) / 153 in 0 <= mp <= 11 /\ 0 <= doy - (153 * mp + 2) / 5 <= 30.
Proof. intros H mp. unfold mp. Z.to_euclidean_division_equations. lia. Qed.

Lemma days_of_date days : let '(y, m, d) := civil_from_days days in days_from_civil y m d = days.
Proof.
  unfold civil_from_days. set (z := days + 719468). pose proof (Z.mod_pos_bound z 146097 ltac:(lia)) as Hd.
  pose proof (Z.div_mod z 146097 ltac:(lia)) as Hz. set (doe := z mod 146097) in *. set (era := z / 146097) in *.
  destruct (year_of_era_spec doe Hd) as [Hy Hdoy]. pose proof (march_year _ era Hy) as E. cbn zeta in E.
  unfold day_of_year in *. set (yoe := year_of_era doe) in *. set (doy := doe - _) in *.
  destruct (month_range doy Hdoy) as [Hm _]. cbn zeta in Hm. set (mp := (5 * doy + 2) / 153) in *.
  unfold days_from_civil. set (y := yoe + era * 400) in *.
  destruct (mp <? 10) eqn:C; tests_to_props.
  - test_false (mp + 3 <=? 2). test_true (mp + 3 >? 2). replace (mp + 3 - 3) with mp by lia. lia.
  - test_true (mp - 9 <=? 2). test_false (mp - 9 >? 2). replace (mp - 9 + 9) with mp by lia.
    replace (y + 1 - 1) with y by lia. lia.
Qed.

(** The date and time found are the ones of the timestamp. *)
Lemma timegm_gmtime t : timegm (gmtime t) = t.
Proof.
  unfold gmtime, timegm. pose proof (days_of_date (t / 86400)) as H.
  destruct (civil_from_days (t / 86400)) as [[y m] d]. cbn [tm_year tm_mon tm_mday tm_hour tm_min tm_sec].
  rewrite H. clear H. Z.to_euclidean_division_equations. lia.
Qed.

Lemma gmtime_ranges t : let g := gmtime t in
  1 <= tm_mon g <= 12 /\ 1 <= tm_mday g <= 31 /\ 0 <= tm_hour g <= 23 /\ 0 <= tm_min g <= 59 /\ 0 <= tm_sec g <= 59.
Proof.
  cbn zeta. unfold gmtime, civil_from_days. set (z := t / 86400 + 719468).
  pose proof (Z.mod_pos_bound z 146097 ltac:(lia)) as Hd. set (doe := z mod 146097) in *.
  destruct (year_of_era_spec doe Hd) as [Hy Hdoy]. set (doy := day_of_year _ _) in *.
  destruct (month_range doy Hdoy) as [Hm Hmd]. cbn zeta in Hm, Hmd. set (mp := (5 * doy + 2) / 153) in *.
  cbn [tm_year tm_mon tm_mday tm_hour tm_min tm_sec].
  split; [case_test; tests_to_props; lia|]. split; [lia|]. Z.to_euclidean_division_equations. lia.
Qed.
