(* ===== verification/Json.v ===== *)
(** * The JSON library

    json-c is third-party code: its values and functions are the parameters of this class,
    one field per function the modelled sources call, with the arguments and results its
    documentation gives.  [None] is the NULL pointer, which json-c also uses for the JSON
    value null. *)
From S2P Require Import Prelude CLib.
#[local] Open Scope Z_scope.

Inductive json_type :=
| json_type_null
| json_type_boolean
| json_type_double
| json_type_int
| json_type_object
| json_type_array
| json_type_string.

#[export] Instance json_type_eq_dec : EqDecision json_type.
Proof. solve_decision. Defined.

Class JsonC := {
  json_object : Type;
  json_tokener_parse : string -> option json_object;
  json_object_object_get_ex : json_object -> string -> option json_object;
  json_object_get_type : json_object -> json_type;
  json_object_get_string : json_object -> string }.

(** The pattern of several callers: a member that is there and is a string. *)
Definition json_string_member `{JsonC} (o : json_object) (key : string) : option string :=
  match json_object_object_get_ex o key with
  | Some object =>
      if decide (json_object_get_type object = json_type_string)
      then Some (json_object_get_string object) else None
  | None => None
  end.

(** ** Building and walking JSON trees *)

(** json-c mutates objects in place; here an update returns the new value.  [json_members] is
    what json_object_object_foreach walks, [json_file_text] what json_object_to_file_ext
    writes and json_object_from_fd reads. *)
Class JsonTree `{JsonC} := {
  json_object_new_object : json_object;
  json_object_new_string : string -> json_object;
  json_object_new_int : Z -> json_object;
  json_object_new_boolean : bool -> json_object;
  json_object_get_boolean : json_object -> bool;
  json_object_get_int : json_object -> Z;
  json_object_object_add : json_object -> string -> option json_object -> json_object;
  json_members : json_object -> list (string * option json_object);
  json_file_text : json_object -> list Z;
  json_object_from_fd : list Z -> option json_object }.

Definition json_is_object `{JsonC} (o : json_object) : bool :=
  bool_decide (json_object_get_type o = json_type_object).

(** Adding to, or walking, something else than an object is undefined. *)
Definition object_add `{JsonTree} (o : json_object) (key : string) (v : option json_object) : outcome json_object :=
  if json_is_object o then Val (json_object_object_add o key v) else Fault.
Definition object_members `{JsonTree} (o : json_object) : outcome (list (string * option json_object)) :=
  if json_is_object o then Val (json_members o) else Fault.

(** The documented laws. *)
Class JsonLaws `{JsonTree} := {
  type_new_object : json_object_get_type json_object_new_object = json_type_object;
  type_new_string s : json_object_get_type (json_object_new_string s) = json_type_string;
  type_new_int z : json_object_get_type (json_object_new_int z) = json_type_int;
  type_new_boolean b : json_object_get_type (json_object_new_boolean b) = json_type_boolean;
  get_new_string s : json_object_get_string (json_object_new_string s) = s;
  get_new_int z : - 2 ^ 31 <= z < 2 ^ 31 -> json_object_get_int (json_object_new_int z) = z;
  get_new_boolean b : json_object_get_boolean (json_object_new_boolean b) = b;
  new_object_empty key : json_object_object_get_ex json_object_new_object key = None;
  type_object_add o key v : json_object_get_type (json_object_object_add o key v) = json_object_get_type o;
  get_added o key v : json_object_get_type o = json_type_object ->
    json_object_object_get_ex (json_object_object_add o key v) key = v;
  get_others o key key' v : key <> key' ->
    json_object_object_get_ex (json_object_object_add o key v) key' = json_object_object_get_ex o key';
  get_member o key : json_object_get_type o = json_type_object ->
    json_object_object_get_ex o key =
      match find (fun kv => String.eqb (fst kv) key) (json_members o) with Some (_, v) => v | None => None end;
  members_nodup o : NoDup (map fst (json_members o));
  (** the members of a tree are smaller trees *)
  json_depth : json_object -> nat;
  member_depth o key v : In (key, Some v) (json_members o) -> (json_depth v < json_depth o)%nat;
  from_fd_text o : json_object_get_type o = json_type_object -> json_object_from_fd (json_file_text o) = Some o }.
