(* ===== verification/Network.v ===== *)
(** * Requests to the server (src/network.c)

    One definition per function of the file.  libcurl is a parameter ([Curl]): the options
    set on its handle since the last reset are recorded as data and given to
    [curl_easy_perform], which calls back [prv_network_write_callback].  The state is the
    handle of the file, the allocator's answers, the files of the device and the state [N]
    of libcurl, network and server.  Messages on stderr are left out, the flag that limits
    them is not. *)
From stdpp Require Import gmap.
From S2P Require Import Prelude CLib Json.
#[local] Open Scope string_scope.
#[local] Open Scope list_scope.
#[local] Open Scope Z_scope.

Inductive eTicosdHttpMethod :=
| kTicosdHttpMethod_POST
| kTicosdHttpMethod_PATCH
| kTicosdHttpMethod_GET.

Inductive eTicosdNetworkResult :=
| kTicosdNetworkResult_OK
| kTicosdNetworkResult_ErrorRetryLater
| kTicosdNetworkResult_ErrorNoRetry.

#[export] Instance http_method_eq_dec : EqDecision eTicosdHttpMethod.
Proof. solve_decision. Defined.
#[export] Instance network_result_eq_dec : EqDecision eTicosdNetworkResult.
Proof. solve_decision. Defined.

Definition files : Type := gmap string (list Z).

(** ** libcurl *)

(** Parts of a form added by curl_formadd. *)
Inductive curl_form :=
| CURLFORM_COPYCONTENTS (name contents : string)
| CURLFORM_FILE (name filename : string).

(** The options the file sets; a [None] is a NULL pointer. *)
Inductive curl_option :=
| CURLOPT_URL (url : option string)
| CURLOPT_HTTPGET (on : Z)
| CURLOPT_POSTFIELDS (payload : option string)
| CURLOPT_HTTPHEADER (headers : list string)
| CURLOPT_NOPROGRESS (on : Z)
| CURLOPT_WRITEFUNCTION
| CURLOPT_WRITEDATA
| CURLOPT_CUSTOMREQUEST (method : string)
| CURLOPT_HTTPPOST (post : list curl_form).

Definition CURLE_OK : Z := 0.

(** struct _write_callback.  [wc_buf] holds the bytes of the allocation that have been
    written: the one byte of [malloc(1)] is not among them. *)
Record _write_callback := MkWriteCallback {
  wc_buf : option (list Z);
  wc_size : Z }.

(** The state a write callback works on: its buffer and the allocator's answers. *)
Definition callback_state : Type := _write_callback * list bool.
Definition write_function : Type := callback_state -> list Z -> Z -> Z -> outcome (callback_state * Z).

Class Curl (N : Type) := {
  (** performs the transfer the options describe, giving the body to the callback;
      returns the CURLcode *)
  curl_easy_perform : write_function -> list curl_option -> files -> callback_state -> N ->
                      outcome (N * callback_state * Z);
  (** CURLINFO_HTTP_CODE of the last transfer, 0 when no answer came *)
  curl_http_code : N -> Z }.

(** ** State *)
Record sTicosdDeviceSettings := MkSettings {
  device_id : string;
  hardware_version : string }.

(** struct TicosdNetwork; [settings] is what [ticosd_get_device_settings] gives for its
    [ticosd] pointer, [curl] the options set on the curl handle. *)
Record sTicosdNetwork := MkNetwork {
  settings : sTicosdDeviceSettings;
  during_network_failure : bool;
  curl : list curl_option;
  base_url : string;
  project_key_header : string;
  software_type : string;
  software_version : string }.

Definition set_during_network_failure (f : bool) (h : sTicosdNetwork) : sTicosdNetwork :=
  MkNetwork (settings h) f (curl h) (base_url h) (project_key_header h) (software_type h) (software_version h).
Definition set_curl (c : list curl_option) (h : sTicosdNetwork) : sTicosdNetwork :=
  MkNetwork (settings h) (during_network_failure h) c (base_url h) (project_key_header h)
    (software_type h) (software_version h).

Record net_state (N : Type) := MkNet {
  handle : sTicosdNetwork;
  allocs : list bool;
  disk : files;
  peer : N }.
Arguments MkNet {N}.
Arguments handle {N}.
Arguments allocs {N}.
Arguments disk {N}.
Arguments peer {N}.

Definition with_handle {N} (f : sTicosdNetwork -> sTicosdNetwork) (s : net_state N) : net_state N :=
  MkNet (f (handle s)) (allocs s) (disk s) (peer s).
Definition with_disk {N} (f : files -> files) (s : net_state N) : net_state N :=
  MkNet (handle s) (allocs s) (f (disk s)) (peer s).

#[export] Instance net_heap N : Heap (net_state N) := {
  heap_get := allocs;
  heap_set a s := MkNet (handle s) a (disk s) (peer s) }.

(** ** Receiving a body *)

(** [contents] are the bytes at the pointer; realloc makes room for the new size and a NUL. *)
Definition prv_network_write_callback : write_function := fun '(recv_buf, heap) contents size nmemb =>
  let total_size := u64 (size * nmemb) in
  match wc_buf recv_buf with
  | None => Val ((recv_buf, heap), total_size)
  | Some buf =>
      let '(ok, heap) := match heap with [] => (true, []) | ok :: heap => (ok, heap) end in
      if negb ok then Val ((recv_buf, heap), 0)
      else if u64 (wc_size recv_buf + total_size + 1) <? wc_size recv_buf + total_size + 1 then Fault
      else
        let! kept := load buf 0 (wc_size recv_buf) in
        let! received := load contents 0 total_size in
        let new_size := wc_size recv_buf + total_size in
        Val ((MkWriteCallback (Some (kept ++ received ++ [0])) new_size, heap), total_size)
  end.

Section Network.
Context {N : Type} `{Curl N} `{JsonC}.
Abbreviation S := (net_state N).

(** ** Setting up the transfer *)
Definition curl_easy_setopt (o : curl_option) : M S unit :=
  modify (with_handle (fun h => set_curl (curl h ++ [o]) h)).
Definition curl_easy_reset : M S unit := modify (with_handle (set_curl [])).

Definition curl_slist_append (headers : list string) (s : string) : list string := headers ++ [s].

(** The transfer itself, on the options set so far. *)
Definition perform (recv_buf : _write_callback) : M S (_write_callback * Z) := fun s =>
  let! (n, (recv_buf, heap), res) :=
    curl_easy_perform prv_network_write_callback (curl (handle s)) (disk s) (recv_buf, allocs s) (peer s) in
  Val (MkNet (handle s) heap (disk s) n, (recv_buf, res)).

(** [malloc(1)], not initialised. *)
Definition malloc_recv_buf : M S _write_callback :=
  let* ok := malloc_ok in ret (MkWriteCallback (if ok : bool then Some [] else None) 0).

(** ** Results *)
Definition prv_log_first_failed_request : M S unit :=
  modify (with_handle (fun h => if negb (during_network_failure h) then set_during_network_failure true h else h)).

Definition prv_log_first_succeeded_request : M S unit :=
  modify (with_handle (fun h => if during_network_failure h then set_during_network_failure false h else h)).

Definition prv_check_error (res : Z) : M S eTicosdNetworkResult :=
  let* http_code := gets (fun s => curl_http_code (peer s)) in
  if negb (res =? CURLE_OK) then
    do* prv_log_first_failed_request in
    ret kTicosdNetworkResult_ErrorRetryLater
  else
    do* prv_log_first_succeeded_request in
    if (http_code >=? 400) && (http_code <=? 499) then ret kTicosdNetworkResult_ErrorNoRetry
    else if (http_code >=? 500) && (http_code <=? 599) then ret kTicosdNetworkResult_ErrorRetryLater
    else ret kTicosdNetworkResult_OK.

Definition prv_create_url (endpoint : string) : M S (option string) :=
  let* h := gets handle in
  ticos_asprintf "%s%s" [ArgS (Some (base_url h)); ArgS (Some endpoint)].

(** ** Server answers *)

(** json_tokener_parse on a received buffer: a NULL or unterminated one is not a string. *)
Definition parse_recvdata (recvdata : option (list Z)) : outcome (option json_object) :=
  match recvdata with
  | None => Fault
  | Some bs => let! s := c_string bs in Val (json_tokener_parse s)
  end.

(** Both return the new [*upload_url] and the success flag. *)
Definition prv_parse_file_upload_prepare_response (recvdata : option (list Z))
    : M S (option string * bool) :=
  let* payload_object := lift (parse_recvdata recvdata) in
  match payload_object with
  | None => ret (None, false)
  | Some payload_object =>
      match json_string_member payload_object "upload_url" with
      | None => ret (None, false)
      | Some object => let* upload_url := strdup object in ret (upload_url, true)
      end
  end.

Definition prv_parse_file_upload_response (recvdata : option (list Z)) : M S (option string * bool) :=
  let* payload_object := lift (parse_recvdata recvdata) in
  match payload_object with
  | None => ret (None, false)
  | Some payload_object =>
      match json_string_member payload_object "url" with
      | None => ret (None, false)
      | Some object => let* upload_url := strdup object in ret (upload_url, true)
      end
  end.

(** ** Requests *)

(** [data] says whether the caller passed a pointer for the body; the second result is
    what is stored there, with a successful request only. *)
Definition ticosd_network_post (endpoint : string) (method : eTicosdHttpMethod) (payload : option string)
    (data : bool) : M S (eTicosdNetworkResult * option (list Z)) :=
  let* url := prv_create_url endpoint in
  match url with
  | None => ret (kTicosdNetworkResult_ErrorRetryLater, None)
  | Some url =>
      let* recv_buf := (if data then malloc_recv_buf else ret (MkWriteCallback None 0)) in
      let* h := gets handle in
      let headers := [] in
      let headers :=
        if decide (method <> kTicosdHttpMethod_GET) then
          curl_slist_append (curl_slist_append headers "Accept: application/json") "Content-Type: application/json"
        else headers in
      let headers := curl_slist_append headers "charset: utf-8" in
      let headers := curl_slist_append headers "X-Tiwater-Debug: true" in
      let headers := curl_slist_append headers (project_key_header h) in
      do* curl_easy_setopt (CURLOPT_URL (Some url)) in
      do* (if decide (method = kTicosdHttpMethod_GET) then curl_easy_setopt (CURLOPT_HTTPGET 1)
           else curl_easy_setopt (CURLOPT_POSTFIELDS payload)) in
      do* curl_easy_setopt (CURLOPT_HTTPHEADER headers) in
      do* curl_easy_setopt (CURLOPT_NOPROGRESS 1) in
      do* curl_easy_setopt CURLOPT_WRITEFUNCTION in
      do* curl_easy_setopt CURLOPT_WRITEDATA in
      do* (if decide (method = kTicosdHttpMethod_PATCH) then curl_easy_setopt (CURLOPT_CUSTOMREQUEST "PATCH")
           else ret tt) in
      let* (recv_buf, res) := perform recv_buf in
      let* result := prv_check_error res in
      let received :=
        if decide (result = kTicosdNetworkResult_OK) then
          if data then wc_buf recv_buf else None
        else None in
      do* curl_easy_reset in
      ret (result, received)
  end.

(** Returns the result and the new [*upload_url]; [None] before it is first stored. *)
Definition prv_file_upload_prepare (endpoint : string) (upload_url : option string)
    : M S (eTicosdNetworkResult * option string) :=
  let* (rc, recvdata) := ticosd_network_post endpoint kTicosdHttpMethod_GET None true in
  if decide (rc <> kTicosdNetworkResult_OK) then ret (rc, upload_url)
  else
    let* (upload_url, parsed) := prv_parse_file_upload_prepare_response recvdata in
    if negb parsed then ret (kTicosdNetworkResult_ErrorRetryLater, upload_url)
    else ret (kTicosdNetworkResult_OK, upload_url).

Definition prv_file_upload (url : option string) (filename : string) (is_gzipped : bool)
    : M S (eTicosdNetworkResult * option string) :=
  let* recv_buf := malloc_recv_buf in
  let post := [CURLFORM_COPYCONTENTS "type" "COREDUMP"; CURLFORM_FILE "file" filename] in
  do* curl_easy_setopt (CURLOPT_URL url) in
  let headers := if is_gzipped then curl_slist_append [] "Content-Encoding: gzip" else [] in
  let headers := curl_slist_append headers "X-Tiwater-Debug: true" in
  do* curl_easy_setopt (CURLOPT_HTTPHEADER headers) in
  do* curl_easy_setopt (CURLOPT_NOPROGRESS 1) in
  do* curl_easy_setopt CURLOPT_WRITEFUNCTION in
  do* curl_easy_setopt CURLOPT_WRITEDATA in
  do* curl_easy_setopt (CURLOPT_HTTPPOST post) in
  let* (recv_buf, res) := perform recv_buf in
  let* rc := prv_check_error res in
  let* (upload_url, parsed) := prv_parse_file_upload_response (wc_buf recv_buf) in
  let rc := if negb parsed then kTicosdNetworkResult_ErrorRetryLater else rc in
  do* curl_easy_reset in
  ret (rc, upload_url).

(** The text between double quotes. *)
Definition quoted (s : string) : string := String "034" (s +:+ String "034" EmptyString).

Definition commit_payload_fmt : string :=
  "{  " +:+ quoted "url" +:+ ": " +:+ quoted "%s" +:+ ",  " +:+ quoted "kind" +:+ ": " +:+ quoted "COREDUMP"
    +:+ ",  " +:+ quoted "size" +:+ ": %d}".

Definition prv_file_upload_commit (endpoint : string) (url : option string) (filesize : Z)
    : M S eTicosdNetworkResult :=
  let* payload := ticos_asprintf commit_payload_fmt [ArgS url; ArgZ filesize] in
  match payload with
  | None => ret kTicosdNetworkResult_ErrorRetryLater
  | Some payload =>
      let* (rc, _) := ticosd_network_post endpoint kTicosdHttpMethod_POST (Some payload) false in ret rc
  end.

Definition ticosd_network_file_upload (commit_endpoint filename : string) (is_gzipped : bool)
    : M S eTicosdNetworkResult :=
  let* h := gets handle in
  let* st := gets (fun s => disk s !! filename) in
  match st with
  | None => ret kTicosdNetworkResult_ErrorNoRetry
  | Some contents =>
      let st_size := zlen contents in
      let* path := ticos_asprintf
        "/chunks/%s/fileUrl?type=Coredump&hardwareVersion=%s&softwareType=%s&softwareVersion=%s"
        [ArgS (Some (device_id (settings h))); ArgS (Some (hardware_version (settings h)));
         ArgS (Some (software_type h)); ArgS (Some (software_version h))] in
      match path with
      | None => ret kTicosdNetworkResult_ErrorRetryLater
      | Some path =>
          let* (rc, upload_url) := prv_file_upload_prepare path None in
          if decide (rc <> kTicosdNetworkResult_OK) then ret rc
          else
            let* (rc, upload_url) := prv_file_upload upload_url filename is_gzipped in
            if decide (rc <> kTicosdNetworkResult_OK) then ret rc
            else
              let* rc := prv_file_upload_commit commit_endpoint upload_url st_size in
              if decide (rc <> kTicosdNetworkResult_OK) then ret rc
              else
                do* modify (with_disk (delete filename)) in
                ret kTicosdNetworkResult_OK
      end
  end.
End Network.

(** ** Construction *)

(** The four strings of the configuration, [None] when [ticosd_get_string] fails. *)
Record network_config := MkNetworkConfig {
  cfg_software_type : option string;
  cfg_software_version : option string;
  cfg_base_url : option string;
  cfg_project_key : option string }.

(** [strlen(s) == 0] or not there. *)
Definition missing (s : option string) : bool :=
  match s with
  | None => true
  | Some s => String.eqb s EmptyString
  end.

(** The answers of the environment: calloc, curl_easy_init, and malloc inside asprintf.
    Without the handle, the cleanup reads a field through a null pointer. *)
Definition ticosd_network_init (calloc_ok curl_ok asprintf_ok : bool) (settings : sTicosdDeviceSettings)
    (cfg : network_config) : outcome (option sTicosdNetwork) :=
  if negb calloc_ok then Fault
  else if negb curl_ok then Val None
  else if missing (cfg_software_type cfg) then Val None
  else if missing (cfg_software_version cfg) then Val None
  else if missing (cfg_base_url cfg) then Val None
  else if missing (cfg_project_key cfg) then Val None
  else
    let! header := vsprintf "Ticos-Project-Key: %s" [ArgS (cfg_project_key cfg)] in
    if negb asprintf_ok then Val None
    else
      let text := default EmptyString in
      Val (Some (MkNetwork settings false [] (text (cfg_base_url cfg)) header
                   (text (cfg_software_type cfg)) (text (cfg_software_version cfg)))).
