(* ===== verification/NetworkSpec.v ===== *)
(** * What the network functions promise

    [CurlSpec] states the documented behaviour of curl_easy_perform; on top of it come the
    functional description of a request and of the three exchanges of an upload. *)
From stdpp Require Import gmap.
From S2P Require Import Prelude CLib Json Network.
#[local] Open Scope string_scope.
#[local] Open Scope list_scope.
#[local] Open Scope Z_scope.

(** ** libcurl's contract *)

(** The body arrives in chunks; a callback that takes fewer bytes than it got ends it. *)
Fixpoint deliver (cb : write_function) (a : callback_state) (chunks : list (list Z)) : outcome (callback_state * bool) :=
  match chunks with
  | [] => Val (a, true)
  | c :: chunks =>
      let! (a, n) := cb a c 1 (zlen c) in
      if n =? zlen c then deliver cb a chunks else Val (a, false)
  end.

Class CurlSpec (N : Type) `{Curl N} := {
  (** what the server sends for these options in this state *)
  body_chunks : list curl_option -> files -> N -> list (list Z);
  (** the state after the transfer and its CURLcode, given whether all was taken *)
  transfer_end : list curl_option -> files -> N -> bool -> N * Z;
  perform_delivers cb opts dsk a n :
    curl_easy_perform cb opts dsk a n =
      let! (a', taken) := deliver cb a (body_chunks opts dsk n) in
      Val ((transfer_end opts dsk n taken).1, a', (transfer_end opts dsk n taken).2);
  not_taken_fails opts dsk n : (transfer_end opts dsk n false).2 <> CURLE_OK;
  body_size opts dsk n : zlen (concat (body_chunks opts dsk n)) < 2 ^ 63 }.

(** The buffer a body ends up in; nothing is written when there was none. *)
Definition body_buffer (chunks : list (list Z)) : list Z :=
  match chunks with [] => [] | _ => concat chunks ++ [0] end.

(** The result of an exchange with this CURLcode and HTTP status. *)
Definition classify (res http_code : Z) : eTicosdNetworkResult :=
  if negb (res =? CURLE_OK) then kTicosdNetworkResult_ErrorRetryLater
  else if (400 <=? http_code) && (http_code <=? 499) then kTicosdNetworkResult_ErrorNoRetry
  else if (500 <=? http_code) && (http_code <=? 599) then kTicosdNetworkResult_ErrorRetryLater
  else kTicosdNetworkResult_OK.

(** The requests, as the server sees them. *)
Definition post_request (h : sTicosdNetwork) (endpoint : string) (m : eTicosdHttpMethod) (payload : option string)
    : list curl_option :=
  let common := ["charset: utf-8"; "X-Tiwater-Debug: true"; project_key_header h] in
  let json := ["Accept: application/json"; "Content-Type: application/json"] in
  let transfer := [CURLOPT_NOPROGRESS 1; CURLOPT_WRITEFUNCTION; CURLOPT_WRITEDATA] in
  CURLOPT_URL (Some (base_url h +:+ endpoint)) ::
  match m with
  | kTicosdHttpMethod_GET => [CURLOPT_HTTPGET 1; CURLOPT_HTTPHEADER common] ++ transfer
  | kTicosdHttpMethod_POST => [CURLOPT_POSTFIELDS payload; CURLOPT_HTTPHEADER (json ++ common)] ++ transfer
  | kTicosdHttpMethod_PATCH =>
      [CURLOPT_POSTFIELDS payload; CURLOPT_HTTPHEADER (json ++ common)] ++ transfer ++ [CURLOPT_CUSTOMREQUEST "PATCH"]
  end.

Definition upload_request (url : option string) (filename : string) (is_gzipped : bool) : list curl_option :=
  [CURLOPT_URL url;
   CURLOPT_HTTPHEADER ((if is_gzipped then ["Content-Encoding: gzip"] else []) ++ ["X-Tiwater-Debug: true"]);
   CURLOPT_NOPROGRESS 1; CURLOPT_WRITEFUNCTION; CURLOPT_WRITEDATA;
   CURLOPT_HTTPPOST [CURLFORM_COPYCONTENTS "type" "COREDUMP"; CURLFORM_FILE "file" filename]].

Definition prepare_endpoint (h : sTicosdNetwork) : string :=
  "/chunks/" +:+ device_id (settings h) +:+ "/fileUrl?type=Coredump&hardwareVersion=" +:+ hardware_version (settings h)
    +:+ "&softwareType=" +:+ software_type h +:+ "&softwareVersion=" +:+ software_version h.

Definition commit_body (url : string) (filesize : Z) : string :=
  "{  " +:+ quoted "url" +:+ ": " +:+ String "034" url +:+ String "034"
    (",  " +:+ quoted "kind" +:+ ": " +:+ quoted "COREDUMP" +:+ ",  " +:+ quoted "size" +:+ ": " +:+ print_Z (i32 filesize) +:+ "}").

(** ** The write callback *)
Section Callback.
Variables (acc rest : list Z).

(** The callback's buffer holds [acc] and perhaps more after it. *)
Lemma callback_step heap chunk : zlen acc + zlen chunk < 2 ^ 63 ->
  prv_network_write_callback (MkWriteCallback (Some (acc ++ rest)) (zlen acc), heap) chunk 1 (zlen chunk) =
    match heap with
    | false :: heap => Val ((MkWriteCallback (Some (acc ++ rest)) (zlen acc), heap), 0)
    | _ => Val ((MkWriteCallback (Some ((acc ++ chunk) ++ [0])) (zlen (acc ++ chunk)), tail heap), zlen chunk)
    end.
Proof.
    intros Hs. unfold prv_network_write_callback. cbn [wc_buf wc_size].
    rewrite Z.mul_1_l, !(u64_small (zlen chunk)), u64_small by lia.
    test_false (zlen acc + zlen chunk + 1 <? zlen acc + zlen chunk + 1).
    assert (L : load (acc ++ rest) 0 (zlen acc) = Val acc).
    { apply load_bytes_at; [|done]. repeat split; rewrite ?length_app; try lia.
      intros i Hi. cbn. now rewrite lookup_app_l by lia. }
    assert (L' : load chunk 0 (zlen chunk) = Val chunk) by (apply load_bytes_at; [|done]; repeat split; lia).
    rewrite L, L'. replace (zlen (acc ++ chunk)) with (zlen acc + zlen chunk) by (rewrite length_app; lia).
    rewrite <- app_assoc.
    destruct heap as [|[] heap]; reflexivity.
Qed.
End Callback.

(** Whatever the allocator answers, the body is received without a fault. *)
Lemma deliver_defined chunks : forall acc rest heap, zlen acc + zlen (concat chunks) < 2 ^ 63 ->
  exists a taken, deliver prv_network_write_callback (MkWriteCallback (Some (acc ++ rest)) (zlen acc), heap) chunks = Val (a, taken).
Proof.
  induction chunks as [|c chunks IH]; intros acc rest heap Hs; cbn [deliver]; [eauto|].
  cbn [concat] in Hs. rewrite length_app in Hs. rewrite callback_step by lia.
  assert (Hs' : zlen (acc ++ c) + zlen (concat chunks) < 2 ^ 63) by (rewrite length_app; lia).
  assert (E : zlen c =? zlen c = true) by lia.
  destruct heap as [|[] heap]; cbn [obind tail]; rewrite ?E; [now apply IH..|].
  case_test; [|eauto]. apply IH. lia.
Qed.

(** Without allocation failures it is received in full. *)
Lemma deliver_all chunks : forall acc rest, zlen acc + zlen (concat chunks) < 2 ^ 63 ->
  exists rest', deliver prv_network_write_callback (MkWriteCallback (Some (acc ++ rest)) (zlen acc), []) chunks
    = Val ((MkWriteCallback (Some ((acc ++ concat chunks) ++ rest')) (zlen (acc ++ concat chunks)), []), true) /\
    rest' = match chunks with [] => rest | _ => [0] end.
Proof.
  induction chunks as [|c chunks IH]; intros acc rest Hs; cbn [deliver concat].
  - exists rest. now rewrite app_nil_r.
  - cbn [concat] in Hs. rewrite length_app in Hs. rewrite callback_step by lia. cbn [obind tail].
    test_true (zlen c =? zlen c). destruct (IH (acc ++ c) [0]) as (rest' & E & Hr); [rewrite length_app; lia|].
    rewrite E. exists rest'. rewrite app_assoc. split; [done|]. rewrite Hr. now destruct chunks.
Qed.

Lemma deliver_from_malloc chunks : zlen (concat chunks) < 2 ^ 63 ->
  deliver prv_network_write_callback (MkWriteCallback (Some []) 0, []) chunks
    = Val ((MkWriteCallback (Some (body_buffer chunks)) (zlen (concat chunks)), []), true).
Proof.
  intros Hs. destruct (deliver_all chunks [] []) as (rest & E & Hr); [exact Hs|].
  change (MkWriteCallback (Some []) 0) with (MkWriteCallback (Some ([] ++ [])) (zlen (@nil Z))). rewrite E, Hr.
  destruct chunks; [done|]. reflexivity.
Qed.

(** A callback without a buffer takes everything and keeps nothing. *)
Lemma deliver_ignored chunks heap : zlen (concat chunks) < 2 ^ 63 ->
  deliver prv_network_write_callback (MkWriteCallback None 0, heap) chunks = Val ((MkWriteCallback None 0, heap), true).
Proof.
  induction chunks as [|c chunks IH]; intros Hs; [done|]. cbn [deliver concat] in *. rewrite length_app in Hs.
  unfold prv_network_write_callback at 1. cbn [wc_buf obind]. rewrite Z.mul_1_l, u64_small by lia.
  test_true (zlen c =? zlen c). apply IH. lia.
Qed.

(** A body that was taken to its end is in the buffer, but for the NUL of an empty one. *)
Lemma deliver_taken chunks : forall acc rest heap a, zlen acc + zlen (concat chunks) < 2 ^ 63 ->
  deliver prv_network_write_callback (MkWriteCallback (Some (acc ++ rest)) (zlen acc), heap) chunks = Val (a, true) ->
  exists rest', wc_buf a.1 = Some ((acc ++ concat chunks) ++ rest') /\ (rest' = [0] \/ rest' = rest /\ concat chunks = []).
Proof.
  induction chunks as [|c chunks IH]; intros acc rest heap a Hs; cbn [deliver concat].
  - intros [= <-]. exists rest. rewrite app_nil_r. auto.
  - cbn [concat] in Hs. rewrite length_app in Hs. rewrite callback_step by lia.
    assert (Hs' : zlen (acc ++ c) + zlen (concat chunks) < 2 ^ 63) by (rewrite length_app; lia).
    assert (E : zlen c =? zlen c = true) by lia.
    destruct heap as [|[] heap]; cbn [obind tail]; rewrite ?E.
    1, 2: intros D; apply IH in D as (rest' & -> & Hr); [|done]; exists rest'; rewrite !app_assoc; intuition.
    case_test; [|done]. tests_to_props. assert (c = []) as -> by (destruct c; [done|cbn in *; lia]).
    intros D. apply IH in D as (rest' & -> & Hr); [|cbn in *; lia]. now exists rest'.
Qed.

(** ** One request *)
Section Requests.
Context {N : Type} `{CurlSpec N} `{JsonC}.
Abbreviation S := (net_state N).

(** The handle after a transfer that ended with this code. *)
Definition after_transfer (res : Z) (h : sTicosdNetwork) : sTicosdNetwork :=
  set_curl [] (set_during_network_failure (negb (res =? CURLE_OK)) h).

Lemma check_error_ok res (s : S) :
  prv_check_error res s = Val (with_handle (set_during_network_failure (negb (res =? CURLE_OK))) s,
                               classify res (curl_http_code (peer s))).
Proof.
    destruct s as [[st f c b p t v] al dk n]. unfold prv_check_error, classify, bind, gets, ret, modify.
    unfold prv_log_first_failed_request, prv_log_first_succeeded_request, modify, with_handle. cbn [peer obind handle].
    rewrite !Z.geb_leb. destruct (negb (res =? CURLE_OK)); destruct f; cbn; repeat case_match; reflexivity.
Qed.

Lemma perform_known wc (s : S) a taken :
  deliver prv_network_write_callback (wc, allocs s) (body_chunks (curl (handle s)) (disk s) (peer s)) = Val (a, taken) ->
  perform wc s =
    Val (MkNet (handle s) a.2 (disk s) (transfer_end (curl (handle s)) (disk s) (peer s) taken).1,
         (a.1, (transfer_end (curl (handle s)) (disk s) (peer s) taken).2)).
Proof. intros E. unfold perform. rewrite perform_delivers, E. now destruct a. Qed.

Lemma malloc_ok_val (s : S) : exists heap,
  malloc_ok s = Val (heap_set heap s, default true (head (allocs s))) /\ heap = tail (allocs s).
Proof. destruct s as [h [|ok al] d n]; cbn; eauto. Qed.

Lemma asprintf_val fmt args str (s : S) : vsprintf fmt args = Val str ->
  ticos_asprintf fmt args s =
    Val (heap_set (tail (allocs s)) s, if default true (head (allocs s)) then Some str else None).
Proof.
    intros E. unfold ticos_asprintf, lift, bind. rewrite E. cbn [obind].
    destruct (malloc_ok_val s) as (heap & -> & ->). reflexivity.
Qed.

Lemma create_url_val endpoint (s : S) :
  prv_create_url endpoint s = Val (heap_set (tail (allocs s)) s,
    if default true (head (allocs s)) then Some (base_url (handle s) +:+ endpoint) else None).
Proof.
    unfold prv_create_url, gets. unfold bind. cbn [obind]. apply asprintf_val. cbn.
    now rewrite string_app_nil_r.
Qed.

(** What a request does once its buffer [wc] is there; [s] is the state before its options
    are set. *)
Definition post_outcome (endpoint : string) m payload (data : bool) (s : S) (a : callback_state) (taken : bool) :=
  let '(n, res) := transfer_end (post_request (handle s) endpoint m payload) (disk s) (peer s) taken in
  let rc := classify res (curl_http_code n) in
  Val (MkNet (after_transfer res (handle s)) a.2 (disk s) n,
       (rc, if decide (rc = kTicosdNetworkResult_OK) then if data then wc_buf a.1 else None else None)).

Lemma post_transfer endpoint m payload (data : bool) (s s1 : S) wc a taken : curl (handle s) = [] ->
  default true (head (allocs s)) = true ->
  (if data then malloc_recv_buf else ret (MkWriteCallback None 0)) (heap_set (tail (allocs s)) s) = Val (s1, wc) ->
  handle s1 = handle s -> disk s1 = disk s -> peer s1 = peer s ->
  deliver prv_network_write_callback (wc, allocs s1)
    (body_chunks (post_request (handle s) endpoint m payload) (disk s) (peer s)) = Val (a, taken) ->
  ticosd_network_post endpoint m payload data s = post_outcome endpoint m payload data s a taken.
Proof.
    intros Hc Hal E Eh Ed Ep D. unfold ticosd_network_post.
    rewrite (bind_val _ _ _ _ _ (create_url_val endpoint s)), Hal.
    rewrite (bind_val _ _ _ _ _ E).
    destruct s1 as [h1 al1 d1 n1]; cbn [handle disk peer allocs] in Eh, Ed, Ep, D |- *. subst h1 d1 n1.
    destruct s as [[st f c b p t v] al0 dk n]; cbn [handle curl disk peer] in *. subst c.
    unfold post_outcome. set (req := post_request _ _ _ _) in *. cbn [disk peer handle].
    assert (T : forall k : _ -> M S (eTicosdNetworkResult * option (list Z)),
      (let* r := perform wc in k r) (MkNet (MkNetwork st f req b p t v) al1 dk n) =
      k (a.1, (transfer_end req dk n taken).2) (MkNet (MkNetwork st f req b p t v) a.2 dk (transfer_end req dk n taken).1)).
    { intros k. apply bind_val. now apply perform_known. }
    destruct (transfer_end req dk n taken) as [n' res] eqn:TE. cbn [fst snd] in T.
    assert (R : (let* (recv_buf, res) := perform wc in
      let* result := prv_check_error res in
      let received :=
        if decide (result = kTicosdNetworkResult_OK) then
          if data then wc_buf recv_buf else None
        else None in
      do* curl_easy_reset in
      ret (result, received)) (MkNet (MkNetwork st f req b p t v) al1 dk n) =
      Val (MkNet (after_transfer res (MkNetwork st f [] b p t v)) a.2 dk n',
           (classify res (curl_http_code n'),
            if decide (classify res (curl_http_code n') = kTicosdNetworkResult_OK)
            then if data then wc_buf a.1 else None else None))).
    { rewrite T. rewrite (bind_val _ _ _ _ _ (check_error_ok res _)). reflexivity. }
    etransitivity; [|exact R]. subst req. destruct m; reflexivity.
Qed.
Lemma post_no_url endpoint m payload data (s : S) : default true (head (allocs s)) = false ->
  ticosd_network_post endpoint m payload data s =
    Val (heap_set (tail (allocs s)) s, (kTicosdNetworkResult_ErrorRetryLater, None)).
Proof.
    intros Hal. unfold ticosd_network_post. now rewrite (bind_val _ _ _ _ _ (create_url_val endpoint s)), Hal.
Qed.

(** Every request is refused for want of a URL, or is the transfer [post_outcome]. *)
Lemma post_cases endpoint m payload data (s : S) : curl (handle s) = [] ->
  let chunks := body_chunks (post_request (handle s) endpoint m payload) (disk s) (peer s) in
  (exists heap, ticosd_network_post endpoint m payload data s =
     Val (heap_set heap s, (kTicosdNetworkResult_ErrorRetryLater, None)) /\ allocs s <> []) \/
  (exists has_buf heap a taken, (has_buf = true -> data = true) /\
     (allocs s = [] -> heap = [] /\ has_buf = data) /\
     deliver prv_network_write_callback (MkWriteCallback (if has_buf then Some [] else None) 0, heap) chunks = Val (a, taken) /\
     ticosd_network_post endpoint m payload data s = post_outcome endpoint m payload data s a taken).
Proof.
    intros Hc chunks. destruct (default true (head (allocs s))) eqn:Hal; [right|left].
    2: { rewrite post_no_url by done. eexists. split; [done|]. intros E. now rewrite E in Hal. }
    assert (P : exists has_buf s1, (has_buf = true -> data = true) /\ (allocs s = [] -> allocs s1 = [] /\ has_buf = data) /\
      (if data then malloc_recv_buf else ret (MkWriteCallback None 0)) (heap_set (tail (allocs s)) s) =
        Val (s1, MkWriteCallback (if has_buf : bool then Some [] else None) 0) /\
      handle s1 = handle s /\ disk s1 = disk s /\ peer s1 = peer s).
    { destruct data.
      - unfold malloc_recv_buf. destruct (malloc_ok_val (heap_set (tail (allocs s)) s)) as (heap & E & ->).
        rewrite (bind_val _ _ _ _ _ E). exists (default true (head (tail (allocs s)))), (heap_set (tail (tail (allocs s))) s).
        split; [done|]. split; [|done]. intros Eq. cbn. now rewrite Eq.
      - exists false, (heap_set (tail (allocs s)) s). split; [done|]. split; [|done]. intros Eq. cbn. now rewrite Eq. }
    destruct P as (has_buf & s1 & Hd & Hq & E & Eh & Ed & Ep).
    assert (D : exists a taken, deliver prv_network_write_callback
      (MkWriteCallback (if has_buf then Some [] else None) 0, allocs s1) chunks = Val (a, taken)).
    { pose proof (body_size (post_request (handle s) endpoint m payload) (disk s) (peer s)) as Hs.
      destruct has_buf; [exact (deliver_defined _ [] [] _ Hs)|]. rewrite deliver_ignored by done. eauto. }
    destruct D as (a & taken & D). exists has_buf, (allocs s1), a, taken. split; [done|]. split; [done|].
    split; [done|]. now apply (post_transfer _ _ _ _ _ s1 _ _ _ Hc Hal E Eh Ed Ep).
Qed.


(** ** Reading an answer *)
Definition text_of (chunks : list (list Z)) : string :=
  match c_string (concat chunks ++ [0]) with Val t => t | _ => EmptyString end.

(** The string member [key] of a JSON answer. *)
Definition answer_member (chunks : list (list Z)) (key : string) : option string :=
  match json_tokener_parse (text_of chunks) with
  | Some o => json_string_member o key
  | None => None
  end.

(** What the buffer of a finished body may hold. *)
Definition received (chunks : list (list Z)) (body : option (list Z)) : Prop :=
  body = None \/ exists rest, body = Some (concat chunks ++ rest) /\ (rest = [0] \/ rest = [] /\ concat chunks = []).

Definition parse_answer (key : string) (recvdata : option (list Z)) : M S (option string * bool) :=
  let* payload_object := lift (parse_recvdata recvdata) in
  match payload_object with
  | None => ret (None, false)
  | Some payload_object =>
      match json_string_member payload_object key with
      | None => ret (None, false)
      | Some object => let* upload_url := strdup object in ret (upload_url, true)
      end
  end.

Lemma c_string_body chunks : c_string (concat chunks ++ [0]) = Val (text_of chunks).
Proof.
    unfold text_of. destruct (c_string_defined (concat chunks ++ [0])) as [t ->]; [|done].
    apply in_or_app. right. now left.
Qed.

Lemma parse_answer_state key body (s s' : S) r : parse_answer key body s = Val (s', r) ->
  exists heap, s' = heap_set heap s.
Proof.
    intros E. apply bind_inv in E as (s1 & o & E1 & E). unfold lift in E1.
    destruct (parse_recvdata body) as [o'| |]; [|done..]. apply Val_inj in E1. injection E1 as <- <-.
    assert (K : s = heap_set (allocs s) s) by now destruct s.
    destruct o' as [o|]; [|apply Val_inj in E; injection E as <- _; eauto].
    destruct (json_string_member o key); [|apply Val_inj in E; injection E as <- _; eauto].
    unfold strdup in E. destruct (malloc_ok_val s) as (heap & Em & _).
    rewrite (bind_val _ _ _ _ _ (bind_val _ _ _ _ _ Em)) in E. apply Val_inj in E. injection E as <- _. eauto.
Qed.

Lemma parse_answer_value key chunks rest (s : S) : rest = [0] \/ (exists r, rest = 0 :: r) ->
  parse_answer key (Some (concat chunks ++ rest)) s =
    match answer_member chunks key with
    | None => Val (s, (None, false))
    | Some url => Val (heap_set (tail (allocs s)) s, (if default true (head (allocs s)) then Some url else None, true))
    end.
Proof.
    intros Hr. assert (P : parse_recvdata (Some (concat chunks ++ rest)) = Val (json_tokener_parse (text_of chunks))).
    { cbn. destruct Hr as [->|[r ->]]; [now rewrite c_string_body|].
      change (0 :: r) with ([0] ++ r). now rewrite app_assoc, (c_string_app _ _ _ (c_string_body chunks)). }
    unfold parse_answer, lift, answer_member. unfold bind at 1. rewrite P. cbn [obind].
    destruct (json_tokener_parse _) as [o|]; [|done]. destruct (json_string_member o key); [|done].
    unfold strdup. destruct (malloc_ok_val s) as (heap & Em & ->).
    now rewrite (bind_val _ _ _ _ _ (bind_val _ _ _ _ _ Em)).
Qed.

Lemma parse_answer_inv key chunks body (s s' : S) u parsed : received chunks body ->
  parse_answer key body s = Val (s', (u, parsed)) ->
  (parsed = true -> exists url, answer_member chunks key = Some url /\ (u = Some url \/ u = None)) /\
  (parsed = false -> u = None).
Proof.
    intros [->|(rest & -> & [->|[-> Z]])] E; [done| |].
    - rewrite parse_answer_value in E by auto. destruct (answer_member chunks key) as [url|];
        apply Val_inj in E; injection E as _ <- <-; split; try done. intros _. exists url.
      destruct (default true _); auto.
    - rewrite Z in E. done.
Qed.

(** ** The exchanges of an upload *)

(** The server takes the whole request and answers neither 4xx nor 5xx. *)
Definition accepted (opts : list curl_option) (dsk : files) (n n' : N) : Prop :=
  exists res, transfer_end opts dsk n true = (n', res) /\ classify res (curl_http_code n') = kTicosdNetworkResult_OK.

Lemma classify_ok res http : classify res http = kTicosdNetworkResult_OK -> res = CURLE_OK.
Proof. unfold classify. destruct (res =? CURLE_OK) eqn:E; [|done]. intros _. now apply Z.eqb_eq. Qed.

(** Of a transfer that ended well, everything was received. *)
Lemma delivered_body opts dsk n n' (has_buf : bool) heap a taken res :
  deliver prv_network_write_callback (MkWriteCallback (if has_buf then Some [] else None) 0, heap) (body_chunks opts dsk n)
    = Val (a, taken) ->
  transfer_end opts dsk n taken = (n', res) -> classify res (curl_http_code n') = kTicosdNetworkResult_OK ->
  accepted opts dsk n n' /\ received (body_chunks opts dsk n) (wc_buf a.1).
Proof.
    intros D TE Hc. pose proof (classify_ok _ _ Hc) as ->. destruct taken.
    2: { pose proof (not_taken_fails opts dsk n) as F. rewrite TE in F. now destruct F. }
    split; [now exists CURLE_OK|]. pose proof (body_size opts dsk n) as Hs. destruct has_buf.
    - apply (deliver_taken _ [] []) in D as (rest & E & Hr); [|exact Hs]. right. exists rest. split; [exact E|].
      destruct Hr as [->|[-> ?]]; auto.
    - rewrite deliver_ignored in D by done. apply Val_inj in D. injection D as <-. now left.
Qed.

Lemma post_ok_inv endpoint m payload data (s s' : S) body : curl (handle s) = [] ->
  ticosd_network_post endpoint m payload data s = Val (s', (kTicosdNetworkResult_OK, body)) ->
  let req := post_request (handle s) endpoint m payload in
  accepted req (disk s) (peer s) (peer s') /\ handle s' = after_transfer CURLE_OK (handle s) /\
  (data = true -> received (body_chunks req (disk s) (peer s)) body).
Proof.
    intros Hc E req. destruct (post_cases endpoint m payload data s Hc) as [(heap & E' & _)|(b & heap & a & taken & Hb & _ & D & E')].
    { rewrite E' in E. now apply Val_inj in E. }
    rewrite E' in E. unfold post_outcome in E. fold req in D, E. destruct (transfer_end _ _ _ _) as [n res] eqn:TE.
    apply Val_inj in E. injection E as <- Hrc Hbody. cbn [peer handle].
    destruct (delivered_body _ _ _ _ _ _ _ _ _ D TE Hrc) as [A R]. apply classify_ok in Hrc as Er. subst res.
    repeat split; auto. intros ->. destruct (decide _); [|done]. now subst body.
Qed.

(** The handle's strings do not change. *)
Lemma post_frame endpoint m payload data (s s' : S) r : curl (handle s) = [] ->
  ticosd_network_post endpoint m payload data s = Val (s', r) ->
  disk s' = disk s /\ curl (handle s') = [] /\ exists f, handle s' = set_during_network_failure f (handle s).
Proof.
    intros Hc E. assert (Hh : forall f, set_curl [] (set_during_network_failure f (handle s)) = set_during_network_failure f (handle s)).
    { intros f. destruct (handle s) as [st f' c b p t v]. cbn in *. now subst c. }
    destruct (post_cases endpoint m payload data s Hc) as [(heap & E' & _)|(b & heap & a & taken & _ & _ & _ & E')];
      rewrite E' in E.
    - apply Val_inj in E. injection E as <- _. cbn. repeat split; [done|]. exists (during_network_failure (handle s)).
      now destruct (handle s).
    - unfold post_outcome in E. destruct (transfer_end _ _ _ _) as [n res]. apply Val_inj in E. injection E as <- _.
      cbn [disk handle]. repeat split. eexists. apply Hh.
Qed.
End Requests.
