(* ===== verification/NetworkUpload.v ===== *)
(** * Uploading a file

    The three exchanges of [ticosd_network_file_upload]: a core dump is removed from the
    device only when the server accepted the last of them, and it is removed then. *)
From stdpp Require Import gmap.
From S2P Require Import Prelude CLib Json Network NetworkSpec.
#[local] Open Scope string_scope.
#[local] Open Scope list_scope.
#[local] Open Scope Z_scope.

Section Upload.
Context {N : Type} `{CurlSpec N} `{JsonC}.
Abbreviation S := (net_state N).

(** ** The exchange that carries the file *)
Definition file_upload_outcome (url : option string) filename gz (s : S) (a : callback_state) (taken : bool) :=
  let req := upload_request url filename gz in
  let '(n, res) := transfer_end req (disk s) (peer s) taken in
  let rc := classify res (curl_http_code n) in
  let! (s2, (u, parsed)) := parse_answer "url" (wc_buf a.1)
    (MkNet (set_during_network_failure (negb (res =? CURLE_OK)) (set_curl req (handle s))) a.2 (disk s) n) in
  Val (with_handle (set_curl []) s2, (if negb parsed then kTicosdNetworkResult_ErrorRetryLater else rc, u)).

Lemma file_upload_transfer url filename gz (s s1 : S) wc a taken : curl (handle s) = [] ->
  malloc_recv_buf s = Val (s1, wc) -> handle s1 = handle s -> disk s1 = disk s -> peer s1 = peer s ->
  deliver prv_network_write_callback (wc, allocs s1)
    (body_chunks (upload_request url filename gz) (disk s) (peer s)) = Val (a, taken) ->
  prv_file_upload url filename gz s = file_upload_outcome url filename gz s a taken.
Proof.
    intros Hc E Eh Ed Ep D. unfold prv_file_upload. rewrite (bind_val _ _ _ _ _ E).
    destruct s1 as [h1 al1 d1 n1]; cbn [handle disk peer allocs] in Eh, Ed, Ep, D |- *. subst h1 d1 n1.
    destruct s as [[st f c b p t v] al0 dk n]; cbn [handle curl disk peer] in *. subst c.
    unfold file_upload_outcome. set (req := upload_request url filename gz) in *. cbn [disk peer handle].
    assert (T : forall k : _ -> M S (eTicosdNetworkResult * option string),
      (let* r := perform wc in k r) (MkNet (MkNetwork st f req b p t v) al1 dk n) =
      k (a.1, (transfer_end req dk n taken).2) (MkNet (MkNetwork st f req b p t v) a.2 dk (transfer_end req dk n taken).1)).
    { intros k. apply bind_val. now apply perform_known. }
    destruct (transfer_end req dk n taken) as [n' res] eqn:TE. cbn [fst snd] in T.
    transitivity ((let* (recv_buf, res) := perform wc in
      let* rc := prv_check_error res in
      let* (upload_url, parsed) := prv_parse_file_upload_response (wc_buf recv_buf) in
      let rc := if negb parsed then kTicosdNetworkResult_ErrorRetryLater else rc in
      do* curl_easy_reset in
      ret (rc, upload_url)) (MkNet (MkNetwork st f req b p t v) al1 dk n)).
    { subst req. destruct gz; reflexivity. }
    rewrite T, (bind_val _ _ _ _ _ (check_error_ok res _)). unfold bind at 1.
    match goal with |- _ = obind ?m _ => change (prv_parse_file_upload_response _ _) with m; destruct m as [[s2 [u parsed]]| |] end;
      reflexivity.
Qed.

Lemma file_upload_cases url filename gz (s : S) : curl (handle s) = [] ->
  exists (has_buf : bool) heap a taken, (allocs s = [] -> heap = [] /\ has_buf = true) /\
    deliver prv_network_write_callback (MkWriteCallback (if has_buf then Some [] else None) 0, heap)
      (body_chunks (upload_request url filename gz) (disk s) (peer s)) = Val (a, taken) /\
    prv_file_upload url filename gz s = file_upload_outcome url filename gz s a taken.
Proof.
    intros Hc. destruct (malloc_ok_val s) as (heap & E & Eh).
    set (b := default true (head (allocs s))) in *.
    assert (D : exists a taken, deliver prv_network_write_callback (MkWriteCallback (if b then Some [] else None) 0, heap)
      (body_chunks (upload_request url filename gz) (disk s) (peer s)) = Val (a, taken)).
    { pose proof (body_size (upload_request url filename gz) (disk s) (peer s)) as Hs.
      destruct b; [exact (deliver_defined _ [] [] _ Hs)|]. rewrite deliver_ignored by done. eauto. }
    destruct D as (a & taken & D). exists b, heap, a, taken. split; [|split; [done|]].
    - intros Eq. subst b heap. now rewrite Eq.
    - apply (file_upload_transfer _ _ _ s (heap_set heap s) (MkWriteCallback (if b then Some [] else None) 0)); try done.
      unfold malloc_recv_buf. now rewrite (bind_val _ _ _ _ _ E).
Qed.

Lemma file_upload_frame url filename gz (s s' : S) r : curl (handle s) = [] ->
  prv_file_upload url filename gz s = Val (s', r) ->
  disk s' = disk s /\ curl (handle s') = [] /\ exists f, handle s' = set_during_network_failure f (handle s).
Proof.
    intros Hc E. destruct (file_upload_cases url filename gz s Hc) as (b & heap & a & taken & _ & D & E'). rewrite E' in E.
    unfold file_upload_outcome in E. destruct (transfer_end _ _ _ _) as [n res] eqn:TE.
    destruct (parse_answer _ _ _) as [[s2 [u parsed]]| |] eqn:P; [|done..]. apply Val_inj in E. injection E as <- _.
    apply parse_answer_state in P as [heap' ->]. split; [done|]. split; [done|]. exists (negb (res =? CURLE_OK)).
    cbn [heap_set net_heap with_handle handle]. destruct (handle s) as [st f c b' p t v]. cbn in Hc. now subst c.
Qed.

Lemma file_upload_ok_inv url filename gz (s s' : S) u : curl (handle s) = [] ->
  prv_file_upload url filename gz s = Val (s', (kTicosdNetworkResult_OK, u)) ->
  let req := upload_request url filename gz in
  accepted req (disk s) (peer s) (peer s') /\
  exists text, answer_member (body_chunks req (disk s) (peer s)) "url" = Some text /\ (u = Some text \/ u = None).
Proof.
    intros Hc E req. destruct (file_upload_cases url filename gz s Hc) as (b & heap & a & taken & _ & D & E'). rewrite E' in E.
    unfold file_upload_outcome in E. fold req in D, E. destruct (transfer_end _ _ _ _) as [n res] eqn:TE.
    destruct (parse_answer _ _ _) as [[s2 [u' parsed]]| |] eqn:P; [|done..]. apply Val_inj in E. injection E as <- Hrc <-.
    destruct parsed; [|done]. cbn [negb] in Hrc. destruct (delivered_body _ _ _ _ _ _ _ _ _ D TE Hrc) as [A R].
    split; [|now apply (parse_answer_inv _ _ _ _ _ _ _ R P)].
    apply parse_answer_state in P as [heap' ->]. exact A.
Qed.

(** ** The whole upload *)

(** What the server has accepted, with the states [n] .. [n3] it went through: the location
    request, the file, the message that names the stored file.  The two URLs are the ones
    the server answered (or NULL, when strdup failed). *)
Definition file_delivered (h : sTicosdNetwork) (dsk : files) commit_endpoint filename gz (contents : list Z)
    (n n3 : N) : Prop :=
  exists n1 n2 u1 u2 text1 text2,
    let get := post_request h (prepare_endpoint h) kTicosdHttpMethod_GET None in
    let put := upload_request u1 filename gz in
    accepted get dsk n n1 /\ answer_member (body_chunks get dsk n) "upload_url" = Some text1 /\
    (u1 = Some text1 \/ u1 = None) /\
    accepted put dsk n1 n2 /\ answer_member (body_chunks put dsk n1) "url" = Some text2 /\
    (u2 = Some text2 \/ u2 = None) /\
    accepted (post_request h commit_endpoint kTicosdHttpMethod_POST
      (Some (commit_body (default "(null)" u2) (zlen contents)))) dsk n2 n3.

Lemma prepare_endpoint_val (s : S) :
  ticos_asprintf "/chunks/%s/fileUrl?type=Coredump&hardwareVersion=%s&softwareType=%s&softwareVersion=%s"
    [ArgS (Some (device_id (settings (handle s)))); ArgS (Some (hardware_version (settings (handle s))));
     ArgS (Some (software_type (handle s))); ArgS (Some (software_version (handle s)))] s =
  Val (heap_set (tail (allocs s)) s, if default true (head (allocs s)) then Some (prepare_endpoint (handle s)) else None).
Proof. apply asprintf_val. cbn. now rewrite string_app_nil_r. Qed.

Lemma commit_body_val url filesize (s : S) :
  ticos_asprintf commit_payload_fmt [ArgS url; ArgZ filesize] s =
  Val (heap_set (tail (allocs s)) s,
       if default true (head (allocs s)) then Some (commit_body (default "(null)" url) filesize) else None).
Proof. apply asprintf_val. reflexivity. Qed.

Lemma prepare_ok_inv endpoint u0 (s s' : S) u : curl (handle s) = [] ->
  prv_file_upload_prepare endpoint u0 s = Val (s', (kTicosdNetworkResult_OK, u)) ->
  let get := post_request (handle s) endpoint kTicosdHttpMethod_GET None in
  accepted get (disk s) (peer s) (peer s') /\
  exists text, answer_member (body_chunks get (disk s) (peer s)) "upload_url" = Some text /\ (u = Some text \/ u = None).
Proof.
    intros Hc E get. unfold prv_file_upload_prepare in E. apply bind_inv in E as (s1 & [rc recvdata] & E1 & E).
    destruct (decide (rc <> kTicosdNetworkResult_OK)) as [Hrc|Hrc].
    { apply Val_inj in E. injection E as <- -> _. now destruct Hrc. }
    apply dec_stable in Hrc. subst rc. destruct (post_ok_inv _ _ _ _ _ _ _ Hc E1) as (A & _ & R).
    specialize (R eq_refl). apply bind_inv in E as (s2 & [u' parsed] & P & E).
    destruct parsed; cbn [negb] in E; apply Val_inj in E; injection E; [|done]. intros <- <-.
    split; [|now apply (parse_answer_inv _ _ _ _ _ _ _ R P)].
    apply (parse_answer_state "upload_url") in P as [heap ->]. exact A.
Qed.

Lemma prepare_frame endpoint u0 (s s' : S) r : curl (handle s) = [] ->
  prv_file_upload_prepare endpoint u0 s = Val (s', r) ->
  disk s' = disk s /\ curl (handle s') = [] /\ exists f, handle s' = set_during_network_failure f (handle s).
Proof.
    intros Hc E. apply bind_inv in E as (s1 & [rc recvdata] & E1 & E). pose proof E1 as F; apply post_frame in F; [|done].
    destruct (decide (rc <> kTicosdNetworkResult_OK)); [apply Val_inj in E; now injection E as <- _|].
    apply bind_inv in E as (s2 & [u' parsed] & P & E). apply (parse_answer_state "upload_url") in P as [heap ->].
    destruct (negb parsed); apply Val_inj in E; now injection E as <- _.
Qed.

Lemma commit_frame endpoint url filesize (s s' : S) rc : curl (handle s) = [] ->
  prv_file_upload_commit endpoint url filesize s = Val (s', rc) ->
  disk s' = disk s /\
  (rc = kTicosdNetworkResult_OK -> accepted (post_request (handle s) endpoint kTicosdHttpMethod_POST
     (Some (commit_body (default "(null)" url) filesize))) (disk s) (peer s) (peer s')).
Proof.
    intros Hc E. unfold prv_file_upload_commit in E. rewrite (bind_val _ _ _ _ _ (commit_body_val url filesize s)) in E.
    destruct (default true _); [|apply Val_inj in E; now injection E as <- <-].
    apply bind_inv in E as (s1 & [rc' b] & E1 & E). apply Val_inj in E. injection E as <- <-.
    pose proof E1 as F; apply post_frame in F; [|done]. split; [apply F|]. intros ->.
    apply post_ok_inv in E1 as (A & _); [exact A|exact Hc].
Qed.

(** C6: a core dump is deleted from the device only after the server accepted the request
    for a location, the file itself and the message naming the stored file, with the URLs it
    answered; with every other result no file changes.  This holds for any allocator and
    any server. *)
Theorem upload_deletes_delivered commit_endpoint filename gz (s s' : S) rc : curl (handle s) = [] ->
  ticosd_network_file_upload commit_endpoint filename gz s = Val (s', rc) ->
  if decide (rc = kTicosdNetworkResult_OK) then
    exists contents, disk s !! filename = Some contents /\ disk s' = delete filename (disk s) /\
      file_delivered (handle s) (disk s) commit_endpoint filename gz contents (peer s) (peer s')
  else disk s' = disk s.
Proof.
    intros Hc E. unfold ticosd_network_file_upload in E. apply bind_inv in E as (s0 & h & E0 & E).
    apply Val_inj in E0. injection E0 as <- <-. apply bind_inv in E as (s0 & st & E0 & E).
    apply Val_inj in E0. injection E0 as <- <-.
    destruct (disk s !! filename) as [contents|] eqn:F; [|apply Val_inj in E; now injection E as <- <-].
    rewrite (bind_val _ _ _ _ _ (prepare_endpoint_val s)) in E.
    destruct (default true _); [|apply Val_inj in E; now injection E as <- <-].
    apply bind_inv in E as (s1 & [rc1 u1] & E1 & E). pose proof E1 as FE1; apply prepare_frame in FE1 as (D1 & C1 & f1 & H1'); [|done].
    destruct (decide (rc1 <> _)) as [n|Hrc].
    { apply Val_inj in E. injection E as <- <-. case_decide; [done|exact D1]. }
    apply dec_stable in Hrc. subst rc1. apply prepare_ok_inv in E1 as (A1 & t1 & M1 & U1); [|done].
    apply bind_inv in E as (s2 & [rc2 u2] & E2 & E). pose proof E2 as FE2; apply file_upload_frame in FE2 as (D2 & C2 & f2 & H2'); [|done].
    destruct (decide (rc2 <> _)) as [n|Hrc].
    { apply Val_inj in E. injection E as <- <-. case_decide; [done|]. now rewrite D2, D1. }
    apply dec_stable in Hrc. subst rc2. apply file_upload_ok_inv in E2 as (A2 & t2 & M2 & U2); [|done].
    apply bind_inv in E as (s3 & rc3 & E3 & E). pose proof E3 as FE3; apply commit_frame in FE3 as (D3 & A3); [|done].
    destruct (decide (rc3 <> _)) as [n|Hrc].
    { apply Val_inj in E. injection E as <- <-. case_decide; [done|]. now rewrite D3, D2, D1. }
    apply dec_stable in Hrc. subst rc3. specialize (A3 eq_refl).
    apply bind_inv in E as (s4 & [] & E4 & E). apply Val_inj in E4. injection E4 as <-. apply Val_inj in E.
    injection E as <- <-. rewrite decide_True by done. exists contents. split; [done|].
    cbn in D1, A1, M1. rewrite H2', H1', D2, D1 in A3. rewrite D1 in A2, M2.
    split; [cbn; now rewrite D3, D2, D1|]. exists (peer s1), (peer s2), u1, u2, t1, t2. repeat split; assumption.
Qed.

(** ** Uploads without allocation failures *)
Section Quiet.
Variable s : S.
Hypothesis Hc : curl (handle s) = [].
Hypothesis Ha : allocs s = [].

(** The state after an exchange that ended in [n'] with this code. *)
Definition exchanged (res : Z) (n' : N) : S := MkNet (after_transfer res (handle s)) [] (disk s) n'.

Lemma post_quiet endpoint m payload (data : bool) n' res :
  let req := post_request (handle s) endpoint m payload in
  let rc := classify res (curl_http_code n') in
  transfer_end req (disk s) (peer s) true = (n', res) ->
  ticosd_network_post endpoint m payload data s =
    Val (exchanged res n',
         (rc, if decide (rc = kTicosdNetworkResult_OK) then
                if data then Some (body_buffer (body_chunks req (disk s) (peer s))) else None
              else None)).
Proof.
    intros req rc TE. destruct (post_cases endpoint m payload data s Hc) as [(heap & _ & F)|(b & heap & a & taken & _ & Q & D & ->)].
    { now destruct F. }
    destruct (Q Ha) as [-> ->]. pose proof (body_size req (disk s) (peer s)) as Hs. fold req in D. destruct data.
    - rewrite deliver_from_malloc in D by done. apply Val_inj in D. injection D as <- <-.
      unfold post_outcome. fold req. rewrite TE. reflexivity.
    - rewrite deliver_ignored in D by done. apply Val_inj in D. injection D as <- <-.
      unfold post_outcome. fold req. rewrite TE. reflexivity.
Qed.

Lemma parse_body_buffer key chunks (s1 : S) text : chunks <> [] -> answer_member chunks key = Some text -> allocs s1 = [] ->
  parse_answer key (Some (body_buffer chunks)) s1 = Val (s1, (Some text, true)).
Proof.
    intros Hne Hm Ha1. destruct chunks as [|c chunks]; [done|]. unfold body_buffer.
    rewrite parse_answer_value, Hm, Ha1 by auto. cbn. destruct s1. cbn in Ha1. now subst.
Qed.

Lemma prepare_quiet endpoint u0 n1 text :
  let get := post_request (handle s) endpoint kTicosdHttpMethod_GET None in
  accepted get (disk s) (peer s) n1 -> body_chunks get (disk s) (peer s) <> [] ->
  answer_member (body_chunks get (disk s) (peer s)) "upload_url" = Some text ->
  prv_file_upload_prepare endpoint u0 s = Val (exchanged CURLE_OK n1, (kTicosdNetworkResult_OK, Some text)).
Proof.
    intros get (res & TE & Hrc) Hne Hm. unfold prv_file_upload_prepare.
    rewrite (bind_val _ _ _ _ _ (post_quiet endpoint kTicosdHttpMethod_GET None true _ _ TE)), Hrc. apply classify_ok in Hrc as Er. subst res.
    rewrite decide_False by auto. rewrite decide_True by done. fold get.
    now rewrite (bind_val _ _ _ _ _ (parse_body_buffer "upload_url" _ (exchanged CURLE_OK n1) _ Hne Hm eq_refl)).
Qed.

Lemma file_upload_quiet url filename gz n' res :
  let req := upload_request url filename gz in
  transfer_end req (disk s) (peer s) true = (n', res) ->
  prv_file_upload url filename gz s = file_upload_outcome url filename gz s
    (MkWriteCallback (Some (body_buffer (body_chunks req (disk s) (peer s))))
       (zlen (concat (body_chunks req (disk s) (peer s)))), []) true.
Proof.
    intros req TE. destruct (file_upload_cases url filename gz s Hc) as (b & heap & a & taken & Q & D & ->).
    destruct (Q Ha) as [-> ->]. pose proof (body_size req (disk s) (peer s)) as Hs. fold req in D.
    rewrite deliver_from_malloc in D by done. apply Val_inj in D. now injection D as <- <-.
Qed.

Lemma file_upload_quiet_ok url filename gz n2 text :
  let req := upload_request url filename gz in
  accepted req (disk s) (peer s) n2 -> body_chunks req (disk s) (peer s) <> [] ->
  answer_member (body_chunks req (disk s) (peer s)) "url" = Some text ->
  prv_file_upload url filename gz s = Val (exchanged CURLE_OK n2, (kTicosdNetworkResult_OK, Some text)).
Proof.
    intros req (res & TE & Hrc) Hne Hm. rewrite (file_upload_quiet url filename gz _ _ TE). unfold file_upload_outcome. fold req.
    rewrite TE, Hrc. apply classify_ok in Hrc as ->. cbn [wc_buf fst]. rewrite (parse_body_buffer "url" _ _ _ Hne Hm); reflexivity.
Qed.

Lemma commit_quiet endpoint url filesize n3 :
  accepted (post_request (handle s) endpoint kTicosdHttpMethod_POST (Some (commit_body url filesize))) (disk s) (peer s) n3 ->
  prv_file_upload_commit endpoint (Some url) filesize s = Val (exchanged CURLE_OK n3, kTicosdNetworkResult_OK).
Proof.
    intros (res & TE & Hrc). unfold prv_file_upload_commit.
    rewrite (bind_val _ _ _ _ _ (commit_body_val (Some url) filesize s)), Ha. cbn [default head tail].
    assert (E : heap_set [] s = s) by (destruct s; cbn in *; now subst). rewrite E.
    rewrite (bind_val _ _ _ _ _ (post_quiet endpoint kTicosdHttpMethod_POST _ false _ _ TE)), Hrc. now apply classify_ok in Hrc as ->.
Qed.
End Quiet.

(** C25: when the server accepts the three exchanges and its two answers carry the URLs, the
    upload succeeds and the file is gone: the server saw the location request, then the
    file at the URL it gave, then the message with the URL of the stored file and the size. *)
Theorem upload_succeeds commit_endpoint filename gz (s : S) contents n1 n2 n3 url1 url2 :
  let h := handle s in
  let get := post_request h (prepare_endpoint h) kTicosdHttpMethod_GET None in
  let put := upload_request (Some url1) filename gz in
  let commit := post_request h commit_endpoint kTicosdHttpMethod_POST (Some (commit_body url2 (zlen contents))) in
  curl h = [] -> allocs s = [] -> disk s !! filename = Some contents ->
  accepted get (disk s) (peer s) n1 -> body_chunks get (disk s) (peer s) <> [] ->
  answer_member (body_chunks get (disk s) (peer s)) "upload_url" = Some url1 ->
  accepted put (disk s) n1 n2 -> body_chunks put (disk s) n1 <> [] ->
  answer_member (body_chunks put (disk s) n1) "url" = Some url2 ->
  accepted commit (disk s) n2 n3 ->
  ticosd_network_file_upload commit_endpoint filename gz s =
    Val (MkNet (set_during_network_failure false h) [] (delete filename (disk s)) n3, kTicosdNetworkResult_OK).
Proof.
    intros h get put commit Hc Ha Hf A1 B1 M1 A2 B2 M2 A3. unfold ticosd_network_file_upload.
    unfold bind at 1, gets at 1. cbn [obind]. unfold bind at 1, gets at 1. cbn [obind]. rewrite Hf.
    rewrite (bind_val _ _ _ _ _ (prepare_endpoint_val s)), Ha. cbn [default head tail].
    assert (E : heap_set [] s = s) by (destruct s; cbn in *; now subst). rewrite E.
    rewrite (bind_val _ _ _ _ _ (prepare_quiet s Hc Ha (prepare_endpoint h) None _ _ A1 B1 M1)). rewrite decide_False by auto.
    assert (Hh : after_transfer CURLE_OK h = set_during_network_failure false h).
    { unfold after_transfer. subst h. destruct (handle s). cbn in *. now subst. }
    rewrite (bind_val _ _ _ _ _ (file_upload_quiet_ok (exchanged s CURLE_OK n1) eq_refl eq_refl (Some url1) filename gz _ _ A2 B2 M2)).
    rewrite decide_False by auto.
    rewrite (bind_val _ _ _ _ _ (commit_quiet (exchanged (exchanged s CURLE_OK n1) CURLE_OK n2) eq_refl eq_refl commit_endpoint _ _ _ A3)).
    rewrite decide_False by auto. cbn. unfold ret. fold h. now rewrite <- Hh.
Qed.

(** the upload of the file reads its answer even when there was none: a transfer that
    ends without a body, such as a refused connection, leaves the one byte of [malloc(1)]
    unwritten, and json_tokener_parse reads it as a string. *)
Theorem bodyless_upload_undefined url filename gz (s : S) n' res :
  curl (handle s) = [] -> allocs s = [] ->
  transfer_end (upload_request url filename gz) (disk s) (peer s) true = (n', res) ->
  body_chunks (upload_request url filename gz) (disk s) (peer s) = [] ->
  prv_file_upload url filename gz s = Fault.
Proof.
    intros Hc Ha TE B. rewrite (file_upload_quiet s Hc Ha url filename gz _ _ TE). unfold file_upload_outcome. now rewrite TE, B.
Qed.

(** the result of the upload is lost when the answer has no "url": a 4xx status, not
    worth a retry, becomes an error to be retried, so the same file is sent again for ever. *)
Theorem rejected_upload_retried url filename gz (s : S) n' :
  let req := upload_request url filename gz in
  curl (handle s) = [] -> allocs s = [] ->
  transfer_end req (disk s) (peer s) true = (n', CURLE_OK) -> 400 <= curl_http_code n' <= 499 ->
  body_chunks req (disk s) (peer s) <> [] -> answer_member (body_chunks req (disk s) (peer s)) "url" = None ->
  classify CURLE_OK (curl_http_code n') = kTicosdNetworkResult_ErrorNoRetry /\
  exists s', prv_file_upload url filename gz s = Val (s', (kTicosdNetworkResult_ErrorRetryLater, None)).
Proof.
    intros req Hc Ha TE Hcode B M. split.
    - unfold classify. cbn. now test_true ((400 <=? curl_http_code n') && (curl_http_code n' <=? 499)).
    - rewrite (file_upload_quiet s Hc Ha url filename gz _ _ TE). unfold file_upload_outcome. fold req. rewrite TE.
      destruct (body_chunks req (disk s) (peer s)) as [|c chunks] eqn:E; [done|]. unfold body_buffer. cbn [wc_buf fst].
      rewrite parse_answer_value by auto. rewrite M. cbn. eauto.
Qed.
End Upload.
