(* ===== verification/NetworkWitnesses.v ===== *)
(** * A scripted server, and the network theorems applied to it

    The server answers from a list; its answers are one-word texts that the sample JSON
    library takes as their own members. *)
From stdpp Require Import gmap.
From S2P Require Import Prelude CLib Json Network NetworkSpec NetworkUpload.
#[local] Open Scope string_scope.
#[local] Open Scope list_scope.
#[local] Open Scope Z_scope.

(** ** The parameters *)

(** Every member of a text but "error" is the text itself. *)
#[export] Instance word_json : JsonC := {
  json_object := string;
  json_tokener_parse s := if String.eqb s EmptyString then None else Some s;
  json_object_object_get_ex o _ := if String.eqb o "error" then None else Some o;
  json_object_get_type _ := json_type_string;
  json_object_get_string o := o }.

(** One scripted answer: body, CURLcode and HTTP status. *)
Record answer := MkAnswer { ans_body : list (list Z); ans_res : Z; ans_code : Z }.

(** The last status and the answers to come; without any the connection fails. *)
Record server := MkServer { last_code : Z; script : list answer }.

Definition next_answer (n : server) : answer := hd (MkAnswer [] 7 0) (script n).

Definition server_end (n : server) (taken : bool) : server * Z :=
  (MkServer (ans_code (next_answer n)) (tail (script n)), if taken then ans_res (next_answer n) else 23).

(** Bodies of the script short enough for an address space. *)
Definition short_body (a : answer) : list (list Z) :=
  if zlen (concat (ans_body a)) <? 2 ^ 63 then ans_body a else [].

#[export] Instance scripted_curl : Curl server := {
  curl_easy_perform cb opts dsk a n :=
    let! (a', taken) := deliver cb a (short_body (next_answer n)) in
    Val ((server_end n taken).1, a', (server_end n taken).2);
  curl_http_code := last_code }.

#[export] Instance scripted_curl_spec : CurlSpec server.
Proof.
  apply (Build_CurlSpec server scripted_curl (fun _ _ n => short_body (next_answer n)) (fun _ _ n taken => server_end n taken)).
  - reflexivity.
  - discriminate.
  - intros _ _ n. unfold short_body. case_test; [tests_to_props; lia | reflexivity].
Defined.

(** ** A device with one core dump *)
Definition sample_network : sTicosdNetwork :=
  MkNetwork (MkSettings "dev" "hw") true [] "http://s" "Ticos-Project-Key: k" "app" "1.0".

Definition core_name : string := "core".
Definition sample_disk : files := {[ core_name := [1; 2; 3] ]}.

Definition word (s : string) (code : Z) : answer := MkAnswer [bytes_of_string s] CURLE_OK code.

Definition sample_state (script : list answer) : net_state server :=
  MkNet sample_network [] sample_disk (MkServer 0 script).

Definition good_script : list answer := [word "up" 200; word "at" 201; word "ok" 200].


Lemma good_upload : ticosd_network_file_upload "/c" core_name true (sample_state good_script) =
  Val (MkNet (set_during_network_failure false sample_network) [] (delete core_name sample_disk) (MkServer 200 []),
       kTicosdNetworkResult_OK).
Proof. reflexivity. Qed.

Lemma upload_deletes_delivered_witness :
  exists contents, sample_disk !! core_name = Some contents /\
    delete core_name sample_disk = delete core_name sample_disk /\
    file_delivered sample_network sample_disk "/c" core_name true contents (MkServer 0 good_script) (MkServer 200 []).
Proof.
  exact (upload_deletes_delivered "/c" core_name true (sample_state good_script) _ _ eq_refl good_upload).
Defined.

Lemma upload_succeeds_witness :
  ticosd_network_file_upload "/c" core_name true (sample_state good_script) =
    Val (MkNet (set_during_network_failure false sample_network) [] (delete core_name sample_disk) (MkServer 200 []),
         kTicosdNetworkResult_OK).
Proof.
  refine (upload_succeeds "/c" core_name true (sample_state good_script) [1; 2; 3]
    (MkServer 200 (tail good_script)) (MkServer 201 (tail (tail good_script))) (MkServer 200 []) "up" "at"
    eq_refl eq_refl eq_refl _ _ _ _ _ _ _);
    try discriminate; try reflexivity; exists CURLE_OK; split; reflexivity.
Defined.

Lemma bodyless_upload_undefined_witness :
  prv_file_upload (Some "http://u") core_name false (sample_state []) = Fault.
Proof.
  apply (bodyless_upload_undefined (Some "http://u") core_name false (sample_state []) (MkServer 0 []) 7); reflexivity.
Defined.

Lemma rejected_upload_retried_witness :
  classify CURLE_OK 403 = kTicosdNetworkResult_ErrorNoRetry /\
  exists s', prv_file_upload (Some "http://u") core_name false (sample_state [word "error" 403]) =
    Val (s', (kTicosdNetworkResult_ErrorRetryLater, None)).
Proof.
  refine (rejected_upload_retried (Some "http://u") core_name false (sample_state [word "error" 403]) (MkServer 403 [])
    eq_refl eq_refl eq_refl _ _ eq_refl); [split|]; discriminate.
Defined.
