(* ===== verification/Daemon.v ===== *)
(** * The daemon (src/ticosd.c)

    Sending the queued entries, the main loop with its back-off, queueing for the plugins,
    the signal handler, and start-up.  The queue is used through [TxQueue], configuration and
    network through the classes below; times and signals come with each turn of the loop. *)
From stdpp Require Import gmap.
From S2P Require Import Prelude CLib Network TxQueue.
#[local] Open Scope string_scope.
#[local] Open Scope list_scope.
#[local] Open Scope Z_scope.

(** ** What the daemon calls *)

(** The getters of config.h; the first argument is the configuration, then the parent key
    ([None] is NULL) and the key. *)
Class ConfigOps (C : Type) := {
  ticosd_config_get_boolean : C -> option string -> string -> option bool;
  ticosd_config_get_integer : C -> option string -> string -> option Z;
  ticosd_config_get_string : C -> option string -> string -> option string }.

(** network.h, for calls that do not ask for the body. *)
Class NetworkOps (W : Type) := {
  network_post : W -> string -> eTicosdHttpMethod -> option string -> outcome (W * eTicosdNetworkResult);
  network_file_upload : W -> string -> string -> bool -> outcome (W * eTicosdNetworkResult) }.

#[export] Instance network_ops {N} `{Curl N, Json.JsonC} : NetworkOps (net_state N) := {
  network_post s endpoint method payload :=
    let! (s, (rc, _)) := ticosd_network_post endpoint method payload false s in Val (s, rc);
  network_file_upload s endpoint filename gz := ticosd_network_file_upload endpoint filename gz s }.

Definition NETWORK_FAILURE_FIRST_BACKOFF_SECONDS : Z := 60.
Definition NETWORK_FAILURE_BACKOFF_MULTIPLIER : Z := 2.
Definition INT_MAX : Z := 2 ^ 31 - 1.

(** eTicosdTxDataType *)
Definition kTicosdTxDataType_RebootEvent : Z := 82.
Definition kTicosdTxDataType_CoreUpload : Z := 67.
Definition kTicosdTxDataType_CoreUploadWithGzip : Z := 99.
Definition kTicosdTxDataType_Attributes : Z := 65.

(** ** State *)

(** struct Ticosd but for the IPC thread's fields; [mallocs] are the allocator's answers to
    this file. *)
Record sTicosd (Q C W : Type) := MkTicosd {
  queue : Q;
  network : W;
  config : C;
  dsettings : sTicosdDeviceSettings;
  terminate : bool;
  dev_mode : bool;
  mallocs : list bool }.
Arguments MkTicosd {Q C W}.
Arguments queue {Q C W}.
Arguments network {Q C W}.
Arguments config {Q C W}.
Arguments dsettings {Q C W}.
Arguments terminate {Q C W}.
Arguments dev_mode {Q C W}.
Arguments mallocs {Q C W}.

Section Daemon.
Context {Q C W : Type} `{TxQueue Q, ConfigOps C, NetworkOps W}.
Abbreviation S := (sTicosd Q C W).

Definition set_queue (q : Q) (s : S) : S :=
  MkTicosd q (network s) (config s) (dsettings s) (terminate s) (dev_mode s) (mallocs s).
Definition set_network (w : W) (s : S) : S :=
  MkTicosd (queue s) w (config s) (dsettings s) (terminate s) (dev_mode s) (mallocs s).
Definition set_terminate (t : bool) (s : S) : S :=
  MkTicosd (queue s) (network s) (config s) (dsettings s) t (dev_mode s) (mallocs s).

#[export] Instance daemon_heap : Heap S := {
  heap_get := mallocs;
  heap_set a s := MkTicosd (queue s) (network s) (config s) (dsettings s) (terminate s) (dev_mode s) a }.

(** ** Calls on the queue and the network as steps of the daemon *)
Definition on_queue {A} (f : Q -> outcome (Q * A)) : M S A := fun s =>
  let! (q, a) := f (queue s) in Val (set_queue q s, a).
Definition on_network {A} (f : W -> outcome (W * A)) : M S A := fun s =>
  let! (w, a) := f (network s) in Val (set_network w s, a).

Definition ticosd_get_boolean (parent_key : option string) (key : string) (s : S) : option bool :=
  ticosd_config_get_boolean (config s) parent_key key.
Definition ticosd_get_integer (parent_key : option string) (key : string) (s : S) : option Z :=
  ticosd_config_get_integer (config s) parent_key key.
Definition ticosd_get_string (parent_key : option string) (key : string) (s : S) : option string :=
  ticosd_config_get_string (config s) parent_key key.
Definition ticosd_is_dev_mode (s : S) : bool := dev_mode s.
Definition ticosd_get_device_settings (s : S) : sTicosdDeviceSettings := dsettings s.

(** [!ticosd_get_boolean(..., &allowed) || !allowed] *)
Definition data_collection_off (parent_key : option string) (s : S) : bool :=
  match ticosd_get_boolean parent_key "enable_data_collection" s with
  | Some allowed => negb allowed
  | None => true
  end.

(** ** Sending the queue *)

(** The C string at byte [off] of an entry. *)
Definition entry_string (entry : list Z) (off : Z) : outcome string :=
  let! bs := load entry off (zlen entry - off) in c_string bs.

(** A path with the device id in it, as the cases of the switch build it. *)
Definition device_path (fmt : string) (more : list printf_arg) : M S (option string) :=
  let* s := gets dsettings in
  ticos_asprintf fmt (ArgS (Some (device_id s)) :: more).

Definition send_reboot_event (entry : list Z) : M S eTicosdNetworkResult :=
  let* path := device_path "/chunks/%s/json" [] in
  match path with
  | None => ret kTicosdNetworkResult_ErrorRetryLater
  | Some path =>
      let* payload := lift (entry_string entry 1) in
      on_network (fun w => network_post w path kTicosdHttpMethod_POST (Some payload))
  end.

Definition send_core_upload (entry : list Z) (is_gzipped : bool) : M S eTicosdNetworkResult :=
  let* path := device_path "/chunks/%s/url" [] in
  match path with
  | None => ret kTicosdNetworkResult_ErrorRetryLater
  | Some path =>
      let* payload := lift (entry_string entry 1) in
      on_network (fun w => network_file_upload w path payload is_gzipped)
  end.

(** sTicosdTxDataAttributes: type, eight bytes of time_t, JSON text. *)
Definition send_attributes (entry : list Z) : M S eTicosdNetworkResult :=
  let* timestamp := lift (let! bs := load entry 1 8 in Val (i64 (le_val bs))) in
  let* iso_timestamp := lift (strftime_iso timestamp) in
  let* endpoint := device_path "/api/v0/attributes?device_serial=%s&captured_date=%s" [ArgS (Some iso_timestamp)] in
  match endpoint with
  | None => ret kTicosdNetworkResult_ErrorRetryLater
  | Some endpoint =>
      let* json := lift (entry_string entry 9) in
      on_network (fun w => network_post w endpoint kTicosdHttpMethod_PATCH (Some json))
  end.

(** The switch over the type of an entry. *)
Definition send_entry (entry : list Z) : M S eTicosdNetworkResult :=
  let* type := lift (load8 entry 0) in
  if type =? kTicosdTxDataType_RebootEvent then send_reboot_event entry
  else if (type =? kTicosdTxDataType_CoreUpload) || (type =? kTicosdTxDataType_CoreUploadWithGzip) then
    send_core_upload entry (type =? kTicosdTxDataType_CoreUploadWithGzip)
  else if type =? kTicosdTxDataType_Attributes then send_attributes entry
  else ret kTicosdNetworkResult_ErrorNoRetry.

(** The loop; [fuel] bounds the number of entries it takes. *)
Fixpoint process_entries (fuel : nat) : M S bool :=
  match fuel with
  | O => fun _ => OutOfFuel
  | Datatypes.S fuel =>
      let* queue_entry := on_queue queue_read_head in
      match queue_entry with
      | None => ret true
      | Some queue_entry =>
          let* rc := send_entry queue_entry in
          if decide (rc = kTicosdNetworkResult_OK \/ rc = kTicosdNetworkResult_ErrorNoRetry) then
            let* _ := on_queue queue_complete_read in
            process_entries fuel
          else ret false
      end
  end.

Definition prv_ticosd_process_tx_queue (fuel : nat) : M S bool :=
  let* off := gets (data_collection_off None) in
  if (off : bool) then ret true else process_entries fuel.

(** ** The main loop *)

(** One turn: the clock when it starts and after sending, and whether a signal sets
    [terminate] meanwhile.  Times are seconds. *)
Record wakeup := MkWakeup { last_wakeup : Z; now : Z; signalled : bool }.

(** The locals of the loop. *)
Record loop_state := MkLoop { next_telemetry_poll : Z; override_interval : Z }.

(** Signed overflow is undefined. *)
Definition int_mul (a b : Z) : outcome Z :=
  if (a * b >? INT_MAX) || (a * b <? - INT_MAX - 1) then Fault else Val (a * b).

(** Returns the new locals and the argument of [sleep], if it is called. *)
Definition process_turn (fuel : nat) (l : loop_state) (w : wakeup) : M S (loop_state * option Z) :=
  let* configured := gets (ticosd_get_integer None "refresh_interval_seconds") in
  let interval := default (1 * 60 * 60) configured in
  let next_telemetry_poll :=
    if next_telemetry_poll l + interval >=? last_wakeup w then last_wakeup w + interval
    else next_telemetry_poll l in
  let* sent := prv_ticosd_process_tx_queue fuel in
  let* (interval, override_interval) :=
    (if sent : bool then ret (interval, NETWORK_FAILURE_FIRST_BACKOFF_SECONDS)
     else
       let* next := lift (int_mul (override_interval l) NETWORK_FAILURE_BACKOFF_MULTIPLIER) in
       ret (Z.min (override_interval l) interval, next)) in
  do* (if signalled w then modify (set_terminate true) else ret tt) in
  let* stop := gets terminate in
  let sleep :=
    if negb stop && (last_wakeup w + interval >? now w)
    then Some (u32 (last_wakeup w + interval - now w)) else None in
  ret (MkLoop next_telemetry_poll override_interval, sleep).

(** The loop over the turns [ws], or until [terminate]; the calls of [sleep] in order.  A
    signal that arrives during a sleep makes its turn the last of [ws]. *)
Fixpoint process_turns (fuel : nat) (l : loop_state) (ws : list wakeup) : M S (list (option Z)) :=
  match ws with
  | [] => ret []
  | w :: ws =>
      let* stop := gets terminate in
      if (stop : bool) then ret []
      else
        let* (l, sleep) := process_turn fuel l w in
        let* rest := process_turns fuel l ws in
        ret (sleep :: rest)
  end.

Definition prv_ticosd_process_loop (fuel : nat) (ws : list wakeup) : M S (list (option Z)) :=
  process_turns fuel (MkLoop 0 NETWORK_FAILURE_FIRST_BACKOFF_SECONDS) ws.

(** [SIGUSR1] only ends the sleep; every other signal stops the loop. *)
Definition SIGUSR1 : Z := 10.
Definition prv_ticosd_sig_handler (sig : Z) : M S unit :=
  if sig =? SIGUSR1 then ret tt else modify (set_terminate true).

(** ** Queueing for the plugins *)

(** [data] is the whole sTicosdTxData, [None] for NULL; sizeof(sTicosdTxData) is 1. *)
Definition ticosd_txdata (data : option (list Z)) (payload_size : Z) : M S bool :=
  let* off := gets (data_collection_off (Some EmptyString)) in
  if (off : bool) then ret true
  else on_queue (fun q => queue_write q data (u32 (1 + payload_size))).
End Daemon.
