(* ===== verification/Frame.v ===== *)
(** * Frames: what a computation leaves alone

    [keeps R m]: wherever [m] ends normally, the state before and the state after are related
    by [R].  The rules follow the structure of a computation; [frame] applies them.  [zoom]
    runs a computation on a part of a larger state. *)
From stdpp Require Import relations.
From S2P Require Import Prelude CLib TxQueue Network Daemon.
#[local] Open Scope list_scope.
#[local] Open Scope Z_scope.

Definition keeps {S A} (R : relation S) (m : M S A) : Prop := forall s s' a, m s = Val (s', a) -> R s s'.

(** ** Rules *)
Section Rules.
Context {S : Type} {R : relation S} `{!PreOrder R}.

Lemma keeps_ret {A} (a : A) : keeps R (ret a).
Proof. intros s s' b [= <- _]. reflexivity. Qed.

Lemma keeps_gets {A} (f : S -> A) : keeps R (gets f).
Proof. intros s s' b [= <- _]. reflexivity. Qed.

Lemma keeps_lift {A} (m : outcome A) : keeps R (lift m).
Proof. intros s s' b. unfold lift. destruct m; [|done..]. intros [= <- _]. reflexivity. Qed.

Lemma keeps_fault {A} : keeps R (fault (A := A)).
Proof. done. Qed.

Lemma keeps_modify (f : S -> S) : (forall s, R s (f s)) -> keeps R (modify f).
Proof. intros Hf s s' b [= <- _]. apply Hf. Qed.

Lemma keeps_bind {A B} (m : M S A) (k : A -> M S B) : keeps R m -> (forall a, keeps R (k a)) -> keeps R (bind m k).
Proof. intros Hm Hk s s' b E. apply bind_inv in E as (s1 & a & E1 & E2). etransitivity; [exact (Hm _ _ _ E1)|exact (Hk _ _ _ _ E2)]. Qed.

(** A decision on the state is known in what follows. *)
Lemma keeps_gets_bind {A B} (f : S -> A) (k : A -> M S B) : (forall s s' b, k (f s) s = Val (s', b) -> R s s') -> keeps R (bind (gets f) k).
Proof. intros Hk s s' b E. now apply (Hk s s' b). Qed.
End Rules.

Lemma keeps_implied {S A} (R R' : relation S) (m : M S A) : keeps R m -> (forall s s', R s s' -> R' s s') -> keeps R' m.
Proof. intros Hm Hi s s' a E. apply Hi, (Hm _ _ _ E). Qed.

Create HintDb frame.

Ltac frame := repeat first
  [ progress intros
  | apply keeps_ret | apply keeps_gets | apply keeps_lift | apply keeps_fault
  | solve [auto with frame]
  | apply keeps_bind
  | match goal with |- keeps _ (match ?x with _ => _ end) => destruct x end ].

(** ** A part of the state *)
Definition zoom {G S A} (get : G -> S) (put : S -> G -> G) (m : M S A) : M G A :=
  fun g => let! (s, a) := m (get g) in Val (put s g, a).

Lemma zoom_val {G S A} (get : G -> S) (put : S -> G -> G) (m : M S A) g g' a :
  zoom get put m g = Val (g', a) -> exists s, m (get g) = Val (s, a) /\ g' = put s g.
Proof. unfold zoom. destruct (m (get g)) as [[s b]| |]; [|done..]. intros [= <- <-]. eauto. Qed.

Lemma keeps_zoom {G S A} (get : G -> S) (put : S -> G -> G) (R : relation S) (R' : relation G) (m : M S A) :
  keeps R m -> (forall g s, R (get g) s -> R' g (put s g)) -> keeps R' (zoom get put m).
Proof. intros Hm Hp g g' a E. apply zoom_val in E as (s & E & ->). exact (Hp _ _ (Hm _ _ _ E)). Qed.

(** ** The daemon *)
Section Daemon.
Context {Q C W : Type}.
Implicit Type t : sTicosd Q C W.

(** The daemon but for its queue and its heap. *)
Definition same_daemon t t' : Prop :=
  network t' = network t /\ config t' = config t /\ dsettings t' = dsettings t /\ terminate t' = terminate t /\ dev_mode t' = dev_mode t.
Definition same_but_heap t t' : Prop := queue t' = queue t /\ same_daemon t t'.

#[export] Instance same_but_heap_preorder : PreOrder same_but_heap.
Proof. split; [now repeat split|]. unfold same_but_heap, same_daemon. intros t1 t2 t3 (-> & -> & -> & -> & -> & ->) (-> & -> & -> & -> & -> & ->). done. Qed.

Lemma malloc_inv t t' b : malloc_ok t = Val (t', b) -> same_but_heap t t'.
Proof. unfold malloc_ok. intros E. destruct (heap_get t) as [|[] ?]; injection E as <- _; done. Qed.

Lemma keeps_malloc : keeps same_but_heap (malloc_ok (S := sTicosd Q C W)).
Proof. exact malloc_inv. Qed.
Hint Resolve keeps_malloc : frame.

Lemma keeps_asprintf fmt args : keeps same_but_heap (ticos_asprintf (S := sTicosd Q C W) fmt args).
Proof. unfold ticos_asprintf. frame. Qed.

Lemma keeps_strdup s : keeps same_but_heap (strdup (S := sTicosd Q C W) s).
Proof. unfold strdup. frame. Qed.
End Daemon.
#[export] Hint Resolve keeps_malloc keeps_asprintf keeps_strdup : frame.
