(* ===== verification/DaemonSpec.v ===== *)
(** * Delivery of the queue and back-off

    The sending loop hands every unread entry to the network once and in order, also when
    other threads keep writing; what the network wants retried stays in the queue. *)
From stdpp Require Import gmap.
From S2P Require Import Prelude CLib QueueSpec Network TxQueue Daemon.
#[local] Open Scope string_scope.
#[local] Open Scope list_scope.
#[local] Open Scope Z_scope.

(** ** The network's contract *)
Class NetworkSpec (W : Type) `{NetworkOps W} := {
  net_ok : W -> Prop;
  post_defined w endpoint m payload : net_ok w ->
    exists w' rc, network_post w endpoint m payload = Val (w', rc) /\ net_ok w';
  upload_defined w endpoint filename gz : net_ok w ->
    exists w' rc, network_file_upload w endpoint filename gz = Val (w', rc) /\ net_ok w' }.

(** Entries the plugins write: a known type with its fields, or any other type byte. *)
Definition entry_ok (e : payload) : Prop :=
  match e with
  | [] => False
  | type :: rest =>
      if (type =? kTicosdTxDataType_RebootEvent) || (type =? kTicosdTxDataType_CoreUpload)
         || (type =? kTicosdTxDataType_CoreUploadWithGzip)
      then In 0 rest
      else if type =? kTicosdTxDataType_Attributes then
        8 <= zlen rest /\ In 0 (drop 8 rest) /\ defined (strftime_iso (i64 (le_val (take 8 rest))))
      else True
  end.

Section Delivery.
Context {Q C W : Type} `{TxQueueSpec Q, ConfigOps C, NetworkSpec W}.
Abbreviation S := (sTicosd Q C W).

(** ** Steps that leave the queue alone *)
Definition queue_free {A} (m : M S A) : Prop := forall q s,
  m (set_queue q s) = (let! (s', a) := m s in Val (set_queue q s', a)).

Lemma queue_free_bind {A B} (m : M S A) (f : A -> M S B) :
  queue_free m -> (forall a, queue_free (f a)) -> queue_free (bind m f).
Proof.
    intros Hm Hf q s. unfold bind. rewrite Hm. destruct (m s) as [[s' a]| |]; [|done..]. apply Hf.
Qed.

Lemma queue_free_ret {A} (a : A) : queue_free (ret a).
Proof. done. Qed.

Lemma queue_free_lift {A} (m : outcome A) : queue_free (lift m).
Proof. intros q s. unfold lift. now destruct m. Qed.

Lemma queue_free_malloc : queue_free malloc_ok.
Proof. intros q s. unfold malloc_ok. cbn. now destruct (mallocs s). Qed.

Lemma queue_free_network {A} (f : W -> outcome (W * A)) : queue_free (on_network f).
Proof. intros q s. unfold on_network. cbn. now destruct (f (network s)) as [[w a]| |]. Qed.

Lemma queue_free_path fmt more : queue_free (device_path fmt more).
Proof.
    unfold device_path, ticos_asprintf. apply queue_free_bind; [done|]. intros st.
    repeat (apply queue_free_bind; intros); auto using queue_free_lift, queue_free_malloc, queue_free_ret.
Qed.

Hint Resolve queue_free_bind queue_free_ret queue_free_lift queue_free_network queue_free_path : queue_free.

Lemma send_entry_queue_free e : queue_free (send_entry e).
Proof.
    unfold send_entry, send_reboot_event, send_core_upload, send_attributes.
    apply queue_free_bind; [auto with queue_free|]. intros type. repeat case_match;
      repeat (apply queue_free_bind; [auto with queue_free|]; intros); repeat case_match; auto with queue_free.
Qed.

Lemma queue_free_keeps {A} (m : M S A) s s' a : queue_free m -> m s = Val (s', a) -> queue s' = queue s.
Proof.
    intros Hm E. specialize (Hm (queue s) s). rewrite E in Hm. replace (set_queue (queue s) s) with s in Hm by now destruct s.
    rewrite E in Hm. apply Val_inj in Hm. injection Hm as ->. done.
Qed.

(** ** Sending one entry is defined *)
Lemma device_path_val fmt more (s : S) str : vsprintf fmt (ArgS (Some (device_id (dsettings s))) :: more) = Val str ->
  device_path fmt more s = Val (heap_set (tail (mallocs s)) s, if default true (head (mallocs s)) then Some str else None).
Proof.
    intros E. unfold device_path, ticos_asprintf, bind, gets, lift. cbn [obind]. rewrite E. cbn [obind].
    unfold malloc_ok. cbn [heap_get daemon_heap]. destruct s as [q w c st t d [|ok al]]; reflexivity.
Qed.

Lemma entry_string_at e off bs : load e off (zlen e - off) = Val bs -> In 0 bs -> defined (entry_string e off).
Proof. intros E Hin. unfold entry_string. rewrite E. now apply c_string_defined. Qed.

Lemma on_network_defined f (s : S) : (exists w rc, f (network s) = Val (w, rc) /\ net_ok w) ->
  exists s' rc, on_network f s = Val (s', rc : eTicosdNetworkResult) /\ net_ok (network s').
Proof. intros (w & rc & E & Hw). unfold on_network. rewrite E. cbn. eauto. Qed.

Lemma send_with_path fmt more (s : S) str off e (f : string -> string -> W -> outcome (W * eTicosdNetworkResult)) :
  vsprintf fmt (ArgS (Some (device_id (dsettings s))) :: more) = Val str -> defined (entry_string e off) ->
  net_ok (network s) -> (forall path text w, net_ok w -> exists w' rc, f path text w = Val (w', rc) /\ net_ok w') ->
  exists s' rc, (let* path := device_path fmt more in
    match path with
    | None => ret kTicosdNetworkResult_ErrorRetryLater
    | Some path => let* text := lift (entry_string e off) in on_network (f path text)
    end) s = Val (s', rc) /\ net_ok (network s').
Proof.
    intros E [text Ht] Hw Hf. rewrite (bind_val _ _ _ _ _ (device_path_val fmt more s str E)).
    destruct (default true _); [|eexists _, _; now split]. unfold lift, bind. rewrite Ht. cbn [obind].
    apply on_network_defined. now apply Hf.
Qed.

Lemma send_entry_defined e (s : S) : entry_ok e -> net_ok (network s) ->
  exists s' rc, send_entry e s = Val (s', rc) /\ net_ok (network s').
Proof.
    destruct e as [|type rest]; [done|]. intros He Hw. unfold send_entry.
    assert (T : load8 (type :: rest) 0 = Val type).
    { apply load8_bytes_at. repeat split; cbn [length]; try lia. intros [|i] Hi; [done|lia]. }
    assert (P : load (type :: rest) 1 (zlen (type :: rest) - 1) = Val rest).
    { rewrite (load_after [type] rest) by (cbn [length]; lia). f_equal. apply take_ge. cbn [length]. lia. }
    unfold lift at 1, bind at 1. rewrite T. cbn [obind]. cbn [entry_ok] in He.
    destruct (type =? kTicosdTxDataType_RebootEvent); cbn [orb] in He.
    { eapply send_with_path; [reflexivity|now apply (entry_string_at _ _ rest)|done|]. intros. now apply post_defined. }
    destruct ((type =? kTicosdTxDataType_CoreUpload) || (type =? kTicosdTxDataType_CoreUploadWithGzip)).
    { eapply send_with_path; [reflexivity|now apply (entry_string_at _ _ rest)|done|]. intros. now apply upload_defined. }
    destruct (type =? kTicosdTxDataType_Attributes); [|eexists _, _; now split].
    destruct He as (H8 & Hin & [iso Hiso]). unfold send_attributes.
    rewrite (load_after [type] rest) by lia. unfold lift at 1, bind at 1. cbn [obind].
    change (Z.to_nat 8) with 8%nat. unfold lift at 1, bind at 1. rewrite Hiso. cbn [obind].
    eapply (send_with_path _ _ s _ _ _ (fun path text w => network_post w path kTicosdHttpMethod_PATCH (Some text)));
      [reflexivity| |done|intros; now apply post_defined].
    apply (entry_string_at _ _ (drop 8 rest)); [|done].
    assert (E : type :: rest = (type :: take 8 rest) ++ drop 8 rest) by (cbn; now rewrite take_drop).
    rewrite E at 1. replace 9 with (zlen (type :: take 8 rest)) by (cbn [length]; rewrite length_take; lia).
    rewrite load_after.
    - f_equal. apply take_ge. rewrite length_drop. cbn [length]. rewrite length_take. lia.
    - rewrite length_drop. cbn [length]. rewrite length_take. lia.
Qed.

(** ** The order of sending *)

(** [delivery s ms rest all s']: from [s] the messages [ms] are sent one after the other up
    to the end ([all], and [rest] is empty) or up to the first one to be retried, with which
    [rest] begins. *)
Inductive delivery : S -> list payload -> list payload -> bool -> S -> Prop :=
| delivery_done s : delivery s [] [] true s
| delivery_sent s s1 m ms rc rest all s' :
    send_entry m s = Val (s1, rc) -> rc <> kTicosdNetworkResult_ErrorRetryLater ->
    delivery s1 ms rest all s' -> delivery s (m :: ms) rest all s'
| delivery_retry s s1 m ms :
    send_entry m s = Val (s1, kTicosdNetworkResult_ErrorRetryLater) ->
    delivery s (m :: ms) (m :: ms) false s1.

Lemma delivery_rest s ms rest all s' : delivery s ms rest all s' ->
  (exists sent, ms = sent ++ rest) /\ (all = true <-> rest = []).
Proof.
    induction 1 as [s|s s1 m ms rc rest all s' _ _ _ [[sent ->] IH]|s s1 m ms _].
    - split; [now exists []|done].
    - split; [now exists (m :: sent)|done].
    - split; [now exists []|done].
Qed.

Lemma set_queue_twice q1 q2 (s : S) : set_queue q1 (set_queue q2 s) = set_queue q1 s.
Proof. done. Qed.

Lemma send_entry_other_queue e (s s' : S) q rc : send_entry e (set_queue q s) = Val (s', rc) ->
  exists s1, send_entry e s = Val (s1, rc) /\ s' = set_queue q s1.
Proof.
    rewrite send_entry_queue_free. destruct (send_entry e s) as [[s1 r]| |]; [|done..]. cbn [obind].
    intros E. apply Val_inj in E. injection E as <- <-. eauto.
Qed.

(** The queue field does not matter for a delivery. *)
Lemma delivery_other_queue q s ms rest all s' : delivery s ms rest all s' ->
  delivery (set_queue q s) ms rest all (set_queue q s').
Proof.
    induction 1 as [s|s s1 m ms rc rest all s' E Hrc _ IH|s s1 m ms E].
    - constructor.
    - eapply delivery_sent; [|exact Hrc|exact IH]. now rewrite send_entry_queue_free, E.
    - apply delivery_retry. now rewrite send_entry_queue_free, E.
Qed.

Lemma on_queue_val {A} (f : Q -> outcome (Q * A)) (s : S) q a : f (queue s) = Val (q, a) ->
  on_queue f s = Val (set_queue q s, a).
Proof. intros E. unfold on_queue. now rewrite E. Qed.

Lemma process_entries_delivers fuel : forall c ms fut (s : S), holds (queue s) c ms fut ->
  Forall entry_ok (ms ++ fut) -> net_ok (network s) -> (length (ms ++ fut) < fuel)%nat ->
  exists s' all arrived fut' rest c', process_entries fuel s = Val (s', all) /\ fut = arrived ++ fut' /\
    delivery s (ms ++ arrived) rest all (set_queue (queue s) s') /\ holds (queue s') c' rest fut'.
Proof.
    induction fuel as [|fuel IH]; intros c ms fut s Hq Hok Hw Hf; [lia|]. cbn [process_entries].
    destruct (read_head_holds _ _ _ _ Hq) as (q1 & new1 & fut1 & -> & E1 & Q1).
    rewrite (bind_val _ _ _ _ _ (on_queue_val _ _ _ _ E1)). destruct (ms ++ new1) as [|m rest1] eqn:Em; cbn [head].
    { exists (set_queue q1 s), true, new1, fut1, [], c. split; [done|]. split; [done|]. rewrite Em.
      rewrite set_queue_twice. replace (set_queue (queue s) s) with s by now destruct s. split; [constructor|exact Q1]. }
    rewrite app_assoc, Em in Hok, Hf. cbn [app length] in Hf. apply Forall_cons_1 in Hok as [Hm Hok].
    destruct (send_entry_defined m (set_queue q1 s) Hm Hw) as (s2 & rc & E2 & Hw2).
    rewrite (bind_val _ _ _ _ _ E2). destruct (send_entry_other_queue _ _ _ _ _ E2) as (s2' & E2' & ->).
    destruct (decide _) as [Hrc|Hrc].
    2: { exists (set_queue q1 s2'), false, new1, fut1, (m :: rest1), true. split; [done|]. split; [done|]. rewrite Em.
      rewrite set_queue_twice. apply queue_free_keeps in E2' as Eq; [|apply send_entry_queue_free].
      rewrite <- Eq. replace (set_queue (queue s2') s2') with s2' by now destruct s2'. split; [|exact Q1].
      apply delivery_retry. rewrite E2'. destruct rc; naive_solver. }
    destruct (complete_read_holds _ _ _ _ Q1) as (q3 & new2 & fut2 & -> & E3 & Q3).
    rewrite (bind_val _ _ _ _ _ (on_queue_val _ (set_queue q1 s2') _ _ E3)). rewrite set_queue_twice.
    destruct (IH false (rest1 ++ new2) fut2 (set_queue q3 s2')) as (s' & all & arr & fut' & rest & c' & E4 & -> & D & Q4);
      [exact Q3|now rewrite <- app_assoc|exact Hw2|rewrite <- app_assoc; lia|].
    exists s', all, (new1 ++ new2 ++ arr), fut', rest, c'. split; [exact E4|]. split; [now rewrite <- !app_assoc|].
    split; [|exact Q4]. rewrite (app_assoc ms), Em. cbn [app].
    apply delivery_sent with s2' rc; [exact E2'|now destruct Hrc as [->| ->]|].
    apply (delivery_other_queue (queue s)) in D. rewrite !set_queue_twice, <- app_assoc in D.
    apply queue_free_keeps in E2' as Eq; [|apply send_entry_queue_free]. rewrite <- Eq in D at 1.
    now replace (set_queue (queue s2') s2') with s2' in D by now destruct s2'.
Qed.

(** C3: while others keep writing, the daemon hands the unread entries to the network in the
    order they were queued, each once, and takes from the queue exactly those the network
    does not want retried: it returns true when it has emptied the queue, false when it
    stopped at an entry to be retried, which is then still the oldest one. *)
Theorem queue_delivered_in_order fuel c ms fut (s : S) : holds (queue s) c ms fut ->
  Forall entry_ok (ms ++ fut) -> net_ok (network s) -> data_collection_off None s = false ->
  (length (ms ++ fut) < fuel)%nat ->
  exists s' all arrived fut' rest c', prv_ticosd_process_tx_queue fuel s = Val (s', all) /\ fut = arrived ++ fut' /\
    delivery s (ms ++ arrived) rest all (set_queue (queue s) s') /\ holds (queue s') c' rest fut' /\
    (all = true <-> rest = []).
Proof.
    intros Hq Hok Hw Hoff Hf. unfold prv_ticosd_process_tx_queue, bind, gets. cbn [obind]. rewrite Hoff.
    destruct (process_entries_delivers fuel c ms fut s Hq Hok Hw Hf) as (s' & all & arr & fut' & rest & c' & E & Ef & D & Hq').
    exists s', all, arr, fut', rest, c'. repeat split; try done; apply (delivery_rest _ _ _ _ _ D).
Qed.
End Delivery.
