(* ===== verification/Config.v ===== *)
(** * Configuration (src/util/config.c, src/util/runtime_config.c)

    Two JSON trees, the defaults merged with the configuration file ([base]) and what was set
    at run time ([runtime]), which is kept in the file runtime.conf.  The functions of json-c
    come from [JsonTree]; a NULL tree is [None]. *)
From stdpp Require Import gmap.
From S2P Require Import Prelude CLib Json Network TxQueue Daemon.
#[local] Open Scope string_scope.
#[local] Open Scope list_scope.
#[local] Open Scope Z_scope.

Definition CONFIG_KEY_DEV_MODE : string := "enable_dev_mode".
Definition CONFIG_KEY_DATA_COLLECTION : string := "enable_data_collection".

(** [!s || strlen(s) == 0] *)
Definition no_key (s : option string) : bool :=
  match s with
  | None => true
  | Some s => String.eqb s EmptyString
  end.

Section Config.
Context `{JsonTree}.

Record sTicosdConfig := MkConfig {
  base : option json_object;
  runtime : option json_object }.

(** ** Looking up *)
Definition prv_config_find_object (tree : option json_object) (parent_key : option string) (key : string)
    : option json_object :=
  match tree with
  | None => None
  | Some tree =>
      let object :=
        match parent_key with
        | Some p =>
            if negb (String.eqb p EmptyString) then
              match json_object_object_get_ex tree p with
              | Some o => if json_is_object o then Some o else None
              | None => None
              end
            else Some tree
        | None => Some tree
        end in
      match object with
      | Some o => if negb (String.eqb key EmptyString) then json_object_object_get_ex o key else Some o
      | None => None
      end
  end.

(** The object the getters look at: runtime first, then base. *)
Definition config_find (handle : sTicosdConfig) (parent_key : option string) (key : string) : option json_object :=
  match prv_config_find_object (runtime handle) parent_key key with
  | Some o => Some o
  | None => prv_config_find_object (base handle) parent_key key
  end.

Definition config_get {A} (type : json_type) (read : json_object -> A) (handle : sTicosdConfig)
    (parent_key : option string) (key : string) : option A :=
  match config_find handle parent_key key with
  | Some o => if decide (json_object_get_type o = type) then Some (read o) else None
  | None => None
  end.

Definition config_get_string := config_get json_type_string json_object_get_string.
Definition config_get_integer := config_get json_type_int json_object_get_int.
Definition config_get_boolean := config_get json_type_boolean json_object_get_boolean.

#[export] Instance config_ops : ConfigOps sTicosdConfig := {
  ticosd_config_get_boolean := config_get_boolean;
  ticosd_config_get_integer := config_get_integer;
  ticosd_config_get_string := config_get_string }.

(** ** Writing *)

(** [malloc_ok] is the allocator's answer; [None] is NULL. *)
Definition ticosd_config_generate_rw_filename {C} `{ConfigOps C} (malloc_ok : bool) (handle : C) (filename : string)
    : option string :=
  match ticosd_config_get_string handle (Some EmptyString) "data_dir" with
  | Some data_dir =>
      if negb (String.eqb data_dir EmptyString) then
        if malloc_ok then Some (data_dir +:+ "/" +:+ filename) else None
      else None
  | None => None
  end.

(** What the environment answers while the runtime tree is written. *)
Record write_env := MkWriteEnv { path_malloc_ok : bool; write_ok : bool }.

Definition prv_config_write_config (env : write_env) (handle : sTicosdConfig) (fs : files) : files :=
  match ticosd_config_generate_rw_filename (path_malloc_ok env) handle "runtime.conf", runtime handle with
  | Some runtime_path, Some tree => if write_ok env then <[runtime_path := json_file_text tree]> fs else fs
  | _, _ => fs
  end.

(** The runtime tree with [val] in it; the object of a section is part of that tree. *)
Definition set_in_tree (tree : json_object) (parent_key : option string) (key : string) (val : json_object)
    : outcome json_object :=
  match parent_key with
  | Some p =>
      if negb (String.eqb p EmptyString) then
        let object :=
          match json_object_object_get_ex tree p with
          | Some o => if json_is_object o then o else json_object_new_object
          | None => json_object_new_object
          end in
        let! object := object_add object key (Some val) in
        object_add tree p (Some object)
      else object_add tree key (Some val)
  | None => object_add tree key (Some val)
  end.

Definition prv_config_set_object (env : write_env) (parent_key : option string) (key : string) (val : json_object)
    (handle : sTicosdConfig) (fs : files) : outcome (sTicosdConfig * files) :=
  match runtime handle with
  | None => Fault
  | Some tree =>
      let! tree := set_in_tree tree parent_key key val in
      let handle := MkConfig (base handle) (Some tree) in
      Val (handle, prv_config_write_config env handle fs)
  end.

Definition ticosd_config_set_string env parent_key key (val : string) :=
  prv_config_set_object env parent_key key (json_object_new_string val).
Definition ticosd_config_set_integer env parent_key key (val : Z) :=
  prv_config_set_object env parent_key key (json_object_new_int val).
Definition ticosd_config_set_boolean env parent_key key (val : bool) :=
  prv_config_set_object env parent_key key (json_object_new_boolean val).

(** ** Merging and starting *)

(** The body of the loop: one member of the second tree into the first. *)
Definition merge_member (merge : json_object -> json_object -> outcome json_object) (a : json_object)
    (member : string * option json_object) : outcome json_object :=
  let '(key, val) := member in
  match val with
  | Some v =>
      if json_is_object v then
        match json_object_object_get_ex a key with
        | Some tmp =>
            if json_is_object tmp then let! tmp := merge tmp v in object_add a key (Some tmp)
            else object_add a key val
        | None => object_add a key val
        end
      else object_add a key val
  | None => object_add a key val
  end.

Fixpoint merge_members (merge : json_object -> json_object -> outcome json_object) (a : json_object)
    (members : list (string * option json_object)) : outcome json_object :=
  match members with
  | [] => Val a
  | m :: members => let! a := merge_member merge a m in merge_members merge a members
  end.

(** Walks the members of the second tree; [fuel] bounds the nesting. *)
Fixpoint prv_config_merge_objects (fuel : nat) (a b : json_object) : outcome json_object :=
  match fuel with
  | O => OutOfFuel
  | S fuel =>
      let! members := object_members b in
      merge_members (prv_config_merge_objects fuel) a members
  end.

(** A file of the device: not there, not to be opened, or its bytes. *)
Inductive opened :=
| OpenFailed
| Opened (bytes : list Z).

(** [builtin] is the text of builtin.conf; [conf] and [runtime_conf] tell what opening the two
    files gives.  calloc failing is undefined. *)
Definition ticosd_config_init (fuel : nat) (calloc_ok path_malloc_ok : bool) (builtin : string) (conf : opened)
    (runtime_conf : string -> opened) : outcome sTicosdConfig :=
  if negb calloc_ok then Fault
  else
    let base := json_tokener_parse builtin in
    let! base :=
      match conf with
      | OpenFailed => Val base
      | Opened bytes =>
          match json_object_from_fd bytes with
          | None => Val base
          | Some object =>
              match base with
              | None => let! _ := object_members object in Fault
              | Some base => let! merged := prv_config_merge_objects fuel base object in Val (Some merged)
              end
          end
      end in
    let runtime :=
      match ticosd_config_generate_rw_filename path_malloc_ok (MkConfig base None) "runtime.conf" with
      | None => json_object_new_object
      | Some runtime_path =>
          match runtime_conf runtime_path with
          | OpenFailed => json_object_new_object
          | Opened bytes => default json_object_new_object (json_object_from_fd bytes)
          end
      end in
    Val (MkConfig base (Some runtime)).

(** ** Whole sections *)
Inductive config_value :=
| kTicosdConfigTypeUnknown
| kTicosdConfigTypeBoolean (b : bool)
| kTicosdConfigTypeInteger (d : Z)
| kTicosdConfigTypeString (s : string)
| kTicosdConfigTypeObject.

Record sTicosdConfigObject := MkConfigObject { key : string; value : config_value }.

Definition value_of (v : option json_object) : config_value :=
  match v with
  | None => kTicosdConfigTypeUnknown
  | Some v =>
      match json_object_get_type v with
      | json_type_boolean => kTicosdConfigTypeBoolean (json_object_get_boolean v)
      | json_type_int => kTicosdConfigTypeInteger (json_object_get_int v)
      | json_type_string => kTicosdConfigTypeString (json_object_get_string v)
      | json_type_object => kTicosdConfigTypeObject
      | _ => kTicosdConfigTypeUnknown
      end
  end.

(** One member: the entry with its key is overwritten, or a new one comes at the end. *)
Fixpoint put_entry (k : string) (v : config_value) (objects : list sTicosdConfigObject) : list sTicosdConfigObject :=
  match objects with
  | [] => [MkConfigObject k v]
  | o :: rest => if String.eqb (key o) k then MkConfigObject (key o) v :: rest else o :: put_entry k v rest
  end.

Definition prv_config_merge_object_into_array (object : json_object) (objects : list sTicosdConfigObject)
    : list sTicosdConfigObject :=
  foldl (fun objects '(k, v) => put_entry k (value_of v) objects) objects (json_members object).

Definition section_entries (tree : option json_object) (parent_key : option string) (objects : list sTicosdConfigObject)
    : list sTicosdConfigObject :=
  match prv_config_find_object tree parent_key EmptyString with
  | Some object => if json_is_object object then prv_config_merge_object_into_array object objects else objects
  | None => objects
  end.

Definition ticosd_config_get_objects (handle : sTicosdConfig) (parent_key : option string) : list sTicosdConfigObject :=
  section_entries (runtime handle) parent_key (section_entries (base handle) parent_key []).

(** src/ticosd.c: the same, for the plugins. *)
Definition ticosd_get_objects {Q W} (parent_key : option string) (t : sTicosd Q sTicosdConfig W) : list sTicosdConfigObject :=
  ticosd_config_get_objects (config t) parent_key.

(** ** runtime_config.c *)

(** [root] and [restarted] are what getuid and ticosd_restart_service_if_running answer.  The
    result is the exit code. *)
Definition ticos_set_runtime_bool_and_reload (env : write_env) (root restarted : bool) (config_key : string) (value : bool)
    (config : sTicosdConfig) (fs : files) : outcome (sTicosdConfig * files * Z) :=
  match config_get_boolean config (Some EmptyString) config_key with
  | Some current_state =>
      if Bool.eqb current_state value then Val (config, fs, 0)
      else
        let! (config, fs) := ticosd_config_set_boolean env (Some EmptyString) config_key value config fs in
        Val (config, fs, if negb root then 0 else if restarted then 0 else -1)
  | None =>
      (* current_state keeps its initial false but is not compared *)
      let! (config, fs) := ticosd_config_set_boolean env (Some EmptyString) config_key value config fs in
      Val (config, fs, if negb root then 0 else if restarted then 0 else -1)
  end.
End Config.
