(* ===== verification/JsonTree.v ===== *)
(** * A JSON library for the examples

    Trees with a text form of their own, which satisfy the laws of [JsonLaws]: the hypotheses
    on json-c can hold. *)
From stdpp Require Import countable.
From S2P Require Import Prelude CLib Json.
#[local] Open Scope string_scope.
#[local] Open Scope list_scope.
#[local] Open Scope Z_scope.

Inductive jval :=
| JBool (b : bool)
| JInt (z : Z)
| JString (s : string)
| JObject (ms : list (string * option jval)).

(** Induction with the members' values. *)
Lemma jval_induction (P : jval -> Prop) :
  (forall b, P (JBool b)) -> (forall z, P (JInt z)) -> (forall s, P (JString s)) ->
  (forall ms, Forall (fun kv => match snd kv with Some v => P v | None => True end) ms -> P (JObject ms)) ->
  forall v, P v.
Proof.
  intros HB HZ HS HO. fix IH 1. intros [b|z|s|ms]; [apply HB|apply HZ|apply HS|]. apply HO.
  induction ms as [|[k [v|]] ms IHms]; constructor; [exact (IH v)|exact IHms|exact I|exact IHms].
Qed.

(** ** Text *)
Fixpoint to_tree (v : jval) : gen_tree (bool + Z + string) :=
  match v with
  | JBool b => GenLeaf (inl (inl b))
  | JInt z => GenLeaf (inl (inr z))
  | JString s => GenLeaf (inr s)
  | JObject ms =>
      GenNode 0 (map (fun kv => GenNode 1 (GenLeaf (inr (fst kv)) ::
        match snd kv with Some v => [to_tree v] | None => [] end)) ms)
  end.

Fixpoint of_tree (t : gen_tree (bool + Z + string)) : jval :=
  match t with
  | GenLeaf (inl (inl b)) => JBool b
  | GenLeaf (inl (inr z)) => JInt z
  | GenLeaf (inr s) => JString s
  | GenNode _ ts =>
      JObject (map (fun t =>
        match t with
        | GenNode _ [GenLeaf (inr k); t] => (k, Some (of_tree t))
        | GenNode _ [GenLeaf (inr k)] => (k, None)
        | _ => (EmptyString, None)
        end) ts)
  end.

Lemma of_to_tree v : of_tree (to_tree v) = v.
Proof.
  induction v as [b|z|s|ms IH] using jval_induction; [done..|]. cbn. f_equal.
  induction IH as [|[k [v|]] ms Hv _ IHms]; [done| |]; cbn in *; now rewrite ?Hv, IHms.
Qed.

Fixpoint pos_text (p : positive) : string :=
  match p with
  | xH => EmptyString
  | xO p => String "0" (pos_text p)
  | xI p => String "1" (pos_text p)
  end.

Fixpoint text_pos (s : string) : positive :=
  match s with
  | EmptyString => xH
  | String "0" r => xO (text_pos r)
  | String _ r => xI (text_pos r)
  end.

Lemma text_pos_text p : text_pos (pos_text p) = p.
Proof. induction p; cbn; congruence. Qed.

Definition to_text (v : jval) : string := pos_text (encode (to_tree v)).
Definition of_text (s : string) : option jval := option_map of_tree (decode (text_pos s)).

Lemma of_to_text v : of_text (to_text v) = Some v.
Proof. unfold of_text, to_text. rewrite text_pos_text, decode_encode. cbn. now rewrite of_to_tree. Qed.

(** ** Members *)
Definition same_key (k : string) (kv : string * option jval) : bool := String.eqb (fst kv) k.

(** The first member of every key. *)
Fixpoint distinct (ms : list (string * option jval)) : list (string * option jval) :=
  match ms with
  | [] => []
  | kv :: ms => kv :: List.filter (fun m => negb (same_key (fst kv) m)) (distinct ms)
  end.

Definition members (v : jval) : list (string * option jval) :=
  match v with JObject ms => distinct ms | _ => [] end.

Definition get_ex (v : jval) (k : string) : option jval :=
  match find (same_key k) (members v) with Some (_, v) => v | None => None end.

Definition add (v : jval) (k : string) (new : option jval) : jval :=
  match v with
  | JObject ms => JObject ((k, new) :: ms)
  | _ => v
  end.

Definition type_of (v : jval) : json_type :=
  match v with
  | JBool _ => json_type_boolean
  | JInt _ => json_type_int
  | JString _ => json_type_string
  | JObject _ => json_type_object
  end.

Fixpoint depth (v : jval) : nat :=
  match v with
  | JObject ms => S (list_max (map (fun kv => match snd kv with Some v => depth v | None => O end) ms))
  | _ => O
  end.

Lemma distinct_in ms kv : In kv (distinct ms) -> In kv ms.
Proof.
  induction ms as [|m ms IH]; [done|]. cbn. intros [->|Hin]; [now left|]. apply filter_In in Hin as [Hin _]. auto.
Qed.

Lemma distinct_nodup ms : NoDup (map fst (distinct ms)).
Proof.
  induction ms as [|[k v] ms IH]; cbn [distinct map fst]; constructor.
  - intros Hin. apply list_elem_of_In, in_map_iff in Hin as ([k' v'] & Ek & Hin). cbn in Ek. subst k'.
    apply filter_In in Hin as [_ Hin]. unfold same_key in Hin. cbn in Hin. now rewrite String.eqb_refl in Hin.
  - clear v. induction (distinct ms) as [|[k' v'] l IHl]; [constructor|]. cbn [map fst] in IH. apply NoDup_cons in IH as [Hn IH].
    cbn [List.filter]. destruct (negb _); cbn [map fst]; [|auto]. apply NoDup_cons. split; [|auto].
    intros Hin. apply Hn. apply list_elem_of_In, in_map_iff in Hin as (kv & Ek & Hin). apply filter_In in Hin as [Hin _].
    apply list_elem_of_In, in_map_iff. eauto.
Qed.

Lemma find_filter_other k k' l : k <> k' -> find (same_key k') (List.filter (fun m => negb (same_key k m)) l) = find (same_key k') l.
Proof.
  intros Hk. induction l as [|[k2 v2] l IH]; [done|]. cbn. unfold same_key in *. cbn [fst] in *.
  destruct (String.eqb_spec k2 k) as [->|]; cbn [negb]; cbn [find fst].
  - destruct (String.eqb_spec k k'); [done|exact IH].
  - destruct (String.eqb k2 k'); [done|exact IH].
Qed.

Lemma depth_member ms k v : In (k, Some v) ms -> (depth v < depth (JObject ms))%nat.
Proof.
  intros Hin. cbn. apply Nat.lt_succ_r. induction ms as [|m ms IH]; [done|]. cbn. destruct Hin as [->|Hin].
  - cbn. apply Nat.le_max_l.
  - etransitivity; [apply (IH Hin)|]. apply Nat.le_max_r.
Qed.

(** ** The instances *)
#[export] Instance tree_json : JsonC := {
  json_object := jval;
  json_tokener_parse := of_text;
  json_object_object_get_ex := get_ex;
  json_object_get_type := type_of;
  json_object_get_string v := match v with JString s => s | _ => EmptyString end }.

#[export] Instance tree_json_tree : JsonTree := {
  json_object_new_object := JObject [];
  json_object_new_string := JString;
  json_object_new_int := JInt;
  json_object_new_boolean := JBool;
  json_object_get_boolean v := match v with JBool b => b | _ => false end;
  json_object_get_int v := match v with JInt z => z | _ => 0 end;
  json_object_object_add := add;
  json_members := members;
  json_file_text v := bytes_of_string (to_text v);
  json_object_from_fd bytes := of_text (string_of_bytes bytes) }.

#[export] Instance tree_json_laws : JsonLaws.
Proof.
  refine {| json_depth := depth : json_object -> nat |}; try done.
  - intros [] key v; done.
  - intros [] key v; try done. intros _. cbn. unfold get_ex. cbn [members add distinct find]. unfold same_key at 1.
    cbn [fst]. now rewrite String.eqb_refl.
  - intros [b|z|s|ms] key key' v Hk; try done. cbn. unfold get_ex. cbn [members add distinct find]. unfold same_key at 1.
    cbn [fst]. destruct (String.eqb_spec key key'); [done|]. now rewrite find_filter_other.
  - intros [b|z|s|ms]; try (intros; constructor). apply distinct_nodup.
  - intros [b|z|s|ms] key v; try done. intros Hin. apply (depth_member ms key). now apply distinct_in.
  - intros o _. cbn. rewrite string_of_bytes_of_string. apply of_to_text.
Defined.
