(* ===== verification/ConfigSpec.v ===== *)
(** * What configuration promises

    A setting made at run time is found again, also after a restart, and changes no other;
    the configuration file overrides the defaults member by member. *)
From stdpp Require Import gmap.
From S2P Require Import Prelude CLib TxQueue Json Network Daemon Config JsonTree.
#[local] Open Scope string_scope.
#[local] Open Scope list_scope.
#[local] Open Scope Z_scope.

Section ConfigSpec.
Context `{JsonLaws}.

Definition is_object (o : json_object) : Prop := json_object_get_type o = json_type_object.

Lemma json_is_object_true o : is_object o -> json_is_object o = true.
Proof. apply bool_decide_eq_true. Qed.

Lemma object_add_val o key v : is_object o -> object_add o key v = Val (json_object_object_add o key v).
Proof. intros Ho. unfold object_add. now rewrite json_is_object_true. Qed.

Lemma object_add_is_object o key v : is_object o -> is_object (json_object_object_add o key v).
Proof. unfold is_object. now rewrite type_object_add. Qed.

(** ** Sections *)

(** The object a parent key names: the root for none or an empty one. *)
Definition section_of (tree : json_object) (parent_key : option string) : option json_object :=
  if no_key parent_key then Some tree
  else match json_object_object_get_ex tree (default EmptyString parent_key) with
       | Some o => if json_is_object o then Some o else None
       | None => None
       end.

Lemma find_section tree parent_key key : key <> EmptyString ->
  prv_config_find_object (Some tree) parent_key key =
    match section_of tree parent_key with Some o => json_object_object_get_ex o key | None => None end.
Proof.
    intros Hk. apply String.eqb_neq in Hk. unfold prv_config_find_object, section_of, no_key. rewrite Hk. cbn [negb].
    destruct parent_key as [p|]; [|done]. now destruct (String.eqb p EmptyString).
Qed.

(** Setting one value changes exactly what the pair of keys names. *)
Definition same_place (p : option string) (k : string) (q : option string) (k' : string) : Prop :=
  if no_key p then (if no_key q then k' = k else default EmptyString q = k)
  else if no_key q then k' = default EmptyString p
  else default EmptyString q = default EmptyString p /\ k' = k.

Lemma set_in_tree_root tree p k val : is_object tree -> no_key p = true ->
  set_in_tree tree p k val = Val (json_object_object_add tree k (Some val)).
Proof.
    intros Ht Hp. unfold set_in_tree, no_key in *. destruct p as [p|]; [rewrite Hp; cbn [negb]|]; now apply object_add_val.
Qed.

Lemma set_in_tree_section tree p k val : is_object tree -> p <> EmptyString ->
  exists o, set_in_tree tree (Some p) k val = Val (json_object_object_add tree p (Some (json_object_object_add o k (Some val)))) /\
    is_object o /\ forall k', json_object_object_get_ex o k' =
      match section_of tree (Some p) with Some o => json_object_object_get_ex o k' | None => None end.
Proof.
    intros Ht Hp. apply String.eqb_neq in Hp. unfold set_in_tree, section_of, no_key. rewrite Hp. cbn [negb].
    change (default EmptyString (Some p)) with p.
    assert (N : is_object json_object_new_object) by apply type_new_object.
    destruct (json_object_object_get_ex tree p) as [o|]; [destruct (json_is_object o) eqn:Eo|].
    - exists o. apply bool_decide_eq_true in Eo. rewrite !object_add_val by done. cbn [obind]. rewrite object_add_val by done. now split.
    - exists json_object_new_object. rewrite !object_add_val by done. cbn [obind]. rewrite object_add_val by done.
      split; [done|]. split; [done|]. intros k'. apply new_object_empty.
    - exists json_object_new_object. rewrite !object_add_val by done. cbn [obind]. rewrite object_add_val by done.
      split; [done|]. split; [done|]. intros k'. apply new_object_empty.
Qed.

Lemma set_in_tree_spec tree p k val : is_object tree -> k <> EmptyString ->
  exists tree', set_in_tree tree p k val = Val tree' /\ is_object tree' /\
    prv_config_find_object (Some tree') p k = Some val /\
    forall q k', k' <> EmptyString -> ~ same_place p k q k' ->
      prv_config_find_object (Some tree') q k' = prv_config_find_object (Some tree) q k'.
Proof.
    intros Ht Hk. destruct (no_key p) eqn:Hp.
    - rewrite set_in_tree_root by done. eexists. split; [reflexivity|]. split; [now apply object_add_is_object|].
      rewrite find_section by done. unfold section_of at 1. rewrite Hp. split; [now apply get_added|].
      intros q k' Hk' Hs. rewrite !find_section by done. unfold section_of. unfold same_place in Hs. rewrite Hp in Hs.
      destruct (no_key q); rewrite get_others; auto.
    - destruct p as [p|]; [|done]. assert (Hne : p <> EmptyString) by now apply String.eqb_neq.
      destruct (set_in_tree_section tree p k val Ht Hne) as (o & E & Ho & Hg). rewrite E.
      eexists. split; [reflexivity|]. split; [now apply object_add_is_object|].
      rewrite find_section by done. unfold section_of at 1. rewrite Hp. change (default EmptyString (Some p)) with p. rewrite get_added by done.
      rewrite json_is_object_true by now apply object_add_is_object. split; [now apply get_added|].
      intros q k' Hk' Hs. rewrite !find_section by done. unfold same_place in Hs. rewrite Hp in Hs. change (default EmptyString (Some p)) with p in Hs.
      unfold section_of at 1. destruct (no_key q) eqn:Hq.
      { unfold section_of. rewrite Hq. now rewrite get_others by auto. }
      destruct (decide (default EmptyString q = p)) as [Eq|Nq].
      + rewrite Eq, get_added by done. rewrite json_is_object_true by now apply object_add_is_object.
        rewrite get_others by naive_solver. rewrite Hg. unfold section_of. now rewrite Hp, Hq, Eq.
      + unfold section_of. rewrite Hq. now rewrite get_others by auto.
Qed.

(** ** Setting and getting *)
Definition runtime_ok (h : sTicosdConfig) : Prop := exists t, runtime h = Some t /\ is_object t.

Lemma set_object_spec env p k val h fs : runtime_ok h -> k <> EmptyString ->
  exists h', prv_config_set_object env p k val h fs = Val (h', prv_config_write_config env h' fs) /\
    base h' = base h /\ runtime_ok h' /\ config_find h' p k = Some val /\
    forall q k', k' <> EmptyString -> ~ same_place p k q k' -> config_find h' q k' = config_find h q k'.
Proof.
    intros (t & E & Ht) Hk. destruct (set_in_tree_spec t p k val Ht Hk) as (t' & Es & Ht' & Hg & Ho).
    unfold prv_config_set_object. rewrite E, Es. exists (MkConfig (base h) (Some t')). split; [reflexivity|].
    split; [done|]. split; [now exists t'|]. unfold config_find. cbn [runtime base]. split; [now rewrite Hg|].
    intros q k' Hk' Hs. now rewrite (Ho q k' Hk' Hs), E.
Qed.

(** a value set at run time is the one the getter of its type returns, over whatever the
    configuration file says, and no other setting changes; the other getters refuse it. *)
Theorem config_set_get env p k (v : bool) h fs : runtime_ok h -> k <> EmptyString ->
  exists h' fs', ticosd_config_set_boolean env p k v h fs = Val (h', fs') /\ runtime_ok h' /\
    config_get_boolean h' p k = Some v /\ config_get_integer h' p k = None /\ config_get_string h' p k = None /\
    forall q k', k' <> EmptyString -> ~ same_place p k q k' ->
      config_get_boolean h' q k' = config_get_boolean h q k' /\
      config_get_integer h' q k' = config_get_integer h q k' /\
      config_get_string h' q k' = config_get_string h q k'.
Proof.
    intros Hr Hk. destruct (set_object_spec env p k (json_object_new_boolean v) h fs Hr Hk) as (h' & E & _ & Hr' & Hf & Ho).
    exists h', (prv_config_write_config env h' fs). split; [exact E|]. split; [exact Hr'|].
    unfold config_get_boolean, config_get_integer, config_get_string, config_get. rewrite Hf, type_new_boolean.
    rewrite decide_True, !decide_False by done. rewrite get_new_boolean. repeat (split; [done|]).
    intros q k' Hk' Hs. now rewrite (Ho q k' Hk' Hs).
Qed.

(** ** Restarting *)

(** What opening the files gives. *)
Definition open_in (fs : files) (name : string) : opened :=
  match fs !! name with Some bytes => Opened bytes | None => OpenFailed end.

(** C28: what was set is still set after a restart with the same defaults and configuration
    file, provided the data directory is not itself a run-time setting and the file could
    be written. *)
Theorem setting_survives_restart fuel builtin conf rc h0 p k (v : bool) h fs dir :
  ticosd_config_init fuel true true builtin conf rc = Val h0 -> base h = base h0 -> runtime_ok h -> k <> EmptyString ->
  prv_config_find_object (runtime h) (Some EmptyString) "data_dir" = None ->
  ~ same_place p k (Some EmptyString) "data_dir" ->
  config_get_string (MkConfig (base h) None) (Some EmptyString) "data_dir" = Some dir -> dir <> EmptyString ->
  exists h' fs' h2, ticosd_config_set_boolean (MkWriteEnv true true) p k v h fs = Val (h', fs') /\
    ticosd_config_init fuel true true builtin conf (open_in fs') = Val h2 /\
    h2 = h' /\ config_get_boolean h2 p k = Some v.
Proof.
    intros Hi Hb (t & Er & Ht) Hk Hnd Hsp Hdir Hne.
    destruct (set_object_spec (MkWriteEnv true true) p k (json_object_new_boolean v) h fs (ex_intro _ t (conj Er Ht)) Hk)
      as (h' & E & Eb & (t' & Er' & Ht') & Hf & Ho).
    exists h', (prv_config_write_config (MkWriteEnv true true) h' fs), h'. split; [exact E|].
    assert (D : config_find h' (Some EmptyString) "data_dir" = config_find (MkConfig (base h) None) (Some EmptyString) "data_dir").
    { rewrite Ho by done. unfold config_find. rewrite Hnd. reflexivity. }
    assert (P : ticosd_config_generate_rw_filename true h' "runtime.conf" = Some (dir +:+ "/" +:+ "runtime.conf")).
    { unfold ticosd_config_generate_rw_filename. cbn [ticosd_config_get_string config_ops]. unfold config_get_string, config_get in Hdir |- *. rewrite D, Hdir.
      apply String.eqb_neq in Hne. now rewrite Hne. }
    assert (P0 : ticosd_config_generate_rw_filename true (MkConfig (base h) None) "runtime.conf" = Some (dir +:+ "/" +:+ "runtime.conf")).
    { unfold ticosd_config_generate_rw_filename. cbn [ticosd_config_get_string config_ops]. rewrite Hdir. apply String.eqb_neq in Hne. now rewrite Hne. }
    assert (F : open_in (prv_config_write_config (MkWriteEnv true true) h' fs) (dir +:+ "/" +:+ "runtime.conf") = Opened (json_file_text t')).
    { unfold prv_config_write_config, open_in. cbn [path_malloc_ok write_ok]. rewrite P, Er'.
      assert (L : forall bytes : list Z, (<[dir +:+ "/" +:+ "runtime.conf" := bytes]> fs : files) !! (dir +:+ "/" +:+ "runtime.conf") = Some bytes)
        by (intros bytes; apply (lookup_insert_eq (M := gmap string))).
      now rewrite L. }
    split; [|split; [done|]].
    - unfold ticosd_config_init in *. cbn [negb] in *.
      destruct (match conf with OpenFailed => _ | _ => _ end) as [b| |]; [|done..]. cbn [obind] in *.
      apply Val_inj in Hi. subst h0. cbn [base] in Hb. subst b. rewrite P0, F, from_fd_text by done. cbn [default].
      destruct h' as [b' r']. cbn in Eb, Er'. now subst.
    - unfold config_get_boolean, config_get. rewrite Hf, type_new_boolean, decide_True by done. now rewrite get_new_boolean.
Qed.

(** ** The configuration file over the defaults *)
Definition member_of (members : list (string * option json_object)) (k : string) : option (option json_object) :=
  option_map snd (find (fun kv => String.eqb (fst kv) k) members).

(** What the merged tree has under a key. *)
Definition merged_member (merge : json_object -> json_object -> outcome json_object) (old : option json_object)
    (m : option (option json_object)) (new : option json_object) : Prop :=
  match m with
  | None => new = old
  | Some None => new = None
  | Some (Some v) =>
      match old with
      | Some tmp =>
          if json_is_object v && json_is_object tmp then exists r, merge tmp v = Val r /\ new = Some r
          else new = Some v
      | None => new = Some v
      end
  end.

Lemma merge_member_spec merge a k v : is_object a ->
  (forall o tmp, v = Some o -> is_object o -> is_object tmp -> exists r, merge tmp o = Val r) ->
  exists a', merge_member merge a (k, v) = Val a' /\ is_object a' /\
    merged_member merge (json_object_object_get_ex a k) (Some v) (json_object_object_get_ex a' k) /\
    forall k', k' <> k -> json_object_object_get_ex a' k' = json_object_object_get_ex a k'.
Proof.
    intros Ha Hm. assert (Add : forall w, exists a', object_add a k w = Val a' /\ is_object a' /\
      json_object_object_get_ex a' k = w /\ forall k', k' <> k -> json_object_object_get_ex a' k' = json_object_object_get_ex a k').
    { intros w. exists (json_object_object_add a k w). split; [now apply object_add_val|].
      split; [now apply object_add_is_object|]. split; [now apply get_added|]. intros k' Hk. apply get_others. congruence. }
    unfold merge_member, merged_member. destruct v as [v|]; [|exact (Add None)].
    destruct (json_is_object v) eqn:Ev; cbn [andb].
    2: { destruct (Add (Some v)) as (a' & ? & ? & ? & ?). exists a'. destruct (json_object_object_get_ex a k); auto. }
    destruct (json_object_object_get_ex a k) as [tmp|]; [|exact (Add (Some v))].
    destruct (json_is_object tmp) eqn:Et; [|exact (Add (Some v))]. apply bool_decide_eq_true in Ev, Et.
    destruct (Hm v tmp eq_refl Ev Et) as [r Er]. rewrite Er. cbn [obind].
    destruct (Add (Some r)) as (a' & ? & ? & ? & ?). exists a'. repeat split; eauto.
Qed.

Lemma merge_members_spec merge members : forall a, is_object a -> NoDup (map fst members) ->
  (forall k o tmp, In (k, Some o) members -> is_object o -> is_object tmp -> exists r, merge tmp o = Val r) ->
  exists a', merge_members merge a members = Val a' /\ is_object a' /\
    forall k, merged_member merge (json_object_object_get_ex a k) (member_of members k) (json_object_object_get_ex a' k).
Proof.
    induction members as [|[k v] members IH]; intros a Ha Hnd Hm; cbn [merge_members].
    - exists a. now repeat split.
    - cbn [map fst] in Hnd. apply NoDup_cons in Hnd as [Hk Hnd].
      destruct (merge_member_spec merge a k v Ha) as (a1 & E1 & Ha1 & Hm1 & Ho1).
      { intros o tmp -> Ho Ht. apply (Hm k o tmp); auto. now left. }
      rewrite E1. cbn [obind]. destruct (IH a1 Ha1 Hnd) as (a2 & E2 & Ha2 & Hm2).
      { intros k' o tmp Hin. apply (Hm k' o tmp). now right. }
      exists a2. split; [exact E2|]. split; [exact Ha2|]. intros k'. specialize (Hm2 k').
      unfold member_of. cbn [find fst]. destruct (String.eqb_spec k k') as [<-|Hne]; cbn [option_map snd].
      + assert (N : member_of members k = None).
        { unfold member_of. destruct (find _ members) as [[k2 v2]|] eqn:F; [|done]. apply find_some in F as [Hin Heq].
          cbn in Heq. apply String.eqb_eq in Heq. subst k2. destruct Hk. apply list_elem_of_In, in_map_iff. now exists (k, v2). }
        rewrite N in Hm2. cbn in Hm2. now rewrite Hm2.
      + rewrite Ho1 in Hm2 by congruence. exact Hm2.
Qed.

Lemma merge_objects_spec fuel : forall a b, is_object a -> is_object b -> (json_depth b < fuel)%nat ->
  exists m, prv_config_merge_objects fuel a b = Val m /\ is_object m /\
    forall k, merged_member (prv_config_merge_objects (fuel - 1)) (json_object_object_get_ex a k)
      (member_of (json_members b) k) (json_object_object_get_ex m k).
Proof.
    induction fuel as [|fuel IH]; intros a b Ha Hb Hf; [lia|]. cbn [prv_config_merge_objects].
    unfold object_members. rewrite json_is_object_true by done. cbn [obind]. replace (S fuel - 1)%nat with fuel by lia.
    apply merge_members_spec; [done|apply members_nodup|]. intros k o tmp Hin Ho Ht.
    apply member_depth in Hin. destruct (IH tmp o Ht Ho) as (r & E & _); [lia|]. eauto.
Qed.

(** C30: the configuration file overrides the defaults: start-up merges the two trees, and
    under every key the result has the file's value, or the default when the file does not
    name the key, or the merge of both where both are objects.  The recursion ends when
    [fuel] exceeds the depth of the file's tree. *)
Theorem config_file_overrides fuel builtin a b bytes rc :
  json_tokener_parse builtin = Some a -> json_object_from_fd bytes = Some b -> is_object a -> is_object b ->
  (json_depth b < fuel)%nat ->
  exists h m, ticosd_config_init fuel true true builtin (Opened bytes) rc = Val h /\ base h = Some m /\ is_object m /\
    forall k, merged_member (prv_config_merge_objects (fuel - 1)) (json_object_object_get_ex a k)
      (member_of (json_members b) k) (json_object_object_get_ex m k).
Proof.
    intros Ea Eb Ha Hb Hf. destruct (merge_objects_spec fuel a b Ha Hb Hf) as (m & E & Hm & Hk).
    unfold ticosd_config_init. cbn [negb]. rewrite Ea, Eb, E. cbn [obind]. eexists _, m. split; [reflexivity|]. auto.
Qed.

(** a configuration file that holds JSON but not an object makes start-up undefined. *)
Theorem config_file_not_object_undefined fuel builtin b bytes rc : (0 < fuel)%nat ->
  json_object_from_fd bytes = Some b -> ~ is_object b ->
  ticosd_config_init fuel true true builtin (Opened bytes) rc = Fault.
Proof.
    intros Hf Eb Hb. assert (M : object_members b = Fault).
    { unfold object_members, json_is_object. now rewrite bool_decide_eq_false_2. }
    unfold ticosd_config_init. cbn [negb]. rewrite Eb. destruct fuel as [|fuel]; [lia|].
    destruct (json_tokener_parse builtin); cbn [prv_config_merge_objects]; now rewrite M.
Qed.
End ConfigSpec.

(** ** The configuration theorems on a small configuration *)

Definition defaults : jval := JObject
  [("data_dir", Some (JString "/media/ticos")); ("refresh_interval_seconds", Some (JInt 3600));
   ("enable_data_collection", Some (JBool false));
   ("coredump_plugin", Some (JObject [("compression", Some (JString "gzip")); ("rate_limit_count", Some (JInt 5))]))].

Definition conf_file : jval := JObject
  [("refresh_interval_seconds", Some (JInt 60)); ("coredump_plugin", Some (JObject [("rate_limit_count", Some (JInt 2))]))].

Definition builtin_conf : string := to_text defaults.
Definition conf_bytes : opened := Opened (bytes_of_string (to_text conf_file)).

(** A start without a runtime.conf. *)
Definition started : sTicosdConfig :=
  match ticosd_config_init 10 true true builtin_conf conf_bytes (fun _ => OpenFailed) with
  | Val h => h
  | _ => MkConfig None None
  end.

Example merged_settings :
  (config_get_integer started None "refresh_interval_seconds", config_get_boolean started None "enable_data_collection",
   config_get_integer started (Some "coredump_plugin") "rate_limit_count",
   config_get_string started (Some "coredump_plugin") "compression") =
  (Some 60, Some false, Some 2, Some "gzip").
Proof. vm_compute. reflexivity. Qed.

Lemma started_ok : runtime_ok started.
Proof. exists (JObject []). split; [vm_compute; reflexivity|reflexivity]. Qed.

Lemma config_set_get_witness :
  exists h' fs', ticosd_config_set_boolean (MkWriteEnv true true) (Some EmptyString) "enable_data_collection" true started empty
      = Val (h', fs') /\ runtime_ok h' /\
    config_get_boolean h' (Some EmptyString) "enable_data_collection" = Some true /\
    config_get_integer h' (Some EmptyString) "enable_data_collection" = None /\
    config_get_string h' (Some EmptyString) "enable_data_collection" = None /\
    forall q k', k' <> EmptyString -> ~ same_place (Some EmptyString) "enable_data_collection" q k' ->
      config_get_boolean h' q k' = config_get_boolean started q k' /\
      config_get_integer h' q k' = config_get_integer started q k' /\
      config_get_string h' q k' = config_get_string started q k'.
Proof. apply (config_set_get (MkWriteEnv true true)); [exact started_ok|discriminate]. Defined.

Lemma setting_survives_restart_witness :
  exists h' fs' h2,
    ticosd_config_set_boolean (MkWriteEnv true true) None "enable_dev_mode" true started empty = Val (h', fs') /\
    ticosd_config_init 10 true true builtin_conf conf_bytes (open_in fs') = Val h2 /\
    h2 = h' /\ config_get_boolean h2 None "enable_dev_mode" = Some true.
Proof.
  apply (setting_survives_restart 10 builtin_conf conf_bytes (fun _ => OpenFailed) started None "enable_dev_mode" true
    started empty "/media/ticos").
  - vm_compute. reflexivity.
  - reflexivity.
  - exact started_ok.
  - discriminate.
  - vm_compute. reflexivity.
  - discriminate.
  - vm_compute. reflexivity.
  - discriminate.
Defined.

Lemma config_file_overrides_witness :
  exists h m, ticosd_config_init 10 true true builtin_conf (Opened (bytes_of_string (to_text conf_file))) (fun _ => OpenFailed) = Val h /\
    base h = Some m /\ is_object m /\
    forall k, merged_member (prv_config_merge_objects 9) (json_object_object_get_ex defaults k)
      (member_of (json_members conf_file) k) (json_object_object_get_ex m k).
Proof.
  apply (@config_file_overrides tree_json tree_json_tree tree_json_laws 10 builtin_conf defaults conf_file).
  - apply of_to_text.
  - cbn. rewrite string_of_bytes_of_string. apply of_to_text.
  - reflexivity.
  - reflexivity.
  - apply Nat.ltb_lt. vm_compute. reflexivity.
Defined.

Lemma config_file_not_object_undefined_witness :
  ticosd_config_init 10 true true builtin_conf (Opened (bytes_of_string (to_text (JInt 1)))) (fun _ => OpenFailed) = Fault.
Proof.
  apply (@config_file_not_object_undefined tree_json tree_json_tree 10 builtin_conf (JInt 1)).
  - apply Nat.ltb_lt. vm_compute. reflexivity.
  - cbn. rewrite string_of_bytes_of_string. apply of_to_text.
  - discriminate.
Defined.
