(* ===== verification/DaemonLive.v ===== *)
(** * The main loop while the network fails, and when it no longer does

    How long the daemon sleeps after consecutive failures, and how long that can go on.  An outage ends: [Patient] says how many more requests may fail.  While the main loop backs
    off no entry is lost, and in the turn after the last failure the queue becomes empty. *)
From stdpp Require Import gmap.
From S2P Require Import Prelude CLib QueueSpec Network TxQueue Daemon DaemonSpec.
#[local] Open Scope string_scope.
#[local] Open Scope list_scope.
#[local] Open Scope Z_scope.

(** ** The back-off *)
Section Backoff.
Context {Q C W : Type} `{TxQueue Q, ConfigOps C, NetworkOps W}.
Abbreviation S := (sTicosd Q C W).

(** States in which sending fails and leads to another such state. *)
Class Failing (fuel : nat) (interval : Z) (P : S -> Prop) := {
  failing_sends s : P s -> exists s', prv_ticosd_process_tx_queue fuel s = Val (s', false) /\ P s';
  failing_interval s : P s -> default (1 * 60 * 60) (ticosd_get_integer None "refresh_interval_seconds" s) = interval;
  failing_runs s : P s -> terminate s = false }.

(** The back-off before the [n]-th retry, and the pause of turn [w] with it. *)
Definition backoff (n : nat) : Z := NETWORK_FAILURE_FIRST_BACKOFF_SECONDS * 2 ^ Z.of_nat n.

Definition pause (w : wakeup) (interval : Z) : option Z :=
  if last_wakeup w + interval >? now w then Some (u32 (last_wakeup w + interval - now w)) else None.

Context {fuel : nat} {interval : Z} {P : S -> Prop} `{!Failing fuel interval P}.

Lemma backoff_next n : (n < 25)%nat -> int_mul (backoff n) NETWORK_FAILURE_BACKOFF_MULTIPLIER = Val (backoff (Datatypes.S n)).
Proof.
    intros Hn. unfold int_mul, backoff, NETWORK_FAILURE_FIRST_BACKOFF_SECONDS, NETWORK_FAILURE_BACKOFF_MULTIPLIER, INT_MAX.
    rewrite Nat2Z.inj_succ, Z.pow_succ_r by lia.
    assert (2 ^ Z.of_nat n <= 2 ^ 24) by (apply Z.pow_le_mono_r; lia). pose proof (Z.pow_nonneg 2 (Z.of_nat n)).
    test_false ((60 * 2 ^ Z.of_nat n * 2 >? 2 ^ 31 - 1) || (60 * 2 ^ Z.of_nat n * 2 <? - (2 ^ 31 - 1) - 1)).
    f_equal. lia.
Qed.

(** One failing turn. *)
Lemma failing_turn l w (s : S) next : P s -> signalled w = false ->
  int_mul (override_interval l) NETWORK_FAILURE_BACKOFF_MULTIPLIER = next ->
  exists s' poll, P s' /\ process_turn fuel l w s =
    let! o := next in Val (s', (MkLoop poll o, pause w (Z.min (override_interval l) interval))).
Proof.
    intros Hs Hw Hn. destruct (failing_sends s Hs) as (s' & E & Hs').
    eexists s', _. split; [done|]. unfold process_turn. unfold bind at 1, gets at 1. cbn [obind].
    rewrite failing_interval by done. rewrite (bind_val _ _ _ _ _ E). rewrite Hn, Hw. unfold bind, lift, ret, gets.
    destruct next as [o| |]; [|done..]. cbn [obind]. rewrite (failing_runs s' Hs'). reflexivity.
Qed.

Lemma failing_turns ws : forall n poll (s : S), P s -> Forall (fun w => signalled w = false) ws ->
  (n + length ws <= 25)%nat ->
  exists s', P s' /\ process_turns fuel (MkLoop poll (backoff n)) ws s =
    Val (s', imap (fun i w => pause w (Z.min (backoff (n + i)) interval)) ws).
Proof.
    induction ws as [|w ws IH]; intros n poll s Hs Hws Hn; cbn [process_turns imap]; [now exists s|].
    apply Forall_cons_1 in Hws as [Hw Hws]. cbn [length] in Hn.
    unfold gets at 1, bind at 1. cbn [obind]. rewrite failing_runs by done.
    destruct (failing_turn (MkLoop poll (backoff n)) w s _ Hs Hw (backoff_next n ltac:(lia))) as (s1 & poll' & Hs1 & E).
    cbn [obind] in E. rewrite (bind_val _ _ _ _ _ E).
    destruct (IH (Datatypes.S n) poll' s1 Hs1 Hws) as (s2 & Hs2 & E2); [lia|].
    rewrite (bind_val _ _ _ _ _ E2). exists s2. split; [done|]. unfold ret. cbn [override_interval].
    rewrite Nat.add_0_r. do 3 f_equal. apply imap_ext. intros i x _. unfold compose.
    now replace (n + Datatypes.S i)%nat with (Datatypes.S n + i)%nat by lia.
Qed.

(** while every attempt fails the daemon waits at most 60, 120, 240, ... seconds between
    them, never longer than the configured interval, for 25 attempts. *)
Theorem backoff_doubles ws (s : S) : P s -> Forall (fun w => signalled w = false) ws -> (length ws <= 25)%nat ->
  exists s', P s' /\ prv_ticosd_process_loop fuel ws s =
    Val (s', imap (fun i w => pause w (Z.min (60 * 2 ^ Z.of_nat i) interval)) ws).
Proof. intros Hs Hws Hn. exact (failing_turns ws 0 0 s Hs Hws Hn). Qed.

(** the 26th failure in a row overflows the int that holds the back-off, which is
    doubled without a limit even when it is far above the configured interval. *)
Theorem backoff_overflows w ws (s : S) : P s -> Forall (fun w => signalled w = false) (ws ++ [w]) -> length ws = 25%nat ->
  prv_ticosd_process_loop fuel (ws ++ [w]) s = Fault.
Proof.
    intros Hs Hws Hn. apply Forall_app in Hws as [Hws Hw]. apply Forall_cons_1 in Hw as [Hw _].
    assert (G : forall ws n poll s, P s -> Forall (fun w => signalled w = false) ws -> (n + length ws = 25)%nat ->
      process_turns fuel (MkLoop poll (backoff n)) (ws ++ [w]) s = Fault).
    { clear -Failing0 Hw. induction ws as [|w' ws IH]; intros n poll s Hs Hws Hn; cbn [app process_turns length] in *;
        unfold gets at 1, bind at 1; cbn [obind]; rewrite failing_runs by done.
      - destruct (failing_turn (MkLoop poll (backoff n)) w s Fault Hs Hw) as (s1 & poll' & _ & E).
        { replace n with 25%nat by lia. reflexivity. }
        unfold bind at 1. rewrite E. reflexivity.
      - apply Forall_cons_1 in Hws as [Hw' Hws].
        destruct (failing_turn (MkLoop poll (backoff n)) w' s _ Hs Hw' (backoff_next n ltac:(lia))) as (s1 & poll' & Hs1 & E).
        cbn [obind] in E. rewrite (bind_val _ _ _ _ _ E). unfold bind at 1. rewrite (IH (Datatypes.S n)) by (auto; lia). reflexivity. }
    exact (G ws 0%nat 0 s Hs Hws Hn).
Qed.
End Backoff.

(** ** Liveness *)
Definition retried (rc : eTicosdNetworkResult) : nat :=
  match rc with kTicosdNetworkResult_ErrorRetryLater => 1 | _ => 0 end.

(** At most [patience w] more requests are to be retried. *)
Class Patient (W : Type) `{NetworkSpec W} := {
  patience : W -> nat;
  post_patience w endpoint m payload w' rc : net_ok w -> network_post w endpoint m payload = Val (w', rc) ->
    (patience w' + retried rc <= patience w)%nat;
  upload_patience w endpoint filename gz w' rc : net_ok w -> network_file_upload w endpoint filename gz = Val (w', rc) ->
    (patience w' + retried rc <= patience w)%nat }.

Section Liveness.
Context {Q C W : Type} `{TxQueueSpec Q, ConfigOps C, Patient W}.
Abbreviation S := (sTicosd Q C W).

(** ** What a request costs *)

(** The failures that are left: of requests, and of the allocator. *)
Definition failures_left (s : S) : nat := patience (network s) + length (mallocs s).

Definition pays (n : nat) (s s' : S) : Prop :=
  (failures_left s' + n <= failures_left s)%nat /\ net_ok (network s') /\ config s' = config s /\ terminate s' = terminate s.

Definition costs (m : M S eTicosdNetworkResult) : Prop := forall s s' rc,
  net_ok (network s) -> m s = Val (s', rc) -> pays (retried rc) s s'.

Lemma pays_trans a b c s1 s2 s3 : pays a s1 s2 -> pays b s2 s3 -> (c <= a + b)%nat -> pays c s1 s3.
Proof. intros (L1 & _ & C1 & T1) (L2 & N2 & C2 & T2) Hc. split; [lia|]. split; [done|]. split; congruence. Qed.

Lemma costs_lift {A} (o : outcome A) (f : A -> M S eTicosdNetworkResult) : (forall a, costs (f a)) -> costs (bind (lift o) f).
Proof. intros Hf s s' rc Hs E. apply bind_inv in E as (s1 & a & E1 & E). unfold lift in E1. destruct o; [injection E1 as <- <-|done..]. exact (Hf _ _ _ _ Hs E). Qed.

Lemma costs_done rc : retried rc = 0%nat -> costs (ret rc).
Proof. intros Hr s s' rc' Hs [= <- <-]. rewrite Hr. split; [lia|done]. Qed.

Lemma costs_network (f : W -> outcome (W * eTicosdNetworkResult)) :
  (forall w w' rc, net_ok w -> f w = Val (w', rc) -> net_ok w' /\ (patience w' + retried rc <= patience w)%nat) -> costs (on_network f).
Proof.
  intros Hf s s' rc Hs E. unfold on_network in E. destruct (f (network s)) as [[w rc']| |] eqn:Ef; [|done..]. injection E as <- <-.
  destruct (Hf _ _ _ Hs Ef) as [Hw L]. split; [cbn; unfold failures_left; cbn; lia|done].
Qed.

Lemma costs_post endpoint m payload : costs (on_network (fun w => network_post w endpoint m payload)).
Proof.
  apply costs_network. intros w w' rc Hw E. split; [|exact (post_patience _ _ _ _ _ _ Hw E)].
  destruct (post_defined w endpoint m payload Hw) as (w1 & rc1 & E1 & Hw1). rewrite E1 in E. now injection E as <- _.
Qed.

Lemma costs_upload endpoint filename gz : costs (on_network (fun w => network_file_upload w endpoint filename gz)).
Proof.
  apply costs_network. intros w w' rc Hw E. split; [|exact (upload_patience _ _ _ _ _ _ Hw E)].
  destruct (upload_defined w endpoint filename gz Hw) as (w1 & rc1 & E1 & Hw1). rewrite E1 in E. now injection E as <- _.
Qed.

(** Without a path the allocator has failed. *)
Lemma costs_path fmt more (f : string -> M S eTicosdNetworkResult) : (forall path, costs (f path)) ->
  costs (let* path := device_path fmt more in
         match path with None => ret kTicosdNetworkResult_ErrorRetryLater | Some path => f path end).
Proof.
  intros Hf s s' rc Hs E. apply bind_inv in E as (s1 & path & E1 & E). unfold device_path, ticos_asprintf in E1.
  apply bind_inv in E1 as (s0 & st & E0 & E1). injection E0 as <- <-.
  apply bind_inv in E1 as (s0 & text & E0 & E1). unfold lift in E0. destruct (vsprintf _ _); [injection E0 as <- <-|done..].
  apply bind_inv in E1 as (s0 & ok & E0 & E1). unfold malloc_ok in E0. cbn in E0. destruct (mallocs s) as [|ok' rest] eqn:Em; injection E0 as <- <-.
  - injection E1 as <- <-. exact (Hf _ _ _ _ Hs E).
  - destruct ok'; injection E1 as <- <-.
    + set (s0 := MkTicosd (queue s) (network s) (config s) (dsettings s) (terminate s) (dev_mode s) rest) in E.
      apply (pays_trans 0 (retried rc) _ s s0); [|exact (Hf _ s0 _ _ Hs E)|lia].
      split; [unfold failures_left; rewrite Em; cbn; lia|done].
    + injection E as <- <-. split; [unfold failures_left; rewrite Em; cbn; lia|done].
Qed.

Lemma send_entry_costs e : costs (send_entry e).
Proof.
  unfold send_entry. apply costs_lift. intros type.
  destruct (type =? kTicosdTxDataType_RebootEvent); [apply costs_path; intros; apply costs_lift; intros; apply costs_post|].
  destruct ((type =? kTicosdTxDataType_CoreUpload) || _); [apply costs_path; intros; apply costs_lift; intros; apply costs_upload|].
  destruct (type =? kTicosdTxDataType_Attributes); [|now apply costs_done].
  apply costs_lift. intros t. apply costs_lift. intros iso. apply costs_path. intros. apply costs_lift. intros. apply costs_post.
Qed.

Lemma delivery_pays s ms rest all s' : delivery s ms rest all s' -> net_ok (network s) -> pays (if all then 0 else 1) s s'.
Proof.
  induction 1 as [s|s s1 m ms rc rest all s' E Hrc _ IH|s s1 m ms E]; intros Hs.
  - split; [lia|done].
  - apply (send_entry_costs m s _ _ Hs) in E. apply (pays_trans (retried rc) (if all then 0 else 1) _ s s1); [exact E|apply IH; apply E|lia].
  - now apply (send_entry_costs m s _ _ Hs) in E.
Qed.

(** ** Deliveries with pauses *)

(** From [s] the messages [ms] are sent in order, each until the network does not want it
    again; [new] arrives while the daemon waits or sends. *)
Inductive delivered : S -> list payload -> S -> Prop :=
| delivered_now s ms s' : delivery s ms [] true s' -> delivered s ms s'
| delivered_later s ms rest new s1 s' :
    delivery s ms rest false s1 -> delivered s1 (rest ++ new) s' -> delivered s (ms ++ new) s'.

Lemma delivered_other_queue q s ms s' : delivered s ms s' -> delivered (set_queue q s) ms (set_queue q s').
Proof.
  induction 1 as [s ms s' D|s ms rest new s1 s' D _ IH].
  - apply delivered_now. now apply delivery_other_queue.
  - eapply delivered_later; [|exact IH]. now apply delivery_other_queue.
Qed.

(** ** Turns *)
Lemma turn_val fuel l w (s s1 : S) sent o : prv_ticosd_process_tx_queue fuel s = Val (s1, sent) -> signalled w = false ->
  (if sent : bool then o = NETWORK_FAILURE_FIRST_BACKOFF_SECONDS
   else int_mul (override_interval l) NETWORK_FAILURE_BACKOFF_MULTIPLIER = Val o) ->
  exists poll pause, process_turn fuel l w s = Val (s1, (MkLoop poll o, pause)).
Proof.
  intros E Hw Ho. unfold process_turn. unfold bind at 1, gets at 1. cbn [obind]. rewrite (bind_val _ _ _ _ _ E), Hw.
  unfold bind, lift, ret, gets. destruct sent; rewrite Ho; cbn [obind]; eexists _, _; reflexivity.
Qed.

(** What the loop needs to be able to go on from [s]. *)
Definition ready (fuel : nat) (c : bool) (ms fut : list payload) (s : S) : Prop :=
  holds (queue s) c ms fut /\ Forall entry_ok (ms ++ fut) /\ (length (ms ++ fut) < fuel)%nat /\
  net_ok (network s) /\ terminate s = false /\ data_collection_off None s = false.

Lemma one_turn fuel c ms fut (s : S) : ready fuel c ms fut s ->
  exists s' all arrived fut' rest c', prv_ticosd_process_tx_queue fuel s = Val (s', all) /\ fut = arrived ++ fut' /\
    delivery s (ms ++ arrived) rest all (set_queue (queue s) s') /\ (all = true <-> rest = []) /\
    pays (if all then 0 else 1) s s' /\ ready fuel c' rest fut' s'.
Proof.
  intros (Hq & Hok & Hf & Hw & Ht & Hoff). unfold prv_ticosd_process_tx_queue, bind, gets. cbn [obind]. rewrite Hoff.
  destruct (process_entries_delivers fuel c ms fut s Hq Hok Hw Hf) as (s' & all & arr & fut' & rest & c' & E & -> & D & Hq').
  exists s', all, arr, fut', rest, c'. split; [done|]. split; [done|]. split; [exact D|].
  destruct (delivery_rest _ _ _ _ _ D) as [[sent Es] Hrest]. split; [done|].
  assert (P : pays (if all then 0 else 1) s s') by exact (delivery_pays _ _ _ _ _ D Hw). split; [exact P|].
  rewrite app_assoc, Es in Hok, Hf. rewrite <- app_assoc in Hok, Hf. apply Forall_app in Hok as [_ Hok]. rewrite length_app in Hf.
  destruct P as (_ & Hw' & Hc & Ht'). split; [exact Hq'|]. split; [exact Hok|]. split; [lia|]. split; [exact Hw'|]. split; [congruence|].
  unfold data_collection_off, ticosd_get_boolean in *. now rewrite Hc.
Qed.

Lemma turns_deliver fuel ws : forall n poll c ms fut (s : S), ready fuel c ms fut s -> (n + failures_left s <= 25)%nat ->
  (failures_left s < length ws)%nat -> Forall (fun w => signalled w = false) ws ->
  exists k s' pauses arrived fut' c', (k <= Datatypes.S (failures_left s))%nat /\
    process_turns fuel (MkLoop poll (backoff n)) (take k ws) s = Val (s', pauses) /\ fut = arrived ++ fut' /\
    delivered s (ms ++ arrived) (set_queue (queue s) s') /\ holds (queue s') c' [] fut' /\ terminate s' = false.
Proof.
  induction ws as [|w ws IH]; intros n poll c ms fut s Hs Hn Hlen Hws; [cbn in Hlen; lia|].
  apply Forall_cons_1 in Hws as [Hw Hws]. cbn [length] in Hlen.
  destruct (one_turn _ _ _ _ _ Hs) as (s1 & all & arr & fut1 & rest & c1 & E & -> & D & Hr & P & Hs1).
  assert (Ht : terminate s = false) by apply Hs. destruct all.
  - destruct (turn_val fuel (MkLoop poll (backoff n)) w s s1 true _ E Hw eq_refl) as (poll1 & pause1 & E1).
    exists 1%nat, s1, [pause1], arr, fut1, c1. split; [lia|]. split; [|split; [done|]].
    + cbn [take process_turns]. unfold gets at 1, bind at 1. cbn [obind]. rewrite Ht. now rewrite (bind_val _ _ _ _ _ E1).
    + pose proof (proj1 Hr eq_refl) as ->. split; [apply delivered_now, D|]. split; apply Hs1.
  - assert (L : (failures_left s1 + 1 <= failures_left s)%nat) by apply P.
    destruct (turn_val fuel (MkLoop poll (backoff n)) w s s1 false (backoff (Datatypes.S n)) E Hw) as (poll1 & pause1 & E1).
    { apply backoff_next. lia. }
    destruct (IH (Datatypes.S n) poll1 c1 rest fut1 s1 Hs1 ltac:(lia) ltac:(lia) Hws)
      as (k & s' & pauses & arr2 & fut' & c' & Hk & E2 & -> & D2 & Q2 & T2).
    exists (Datatypes.S k), s', (pause1 :: pauses), (arr ++ arr2), fut', c'. split; [lia|]. split; [|split; [now rewrite app_assoc|]].
    + cbn [take process_turns]. unfold gets at 1, bind at 1. cbn [obind]. rewrite Ht, (bind_val _ _ _ _ _ E1).
      now rewrite (bind_val _ _ _ _ _ E2).
    + split; [|split; [exact Q2|exact T2]]. rewrite app_assoc. apply (delivered_later _ _ _ _ _ _ D).
      apply (delivered_other_queue (queue s)) in D2. now rewrite set_queue_twice in D2.
Qed.

(** C9: an outage delays entries but loses none. When at most 25 more requests and allocations
    fail, the main loop empties the queue at the latest in the turn after the last failure:
    every entry that was in the queue, and every one that other threads added meanwhile, was
    sent in order, and again until the network did not want it retried. *)
Theorem queue_eventually_delivered fuel c ms fut ws (s : S) :
  holds (queue s) c ms fut -> Forall entry_ok (ms ++ fut) -> (length (ms ++ fut) < fuel)%nat ->
  net_ok (network s) -> terminate s = false -> data_collection_off None s = false ->
  (failures_left s <= 25)%nat -> (failures_left s < length ws)%nat -> Forall (fun w => signalled w = false) ws ->
  exists k s' pauses arrived fut' c', (k <= Datatypes.S (failures_left s))%nat /\
    prv_ticosd_process_loop fuel (take k ws) s = Val (s', pauses) /\ fut = arrived ++ fut' /\
    delivered s (ms ++ arrived) (set_queue (queue s) s') /\ holds (queue s') c' [] fut'.
Proof.
  intros Hq Hok Hf Hw Ht Hoff Hn Hlen Hws.
  destruct (turns_deliver fuel ws 0 0 c ms fut s) as (k & s' & pauses & arr & fut' & c' & Hk & E & Hfut & D & Q' & _); try done.
  exists k, s', pauses, arr, fut', c'. split; [done|]. split; [exact E|]. now split.
Qed.
End Liveness.
