(* ===== verification/DaemonNetwork.v ===== *)
(** * The network functions meet the daemon's contract

    For servers that put a body into every answer, and as long as no allocation fails; an
    answer without a body makes an upload undefined. *)
From stdpp Require Import gmap.
From S2P Require Import Prelude CLib Json Network NetworkSpec NetworkUpload Daemon DaemonSpec.
#[local] Open Scope string_scope.
#[local] Open Scope list_scope.
#[local] Open Scope Z_scope.

Class Talkative (N : Type) `{CurlSpec N} := {
  has_body opts dsk n : body_chunks opts dsk n <> [] }.

Section Contract.
Context {N : Type} `{Talkative N} `{JsonC}.
Abbreviation S := (net_state N).

Definition net_quiet (s : S) : Prop := curl (handle s) = [] /\ allocs s = [].

Lemma exchanged_quiet s res n' : net_quiet (exchanged s res n').
Proof. done. Qed.

Lemma post_quiet_defined endpoint m payload (data : bool) (s : S) : net_quiet s ->
  exists s' rc body, ticosd_network_post endpoint m payload data s = Val (s', (rc, body)) /\ net_quiet s' /\
    (rc = kTicosdNetworkResult_OK -> data = true -> exists chunks, chunks <> [] /\ body = Some (body_buffer chunks)).
Proof.
    intros [Hc Ha]. set (req := post_request (handle s) endpoint m payload).
    destruct (transfer_end req (disk s) (peer s) true) as [n' res] eqn:TE.
    rewrite (post_quiet s Hc Ha endpoint m payload data n' res TE). eexists _, _, _. split; [reflexivity|].
    split; [done|]. intros -> ->. rewrite decide_True by done. eexists. split; [|done]. apply has_body.
Qed.

Lemma parse_quiet_defined key chunks (s : S) : net_quiet s -> chunks <> [] ->
  exists s' r, parse_answer key (Some (body_buffer chunks)) s = Val (s', r) /\ net_quiet s'.
Proof.
    intros [Hc Ha] Hne. destruct chunks as [|c chunks]; [done|]. unfold body_buffer.
    rewrite parse_answer_value by auto. destruct (answer_member _ key); eexists _, _; (split; [reflexivity|]); split; auto.
    cbn. now rewrite Ha.
Qed.

Lemma prepare_quiet_defined endpoint u0 (s : S) : net_quiet s ->
  exists s' r, prv_file_upload_prepare endpoint u0 s = Val (s', r) /\ net_quiet s'.
Proof.
    intros Hs. unfold prv_file_upload_prepare.
    destruct (post_quiet_defined endpoint kTicosdHttpMethod_GET None true s Hs) as (s1 & rc & body & E & Q1 & Hb).
    rewrite (bind_val _ _ _ _ _ E). destruct (decide (rc <> _)) as [?|Hrc]; [eexists _, _; now split|].
    apply dec_stable in Hrc. destruct (Hb Hrc eq_refl) as (chunks & Hne & ->).
    destruct (parse_quiet_defined "upload_url" chunks s1 Q1 Hne) as (s2 & [u parsed] & P & Q2).
    rewrite (bind_val _ _ _ _ _ P). destruct parsed; eexists _, _; now split.
Qed.

Lemma file_upload_quiet_defined url filename gz (s : S) : net_quiet s ->
  exists s' r, prv_file_upload url filename gz s = Val (s', r) /\ net_quiet s'.
Proof.
    intros [Hc Ha]. set (req := upload_request url filename gz).
    destruct (transfer_end req (disk s) (peer s) true) as [n' res] eqn:TE.
    rewrite (file_upload_quiet s Hc Ha url filename gz n' res TE). unfold file_upload_outcome. fold req. rewrite TE.
    cbn [wc_buf fst snd]. pose proof (has_body req (disk s) (peer s)) as Hne.
    destruct (body_chunks req (disk s) (peer s)) as [|c chunks]; [done|]. unfold body_buffer.
    rewrite parse_answer_value by auto. destruct (answer_member _ "url"); cbn [obind];
      eexists _, _; (split; [reflexivity|]); now split.
Qed.

Lemma commit_quiet_defined endpoint url filesize (s : S) : net_quiet s ->
  exists s' rc, prv_file_upload_commit endpoint url filesize s = Val (s', rc) /\ net_quiet s'.
Proof.
    intros Hs. unfold prv_file_upload_commit. rewrite (bind_val _ _ _ _ _ (commit_body_val url filesize s)).
    destruct Hs as [Hc Ha]. rewrite Ha. cbn [default head tail].
    destruct (post_quiet_defined endpoint kTicosdHttpMethod_POST (Some (commit_body (default "(null)" url) filesize))
      false (heap_set [] s) ltac:(now split)) as (s1 & rc & body & E & Q1 & _).
    rewrite (bind_val _ _ _ _ _ E). eexists _, _. now split.
Qed.

Lemma upload_quiet_defined endpoint filename gz (s : S) : net_quiet s ->
  exists s' rc, ticosd_network_file_upload endpoint filename gz s = Val (s', rc) /\ net_quiet s'.
Proof.
    intros Hs. unfold ticosd_network_file_upload. unfold bind at 1, gets at 1. cbn [obind].
    unfold bind at 1, gets at 1. cbn [obind]. destruct (disk s !! filename) as [contents|]; [|eexists _, _; now split].
    rewrite (bind_val _ _ _ _ _ (prepare_endpoint_val s)). destruct Hs as [Hc Ha]. rewrite Ha. cbn [default head tail].
    destruct (prepare_quiet_defined (prepare_endpoint (handle s)) None (heap_set [] s) ltac:(now split)) as (s1 & [rc1 u1] & E1 & Q1).
    rewrite (bind_val _ _ _ _ _ E1). case_decide; [eexists _, _; now split|].
    destruct (file_upload_quiet_defined u1 filename gz s1 Q1) as (s2 & [rc2 u2] & E2 & Q2).
    rewrite (bind_val _ _ _ _ _ E2). case_decide; [eexists _, _; now split|].
    destruct (commit_quiet_defined endpoint u2 (zlen contents) s2 Q2) as (s3 & rc3 & E3 & Q3).
    rewrite (bind_val _ _ _ _ _ E3). case_decide; [eexists _, _; now split|].
    eexists _, _. split; [reflexivity|]. exact Q3.
Qed.

#[export] Instance network_spec : NetworkSpec S.
Proof.
    apply (Build_NetworkSpec S network_ops net_quiet).
    - intros s endpoint m payload Hs.
      destruct (post_quiet_defined endpoint m payload false s Hs) as (s1 & rc & body & E & Q1 & _).
      exists s1, rc. cbn [network_post network_ops]. now rewrite E.
    - intros s endpoint filename gz Hs. exact (upload_quiet_defined endpoint filename gz s Hs).
Defined.
End Contract.
