(* ===== verification/DaemonWitnesses.v ===== *)
(** * The daemon's theorems on a concrete device

    The queue of queue.c with two entries in it and a third written meanwhile, a server that
    always answers, and one that never does. *)
From stdpp Require Import gmap.
From S2P Require Import Prelude CLib Queue QueueSpec QueueLap QueueWitnesses TxQueue Json.
From S2P Require Import Network NetworkSpec NetworkUpload NetworkWitnesses Daemon DaemonSpec DaemonLive DaemonNetwork.
#[local] Open Scope string_scope.
#[local] Open Scope list_scope.
#[local] Open Scope Z_scope.

(** ** Parameters *)

(** A configuration with collection on and a refresh interval. *)
Record sample_config := MkSampleConfig { collect : bool; refresh : Z }.

#[export] Instance sample_config_ops : ConfigOps sample_config := {
  ticosd_config_get_boolean c _ key := if String.eqb key "enable_data_collection" then Some (collect c) else None;
  ticosd_config_get_integer c _ key := if String.eqb key "refresh_interval_seconds" then Some (refresh c) else None;
  ticosd_config_get_string _ _ _ := None }.

(** A server that answers every request with the same status and text. *)
Record steady := MkSteady { steady_code : Z }.

#[export] Instance steady_curl : Curl steady := {
  curl_easy_perform cb opts dsk a n :=
    let! (a', taken) := deliver cb a [bytes_of_string "ok"] in Val (n, a', if taken then CURLE_OK else 23);
  curl_http_code := steady_code }.

#[export] Instance steady_curl_spec : CurlSpec steady.
Proof.
  apply (Build_CurlSpec steady steady_curl (fun _ _ _ => [bytes_of_string "ok"])
           (fun _ _ n taken => (n, if taken : bool then CURLE_OK else 23))); reflexivity || discriminate.
Defined.

#[export] Instance steady_talkative : Talkative steady.
Proof. constructor. discriminate. Defined.

(** ** A device *)
Definition reboot_entry : payload := kTicosdTxDataType_RebootEvent :: bytes_of_string "{}" ++ [0].
Definition attributes_entry : payload :=
  kTicosdTxDataType_Attributes :: le_bytes 8 1669807440 ++ bytes_of_string "[]" ++ [0].
Definition core_entry : payload := kTicosdTxDataType_CoreUpload :: bytes_of_string core_name ++ [0].

Definition loaded_queue : shared_queue :=
  MkShared (queue_after 256 [OpWrite reboot_entry; OpWrite attributes_entry]) [[]; [core_entry]].

Definition device (code : Z) : sTicosd shared_queue sample_config (net_state steady) :=
  MkTicosd loaded_queue (MkNet sample_network [] sample_disk (MkSteady code)) (MkSampleConfig true 3600)
    (MkSettings "dev" "hw") false false [].

Lemma queue_after_state n os : size_ok n -> Forall op_ok os -> words_written os + 3 <= n / 4 ->
  lap_state (queue_after n os) (fst (fifo_run ([], false) os)).
Proof.
  intros Hn Hos Hw. destruct (exec_all_refines os (empty_queue true n) ([], false)) as (q & E & L & _); auto.
  - split; [done|]. split; [done|]. exists []. now apply empty_queue_lap.
  - unfold queue_after. rewrite E. exact L.
Qed.

Lemma sample_payloads : payload_ok reboot_entry /\ payload_ok attributes_entry /\ payload_ok core_entry.
Proof. split; [|split]; concrete_payload. Qed.

Lemma loaded_holds : holds loaded_queue false [reboot_entry; attributes_entry] [core_entry].
Proof.
  destruct sample_payloads as (P1 & P2 & P3).
  change (shared_holds loaded_queue false [reboot_entry; attributes_entry] [core_entry]).
  split; [|split; [reflexivity|split]].
  - apply (queue_after_state 256 [OpWrite reboot_entry; OpWrite attributes_entry]).
    + split; [split; vm_compute; congruence | reflexivity].
    + apply Forall_cons_2; [exact P1|]. apply Forall_cons_2; [exact P2|]. apply Forall_nil_2.
    + vm_compute. congruence.
  - apply Forall_cons_2; [exact P3|apply Forall_nil_2].
  - vm_compute. congruence.
Qed.

Lemma sample_entries : Forall entry_ok [reboot_entry; attributes_entry; core_entry].
Proof.
  apply Forall_cons_2; [cbn; tauto|]. apply Forall_cons_2; [|apply Forall_cons_2; [cbn; tauto|apply Forall_nil_2]].
  change (8 <= zlen (tail attributes_entry) /\ In 0 (drop 8 (tail attributes_entry)) /\
    defined (strftime_iso (i64 (le_val (take 8 (tail attributes_entry)))))).
  split; [vm_compute; congruence|]. split; [vm_compute; tauto|]. exists "2022-11-30T11:24:00Z". vm_compute. reflexivity.
Qed.

(** The server is busy: the first entry stays at the head of the queue. *)
Lemma queue_delivered_in_order_witness :
  let s := device 503 in
  exists s' all arrived fut' rest c', prv_ticosd_process_tx_queue 10 s = Val (s', all) /\ [core_entry] = arrived ++ fut' /\
    delivery s ([reboot_entry; attributes_entry] ++ arrived) rest all (set_queue (queue s) s') /\
    holds (queue s') c' rest fut' /\ (all = true <-> rest = []).
Proof.
  intros s. destruct (queue_delivered_in_order 10 false [reboot_entry; attributes_entry] [core_entry] s) as (s' & P).
  - exact loaded_holds.
  - exact sample_entries.
  - now split.
  - reflexivity.
  - cbn. lia.
  - exists s'. exact P.
Defined.

(** What the server sees on a good day; the upload of the core dump ends in an answer
    without an "upload_url". *)
Example device_drained :
  (let! (s', all) := prv_ticosd_process_tx_queue 10 (device 200) in
   Val (all, read_ptr (shared (queue s')) =? write_ptr (shared (queue s')), schedule (queue s'))) =
  Val (true, true, []).
Proof. vm_compute. reflexivity. Qed.

(** ** A server that is always busy *)
Definition quiet_device : sTicosd shared_queue sample_config (net_state steady) :=
  set_queue (MkShared (queue_after 256 [OpWrite reboot_entry]) []) (device 503).

Definition after_failure (s : sTicosd shared_queue sample_config (net_state steady)) :=
  match prv_ticosd_process_tx_queue 10 s with Val (s', _) => s' | _ => s end.

Definition stuck (s : sTicosd shared_queue sample_config (net_state steady)) : Prop :=
  s = quiet_device \/ s = after_failure quiet_device.

#[export] Instance stuck_failing : Failing 10 3600 stuck.
Proof.
  split.
  - intros s Hs. exists (after_failure quiet_device). split; [|now right].
    destruct Hs as [->| ->]; vm_compute; reflexivity.
  - intros s [->| ->]; vm_compute; reflexivity.
  - intros s [->| ->]; vm_compute; reflexivity.
Defined.

(** Turns of two seconds each. *)
Definition turns (n : nat) : list wakeup := replicate n (MkWakeup 1000 1002 false).

Lemma turns_unsignalled n : Forall (fun w => signalled w = false) (turns n).
Proof. now apply Forall_replicate. Qed.

Lemma backoff_doubles_witness :
  exists s', stuck s' /\ prv_ticosd_process_loop 10 (turns 8) quiet_device =
    Val (s', imap (fun i w => pause w (Z.min (60 * 2 ^ Z.of_nat i) 3600)) (turns 8)).
Proof. exact (backoff_doubles (turns 8) quiet_device (or_introl eq_refl) (turns_unsignalled 8) ltac:(cbn; lia)). Defined.

Example eight_pauses : imap (fun i w => pause w (Z.min (60 * 2 ^ Z.of_nat i) 3600)) (turns 8) =
  [Some 58; Some 118; Some 238; Some 478; Some 958; Some 1918; Some 3598; Some 3598].
Proof. vm_compute. reflexivity. Qed.

Lemma backoff_overflows_witness :
  prv_ticosd_process_loop 10 (turns 25 ++ [MkWakeup 1000 1002 false]) quiet_device = Fault.
Proof.
  refine (backoff_overflows (MkWakeup 1000 1002 false) (turns 25) quiet_device (or_introl eq_refl) _ eq_refl).
  exact (turns_unsignalled 26).
Defined.
