(* ===== verification/DaemonPatience.v ===== *)
(** * Servers that recover

    The network functions are [Patient] as long as no allocation fails and the server fails
    or answers without the expected members only so many times more; and a device behind
    a server that is down for a while. *)
From stdpp Require Import gmap.
From S2P Require Import Prelude CLib Json Queue QueueSpec QueueLap TxQueue Network NetworkSpec NetworkUpload NetworkWitnesses.
From S2P Require Import Daemon DaemonSpec DaemonLive DaemonNetwork DaemonWitnesses.
#[local] Open Scope string_scope.
#[local] Open Scope list_scope.
#[local] Open Scope Z_scope.

(** [outage n] bounds the transfers that are still going to fail. *)
Class Recovering (N : Type) `{Talkative N, JsonC} := {
  outage : N -> nat;
  outage_shrinks opts dsk n n' res : transfer_end opts dsk n true = (n', res) -> (outage n' <= outage n)%nat;
  failure_counts opts dsk n n' res : transfer_end opts dsk n true = (n', res) ->
    classify res (curl_http_code n') = kTicosdNetworkResult_ErrorRetryLater \/
    answer_member (body_chunks opts dsk n) "upload_url" = None \/ answer_member (body_chunks opts dsk n) "url" = None ->
    (outage n' < outage n)%nat }.

Section Patience.
Context {N : Type} `{Recovering N}.
Abbreviation S := (net_state N).

(** What a step that ends with [rc] leaves. *)
Definition step_ok (s s' : S) (rc : eTicosdNetworkResult) : Prop :=
  net_quiet s' /\ (outage (peer s') + retried rc <= outage (peer s))%nat.

Lemma step_trans s s1 s' rc : step_ok s s1 kTicosdNetworkResult_OK -> step_ok s1 s' rc -> step_ok s s' rc.
Proof. intros [_ L1] [Q L2]. cbn in L1. split; [exact Q|lia]. Qed.

Lemma transfer_step opts dsk n n' res : transfer_end opts dsk n true = (n', res) ->
  (outage n' + retried (classify res (curl_http_code n')) <= outage n)%nat.
Proof.
  intros TE. pose proof (outage_shrinks _ _ _ _ _ TE) as L. pose proof (failure_counts _ _ _ _ _ TE) as F.
  destruct (classify _ _); cbn; try lia. specialize (F (or_introl eq_refl)). lia.
Qed.

Lemma post_step endpoint m payload (data : bool) (s : S) : net_quiet s ->
  exists s' rc body, ticosd_network_post endpoint m payload data s = Val (s', (rc, body)) /\ step_ok s s' rc /\
    (rc = kTicosdNetworkResult_OK -> data = true -> exists chunks, chunks <> [] /\ body = Some (body_buffer chunks) /\
       (answer_member chunks "upload_url" = None -> (outage (peer s') < outage (peer s))%nat)).
Proof.
  intros [Hc Ha]. set (req := post_request (handle s) endpoint m payload).
  destruct (transfer_end req (disk s) (peer s) true) as [n' res] eqn:TE.
  rewrite (post_quiet s Hc Ha endpoint m payload data n' res TE). eexists _, _, _. split; [reflexivity|].
  split; [split; [done|exact (transfer_step _ _ _ _ _ TE)]|]. intros -> ->. rewrite decide_True by done.
  eexists. split; [apply has_body|]. split; [reflexivity|]. intros Hm. apply (failure_counts _ _ _ _ _ TE). auto.
Qed.

Lemma prepare_step endpoint u0 (s : S) : net_quiet s ->
  exists s' rc u, prv_file_upload_prepare endpoint u0 s = Val (s', (rc, u)) /\ step_ok s s' rc.
Proof.
  intros Hs. unfold prv_file_upload_prepare.
  destruct (post_step endpoint kTicosdHttpMethod_GET None true s Hs) as (s1 & rc & body & E & Q1 & Hb).
  rewrite (bind_val _ _ _ _ _ E). destruct (decide (rc <> _)) as [?|Hrc]; [now eexists _, _, _|].
  apply dec_stable in Hrc. destruct (Hb Hrc eq_refl) as (chunks & Hne & -> & Hm).
  assert (P : prv_parse_file_upload_prepare_response (Some (body_buffer chunks)) s1 =
    match answer_member chunks "upload_url" with
    | None => Val (s1, (None, false))
    | Some url => Val (heap_set (tail (allocs s1)) s1, (if default true (head (allocs s1)) then Some url else None, true))
    end) by (destruct chunks as [|c chunks]; [done|]; exact (parse_answer_value "upload_url" (c :: chunks) [0] s1 (or_introl eq_refl))).
  subst rc. destruct Q1 as [[Hc1 Ha1] L1]. cbn in L1. destruct (answer_member chunks "upload_url") as [u|].
  - rewrite (bind_val _ _ _ _ _ P). eexists _, _, _. split; [reflexivity|]. split; [split; [done|now rewrite Ha1]|exact L1].
  - rewrite (bind_val _ _ _ _ _ P). eexists _, _, _. split; [reflexivity|]. split; [done|]. specialize (Hm eq_refl). cbn. lia.
Qed.

Lemma file_upload_step url filename gz (s : S) : net_quiet s ->
  exists s' rc u, prv_file_upload url filename gz s = Val (s', (rc, u)) /\ step_ok s s' rc.
Proof.
  intros [Hc Ha]. set (req := upload_request url filename gz).
  destruct (transfer_end req (disk s) (peer s) true) as [n' res] eqn:TE.
  rewrite (file_upload_quiet s Hc Ha url filename gz n' res TE). unfold file_upload_outcome. fold req. rewrite TE.
  cbn [wc_buf fst snd]. pose proof (has_body req (disk s) (peer s)) as Hne. pose proof (transfer_step _ _ _ _ _ TE) as L.
  pose proof (failure_counts _ _ _ _ _ TE) as F. destruct (body_chunks req (disk s) (peer s)) as [|c chunks]; [done|].
  unfold body_buffer. rewrite parse_answer_value by auto. destruct (answer_member _ "url") as [u|]; cbn [obind].
  - eexists _, _, _. split; [reflexivity|]. now split.
  - eexists _, _, _. split; [reflexivity|]. split; [done|]. specialize (F (or_intror (or_intror eq_refl))). cbn. lia.
Qed.

Lemma commit_step endpoint url filesize (s : S) : net_quiet s ->
  exists s' rc, prv_file_upload_commit endpoint url filesize s = Val (s', rc) /\ step_ok s s' rc.
Proof.
  intros Hs. unfold prv_file_upload_commit. rewrite (bind_val _ _ _ _ _ (commit_body_val url filesize s)).
  destruct Hs as [Hc Ha]. rewrite Ha. cbn [default head tail].
  destruct (post_step endpoint kTicosdHttpMethod_POST (Some (commit_body (default "(null)" url) filesize))
    false (heap_set [] s) ltac:(now split)) as (s1 & rc & body & E & Q1 & _).
  rewrite (bind_val _ _ _ _ _ E). eexists _, _. now split.
Qed.

Lemma upload_step endpoint filename gz (s : S) : net_quiet s ->
  exists s' rc, ticosd_network_file_upload endpoint filename gz s = Val (s', rc) /\ step_ok s s' rc.
Proof.
  intros Hs. unfold ticosd_network_file_upload. unfold bind at 1, gets at 1. cbn [obind].
  unfold bind at 1, gets at 1. cbn [obind].
  destruct (disk s !! filename) as [contents|]; [|eexists _, _; split; [reflexivity|]; split; [done|cbn; lia]].
  rewrite (bind_val _ _ _ _ _ (prepare_endpoint_val s)). destruct Hs as [Hc Ha]. rewrite Ha. cbn [default head tail].
  destruct (prepare_step (prepare_endpoint (handle s)) None (heap_set [] s) ltac:(now split)) as (s1 & rc1 & u1 & E1 & Q1).
  rewrite (bind_val _ _ _ _ _ E1). destruct (decide (rc1 <> _)) as [?|D1]; [eexists _, _; now split|]. apply dec_stable in D1. subst rc1.
  destruct (file_upload_step u1 filename gz s1 (proj1 Q1)) as (s2 & rc2 & u2 & E2 & Q2).
  rewrite (bind_val _ _ _ _ _ E2). apply (step_trans _ _ _ _ Q1) in Q2 as Q12.
  destruct (decide (rc2 <> _)) as [?|D2]; [eexists _, _; now split|]. apply dec_stable in D2. subst rc2.
  destruct (commit_step endpoint u2 (zlen contents) s2 (proj1 Q2)) as (s3 & rc3 & E3 & Q3).
  rewrite (bind_val _ _ _ _ _ E3). apply (step_trans _ _ _ _ Q12) in Q3 as Q13.
  destruct (decide (rc3 <> _)) as [?|D3]; [eexists _, _; now split|]. apply dec_stable in D3. subst rc3.
  eexists _, _. split; [reflexivity|]. exact Q13.
Qed.

#[export] Instance network_patient : Patient S.
Proof.
  apply (Build_Patient S network_ops network_spec (fun s => outage (peer s))).
  - intros s endpoint m payload s' rc Hs E. destruct (post_step endpoint m payload false s Hs) as (s1 & rc1 & body & E1 & Q1 & _).
    cbn [network_post network_ops] in E. rewrite E1 in E. injection E as <- <-. apply Q1.
  - intros s endpoint filename gz s' rc Hs E. destruct (upload_step endpoint filename gz s Hs) as (s1 & rc1 & E1 & Q1).
    cbn [network_file_upload network_ops] in E. rewrite E1 in E. injection E as <- <-. apply Q1.
Defined.
End Patience.

(** ** A server that is down for a number of transfers *)
Record recovering := MkRecovering { down : nat; last_status : Z }.

Definition recovering_end (n : recovering) (taken : bool) : recovering * Z :=
  (MkRecovering (pred (down n)) (if down n then 200 else 503), if taken then CURLE_OK else 23).

#[export] Instance recovering_curl : Curl recovering := {
  curl_easy_perform cb opts dsk a n :=
    let! (a', taken) := deliver cb a [bytes_of_string "ok"] in Val ((recovering_end n taken).1, a', (recovering_end n taken).2);
  curl_http_code := last_status }.

#[export] Instance recovering_curl_spec : CurlSpec recovering.
Proof.
  apply (Build_CurlSpec recovering recovering_curl (fun _ _ _ => [bytes_of_string "ok"]) (fun _ _ n taken => recovering_end n taken));
    reflexivity || discriminate.
Defined.

#[export] Instance recovering_talkative : Talkative recovering.
Proof. constructor. discriminate. Defined.

#[export] Instance recovering_recovers : Recovering recovering.
Proof.
  apply (Build_Recovering recovering _ _ _ _ down); intros opts dsk [[|d] st] n' res [= <- <-]; cbn.
  - lia.
  - lia.
  - intros [E|[E|E]]; discriminate E.
  - lia.
Defined.

Definition outage_device (d : nat) : sTicosd shared_queue sample_config (net_state recovering) :=
  MkTicosd loaded_queue (MkNet sample_network [] sample_disk (MkRecovering d 0)) (MkSampleConfig true 3600)
    (MkSettings "dev" "hw") false false [].

(** Three requests fail; the core dump is queued while the daemon handles the first entry. *)
Lemma queue_eventually_delivered_witness : let s := outage_device 3 in
  exists k s' pauses arrived fut' c', (k <= Datatypes.S (failures_left s))%nat /\
    prv_ticosd_process_loop 10 (take k (turns 5)) s = Val (s', pauses) /\ [core_entry] = arrived ++ fut' /\
    delivered s ([reboot_entry; attributes_entry] ++ arrived) (set_queue (queue s) s') /\ holds (queue s') c' [] fut'.
Proof.
  exact (queue_eventually_delivered 10 false [reboot_entry; attributes_entry] [core_entry] (turns 5) (outage_device 3)
    loaded_holds sample_entries ltac:(cbn; lia) ltac:(now split) eq_refl eq_refl ltac:(cbn; lia) ltac:(cbn; lia) (turns_unsignalled 5)).
Defined.

Example outage_pauses :
  (let! (s', pauses) := prv_ticosd_process_loop 10 (turns 4) (outage_device 3) in
   Val (pauses, read_ptr (shared (queue s')) =? write_ptr (shared (queue s')), disk (network s') !! core_name)) =
  Val ([Some 58; Some 118; Some 238; Some 3598], true, None).
Proof. vm_compute. reflexivity. Qed.
