(* ===== verification/DeviceSettings.v ===== *)
(** * Device settings and the PID file (src/util/device_settings.c, src/util/pid.c and
    [prv_ticosd_daemonize_process] of src/ticosd.c)

    The settings come from the output of ticos-device-info, the PID goes through a file. *)
From S2P Require Import Prelude CLib Network.
#[local] Open Scope string_scope.
#[local] Open Scope list_scope.
#[local] Open Scope Z_scope.

(** ** strtok *)

(** The characters before the first [c], and what follows it. *)
Fixpoint until (c : ascii) (s : string) : string * string :=
  match s with
  | EmptyString => (EmptyString, EmptyString)
  | String a r => if Ascii.eqb a c then (EmptyString, r) else let '(t, rest) := until c r in (String a t, rest)
  end.

Fixpoint skip_char (c : ascii) (s : string) : string :=
  match s with
  | String a r => if Ascii.eqb a c then skip_char c r else s
  | EmptyString => EmptyString
  end.

(** strtok with the one delimiter [c] on the rest [s]: the token, [None] for NULL, and the
    rest for the next call. *)
Definition strtok (c : ascii) (s : string) : option string * string :=
  match skip_char c s with
  | EmptyString => (None, EmptyString)
  | s => let '(t, rest) := until c s in (Some t, rest)
  end.

(** ** Device settings *)
Record device_info := MkDeviceInfo { id : option string; hardware : option string }.

(** One line: overwrites a setting, or is ignored.  A line without a name is undefined. *)
Definition device_line (line : string) (handle : device_info) : outcome device_info :=
  let '(name, rest) := strtok "=" line in
  let '(val, _) := strtok "010" rest in
  match name with
  | None => Fault
  | Some name =>
      if String.eqb name "TICOS_DEVICE_ID" then
        match val with
        | None => Val handle
        | Some val => Val (MkDeviceInfo (Some val) (hardware handle))
        end
      else if String.eqb name "TICOS_HARDWARE_VERSION" then
        match val with
        | None => Val handle
        | Some val => Val (MkDeviceInfo (id handle) (Some val))
        end
      else Val handle
  end.

Fixpoint device_lines (lines : list string) (handle : device_info) : outcome device_info :=
  match lines with
  | [] => Val handle
  | l :: lines => let! handle := device_line l handle in device_lines lines handle
  end.

(** [lines] are the successive results of fgets, [None] when popen fails; no allocation
    fails. *)
Definition ticosd_device_settings_init (lines : option (list string)) : outcome (option sTicosdDeviceSettings) :=
  match lines with
  | None => Val None
  | Some lines =>
      let! handle := device_lines lines (MkDeviceInfo None None) in
      match id handle, hardware handle with
      | Some i, Some h => Val (Some (MkSettings i h))
      | _, _ => Val None
      end
  end.

(** ** The PID file *)

(** Opening with O_CREAT | O_EXCL: a new file, one that exists, or another error. *)
Inductive create_answer := Created | AlreadyExists | CreateError.

(** The result and the contents of the PID file afterwards ([None]: no file); [old] are the
    contents before.  snprintf cuts the text at ten characters, all eleven bytes of the array
    are written. *)
Definition prv_ticosd_daemonize_process (daemon_ok : bool) (created : create_answer) (write_ok : bool) (pid : Z)
    (old : option (list Z)) : bool * option (list Z) :=
  if negb daemon_ok then (false, old)
  else
    match created with
    | AlreadyExists | CreateError => (false, old)
    | Created =>
        let text := take 10 (bytes_of_string (print_Z pid) ++ [10]) in
        let buf := text ++ zeros (11 - zlen text) in
        (true, if write_ok then Some buf else None)
    end.

(** A file that is there counts even when it cannot be opened. *)
Definition ticosd_check_for_pid_file (file : option (list Z)) : bool :=
  match file with
  | None => false
  | Some _ => true
  end.

(** atoi of the bytes read, up to eleven. *)
Definition ticosd_get_pid (file : option (list Z)) (read_ok : bool) : outcome Z :=
  match file with
  | None => Val (-1)
  | Some bytes =>
      if negb read_ok then Val (-1)
      else
        let! s := c_string (take 11 bytes ++ [0]) in
        Val (default 0 (scan_int s))
  end.

(** ** Laws *)
Lemma until_app c t r : Forall (fun a => a <> c) (list_ascii_of_string t) -> until c (t +:+ String c r) = (t, r).
Proof.
  induction t as [|a t IH]; intros Ht.
  - change (EmptyString +:+ String c r) with (String c r). cbn [until]. now rewrite Ascii.eqb_refl.
  - cbn in Ht. apply Forall_cons_1 in Ht as [Ha Ht]. apply Ascii.eqb_neq in Ha.
    change (String a t +:+ String c r) with (String a (t +:+ String c r)). cbn [until]. now rewrite Ha, IH.
Qed.

(** A word without the character [c]. *)
Definition without (c : ascii) (s : string) : Prop := Forall (fun a => a <> c) (list_ascii_of_string s).

Lemma strtok_word c t r : t <> EmptyString -> without c t -> strtok c (t +:+ String c r) = (Some t, r).
Proof.
  intros Hne Ht. pose proof (until_app c t r Ht) as E. destruct t as [|a t]; [done|]. unfold strtok.
  apply Forall_cons_1 in Ht as [Ha _]. apply Ascii.eqb_neq in Ha.
  assert (K : skip_char c (String a t +:+ String c r) = String a t +:+ String c r).
  { change (String a t +:+ String c r) with (String a (t +:+ String c r)). cbn. now rewrite Ha. }
  rewrite K. change (String a t +:+ String c r) with (String a (t +:+ String c r)) in *. cbv iota. now rewrite E.
Qed.

(** The line that sets [name] to [val]. *)
Definition setting_line (name val : string) : string := name +:+ String "=" (val +:+ String "010" EmptyString).

(** the settings ticos-device-info prints are the ones the daemon uses, in either order;
    a value may contain '='. *)
Theorem device_settings_read i h : i <> EmptyString -> h <> EmptyString -> without "010" i -> without "010" h ->
  ticosd_device_settings_init (Some [setting_line "TICOS_DEVICE_ID" i; setting_line "TICOS_HARDWARE_VERSION" h]) =
    Val (Some (MkSettings i h)) /\
  ticosd_device_settings_init (Some [setting_line "TICOS_HARDWARE_VERSION" h; setting_line "TICOS_DEVICE_ID" i]) =
    Val (Some (MkSettings i h)).
Proof.
  intros Hi Hh Ni Nh. assert (W : without "=" "TICOS_DEVICE_ID" /\ without "=" "TICOS_HARDWARE_VERSION").
  { split; unfold without; cbn; repeat (apply Forall_cons_2; [discriminate|]); apply Forall_nil_2. }
  assert (L : forall name val handle, name <> EmptyString -> without "=" name -> val <> EmptyString -> without "010" val ->
    device_line (setting_line name val) handle =
      if String.eqb name "TICOS_DEVICE_ID" then Val (MkDeviceInfo (Some val) (hardware handle))
      else if String.eqb name "TICOS_HARDWARE_VERSION" then Val (MkDeviceInfo (id handle) (Some val)) else Val handle).
  { intros name val handle Hn Wn Hv Wv. unfold device_line, setting_line. rewrite strtok_word by done.
    now rewrite strtok_word by done. }
  destruct W as [W1 W2]. unfold ticosd_device_settings_init. cbn [device_lines].
  split; (rewrite L by done; cbn -[device_line]; rewrite L by done; reflexivity).
Qed.

(** ticosctl finds the PID the daemon wrote (below the 2^22 of Linux), and the daemon file is seen as present. *)
Theorem pid_roundtrip pid old : 0 <= pid <= 2 ^ 22 ->
  exists file, prv_ticosd_daemonize_process true Created true pid old = (true, Some file) /\
    ticosd_get_pid (Some file) true = Val pid /\ ticosd_check_for_pid_file (Some file) = true.
Proof.
  intros Hp. pose proof (print_Z_length pid 8 ltac:(lia)) as Hl. eexists. split; [reflexivity|]. split; [|done]. unfold ticosd_get_pid. cbn [negb].
  rewrite (take_ge (bytes_of_string (print_Z pid) ++ [10])) by (rewrite length_app; cbn [length]; lia).
  set (text := bytes_of_string (print_Z pid) ++ [10]). assert (Ht : zlen text <= 10) by (unfold text; rewrite length_app; cbn [length]; lia).
  rewrite take_ge by (unfold zeros; rewrite length_app, length_replicate; lia).
  assert (E : text = bytes_of_string (print_Z pid +:+ String "010" EmptyString)) by (rewrite bytes_of_string_app; reflexivity).
  assert (Z0 : exists rest, zeros (11 - zlen text) ++ [0] = 0 :: rest).
  { unfold zeros. destruct (Z.to_nat (11 - zlen text)) eqn:En; [lia|]. cbn. eauto. }
  destruct Z0 as [rest Z0]. rewrite <- app_assoc, Z0, E, c_string_of_bytes.
  - cbn [obind]. rewrite scan_int_print by (done || lia). done.
  - unfold no_nul. rewrite bytes_of_string_app. apply Forall_app_2; [apply no_nul_print_Z|].
    apply Forall_cons_2; [discriminate|apply Forall_nil_2].
Qed.

(** ** Concrete settings *)
Lemma device_settings_read_witness :
  ticosd_device_settings_init (Some [setting_line "TICOS_DEVICE_ID" "a=b"; setting_line "TICOS_HARDWARE_VERSION" "qemu"]) =
    Val (Some (MkSettings "a=b" "qemu")) /\
  ticosd_device_settings_init (Some [setting_line "TICOS_HARDWARE_VERSION" "qemu"; setting_line "TICOS_DEVICE_ID" "a=b"]) =
    Val (Some (MkSettings "a=b" "qemu")).
Proof.
  apply (device_settings_read "a=b" "qemu"); try discriminate;
    unfold without; cbn; repeat (apply Forall_cons_2; [discriminate|]); apply Forall_nil_2.
Defined.

Lemma pid_roundtrip_witness :
  exists file, prv_ticosd_daemonize_process true Created true 4711 None = (true, Some file) /\
    ticosd_get_pid (Some file) true = Val 4711 /\ ticosd_check_for_pid_file (Some file) = true.
Proof. apply (pid_roundtrip 4711 None). lia. Defined.
