(* ===== verification/RateLimiter.v ===== *)
(** * Rate limiting (src/util/rate_limiter.c, src/plugins/coredump/coredump_ratelimiter.c)

    The history of accepted events with the newest first, and its file.  The clock and the
    answers of calloc and fopen are arguments. *)
From stdpp Require Import gmap.
From S2P Require Import Prelude CLib Network.
#[local] Open Scope string_scope.
#[local] Open Scope list_scope.
#[local] Open Scope Z_scope.

Record sTicosdRateLimiter := MkRateLimiter {
  count : Z;
  duration : Z;
  history : list Z;
  file : option string }.

(** [a + b] of two time_t; signed overflow is undefined. *)
Definition time_add (a b : Z) : outcome Z := if i64 (a + b) =? a + b then Val (a + b) else Fault.

(** [history[i]], out of range undefined. *)
Definition history_at (h : list Z) (i : Z) : outcome Z :=
  if i <? 0 then Fault
  else match h !! Z.to_nat i with Some t => Val t | None => Fault end.

(** The loop [for (i = n - 1; i >= 0; --i) history[i + 1] = history[i]]. *)
Fixpoint shuffle (n : nat) (h : list Z) : outcome (list Z) :=
  match n with
  | O => Val h
  | S i => let! t := history_at h (Z.of_nat i) in shuffle i (<[S i := t]> h)
  end.

(** fprintf "%ld " of every entry. *)
Fixpoint print_history (h : list Z) : string :=
  match h with
  | [] => EmptyString
  | t :: h => print_Z t +:+ String " " (print_history h)
  end.

(** [None] is the NULL handle of a disabled limiter.  The result is the handle, the files and
    whether the event may proceed. *)
Definition ticosd_rate_limiter_check_event (now : Z) (fopen_ok : bool) (handle : option sTicosdRateLimiter) (fs : files)
    : outcome (option sTicosdRateLimiter * files * bool) :=
  match handle with
  | None => Val (None, fs, true)
  | Some h =>
      let! oldest := history_at (history h) (count h - 1) in
      let! allowed_from := time_add oldest (duration h) in
      if allowed_from >? now then Val (Some h, fs, false)
      else
        let! shuffled := shuffle (Z.to_nat (count h - 1)) (history h) in
        let new_history := <[0%nat := now]> shuffled in
        let h := MkRateLimiter (count h) (duration h) new_history (file h) in
        let fs :=
          match file h with
          | Some name => if fopen_ok then <[name := bytes_of_string (print_history new_history)]> fs else fs
          | None => fs
          end in
        Val (Some h, fs, true)
  end.

(** fscanf "%ld " for [n] entries; the first failure stops, what is left stays zero. *)
Fixpoint read_history (n : nat) (text : string) : list Z :=
  match n with
  | O => []
  | S n' =>
      match scan_Z text with
      | Some (t, rest) => clamp_long t :: read_history n' (skip_spaces rest)
      | None => replicate n 0
      end
  end.

(** What the environment answers: both callocs, the name of the history file
    ([ticosd_generate_rw_filename], [None] for NULL), and whether a file that exists can be
    opened. *)
Record limiter_env := MkLimiterEnv {
  handle_ok : bool;
  history_ok : bool;
  rw_filename : option string;
  can_open : bool }.

(** [filename] says whether a name was passed.  calloc fails for a negative count.  Without
    memory for the handle the cleanup reads through the null handle. *)
Definition ticosd_rate_limiter_init (env : limiter_env) (ticosd : bool) (count duration : Z) (filename : bool) (fs : files)
    : outcome (option sTicosdRateLimiter) :=
  if (count =? 0) || (duration =? 0) || negb ticosd then Val None
  else if negb (handle_ok env) then Fault
  else if negb (history_ok env && (count >? 0)) then Val None
  else
    let zero := replicate (Z.to_nat count) 0 in
    if filename then
      match rw_filename env with
      | None => Val None
      | Some name =>
          match fs !! name with
          | None => Val (Some (MkRateLimiter count duration zero (Some name)))
          | Some bytes =>
              if can_open env then
                Val (Some (MkRateLimiter count duration (read_history (Z.to_nat count) (string_of_bytes bytes)) (Some name)))
              else Val None
          end
      end
    else Val (Some (MkRateLimiter count duration zero None)).

(** The limiter of the core dump plugin: off in developer mode and without its settings. *)
Definition coredump_create_rate_limiter (env : limiter_env) (dev_mode : bool)
    (rate_limit_count rate_limit_duration_seconds : option Z) (fs : files) : outcome (option sTicosdRateLimiter) :=
  let '(c, d) := if negb dev_mode then (default 0 rate_limit_count, default 0 rate_limit_duration_seconds) else (0, 0) in
  ticosd_rate_limiter_init env true c d true fs.

(** ** Runs *)

(** The events at the times [ts], and which of them were accepted. *)
Fixpoint check_events (fopen_ok : bool) (ts : list Z) (handle : option sTicosdRateLimiter) (fs : files)
    : outcome (option sTicosdRateLimiter * files * list bool) :=
  match ts with
  | [] => Val (handle, fs, [])
  | t :: ts =>
      let! (handle, fs, ok) := ticosd_rate_limiter_check_event t fopen_ok handle fs in
      let! (handle, fs, oks) := check_events fopen_ok ts handle fs in
      Val (handle, fs, ok :: oks)
  end.
