(* ===== verification/RateLimiterSpec.v ===== *)
(** * What the rate limiter guarantees *)
From stdpp Require Import gmap.
From S2P Require Import Prelude CLib Network RateLimiter.
#[local] Open Scope string_scope.
#[local] Open Scope list_scope.
#[local] Open Scope Z_scope.

(** ** One event *)

(** The loop moves every entry below [n] one place up. *)
Lemma shuffle_spec n : forall h, (n < length h)%nat -> exists h', shuffle n h = Val h' /\ length h' = length h /\
  forall i, h' !! i = if decide (i = 0 \/ n < i)%nat then h !! i else h !! (i - 1)%nat.
Proof.
  induction n as [|n IH]; intros h Hn; cbn [shuffle].
  - exists h. split; [done|]. split; [done|]. intros i. rewrite decide_True by lia. done.
  - destruct (lookup_lt_is_Some_2 h n ltac:(lia)) as [t Ht].
    unfold history_at. test_false (Z.of_nat n <? 0). rewrite Nat2Z.id, Ht. cbn [obind].
    destruct (IH (<[S n := t]> h)) as (h' & E & L & P); [rewrite length_insert; lia|].
    exists h'. split; [exact E|]. rewrite length_insert in L. split; [exact L|]. intros i. rewrite P.
    destruct (decide (i = 0 \/ n < i)%nat) as [Hi|Hi].
    + destruct (decide (i = S n)) as [->|].
      * rewrite list_lookup_insert_eq by lia. rewrite decide_False by lia. rewrite <- Ht. f_equal. lia.
      * rewrite list_lookup_insert_ne by lia. rewrite decide_True by lia. done.
    + rewrite list_lookup_insert_ne by lia. now rewrite decide_False by lia.
Qed.

Lemma shuffle_shifts now h : h <> [] -> exists h', shuffle (length h - 1) h = Val h' /\
  <[0%nat := now]> h' = take (length h) (now :: h).
Proof.
  intros Hh. assert (Hl : (0 < length h)%nat) by (destruct h; cbn; [done|lia]).
  destruct (shuffle_spec (length h - 1) h ltac:(lia)) as (h' & E & L & P). exists h'. split; [exact E|].
  apply list_eq. intros [|i].
  - rewrite list_lookup_insert_eq by lia. rewrite lookup_take_lt by lia. done.
  - rewrite list_lookup_insert_ne, P by lia. destruct (decide (S i < length h)%nat).
    + rewrite decide_False, lookup_take_lt by lia. cbn. f_equal. lia.
    + rewrite decide_True, lookup_take_ge by lia. apply lookup_ge_None. lia.
Qed.

(** A limiter with its history in place, and times far from the ends of time_t. *)
Definition time_ok (t : Z) : Prop := - 2 ^ 62 <= t <= 2 ^ 62.
Definition limiter_ok (h : sTicosdRateLimiter) : Prop :=
  0 < count h /\ zlen (history h) = count h /\ Forall time_ok (history h) /\ Z.abs (duration h) < 2 ^ 31.

Definition saved (h : sTicosdRateLimiter) (fopen_ok : bool) (fs : files) : files :=
  match file h with
  | Some name => if fopen_ok then <[name := bytes_of_string (print_history (history h))]> fs else fs
  | None => fs
  end.

Definition push (now : Z) (h : sTicosdRateLimiter) : sTicosdRateLimiter :=
  MkRateLimiter (count h) (duration h) (take (Z.to_nat (count h)) (now :: history h)) (file h).

(** The oldest of the last [count] accepted events. *)
Definition oldest (h : sTicosdRateLimiter) : Z := default 0 (history h !! Z.to_nat (count h - 1)).

Lemma check_event_step now fopen_ok h fs : limiter_ok h ->
  ticosd_rate_limiter_check_event now fopen_ok (Some h) fs =
    if oldest h + duration h >? now then Val (Some h, fs, false)
    else Val (Some (push now h), saved (push now h) fopen_ok fs, true).
Proof.
  intros (Hc & Hl & Ht & Hd). unfold ticosd_rate_limiter_check_event, history_at, oldest.
  destruct (lookup_lt_is_Some_2 (history h) (Z.to_nat (count h - 1)) ltac:(lia)) as [t E].
  test_false (count h - 1 <? 0). rewrite E. cbn [obind]. change (default 0 (Some t)) with t.
  apply (Forall_lookup_1 _ _ _ _ Ht) in E as Hto. unfold time_ok in Hto. unfold time_add.
  assert (I : i64 (t + duration h) = t + duration h).
  { unfold i64, swrap. change (2 ^ (64 - 1)) with (2 ^ 63). rewrite Z.mod_small; lia. }
  rewrite I, Z.eqb_refl. cbn [obind]. destruct (t + duration h >? now); [done|].
  assert (Hne : history h <> []) by (destruct (history h); [cbn in Hl; lia|done]).
  destruct (shuffle_shifts now (history h) Hne) as (h' & Es & Ei).
  replace (Z.to_nat (count h - 1)) with (length (history h) - 1)%nat by lia. rewrite Es. cbn [obind]. rewrite Ei.
  unfold push. now replace (Z.to_nat (count h)) with (length (history h)) by lia.
Qed.

Lemma push_ok now h : time_ok now -> limiter_ok h -> limiter_ok (push now h).
Proof.
  intros Hn (Hc & Hl & Ht & Hd). split; [done|]. split; [|split; [|done]].
  - cbn [push history count]. rewrite length_take. cbn [length]. lia.
  - cbn [push history]. apply Forall_take. now apply Forall_cons_2.
Qed.

(** ** The window *)

(** Of the times [R], newest first, those [c] places apart are [d] seconds apart. *)
Definition spaced (c : nat) (d : Z) (R : list Z) : Prop :=
  forall i a b, R !! i = Some b -> R !! (i + c)%nat = Some a -> a + d <= b.

Fixpoint accepted (ts : list Z) (oks : list bool) : list Z :=
  match ts, oks with
  | t :: ts, ok :: oks => if ok : bool then t :: accepted ts oks else accepted ts oks
  | _, _ => []
  end.

Lemma check_events_spaced fopen_ok ts : forall h fs R init, limiter_ok h -> Forall time_ok ts ->
  history h = take (Z.to_nat (count h)) (R ++ init) -> spaced (Z.to_nat (count h)) (duration h) R ->
  exists h' fs' oks, check_events fopen_ok ts (Some h) fs = Val (Some h', fs', oks) /\ length oks = length ts /\
    limiter_ok h' /\ spaced (Z.to_nat (count h)) (duration h) (reverse (accepted ts oks) ++ R).
Proof.
  induction ts as [|t ts IH]; intros h fs R init Hok Hts Hh HR; cbn [check_events accepted].
  - exists h, fs, []. now split.
  - apply Forall_cons_1 in Hts as [Ht Hts]. rewrite check_event_step by done.
    destruct (oldest h + duration h >? t) eqn:E; tests_to_props; cbn [obind].
    + destruct (IH h fs R init Hok Hts Hh HR) as (h' & fs' & oks & Er & L & Hok' & Sp).
      exists h', fs', (false :: oks). rewrite Er. cbn. auto.
    + destruct (IH (push t h) (saved (push t h) fopen_ok fs) (t :: R) init (push_ok t h Ht Hok) Hts)
        as (h' & fs' & oks & Er & L & Hok' & Sp).
      * cbn [push count history]. rewrite Hh. cbn [app].
        destruct (Z.to_nat (count h)) as [|c] eqn:Ec; [now destruct Hok; lia|]. cbn [take]. f_equal.
        rewrite take_take. f_equal. lia.
      * cbn [push count duration]. intros [|i] a b; cbn [lookup list_lookup]; [|apply HR].
        intros [= <-] Ha. destruct Hok as (Hc & Hl & _). replace (0 + Z.to_nat (count h))%nat with (S (Z.to_nat (count h - 1))) in Ha by lia.
        change (R !! Z.to_nat (count h - 1) = Some a) in Ha. unfold oldest in E. rewrite Hh, lookup_take_lt, lookup_app_l in E by (lia || now apply lookup_lt_Some in Ha).
        rewrite Ha in E. cbn in E. lia.
      * exists h', fs', (true :: oks). rewrite Er. cbn [obind]. split; [done|]. split; [cbn; lia|]. split; [done|].
        rewrite reverse_cons, <- app_assoc. exact Sp.
Qed.

(** C34: however the events come, of those the limiter accepts every two that are [count]
    apart are at least [duration] seconds apart: no window of that length holds more than
    [count] of them.  The limiter never runs outside its history. *)
Theorem limiter_window fopen_ok ts h fs : limiter_ok h -> Forall time_ok ts ->
  exists h' fs' oks, check_events fopen_ok ts (Some h) fs = Val (Some h', fs', oks) /\ length oks = length ts /\
    forall i a b, accepted ts oks !! i = Some a -> accepted ts oks !! (i + Z.to_nat (count h))%nat = Some b ->
      a + duration h <= b.
Proof.
  intros Hok Hts. destruct (check_events_spaced fopen_ok ts h fs [] (history h) Hok Hts) as (h' & fs' & oks & E & L & _ & Sp).
  - destruct Hok as (_ & Hl & _). cbn. rewrite take_ge; [done|lia].
  - intros i a b. now rewrite lookup_nil.
  - exists h', fs', oks. split; [exact E|]. split; [exact L|]. intros i a b Ha Hb. rewrite app_nil_r in Sp.
    apply lookup_lt_Some in Hb as Hlt. set (A := accepted ts oks) in *. set (c := Z.to_nat (count h)) in *.
    apply (Sp (length A - S (i + c))%nat).
    + rewrite reverse_lookup by lia. rewrite <- Hb. f_equal. lia.
    + rewrite reverse_lookup by lia. rewrite <- Ha. f_equal. lia.
Qed.

(** ** The history file *)
Lemma skip_spaces_digit d r : 0 <= d < 10 -> skip_spaces (String (ascii_of_byte (48 + d)) r) = String (ascii_of_byte (48 + d)) r.
Proof. intros Hd. cbn [skip_spaces]. now rewrite (proj2 (digit_is_digit d Hd)). Qed.

Lemma skip_spaces_print_Z z r : skip_spaces (print_Z z +:+ r) = print_Z z +:+ r.
Proof.
  unfold print_Z. destruct (z <? 0); [done|]. rewrite print_digits_app.
  destruct (print_digits_head (Z.to_nat (Z.log2 (Z.abs z))) (Z.abs z) (EmptyString +:+ r) ltac:(lia)) as (d & r' & Hd & E).
  rewrite E. now apply skip_spaces_digit.
Qed.

Lemma skip_spaces_print_history h : skip_spaces (print_history h) = print_history h.
Proof. destruct h as [|t h]; [done|]. apply skip_spaces_print_Z. Qed.

Lemma read_print_history h : Forall (fun t => clamp_long t = t) h -> read_history (length h) (print_history h) = h.
Proof.
  induction 1 as [|t h Ht _ IH]; [done|]. cbn [length read_history print_history]. rewrite scan_print_Z by done.
  change (skip_spaces (String " " (print_history h))) with (skip_spaces (print_history h)).
  now rewrite skip_spaces_print_history, Ht, IH.
Qed.

Lemma clamp_time_ok t : time_ok t -> clamp_long t = t.
Proof. unfold time_ok, clamp_long. lia. Qed.

(** the file a limiter writes when it accepts an event restores it: after a restart with
    the same settings the limiter has the same history. *)
Theorem limiter_survives_restart now h fs name :
  limiter_ok h -> time_ok now -> duration h <> 0 -> file h = Some name -> oldest h + duration h <= now ->
  exists h' fs', ticosd_rate_limiter_check_event now true (Some h) fs = Val (Some h', fs', true) /\
    ticosd_rate_limiter_init (MkLimiterEnv true true (Some name) true) true (count h) (duration h) true fs' = Val (Some h').
Proof.
  intros Hok Hn Hd Hf Hold. rewrite check_event_step by done. test_false (oldest h + duration h >? now).
  eexists _, _. split; [reflexivity|]. destruct (push_ok now h Hn Hok) as (Hc & Hl & Ht & _).
  unfold ticosd_rate_limiter_init. cbn [handle_ok history_ok rw_filename can_open negb andb].
  cbn [push count] in Hc. test_false ((count h =? 0) || (duration h =? 0) || false). test_true (count h >? 0). cbn [negb].
  unfold saved. change (file (push now h)) with (file h). rewrite Hf. cbv beta iota.
  assert (L : forall bytes : list Z, (<[name := bytes]> fs : files) !! name = Some bytes)
    by (intros bytes; apply (lookup_insert_eq (M := gmap string))).
  rewrite L, string_of_bytes_of_string.
  do 2 f_equal. unfold push at 2. rewrite Hf. f_equal.
  change (take (Z.to_nat (count h)) (now :: history h)) with (history (push now h)).
  replace (Z.to_nat (count h)) with (length (history (push now h))) by (cbn [push count] in Hl; lia).
  apply read_print_history. eapply Forall_impl; [exact Ht|exact clamp_time_ok].
Qed.

(** ** Concrete limiters *)
Definition sample_limiter : sTicosdRateLimiter := MkRateLimiter 2 60 [0; 0] (Some "limit").

Lemma sample_limiter_ok : limiter_ok sample_limiter.
Proof.
  split; [done|]. split; [done|]. split; [|done]. repeat (apply Forall_cons_2; [unfold time_ok; lia|]). apply Forall_nil_2.
Qed.

Lemma limiter_window_witness :
  exists h' fs' oks, check_events true [100; 110; 120; 161; 165; 171] (Some sample_limiter) empty = Val (Some h', fs', oks) /\
    length oks = 6%nat /\
    forall i a b, accepted [100; 110; 120; 161; 165; 171] oks !! i = Some a ->
      accepted [100; 110; 120; 161; 165; 171] oks !! (i + 2)%nat = Some b -> a + 60 <= b.
Proof.
  apply (limiter_window true [100; 110; 120; 161; 165; 171] sample_limiter empty sample_limiter_ok).
  repeat (apply Forall_cons_2; [unfold time_ok; lia|]). apply Forall_nil_2.
Defined.

Example sample_run :
  (let! (_, _, oks) := check_events true [100; 110; 120; 161; 165; 171] (Some sample_limiter) empty in Val oks) =
  Val [true; true; false; true; false; true].
Proof. vm_compute. reflexivity. Qed.

Lemma limiter_survives_restart_witness :
  exists h' fs', ticosd_rate_limiter_check_event 1669807440 true (Some sample_limiter) empty = Val (Some h', fs', true) /\
    ticosd_rate_limiter_init (MkLimiterEnv true true (Some "limit") true) true 2 60 true fs' = Val (Some h').
Proof.
  apply (limiter_survives_restart 1669807440 sample_limiter empty "limit" sample_limiter_ok);
    [unfold time_ok; lia | done | done | vm_compute; discriminate].
Defined.
