(* ===== verification/Plugins.v ===== *)
(** * Plugins and their messages (src/util/plugins.c, the IPC thread of src/ticosd.c,
    src/plugins/attributes/attributes.c)

    The table of plugins, one turn of the thread that receives their messages, and the
    plugin that queues device attributes.  A plugin's functions act on the state [G]. *)
From S2P Require Import Prelude CLib.
From S2P Require Import TxQueue Network Daemon.
#[local] Open Scope string_scope.
#[local] Open Scope list_scope.
#[local] Open Scope Z_scope.

(** The daemon inside the state. *)
Class HasDaemon (G S : Type) := {
  daemon : G -> S;
  with_daemon : S -> G -> G;
  daemon_with s g : daemon (with_daemon s g) = s }.

(** ** The table *)
Section Table.
Context {G : Type}.

(** sTicosdPluginCallbackFns; a [None] is a NULL pointer.  The handler gets the receive
    buffer, [msg_iov[0].iov_base], and the received size. *)
Record sTicosdPluginCallbackFns := MkFns {
  plugin_destroy : option (M G unit);
  plugin_ipc_msg_handler : option (list Z -> Z -> M G bool) }.

(** sTicosdPluginDef.  [init] returns the success flag and what it stored in [fns]. *)
Record sTicosdPluginDef := MkPlugin {
  init : option sTicosdPluginCallbackFns -> M G (option sTicosdPluginCallbackFns * bool);
  fns : option sTicosdPluginCallbackFns;
  name : string;
  ipc_name : string }.

Definition set_fns (f : option sTicosdPluginCallbackFns) (p : sTicosdPluginDef) : sTicosdPluginDef :=
  MkPlugin (init p) f (name p) (ipc_name p).

Fixpoint ticosd_load_plugins (g_plugins : list sTicosdPluginDef) : M G (list sTicosdPluginDef) :=
  match g_plugins with
  | [] => ret []
  | p :: rest =>
      let* (f, ok) := init p (fns p) in
      let* rest := ticosd_load_plugins rest in
      ret (set_fns (if ok : bool then f else None) p :: rest)
  end.

Fixpoint ticosd_destroy_plugins (g_plugins : list sTicosdPluginDef) : M G unit :=
  match g_plugins with
  | [] => ret tt
  | p :: rest =>
      do* match fns p with
          | Some f => match plugin_destroy f with Some destroy => destroy | None => ret tt end
          | None => ret tt
          end in
      ticosd_destroy_plugins rest
  end.

(** [strcmp(s, p) == 0] for a C string [s] and the bytes at [p], which are read up to the
    first difference. *)
Fixpoint strcmp_equal (s : list Z) (p : list Z) : outcome bool :=
  match p with
  | [] => Fault
  | c :: p =>
      match s with
      | [] => Val (c =? 0)
      | b :: s => if b =? c then strcmp_equal s p else Val false
      end
  end.

Fixpoint ticosd_plugins_process_ipc (g_plugins : list sTicosdPluginDef) (msg : list Z) (received_size : Z) : M G bool :=
  match g_plugins with
  | [] => ret false
  | p :: rest =>
      match fns p with
      | Some (MkFns _ (Some handler)) =>
          if String.eqb (ipc_name p) EmptyString then ticosd_plugins_process_ipc rest msg received_size
          else if received_size <=? zlen (bytes_of_string (ipc_name p)) then
            ticosd_plugins_process_ipc rest msg received_size
          else
            let* same := lift (strcmp_equal (bytes_of_string (ipc_name p)) msg) in
            if negb same then ticosd_plugins_process_ipc rest msg received_size
            else
              let* _ := handler msg received_size in
              ret true
      | _ => ticosd_plugins_process_ipc rest msg received_size
      end
  end.

(** ** Receiving (the loop of [prv_ipc_process_thread]) *)
Definition RX_BUFFER_SIZE : Z := 1024.

(** What recvmsg finds: an error, or a datagram. *)
Inductive recv_answer :=
| RecvError
| Datagram (bytes : list Z).

(** recvmsg into the buffer: the part of the datagram that fits overwrites its beginning. *)
Definition recvmsg (rx : list Z) (answer : recv_answer) : list Z * Z :=
  match answer with
  | RecvError => (rx, -1)
  | Datagram bytes =>
      let received := take (Z.to_nat RX_BUFFER_SIZE) bytes in
      (received ++ drop (length received) rx, zlen received)
  end.

(** One turn; the result of recvmsg is stored in a size_t before it is compared.  Returns
    the buffer, which keeps its bytes for the next turn. *)
Definition ipc_turn (g_plugins : list sTicosdPluginDef) (rx : list Z) (answer : recv_answer) : M G (list Z) :=
  let '(rx, result) := recvmsg rx answer in
  let received_size := u64 result in
  if received_size <=? 0 then ret rx
  else let* _ := ticosd_plugins_process_ipc g_plugins rx received_size in ret rx.

Fixpoint ipc_turns (g_plugins : list sTicosdPluginDef) (rx : list Z) (answers : list recv_answer) : M G (list Z) :=
  match answers with
  | [] => ret rx
  | a :: answers => let* rx := ipc_turn g_plugins rx a in ipc_turns g_plugins rx answers
  end.
End Table.
Arguments sTicosdPluginCallbackFns : clear implicits.
Arguments sTicosdPluginDef : clear implicits.

(** ** Device attributes *)

(** struct TicosAttributesIPC: the name, five bytes of padding, the time, the text. *)
Definition ATTRIBUTES_IPC_NAME : string := "ATTRIBUTES".
Definition attributes_timestamp_offset : Z := 16.
Definition sizeof_sTicosAttributesIPC : Z := 24.

Section Attributes.
Context {Q C W : Type} `{TxQueue Q, ConfigOps C, NetworkOps W}.
Abbreviation S := (sTicosd Q C W).

(** The text at [msg->json]. *)
Definition ipc_json (msg : list Z) : outcome string :=
  let! bs := load msg sizeof_sTicosAttributesIPC (zlen msg - sizeof_sTicosAttributesIPC) in c_string bs.

(** The entry, [None] when malloc fails, and the payload size, a uint32_t. *)
Definition prv_build_queue_entry (msg : list Z) : M S (option (list Z) * Z) :=
  let* json := lift (ipc_json msg) in
  let json_len := zlen (bytes_of_string json) in
  let payload_size := u32 (8 + json_len + 1) in
  let* ok := malloc_ok in
  if negb ok then ret (None, payload_size)
  else
    let* timestamp := lift (load msg attributes_timestamp_offset 8) in
    ret (Some (kTicosdTxDataType_Attributes :: timestamp ++ bytes_of_string json ++ [0]), payload_size).

Definition prv_msg_handler (msg : list Z) (received_size : Z) : M S bool :=
  let* (data, len) := prv_build_queue_entry msg in
  ticosd_txdata data len.

(** The plugin table's entry once [ticosd_attributes_init] has run; [calloc_ok] is the
    allocator's answer. *)
Definition ticosd_attributes_init (calloc_ok : bool) (f : option (sTicosdPluginCallbackFns S))
    : M S (option (sTicosdPluginCallbackFns S) * bool) :=
  if negb calloc_ok then ret (f, false)
  else ret (Some (MkFns None (Some prv_msg_handler)), true).

Definition attributes_plugin : sTicosdPluginDef S :=
  MkPlugin (ticosd_attributes_init true) None "attributes" ATTRIBUTES_IPC_NAME.
End Attributes.
