(* ===== verification/Shutdown.v ===== *)
(** * The threads of the daemon (src/ticosd.c)

    [prv_ipc_process_thread] from its first statement to its last, the main thread from the loop
    to the end of [ticosd_main], and [prv_ticosd_sig_handler], which runs in either of them
    between two of its statements.  A system call is a step; so is the handling of a message
    and a turn of the main loop, whose order at the queue is the subject of [TxQueue].  The
    daemon is part of the state [G] on which the plugins act. *)
From stdpp Require Import relations.
From S2P Require Import Prelude CLib TxQueue Network Daemon Plugins.
#[local] Open Scope list_scope.
#[local] Open Scope Z_scope.

(** ** Where the threads are *)
Inductive ipc_pc :=
| IpcSocket | IpcUnlink | IpcBind
| IpcTest                            (** the loop's condition *)
| IpcRecv                            (** in recvmsg *)
| IpcProcess (answer : recv_answer)  (** recvmsg has returned *)
| IpcClose | IpcUnlinkEnd | IpcDone.

Inductive main_pc :=
| MainTest                           (** the loop's condition *)
| MainTurn
| MainSleep (seconds : Z)
| MainJoin                           (** in pthread_join *)
| MainDestroy                        (** ticosd_destroy_plugins *)
| MainFree                           (** the other destroy functions and free *)
| MainDone.

(** The socket of the handle, and whether its read side is shut down. *)
Inductive socket_state := NoSocket | Socket (shut : bool) | ClosedSocket.

(** What happened to the plugins and the queue, in order. *)
Inductive event := Received (answer : recv_answer) | TurnEnded | Destroyed.

Inductive thread := InMain | InIpc.

Section Threads.
Context {G Q C W : Type} `{TxQueue Q, ConfigOps C, NetworkOps W, HasDaemon G (sTicosd Q C W)}.
Context (g_plugins : list (sTicosdPluginDef G)) (fuel : nat).

(** [in_main] and [in_ipc] count the handlers that run on top of each thread. *)
Record machine := MkMachine {
  world : G;
  rx : list Z;
  loop : loop_state;
  main : main_pc;
  ipc : ipc_pc;
  socket : socket_state;
  inbox : list (list Z);
  in_main : nat;
  in_ipc : nat;
  log : list event }.

Definition stopping (m : machine) : bool := terminate (daemon (world m)).

Definition set_ipc (p : ipc_pc) (m : machine) : machine :=
  MkMachine (world m) (rx m) (loop m) (main m) p (socket m) (inbox m) (in_main m) (in_ipc m) (log m).
Definition set_socket (s : socket_state) (m : machine) : machine :=
  MkMachine (world m) (rx m) (loop m) (main m) (ipc m) s (inbox m) (in_main m) (in_ipc m) (log m).
Definition set_inbox (i : list (list Z)) (m : machine) : machine :=
  MkMachine (world m) (rx m) (loop m) (main m) (ipc m) (socket m) i (in_main m) (in_ipc m) (log m).
Definition set_main (p : main_pc) (m : machine) : machine :=
  MkMachine (world m) (rx m) (loop m) p (ipc m) (socket m) (inbox m) (in_main m) (in_ipc m) (log m).
Definition set_world (g : G) (m : machine) : machine :=
  MkMachine g (rx m) (loop m) (main m) (ipc m) (socket m) (inbox m) (in_main m) (in_ipc m) (log m).
Definition set_rx (b : list Z) (m : machine) : machine :=
  MkMachine (world m) b (loop m) (main m) (ipc m) (socket m) (inbox m) (in_main m) (in_ipc m) (log m).
Definition set_loop (l : loop_state) (m : machine) : machine :=
  MkMachine (world m) (rx m) l (main m) (ipc m) (socket m) (inbox m) (in_main m) (in_ipc m) (log m).
Definition set_handlers (t : thread) (n : nat) (m : machine) : machine :=
  match t with
  | InMain => MkMachine (world m) (rx m) (loop m) (main m) (ipc m) (socket m) (inbox m) n (in_ipc m) (log m)
  | InIpc => MkMachine (world m) (rx m) (loop m) (main m) (ipc m) (socket m) (inbox m) (in_main m) n (log m)
  end.
Definition add_event (e : event) (m : machine) : machine :=
  MkMachine (world m) (rx m) (loop m) (main m) (ipc m) (socket m) (inbox m) (in_main m) (in_ipc m) (log m ++ [e]).

Definition handlers (t : thread) (m : machine) : nat := match t with InMain => in_main m | InIpc => in_ipc m end.

(** One step of [prv_ipc_process_thread]; [ok] tells whether its system call succeeds, [None] that
    it blocks or that the thread has ended. *)
Definition prv_ipc_process_thread (ok : bool) (m : machine) : outcome (option machine) :=
  match ipc m with
  | IpcSocket => Val (Some (if ok then set_socket (Socket false) (set_ipc IpcUnlink m) else set_ipc IpcClose m))
  | IpcUnlink => Val (Some (set_ipc (if ok then IpcBind else IpcClose) m))
  | IpcBind => Val (Some (set_ipc (if ok then IpcTest else IpcClose) m))
  | IpcTest => Val (Some (set_ipc (if stopping m then IpcClose else IpcRecv) m))
  | IpcRecv =>
      match inbox m, socket m with
      | d :: rest, _ => Val (Some (set_inbox rest (set_ipc (IpcProcess (Datagram d)) m)))
      | [], Socket true => Val (Some (set_ipc IpcTest m))
      | [], _ => if ok then Val None else Val (Some (set_ipc (IpcProcess RecvError) m))
      end
  | IpcProcess answer =>
      let! (g, b) := ipc_turn g_plugins (rx m) answer (world m) in
      Val (Some (add_event (Received answer) (set_ipc IpcTest (set_rx b (set_world g m)))))
  | IpcClose => Val (Some (set_socket ClosedSocket (set_ipc IpcUnlinkEnd m)))
  | IpcUnlinkEnd => Val (Some (set_ipc IpcDone m))
  | IpcDone => Val None
  end.

(** One step of the main thread; the clock of a turn is an argument. *)
Definition main_thread (before after : Z) (m : machine) : outcome (option machine) :=
  match main m with
  | MainTest => Val (Some (set_main (if stopping m then MainJoin else MainTurn) m))
  | MainTurn =>
      let! (s, (l, sleep)) := process_turn fuel (loop m) (MkWakeup before after false) (daemon (world m)) in
      Val (Some (add_event TurnEnded (set_main (match sleep with Some n => MainSleep n | None => MainTest end)
        (set_loop l (set_world (with_daemon s (world m)) m)))))
  | MainSleep _ => Val (Some (set_main MainTest m))
  | MainJoin => match ipc m with IpcDone => Val (Some (set_main MainDestroy m)) | _ => Val None end
  | MainDestroy =>
      let! (g, _) := ticosd_destroy_plugins g_plugins (world m) in
      Val (Some (add_event Destroyed (set_main MainFree (set_world g m))))
  | MainFree => Val (Some (set_main MainDone m))
  | MainDone => Val None
  end.

(** The handler up to the assignment, and the call of shutdown, on a socket or on whatever
    else the descriptor is. *)
Definition handler_enters (t : thread) (m : machine) : machine :=
  set_handlers t (S (handlers t m)) (set_world (with_daemon (set_terminate true (daemon (world m))) (world m)) m).

Definition handler_returns (t : thread) (m : machine) : machine :=
  set_handlers t (pred (handlers t m)) (match socket m with Socket _ => set_socket (Socket true) m | _ => m end).

Definition prv_ticosd_sig_handler (sig : Z) (t : thread) (m : machine) : machine :=
  if sig =? SIGUSR1 then m else handler_enters t m.

Definition alive (t : thread) (m : machine) : Prop :=
  match t with InMain => main m <> MainDone | InIpc => ipc m <> IpcDone end.

(** A thread does something, a signal arrives, or somebody sends a datagram.  A thread waits
    for the handlers on top of it. *)
Inductive move := Thread | Signal | Sender.

Inductive step : move -> machine -> machine -> Prop :=
| ipc_moves ok m m' : in_ipc m = 0%nat -> prv_ipc_process_thread ok m = Val (Some m') -> step Thread m m'
| main_moves before after m m' : in_main m = 0%nat -> main_thread before after m = Val (Some m') -> step Thread m m'
| handler_moves t m : (0 < handlers t m)%nat -> step Thread m (handler_returns t m)
| signal_arrives sig t m : alive t m -> step Signal m (prv_ticosd_sig_handler sig t m)
| datagram_arrives d m : socket m = Socket false -> step Sender m (set_inbox (inbox m ++ [d]) m).

(** The same as a function, for examples. *)
Inductive choice := Ipc (ok : bool) | Main (before after : Z) | Return (t : thread) | Kill (sig : Z) (t : thread) | Send (d : list Z).

Definition moved (m : outcome (option machine)) : option machine := match m with Val r => r | _ => None end.

Definition act (c : choice) (m : machine) : option machine :=
  match c with
  | Ipc ok => match in_ipc m with O => moved (prv_ipc_process_thread ok m) | _ => None end
  | Main before after => match in_main m with O => moved (main_thread before after m) | _ => None end
  | Return t => match handlers t m with O => None | _ => Some (handler_returns t m) end
  | Kill sig t =>
      match t, main m, ipc m with
      | InMain, MainDone, _ | InIpc, _, IpcDone => None
      | _, _, _ => Some (prv_ticosd_sig_handler sig t m)
      end
  | Send d => match socket m with Socket false => Some (set_inbox (inbox m ++ [d]) m) | _ => None end
  end.

Fixpoint play (cs : list choice) (m : machine) : option machine :=
  match cs with
  | [] => Some m
  | c :: cs => match act c m with Some m => play cs m | None => None end
  end.

(** Runs with the number of steps of threads and of signals in them. *)
Inductive run : nat -> nat -> machine -> machine -> Prop :=
| run_done m : run 0 0 m m
| run_thread n k m m' m'' : step Thread m m' -> run n k m' m'' -> run (S n) k m m''
| run_signal n k m m' m'' : step Signal m m' -> run n k m' m'' -> run n (S k) m m''
| run_sender n k m m' m'' : step Sender m m' -> run n k m' m'' -> run n k m m''.

(** The state when the thread has just been created. *)
Definition first_loop : loop_state := MkLoop 0 NETWORK_FAILURE_FIRST_BACKOFF_SECONDS.

Definition started (g : G) (b : list Z) : machine :=
  MkMachine g b first_loop MainTest IpcSocket NoSocket [] 0 0 [].
End Threads.
