(* ===== verification/ShutdownSpec.v ===== *)
(** * Shutting down in order

    Whatever the interleaving of the two threads, signals and senders: the plugins are destroyed
    after the last message and the last turn, and once a signal has asked for it both threads
    come to their end. *)
From stdpp Require Import relations.
From S2P Require Import Prelude CLib TxQueue Network Daemon Plugins Shutdown.
#[local] Open Scope list_scope.
#[local] Open Scope Z_scope.

Section Spec.
Context {G Q C W : Type} `{TxQueue Q, ConfigOps C, NetworkOps W, HasDaemon G (sTicosd Q C W)}.
Context (g_plugins : list (sTicosdPluginDef G)) (fuel : nat).
Abbreviation machine := (machine (G := G)).
Abbreviation step := (step g_plugins fuel).
Abbreviation run := (run g_plugins fuel).
Implicit Types (m : machine) (g : G).

(** States of the world, the receive buffer and the loop's locals from which everything that is
    called is defined; nothing but the signal handler changes [terminate]. *)
Class Runs (P : G -> list Z -> loop_state -> Prop) := {
  turn_runs g b l before after : P g b l ->
    exists s l' sleep, process_turn fuel l (MkWakeup before after false) (daemon g) = Val (s, (l', sleep)) /\
      P (with_daemon s g) b l' /\ terminate s = terminate (daemon g);
  ipc_runs g b l answer : P g b l ->
    exists g' b', ipc_turn g_plugins b answer g = Val (g', b') /\ P g' b' l /\ terminate (daemon g') = terminate (daemon g);
  destroy_runs g b l : P g b l ->
    exists g' u, ticosd_destroy_plugins g_plugins g = Val (g', u) /\ P g' b l /\ terminate (daemon g') = terminate (daemon g);
  signal_runs g b l : P g b l -> P (with_daemon (set_terminate true (daemon g)) g) b l }.

Context {P : G -> list Z -> loop_state -> Prop} `{!Runs P}.

(** ** The invariant *)
Definition past_loop (p : main_pc) : bool := match p with MainJoin | MainDestroy | MainFree | MainDone => true | _ => false end.
Definition past_join (p : main_pc) : bool := match p with MainDestroy | MainFree | MainDone => true | _ => false end.
Definition past_destroy (p : main_pc) : bool := match p with MainFree | MainDone => true | _ => false end.
Definition has_socket (p : ipc_pc) : bool :=
  match p with IpcUnlink | IpcBind | IpcTest | IpcRecv | IpcProcess _ => true | _ => false end.

Record inv m : Prop := {
  inv_world : P (world m) (rx m) (loop m);
  inv_loop : past_loop (main m) = true -> stopping m = true;
  inv_join : past_join (main m) = true -> ipc m = IpcDone;
  inv_done : main m = MainDone -> in_main m = 0%nat;
  inv_ipc_done : ipc m = IpcDone -> in_ipc m = 0%nat;
  inv_socket : has_socket (ipc m) = true -> exists shut, socket m = Socket shut;
  (** recvmsg blocks only until the handler has called shutdown *)
  inv_recv : ipc m = IpcRecv -> stopping m = true -> socket m = Socket true \/ (0 < in_main m + in_ipc m)%nat;
  inv_handlers : (0 < in_main m + in_ipc m)%nat -> stopping m = true;
  inv_log : exists l, Destroyed ∉ l /\ log m = l ++ (if past_destroy (main m) then [Destroyed] else []) }.

Lemma inv_started g b : P g b first_loop -> inv (started g b).
Proof. intros Hg. split; cbn; try done; try lia. exists []. now split; [set_solver|]. Qed.

Lemma event_logged e m : e <> Destroyed -> past_destroy (main m) = false ->
  (exists l, Destroyed ∉ l /\ log m = l ++ (if past_destroy (main m) then [Destroyed] else [])) ->
  exists l, Destroyed ∉ l /\ log m ++ [e] = l ++ [].
Proof.
  intros He Hp (l & Hl & E). rewrite Hp, app_nil_r in E. exists (log m ++ [e]). rewrite app_nil_r, E. split; [|done].
  apply not_elem_of_app. split; [done|]. rewrite list_elem_of_singleton. congruence.
Qed.

(** Before the IPC thread has ended the main thread has not passed pthread_join. *)
Lemma join_waits m : inv m -> ipc m <> IpcDone -> past_join (main m) = false /\ past_destroy (main m) = false.
Proof. intros I Hd. pose proof (inv_join _ I). destruct (main m); cbn in *; split; try done; tauto. Qed.

Ltac keeps := split; unfold stopping in *; cbn in *; intros; try congruence; try lia;
  try match goal with E : ipc _ = _, S : has_socket (ipc _) = true |- _ => rewrite E in S; discriminate S end; eauto.

Lemma ipc_keeps ok m m' : inv m -> in_ipc m = 0%nat -> prv_ipc_process_thread g_plugins ok m = Val (Some m') -> inv m'.
Proof.
  intros I Hh E. unfold prv_ipc_process_thread in E.
  assert (J : ipc m <> IpcDone -> past_join (main m) = false /\ past_destroy (main m) = false) by (now apply join_waits).
  destruct I as [I1 I2 I3 I4 I5 I6 I7 I8 I9].
  destruct (ipc m) eqn:Ei; [..|done]; specialize (J ltac:(congruence)) as [J J'].
  - destruct ok; injection E as <-; keeps.
  - destruct ok; injection E as <-; keeps.
  - destruct ok; injection E as <-; keeps.
  - injection E as <-. destruct (stopping m) eqn:Es; keeps.
  - destruct (inbox m) as [|d rest]; [|injection E as <-; keeps].
    destruct (I6 eq_refl) as [[] Eso]; rewrite Eso in E; try (destruct ok; [done|]); injection E as <-; keeps.
  - destruct (ipc_runs (world m) (rx m) (loop m) answer I1) as (g' & b' & Er & P' & T). rewrite Er in E. injection E as <-.
    split; unfold stopping in *; cbn in *; intros; try congruence; try lia; eauto.
    rewrite J' in *. apply event_logged; eauto. now rewrite J'.
  - injection E as <-. keeps.
  - injection E as <-. keeps.
Qed.

Lemma main_keeps before after m m' : inv m -> in_main m = 0%nat -> main_thread g_plugins fuel before after m = Val (Some m') -> inv m'.
Proof.
  intros [I1 I2 I3 I4 I5 I6 I7 I8 I9] Hh E. unfold main_thread in E. destruct (main m) eqn:Em; [..|done]; cbn in I2, I3, I9.
  - injection E as <-. destruct (stopping m) eqn:Es; keeps.
  - destruct (turn_runs (world m) (rx m) (loop m) before after I1) as (s & l & sleep & Er & P' & T). rewrite Er in E. injection E as <-.
    destruct I9 as (l' & Hl & El). destruct sleep; split; unfold stopping in *; cbn in *; rewrite ?daemon_with, ?T; intros; try congruence; try lia; eauto.
    all: exists (log m ++ [TurnEnded]); rewrite El, !app_nil_r; split; [set_solver|done].
  - injection E as <-. keeps.
  - destruct (ipc m) eqn:Ei; try done. injection E as <-. keeps.
  - destruct (destroy_runs (world m) (rx m) (loop m) I1) as (g' & u & Er & P' & T). rewrite Er in E. injection E as <-.
    destruct I9 as (l' & Hl & El). split; unfold stopping in *; cbn in *; rewrite ?T; intros; try congruence; try lia; eauto.
    exists l'. now rewrite El, app_nil_r.
  - injection E as <-. keeps.
Qed.

Lemma handler_keeps t m : inv m -> (0 < handlers t m)%nat -> inv (handler_returns t m).
Proof.
  intros [I1 I2 I3 I4 I5 I6 I7 I8 I9] Hh.
  assert (S : has_socket (ipc m) = true -> socket (handler_returns t m) = Socket true).
  { intros Hs. destruct (I6 Hs) as [shut E]. unfold handler_returns. rewrite E. now destruct t. }
  assert (Hs : stopping m = true) by (apply I8; destruct t; cbn in Hh; lia).
  assert (F : world (handler_returns t m) = world m /\ rx (handler_returns t m) = rx m /\ loop (handler_returns t m) = loop m /\ main (handler_returns t m) = main m /\ ipc (handler_returns t m) = ipc m /\
    log (handler_returns t m) = log m /\ (in_main (handler_returns t m) <= in_main m)%nat /\ (in_ipc (handler_returns t m) <= in_ipc m)%nat).
  { unfold handler_returns. destruct t, (socket m); cbn; repeat (split; [done|]); lia. }
  destruct F as (Fw & Fr & Fo & Fm & Fi & Fl & Hm & Hi). split; unfold stopping in *; rewrite ?Fw, ?Fr, ?Fo, ?Fm, ?Fi, ?Fl; try done.
  - intros D. specialize (I4 D). lia.
  - intros D. specialize (I5 D). lia.
  - eauto.
  - intros D _. left. apply S. now rewrite D.
Qed.

Lemma step_keeps mv m m' : step mv m m' -> inv m -> inv m'.
Proof.
  destruct 1 as [ok m m' Hh E|before after m m' Hh E|t m Hh|sig t m Ha|d m Hs]; intros I.
  - now apply (ipc_keeps ok m).
  - now apply (main_keeps before after m).
  - now apply handler_keeps.
  - unfold prv_ticosd_sig_handler. destruct (sig =? SIGUSR1); [done|]. pose proof (signal_runs _ _ _ (inv_world _ I)) as P'.
    destruct I as [I1 I2 I3 I4 I5 I6 I7 I8 I9]. unfold handler_enters.
    destruct t; split; unfold stopping in *; cbn in *; rewrite ?daemon_with; intros; try congruence; try lia; eauto; right; lia.
  - destruct I as [I1 I2 I3 I4 I5 I6 I7 I8 I9]. keeps.
Qed.

Lemma run_keeps n k m m' : run n k m m' -> inv m -> inv m'.
Proof. induction 1 as [| | |]; [done|..]; intros I; apply IHrun; eapply step_keeps; eassumption. Qed.
(** ** Order *)
Lemma quiet_after mv m m' : inv m -> past_destroy (main m) = true -> step mv m m' -> log m' = log m /\ past_destroy (main m') = true.
Proof.
  intros I Hp S. inversion S as [ok m1 m2 Hh E|before after m1 m2 Hh E|t m1 Hh|sig t m1 Ha|d m1 Hs]; subst.
  - unfold prv_ipc_process_thread in E. rewrite (inv_join _ I) in E; [done|]. now destruct (main m).
  - unfold main_thread in E. destruct (main m); try done. now injection E as <-.
  - unfold handler_returns. destruct t, (socket m); done.
  - unfold prv_ticosd_sig_handler, handler_enters. destruct (sig =? SIGUSR1), t; done.
  - done.
Qed.

Lemma quiet_run n k m m' : run n k m m' -> inv m -> past_destroy (main m) = true -> log m' = log m.
Proof.
  induction 1 as [m|n k m m1 m' S _ IH|n k m m1 m' S _ IH|n k m m1 m' S _ IH]; intros I Hp; [done|..].
  all: destruct (quiet_after _ _ _ I Hp S) as [El Hp1]; rewrite <- El; apply IH; [now apply (step_keeps _ _ _ S)|done].
Qed.


(** ** The end *)
Definition ipc_left (p : ipc_pc) : nat :=
  match p with
  | IpcSocket => 6 | IpcUnlink | IpcRecv => 5 | IpcBind | IpcProcess _ => 4 | IpcTest => 3
  | IpcClose => 2 | IpcUnlinkEnd => 1 | IpcDone => 0
  end.
Definition main_left (p : main_pc) : nat :=
  match p with
  | MainTurn => 6 | MainSleep _ => 5 | MainTest => 4 | MainJoin => 3 | MainDestroy => 2 | MainFree => 1 | MainDone => 0
  end.
Definition steps_left m : nat := ipc_left (ipc m) + main_left (main m) + in_main m + in_ipc m.

(** What is received once the daemon is to stop. *)
Definition receiving (p : ipc_pc) : nat := match p with IpcRecv | IpcProcess _ => 1 | _ => 0 end.
Definition received (l : list event) : nat := length (List.filter (fun e => match e with Received _ => true | _ => false end) l).
#[local] Arguments received : simpl never.
Definition messages m : nat := receiving (ipc m) + received (log m).

Lemma received_app l e : received (l ++ [e]) = (received l + match e with Received _ => 1 | _ => 0 end)%nat.
Proof. unfold received. rewrite List.filter_app, length_app. now destruct e. Qed.

Lemma thread_pays m m' : inv m -> stopping m = true -> step Thread m m' ->
  stopping m' = true /\ (steps_left m' < steps_left m)%nat /\ (messages m' <= messages m)%nat.
Proof.
  intros I Hs S. inversion S as [ok m1 m2 Hh E|before after m1 m2 Hh E|t m1 Hh| |]; subst.
  - unfold prv_ipc_process_thread in E. rewrite Hs in E. unfold steps_left, messages. destruct (ipc m) eqn:Ei; [..|done].
    1-3: destruct ok; injection E as <-; cbn; (split; [exact Hs|lia]).
    + injection E as <-. cbn. split; [exact Hs|lia].
    + destruct (inbox m) as [|d rest]; [|injection E as <-; cbn; split; [exact Hs|lia]].
      destruct (inv_socket _ I) as [[] Eso]; [now rewrite Ei|..]; rewrite Eso in E; [|destruct ok; [done|]];
        injection E as <-; cbn; (split; [exact Hs|lia]).
    + destruct (ipc_runs (world m) (rx m) (loop m) answer (inv_world _ I)) as (g' & b' & Er & _ & T). rewrite Er in E. injection E as <-.
      unfold stopping. cbn. rewrite T, received_app. split; [exact Hs|lia].
    + injection E as <-. cbn. split; [exact Hs|lia].
    + injection E as <-. cbn. split; [exact Hs|lia].
  - unfold main_thread in E. rewrite Hs in E. unfold steps_left, messages. destruct (main m) eqn:Em; [..|done].
    + injection E as <-. cbn. split; [exact Hs|lia].
    + destruct (turn_runs (world m) (rx m) (loop m) before after (inv_world _ I)) as (s & l & sleep & Er & _ & T). rewrite Er in E. injection E as <-.
      unfold stopping. cbn. rewrite daemon_with, T, received_app. split; [exact Hs|]. destruct sleep; cbn; lia.
    + injection E as <-. cbn. split; [exact Hs|lia].
    + destruct (ipc m) eqn:Ei; try done. injection E as <-. cbn. rewrite Ei. split; [exact Hs|cbn; lia].
    + destruct (destroy_runs (world m) (rx m) (loop m) (inv_world _ I)) as (g' & u & Er & _ & T). rewrite Er in E. injection E as <-.
      unfold stopping. cbn. rewrite T, received_app. split; [exact Hs|lia].
    + injection E as <-. cbn. split; [exact Hs|lia].
  - unfold handler_returns, stopping, steps_left, messages. destruct t, (socket m); cbn in *; (split; [exact Hs|lia]).
Qed.

Lemma others_pay mv m m' : mv <> Thread -> stopping m = true -> step mv m m' ->
  stopping m' = true /\ (steps_left m' <= steps_left m + match mv with Signal => 1 | _ => 0 end)%nat /\ (messages m' <= messages m)%nat.
Proof.
  intros Hm Hs S. inversion S as [| | |sig t m1 Ha|d m1 Hd]; subst; try done.
  - unfold prv_ticosd_sig_handler. destruct (sig =? SIGUSR1); [split; [done|lia]|].
    unfold handler_enters, stopping, steps_left, messages. destruct t; cbn; rewrite daemon_with; (split; [done|lia]).
  - unfold stopping, steps_left, messages. cbn. split; [exact Hs|lia].
Qed.

Lemma run_pays n k m m' : run n k m m' -> inv m -> stopping m = true ->
  stopping m' = true /\ (n + steps_left m' <= steps_left m + k)%nat /\ (messages m' <= messages m)%nat.
Proof.
  induction 1 as [m|n k m m1 m' S _ IH|n k m m1 m' S _ IH|n k m m1 m' S _ IH]; intros I Hs; [split; [done|lia]|..].
  all: specialize (IH (step_keeps _ _ _ S I)).
  - destruct (thread_pays _ _ I Hs S) as (Hs1 & L & R). destruct (IH Hs1) as (? & ? & ?). split; [done|lia].
  - destruct (others_pay Signal _ _ ltac:(done) Hs S) as (Hs1 & L & R). destruct (IH Hs1) as (? & ? & ?). split; [done|lia].
  - destruct (others_pay Sender _ _ ltac:(done) Hs S) as (Hs1 & L & R). destruct (IH Hs1) as (? & ? & ?). split; [done|lia].
Qed.

(** Something can always happen until the program has ended. *)
Lemma thread_progress m : inv m -> stopping m = true -> main m = MainDone \/ exists m', step Thread m m'.
Proof.
  intros I Hs.
  destruct (in_main m) eqn:Hm; [|right; eexists; apply (handler_moves _ _ InMain); cbn; lia].
  destruct (in_ipc m) eqn:Hi; [|right; eexists; apply (handler_moves _ _ InIpc); cbn; lia].
  assert (D : ipc m = IpcDone \/ exists m', prv_ipc_process_thread g_plugins true m = Val (Some m')).
  { unfold prv_ipc_process_thread. destruct (ipc m) eqn:Ei; try (right; eexists; reflexivity); [..|now left]; right.
    - destruct (inv_recv _ I Ei Hs) as [->|]; [|lia]. destruct (inbox m); eexists; reflexivity.
    - destruct (ipc_runs (world m) (rx m) (loop m) answer (inv_world _ I)) as (g' & b' & -> & _). eexists. reflexivity. }
  destruct D as [Hd|[m' E]]; [|right; exists m'; now apply (ipc_moves _ _ true)].
  assert (M : main m = MainDone \/ exists m', main_thread g_plugins fuel 0 0 m = Val (Some m')).
  { unfold main_thread. rewrite Hd. destruct (main m) eqn:Em; try (right; eexists; reflexivity); [..|now left]; right.
    - destruct (turn_runs (world m) (rx m) (loop m) 0 0 (inv_world _ I)) as (s & l & sleep & -> & _). eexists. reflexivity.
    - destruct (destroy_runs (world m) (rx m) (loop m) (inv_world _ I)) as (g' & u & -> & _). eexists. reflexivity. }
  destruct M as [?|[m' E]]; [now left|right; exists m'; now apply (main_moves _ _ 0 0)].
Qed.

End Spec.
