(* ===== verification/PluginsSpec.v ===== *)
(** * Dispatch of messages and the way of an attribute to the server *)
From stdpp Require Import gmap.
From S2P Require Import Prelude CLib Queue QueueSpec QueueLap QueueWitnesses TxQueue Json Network NetworkWitnesses Daemon.
From S2P Require Import DaemonSpec DaemonNetwork DaemonWitnesses Plugins.
#[local] Open Scope string_scope.
#[local] Open Scope list_scope.
#[local] Open Scope Z_scope.

(** ** strcmp *)
Lemma strcmp_equal_spec s : forall p, Forall (fun b => b <> 0) s -> (length s < length p)%nat ->
  strcmp_equal s p = Val (bool_decide (take (Datatypes.S (length s)) p = s ++ [0])).
Proof.
  induction s as [|b s IH]; intros [|c p] Hs Hp; cbn [length] in *; try lia; cbn [strcmp_equal take].
  - cbn. f_equal. destruct (c =? 0) eqn:E; tests_to_props; [subst; now rewrite bool_decide_true|].
    rewrite bool_decide_false; [done|]. congruence.
  - apply Forall_cons_1 in Hs as [Hb Hs]. destruct (b =? c) eqn:E; tests_to_props.
    + subst c. rewrite (IH p Hs) by lia. f_equal. apply bool_decide_ext. cbn [app]. split; [congruence|].
      intros [= ->]. done.
    + f_equal. symmetry. apply bool_decide_eq_false. cbn [app]. congruence.
Qed.

(** ** Dispatch *)
Section Dispatch.
Context {G : Type}.

(** The message in [msg] of [size] bytes carries the plugin's signature, and the plugin
    takes messages. *)
Definition takes (msg : list Z) (size : Z) (p : sTicosdPluginDef G) : Prop :=
  (exists d h, fns p = Some (MkFns d (Some h))) /\ ipc_name p <> EmptyString /\
  zlen (bytes_of_string (ipc_name p)) < size /\
  take (Datatypes.S (length (bytes_of_string (ipc_name p)))) msg = bytes_of_string (ipc_name p) ++ [0].

(** Plugin names without a NUL, shorter than the buffer. *)
Definition names_ok (msg : list Z) (ps : list (sTicosdPluginDef G)) : Prop :=
  Forall (fun p => no_nul (ipc_name p) /\ (length (bytes_of_string (ipc_name p)) < length msg)%nat) ps.

Lemma process_ipc_skip p ps msg size : no_nul (ipc_name p) -> (length (bytes_of_string (ipc_name p)) < length msg)%nat ->
  ~ takes msg size p -> ticosd_plugins_process_ipc (p :: ps) msg size = ticosd_plugins_process_ipc ps msg size.
Proof.
    intros Hn Hl Ht. cbn [ticosd_plugins_process_ipc].
    destruct (fns p) as [[d [h|]]|] eqn:F; [|done..].
    destruct (String.eqb_spec (ipc_name p) EmptyString) as [|He]; [done|].
    destruct (size <=? zlen (bytes_of_string (ipc_name p))) eqn:Es; [done|]. tests_to_props.
    rewrite strcmp_equal_spec by done. rewrite bool_decide_false; [done|]. intros E. apply Ht. repeat split; eauto.
Qed.

Lemma process_ipc_take p ps msg size d h : no_nul (ipc_name p) ->
  (length (bytes_of_string (ipc_name p)) < length msg)%nat -> fns p = Some (MkFns d (Some h)) -> takes msg size p ->
  ticosd_plugins_process_ipc (p :: ps) msg size = (let* _ := h msg size in ret true).
Proof.
    intros Hn Hl F (_ & He & Hs & Hm). cbn [ticosd_plugins_process_ipc]. rewrite F.
    destruct (String.eqb_spec (ipc_name p) EmptyString) as [|_]; [done|].
    test_false (size <=? zlen (bytes_of_string (ipc_name p))).
    rewrite strcmp_equal_spec by done. now rewrite bool_decide_true.
Qed.

Lemma process_ipc_skips before ps msg size : names_ok msg before -> Forall (fun p => ~ takes msg size p) before ->
  ticosd_plugins_process_ipc (before ++ ps) msg size = ticosd_plugins_process_ipc ps msg size.
Proof.
    induction before as [|p before IH]; intros Hn Hb; [done|]. apply Forall_cons_1 in Hn as [[Hn Hl] Hn'].
    apply Forall_cons_1 in Hb as [Hp Hb]. cbn [app]. rewrite process_ipc_skip by done. now apply IH.
Qed.

(** a message goes to the first plugin whose signature it carries and to no other; the
    result is true even when that plugin fails.  Without such a plugin nothing happens and
    the result is false. *)
Theorem process_ipc_dispatches before ps msg size :
  names_ok msg (before ++ ps) -> Forall (fun p => ~ takes msg size p) before ->
  (ps = [] -> ticosd_plugins_process_ipc (before ++ ps) msg size = ret false) /\
  (forall p rest d h, ps = p :: rest -> takes msg size p -> fns p = Some (MkFns d (Some h)) ->
    ticosd_plugins_process_ipc (before ++ ps) msg size = (let* _ := h msg size in ret true)).
Proof.
    intros Hn Hb. apply Forall_app in Hn as [Hn Hn']. rewrite (process_ipc_skips before ps msg size Hn Hb). split.
    - now intros ->.
    - intros p rest d h -> Ht F. apply Forall_cons_1 in Hn' as [[Hp Hl] _]. now apply (process_ipc_take _ _ _ _ d h).
Qed.

(** ** A failed recvmsg *)
Lemma ipc_turn_datagram ps rx d (s : G) : 0 < zlen d <= RX_BUFFER_SIZE ->
  ipc_turn ps rx (Datagram d) s =
    (let buf := d ++ drop (length d) rx in
     let* _ := ticosd_plugins_process_ipc ps buf (zlen d) in ret buf) s.
Proof.
    unfold RX_BUFFER_SIZE. intros Hd. unfold ipc_turn. cbn [recvmsg]. rewrite take_ge by (unfold RX_BUFFER_SIZE; lia).
    rewrite u64_small by lia. now test_false (zlen d <=? 0).
Qed.

(** when recvmsg fails, for instance because a signal interrupts it, its -1 becomes the
    size 2^64-1, so the previous message, still in the buffer, is handled once more. *)
Theorem failed_recvmsg_replays before p rest rx d des h (s : G) :
  let ps := before ++ p :: rest in
  let buf := d ++ drop (length d) rx in
  0 < zlen d <= RX_BUFFER_SIZE -> names_ok buf ps -> fns p = Some (MkFns des (Some h)) ->
  Forall (fun p => forall size, ~ takes buf size p) before -> takes buf (zlen d) p ->
  ipc_turns ps rx [Datagram d; RecvError] s =
    (let* _ := h buf (zlen d) in let* _ := h buf (2 ^ 64 - 1) in ret buf) s.
Proof.
    intros ps buf Hd Hn F Hb Ht. apply Forall_app in Hn as [Hn1 Hn2]. apply Forall_cons_1 in Hn2 as [[Hp Hl] _].
    assert (Hskip : forall size, Forall (fun p => ~ takes buf size p) before).
    { intros size. eapply Forall_impl; [exact Hb|]. auto. }
    assert (D : forall size, takes buf size p -> ticosd_plugins_process_ipc ps buf size = (let* _ := h buf size in ret true)).
    { intros size Hs. unfold ps. rewrite process_ipc_skips by auto. now apply (process_ipc_take _ _ _ _ des). }
    cbn [ipc_turns]. unfold bind at 1. rewrite ipc_turn_datagram by done. fold buf. cbv zeta.
    rewrite (D (zlen d) Ht). unfold bind, ret. destruct (h buf (zlen d) s) as [[s1 r]| |]; [|done..]. cbn [obind].
    unfold ipc_turn. cbn [recvmsg]. change (u64 (-1)) with (2 ^ 64 - 1). test_false (2 ^ 64 - 1 <=? 0).
    rewrite D.
    - unfold bind, ret. now destruct (h buf (2 ^ 64 - 1) s1) as [[s2 r2]| |].
    - destruct Ht as (A & B & Hs & E). repeat split; auto. unfold RX_BUFFER_SIZE in Hd. lia.
Qed.
End Dispatch.

(** ** Attributes *)

(** The message ticosctl sends: the name with its NUL, padding, the time, the text. *)
Definition attributes_message (padding : list Z) (timestamp : Z) (json : string) : list Z :=
  bytes_of_string ATTRIBUTES_IPC_NAME ++ [0] ++ padding ++ le_bytes 8 timestamp ++ bytes_of_string json ++ [0].

(** The entry that ends up in the queue. *)
Definition attributes_entry (timestamp : Z) (json : string) : list Z :=
  kTicosdTxDataType_Attributes :: le_bytes 8 timestamp ++ bytes_of_string json ++ [0].

Lemma i64_le_bytes t : - 2 ^ 63 <= t < 2 ^ 63 -> i64 (le_val (le_bytes 8 t)) = t.
Proof.
    intros Ht. rewrite le_val_le_bytes. change (256 ^ Z.of_nat 8) with (2 ^ 64). unfold i64, swrap.
    change (2 ^ (64 - 1)) with (2 ^ 63). rewrite Zplus_mod_idemp_l. rewrite Z.mod_small; lia.
Qed.

Section AttributesSpec.
Context {Q C W : Type} `{TxQueue Q, ConfigOps C, NetworkOps W}.
Abbreviation S := (sTicosd Q C W).
Variables (padding : list Z) (timestamp : Z) (json : string) (rest : list Z).
Hypothesis Hpad : zlen padding = 5.
Hypothesis Hjson : no_nul json.

Let msg := attributes_message padding timestamp json ++ rest.

Lemma message_parts : msg = (bytes_of_string ATTRIBUTES_IPC_NAME ++ [0] ++ padding) ++ le_bytes 8 timestamp ++
  bytes_of_string json ++ 0 :: rest.
Proof. unfold msg, attributes_message. now rewrite <- !app_assoc. Qed.

Lemma prefix_length : zlen (bytes_of_string ATTRIBUTES_IPC_NAME ++ [0] ++ padding) = attributes_timestamp_offset.
Proof. rewrite !length_app, !Nat2Z.inj_add, Hpad. reflexivity. Qed.

Lemma message_timestamp : load msg attributes_timestamp_offset 8 = Val (le_bytes 8 timestamp).
Proof.
    rewrite message_parts, <- prefix_length. rewrite load_after.
    - reflexivity.
    - rewrite length_app, le_bytes_length. lia.
Qed.

Lemma message_json : ipc_json msg = Val json.
Proof.
    unfold ipc_json. rewrite message_parts, app_assoc.
    assert (L : zlen ((bytes_of_string ATTRIBUTES_IPC_NAME ++ [0] ++ padding) ++ le_bytes 8 timestamp) = sizeof_sTicosAttributesIPC)
      by (rewrite length_app, Nat2Z.inj_add, prefix_length, le_bytes_length; reflexivity).
    set (pre := (bytes_of_string ATTRIBUTES_IPC_NAME ++ [0] ++ padding) ++ le_bytes 8 timestamp) in *.
    assert (T : zlen (bytes_of_string json ++ 0 :: rest) =
      zlen (pre ++ bytes_of_string json ++ 0 :: rest) - sizeof_sTicosAttributesIPC)
      by (rewrite (length_app pre), Nat2Z.inj_add, L; lia).
    rewrite <- T, <- L, load_after by lia. cbn [obind]. rewrite take_ge by lia. now apply c_string_of_bytes.
Qed.

(** The handler queues the entry. *)
Lemma attributes_queued size (s : S) : head (mallocs s) <> Some false ->
  zlen (bytes_of_string json) < 2 ^ 32 - 10 ->
  prv_msg_handler msg size s =
    ticosd_txdata (Some (attributes_entry timestamp json)) (zlen (attributes_entry timestamp json) - 1)
      (heap_set (tail (mallocs s)) s).
Proof.
    intros Hal Hlen. unfold prv_msg_handler, prv_build_queue_entry. unfold bind at 1. unfold lift at 1, bind at 1.
    rewrite message_json. cbn [obind]. unfold malloc_ok, bind at 1. cbn [heap_get daemon_heap].
    assert (E : u32 (8 + zlen (bytes_of_string json) + 1) = zlen (attributes_entry timestamp json) - 1).
    { rewrite u32_small by lia. unfold attributes_entry. cbn [length]. rewrite !length_app, le_bytes_length. cbn [length]. lia. }
    rewrite E. assert (K : (exists q w c d t v al, s = MkTicosd q w c d t v al /\ (al = [] \/ exists al', al = true :: al'))).
    { destruct s as [q w c d t v [|[] al]]; cbn in Hal; [..|done]; repeat eexists; eauto. }
    destruct K as (q & w & c & d & t & v & al & -> & K).
    destruct K as [->|[al' ->]]; cbn [mallocs negb tail]; unfold lift, bind; rewrite message_timestamp; reflexivity.
Qed.

Definition attributes_endpoint (device_id iso : string) : string :=
  "/api/v0/attributes?device_serial=" +:+ device_id +:+ "&captured_date=" +:+ iso.

Lemma entry_sent iso (s : S) : - 2 ^ 63 <= timestamp < 2 ^ 63 -> strftime_iso timestamp = Val iso ->
  head (mallocs s) <> Some false ->
  send_entry (attributes_entry timestamp json) s =
    on_network (fun w => network_post w (attributes_endpoint (device_id (dsettings s)) iso) kTicosdHttpMethod_PATCH (Some json))
      (heap_set (tail (mallocs s)) s).
Proof.
    clear msg padding rest Hpad. intros Ht Hiso Hal. unfold send_entry. set (tail_bytes := le_bytes 8 timestamp ++ bytes_of_string json ++ [0]).
    assert (E : attributes_entry timestamp json = [kTicosdTxDataType_Attributes] ++ tail_bytes) by reflexivity.
    assert (L1 : load (attributes_entry timestamp json) 1 8 = Val (le_bytes 8 timestamp)).
    { rewrite E. rewrite (load_after [kTicosdTxDataType_Attributes]); [reflexivity|].
      unfold tail_bytes. rewrite length_app, le_bytes_length. lia. }
    assert (L2 : entry_string (attributes_entry timestamp json) 9 = Val json).
    { set (pre := kTicosdTxDataType_Attributes :: le_bytes 8 timestamp).
      assert (E' : attributes_entry timestamp json = pre ++ bytes_of_string json ++ [0]) by reflexivity.
      unfold entry_string. rewrite E'. replace 9 with (zlen pre) by (unfold pre; cbn [length]; now rewrite le_bytes_length).
      rewrite load_after by (rewrite !length_app; lia). cbn [obind]. rewrite take_ge by (rewrite !length_app; lia).
      now apply c_string_of_bytes. }
    assert (L0 : load8 (attributes_entry timestamp json) 0 = Val kTicosdTxDataType_Attributes).
    { apply load8_bytes_at. repeat split; cbn [attributes_entry length]; try lia. intros [|i] Hi; [done|lia]. }
    unfold lift at 1, bind at 1. rewrite L0.
    cbn [obind]. transitivity (send_attributes (attributes_entry timestamp json) s); [reflexivity|].
    unfold send_attributes. unfold lift at 1, bind at 1. rewrite L1. cbn [obind]. rewrite i64_le_bytes by done.
    unfold lift at 1, bind at 1. rewrite Hiso. cbn [obind].
    assert (P : vsprintf "/api/v0/attributes?device_serial=%s&captured_date=%s"
      [ArgS (Some (device_id (dsettings s))); ArgS (Some iso)] = Val (attributes_endpoint (device_id (dsettings s)) iso))
      by (cbn; now rewrite string_app_nil_r).
    rewrite (bind_val _ _ _ _ _ (device_path_val _ _ s _ P)).
    replace (default true (head (mallocs s))) with true by (destruct (head (mallocs s)) as [[]|]; done).
    unfold lift, bind. now rewrite L2.
Qed.
End AttributesSpec.

(** C27: an attributes message reaches the server: the plugin turns it into a queue entry, and
    when the daemon takes that entry it sends the same JSON text with PATCH, dated with the
    message's time. *)
Theorem attributes_roundtrip {Q C W : Type} `{TxQueue Q, ConfigOps C, NetworkOps W}
    padding timestamp json rest iso size (s s' : sTicosd Q C W) :
  zlen padding = 5 -> no_nul json -> zlen (bytes_of_string json) < 2 ^ 32 - 10 ->
  - 2 ^ 63 <= timestamp < 2 ^ 63 -> strftime_iso timestamp = Val iso ->
  mallocs s = [] -> mallocs s' = [] ->
  let entry := attributes_entry timestamp json in
  prv_msg_handler (attributes_message padding timestamp json ++ rest) size s =
    ticosd_txdata (Some entry) (zlen entry - 1) s /\
  send_entry entry s' =
    on_network (fun w => network_post w (attributes_endpoint (device_id (dsettings s')) iso) kTicosdHttpMethod_PATCH (Some json)) s'.
Proof.
  intros Hp Hj Hl Ht Hi Hs Hs' entry.
  assert (K : heap_set [] s = s) by (destruct s; cbn in *; now subst).
  assert (K' : heap_set [] s' = s') by (destruct s'; cbn in *; now subst). split.
  - rewrite attributes_queued; rewrite ?Hs; try done. cbn [tail]. now rewrite K.
  - unfold entry. rewrite (entry_sent timestamp json Hj iso); rewrite ?Hs'; try done. cbn [tail]. now rewrite K'.
Qed.

(** ** Messages on a concrete daemon

    The attributes plugin, loaded into the table, receives one message and then an error. *)

Abbreviation daemon := (sTicosd shared_queue sample_config (net_state steady)).

Definition idle_device : daemon := set_queue (MkShared (empty_queue true 256) []) (device 200).

(** The plugin after loading. *)
Definition loaded_attributes : sTicosdPluginDef daemon :=
  set_fns (Some (MkFns None (Some prv_msg_handler))) attributes_plugin.

Example loading : ticosd_load_plugins [attributes_plugin] idle_device = Val (idle_device, [loaded_attributes]).
Proof. reflexivity. Qed.

Definition sample_message : list Z := attributes_message [0; 0; 0; 0; 0] 1669807440 "[1]".
Definition sample_rx : list Z := zeros RX_BUFFER_SIZE.
Definition sample_buffer : list Z := sample_message ++ drop (length sample_message) sample_rx.

Lemma sample_takes size : 10 < size -> takes sample_buffer size loaded_attributes.
Proof.
  intros Hs. split; [|split; [|split]].
  - now exists None, prv_msg_handler.
  - discriminate.
  - exact Hs.
  - vm_compute. reflexivity.
Qed.

Lemma sample_names : names_ok sample_buffer [loaded_attributes].
Proof.
  apply Forall_cons_2; [|apply Forall_nil_2]. split.
  - unfold no_nul. cbn. repeat (apply Forall_cons_2; [discriminate|]). apply Forall_nil_2.
  - apply Nat.ltb_lt. vm_compute. reflexivity.
Qed.

Lemma process_ipc_dispatches_witness :
  ([loaded_attributes] = [] -> ticosd_plugins_process_ipc [loaded_attributes] sample_buffer 28 = ret false) /\
  (forall p rest d h, [loaded_attributes] = p :: rest -> takes sample_buffer 28 p -> fns p = Some (MkFns d (Some h)) ->
    ticosd_plugins_process_ipc [loaded_attributes] sample_buffer 28 = (let* _ := h sample_buffer 28 in ret true)).
Proof. exact (process_ipc_dispatches [] [loaded_attributes] sample_buffer 28 sample_names (Forall_nil_2 _)). Defined.

Lemma failed_recvmsg_replays_witness :
  ipc_turns [loaded_attributes] sample_rx [Datagram sample_message; RecvError] idle_device =
    (let* _ := prv_msg_handler sample_buffer 28 in let* _ := prv_msg_handler sample_buffer (2 ^ 64 - 1) in ret sample_buffer)
      idle_device.
Proof.
  refine (failed_recvmsg_replays [] loaded_attributes [] sample_rx sample_message None prv_msg_handler idle_device
    _ sample_names eq_refl (Forall_nil_2 _) (sample_takes _ _)); vm_compute; split || reflexivity; congruence.
Defined.

(** The same attributes are in the queue twice. *)
Example attributes_twice :
  (let! (s, _) := ipc_turns [loaded_attributes] sample_rx [Datagram sample_message; RecvError] idle_device in
   let! (q, e1) := queue_read_head (queue s) in
   let! (q, _) := queue_complete_read q in
   let! (_, e2) := queue_read_head q in Val (e1, e2)) =
  Val (Some (attributes_entry 1669807440 "[1]"), Some (attributes_entry 1669807440 "[1]")).
Proof. vm_compute. reflexivity. Qed.

Lemma attributes_roundtrip_witness :
  let entry := attributes_entry 1669807440 "[1]" in
  prv_msg_handler (attributes_message [0; 0; 0; 0; 0] 1669807440 "[1]" ++ [7]) 28 idle_device =
    ticosd_txdata (Some entry) (zlen entry - 1) idle_device /\
  send_entry entry idle_device =
    on_network (fun w => network_post w (attributes_endpoint (device_id (dsettings idle_device)) "2022-11-30T11:24:00Z")
      kTicosdHttpMethod_PATCH (Some "[1]")) idle_device.
Proof.
  refine (attributes_roundtrip [0; 0; 0; 0; 0] 1669807440 "[1]" [7] "2022-11-30T11:24:00Z" 28 idle_device idle_device
    eq_refl _ eq_refl _ _ eq_refl eq_refl).
  - unfold no_nul. cbn. repeat (apply Forall_cons_2; [discriminate|]). apply Forall_nil_2.
  - split; [discriminate|reflexivity].
  - vm_compute. reflexivity.
Defined.
