(* ===== verification/Startup.v ===== *)
(** * Starting the daemon ([ticosd_main] of src/ticosd.c)

    From the options to the main loop.  What other components and the operating system answer
    is in [startup_env]; [exit] ends the program with the configuration it leaves behind. *)
From stdpp Require Import gmap.
From S2P Require Import Prelude CLib Network TxQueue Daemon Plugins.
#[local] Open Scope string_scope.
#[local] Open Scope list_scope.
#[local] Open Scope Z_scope.

Definition EXIT_SUCCESS : Z := 0.
Definition EXIT_FAILURE : Z := 1.
Definition CONFIG_FILE : string := "/etc/ticosd.conf".

(** ** Options *)

(** The locals the options set. *)
Record options := MkOptions {
  daemonize : bool;
  enable_comms : bool;
  disable_comms : bool;
  display_config : bool;
  enable_devmode : bool;
  disable_devmode : bool;
  config_file : string }.

Definition no_options : options := MkOptions false false false false false false CONFIG_FILE.

(** What getopt_long returns: the option's letter and its argument. *)
Definition opt : Type := ascii * string.

(** One turn of the option loop: the new locals, or the exit code. *)
Definition parse_option (o : options) (opt : opt) : options + Z :=
  let '(letter, optarg) := opt in
  let 'MkOptions z e d s M m c := o in
  match letter with
  | "c"%char => inl (MkOptions z e d s M m optarg)
  | "d"%char => inl (MkOptions z e true s M m c)
  | "e"%char => inl (MkOptions z true d s M m c)
  | "h"%char => inr EXIT_SUCCESS
  | "s"%char => inl (MkOptions z e d true M m c)
  | "v"%char => inr EXIT_SUCCESS
  | "Z"%char => inl (MkOptions true e d s M m c)
  | "M"%char => inl (MkOptions z e d s true m c)
  | "m"%char => inl (MkOptions z e d s M true c)
  | _ => inr EXIT_FAILURE
  end.

Fixpoint parse_options (o : options) (argv : list opt) : options + Z :=
  match argv with
  | [] => inl o
  | a :: argv =>
      match parse_option o a with
      | inl o => parse_options o argv
      | inr code => inr code
      end
  end.

(** ** The data directory *)

(** The directory mkdir is called with, if it is; [is_dir] is what stat says. *)
Definition ticosd_create_data_dir `{ConfigOps C} (c : C) (is_dir : string -> bool) : option string :=
  match ticosd_config_get_string c (Some EmptyString) "data_dir" with
  | Some data_dir =>
      if String.eqb data_dir EmptyString then None
      else if is_dir data_dir then None else Some data_dir
  | None => None
  end.

(** ** The sequence *)
Section Startup.
Context {G Q C W : Type} `{TxQueue Q, ConfigOps C, NetworkOps W}.
Abbreviation S := (sTicosd Q C W).

Record startup_env := MkStartupEnv {
  config_init : string -> option C;              (** ticosd_config_init *)
  is_dir : string -> bool;                       (** stat says it is a directory *)
  set_and_reload : C -> string -> bool -> C * Z; (** ticos_set_runtime_bool_and_reload *)
  settings_init : option sTicosdDeviceSettings;  (** ticosd_device_settings_init *)
  pid_file : bool;                               (** ticosd_check_for_pid_file *)
  queue_init : Z -> option Q;                    (** ticosd_queue_init *)
  network_init : sTicosdDeviceSettings -> C -> option W;
  load_plugins : S -> outcome (G * list (sTicosdPluginDef G));   (** ticosd_load_plugins *)
  daemonize_ok : bool;                           (** prv_ticosd_daemonize_process *)
  pthread_ok : bool }.

(** The program exits, or enters its main loop with the device as the plugins have left it and
    their table. *)
Inductive startup_result :=
| Exited (code : Z) (config : option C)
| Running (world : G) (g_plugins : list (sTicosdPluginDef G)).

(** [queue_size * 1024] as an int. *)
Definition queue_bytes (kib : Z) : outcome Z := int_mul kib 1024.

(** [s_handle->queue] and what follows it, once the settings are there. *)
Definition start_services (env : startup_env) (o : options) (c : C) (settings : sTicosdDeviceSettings) : outcome startup_result :=
  let fail := Val (Exited EXIT_FAILURE (Some c)) in
  let queue_size := default 0 (ticosd_config_get_integer c None "queue_size_kib") in
  let! bytes := queue_bytes queue_size in
  match queue_init env bytes with
  | None => fail
  | Some q =>
      let allowed := default false (ticosd_config_get_boolean c None "enable_data_collection") in
      let! q := (if allowed : bool then Val q else queue_reset q) in
      match network_init env settings c with
      | None => fail
      | Some w =>
          let dev := default false (ticosd_config_get_boolean c None "enable_dev_mode") in
          let! (g, g_plugins) := load_plugins env (MkTicosd q w c settings false dev []) in
          if daemonize o && negb (daemonize_ok env) then fail
          else if negb (pthread_ok env) then fail
          else Val (Running g g_plugins)
      end
  end.

(** What follows once the configuration is read and the data directory made. *)
Definition after_config (env : startup_env) (o : options) (c : C) : outcome startup_result :=
  if enable_comms o || disable_comms o then
    if enable_comms o && disable_comms o then Val (Exited EXIT_FAILURE (Some c))
    else
      let '(c, code) := set_and_reload env c "enable_data_collection" (enable_comms o) in
      Val (Exited code (Some c))
  else if enable_devmode o || disable_devmode o then
    if enable_devmode o && disable_devmode o then Val (Exited EXIT_FAILURE (Some c))
    else
      let '(c, code) := set_and_reload env c "enable_dev_mode" (enable_devmode o) in
      Val (Exited code (Some c))
  else
    match settings_init env with
    | None => Val (Exited EXIT_FAILURE (Some c))
    | Some settings =>
        if display_config o then Val (Exited EXIT_SUCCESS (Some c))
        else if negb (daemonize o) && pid_file env then Val (Exited EXIT_FAILURE (Some c))
        else start_services env o c settings
    end.

(** [calloc_ok]: the handle is used without a check.  The first result is the directory that
    was made. *)
Definition ticosd_main (env : startup_env) (calloc_ok : bool) (argv : list opt) : outcome (option string * startup_result) :=
  match parse_options no_options argv with
  | inr code => Val (None, Exited code None)
  | inl o =>
      if negb calloc_ok then Fault
      else
        match config_init env (config_file o) with
        | None => Val (None, Exited EXIT_FAILURE None)
        | Some c =>
            let! result := after_config env o c in
            Val (ticosd_create_data_dir c (is_dir env), result)
        end
  end.
(** ** Properties *)

(** Two contradicting options among others that only set flags. *)
Lemma parse_options_flags argv : forall o o', parse_options o argv = inl o' ->
  enable_comms o' = enable_comms o || existsb (fun a => Ascii.eqb (fst a) "e") argv /\
  disable_comms o' = disable_comms o || existsb (fun a => Ascii.eqb (fst a) "d") argv /\
  enable_devmode o' = enable_devmode o || existsb (fun a => Ascii.eqb (fst a) "M") argv /\
  disable_devmode o' = disable_devmode o || existsb (fun a => Ascii.eqb (fst a) "m") argv.
Proof.
    induction argv as [|[l a] argv IH]; intros o o'; cbn [parse_options existsb].
    - intros [= <-]. now rewrite !orb_false_r.
    - destruct (parse_option o (l, a)) as [o1|] eqn:E; [|done]. intros E'. specialize (IH o1 o' E').
      destruct IH as (-> & -> & -> & ->). rewrite !orb_assoc. revert E. destruct o as [z e d s M m c]. cbn [parse_option fst].
      destruct l as [[] [] [] [] [] [] [] []]; try discriminate; intros [= <-]; cbn; rewrite ?orb_false_r, ?orb_true_r; auto.
Qed.

(** contradicting options end the program with a failure and change nothing; an option to
    switch data collection does just that, with the exit code of the change, and does not
    start the daemon. *)
Theorem collection_options env argv o c : parse_options no_options argv = inl o -> config_init env (config_file o) = Some c ->
  let asked l := existsb (fun a => Ascii.eqb (fst a) l) argv in
  let result r := ticosd_main env true argv = Val (ticosd_create_data_dir c (is_dir env), r) in
  (asked "e"%char = true -> asked "d"%char = true -> result (Exited EXIT_FAILURE (Some c))) /\
  (asked "e"%char = false -> asked "d"%char = false -> asked "M"%char = true -> asked "m"%char = true ->
     result (Exited EXIT_FAILURE (Some c))) /\
  (asked "e"%char <> asked "d"%char ->
     result (Exited (set_and_reload env c "enable_data_collection" (asked "e"%char)).2
                    (Some (set_and_reload env c "enable_data_collection" (asked "e"%char)).1))).
Proof.
    intros Hp Hc asked result. destruct (parse_options_flags argv no_options o Hp) as (He & Hd & HM & Hm).
    cbn [no_options enable_comms disable_comms enable_devmode disable_devmode orb] in He, Hd, HM, Hm.
    unfold result, ticosd_main. rewrite Hp, Hc. cbn [negb]. unfold after_config. rewrite He, Hd, HM, Hm.
    fold (asked "e"%char) (asked "d"%char) (asked "M"%char) (asked "m"%char). split; [|split].
    - intros -> ->. done.
    - intros -> -> -> ->. done.
    - intros Hne. replace (asked "e"%char || asked "d"%char) with true by (destruct (asked "e"%char), (asked "d"%char); done).
      replace (asked "e"%char && asked "d"%char) with false by (destruct (asked "e"%char), (asked "d"%char); done).
      now destruct (set_and_reload env c "enable_data_collection" (asked "e"%char)).
Qed.
End Startup.
