(* ===== verification/StartupSpec.v ===== *)
(** * A device that opts out of data collection

    Starting without consent empties the queue. *)
From stdpp Require Import gmap.
From S2P Require Import Prelude CLib Queue QueueSpec QueueLap QueueWitnesses TxQueue Network NetworkWitnesses Daemon DaemonSpec DaemonWitnesses.
From S2P Require Import Plugins Startup.
#[local] Open Scope string_scope.
#[local] Open Scope list_scope.
#[local] Open Scope Z_scope.

(** ** Resetting the queue *)
Lemma reset_header q : queue_ok q -> exists b, store (buf q) 0 (zeros 12) = Val b /\ zlen b = zlen (buf q) /\ bytes_ok b /\
  b @ 0 ↦ zeros 12.
Proof.
  intros Hq. pose proof (queue_words q Hq) as (HL & Hsz & _). destruct Hq as (Hs & _ & _ & Hb & _).
  unfold QUEUE_SIZE_MIN in Hs. destruct (store_spec (buf q) 0 (zeros 12)) as (b & E & L & A & _); try (rewrite ?zeros_length; lia).
  exists b. split; [exact E|]. split; [exact L|]. split; [|exact A].
  eapply store_bytes_ok; [exact E|exact Hb|apply zeros_ok].
Qed.

Lemma reset_forgets q : queue_ok q -> exists q', ticosd_queue_reset q = Val q' /\ queue_ok q' /\
  read_ptr q' = 0 /\ write_ptr q' = 0 /\ forall ok, ticosd_queue_read_head ok q' = Val (q', None).
Proof.
  intros Hq. pose proof (queue_words q Hq) as (HL & Hsz & _). destruct (reset_header q Hq) as (b & E & L & Hb & A).
  unfold ticosd_queue_reset. change (HEADER_LEN * 4) with 12. cbn [buf set_prev_ptr set_write_ptr set_read_ptr]. rewrite E.
  eexists. split; [reflexivity|]. destruct Hq as (Hs & Hm & Hlen & _ & _). split; [|split; [done|split; [done|]]].
  - split; [exact Hs|]. split; [exact Hm|]. split; [cbn; lia|]. split; [exact Hb|]. cbn. unfold QUEUE_SIZE_MIN in Hs. lia.
  - intros ok. unfold ticosd_queue_read_head. cbn [read_ptr write_ptr set_buf set_prev_ptr set_write_ptr set_read_ptr].
    change (0 =? 0) with true. cbv iota. unfold prv_is_msg_valid, prv_is_msg_in_bounds, header_payload_size_bytes, header_magic.
    cbn [buf size set_buf set_prev_ptr set_write_ptr set_read_ptr].
    assert (P : load32 b (4 * 0 + 8) = Val 0).
    { apply load32_bytes_at; [|lia]. apply (zeros_sub b 0 12 8 4 A); lia. }
    assert (G : load8 b (4 * 0) = Val 0) by (apply load8_bytes_at, (zeros_sub b 0 12 0 1 A); lia).
    rewrite P. cbn [obind]. unfold QUEUE_SIZE_MIN in Hs. test_true ((4 * 0 >=? 0) && (4 * 0 + 12 + 0 <? size q)). cbn [negb].
    rewrite G. reflexivity.
Qed.

(** ** Starting without consent *)
Section OptOut.
Context {G C W : Type} `{ConfigOps C, NetworkOps W}.

(** The plugins are loaded into a daemon whose queue has forgotten what an earlier run queued. *)
Lemma start_services_off (env : startup_env (G := G) (Q := shared_queue) (C := C) (W := W)) o c settings g g_plugins :
  ticosd_config_get_boolean c None "enable_data_collection" <> Some true ->
  (forall n q, queue_init env n = Some q -> queue_ok (shared q) /\ schedule q = []) ->
  start_services env o c settings = Val (Running g g_plugins) ->
  exists q w dev, queue_read_head q = Val (q, None) /\ network_init env settings c = Some w /\
    load_plugins env (MkTicosd q w c settings false dev []) = Val (g, g_plugins).
Proof.
  intros Hc Hq. unfold start_services. destruct (queue_bytes _) as [n| |]; [|done..]. cbn [obind].
  destruct (queue_init env n) as [q|] eqn:Eq; [|done]. destruct (Hq n q Eq) as [Hok Hsch].
  replace (default false (ticosd_config_get_boolean c None "enable_data_collection")) with false
    by (destruct (ticosd_config_get_boolean c None "enable_data_collection") as [[]|]; done).
  destruct (reset_forgets (shared q) Hok) as (q1 & Er & _ & _ & _ & Hread).
  cbn. unfold others. rewrite Hsch. cbn. rewrite Er. cbn. destruct (network_init env settings c) as [w|]; [|done].
  set (dev := default false (ticosd_config_get_boolean c None "enable_dev_mode")).
  destruct (load_plugins env _) as [[g1 ps]| |] eqn:El; [|done..]. cbn [obind].
  destruct (daemonize o && negb (daemonize_ok env)); [done|]. destruct (negb (pthread_ok env)); [done|].
  intros R. apply Val_inj in R. injection R as <- <-. eexists _, w, dev. split; [|split; [done|exact El]].
  cbn. now rewrite Hread.
Qed.
End OptOut.

(** ** Starting a concrete device *)

(** An earlier run left an entry in the queue. *)
Definition old_queue : shared_queue := MkShared (queue_after 256 [OpWrite reboot_entry]) [].

Definition sample_env (consent : bool) : startup_env (G := sTicosd shared_queue sample_config (net_state steady)) (Q := shared_queue) (C := sample_config) (W := net_state steady) :=
  MkStartupEnv (fun _ => Some (MkSampleConfig consent 3600)) (fun _ => true)
    (fun c key v => (if String.eqb key "enable_data_collection" then MkSampleConfig v (refresh c) else c, 0))
    (Some (MkSettings "dev" "hw")) false (fun _ => Some old_queue)
    (fun st c => Some (MkNet sample_network [] sample_disk (MkSteady 200))) (fun s => Val (s, [])) true true.

Lemma collection_options_witness :
  let argv := [("e"%char, EmptyString)] in
  let o := MkOptions false true false false false false CONFIG_FILE in
  let env := sample_env false in
  let c := MkSampleConfig false 3600 in
  let asked l := existsb (fun a => Ascii.eqb (fst a) l) argv in
  let result r := ticosd_main env true argv = Val (ticosd_create_data_dir c (is_dir env), r) in
  (asked "e"%char = true -> asked "d"%char = true -> result (Exited EXIT_FAILURE (Some c))) /\
  (asked "e"%char = false -> asked "d"%char = false -> asked "M"%char = true -> asked "m"%char = true ->
     result (Exited EXIT_FAILURE (Some c))) /\
  (asked "e"%char <> asked "d"%char ->
     result (Exited (set_and_reload env c "enable_data_collection" (asked "e"%char)).2
                    (Some (set_and_reload env c "enable_data_collection" (asked "e"%char)).1))).
Proof.
  exact (collection_options (sample_env false) [("e"%char, EmptyString)]
    (MkOptions false true false false false false CONFIG_FILE) (MkSampleConfig false 3600) eq_refl eq_refl).
Defined.
