(* ===== verification/RebootReason.v ===== *)
(** * Reboot reasons (src/util/reboot_reason.c, include/ticos/core/reboot_reason_types.h) *)
From S2P Require Import Prelude CLib.
#[local] Open Scope string_scope.
#[local] Open Scope list_scope.
#[local] Open Scope Z_scope.

(** An eTicosRebootReason holds any value of an unsigned int; these are the constants. *)
Definition kTicosRebootReason_Unknown : Z := 0.
Definition kTicosRebootReason_UserReset : Z := 2.
Definition kTicosRebootReason_FirmwareUpdate : Z := 3.
Definition kTicosRebootReason_KernelPanic : Z := 0x8008.

(** Every constant of the enumeration with its name. *)
Definition eTicosRebootReason : list (Z * string) := [
  (kTicosRebootReason_Unknown, "Unknown"); (1, "UserShutdown"); (kTicosRebootReason_UserReset, "UserReset");
  (kTicosRebootReason_FirmwareUpdate, "FirmwareUpdate"); (4, "LowPower"); (5, "DebuggerHalted"); (6, "ButtonReset");
  (7, "PowerOnReset"); (8, "SoftwareReset"); (9, "DeepSleep"); (0xA, "PinReset");
  (0x8000, "UnknownError"); (0x8001, "Assert"); (0x8002, "WatchdogDeprecated"); (0x8003, "BrownOutReset"); (0x8004, "Nmi");
  (0x8005, "HardwareWatchdog"); (0x8006, "SoftwareWatchdog"); (0x8007, "ClockFailure");
  (kTicosRebootReason_KernelPanic, "KernelPanic"); (0x8009, "FirmwareUpdateError");
  (0x9100, "BusFault"); (0x9200, "MemFault"); (0x9300, "UsageFault"); (0x9400, "HardFault"); (0x9401, "Lockup") ].

(** Both switches list every constant. *)
Definition ticosd_is_reboot_reason_valid (reboot_reason : Z) : bool :=
  existsb (fun c => fst c =? reboot_reason) eTicosRebootReason.

Definition ticosd_reboot_reason_str (reboot_reason : Z) : string :=
  match find (fun c => fst c =? reboot_reason) eTicosRebootReason with
  | Some (_, name) => name
  | None => "???"
  end.

(** Only the constants have a name, and every name belongs to one constant. *)
Lemma reason_str_valid r : ticosd_is_reboot_reason_valid r = true <-> ticosd_reboot_reason_str r <> "???".
Proof.
  unfold ticosd_is_reboot_reason_valid, ticosd_reboot_reason_str. split.
  - intros (c & Hin & Hc)%existsb_exists. destruct (find _ _) as [[r' n]|] eqn:F.
    + apply find_some in F as [F _]. revert F. cbn. intros F.
      repeat (destruct F as [F|F]; [injection F as <- <-; discriminate|]). destruct F.
    + apply (find_none _ _ F) in Hin. congruence.
  - destruct (find _ _) as [[r' n]|] eqn:F; [|done]. apply find_some in F as [F E]. intros _.
    apply existsb_exists. now exists (r', n).
Qed.

Lemma reason_str_inj r1 r2 : ticosd_is_reboot_reason_valid r1 = true -> ticosd_reboot_reason_str r1 = ticosd_reboot_reason_str r2 -> r1 = r2.
Proof.
  intros V E. assert (V2 : ticosd_is_reboot_reason_valid r2 = true) by (rewrite reason_str_valid in *; congruence).
  revert V V2 E. unfold ticosd_is_reboot_reason_valid. cbn [existsb eTicosRebootReason fst].
  intros V V2. rewrite !orb_true_iff, !Z.eqb_eq in V, V2.
  repeat (destruct V as [<-|V]; [repeat (destruct V2 as [<-|V2]; [reflexivity || discriminate|]); discriminate|]). discriminate.
Qed.

(** The constants fit an int, so printing one and scanning it gives it back. *)
Lemma reason_small r : ticosd_is_reboot_reason_valid r = true -> 0 <= r < 2 ^ 16.
Proof.
  unfold ticosd_is_reboot_reason_valid. cbn [existsb eTicosRebootReason fst]. rewrite !orb_true_iff, !Z.eqb_eq.
  intros V. repeat (destruct V as [<-|V]; [vm_compute; split; congruence|]). discriminate.
Qed.
