(* ===== verification/Reboot.v ===== *)
(** * The reboot plugin (src/plugins/reboot/, src/util/linux_boot_id.c)

    At most once per boot the plugin queues an event with the reason of the last reboot, which
    it finds in one of three places; when the system stops it leaves a reason for the next
    boot.  It acts on the daemon and on the files of the device.  What systemd, U-Boot and the
    operating system answer is in [reboot_env]. *)
From stdpp Require Import gmap.
From S2P Require Import Prelude CLib Network TxQueue Daemon Plugins RebootReason.
#[local] Open Scope string_scope.
#[local] Open Scope list_scope.
#[local] Open Scope Z_scope.

Definition FWENV_CONFIG_FILE : string := "/etc/fw_env.config".
Definition PSTORE_DMESG_FILE : string := "/sys/fs/pstore/dmesg-ramoops-0".
Definition UUID_STR_LEN : Z := 37.

(** ** linux_boot_id.c *)

(** The system's boot id: open or read fails, or what the file holds. *)
Inductive boot_id_file :=
| BootIdOpenError
| BootIdReadError
| BootIdBytes (bytes : list Z).

(** The buffer, [None] for false. *)
Definition ticos_linux_boot_id_read (f : boot_id_file) : option (list Z) :=
  match f with
  | BootIdOpenError | BootIdReadError => None
  | BootIdBytes bytes =>
      let buf := take (Z.to_nat (UUID_STR_LEN - 1)) bytes in
      if negb (zlen buf =? UUID_STR_LEN - 1) then None else Some (buf ++ [0])
  end.

(** ** reboot_last_boot_id.c *)

(** The answers of the calls on the file; [flushed] tells whether fclose can write what fputs
    buffered, which the code does not look at. *)
Record id_file_env := MkIdFileEnv {
  id_fopen : bool;
  id_fseek : bool;
  id_ftruncate : bool;
  id_fseek_again : bool;
  id_fputs : bool;
  flushed : bool }.

(** The array [tracked_boot_id] after the call, which starts out zero, and the result. *)
Definition prv_read_tracked_boot_id (env : id_file_env) (content : list Z) : list Z * bool :=
  if negb (id_fseek env) then (zeros UUID_STR_LEN, false)
  else
    let got := take (Z.to_nat (UUID_STR_LEN - 1)) content in
    if negb (zlen got =? UUID_STR_LEN - 1) then (0 :: tail (got ++ zeros (UUID_STR_LEN - zlen got)), false)
    else (got ++ [0], true).

(** The contents of the file after the call. *)
Definition prv_write_current_boot_id (env : id_file_env) (current_boot_id : string) (content : list Z) : list Z * bool :=
  if negb (id_ftruncate env) then (content, false)
  else if negb (id_fseek_again env) then ([], false)
  else if negb (id_fputs env) then ([], false)
  else (if flushed env then bytes_of_string current_boot_id else [], true).

(** Opening with "a+" creates the file. *)
Definition ticos_reboot_is_untracked_boot_id (env : id_file_env) (last_tracked_boot_id_file : string)
    (current_boot_id : list Z) (fs : files) : outcome (files * bool) :=
  if negb (id_fopen env) then Val (fs, false)
  else
    let content := default [] (fs !! last_tracked_boot_id_file) in
    let '(tracked_boot_id, _) := prv_read_tracked_boot_id env content in
    let! tracked := c_string tracked_boot_id in
    let! current := c_string current_boot_id in
    if String.eqb tracked current then Val (<[last_tracked_boot_id_file := content]> fs, false)
    else
      let '(content, ok) := prv_write_current_boot_id env current content in
      Val (<[last_tracked_boot_id_file := content]> fs, ok).

(** ** reboot_process_pstore.c *)
Inductive fts_info := FTS_F | FTS_SL | FTS_SLNONE | FTS_OTHER.
Record FTSENT := MkFtsent { info : fts_info; fts_path : string }.

(** The entries fts_read returns in turn, [None] when fts_open fails. *)
Definition ticos_reboot_process_pstore_files (can_unlink : string -> bool) (walk : option (list FTSENT)) (fs : files) : files :=
  match walk with
  | None => fs
  | Some entries =>
      foldl (fun fs p =>
        match info p with
        | FTS_F | FTS_SL | FTS_SLNONE => if can_unlink (fts_path p) then delete (fts_path p) fs else fs
        | FTS_OTHER => fs
        end) fs entries
  end.

(** ** reboot.c *)

(** libuboot: initialising, reading the configuration file, opening, and the variable ustate. *)
Record uboot_env := MkUboot {
  uboot_initialize : bool;
  uboot_read_config : string -> bool;
  uboot_open : bool;
  ustate : option string }.

Record reboot_env := MkRebootEnv {
  rw_filename : string -> option string;   (** ticosd_generate_rw_filename *)
  can_open : string -> bool;               (** fopen, when the file is there or is made *)
  can_write : string -> bool;              (** what is written reaches the file *)
  can_unlink : string -> bool;
  boot_id : boot_id_file;
  id_env : id_file_env;
  pstore_walk : files -> option (list FTSENT);
  sd_bus : option (option string);         (** the bus, and on it the property SystemState *)
  uboot : uboot_env }.

(** Reads the reason, then deletes the file. *)
Definition prv_reboot_read_and_clear_reboot_reason_from_file (env : reboot_env) (file : string) (fs : files) : files * option Z :=
  match fs !! file with
  | None => (fs, None)
  | Some bytes =>
      if negb (can_open env file) then (fs, None)
      else
        let result := option_map u32 (scan_int (string_of_bytes bytes)) in
        (if can_unlink env file then delete file fs else fs, result)
  end.

Section Reboot.
Context {Q C W : Type} `{TxQueue Q, ConfigOps C, NetworkOps W}.

(** The plugin's handle is the daemon. *)
Record world := MkWorld { ticosd : sTicosd Q C W; fs : files }.

Definition on_ticosd {A} (m : M (sTicosd Q C W) A) : M world A := fun w =>
  let! (t, a) := m (ticosd w) in Val (MkWorld t (fs w), a).
Definition on_files {A} (f : files -> outcome (files * A)) : M world A := fun w =>
  let! (fs, a) := f (fs w) in Val (MkWorld (ticosd w) fs, a).

(** *** The event *)
Definition max_event_size : Z := 1024.

Definition event_fmt : string :=
  "{" +:+ quoted "Type" +:+ ": " +:+ quoted "Trace" +:+ "," +:+
  quoted "SoftwareType" +:+ ": " +:+ quoted "%s" +:+ "," +:+
  quoted "SoftwareVersion" +:+ ": " +:+ quoted "%s" +:+ "," +:+
  quoted "HardwareVersion" +:+ ": " +:+ quoted "%s" +:+ "," +:+
  quoted "SdkVersion" +:+ ": " +:+ quoted "0.2.0" +:+ "," +:+
  quoted "EventInfo" +:+ ": {" +:+ quoted "Reason" +:+ ": %d" +:+ "}," +:+
  quoted "UserInfo" +:+ ": {%s}" +:+ "}".

(** The data, [None] for NULL, and the payload size. *)
Definition prv_reboot_build_event (reason : Z) (userinfo : option string) : M world (option (list Z * Z)) :=
  let* software_type := on_ticosd (gets (fun t => default EmptyString (ticosd_get_string (Some EmptyString) "software_type" t))) in
  let* software_version := on_ticosd (gets (fun t => default EmptyString (ticosd_get_string (Some EmptyString) "software_version" t))) in
  let* settings := on_ticosd (gets ticosd_get_device_settings) in
  let* ok := on_ticosd malloc_ok in
  if negb ok then ret None
  else
    let* str := lift (vsprintf event_fmt [ArgS (Some software_type); ArgS (Some software_version);
      ArgS (Some (hardware_version settings)); ArgZ reason; ArgS (Some (default EmptyString userinfo))]) in
    let len := zlen (bytes_of_string str) in
    if len >=? max_event_size then ret None
    else ret (Some (kTicosdTxDataType_RebootEvent :: bytes_of_string str ++ [0], len + 1)).

(** *** Sources of a reason *)
Definition prv_reboot_write_reboot_reason (env : reboot_env) (reboot_reason : Z) : M world unit :=
  on_files (fun fs =>
    match rw_filename env "lastrebootreason" with
    | None => Val (fs, tt)
    | Some file =>
        if negb (can_open env file) then Val (fs, tt)
        else Val (<[file := if can_write env file then bytes_of_string (print_Z (i32 reboot_reason)) else []]> fs, tt)
    end).

Definition prv_reboot_read_and_clear_reboot_reason_internal (env : reboot_env) : M world (option Z) :=
  match rw_filename env "lastrebootreason" with
  | None => ret None
  | Some file => on_files (fun fs => Val (prv_reboot_read_and_clear_reboot_reason_from_file env file fs))
  end.

Definition prv_reboot_read_and_clear_reboot_reason_customer (env : reboot_env) : M world (option Z) :=
  let* file := on_ticosd (gets (ticosd_get_string (Some "reboot_plugin") "last_reboot_reason_file")) in
  match file with
  | None => ret None
  | Some file => on_files (fun fs => Val (prv_reboot_read_and_clear_reboot_reason_from_file env file fs))
  end.

Definition process_pstore (env : reboot_env) : M world unit :=
  on_files (fun fs => Val (ticos_reboot_process_pstore_files (can_unlink env) (pstore_walk env fs) fs, tt)).

Definition prv_reboot_read_and_clear_reboot_reason_pstore (env : reboot_env) : M world (option Z) :=
  let* there := gets (fun w => fs w !! PSTORE_DMESG_FILE) in
  match there with
  | None => ret None
  | Some _ => do* process_pstore env in ret (Some kTicosRebootReason_KernelPanic)
  end.

(** From high to low priority. *)
Definition s_reboot_reason_sources (env : reboot_env) : list (M world (option Z)) := [
  prv_reboot_read_and_clear_reboot_reason_pstore env;
  prv_reboot_read_and_clear_reboot_reason_customer env;
  prv_reboot_read_and_clear_reboot_reason_internal env ].

(** The loop; [prioritized_reason] is [None] until it is set. *)
Fixpoint resolve (sources : list (M world (option Z))) (prioritized_reason : option Z) : M world (option Z) :=
  match sources with
  | [] => ret prioritized_reason
  | read_and_clear :: sources =>
      let* reason := read_and_clear in
      resolve sources (match prioritized_reason with Some r => Some r | None => reason end)
  end.

Definition prv_resolve_reboot_reason (env : reboot_env) : M world Z :=
  let* r := resolve (s_reboot_reason_sources env) None in
  ret (default kTicosRebootReason_Unknown r).

Definition prv_track_reboot (env : reboot_env) : M world unit :=
  let* reboot_reason := prv_resolve_reboot_reason env in
  let* data := prv_reboot_build_event reboot_reason None in
  match data with
  | None => ret tt
  | Some (data, payload_size) => let* _ := on_ticosd (ticosd_txdata (Some data) payload_size) in ret tt
  end.

(** *** Stopping *)
Definition prv_reboot_is_systemd_state (env : reboot_env) (state : string) : bool :=
  match sd_bus env with
  | Some (Some cur_state) => String.eqb state cur_state
  | _ => false
  end.

Definition prv_reboot_is_upgrade (env : reboot_env) : M world bool :=
  if negb (uboot_initialize (uboot env)) then ret false
  else
    let* file := on_ticosd (gets (fun t => default FWENV_CONFIG_FILE (ticosd_get_string (Some "reboot_plugin") "uboot_fw_env_file" t))) in
    if negb (uboot_read_config (uboot env) file) then ret false
    else if negb (uboot_open (uboot env)) then ret false
    else
      match ustate (uboot env) with
      | Some u => ret (String.eqb "1" u)
      | None => ret false
      end.

Definition prv_reboot_destroy (env : reboot_env) : M world unit :=
  if prv_reboot_is_systemd_state env "stopping" then
    let* upgrade := prv_reboot_is_upgrade env in
    if upgrade : bool then prv_reboot_write_reboot_reason env kTicosRebootReason_FirmwareUpdate
    else prv_reboot_write_reboot_reason env kTicosRebootReason_UserReset
  else ret tt.

(** *** Starting *)
Definition prv_run_if_untracked_boot_id (env : reboot_env) (cb : M world unit) : M world unit :=
  match rw_filename env "last_tracked_boot_id" with
  | None => ret tt
  | Some last_tracked_boot_id_file =>
      match ticos_linux_boot_id_read (boot_id env) with
      | None => ret tt
      | Some boot_id =>
          let* untracked := on_files (ticos_reboot_is_untracked_boot_id (id_env env) last_tracked_boot_id_file boot_id) in
          if untracked : bool then cb else ret tt
      end
  end.

Definition prv_noop_untracked_boot_id_handler : M world unit := ret tt.

(** The functions of the plugin, NULL when collection is off; [destroy_env] are the answers
    of the day the plugin is destroyed.  calloc is not checked. *)
Definition ticosd_reboot_init (env destroy_env : reboot_env) (calloc_ok : bool)
    : M world (option (sTicosdPluginCallbackFns world) * bool) :=
  let* off := on_ticosd (gets (data_collection_off (Some EmptyString))) in
  if (off : bool) then
    do* prv_run_if_untracked_boot_id env prv_noop_untracked_boot_id_handler in
    do* process_pstore env in
    ret (None, true)
  else if negb calloc_ok then fault
  else
    do* prv_run_if_untracked_boot_id env (prv_track_reboot env) in
    ret (Some (MkFns (Some (prv_reboot_destroy destroy_env)) None), true).
End Reboot.
Arguments world : clear implicits.
