(* ===== verification/RebootSpec.v ===== *)
(** * What the reboot plugin reports *)
From stdpp Require Import gmap.
From S2P Require Import Prelude CLib Queue QueueWitnesses TxQueue Network NetworkWitnesses Daemon DaemonWitnesses Plugins RebootReason Reboot.
#[local] Open Scope string_scope.
#[local] Open Scope list_scope.
#[local] Open Scope Z_scope.

(** ** The boot id *)

(** A C string as long as the bytes before the NUL is those bytes. *)
Lemma c_string_full bs : forall s, c_string (bs ++ [0]) = Val s -> length bs = String.length s -> bytes_ok bs ->
  bs = bytes_of_string s.
Proof.
  induction bs as [|b bs IH]; intros s; cbn [app c_string].
  - intros [= <-] _ _. done.
  - intros E L B. apply Forall_cons_1 in B as [Hb B]. destruct (b =? 0) eqn:Eb.
    + injection E as <-. discriminate.
    + destruct (c_string (bs ++ [0])) as [t| |] eqn:Et; [|done..]. cbn in E. injection E as <-. cbn [bytes_of_string].
      rewrite <- (IH t) by (cbn in L; congruence || done). f_equal. unfold byte_of_ascii, ascii_of_byte, is_byte in *.
      rewrite nat_ascii_embedding; lia.
Qed.

Lemma length_bytes_of_string s : length (bytes_of_string s) = String.length s.
Proof. induction s; cbn; congruence. Qed.

(** All calls on the file succeed. *)
Definition id_env_ok : id_file_env := MkIdFileEnv true true true true true true.

(** The id the file holds, if it is one. *)
Definition tracked_in (content : list Z) : list Z := take 36 content.

Lemma read_tracked content id : bytes_ok content -> String.length id = 36%nat ->
  exists s, c_string (fst (prv_read_tracked_boot_id id_env_ok content)) = Val s /\
    (s = id <-> tracked_in content = bytes_of_string id /\ no_nul id).
Proof.
  intros B L. unfold prv_read_tracked_boot_id, tracked_in. cbn [id_env_ok id_fseek negb].
  change (Z.to_nat (UUID_STR_LEN - 1)) with 36%nat. change (UUID_STR_LEN - 1) with 36.
  destruct (zlen (take 36 content) =? 36) eqn:E; cbn [negb fst]; tests_to_props.
  - destruct (c_string_defined (take 36 content ++ [0])) as [s Es]; [apply in_app_iff; right; now left|].
    exists s. split; [exact Es|]. split.
    + intros ->. assert (F : take 36 content = bytes_of_string id).
      { apply c_string_full; [exact Es|rewrite L; lia|now apply Forall_take]. }
      split; [exact F|]. rewrite F in Es. revert Es. clear. induction id as [|a id IH]; [constructor|].
      cbn [bytes_of_string app c_string]. destruct (byte_of_ascii a =? 0) eqn:Ea; [done|]. tests_to_props.
      destruct (c_string (bytes_of_string id ++ [0])) as [t| |]; [|done..]. cbn. rewrite ascii_of_byte_of_ascii.
      intros [= ->]. apply Forall_cons_2; [done|]. now apply IH.
    + intros [F N]. rewrite F, (c_string_of_bytes id []) in Es by done. congruence.
  - exists EmptyString. split; [reflexivity|]. split.
    + intros <-. discriminate.
    + intros [F _]. rewrite F, length_bytes_of_string, L in E. lia.
Qed.

(** The id of this boot, as the plugin gets it. *)
Definition is_boot_id (id : string) : Prop := String.length id = 36%nat /\ no_nul id.

Lemma untracked_spec file id fs : is_boot_id id -> bytes_ok (default [] (fs !! file)) ->
  ticos_reboot_is_untracked_boot_id id_env_ok file (bytes_of_string id ++ [0]) fs =
    if decide (tracked_in (default [] (fs !! file)) = bytes_of_string id)
    then Val (<[file := default [] (fs !! file)]> fs, false)
    else Val (<[file := bytes_of_string id]> fs, true).
Proof.
  intros [L N] B. unfold ticos_reboot_is_untracked_boot_id. cbn [id_env_ok id_fopen negb].
  destruct (read_tracked _ id B L) as (s & Es & Hs). destruct (prv_read_tracked_boot_id _ _) as [buf r]. cbn [fst] in Es.
  rewrite Es. cbn [obind]. rewrite (c_string_of_bytes id []) by done. cbn [obind].
  destruct (String.eqb_spec s id) as [->|Hne]; destruct (decide _) as [D|D]; [reflexivity| | |reflexivity].
  - destruct D. now apply Hs.
  - destruct Hne. now apply Hs.
Qed.

Lemma tracked_in_id id : is_boot_id id -> tracked_in (bytes_of_string id) = bytes_of_string id.
Proof. intros [L _]. apply take_ge. rewrite length_bytes_of_string. lia. Qed.

Lemma bytes_of_string_ok s : bytes_ok (bytes_of_string s).
Proof. induction s as [|a s IH]; constructor; [apply byte_of_ascii_ok|exact IH]. Qed.

Lemma boot_id_read_ok id rest : is_boot_id id ->
  ticos_linux_boot_id_read (BootIdBytes (bytes_of_string id ++ rest)) = Some (bytes_of_string id ++ [0]).
Proof.
  intros Hid. pose proof (proj1 Hid) as L. cbn [ticos_linux_boot_id_read]. change (Z.to_nat (UUID_STR_LEN - 1)) with 36%nat.
  assert (T : take 36 (bytes_of_string id ++ rest) = bytes_of_string id).
  { rewrite take_app_le by (rewrite length_bytes_of_string; lia). now apply tracked_in_id. }
  rewrite T, length_bytes_of_string, L. reflexivity.
Qed.

(** ** The files of the sources *)
Definition reason_in (fs : files) (file : string) : option Z :=
  match fs !! file with
  | Some bytes => option_map u32 (scan_int (string_of_bytes bytes))
  | None => None
  end.

Lemma from_file_spec env file fs : can_open env file = true -> can_unlink env file = true ->
  prv_reboot_read_and_clear_reboot_reason_from_file env file fs = (delete file fs, reason_in fs file).
Proof.
  intros Ho Hu. unfold prv_reboot_read_and_clear_reboot_reason_from_file, reason_in. rewrite Ho, Hu.
  destruct (fs !! file) eqn:E; [done|]. f_equal. symmetry. now apply (delete_id (M := gmap string)).
Qed.

(** Entries that are files; directories are kept. *)
Definition removes (file : string) (p : FTSENT) : bool :=
  match info p with FTS_OTHER => false | _ => String.eqb (fts_path p) file end.

Lemma process_pstore_lookup entries file : forall fs,
  ticos_reboot_process_pstore_files (fun _ => true) (Some entries) fs !! file =
    if existsb (removes file) entries then None else fs !! file.
Proof.
  cbn [ticos_reboot_process_pstore_files]. induction entries as [|p entries IH]; intros fs; cbn [foldl existsb]; [done|].
  rewrite IH. destruct (existsb (removes file) entries); [now rewrite orb_true_r|]. rewrite orb_false_r. unfold removes.
  destruct (info p); try (destruct (String.eqb_spec (fts_path p) file) as [->|]);
    [apply (lookup_delete_eq (M := gmap string))|apply (lookup_delete_ne (M := gmap string)); done|
     apply (lookup_delete_eq (M := gmap string))|apply (lookup_delete_ne (M := gmap string)); done|
     apply (lookup_delete_eq (M := gmap string))|apply (lookup_delete_ne (M := gmap string)); done|done].
Qed.

(** ** The event *)
Definition event_text (software_type software_version hardware_version : string) (reason : Z) : string :=
  let q := String "034" EmptyString in
  ("{" +:+ quoted "Type" +:+ ": " +:+ quoted "Trace" +:+ "," +:+ quoted "SoftwareType" +:+ ": " +:+ q) +:+ software_type +:+
  (q +:+ "," +:+ quoted "SoftwareVersion" +:+ ": " +:+ q) +:+ software_version +:+
  (q +:+ "," +:+ quoted "HardwareVersion" +:+ ": " +:+ q) +:+ hardware_version +:+
  (q +:+ "," +:+ quoted "SdkVersion" +:+ ": " +:+ quoted "0.2.0" +:+ "," +:+ quoted "EventInfo" +:+ ": {" +:+
    quoted "Reason" +:+ ": ") +:+ print_Z (i32 reason) +:+
  ("}," +:+ quoted "UserInfo" +:+ ": {}" +:+ "}").

Lemma event_text_printed a b c r :
  vsprintf event_fmt [ArgS (Some a); ArgS (Some b); ArgS (Some c); ArgZ r; ArgS (Some EmptyString)] =
    Val (event_text a b c r).
Proof. reflexivity. Qed.

Definition event_entry (text : string) : list Z := kTicosdTxDataType_RebootEvent :: bytes_of_string text ++ [0].

(** ** Runs *)
Section RebootSpec.
Context {Q C W : Type} `{TxQueue Q, ConfigOps C, NetworkOps W}.

Lemma txdata_keeps data n (t t' : sTicosd Q C W) b : ticosd_txdata data n t = Val (t', b) -> config t' = config t.
Proof.
  unfold ticosd_txdata, bind, gets. cbn [obind]. destruct (data_collection_off _ _); [now intros [= <- _]|].
  unfold on_queue. destruct (queue_write _ _ _) as [[q r]| |]; [|done..]. now intros [= <- _].
Qed.

Lemma malloc_keeps (t t' : sTicosd Q C W) b : malloc_ok t = Val (t', b) -> config t' = config t /\ dsettings t' = dsettings t.
Proof. unfold malloc_ok. cbn [heap_get heap_set daemon_heap]. destruct (mallocs t); now intros [= <- _]. Qed.

(** A device on which every call succeeds: two files of the plugin, the file the customer may
    have configured, the walk over the pstore, which meets none of them. *)
Record device_ok (env : reboot_env) (tracked internal : string) (customer : option string) : Prop := {
  ok_tracked : rw_filename env "last_tracked_boot_id" = Some tracked;
  ok_internal : rw_filename env "lastrebootreason" = Some internal;
  ok_open file : can_open env file = true;
  ok_write file : can_write env file = true;
  ok_unlink : can_unlink env = fun _ => true;
  ok_id_env : id_env env = id_env_ok;
  ok_walk fs : exists entries, pstore_walk env fs = Some entries /\ existsb (removes PSTORE_DMESG_FILE) entries = true /\
    Forall (fun p => fts_path p <> tracked /\ fts_path p <> internal /\ Some (fts_path p) <> customer) entries;
  ok_distinct : tracked <> internal /\ Some tracked <> customer /\ tracked <> PSTORE_DMESG_FILE /\
    internal <> PSTORE_DMESG_FILE /\ customer <> Some PSTORE_DMESG_FILE }.

Definition customer_file (t : sTicosd Q C W) : option string :=
  ticosd_get_string (Some "reboot_plugin") "last_reboot_reason_file" t.

(** The reason to report: a kernel panic, the customer's reason, the plugin's own. *)
Definition reported (internal : string) (customer : option string) (fs : files) : Z :=
  match fs !! PSTORE_DMESG_FILE with
  | Some _ => kTicosRebootReason_KernelPanic
  | None =>
      default kTicosRebootReason_Unknown
        (match customer ≫= reason_in fs with Some r => Some r | None => reason_in fs internal end)
  end.

(** No source is left. *)
Definition cleared (internal : string) (customer : option string) (fs : files) : Prop :=
  fs !! PSTORE_DMESG_FILE = None /\ fs !! internal = None /\ forall c, customer = Some c -> fs !! c = None.

Section Device.
Context (env : reboot_env) (tracked internal : string) (customer : option string).
Hypothesis Hdev : device_ok env tracked internal customer.

Lemma not_removed file entries : Forall (fun p => fts_path p <> file) entries -> existsb (removes file) entries = false.
Proof.
  induction 1 as [|p ps Hp _ IH]; [done|]. cbn [existsb]. rewrite IH, orb_false_r. unfold removes.
  destruct (info p); [now apply String.eqb_neq..|done].
Qed.

Lemma process_pstore_spec fs : exists fs', ticos_reboot_process_pstore_files (can_unlink env) (pstore_walk env fs) fs = fs' /\
  fs' !! PSTORE_DMESG_FILE = None /\ fs' !! tracked = fs !! tracked /\ reason_in fs' internal = reason_in fs internal /\
  customer ≫= reason_in fs' = customer ≫= reason_in fs.
Proof.
  destruct (ok_walk _ _ _ _ Hdev fs) as (entries & E & Hd & Hp). rewrite E, (ok_unlink _ _ _ _ Hdev).
  eexists. split; [reflexivity|]. unfold reason_in. rewrite !process_pstore_lookup, Hd. split; [done|].
  rewrite !not_removed by (eapply Forall_impl; [exact Hp|]; cbn; naive_solver). split; [done|]. split; [done|].
  destruct customer as [c|]; [|done]. unfold mbind, option_bind. rewrite process_pstore_lookup.
  rewrite not_removed; [done|]. eapply Forall_impl; [exact Hp|]. cbn. naive_solver.
Qed.

Lemma on_files_val {A} (f : files -> outcome (files * A)) (w : world Q C W) fs' a :
  f (fs w) = Val (fs', a) -> on_files f w = Val (MkWorld (ticosd w) fs', a).
Proof. intros E. unfold on_files. now rewrite E. Qed.

Lemma pstore_source (w : world Q C W) : exists fs', prv_reboot_read_and_clear_reboot_reason_pstore env w =
    Val (MkWorld (ticosd w) fs', match fs w !! PSTORE_DMESG_FILE with Some _ => Some kTicosRebootReason_KernelPanic | None => None end) /\
  fs' !! PSTORE_DMESG_FILE = None /\ fs' !! tracked = fs w !! tracked /\ reason_in fs' internal = reason_in (fs w) internal /\
  customer ≫= reason_in fs' = customer ≫= reason_in (fs w).
Proof.
  unfold prv_reboot_read_and_clear_reboot_reason_pstore, bind, gets. cbn [obind].
  destruct (fs w !! PSTORE_DMESG_FILE) eqn:E.
  - destruct (process_pstore_spec (fs w)) as (fs' & Ep & Hd & Ht & Hi & Hc). exists fs'.
    unfold process_pstore, on_files. rewrite Ep. cbn. auto.
  - exists (fs w). destruct w. auto.
Qed.

Lemma customer_source (w : world Q C W) : customer_file (ticosd w) = customer ->
  prv_reboot_read_and_clear_reboot_reason_customer env w =
    Val (MkWorld (ticosd w) (match customer with Some c => delete c (fs w) | None => fs w end), customer ≫= reason_in (fs w)).
Proof.
  intros Hc. unfold prv_reboot_read_and_clear_reboot_reason_customer, bind, on_ticosd, gets. cbn [obind].
  change (ticosd_get_string _ _ _) with (customer_file (ticosd w)). rewrite Hc. destruct w as [t f]. cbn [ticosd fs].
  destruct customer as [c|]; [|done]. unfold on_files. cbn [fs ticosd]. now rewrite from_file_spec by (apply Hdev || now rewrite (ok_unlink _ _ _ _ Hdev)).
Qed.

Lemma internal_source (w : world Q C W) : prv_reboot_read_and_clear_reboot_reason_internal env w =
  Val (MkWorld (ticosd w) (delete internal (fs w)), reason_in (fs w) internal).
Proof.
  unfold prv_reboot_read_and_clear_reboot_reason_internal. rewrite (ok_internal _ _ _ _ Hdev). unfold on_files.
  now rewrite from_file_spec by (apply Hdev || now rewrite (ok_unlink _ _ _ _ Hdev)).
Qed.

Lemma lookup_delete_none (f g : string) (fs : files) : fs !! f = None -> (delete g fs : files) !! f = None.
Proof.
  intros E. destruct (decide (g = f)) as [->|]; [apply (lookup_delete_eq (M := gmap string))|].
  etransitivity; [now apply (lookup_delete_ne (M := gmap string))|exact E].
Qed.

Lemma reason_in_delete f g (fs : files) : reason_in (delete g fs) f = if decide (g = f) then None else reason_in fs f.
Proof.
  unfold reason_in. destruct (decide (g = f)) as [->|].
  - assert (E : (delete f fs : files) !! f = None) by apply (lookup_delete_eq (M := gmap string)). now rewrite E.
  - assert (E : (delete g fs : files) !! f = fs !! f) by now apply (lookup_delete_ne (M := gmap string)). now rewrite E.
Qed.

Lemma resolve_spec (w : world Q C W) : customer_file (ticosd w) = customer ->
  exists fs', prv_resolve_reboot_reason env w = Val (MkWorld (ticosd w) fs', reported internal customer (fs w)) /\
    cleared internal customer fs' /\ fs' !! tracked = fs w !! tracked.
Proof.
  intros Hc. destruct (pstore_source w) as (fs1 & E1 & Hd1 & Ht1 & Hi1 & Hc1).
  destruct (ok_distinct _ _ _ _ Hdev) as (D1 & D2 & _).
  pose (fs2 := match customer with Some c => delete c fs1 | None => fs1 end).
  exists (delete internal fs2). split; [|split].
  - unfold prv_resolve_reboot_reason, s_reboot_reason_sources. cbn [resolve].
    unfold bind. rewrite E1. cbn [obind]. rewrite (customer_source (MkWorld (ticosd w) fs1)) by done. cbn [obind fs ticosd].
    fold fs2. rewrite (internal_source (MkWorld (ticosd w) fs2)). cbn [obind fs ticosd ret]. unfold ret. f_equal. f_equal.
    unfold reported. rewrite Hc1, <- Hi1. destruct (fs w !! PSTORE_DMESG_FILE); [done|]. f_equal.
    rewrite <- Hc1. unfold fs2. destruct customer as [c|]; [|done]. cbn [mbind option_bind].
    rewrite reason_in_delete. destruct (reason_in fs1 c) eqn:Er; [done|]. destruct (decide (c = internal)) as [->|]; [congruence|done].
  - split; [|split].
    + apply lookup_delete_none. unfold fs2. destruct customer; [now apply lookup_delete_none|done].
    + apply (lookup_delete_eq (M := gmap string)).
    + intros c Ec. apply lookup_delete_none. unfold fs2. rewrite Ec. apply (lookup_delete_eq (M := gmap string)).
  - assert (K : (delete internal fs2 : files) !! tracked = fs2 !! tracked) by (apply (lookup_delete_ne (M := gmap string)); congruence).
    rewrite K. unfold fs2. destruct customer as [c|] eqn:Ec; [|done].
    assert (K2 : (delete c fs1 : files) !! tracked = fs1 !! tracked) by (apply (lookup_delete_ne (M := gmap string)); congruence).
    now rewrite K2.
Qed.

(** ** One start of the plugin *)
Definition text_of (t : sTicosd Q C W) (reason : Z) : string :=
  event_text (default EmptyString (ticosd_get_string (Some EmptyString) "software_type" t))
    (default EmptyString (ticosd_get_string (Some EmptyString) "software_version" t))
    (hardware_version (dsettings t)) reason.

Lemma build_event_spec (w : world Q C W) reason t0 : malloc_ok (ticosd w) = Val (t0, true) ->
  zlen (bytes_of_string (text_of (ticosd w) reason)) < max_event_size ->
  prv_reboot_build_event reason None w =
    Val (MkWorld t0 (fs w), Some (event_entry (text_of (ticosd w) reason), zlen (event_entry (text_of (ticosd w) reason)) - 1)).
Proof.
  intros Hm Hl. unfold prv_reboot_build_event, on_ticosd, bind, gets, lift. cbn [obind ticosd fs]. rewrite Hm. cbn [obind negb].
  change (default EmptyString None) with EmptyString. rewrite event_text_printed. cbn [obind].
  change (event_text _ _ _ reason) with (text_of (ticosd w) reason). test_false (zlen (bytes_of_string (text_of (ticosd w) reason)) >=? max_event_size).
  assert (L : zlen (event_entry (text_of (ticosd w) reason)) - 1 = zlen (bytes_of_string (text_of (ticosd w) reason)) + 1)
    by (unfold event_entry; lens).
  now rewrite L.
Qed.

Section Boot.
Context (id : string) (rest : list Z).
Hypothesis Hid : is_boot_id id.
Hypothesis Hboot : boot_id env = BootIdBytes (bytes_of_string id ++ rest).

Lemma run_if_untracked_spec cb (w : world Q C W) : bytes_ok (default [] (fs w !! tracked)) ->
  prv_run_if_untracked_boot_id env cb w =
    if decide (tracked_in (default [] (fs w !! tracked)) = bytes_of_string id)
    then Val (MkWorld (ticosd w) (<[tracked := default [] (fs w !! tracked)]> (fs w)), tt)
    else cb (MkWorld (ticosd w) (<[tracked := bytes_of_string id]> (fs w))).
Proof.
  intros B. unfold prv_run_if_untracked_boot_id. rewrite (ok_tracked _ _ _ _ Hdev), Hboot, boot_id_read_ok by done.
  unfold bind, on_files. rewrite (ok_id_env _ _ _ _ Hdev), untracked_spec by done. now destruct (decide _).
Qed.

(** A start in a boot that is tracked changes nothing. *)
Lemma run_if_tracked cb (w : world Q C W) : fs w !! tracked = Some (bytes_of_string id) ->
  prv_run_if_untracked_boot_id env cb w = Val (w, tt).
Proof.
  intros E. rewrite run_if_untracked_spec by (rewrite E; apply bytes_of_string_ok). rewrite E.
  change (default [] (Some (bytes_of_string id))) with (bytes_of_string id).
  rewrite tracked_in_id, decide_True by done. destruct w as [t f]. cbn [ticosd fs] in *. repeat f_equal.
  now apply (insert_id (M := gmap string)).
Qed.

Definition started (denv : reboot_env) : option (sTicosdPluginCallbackFns (world Q C W)) * bool :=
  (Some (MkFns (Some (prv_reboot_destroy denv)) None), true).

Lemma init_on denv (w w' : world Q C W) : data_collection_off (Some EmptyString) (ticosd w) = false ->
  prv_run_if_untracked_boot_id env (prv_track_reboot env) w = Val (w', tt) ->
  ticosd_reboot_init env denv true w = Val (w', started denv).
Proof.
  intros Hc E. unfold ticosd_reboot_init, on_ticosd, bind, gets. cbn [obind]. rewrite Hc. destruct w as [t f].
  cbn [ticosd fs negb]. now rewrite E.
Qed.

Lemma init_off denv (w w1 : world Q C W) fs' : data_collection_off (Some EmptyString) (ticosd w) = true ->
  prv_run_if_untracked_boot_id env prv_noop_untracked_boot_id_handler w = Val (w1, tt) ->
  ticos_reboot_process_pstore_files (can_unlink env) (pstore_walk env (fs w1)) (fs w1) = fs' ->
  ticosd_reboot_init env denv true w = Val (MkWorld (ticosd w1) fs', (None, true)).
Proof.
  intros Hc E Ep. unfold ticosd_reboot_init, on_ticosd, bind, gets. cbn [obind]. rewrite Hc. destruct w as [t f].
  cbn [ticosd fs]. rewrite E. cbn [obind]. unfold process_pstore, on_files. now rewrite Ep.
Qed.


(** a boot that began without consent to data collection is never reported: the plugin
    queues nothing, tracks the boot and clears the pstore; when consent is given and the daemon
    started again in the same boot, still nothing is queued. *)
Theorem reboot_without_consent_not_reported denv (w : world Q C W) :
  data_collection_off (Some EmptyString) (ticosd w) = true -> bytes_ok (default [] (fs w !! tracked)) ->
  exists fs', ticosd_reboot_init env denv true w = Val (MkWorld (ticosd w) fs', (None, true)) /\
    fs' !! PSTORE_DMESG_FILE = None /\
    forall t, data_collection_off (Some EmptyString) t = false ->
      exists fs2, ticosd_reboot_init env denv true (MkWorld t fs') = Val (MkWorld t fs2, started denv).
Proof.
  intros Hoff B.
  destruct (prv_run_if_untracked_boot_id env prv_noop_untracked_boot_id_handler w) as [[w1 []]| |] eqn:E;
    rewrite run_if_untracked_spec in E by done; [|destruct (decide _); discriminate..].
  destruct (process_pstore_spec (fs w1)) as (fs' & Ep & Hd & Ht & _). exists fs'.
  assert (K : ticosd w1 = ticosd w /\ tracked_in (default [] (fs w1 !! tracked)) = bytes_of_string id /\
    bytes_ok (default [] (fs w1 !! tracked))).
  { assert (L : forall v : list Z, (<[tracked := v]> (fs w) : files) !! tracked = Some v)
      by (intros v; apply (lookup_insert_eq (M := gmap string))).
    destruct (decide _) as [D|D].
    - injection E as <-. cbn [ticosd fs]. rewrite L. auto.
    - cbn in E. injection E as <-. cbn [ticosd fs]. rewrite L. cbn [default]. split; [done|].
      split; [now apply tracked_in_id|apply bytes_of_string_ok]. }
  destruct K as (K1 & K2 & K3). split; [|split; [exact Hd|]].
  - rewrite <- K1. apply (init_off denv w w1); [done| |done]. rewrite run_if_untracked_spec by done. exact E.
  - intros t Hon. eexists. apply init_on; [done|]. rewrite run_if_untracked_spec by (cbn [fs]; now rewrite Ht).
    cbn [fs]. rewrite Ht, decide_True by done. reflexivity.
Qed.
End Boot.
End Device.

(** ** From one boot to the next *)
Definition upgrading (u : uboot_env) (t : sTicosd Q C W) : bool :=
  uboot_initialize u &&
  uboot_read_config u (default FWENV_CONFIG_FILE (ticosd_get_string (Some "reboot_plugin") "uboot_fw_env_file" t)) &&
  uboot_open u && match ustate u with Some s => String.eqb "1" s | None => false end.

Lemma is_upgrade_spec env (w : world Q C W) : prv_reboot_is_upgrade env w = Val (w, upgrading (uboot env) (ticosd w)).
Proof.
  unfold prv_reboot_is_upgrade, upgrading. destruct w as [t f]. destruct (uboot_initialize (uboot env)); cbn [negb andb]; [|done].
  unfold bind, on_ticosd, gets. cbn [obind ticosd fs]. destruct (uboot_read_config _ _); cbn [negb andb]; [|done].
  destruct (uboot_open (uboot env)); cbn [negb andb]; [|done]. now destruct (ustate (uboot env)).
Qed.

(** the reason the plugin leaves when the system stops, a firmware update when U-Boot says
    so, else a user reset, is the one found after the reboot, unless the kernel panicked or
    the customer's file names another. *)
Theorem shutdown_reason_reported env tracked internal customer (w : world Q C W) :
  device_ok env tracked internal customer -> sd_bus env = Some (Some "stopping") ->
  fs w !! PSTORE_DMESG_FILE = None -> customer ≫= reason_in (fs w) = None -> customer <> Some internal ->
  exists w', prv_reboot_destroy env w = Val (w', tt) /\
    forall (next : reboot_env) t, device_ok next tracked internal customer -> customer_file t = customer ->
      exists fs2, prv_resolve_reboot_reason next (MkWorld t (fs w')) =
        Val (MkWorld t fs2, if upgrading (uboot env) (ticosd w) then kTicosRebootReason_FirmwareUpdate
                            else kTicosRebootReason_UserReset) /\ cleared internal customer fs2.
Proof.
  intros Hdev Hbus Hp Hcu Hci. set (r := if upgrading _ _ then _ else _).
  exists (MkWorld (ticosd w) (<[internal := bytes_of_string (print_Z r)]> (fs w))). split.
  - unfold prv_reboot_destroy, prv_reboot_is_systemd_state. rewrite Hbus. cbn [String.eqb Ascii.eqb Bool.eqb].
    unfold bind. rewrite is_upgrade_spec. cbn [obind]. unfold prv_reboot_write_reboot_reason, on_files.
    rewrite (ok_internal _ _ _ _ Hdev), (ok_open _ _ _ _ Hdev), (ok_write _ _ _ _ Hdev). subst r. destruct w. now destruct (upgrading _ _).
  - intros next t Hnext Hc. cbn [fs].
    set (fs1 := <[internal := bytes_of_string (print_Z r)]> (fs w) : files).
    destruct (ok_distinct _ _ _ _ Hdev) as (_ & _ & _ & D4 & _).
    assert (O : forall f, f <> internal -> fs1 !! f = fs w !! f).
    { intros f Hf. apply (lookup_insert_ne (M := gmap string)). congruence. }
    assert (RI : reason_in fs1 internal = Some r).
    { unfold reason_in. assert (L : fs1 !! internal = Some (bytes_of_string (print_Z r))) by apply (lookup_insert_eq (M := gmap string)).
      rewrite L, string_of_bytes_of_string, <- (string_app_nil_r (print_Z r)).
      rewrite scan_int_print by (done || subst r; destruct (upgrading _ _); vm_compute; split; congruence).
      subst r. now destruct (upgrading _ _). }
    assert (R : reported internal customer fs1 = r).
    { unfold reported. rewrite O, Hp, RI by congruence. destruct customer as [c|]; [|done]. cbn [mbind option_bind] in *.
      unfold reason_in at 1 in Hcu. unfold reason_in at 1. rewrite O by congruence. unfold mbind, option_bind in Hcu. now rewrite Hcu. }
    destruct (resolve_spec next tracked internal customer Hnext (MkWorld t fs1) Hc) as (fs2 & E & Hcl & _).
    exists fs2. split; [|exact Hcl]. rewrite E. cbn [fs ticosd]. now rewrite R.
Qed.
End RebootSpec.

(** ** Reboots of a concrete device

    The customer's file, the plugin's own and the pstore, on the device and with the queue of
    the daemon's examples. *)

Definition customer_path : string := "/media/last_reboot_reason".
Definition tracked_path : string := "/media/ticos/last_tracked_boot_id".
Definition internal_path : string := "/media/ticos/lastrebootreason".

(** A configuration with these strings, and with or without consent. *)
Record reboot_config := MkRebootConfig { consent : bool }.

#[export] Instance reboot_config_ops : ConfigOps reboot_config := {
  ticosd_config_get_boolean c _ key := if String.eqb key "enable_data_collection" then Some (consent c) else None;
  ticosd_config_get_integer _ _ _ := None;
  ticosd_config_get_string _ _ key :=
    if String.eqb key "last_reboot_reason_file" then Some customer_path
    else if String.eqb key "software_version" then Some "1.0" else None }.

Abbreviation daemon := (sTicosd shared_queue reboot_config (net_state steady)).

Definition reboot_daemon (consent : bool) : daemon :=
  MkTicosd (MkShared (queue_after 4096 []) []) (MkNet sample_network [] sample_disk (MkSteady 200)) (MkRebootConfig consent)
    (MkSettings "dev" "hw") false false [].

Definition sample_id : string := "b9a2ef2b-9e8a-4f47-8f10-31f17c1a5ac1".

(** The answers of a device on which everything succeeds; [uboot_state] is U-Boot's ustate. *)
Definition sample_reboot_env (state uboot_state : string) : reboot_env :=
  MkRebootEnv (fun name => Some ("/media/ticos/" +:+ name)) (fun _ => true) (fun _ => true) (fun _ => true)
    (BootIdBytes (bytes_of_string sample_id ++ [10])) id_env_ok
    (fun _ => Some [MkFtsent FTS_OTHER "/sys/fs/pstore"; MkFtsent FTS_F PSTORE_DMESG_FILE])
    (Some (Some state)) (MkUboot true (fun _ => true) true (Some uboot_state)).

Lemma sample_device_ok state u : device_ok (sample_reboot_env state u) tracked_path internal_path (Some customer_path).
Proof.
  constructor; try reflexivity.
  - intros fs. eexists. split; [reflexivity|]. split; [reflexivity|]. repeat constructor; discriminate.
  - repeat split; discriminate.
Defined.

Lemma sample_boot_id : is_boot_id sample_id.
Proof. split; [reflexivity|]. unfold no_nul. repeat (constructor; [discriminate|]). constructor. Defined.

(** Two sources at once: the customer's 6 and the plugin's 2. *)
Definition two_reasons : files :=
  <[customer_path := bytes_of_string "6"]> (<[internal_path := bytes_of_string "2"]> ∅).

Definition after_event : daemon :=
  match ticosd_txdata (Some (event_entry (text_of (reboot_daemon true) 6)))
          (zlen (event_entry (text_of (reboot_daemon true) 6)) - 1) (reboot_daemon true) with
  | Val (t, _) => t
  | _ => reboot_daemon true
  end.


Lemma reboot_without_consent_not_reported_witness :
  let env := sample_reboot_env "running" "0" in
  exists fs', ticosd_reboot_init env env true (MkWorld (reboot_daemon false) two_reasons) =
      Val (MkWorld (reboot_daemon false) fs', (None, true)) /\
    fs' !! PSTORE_DMESG_FILE = None /\
    forall t : daemon, data_collection_off (Some EmptyString) t = false ->
      exists fs2, ticosd_reboot_init env env true (MkWorld t fs') = Val (MkWorld t fs2, started env).
Proof.
  apply (reboot_without_consent_not_reported (sample_reboot_env "running" "0") tracked_path internal_path (Some customer_path)
    (sample_device_ok _ _) sample_id [10] sample_boot_id eq_refl (sample_reboot_env "running" "0")
    (MkWorld (reboot_daemon false) two_reasons)).
  - reflexivity.
  - vm_compute. constructor.
Defined.

Lemma shutdown_reason_reported_witness :
  let env := sample_reboot_env "stopping" "1" in
  let w := MkWorld (reboot_daemon true) (∅ : files) in
  exists w', prv_reboot_destroy env w = Val (w', tt) /\
    forall (next : reboot_env) (t : daemon), device_ok next tracked_path internal_path (Some customer_path) ->
      customer_file t = Some customer_path ->
      exists fs2, prv_resolve_reboot_reason next (MkWorld t (fs w')) =
        Val (MkWorld t fs2, if upgrading (uboot env) (ticosd w) then kTicosRebootReason_FirmwareUpdate
                            else kTicosRebootReason_UserReset) /\ cleared internal_path (Some customer_path) fs2.
Proof.
  apply (shutdown_reason_reported (sample_reboot_env "stopping" "1") tracked_path internal_path (Some customer_path)
    (MkWorld (reboot_daemon true) ∅) (sample_device_ok _ _)); try reflexivity; discriminate.
Defined.
