(* ===== verification/TicosCtl.v ===== *)
(** * The command line tool (src/ticosctl/, src/util/ipc.c)

    ticosctl reads the configuration, runs one command and exits.  What a command does to the
    rest of the system is its list of [action]s; what the system answers is in [ctl_env].
    Built with every plugin and with assertions. *)
From stdpp Require Import gmap.
From S2P Require Import Prelude CLib Json Network TxQueue Daemon Config DeviceSettings Plugins RebootReason.
#[local] Open Scope string_scope.
#[local] Open Scope list_scope.
#[local] Open Scope Z_scope.

(** JSON arrays of json-c, which the tool only builds and prints. *)
Class JsonArray `{JsonC} := {
  json_array : Type;
  json_object_new_array : json_array;
  json_object_array_add : json_array -> json_object -> json_array;
  json_object_array_length : json_array -> Z;
  json_object_to_json_string : json_array -> string }.

Class JsonArrayLaws `{JsonArray} := {
  new_array_length : json_object_array_length json_object_new_array = 0;
  array_add_length a o : json_object_array_length (json_object_array_add a o) = json_object_array_length a + 1 }.

(** ** Attributes (parse_attributes.c) *)

(** strchr: the text before the first [c] and the text after it. *)
Fixpoint strchr (c : ascii) (s : string) : option (string * string) :=
  match s with
  | EmptyString => None
  | String a r =>
      if Ascii.eqb a c then Some (EmptyString, r)
      else match strchr c r with Some (before, after) => Some (String a before, after) | None => None end
  end.

Section Attributes.
Context `{JsonTree, !JsonArray}.

Definition prv_parse_attribute_value (value : string) : json_object :=
  match json_tokener_parse value with
  | None => json_object_new_string value
  | Some obj =>
      if decide (json_object_get_type obj = json_type_array \/ json_object_get_type obj = json_type_object)
      then json_object_new_string value else obj
  end.

(** One argument: the pair for the array, [None] for a parse error. *)
Definition parse_attribute (arg : string) : option (outcome json_object) :=
  match strchr "=" arg with
  | None => None
  | Some (key, value) =>
      if String.eqb key EmptyString then None
      else Some (
        let! o := object_add json_object_new_object "string_key" (Some (json_object_new_string key)) in
        object_add o "value" (Some (prv_parse_attribute_value value)))
  end.

(** The loop; [None] once [parse_error] is set.  An allocation that fails aborts the program
    and is left out. *)
Fixpoint parse_attributes (argv : list string) (json : json_array) : outcome (option json_array) :=
  match argv with
  | [] => Val (Some json)
  | arg :: argv =>
      match parse_attribute arg with
      | None => Val None
      | Some o => let! o := o in parse_attributes argv (json_object_array_add json o)
      end
  end.

Definition ticosd_parse_attributes (argv : list string) : outcome (option json_array) :=
  let! json := parse_attributes argv json_object_new_array in
  Val (match json with
       | Some json => if json_object_array_length json <? 1 then None else Some json
       | None => None
       end).
End Attributes.

(** ** What a command does *)
Inductive eErrorType := eErrorTypeSegFault | eErrorTypeFPException.

Inductive action :=
| SendTo (msg : list Z)          (** a datagram to the daemon *)
| Kill (pid sig : Z)
| TriggerCrash (e : eErrorType)  (** a child crashes *)
| SystemReboot
| Sleep (seconds : Z)
| Usage
| ShowSettings.

(** The answers of the system.  [padding] is what malloc leaves between the fields of a
    message. *)
Record ctl_env := MkCtlEnv {
  socket_ok : bool;
  sendto : list Z -> Z;
  pid_file_text : option (list Z);
  pid_read_ok : bool;
  kill_ok : bool;
  reason_open : bool;
  reason_printed : bool;   (** fprintf succeeds *)
  reason_flushed : bool;   (** fclose writes what was buffered *)
  system_ok : bool;
  msg_malloc : bool;
  padding : list Z;
  time_now : Z;
  config_env : write_env;
  root : bool;
  restarted : bool }.

(** ipc.c *)
Definition ticosd_ipc_sendmsg (env : ctl_env) (msg : list Z) : list action * bool :=
  if negb (socket_ok env) then ([], false)
  else ([SendTo msg], u64 (sendto env msg) =? zlen msg).

Definition ticosd_send_flush_queue_signal (env : ctl_env) : outcome (list action * bool) :=
  let! pid := ticosd_get_pid (pid_file_text env) (pid_read_ok env) in
  if pid =? -1 then Val ([], false) else Val ([Kill pid SIGUSR1], kill_ok env).

(** ** The commands (ticosctl.c) *)
Section Commands.
Context `{JsonTree, !JsonArray}.

Record sTicosCtl := MkCtl {
  ctl_config : sTicosdConfig;
  extra_args : list string;
  ctl_dev_mode : bool }.

(** The configuration and the files afterwards, the actions, and the exit code, [None] for
    abort. *)
Definition command : Type := ctl_env -> sTicosCtl -> files -> outcome (sTicosdConfig * files * list action * option Z).

(** Of a command that leaves configuration and files alone. *)
Definition done_ (h : sTicosCtl) (fs : files) (acts : list action) (ok : bool) : outcome (sTicosdConfig * files * list action * option Z) :=
  Val (ctl_config h, fs, acts, Some (if ok then 0 else -1)).

Definition prv_cmd_show_settings : command := fun _ h fs => done_ h fs [ShowSettings] true.

(** The four commands that change a setting. *)
Definition prv_cmd_set (key : string) (value : bool) : command := fun env h fs =>
  let! (c, fs, code) := ticos_set_runtime_bool_and_reload (config_env env) (root env) (restarted env) key value (ctl_config h) fs in
  Val (c, fs, [], Some code).
Definition prv_cmd_enable_developer_mode : command := prv_cmd_set CONFIG_KEY_DEV_MODE true.
Definition prv_cmd_disable_developer_mode : command := prv_cmd_set CONFIG_KEY_DEV_MODE false.
Definition prv_cmd_enable_data_collection : command := prv_cmd_set CONFIG_KEY_DATA_COLLECTION true.
Definition prv_cmd_disable_data_collection : command := prv_cmd_set CONFIG_KEY_DATA_COLLECTION false.

(** The reason to write: [inl] ends the command after the given actions. *)
Definition reboot_reason_arg (args : list string) : list action + Z :=
  match args with
  | [] => inr kTicosRebootReason_Unknown
  | [option; reason_str] =>
      if negb (String.eqb option "--reason") then inl [Usage]
      else
        match scan_int reason_str with
        | Some r => if ticosd_is_reboot_reason_valid (u32 r) then inr (u32 r) else inl []
        | None => inl []
        end
  | _ => inl [Usage]
  end.

Definition prv_cmd_reboot : command := fun env h fs =>
  match config_get_string (ctl_config h) (Some "reboot_plugin") "last_reboot_reason_file" with
  | None => done_ h fs [] false
  | Some reboot_reason_file =>
      match reboot_reason_arg (extra_args h) with
      | inl acts => done_ h fs acts false
      | inr reboot_reason =>
          if negb (reason_open env) then done_ h fs [] false
          else if negb (reason_printed env) then done_ h (<[reboot_reason_file := []]> fs) [] false
          else
            let text := if reason_flushed env then bytes_of_string (print_Z (i32 reboot_reason)) else [] in
            done_ h (<[reboot_reason_file := text]> fs) [SystemReboot] (system_ok env)
      end
  end.

Definition PLUGIN_COLLECTD_IPC_NAME : string := "COLLECTD".

Definition prv_cmd_request_metrics : command := fun env h fs =>
  let '(acts, ok) := ticosd_ipc_sendmsg env (bytes_of_string PLUGIN_COLLECTD_IPC_NAME ++ [0]) in
  done_ h fs acts ok.

Definition prv_cmd_sync : command := fun env h fs =>
  let! (acts, ok) := ticosd_send_flush_queue_signal env in done_ h fs acts ok.

(** strcmp gives 0, false, for equal strings. *)
Definition strcmp_true (s t : string) : bool := negb (String.eqb s t).

Definition prv_cmd_trigger_coredump : command := fun env h fs =>
  let e :=
    match extra_args h with
    | [] => Some eErrorTypeSegFault
    | arg :: _ =>
        if strcmp_true arg "segfault" then Some eErrorTypeSegFault
        else if strcmp_true arg "divide-by-zero" then Some eErrorTypeFPException
        else None
    end in
  match e with
  | None => done_ h fs [] false
  | Some e =>
      if ctl_dev_mode h then
        let! (acts, ok) := ticosd_send_flush_queue_signal env in
        done_ h fs (TriggerCrash e :: Sleep 3 :: acts) ok
      else done_ h fs [TriggerCrash e] true
  end.

(** The message: [msg->timestamp] is the result of a comparison; the assertion ends the program
    when that is 0. *)
Definition attributes_msg (env : ctl_env) (stringified : string) : list Z :=
  bytes_of_string ATTRIBUTES_IPC_NAME ++ [0] ++ padding env ++ le_bytes 8 1 ++ bytes_of_string stringified ++ [0].

Definition prv_cmd_write_attributes : command := fun env h fs =>
  let! json := ticosd_parse_attributes (extra_args h) in
  match json with
  | None => done_ h fs [] false
  | Some json =>
      let stringified := json_object_to_json_string json in
      if negb (msg_malloc env) then done_ h fs [] false
      else if negb (time_now env >? 0) then Val (ctl_config h, fs, [], None)
      else
        let '(acts, success) := ticosd_ipc_sendmsg env (attributes_msg env stringified) in
        if success && ctl_dev_mode h then
          let! (more, _) := ticosd_send_flush_queue_signal env in done_ h fs (acts ++ more) true
        else done_ h fs acts success
  end.

Definition cmds : list (string * command) := [
  ("enable-data-collection", prv_cmd_enable_data_collection);
  ("disable-data-collection", prv_cmd_disable_data_collection);
  ("enable-dev-mode", prv_cmd_enable_developer_mode);
  ("disable-dev-mode", prv_cmd_disable_developer_mode);
  ("reboot", prv_cmd_reboot);
  ("request-metrics", prv_cmd_request_metrics);
  ("show-settings", prv_cmd_show_settings);
  ("sync", prv_cmd_sync);
  ("trigger-coredump", prv_cmd_trigger_coredump);
  ("write-attributes", prv_cmd_write_attributes) ].

(** [opts] are the options getopt returns, [args] what follows them; [config_init] is
    [ticosd_config_init].  The result has the exit code, and no configuration when the program
    ends before reading it. *)
Fixpoint ctl_options (opts : list (ascii * string)) (config_file : string) : (list action * Z) + string :=
  match opts with
  | [] => inr config_file
  | (letter, optarg) :: opts =>
      match letter with
      | "c"%char => ctl_options opts optarg
      | "h"%char => inl ([Usage], 0)
      | "v"%char => inl ([], 0)
      | _ => inl ([], -1)
      end
  end.

Definition ticosctl_main (env : ctl_env) (config_init : string -> outcome sTicosdConfig) (opts : list (ascii * string))
    (args : list string) (fs : files) : outcome (files * list action * option Z) :=
  match ctl_options opts "/etc/ticosd.conf" with
  | inl (acts, code) => Val (fs, acts, Some code)
  | inr config_file =>
      match args with
      | [] => Val (fs, [Usage], Some (-1))
      | name :: extra =>
          let! config := config_init config_file in
          let dev_mode := default false (config_get_boolean config None CONFIG_KEY_DEV_MODE) in
          match find (fun c => String.eqb name (fst c)) cmds with
          | Some (_, cmd) =>
              let! (_, fs, acts, code) := cmd env (MkCtl config extra dev_mode) fs in Val (fs, acts, code)
          | None => Val (fs, [Usage], Some (-1))
          end
      end
  end.
End Commands.
