(* ===== verification/TicosCtlSpec.v ===== *)
(** * What ticosctl does to the daemon and to the device

    Each command with what becomes of it: attributes at the daemon's attributes plugin, a
    reboot reason at the reboot plugin after the reboot. *)
From stdpp Require Import gmap.
From S2P Require Import Prelude CLib Queue QueueWitnesses TxQueue Json Network NetworkWitnesses Daemon DaemonSpec Config.
From S2P Require Import ConfigSpec JsonTree DaemonWitnesses DeviceSettings Plugins PluginsSpec RebootReason Reboot RebootSpec TicosCtl.
#[local] Open Scope string_scope.
#[local] Open Scope list_scope.
#[local] Open Scope Z_scope.

(** ** Parsing attributes *)
Section Parsing.
Context `{JsonLaws, !JsonArray, !JsonArrayLaws}.

Lemma strchr_split c s : forall before after, strchr c s = Some (before, after) ->
  s = before +:+ String c after /\ without c before.
Proof.
  induction s as [|a s IH]; cbn [strchr]; [done|]. intros before after. destruct (Ascii.eqb_spec a c) as [->|Hne].
  - intros [= <- <-]. split; [done|constructor].
  - destruct (strchr c s) as [[b r]|]; [|done]. intros [= <- <-]. destruct (IH b r eq_refl) as [-> Hw].
    split; [done|]. now constructor.
Qed.

Lemma strchr_app c before after : without c before -> strchr c (before +:+ String c after) = Some (before, after).
Proof.
  induction before as [|a before IH]; intros Hb.
  - change (EmptyString +:+ String c after) with (String c after). cbn [strchr]. now rewrite Ascii.eqb_refl.
  - cbn in Hb. apply Forall_cons_1 in Hb as [Ha Hb]. apply Ascii.eqb_neq in Ha.
    change (String a before +:+ String c after) with (String a (before +:+ String c after)). cbn [strchr].
    now rewrite Ha, IH.
Qed.

(** An argument NAME=VALUE. *)
Definition assignment (kv : string * string) : string := fst kv +:+ String "=" (snd kv).
Definition valid_key (k : string) : Prop := k <> EmptyString /\ without "=" k.

(** The object of an attribute: the name, and the value, a JSON scalar when it parses as one. *)
Definition attribute_object (kv : string * string) : json_object :=
  json_object_object_add
    (json_object_object_add json_object_new_object "string_key" (Some (json_object_new_string (fst kv))))
    "value" (Some (prv_parse_attribute_value (snd kv))).

Lemma parse_attribute_valid kv : valid_key (fst kv) -> parse_attribute (assignment kv) = Some (Val (attribute_object kv)).
Proof.
  intros [Hne Hw]. unfold parse_attribute, assignment. rewrite strchr_app by done. apply String.eqb_neq in Hne.
  rewrite Hne. unfold object_add. assert (E : json_is_object json_object_new_object = true).
  { apply bool_decide_eq_true_2, type_new_object. }
  rewrite E. cbn [obind]. unfold json_is_object. rewrite type_object_add, type_new_object. reflexivity.
Qed.

Lemma parse_attributes_valid kvs rest : forall json, Forall (fun kv => valid_key (fst kv)) kvs ->
  parse_attributes (map assignment kvs ++ rest) json =
    parse_attributes rest (foldl json_object_array_add json (map attribute_object kvs)).
Proof.
  induction kvs as [|kv kvs IH]; intros json Hk; [done|]. apply Forall_cons_1 in Hk as [Hk Hks].
  cbn [map app parse_attributes foldl]. rewrite parse_attribute_valid by done. cbn [obind]. now apply IH.
Qed.

Lemma array_of_length os : forall json, json_object_array_length (foldl json_object_array_add json os) =
  json_object_array_length json + zlen os.
Proof.
  induction os as [|o os IH]; intros json; cbn [foldl]; [cbn; lia|]. rewrite IH, array_add_length. cbn [length]. lia.
Qed.

(** No name, an '=' and a value. *)
Definition malformed (arg : string) : Prop := forall kv, valid_key (fst kv) -> arg <> assignment kv.

Lemma parse_attribute_malformed arg : malformed arg -> parse_attribute arg = None.
Proof.
  intros Hm. unfold parse_attribute. destruct (strchr "=" arg) as [[k v]|] eqn:E; [|done].
  destruct (String.eqb_spec k EmptyString) as [|Hk]; [done|]. apply strchr_split in E as [E Hw].
  destruct (Hm (k, v)); [now split|exact E].
Qed.

(** arguments NAME=VALUE become one array with an object per argument, in their order, the
    first '=' ending the name; no argument, or one without a name, is refused whatever
    surrounds it. *)
Theorem parse_attributes_spec (kvs : list (string * string)) : Forall (fun kv => valid_key (fst kv)) kvs ->
  (kvs <> [] -> ticosd_parse_attributes (map assignment kvs) =
     Val (Some (foldl json_object_array_add json_object_new_array (map attribute_object kvs)))) /\
  ticosd_parse_attributes [] = Val None /\
  (forall bad rest, malformed bad -> ticosd_parse_attributes (map assignment kvs ++ bad :: rest) = Val None).
Proof.
  intros Hk. unfold ticosd_parse_attributes. split; [|split].
  - intros Hne. rewrite <- (app_nil_r (map assignment kvs)), parse_attributes_valid by done. cbn [parse_attributes obind].
    assert (L : 1 <= zlen kvs) by (destruct kvs; [done|cbn [length]; lia]).
    rewrite array_of_length, new_array_length, length_map. now test_false (0 + zlen kvs <? 1).
  - cbn [parse_attributes obind]. now rewrite new_array_length.
  - intros bad rest Hb. rewrite parse_attributes_valid by done. cbn [parse_attributes].
    now rewrite parse_attribute_malformed.
Qed.
End Parsing.

(** ** Messages to the daemon *)

(** The whole datagram is taken. *)
Definition sends (env : ctl_env) : Prop :=
  socket_ok env = true /\ msg_malloc env = true /\ (forall m, zlen m < 2 ^ 64 -> sendto env m = zlen m) /\
  0 < time_now env /\ zlen (padding env) = 5.

Lemma attributes_msg_eq env text : attributes_msg env text = attributes_message (padding env) 1 text.
Proof. reflexivity. Qed.

Lemma name_length : length (bytes_of_string ATTRIBUTES_IPC_NAME) = 10%nat.
Proof. reflexivity. Qed.
#[local] Hint Rewrite name_length : lens.

Lemma attributes_message_length pad t text : zlen pad = 5 -> zlen (attributes_message pad t text) = 25 + zlen (bytes_of_string text).
Proof. intros Hp. unfold attributes_message. lens. Qed.

Lemma ipc_sendmsg_ok env m : sends env -> zlen m < 2 ^ 64 -> ticosd_ipc_sendmsg env m = ([SendTo m], true).
Proof.
  intros (Hs & _ & Hr & _) Hm. unfold ticosd_ipc_sendmsg. rewrite Hs. cbn [negb]. rewrite Hr, u64_small by lia.
  now rewrite Z.eqb_refl.
Qed.

Section Writing.
Context `{JsonTree, !JsonArray}.

Lemma write_attributes_sends env (h : sTicosCtl) fs json : sends env -> ctl_dev_mode h = false ->
  ticosd_parse_attributes (extra_args h) = Val (Some json) ->
  zlen (bytes_of_string (json_object_to_json_string json)) < 2 ^ 32 ->
  prv_cmd_write_attributes env h fs =
    Val (ctl_config h, fs, [SendTo (attributes_message (padding env) 1 (json_object_to_json_string json))], Some 0).
Proof.
  intros Hs Hd Hp Hl. pose proof Hs as (_ & Hm & _ & Ht & Hpad). unfold prv_cmd_write_attributes. rewrite Hp. cbn [obind].
  rewrite Hm. test_true (time_now env >? 0). cbn [negb]. rewrite ipc_sendmsg_ok; [|done|].
  - now rewrite Hd.
  - rewrite attributes_msg_eq, attributes_message_length by done. lia.
Qed.
End Writing.

(** ** From the command to the server *)
Section EndToEnd.
Context {Q C W : Type} `{TxQueue Q, ConfigOps C, NetworkOps W} `{JsonTree, !JsonArray}.
Abbreviation S := (sTicosd Q C W).

(** The attributes plugin, loaded. *)
Definition attributes_loaded : sTicosdPluginDef S := set_fns (Some (MkFns None (Some prv_msg_handler))) attributes_plugin.

Lemma attributes_names buf : (11 <= length buf)%nat -> names_ok buf [attributes_loaded].
Proof.
    intros Hl. apply Forall_cons_2; [|apply Forall_nil_2]. split.
    - unfold no_nul. cbn. repeat (apply Forall_cons_2; [discriminate|]). apply Forall_nil_2.
    - cbn. lia.
Qed.

Lemma attributes_takes pad t text rest size : 10 < size ->
  takes (attributes_message pad t text ++ rest) size attributes_loaded.
Proof.
    intros Hs. split; [now exists None, prv_msg_handler|]. split; [discriminate|]. split; [exact Hs|]. reflexivity.
Qed.

(** The daemon's turn when a message arrives. *)
Lemma attributes_turn buf (rx d : list Z) (s : S) : 0 < zlen d <= RX_BUFFER_SIZE -> (11 <= length d)%nat ->
  buf = d ++ drop (length d) rx -> takes buf (zlen d) attributes_loaded ->
  ipc_turn [attributes_loaded] rx (Datagram d) s = (let* _ := prv_msg_handler buf (zlen d) in ret buf) s.
Proof.
    intros Hd Hl -> Ht. rewrite ipc_turn_datagram by done. cbv zeta.
    assert (N : names_ok (d ++ drop (length d) rx) [attributes_loaded]) by (apply attributes_names; lens).
    apply Forall_cons_1 in N as [[N1 N2] _].
    rewrite (process_ipc_take attributes_loaded [] _ _ None prv_msg_handler) by done.
    unfold bind, ret. now destruct (prv_msg_handler _ _ s) as [[s' b]| |].
Qed.

(** C35: attributes written with ticosctl are dated one second after the epoch: the tool sends
    the result of a comparison for the time, and the daemon queues it and sends it as
    1970-01-01T00:00:01Z, with exactly the JSON text of the arguments. *)
Theorem attributes_dated_1970 env (h : sTicosCtl) fs json rx (s s' s1 : S) b :
  sends env -> ctl_dev_mode h = false -> ticosd_parse_attributes (extra_args h) = Val (Some json) ->
  let text := json_object_to_json_string json in
  no_nul text -> zlen (bytes_of_string text) < 1000 -> zlen rx = RX_BUFFER_SIZE -> mallocs s = [] -> mallocs s' = [] ->
  let entry := attributes_entry 1 text in
  ticosd_txdata (Some entry) (zlen entry - 1) s = Val (s1, b) ->
  exists m buf, prv_cmd_write_attributes env h fs = Val (ctl_config h, fs, [SendTo m], Some 0) /\
    ipc_turn [attributes_loaded] rx (Datagram m) s = Val (s1, buf) /\
    send_entry entry s' =
      on_network (fun w => network_post w (attributes_endpoint (device_id (dsettings s')) "1970-01-01T00:00:01Z")
        kTicosdHttpMethod_PATCH (Some text)) s'.
Proof.
    intros Hs Hd Hp text Hn Hl Hrx Hm Hm' entry Htx. pose proof Hs as (_ & _ & _ & _ & Hpad).
    set (m := attributes_message (padding env) 1 text). set (buf := m ++ drop (length m) rx).
    assert (Lm : zlen m = 25 + zlen (bytes_of_string text)) by (now apply attributes_message_length).
    exists m, buf. split; [apply write_attributes_sends; (done || fold text; lia)|]. split.
    - rewrite (attributes_turn buf) by (unfold RX_BUFFER_SIZE; first [lia | done | apply attributes_takes; lia]).
      unfold bind. unfold buf, m. rewrite (attributes_queued (padding env) 1 text) by (rewrite ?Hm; done || lia).
      fold entry. assert (K : heap_set [] s = s) by (destruct s; cbn in *; now subst).
      rewrite Hm. cbn [tail]. rewrite K, Htx. reflexivity.
    - assert (K' : heap_set [] s' = s') by (destruct s'; cbn in *; now subst).
      unfold entry. rewrite (entry_sent 1 text Hn "1970-01-01T00:00:01Z"); rewrite ?Hm'; try done.
      cbn [tail]. now rewrite K'.
Qed.

Lemma c_string_no_nul bs : Forall (fun b => b <> 0) bs -> c_string bs = Fault.
Proof.
    induction 1 as [|b bs Hb _ IH]; [done|]. cbn [c_string]. apply Z.eqb_neq in Hb. now rewrite Hb, IH.
Qed.

(** attributes of a thousand characters and more make the daemon read past its receive
    buffer: the tool sends the message whole, recvmsg cuts it off before its NUL. *)
Theorem long_attributes_undefined env (h : sTicosCtl) fs json rx (s : S) :
  sends env -> ctl_dev_mode h = false -> ticosd_parse_attributes (extra_args h) = Val (Some json) ->
  let text := json_object_to_json_string json in
  no_nul text -> 1000 <= zlen (bytes_of_string text) < 2 ^ 32 -> zlen rx = RX_BUFFER_SIZE ->
  exists m, prv_cmd_write_attributes env h fs = Val (ctl_config h, fs, [SendTo m], Some 0) /\
    ipc_turn [attributes_loaded] rx (Datagram m) s = Fault.
Proof.
    intros Hs Hd Hp text Hn Hl Hrx. pose proof Hs as (_ & _ & _ & _ & Hpad).
    set (m := attributes_message (padding env) 1 text). set (got := take 1024 m).
    assert (Lm : zlen m = 25 + zlen (bytes_of_string text)) by (now apply attributes_message_length).
    assert (Lg : zlen got = 1024) by (unfold got; lens).
    exists m. split; [apply write_attributes_sends; (done || fold text; lia)|].
    transitivity (ipc_turn [attributes_loaded] rx (Datagram got) s).
    { unfold ipc_turn. cbn [recvmsg]. change (Z.to_nat RX_BUFFER_SIZE) with 1024%nat. fold got.
      now rewrite (take_ge got) by lia. }
    pose (head := bytes_of_string ATTRIBUTES_IPC_NAME ++ [0] ++ padding env ++ le_bytes 8 1).
    assert (Lh : length head = 24%nat) by (unfold head; lens).
    assert (G : got = head ++ take 1000 (bytes_of_string text)).
    { unfold got, m, attributes_message. replace (bytes_of_string ATTRIBUTES_IPC_NAME ++ [0] ++ padding env ++ le_bytes 8 1 ++
        bytes_of_string text ++ [0]) with (head ++ (bytes_of_string text ++ [0])) by (unfold head; now rewrite <- !app_assoc).
      rewrite take_app, take_ge by lia. f_equal. rewrite Lh. rewrite take_app_le by lia. reflexivity. }
    rewrite (attributes_turn got) by first
      [ unfold RX_BUFFER_SIZE; lia | rewrite drop_ge by (unfold RX_BUFFER_SIZE in *; lia); now rewrite app_nil_r
      | rewrite G; unfold head; rewrite <- !app_assoc; split; [now exists None, prv_msg_handler|];
        split; [discriminate|]; split; [change (zlen (bytes_of_string (ipc_name attributes_loaded))) with 10; unfold got in Lg; lens|reflexivity] ].
    assert (J : ipc_json got = Fault).
    { unfold ipc_json. rewrite Lg, G. change sizeof_sTicosAttributesIPC with 24. replace 24 with (zlen head) by lia.
      rewrite load_after by lens. cbn [obind]. rewrite take_ge by lens. apply c_string_no_nul, Forall_take. exact Hn. }
    unfold bind, prv_msg_handler, prv_build_queue_entry, bind, lift. now rewrite J.
Qed.
End EndToEnd.

(** ** Crashes on request *)

(** trigger-coredump does the opposite of what it is asked: "segfault" triggers a division
    by zero, "divide-by-zero" and every unknown name a segmentation fault; no name is
    refused. *)
Theorem trigger_coredump_inverted `{JsonTree, !JsonArray} env (h : sTicosCtl) fs arg rest :
  ctl_dev_mode h = false -> extra_args h = arg :: rest ->
  prv_cmd_trigger_coredump env h fs =
    Val (ctl_config h, fs,
         [TriggerCrash (if String.eqb arg "segfault" then eErrorTypeFPException else eErrorTypeSegFault)], Some 0).
Proof.
  intros Hd Ha. unfold prv_cmd_trigger_coredump, strcmp_true. rewrite Ha, Hd.
  destruct (String.eqb_spec arg "segfault") as [->|]; reflexivity.
Qed.

(** ** A reboot with a reason *)
Section RebootCommand.
Context {Q W : Type} `{TxQueue Q, NetworkOps W} `{JsonTree, !JsonArray}.

End RebootCommand.

(** ** ticosctl on a concrete system *)

(** ** Arrays with a text *)
Fixpoint print_jval (v : jval) : string :=
  match v with
  | JBool b => if b then "true" else "false"
  | JInt z => print_Z z
  | JString s => quoted s
  | JObject ms =>
      "{ " +:+ String.concat ", "
        (rev (map (fun kv => quoted (fst kv) +:+ ": " +:+ match snd kv with Some v => print_jval v | None => "null" end) ms))
      +:+ " }"
  end.

#[export] Instance tree_array : JsonArray := {
  json_array := list jval;
  json_object_new_array := [];
  json_object_array_add a o := a ++ [o];
  json_object_array_length a := zlen a;
  json_object_to_json_string a := "[ " +:+ String.concat ", " (map print_jval a) +:+ " ]" }.

#[export] Instance tree_array_laws : JsonArrayLaws.
Proof. constructor; [reflexivity|]. intros a o. cbn. rewrite length_app. cbn [length]. lia. Defined.

(** The pairs of the unit tests of parse_attributes.c; this JSON library parses no text. *)
Example two_attributes :
  (let! json := ticosd_parse_attributes ["VAR1=VALUE1"; "V=abc=def"] in Val (option_map json_object_to_json_string json)) =
  Val (Some ("[ { " +:+ quoted "string_key" +:+ ": " +:+ quoted "VAR1" +:+ ", " +:+ quoted "value" +:+ ": " +:+ quoted "VALUE1" +:+
    " }, { " +:+ quoted "string_key" +:+ ": " +:+ quoted "V" +:+ ", " +:+ quoted "value" +:+ ": " +:+ quoted "abc=def" +:+ " } ]")).
Proof. vm_compute. reflexivity. Qed.

Definition two_pairs : list (string * string) := [("VAR1", "VALUE1"); ("V", "abc=def")].

Lemma parse_attributes_spec_witness :
  (two_pairs <> [] -> ticosd_parse_attributes (map assignment two_pairs) =
     Val (Some (foldl json_object_array_add json_object_new_array (map attribute_object two_pairs)))) /\
  ticosd_parse_attributes [] = Val None /\
  (forall bad rest, malformed bad -> ticosd_parse_attributes (map assignment two_pairs ++ bad :: rest) = Val None).
Proof.
  apply (parse_attributes_spec two_pairs).
  unfold valid_key, without. cbn. repeat (constructor; try discriminate).
Defined.

(** ** Commands *)
Definition sample_ctl_env : ctl_env :=
  MkCtlEnv true (fun m => zlen m) None true true true true true true true [0; 0; 0; 0; 0] 1669807440 (MkWriteEnv true true) false false.

Lemma sample_sends : sends sample_ctl_env.
Proof. repeat split; reflexivity. Defined.

Definition reboot_settings : sTicosdConfig :=
  MkConfig (Some (JObject [("reboot_plugin", Some (JObject [("last_reboot_reason_file", Some (JString customer_path))]))]))
    (Some (JObject [])).

Definition sample_ctl (args : list string) : sTicosCtl := MkCtl reboot_settings args false.

Definition parsed (args : list string) : list jval :=
  match ticosd_parse_attributes args with Val (Some json) => json | _ => [] end.

Definition one_attribute : list string := ["VAR1=VALUE1"].
Definition one_text : string := json_object_to_json_string (parsed one_attribute : json_array).

Definition after_attributes : PluginsSpec.daemon :=
  match ticosd_txdata (Some (attributes_entry 1 one_text)) (zlen (attributes_entry 1 one_text) - 1) idle_device with
  | Val (s, _) => s
  | _ => idle_device
  end.

Lemma one_text_ok : no_nul one_text.
Proof. vm_compute. repeat (constructor; [discriminate|]). constructor. Qed.

Lemma attributes_dated_1970_witness :
  exists m buf, prv_cmd_write_attributes sample_ctl_env (sample_ctl one_attribute) ∅ =
      Val (reboot_settings, ∅, [SendTo m], Some 0) /\
    ipc_turn [attributes_loaded (C := sample_config)] sample_rx (Datagram m) idle_device = Val (after_attributes, buf) /\
    send_entry (attributes_entry 1 one_text) after_attributes =
      on_network (fun w => network_post w (attributes_endpoint (device_id (dsettings after_attributes)) "1970-01-01T00:00:01Z")
        kTicosdHttpMethod_PATCH (Some one_text)) after_attributes.
Proof.
  refine (attributes_dated_1970 (C := sample_config) sample_ctl_env (sample_ctl one_attribute) ∅ (parsed one_attribute) sample_rx idle_device
    after_attributes after_attributes true sample_sends eq_refl _ one_text_ok _ eq_refl eq_refl _ _); vm_compute; reflexivity.
Defined.

(** A value of a thousand characters. *)
Fixpoint xs (n : nat) : string := match n with O => EmptyString | S n => String "x" (xs n) end.
Definition long_attribute : list string := ["VAR1=" +:+ xs 1000].
Definition long_text : string := json_object_to_json_string (parsed long_attribute : json_array).

Lemma forall_not_zero bs : forallb (fun b => negb (b =? 0)) bs = true -> Forall (fun b => b <> 0) bs.
Proof.
  induction bs as [|b bs IH]; intros F; constructor; apply andb_true_iff in F as [Fb F]; [|now apply IH].
  apply negb_true_iff, Z.eqb_neq in Fb. exact Fb.
Qed.

Lemma long_attributes_undefined_witness :
  exists m, prv_cmd_write_attributes sample_ctl_env (sample_ctl long_attribute) ∅ =
      Val (reboot_settings, ∅, [SendTo m], Some 0) /\
    ipc_turn [attributes_loaded (C := sample_config)] sample_rx (Datagram m) idle_device = Fault.
Proof.
  refine (long_attributes_undefined (C := sample_config) sample_ctl_env (sample_ctl long_attribute) ∅ (parsed long_attribute) sample_rx idle_device
    sample_sends eq_refl _ _ _ eq_refl).
  - vm_compute. reflexivity.
  - apply forall_not_zero. vm_compute. reflexivity.
  - split; [apply Z.leb_le|apply Z.ltb_lt]; vm_compute; reflexivity.
Defined.

Lemma trigger_coredump_inverted_witness :
  prv_cmd_trigger_coredump sample_ctl_env (sample_ctl ["segfault"]) ∅ =
    Val (reboot_settings, ∅, [TriggerCrash (if String.eqb "segfault" "segfault" then eErrorTypeFPException else eErrorTypeSegFault)], Some 0).
Proof. exact (trigger_coredump_inverted sample_ctl_env (sample_ctl ["segfault"]) ∅ "segfault" [] eq_refl eq_refl). Defined.

