(* ===== verification/Systemd.v ===== *)
(** * Services (src/util/systemd.c)

    The calls of sd-bus are the class [SdBus] on a type of systems; a property that cannot be
    read is [None]. *)
From S2P Require Import Prelude CLib.
#[local] Open Scope string_scope.
#[local] Open Scope list_scope.
#[local] Open Scope Z_scope.

Class SdBus (B : Type) := {
  sd_bus_default_system : B -> B * bool;
  sd_bus_path_encode : B -> string -> B * bool;
  ActiveState : B -> string -> B * option string;
  RestartUnit : B -> string -> B * bool;
  KillUnit : B -> string -> Z -> B * bool }.

Section Systemd.
Context {B : Type} `{SdBus B}.

(** The state, [None] when it cannot be found out. *)
Definition prv_systemd_get_service_state (service_name : string) (bus : B) : B * option string :=
  let '(bus, ok) := sd_bus_path_encode bus service_name in
  if negb ok then (bus, None) else ActiveState bus service_name.

Definition prv_systemd_restart_service (service_name : string) (bus : B) : B * bool := RestartUnit bus service_name.
Definition prv_systemd_kill_service (service_name : string) (signal : Z) (bus : B) : B * bool := KillUnit bus service_name signal.

Definition ticosd_restart_service_if_running (service_name : string) (bus : B) : B * bool :=
  let '(bus, ok) := sd_bus_default_system bus in
  if negb ok then (bus, false)
  else
    let '(bus, state) := prv_systemd_get_service_state service_name bus in
    match state with
    | None => (bus, false)
    | Some state =>
        if negb (String.eqb "active" state) && negb (String.eqb "activating" state) then (bus, false)
        else
          let '(bus, ok) := prv_systemd_restart_service service_name bus in
          if negb ok then (bus, false) else (bus, true)
    end.

Definition ticosd_kill_service (service_name : string) (signal : Z) (bus : B) : B * bool :=
  let '(bus, ok) := sd_bus_default_system bus in
  if negb ok then (bus, false)
  else
    let '(bus, ok) := prv_systemd_kill_service service_name signal bus in
    if negb ok then (bus, false) else (bus, true).
End Systemd.

(** ** A system with some units *)
Record unit_table := MkUnits { states : string -> option string; requests : list (string * option Z) }.

(** A request is a restart or a signal. *)
Definition asked (u : unit_table) (r : string * option Z) : unit_table := MkUnits (states u) (requests u ++ [r]).

#[export] Instance unit_table_bus : SdBus unit_table := {
  sd_bus_default_system u := (u, true);
  sd_bus_path_encode u _ := (u, true);
  ActiveState u name := (u, states u name);
  RestartUnit u name := (asked u (name, None), true);
  KillUnit u name signal := (asked u (name, Some signal), true) }.
