(* ===== verification/Collectd.v ===== *)
(** * The collectd plugin (src/plugins/collectd/collectd.c)

    It writes two files that collectd includes, and has collectd restarted.  The plugin acts on
    the daemon, the files, the system's services and its own handle.  Which files can be
    opened for writing and which writes succeed is in [collectd_env]. *)
From stdpp Require Import gmap.
From S2P Require Import Prelude CLib Network TxQueue Daemon Plugins Systemd.
#[local] Open Scope string_scope.
#[local] Open Scope list_scope.
#[local] Open Scope Z_scope.

Definition DEFAULT_HEADER_INCLUDE_OUTPUT_FILE : string := "/tmp/collectd-header-include.conf".
Definition DEFAULT_FOOTER_INCLUDE_OUTPUT_FILE : string := "/tmp/collectd-footer-include.conf".
Definition DEFAULT_INTERVAL_SECS : Z := 3600.
Definition COLLECTD_PATH : string := "/logstash".
Definition TICOS_HEADER : string := "Ticos-Project-Key".
Definition collectd_service : string := "collectd.service".

(** A line of text. *)
Definition line (s : string) : string := s +:+ String "010" EmptyString.

Definition write_http_fmt : string :=
  line "<LoadPlugin write_http>" +:+
  line "  FlushInterval %d" +:+
  line "</LoadPlugin>" +:+ line EmptyString +:+
  line "<Plugin write_http>" +:+
  line ("  <Node " +:+ quoted "ticos" +:+ ">") +:+
  line ("    URL " +:+ quoted "%s") +:+
  line "#    VerifyPeer true" +:+
  line "#    VerifyHost true" +:+
  line ("    Header " +:+ quoted "%s") +:+
  line ("    Header " +:+ quoted "deviceId: %s") +:+
  line ("    Header " +:+ quoted "hardwareVersion: %s") +:+
  line ("    Header " +:+ quoted "softwareType: %s") +:+
  line ("    Header " +:+ quoted "softwareVersion: %s") +:+
  line ("    Format " +:+ quoted "JSON") +:+
  line "    Metrics true" +:+
  line "    Notifications false" +:+
  line "    StoreRates %s" +:+
  line "    BufferSize %d" +:+
  line "    LowSpeedLimit %d" +:+
  line "    Timeout %d" +:+
  line "  </Node>" +:+
  line "</Plugin>" +:+ line EmptyString.

Definition chain_fmt : string :=
  line "LoadPlugin match_regex" +:+
  line ("PostCacheChain " +:+ quoted "TicosdGeneratedPostCacheChain") +:+
  line ("<Chain " +:+ quoted "TicosdGeneratedPostCacheChain" +:+ ">") +:+
  line ("  <Rule " +:+ quoted "ignore_memory_metrics" +:+ ">") +:+
  line ("    <Match " +:+ quoted "regex" +:+ ">") +:+
  line ("      Type " +:+ quoted "^memory$") +:+
  line ("      TypeInstance " +:+ quoted "^(buffered|cached|slab_recl|slab_unrecl)$") +:+
  line "    </Match>" +:+
  "%s" +:+
  line "  </Rule>" +:+
  line ("  Target " +:+ quoted "write") +:+
  line "</Chain>" +:+ line EmptyString.

(** Its closing tag has no line end. *)
Definition target_fmt : string :=
  line ("    <Target " +:+ quoted "jump" +:+ ">") +:+
  line ("      Chain " +:+ quoted "%s") +:+
  "    </Target>".

(** The plugin's handle; [ticosd] is in [collectd_world]. *)
Record sTicosdPlugin := MkCollectd {
  was_enabled : bool;
  header_include_output_file : string;
  footer_include_output_file : string }.

(** Whether a file can be opened with "w+", whether fprintf to it succeeds; whether a file that
    exists can be found by access(2), which otherwise fails with this errno. *)
Record collectd_env := MkCollectdEnv {
  can_open : string -> bool;
  can_print : string -> bool;
  access_errno : string -> option Z }.

Definition ENOENT : Z := 2.
Definition SIGUSR1 : Z := 10.

Section Collectd.
Context {Q C W B : Type} `{TxQueue Q, ConfigOps C, NetworkOps W, SdBus B} (env : collectd_env).

Record collectd_world := MkCollectdWorld {
  ticosd : sTicosd Q C W;
  fs : files;
  bus : B;
  handle : sTicosdPlugin;
  slept : Z }.

Definition on_daemon {A} (m : M (sTicosd Q C W) A) : M collectd_world A := fun w =>
  let! (t, a) := m (ticosd w) in Val (MkCollectdWorld t (fs w) (bus w) (handle w) (slept w), a).
Definition on_bus {A} (f : B -> B * A) : M collectd_world A := fun w =>
  let '(b, a) := f (bus w) in Val (MkCollectdWorld (ticosd w) (fs w) b (handle w) (slept w), a).
Definition set_files (f : files -> files) : M collectd_world unit :=
  modify (fun w => MkCollectdWorld (ticosd w) (f (fs w)) (bus w) (handle w) (slept w)).
Definition set_was_enabled (e : bool) : M collectd_world unit :=
  modify (fun w => MkCollectdWorld (ticosd w) (fs w) (bus w)
    (MkCollectd e (header_include_output_file (handle w)) (footer_include_output_file (handle w))) (slept w)).
Definition sleep (seconds : Z) : M collectd_world unit :=
  modify (fun w => MkCollectdWorld (ticosd w) (fs w) (bus w) (handle w) (slept w + seconds)).

(** fopen "w+" empties the file; [None] when it fails. *)
Definition fopen_w (name : string) : M collectd_world bool :=
  if can_open env name then let* _ := set_files (<[name := []]>) in ret true else ret false.

(** fprintf at the end of the file. *)
Definition fprintf (name fmt : string) (args : list printf_arg) : M collectd_world bool :=
  let* text := lift (vsprintf fmt args) in
  if can_print env name then
    let* _ := set_files (fun fs => <[name := default [] (fs !! name) ++ bytes_of_string text]> fs) in ret true
  else ret false.

Definition collectd_integer (key : string) (initial : Z) : M collectd_world Z :=
  on_daemon (gets (fun t => default initial (ticosd_get_integer (Some "collectd_plugin") key t))).
Definition top_string (key : string) : M collectd_world (option string) :=
  on_daemon (gets (ticosd_get_string (Some EmptyString) key)).

Definition prv_generate_header_include (override_interval : Z) : M collectd_world bool :=
  let* interval_seconds := collectd_integer "interval_seconds" DEFAULT_INTERVAL_SECS in
  let interval_seconds := if override_interval >? 0 then override_interval else interval_seconds in
  let* file := gets (fun w => header_include_output_file (handle w)) in
  let* ok := fopen_w file in
  if negb ok then ret false
  else
    let* ok := fprintf file (line "Interval %d" +:+ line EmptyString) [ArgZ interval_seconds] in
    if negb ok then ret false else ret true.

Definition prv_generate_write_http (file : string) : M collectd_world bool :=
  let* settings := on_daemon (gets ticosd_get_device_settings) in
  let* base_url := top_string "base_url" in
  let* software_type := top_string "software_type" in
  let* software_version := top_string "software_version" in
  let* project_key := top_string "project_key" in
  match base_url, software_type, software_version, project_key with
  | Some base_url, Some software_type, Some software_version, Some project_key =>
      let* interval_seconds := collectd_integer "interval_seconds" 0 in
      let* buffer_size := collectd_integer "write_http_buffer_size_kib" 64 in
      let* buffer_size := lift (int_mul buffer_size 1024) in
      let* url := on_daemon (ticos_asprintf "%s%s" [ArgS (Some base_url); ArgS (Some COLLECTD_PATH)]) in
      match url with
      | None => ret false
      | Some url =>
          let* add_header := on_daemon (ticos_asprintf "%s: %s" [ArgS (Some TICOS_HEADER); ArgS (Some project_key)]) in
          match add_header with
          | None => ret false
          | Some add_header =>
              let* ok := fprintf file write_http_fmt
                [ArgZ interval_seconds; ArgS (Some url); ArgS (Some add_header); ArgS (Some (device_id settings));
                 ArgS (Some (hardware_version settings)); ArgS (Some software_type); ArgS (Some software_version);
                 ArgS (Some "true"); ArgZ buffer_size; ArgZ 0; ArgZ 0] in
              if negb ok then ret false else ret true
          end
      end
  | _, _, _, _ => ret false
  end.

(** A NULL from strdup is printed. *)
Definition prv_generate_chain (file : string) : M collectd_world bool :=
  let* chain := on_daemon (gets (ticosd_get_string (Some "collectd_plugin") "non_ticosd_chain")) in
  let* target :=
    match chain with
    | Some (String _ _ as chain) =>
        let* t := on_daemon (ticos_asprintf target_fmt [ArgS (Some chain)]) in
        ret (option_map Some t)
    | _ =>
        let* t := on_daemon (strdup (line ("    Target " +:+ quoted "stop"))) in ret (Some t)
    end in
  match target with
  | None => ret false
  | Some target =>
      let* ok := fprintf file chain_fmt [ArgS target] in
      if negb ok then ret false else ret true
  end.

Definition prv_generate_footer_include : M collectd_world bool :=
  let* file := gets (fun w => footer_include_output_file (handle w)) in
  let* ok := fopen_w file in
  if negb ok then ret false
  else
    let* ok := prv_generate_write_http file in
    if negb ok then ret false
    else
      let* ok := prv_generate_chain file in
      if negb ok then ret false else ret true.

(** ** Clearing *)
Definition prv_get_file_size (file_path : string) (fs : files) : Z :=
  match access_errno env file_path with
  | Some e => - e
  | None => match fs !! file_path with Some content => zlen content | None => - ENOENT end
  end.

Definition prv_write_empty_file (file_path : string) : M collectd_world bool := fopen_w file_path.

(** One turn of the loop. *)
Definition clear_if_needed (file : string) : M collectd_world bool :=
  let* rv := gets (fun w => prv_get_file_size file (fs w)) in
  let should_clear := rv >? 0 in
  if should_clear || (rv =? - ENOENT) then let* _ := prv_write_empty_file file in ret should_clear
  else ret should_clear.

Definition prv_clear_config_files_if_not_already_cleared : M collectd_world bool :=
  let* h := gets handle in
  let* c1 := clear_if_needed (header_include_output_file h) in
  let* c2 := clear_if_needed (footer_include_output_file h) in
  ret (c1 || c2).

(** ** Reloading, and requests *)
Definition prv_reload : M collectd_world bool :=
  let* off := on_daemon (gets (data_collection_off (Some EmptyString))) in
  if off : bool then
    let* needs_restart := prv_clear_config_files_if_not_already_cleared in
    let* was := gets (fun w => was_enabled (handle w)) in
    if was || needs_restart then
      let* ok := on_bus (ticosd_restart_service_if_running collectd_service) in
      if negb ok then ret false else let* _ := set_was_enabled false in ret true
    else ret true
  else
    let* ok := prv_generate_header_include 0 in
    if negb ok then ret false
    else
      let* ok := prv_generate_footer_include in
      if negb ok then ret false
      else
        let* ok := on_bus (ticosd_restart_service_if_running collectd_service) in
        if negb ok then ret false else let* _ := set_was_enabled true in ret true.

Definition prv_request_metrics : M collectd_world bool :=
  let* was := gets (fun w => was_enabled (handle w)) in
  if was : bool then
    let* ok := on_bus (ticosd_restart_service_if_running collectd_service) in
    if negb ok then ret false
    else
      let* _ := sleep 1 in
      let* _ := on_bus (ticosd_kill_service collectd_service SIGUSR1) in
      ret true
  else ret true.

Definition prv_ipc_handler (msg : list Z) (received_size : Z) : M collectd_world bool := prv_request_metrics.

(** prv_destroy only frees; the reload function is called by nobody but the plugin. *)
Definition s_fns : sTicosdPluginCallbackFns collectd_world := MkFns (Some (ret tt)) (Some prv_ipc_handler).

(** What calloc answers is an argument; failures of the first reload are ignored. *)
Definition ticosd_collectd_init (calloc_ok : bool) : M collectd_world bool :=
  if negb calloc_ok then ret false
  else
    let* enabled := on_daemon (gets (ticosd_get_boolean (Some EmptyString) "enable_data_collection")) in
    let* header := on_daemon (gets (ticosd_get_string (Some "collectd_plugin") "header_include_output_file")) in
    let* footer := on_daemon (gets (ticosd_get_string (Some "collectd_plugin") "footer_include_output_file")) in
    let* _ := modify (fun w => MkCollectdWorld (ticosd w) (fs w) (bus w)
      (MkCollectd (default false enabled) (default DEFAULT_HEADER_INCLUDE_OUTPUT_FILE header)
         (default DEFAULT_FOOTER_INCLUDE_OUTPUT_FILE footer)) (slept w)) in
    let* _ := prv_reload in
    ret true.

(** Its entry in the table of plugins. *)
Definition PLUGIN_COLLECTD_IPC_NAME : string := "COLLECTD".

Definition collectd_plugin : sTicosdPluginDef collectd_world :=
  MkPlugin (fun f => let* ok := ticosd_collectd_init true in ret (if ok then Some s_fns else f, ok)) None "collectd" PLUGIN_COLLECTD_IPC_NAME.
End Collectd.
