(* ===== verification/CollectdSpec.v ===== *)
(** * What the collectd plugin leaves behind

    With consent two files with the server's address and the identity of the device, without
    it two empty files. *)
From stdpp Require Import gmap.
From S2P Require Import Prelude CLib Network TxQueue Daemon Plugins Systemd Collectd.
#[local] Open Scope string_scope.
#[local] Open Scope list_scope.
#[local] Open Scope Z_scope.

(** ** The texts *)
#[local] Arguments String.append : simpl nomatch.

Definition header_text (interval : Z) : string := line ("Interval " +:+ print_Z interval) +:+ line EmptyString.

Definition write_http_text (interval : Z) (base_url project_key : string) (settings : sTicosdDeviceSettings)
    (software_type software_version : string) (buffer_size : Z) : string :=
  line "<LoadPlugin write_http>" +:+
  line ("  FlushInterval " +:+ print_Z interval) +:+
  line "</LoadPlugin>" +:+ line EmptyString +:+
  line "<Plugin write_http>" +:+
  line ("  <Node " +:+ quoted "ticos" +:+ ">") +:+
  line ("    URL " +:+ quoted (base_url +:+ "/logstash")) +:+
  line "#    VerifyPeer true" +:+
  line "#    VerifyHost true" +:+
  line ("    Header " +:+ quoted ("Ticos-Project-Key: " +:+ project_key)) +:+
  line ("    Header " +:+ quoted ("deviceId: " +:+ device_id settings)) +:+
  line ("    Header " +:+ quoted ("hardwareVersion: " +:+ hardware_version settings)) +:+
  line ("    Header " +:+ quoted ("softwareType: " +:+ software_type)) +:+
  line ("    Header " +:+ quoted ("softwareVersion: " +:+ software_version)) +:+
  line ("    Format " +:+ quoted "JSON") +:+
  line "    Metrics true" +:+
  line "    Notifications false" +:+
  line "    StoreRates true" +:+
  line ("    BufferSize " +:+ print_Z buffer_size) +:+
  line "    LowSpeedLimit 0" +:+
  line "    Timeout 0" +:+
  line "  </Node>" +:+
  line "</Plugin>" +:+ line EmptyString.

(** The chain ends in "stop" unless another one is configured. *)
Definition chain_target (chain : option string) : string :=
  match chain with
  | Some (String _ _ as chain) =>
      line ("    <Target " +:+ quoted "jump" +:+ ">") +:+ line ("      Chain " +:+ quoted chain) +:+ "    </Target>"
  | _ => line ("    Target " +:+ quoted "stop")
  end.

Definition chain_text (chain : option string) : string :=
  line "LoadPlugin match_regex" +:+
  line ("PostCacheChain " +:+ quoted "TicosdGeneratedPostCacheChain") +:+
  line ("<Chain " +:+ quoted "TicosdGeneratedPostCacheChain" +:+ ">") +:+
  line ("  <Rule " +:+ quoted "ignore_memory_metrics" +:+ ">") +:+
  line ("    <Match " +:+ quoted "regex" +:+ ">") +:+
  line ("      Type " +:+ quoted "^memory$") +:+
  line ("      TypeInstance " +:+ quoted "^(buffered|cached|slab_recl|slab_unrecl)$") +:+
  line "    </Match>" +:+ chain_target chain +:+
  line "  </Rule>" +:+
  line ("  Target " +:+ quoted "write") +:+
  line "</Chain>" +:+ line EmptyString.

(** Both sides of an equation of texts in normal form. *)
Ltac texts := cbn -[print_Z i32]; repeat (rewrite !string_app_assoc; cbn -[print_Z i32]); reflexivity.

Lemma vsprintf_header n : vsprintf (line "Interval %d" +:+ line EmptyString) [ArgZ n] = Val (header_text (i32 n)).
Proof. unfold header_text, line. texts. Qed.

Lemma vsprintf_write_http interval base key settings st sv size :
  vsprintf write_http_fmt [ArgZ interval; ArgS (Some (base +:+ COLLECTD_PATH)); ArgS (Some (TICOS_HEADER +:+ ": " +:+ key));
    ArgS (Some (device_id settings)); ArgS (Some (hardware_version settings)); ArgS (Some st); ArgS (Some sv); ArgS (Some "true");
    ArgZ size; ArgZ 0; ArgZ 0] =
  Val (write_http_text (i32 interval) base key settings st sv (i32 size)).
Proof. unfold write_http_fmt, write_http_text, COLLECTD_PATH, TICOS_HEADER, line, quoted. texts. Qed.

Lemma vsprintf_url base : vsprintf "%s%s" [ArgS (Some base); ArgS (Some COLLECTD_PATH)] = Val (base +:+ COLLECTD_PATH).
Proof. unfold COLLECTD_PATH. texts. Qed.

Lemma vsprintf_key key : vsprintf "%s: %s" [ArgS (Some TICOS_HEADER); ArgS (Some key)] = Val (TICOS_HEADER +:+ ": " +:+ key).
Proof. unfold TICOS_HEADER. cbn -[print_Z i32]. now rewrite string_app_nil_r. Qed.

Lemma vsprintf_chain target : vsprintf chain_fmt [ArgS (Some (chain_target target))] = Val (chain_text target).
Proof. unfold chain_fmt, chain_text. generalize (chain_target target). intros t. unfold line, quoted. texts. Qed.

Section Spec.
Context {Q C W B : Type} `{TxQueue Q, ConfigOps C, NetworkOps W, SdBus B} (env : collectd_env).
Abbreviation World := (collectd_world (Q := Q) (C := C) (W := W) (B := B)).
Implicit Type w : World.

Definition same_files_but (ps : list string) (fs fs' : files) : Prop := forall p, p ∉ ps -> fs' !! p = fs !! p.

Definition set_fs (f : files) w : World := MkCollectdWorld (ticosd w) f (bus w) (handle w) (slept w).

Lemma fopen_val name w : can_open env name = true -> fopen_w env name w = Val (set_fs (<[name := []]> (fs w)) w, true).
Proof. intros E. unfold fopen_w. now rewrite E. Qed.

Lemma fprintf_val name fmt args text w content : can_print env name = true -> vsprintf fmt args = Val text -> fs w !! name = Some content ->
  fprintf env name fmt args w = Val (set_fs (<[name := content ++ bytes_of_string text]> (fs w)) w, true).
Proof.
  intros Hp Hv Hc. unfold fprintf, bind, lift. rewrite Hv. cbn [obind]. rewrite Hp. unfold set_files, modify, ret. cbn [obind].
  unfold set_fs. now rewrite Hc.
Qed.

Lemma header_val w : let file := header_include_output_file (handle w) in can_open env file = true -> can_print env file = true ->
  prv_generate_header_include env 0 w =
    Val (set_fs (<[file := bytes_of_string (header_text (i32 (default DEFAULT_INTERVAL_SECS
      (ticosd_get_integer (Some "collectd_plugin") "interval_seconds" (ticosd w)))))]> (fs w)) w, true).
Proof.
  intros file Ho Hp. unfold prv_generate_header_include. rewrite (bind_val _ _ w w (default DEFAULT_INTERVAL_SECS
    (ticosd_get_integer (Some "collectd_plugin") "interval_seconds" (ticosd w)))) by (now destruct w).
  change (0 >? 0) with false. cbv iota zeta. rewrite (bind_val _ _ w w file) by done. rewrite (bind_val _ _ _ _ _ (fopen_val _ _ Ho)). cbn [negb].
  erewrite bind_val by (apply fprintf_val; [exact Hp|apply vsprintf_header|apply (lookup_insert_eq (M := gmap string))]). cbn [negb].
  unfold ret, set_fs. cbn. do 2 f_equal. f_equal. apply (insert_insert_eq (M := gmap string)).
Qed.

Lemma on_daemon_gets {A} (f : sTicosd Q C W -> A) w : on_daemon (gets f) w = Val (w, f (ticosd w)).
Proof. now destruct w. Qed.

Lemma collectd_asprintf_val fmt args text w : mallocs (ticosd w) = [] -> vsprintf fmt args = Val text ->
  on_daemon (ticos_asprintf fmt args) w = Val (w, Some text).
Proof.
  intros Hm Hv. unfold on_daemon, ticos_asprintf, bind, lift, malloc_ok. rewrite Hv. cbn [obind]. cbn [heap_get daemon_heap]. rewrite Hm. now destruct w.
Qed.

Lemma strdup_val text w : mallocs (ticosd w) = [] -> on_daemon (strdup text) w = Val (w, Some text).
Proof. intros Hm. unfold on_daemon, strdup, bind, malloc_ok. cbn [heap_get daemon_heap]. rewrite Hm. now destruct w. Qed.

(** What the plugin reads from the configuration. *)
Record collectd_settings := MkCollectdSettings { base_url : string; project_key : string; type : string; version : string; buffer_kib : Z }.

Definition settings_are (t : sTicosd Q C W) (s : collectd_settings) : Prop :=
  ticosd_get_string (Some EmptyString) "base_url" t = Some (base_url s) /\
  ticosd_get_string (Some EmptyString) "software_type" t = Some (type s) /\
  ticosd_get_string (Some EmptyString) "software_version" t = Some (version s) /\
  ticosd_get_string (Some EmptyString) "project_key" t = Some (project_key s) /\
  default 64 (ticosd_get_integer (Some "collectd_plugin") "write_http_buffer_size_kib" t) = buffer_kib s /\
  - 2 ^ 21 <= buffer_kib s < 2 ^ 21.

Definition interval_of (initial : Z) (t : sTicosd Q C W) : Z :=
  i32 (default initial (ticosd_get_integer (Some "collectd_plugin") "interval_seconds" t)).

Definition footer_text (t : sTicosd Q C W) (s : collectd_settings) : string :=
  write_http_text (interval_of 0 t) (base_url s) (project_key s) (dsettings t) (type s) (version s) (buffer_kib s * 1024) +:+
  chain_text (ticosd_get_string (Some "collectd_plugin") "non_ticosd_chain" t).

Lemma write_http_val file w s content : mallocs (ticosd w) = [] -> settings_are (ticosd w) s -> can_print env file = true ->
  fs w !! file = Some content ->
  prv_generate_write_http env file w =
    Val (set_fs (<[file := content ++ bytes_of_string (write_http_text (interval_of 0 (ticosd w)) (base_url s) (project_key s)
      (dsettings (ticosd w)) (type s) (version s) (buffer_kib s * 1024))]> (fs w)) w, true).
Proof.
  intros Hm (E1 & E2 & E3 & E4 & E5 & Hb) Hp Hf. unfold prv_generate_write_http, top_string, collectd_integer.
  do 5 rewrite (bind_val _ _ _ _ _ (on_daemon_gets _ w)). rewrite E1, E2, E3, E4.
  do 2 rewrite (bind_val _ _ _ _ _ (on_daemon_gets _ w)). rewrite E5.
  assert (I : int_mul (buffer_kib s) 1024 = Val (buffer_kib s * 1024)).
  { unfold int_mul, INT_MAX. now test_false ((buffer_kib s * 1024 >? 2 ^ 31 - 1) || (buffer_kib s * 1024 <? - (2 ^ 31 - 1) - 1)). }
  rewrite (bind_val _ _ w w (buffer_kib s * 1024)) by (unfold lift; now rewrite I).
  rewrite (bind_val _ _ _ _ _ (collectd_asprintf_val _ _ _ w Hm (vsprintf_url (base_url s)))).
  rewrite (bind_val _ _ _ _ _ (collectd_asprintf_val _ _ _ w Hm (vsprintf_key (project_key s)))).
  erewrite bind_val by (apply fprintf_val; [exact Hp|apply vsprintf_write_http|exact Hf]). cbn [negb]. unfold ret, interval_of.
  now rewrite (i32_small (buffer_kib s * 1024)) by lia.
Qed.

Lemma chain_val file w content : mallocs (ticosd w) = [] -> can_print env file = true -> fs w !! file = Some content ->
  prv_generate_chain env file w =
    Val (set_fs (<[file := content ++ bytes_of_string (chain_text (ticosd_get_string (Some "collectd_plugin") "non_ticosd_chain" (ticosd w)))]> (fs w)) w, true).
Proof.
  intros Hm Hp Hf. unfold prv_generate_chain. rewrite (bind_val _ _ _ _ _ (on_daemon_gets _ w)).
  set (chain := ticosd_get_string (Some "collectd_plugin") "non_ticosd_chain" (ticosd w)).
  rewrite (bind_val _ _ w w (Some (Some (chain_target chain)))).
  - erewrite bind_val by (apply fprintf_val; [exact Hp|apply vsprintf_chain|exact Hf]). reflexivity.
  - destruct chain as [[|a chain]|]; [rewrite (bind_val _ _ _ _ _ (strdup_val _ w Hm)); reflexivity| |rewrite (bind_val _ _ _ _ _ (strdup_val _ w Hm)); reflexivity].
    erewrite bind_val; [|apply collectd_asprintf_val; [exact Hm|]]; [reflexivity|]. unfold target_fmt, chain_target, line, quoted. generalize (String a chain). intros t. texts.
Qed.

Lemma footer_val w s : let file := footer_include_output_file (handle w) in mallocs (ticosd w) = [] -> settings_are (ticosd w) s ->
  can_open env file = true -> can_print env file = true ->
  prv_generate_footer_include env w = Val (set_fs (<[file := bytes_of_string (footer_text (ticosd w) s)]> (fs w)) w, true).
Proof.
  intros file Hm Hs Ho Hp. unfold prv_generate_footer_include. rewrite (bind_val _ _ w w file) by done.
  rewrite (bind_val _ _ _ _ _ (fopen_val _ _ Ho)). cbn [negb]. set (w1 := set_fs (<[file := []]> (fs w)) w).
  erewrite bind_val by (apply (write_http_val file w1 s []); [exact Hm|exact Hs|exact Hp|apply (lookup_insert_eq (M := gmap string))]). cbn [negb].
  erewrite bind_val by (apply (chain_val file); [exact Hm|exact Hp|apply (lookup_insert_eq (M := gmap string))]). cbn [negb].
  unfold ret, set_fs. cbn [fs ticosd bus handle slept w1 app]. do 3 f_equal. unfold footer_text. rewrite bytes_of_string_app.
  assert (I : forall (m : files) (a b c : list Z), <[file := a]> (<[file := b]> (<[file := c]> m)) = <[file := a]> m).
  { intros m a b c. etransitivity; [apply (insert_insert_eq (M := gmap string))|]. apply (insert_insert_eq (M := gmap string)). }
  apply I.
Qed.

(** What is done to the services. *)
Definition restarted w (e : bool) (b : B) : World :=
  MkCollectdWorld (ticosd w) (fs w) b (MkCollectd e (header_include_output_file (handle w)) (footer_include_output_file (handle w))) (slept w).

Lemma restart_val w b ok e :
  ticosd_restart_service_if_running collectd_service (bus w) = (b, ok) ->
  (let* ok := on_bus (ticosd_restart_service_if_running collectd_service) in
   if negb ok then ret false else let* _ := set_was_enabled e in ret true) w =
  Val (restarted w (if ok : bool then e else was_enabled (handle w)) b, ok).
Proof. intros E. unfold bind at 1, on_bus. rewrite E. destruct ok; cbn; [done|]. unfold restarted. now destruct w as [? ? ? []]. Qed.


(** ** Without consent *)
Lemma clear_val file w : can_open env file = true -> access_errno env file = None ->
  exists c, clear_if_needed env file w = Val (set_fs (<[file := []]> (fs w)) w, c) /\ (c = true <-> exists x, fs w !! file = Some x /\ x <> []).
Proof.
  intros Ho Ha. unfold clear_if_needed. rewrite (bind_val _ _ w w (prv_get_file_size env file (fs w))) by done.
  unfold prv_get_file_size. rewrite Ha. destruct (fs w !! file) as [content|] eqn:E.
  - destruct (Z.gtb_spec (zlen content) 0) as [Hl|Hl].
    + cbn [orb]. unfold prv_write_empty_file. rewrite (bind_val _ _ _ _ _ (fopen_val _ _ Ho)). exists true. split; [done|]. split; [|done].
      intros _. exists content. split; [done|]. intros ->. cbn in Hl. lia.
    + assert (content = []) as -> by (destruct content; [done|cbn in Hl; lia]). cbn. exists false. split.
      * unfold ret. do 2 f_equal. unfold set_fs. replace (<[file := []]> (fs w)) with (fs w) by (symmetry; now apply (insert_id (M := gmap string))). now destruct w.
      * split; [done|]. intros (x & [= <-] & Hx). done.
  - change (- ENOENT >? 0) with false. cbn [orb]. rewrite Z.eqb_refl. unfold prv_write_empty_file.
    rewrite (bind_val _ _ _ _ _ (fopen_val _ _ Ho)). exists false. split; [done|]. split; [done|]. intros (x & ? & _). done.
Qed.

Lemma clear_files_val w : let header := header_include_output_file (handle w) in let footer := footer_include_output_file (handle w) in
  can_open env header = true -> can_open env footer = true -> access_errno env header = None -> access_errno env footer = None ->
  exists c, prv_clear_config_files_if_not_already_cleared env w = Val (set_fs (<[footer := []]> (<[header := []]> (fs w))) w, c) /\
    (fs w !! header = Some [] -> fs w !! footer = Some [] -> c = false).
Proof.
  intros header footer Ho1 Ho2 Ha1 Ha2. unfold prv_clear_config_files_if_not_already_cleared. rewrite (bind_val _ _ w w (handle w)) by done.
  destruct (clear_val header w Ho1 Ha1) as (c1 & E1 & C1). rewrite (bind_val _ _ _ _ _ E1).
  destruct (clear_val footer (set_fs (<[header := []]> (fs w)) w) Ho2 Ha2) as (c2 & E2 & C2). rewrite (bind_val _ _ _ _ _ E2).
  exists (c1 || c2). split; [done|]. intros H1' H2'. apply orb_false_iff. split; apply not_true_iff_false; intros Hc.
  - apply C1 in Hc as (x & Hx & ?). congruence.
  - apply C2 in Hc as (x & Hx & ?). cbn [set_fs fs] in Hx.
    assert (<[header := []]> (fs w) !! footer = Some []) by (replace (<[header := []]> (fs w)) with (fs w) by (symmetry; now apply (insert_id (M := gmap string))); done). congruence.
Qed.

(** without consent nothing about the device or the server is left for collectd: both files
    are empty after reloading, whatever was in them, no other file changes, and once the
    restart that this may need has succeeded, reloading again changes nothing and asks for no
    restart. *)
Theorem collectd_opt_out w w' ok : let header := header_include_output_file (handle w) in let footer := footer_include_output_file (handle w) in
  data_collection_off (Some EmptyString) (ticosd w) = true ->
  can_open env header = true -> can_open env footer = true -> access_errno env header = None -> access_errno env footer = None ->
  prv_reload env w = Val (w', ok) ->
  fs w' !! header = Some [] /\ fs w' !! footer = Some [] /\ same_files_but [header; footer] (fs w) (fs w') /\
  (ok = true -> prv_reload env w' = Val (w', true)).
Proof.
  intros header footer Hoff Ho1 Ho2 Ha1 Ha2 E. unfold prv_reload in E. rewrite (bind_val _ _ _ _ _ (on_daemon_gets _ w)), Hoff in E.
  destruct (clear_files_val w Ho1 Ho2 Ha1 Ha2) as (c & Ec & _). rewrite (bind_val _ _ _ _ _ Ec) in E. set (w1 := set_fs _ w) in *.
  rewrite (bind_val _ _ w1 w1 (was_enabled (handle w))) in E by done.
  assert (F : fs w1 !! header = Some [] /\ fs w1 !! footer = Some [] /\ same_files_but [header; footer] (fs w) (fs w1)).
  { cbn [w1 set_fs fs]. fold header footer. split; [|split; [apply (lookup_insert_eq (M := gmap string))|]].
    - destruct (String.eqb_spec header footer) as [->|Hne]; [apply (lookup_insert_eq (M := gmap string))|].
      etransitivity; [apply (lookup_insert_ne (M := gmap string)); congruence|apply (lookup_insert_eq (M := gmap string))].
    - intros p Hp. etransitivity; [apply (lookup_insert_ne (M := gmap string)); set_solver|]. apply (lookup_insert_ne (M := gmap string)). set_solver. }
  assert (K : ticosd w' = ticosd w /\ fs w' = fs w1 /\ header_include_output_file (handle w') = header /\
    footer_include_output_file (handle w') = footer /\ (ok = true -> was_enabled (handle w') = false)).
  { destruct (was_enabled (handle w) || c) eqn:Ew.
    - destruct (ticosd_restart_service_if_running collectd_service (bus w1)) as [b ok'] eqn:Eb. rewrite (restart_val w1 b ok' false Eb) in E.
      injection E as <- <-. cbn. split; [done|]. split; [done|]. split; [done|]. split; [done|]. now intros ->.
    - injection E as <- <-. apply orb_false_iff in Ew as [Ew _]. cbn. split; [done|]. split; [done|]. split; [done|]. split; [done|]. done. }
  destruct K as (Kt & Kf & Kh & Kg & Kw). rewrite Kf. destruct F as (F1 & F2 & F3). split; [exact F1|]. split; [exact F2|]. split; [exact F3|].
  intros Hok. specialize (Kw Hok). unfold prv_reload. rewrite (bind_val _ _ _ _ _ (on_daemon_gets _ w')), Kt, Hoff.
  destruct (clear_files_val w') as (c' & Ec' & Hc'); rewrite ?Kh, ?Kg; try done. rewrite Kh, Kg, Kf in Ec', Hc'. rewrite (Hc' F1 F2) in Ec'.
  rewrite (bind_val _ _ _ _ _ Ec'). erewrite bind_val by reflexivity. cbn [set_fs handle]. rewrite Kw. cbn [orb]. unfold ret. do 2 f_equal.
  unfold set_fs. assert (I : <[footer := []]> (<[header := []]> (fs w1)) = fs w1).
  { etransitivity; [|apply (insert_id (M := gmap string)); exact F2]. f_equal. now apply (insert_id (M := gmap string)). }
  rewrite I, <- Kf. now destruct w'.
Qed.
End Spec.

(** ** A device *)
Record metrics_config := MkMetricsConfig { consent : bool }.

#[export] Instance metrics_config_ops : ConfigOps metrics_config := {
  ticosd_config_get_boolean c _ key := if String.eqb key "enable_data_collection" then Some (consent c) else None;
  ticosd_config_get_integer _ _ key := if String.eqb key "interval_seconds" then Some 60 else None;
  ticosd_config_get_string _ _ key :=
    if String.eqb key "base_url" then Some "https://t" else if String.eqb key "software_type" then Some "main"
    else if String.eqb key "software_version" then Some "1" else if String.eqb key "project_key" then Some "k" else None }.

Definition metrics_world (on : bool) : collectd_world (Q := unit) (C := metrics_config) (W := unit) (B := unit_table) :=
  MkCollectdWorld (MkTicosd tt tt (MkMetricsConfig on) (MkSettings "dev" "hw") false false []) {["/h" := [1; 2]]}
    (MkUnits (fun _ => Some "active") []) (MkCollectd true "/h" "/f") 0.

Definition metrics_env : collectd_env := MkCollectdEnv (fun _ => true) (fun _ => true) (fun _ => None).

Definition restarted_units : unit_table := MkUnits (fun _ => Some "active") [("collectd.service", None)].


Lemma collectd_opt_out_witness :
  let w' := MkCollectdWorld (ticosd (metrics_world false)) (<["/f" := []]> (<["/h" := []]> (fs (metrics_world false)))) restarted_units
    (MkCollectd false "/h" "/f") 0 in
  fs w' !! "/h" = Some [] /\ fs w' !! "/f" = Some [] /\ same_files_but ["/h"; "/f"] (fs (metrics_world false)) (fs w') /\
  (true = true -> prv_reload metrics_env w' = Val (w', true)).
Proof. apply (collectd_opt_out metrics_env (metrics_world false)); reflexivity. Defined.

(** Asking for metrics: a restart, a second's sleep, the signal. *)
Example request_metrics : (let! (w, ok) := prv_request_metrics (metrics_world true) in Val (requests (bus w), slept w, ok)) =
  Val ([("collectd.service", None); ("collectd.service", Some 10)], 1, true).
Proof. reflexivity. Qed.
