(* ===== verification/ShutdownWitnesses.v ===== *)
(** * A daemon that is told to stop

    With the collectd plugin, without consent; a request for metrics and a SIGTERM arrive. *)
From stdpp Require Import gmap relations.
From S2P Require Import Prelude CLib TxQueue Network NetworkWitnesses Daemon DaemonLive DaemonWitnesses Plugins PluginsSpec Systemd Collectd Shutdown ShutdownSpec.
#[local] Open Scope string_scope.
#[local] Open Scope list_scope.
#[local] Open Scope Z_scope.

(** ** Playing is running *)
Section Play.
Context {G Q C W : Type} `{TxQueue Q, ConfigOps C, NetworkOps W, HasDaemon G (sTicosd Q C W)}.
Context (g_plugins : list (sTicosdPluginDef G)) (fuel : nat).

Lemma moved_some (m : outcome (option (machine (G := G)))) m' : moved m = Some m' -> m = Val (Some m').
Proof. destruct m as [[]| |]; try done. now intros [= ->]. Qed.

Lemma act_step c m m' : act g_plugins fuel c m = Some m' -> exists mv, step g_plugins fuel mv m m'.
Proof.
  destruct c as [ok|before after|t|sig t|d]; cbn.
  - destruct (in_ipc m) eqn:E; [|done]. intros A. exists Thread. apply (ipc_moves _ _ ok); [done|]. now apply moved_some.
  - destruct (in_main m) eqn:E; [|done]. intros A. exists Thread. apply (main_moves _ _ before after); [done|]. now apply moved_some.
  - destruct (handlers t m) eqn:E; [done|]. intros [= <-]. exists Thread. apply handler_moves. lia.
  - intros A. exists Signal. assert (E : m' = prv_ticosd_sig_handler sig t m /\ alive t m) by (destruct t, (main m) eqn:?, (ipc m) eqn:?; try done; injection A as <-; (split; [done|cbn; congruence])).
    destruct E as [-> Ha]. now apply signal_arrives.
  - destruct (socket m) as [|[]|] eqn:E; try done. intros [= <-]. exists Sender. now apply datagram_arrives.
Qed.

Lemma play_run cs : forall m m', play g_plugins fuel cs m = Some m' -> exists n k, run g_plugins fuel n k m m'.
Proof.
  induction cs as [|c cs IH]; intros m m'; cbn; [intros [= ->]; exists 0%nat, 0%nat; constructor|].
  destruct (act g_plugins fuel c m) as [m1|] eqn:E; [|done]. intros P. destruct (IH _ _ P) as (n & k & R). apply act_step in E as [[] S].
  - exists (Datatypes.S n), k. now apply (run_thread _ _ _ _ _ m1).
  - exists n, (Datatypes.S k). now apply (run_signal _ _ _ _ _ m1).
  - exists n, k. now apply (run_sender _ _ _ _ _ m1).
Qed.
End Play.

(** ** The device *)
Abbreviation World := (collectd_world (Q := shared_queue) (C := sample_config) (W := net_state steady) (B := unit_table)).

#[export] Instance collectd_has_daemon : HasDaemon World (sTicosd shared_queue sample_config (net_state steady)) := {
  daemon := ticosd;
  with_daemon t w := MkCollectdWorld t (fs w) (bus w) (handle w) (slept w);
  daemon_with _ _ := eq_refl }.

Definition stop_env : collectd_env := MkCollectdEnv (fun _ => true) (fun _ => true) (fun _ => None).

Definition stop_world : World :=
  MkCollectdWorld (MkTicosd loaded_queue (MkNet sample_network [] sample_disk (MkSteady 200)) (MkSampleConfig false 3600)
    (MkSettings "dev" "hw") false false []) ∅ (MkUnits (fun _ => Some "active") []) (MkCollectd true "/h" "/f") 0.

Definition loaded_plugins : list (sTicosdPluginDef World) := [Plugins.set_fns (Some s_fns) (collectd_plugin stop_env)].

Definition rx_buffer : list Z := zeros RX_BUFFER_SIZE.

Definition off_world (w : World) (b : list Z) (_ : loop_state) : Prop := collect (config (ticosd w)) = false /\ zlen b = RX_BUFFER_SIZE.

Lemma request_keeps w b l : off_world w b l -> exists w' r, prv_request_metrics w = Val (w', r) /\ off_world w' b l /\
  terminate (ticosd w') = terminate (ticosd w).
Proof.
  intros Hw. unfold prv_request_metrics, bind, gets, on_bus, sleep, modify, ret. cbn [obind].
  destruct (was_enabled (handle w)); [|eexists _, _; split; [reflexivity|]; now split].
  destruct (ticosd_restart_service_if_running collectd_service (bus w)) as [b1 ok]. cbn [obind].
  destruct ok; cbn [negb]; [|eexists _, _; split; [reflexivity|]; now split]. cbn [obind bus].
  destruct (ticosd_kill_service collectd_service SIGUSR1 b1) as [b2 ok]. eexists _, _. split; [reflexivity|]. now split.
Qed.

#[export] Instance off_runs : Runs (Q := shared_queue) (C := sample_config) (W := net_state steady) loaded_plugins 10 off_world.
Proof.
  split.
  - intros w b l before after Hw. destruct w as [[q n [c r] st te dm ma] f bu h sl]. destruct Hw as [Hc Hb]. cbn in Hc. subst c.
    set (s := MkTicosd q n (MkSampleConfig false r) st te dm ma).
    assert (E0 : prv_ticosd_process_tx_queue 10 s = Val (s, true)) by reflexivity.
    destruct (turn_val 10 l (MkWakeup before after false) s s true _ E0 eq_refl eq_refl) as (poll & pause & E).
    eexists s, _, pause. split; [exact E|]. now split.
  - intros w b l answer Hw. unfold ipc_turn. destruct (recvmsg b answer) as [b' n] eqn:E.
    assert (Hb : zlen b' = RX_BUFFER_SIZE).
    { unfold recvmsg in E. destruct answer as [|d]; injection E as <- <-; [apply Hw|]. rewrite length_app, length_drop, length_take.
      destruct Hw as [_ Hb]. unfold RX_BUFFER_SIZE in *. lia. }
    assert (Hw' : off_world w b' l) by (split; [apply Hw|exact Hb]).
    destruct (u64 n <=? 0); [eexists _, _; split; [reflexivity|]; now split|].
    cbn [ticosd_plugins_process_ipc loaded_plugins Plugins.set_fns collectd_plugin s_fns fns ipc_name].
    change (String.eqb PLUGIN_COLLECTD_IPC_NAME "") with false. cbv iota.
    destruct (u64 n <=? _); [eexists _, _; split; [reflexivity|]; now split|].
    assert (S : exists same, strcmp_equal (bytes_of_string PLUGIN_COLLECTD_IPC_NAME) b' = Val same).
    { eexists. apply strcmp_equal_spec; [repeat constructor; discriminate|]. unfold RX_BUFFER_SIZE in Hb. cbn. lia. }
    destruct S as [same ->]. unfold bind, lift, ret. cbn [obind]. destruct same; cbn [negb]; [|eexists _, _; split; [reflexivity|]; now split].
    unfold prv_ipc_handler. destruct (request_keeps w b' l Hw') as (w' & r & -> & Hw2 & T). eexists _, _. split; [reflexivity|]. now split.
  - intros w b l Hw. eexists _, _. split; [reflexivity|]. now split.
  - intros w b l Hw. exact Hw.
Qed.

Lemma stop_off : off_world stop_world rx_buffer first_loop.
Proof. split; reflexivity. Qed.

(** ** A run *)
Definition SIGTERM : Z := 15.

(** The thread opens its socket, a request is sent, a signal interrupts the main thread. *)
Definition until_signal : list choice :=
  [Ipc true; Ipc true; Ipc true; Ipc true; Main 0 0; Main 0 0; Send (bytes_of_string "COLLECTD" ++ [0]); Kill SIGTERM InMain].

(** The message is handled, the handler returns, both threads end. *)
Definition until_end : list choice :=
  [Ipc true; Ipc true; Return InMain; Ipc true; Main 0 0; Main 0 0; Ipc true; Ipc true; Main 0 0; Main 0 0; Main 0 0].

Definition played (cs : list choice) (m : machine (G := World)) : machine (G := World) := default m (play (Q := shared_queue) (C := sample_config) (W := net_state steady) loaded_plugins 10 cs m).

Definition signalled_machine : machine (G := World) := played until_signal (started stop_world rx_buffer).
Definition ended_machine : machine (G := World) := played until_end signalled_machine.



(** The request for metrics was served before the end. *)
Example ended : main ended_machine = MainDone /\ map fst (requests (bus (world ended_machine))) = ["collectd.service"; "collectd.service"].
Proof. vm_compute. split; reflexivity. Qed.
