(* ===== verification/Swupdate.v ===== *)
(** * The swupdate plugin (src/plugins/swupdate.c)

    It writes a configuration for swupdate from a template and the daemon's settings.
    libconfig is the class [Libconfig] on a type [K] of configurations with handles [H] of
    settings; what its documentation promises is in [LibconfigLaws], in terms of a tree. *)
From stdpp Require Import gmap.
From S2P Require Import Prelude CLib Network TxQueue Daemon Plugins Systemd.
#[local] Open Scope string_scope.
#[local] Open Scope list_scope.
#[local] Open Scope Z_scope.

Definition DEFAULT_INPUT_FILE : string := "/etc/swupdate.cfg".
Definition DEFAULT_OUTPUT_FILE : string := "/tmp/swupdate.cfg".
Definition DEFAULT_SURICATTA_TENANT : string := "default".
Definition HAWKBIT_PATH : string := "/api/v0/hawkbit".

(** ** libconfig *)
Inductive config_type := CONFIG_TYPE_GROUP | CONFIG_TYPE_LIST | CONFIG_TYPE_STRING.

(** The type of a setting that is looked at: a string, a group of named settings, a list, or
    anything else. *)
Inductive setting :=
| SString (s : string)
| SGroup (cs : list (string * setting))
| SList (l : list setting)
| SOther (text : string).

Inductive path_step := Name (n : string) | Index (i : nat).

Definition blank (ty : config_type) : setting :=
  match ty with
  | CONFIG_TYPE_GROUP => SGroup []
  | CONFIG_TYPE_LIST => SList []
  | CONFIG_TYPE_STRING => SString EmptyString
  end.

(** A named child of a group. *)
Fixpoint child_of (n : string) (cs : list (string * setting)) : option setting :=
  match cs with
  | [] => None
  | (m, v) :: cs => if String.eqb n m then Some v else child_of n cs
  end.
Definition child (n : string) (v : setting) : option setting :=
  match v with SGroup cs => child_of n cs | _ => None end.

(** The setting at a path, and the tree with another setting there. *)
Fixpoint node (p : list path_step) (v : setting) : option setting :=
  match p with
  | [] => Some v
  | Name n :: p => match child n v with Some c => node p c | None => None end
  | Index i :: p => match v with SList l => match l !! i with Some c => node p c | None => None end | _ => None end
  end.

Fixpoint update_child (f : setting -> setting) (n : string) (cs : list (string * setting)) : list (string * setting) :=
  match cs with
  | [] => []
  | (m, v) :: cs => if String.eqb n m then (m, f v) :: cs else (m, v) :: update_child f n cs
  end.

Fixpoint update (p : list path_step) (f : setting -> setting) (v : setting) : setting :=
  match p with
  | [] => f v
  | Name n :: p => match v with SGroup cs => SGroup (update_child (update p f) n cs) | _ => v end
  | Index i :: p => match v with SList l => SList (alter (update p f) i l) | _ => v end
  end.

Definition add_child (n : string) (c v : setting) : setting :=
  match v with SGroup cs => SGroup (cs ++ [(n, c)]) | _ => v end.
Definition add_item (c v : setting) : setting :=
  match v with SList l => SList (l ++ [c]) | _ => v end.
Definition remove_child (n : string) (v : setting) : setting :=
  match v with SGroup cs => SGroup (List.filter (fun c => negb (String.eqb n (fst c))) cs) | _ => v end.

(** [config_read_file] gets the file's bytes, [None] when there is no such file;
    [config_write_file] gives the bytes, [None] when it fails. *)
Class Libconfig (K H : Type) := {
  config_init : K;
  config_read_file : K -> option (list Z) -> K * bool;
  config_write_file : K -> option (list Z);
  config_root_setting : K -> H;
  config_lookup : K -> string -> option H;
  config_setting_add : K -> H -> option string -> config_type -> K * option H;
  config_setting_set_string : K -> H -> string -> K * bool;
  config_setting_remove : K -> H -> string -> K * bool }.

Class LibconfigLaws (K H : Type) `{Libconfig K H} := {
  view : K -> setting;
  path : H -> list path_step;
  parse : list Z -> option setting;
  write_law k bytes : config_write_file k = Some bytes -> parse bytes = Some (view k);
  root_law k : path (config_root_setting k) = [] /\ exists cs, view k = SGroup cs;
  lookup_law k n : match config_lookup k n with
                   | Some h => path h = [Name n] /\ is_Some (child n (view k))
                   | None => child n (view k) = None
                   end;
  add_law k h n ty k' h' : config_setting_add k h (Some n) ty = (k', Some h') ->
    (exists cs, node (path h) (view k) = Some (SGroup cs) /\ child_of n cs = None) /\
    view k' = update (path h) (add_child n (blank ty)) (view k) /\ path h' = path h ++ [Name n];
  add_item_law k h ty k' h' : config_setting_add k h None ty = (k', Some h') ->
    exists l, node (path h) (view k) = Some (SList l) /\
    view k' = update (path h) (add_item (blank ty)) (view k) /\ path h' = path h ++ [Index (length l)];
  set_law k h s k' : config_setting_set_string k h s = (k', true) ->
    view k' = update (path h) (fun _ => SString s) (view k);
  remove_law k h n k' b : config_setting_remove k h n = (k', b) -> view k' = update (path h) (remove_child n) (view k) }.

(** ** The plugin *)
Section Swupdate.
Context {Q C W B K H : Type} `{TxQueue Q, ConfigOps C, NetworkOps W, SdBus B, Libconfig K H}.

(** The handle is the daemon. *)
Record swupdate_world := MkSwupdateWorld { ticosd : sTicosd Q C W; fs : files; bus : B }.

Implicit Type config : K.

Definition prv_swupdate_add_globals config : K * bool :=
  match config_lookup config "globals" with
  | Some _ => (config, true)
  | None =>
      match config_setting_add config (config_root_setting config) (Some "globals") CONFIG_TYPE_GROUP with
      | (config, None) => (config, false)
      | (config, Some _) => (config, true)
      end
  end.

(** [config_setting_add] and [config_setting_set_string] for a string. *)
Definition add_string config (parent : H) (name value : string) : K * bool :=
  match config_setting_add config parent (Some name) CONFIG_TYPE_STRING with
  | (config, None) => (config, false)
  | (config, Some element) => config_setting_set_string config element value
  end.

(** The same after removing the old setting. *)
Definition replace_string config (parent : H) (name value : string) : K * bool :=
  let '(config, _) := config_setting_remove config parent name in add_string config parent name value.

(** [Fault] when malloc fails: strcpy then writes to NULL. *)
Definition prv_swupdate_add_suricatta config : M (sTicosd Q C W) (K * bool) :=
  let '(config, suricatta) :=
    match config_lookup config "suricatta" with
    | Some s => (config, Some s)
    | None => config_setting_add config (config_root_setting config) (Some "suricatta") CONFIG_TYPE_GROUP
    end in
  match suricatta with
  | None => ret (config, false)
  | Some suricatta =>
      let* settings := gets ticosd_get_device_settings in
      let* base_url := gets (ticosd_get_string (Some EmptyString) "base_url") in
      match base_url with
      | None => ret (config, false)
      | Some base_url =>
          let* ok := malloc_ok in
          if negb ok then fault
          else
            let '(config, ok) := replace_string config suricatta "url" (base_url +:+ HAWKBIT_PATH) in
            if negb ok then ret (config, false)
            else
              let '(config, ok) := replace_string config suricatta "id" (device_id settings) in
              if negb ok then ret (config, false)
              else
                let '(config, ok) := replace_string config suricatta "tenant" DEFAULT_SURICATTA_TENANT in
                if negb ok then ret (config, false)
                else
                  let* project_key := gets (ticosd_get_string (Some EmptyString) "project_key") in
                  match project_key with
                  | None => ret (config, false)
                  | Some project_key => ret (replace_string config suricatta "gatewaytoken" project_key)
                  end
      end
  end.

(** A group with a name and a value at the end of the list. *)
Definition add_identity config (identify : H) (name value : string) : K * bool :=
  match config_setting_add config identify None CONFIG_TYPE_GROUP with
  | (config, None) => (config, false)
  | (config, Some setting) =>
      let '(config, ok) := add_string config setting "name" name in
      if negb ok then (config, false) else add_string config setting "value" value
  end.

Definition prv_swupdate_add_identify (t : sTicosd Q C W) config : K * bool :=
  let settings := ticosd_get_device_settings t in
  let '(config, _) := config_setting_remove config (config_root_setting config) "identify" in
  match config_setting_add config (config_root_setting config) (Some "identify") CONFIG_TYPE_LIST with
  | (config, None) => (config, false)
  | (config, Some identify) =>
      match ticosd_get_string (Some EmptyString) "software_version" t, ticosd_get_string (Some EmptyString) "software_type" t with
      | Some software_version, Some software_type =>
          let '(config, ok) := add_identity config identify "ticos__current_version" software_version in
          if negb ok then (config, false)
          else
            let '(config, ok) := add_identity config identify "ticos__hardware_version" (hardware_version settings) in
            if negb ok then (config, false)
            else add_identity config identify "ticos__software_type" software_type
      | _, _ => (config, false)
      end
  end.

Definition prv_swupdate_add_runtime : bool := true.

Definition on_daemon {A} (m : M (sTicosd Q C W) A) : M swupdate_world A := fun w =>
  let! (t, a) := m (ticosd w) in Val (MkSwupdateWorld t (fs w) (bus w), a).

Definition prv_swupdate_generate_config : M swupdate_world bool := fun w =>
  let input_file := default DEFAULT_INPUT_FILE (ticosd_get_string (Some "swupdate_plugin") "input_file" (ticosd w)) in
  let '(config, _) := config_read_file config_init (fs w !! input_file) in
  let '(config, ok) := prv_swupdate_add_globals config in
  if negb ok then Val (w, false)
  else
    let! (w, (config, ok)) := on_daemon (prv_swupdate_add_suricatta config) w in
    if negb ok then Val (w, false)
    else
      let '(config, ok) := prv_swupdate_add_identify (ticosd w) config in
      if negb ok then Val (w, false)
      else if negb prv_swupdate_add_runtime then Val (w, false)
      else
        let output_file := default DEFAULT_OUTPUT_FILE (ticosd_get_string (Some "swupdate_plugin") "output_file" (ticosd w)) in
        match config_write_file config with
        | None => Val (w, false)
        | Some bytes => Val (MkSwupdateWorld (ticosd w) (<[output_file := bytes]> (fs w)) (bus w), true)
        end.

Definition on_bus {A} (f : B -> B * A) : M swupdate_world A := fun w =>
  let '(b, a) := f (bus w) in Val (MkSwupdateWorld (ticosd w) (fs w) b, a).

Definition prv_swupdate_reload : M swupdate_world bool :=
  let* ok := prv_swupdate_generate_config in
  if negb ok then ret false
  else
    let* ok := on_bus (ticosd_restart_service_if_running "swupdate.service") in
    if negb ok then ret false
    else
      let* ok := on_bus (ticosd_restart_service_if_running "swupdate.socket") in
      if negb ok then ret false else ret true.

Definition ticosd_swupdate_init (calloc_ok : bool) : M swupdate_world bool :=
  if negb calloc_ok then ret false else let* _ := prv_swupdate_reload in ret true.
End Swupdate.
