(* ===== verification/SwupdateSpec.v ===== *)
(** * What swupdate is told

    The configuration that the plugin writes is the template with the server, the identity of
    the device and the attributes of its software in it. *)
From stdpp Require Import gmap.
From S2P Require Import Prelude CLib TxQueue Network Daemon Plugins Systemd Swupdate.
#[local] Open Scope string_scope.
#[local] Open Scope list_scope.
#[local] Open Scope Z_scope.

(** ** Trees *)
(** The children but some are the same. *)
Definition same_but (ns : list string) (v v' : setting) : Prop := forall n, n ∉ ns -> child n v' = child n v.

(** A setting with a string under a name, and an entry of the list of identities. *)
Definition with_string (n s : string) (v : setting) : setting := add_child n (SString s) (remove_child n v).
Definition identity (name value : string) : setting := SGroup [("name", SString name); ("value", SString value)].

Lemma child_of_update f n cs c : child_of n cs = Some c -> child_of n (update_child f n cs) = Some (f c).
Proof.
  induction cs as [|[m v] cs IH]; [done|]. cbn. destruct (String.eqb n m) eqn:E; cbn; rewrite E; [now intros [= ->]|exact IH].
Qed.

Lemma child_of_update_ne f n m cs : n <> m -> child_of n (update_child f m cs) = child_of n cs.
Proof.
  intros Hne. induction cs as [|[x v] cs IH]; [done|]. cbn. destruct (String.eqb_spec m x) as [<-|]; cbn.
  - apply String.eqb_neq in Hne. now rewrite Hne.
  - now destruct (String.eqb n x).
Qed.

Lemma update_child_ext f g n cs c : child_of n cs = Some c -> f c = g c -> update_child f n cs = update_child g n cs.
Proof.
  intros E Hfg. induction cs as [|[m v] cs IH]; [done|]. cbn in *. destruct (String.eqb n m); [injection E as ->; now rewrite Hfg|now rewrite IH].
Qed.

Lemma update_child_twice f g n cs : update_child f n (update_child g n cs) = update_child (fun c => f (g c)) n cs.
Proof.
  induction cs as [|[m v] cs IH]; [done|]. cbn. destruct (String.eqb n m) eqn:E; cbn; rewrite E; [done|now rewrite IH].
Qed.

Lemma child_of_app n cs cs' : child_of n (cs ++ cs') = match child_of n cs with Some c => Some c | None => child_of n cs' end.
Proof. induction cs as [|[m v] cs IH]; [done|]. cbn. now destruct (String.eqb n m). Qed.

Lemma child_add n c v cs : v = SGroup cs -> child_of n cs = None -> child n (add_child n c v) = Some c.
Proof. intros -> E. cbn. rewrite child_of_app, E. cbn. now rewrite String.eqb_refl. Qed.

Lemma child_add_ne n m c v : n <> m -> child n (add_child m c v) = child n v.
Proof.
  intros Hne. destruct v; [done| |done|done]. cbn. rewrite child_of_app. apply String.eqb_neq in Hne. cbn. rewrite Hne. now destruct (child_of n cs).
Qed.

Lemma child_remove_ne n m v : n <> m -> child n (remove_child m v) = child n v.
Proof.
  intros Hne. destruct v as [|cs| |]; [done| |done|done]. cbn. induction cs as [|[x v] cs IH]; [done|]. cbn.
  destruct (String.eqb_spec m x) as [<-|]; cbn; [apply String.eqb_neq in Hne; now rewrite Hne|now rewrite IH].
Qed.

Lemma update_app p q f v : update (p ++ q) f v = update p (update q f) v.
Proof.
  revert v. induction p as [|[n|i] p IH]; intros v; [done| |]; cbn; destruct v; try done; f_equal.
  - induction cs as [|[m v] cs IHc]; [done|]. cbn. destruct (String.eqb n m); [now rewrite IH|now rewrite IHc].
  - apply list_alter_ext; [|done]. intros. apply IH.
Qed.

Lemma update_ext p f g v c : node p v = Some c -> f c = g c -> update p f v = update p g v.
Proof.
  revert v. induction p as [|[n|i] p IH]; intros v E Hfg; cbn in *; [now injection E as ->| |].
  - destruct v as [|cs| |]; try done. cbn in E. destruct (child_of n cs) eqn:Ec; [|done]. f_equal. eapply update_child_ext; [exact Ec|now apply IH].
  - destruct v as [| |l|]; try done. destruct (l !! i) eqn:El; [|done]. f_equal. apply list_alter_ext; [|done].
    intros x Hx. rewrite El in Hx. injection Hx as <-. now apply IH.
Qed.

Lemma update_twice p f g v : update p f (update p g v) = update p (fun c => f (g c)) v.
Proof.
  revert v. induction p as [|[n|i] p IH]; intros v; [done| |]; cbn; destruct v; try done; f_equal.
  - rewrite update_child_twice. induction cs as [|[m v] cs IHc]; [done|]. cbn. destruct (String.eqb n m); [now rewrite IH|now rewrite IHc].
  - rewrite list_alter_alter_eq. apply list_alter_ext; [|done]. intros. apply IH.
Qed.

Lemma node_update p f v c : node p v = Some c -> node p (update p f v) = Some (f c).
Proof.
  revert v. induction p as [|[n|i] p IH]; intros v E; cbn in *; [now injection E as ->| |].
  - destruct v as [|cs| |]; try done. cbn in *. destruct (child_of n cs) eqn:Ec; [|done]. erewrite child_of_update by exact Ec. now apply IH.
  - destruct v as [| |l|]; try done. destruct (l !! i) eqn:El; [|done]. rewrite list_lookup_alter_eq, El. now apply IH.
Qed.

Lemma add_then_set n c cs : child_of n cs = None ->
  update [Name n] (fun _ => c) (add_child n (blank CONFIG_TYPE_STRING) (SGroup cs)) = add_child n c (SGroup cs).
Proof.
  intros E. cbn. f_equal. induction cs as [|[m v] cs IH]; cbn in *; [now rewrite String.eqb_refl|].
  destruct (String.eqb n m); [done|]. now rewrite IH.
Qed.

Lemma node_app p q v c : node p v = Some c -> node (p ++ q) v = node q c.
Proof.
  revert v. induction p as [|[n|i] p IH]; intros v E; cbn in *; [now injection E as ->| |].
  - destruct (child n v) eqn:Ec; [now apply IH|done].
  - destruct v as [| |l|]; try done. destruct (l !! i) eqn:El; [now apply IH|done].
Qed.

(** The last item of a list that has just been added. *)
Lemma update_last p l c f v : node p v = Some (SList l) ->
  update (p ++ [Index (length l)]) f (update p (add_item c) v) = update p (fun _ => SList (l ++ [f c])) v.
Proof.
  intros E. rewrite update_app, update_twice. apply (update_ext _ _ _ _ _ E). cbn. f_equal. clear E.
  induction l as [|x l IH]; [done|]. cbn. f_equal. apply IH.
Qed.

(** ** Settings *)
Section Spec.
Context {Q C W B K H : Type} `{TxQueue Q, ConfigOps C, NetworkOps W, SdBus B, LibconfigLaws K H}.
Implicit Types (k : K) (h : H) (c : setting).

Definition at_setting k h c : Prop := node (path h) (view k) = Some c.

Lemma at_replaced k k' h c f : at_setting k h c -> view k' = update (path h) f (view k) -> at_setting k' h (f c).
Proof. unfold at_setting. intros A ->. now apply node_update. Qed.

Lemma add_string_spec k h n s k' c : add_string k h n s = (k', true) -> at_setting k h c ->
  (exists cs, c = SGroup cs /\ child_of n cs = None) /\ view k' = update (path h) (fun _ => add_child n (SString s) c) (view k).
Proof.
  unfold add_string, at_setting. destruct (config_setting_add k h (Some n) CONFIG_TYPE_STRING) as [k1 [h1|]] eqn:E1; [|done]. intros E2 A.
  destruct (add_law _ _ _ _ _ _ E1) as ((cs & N & Hn) & V1 & P1). rewrite A in N. injection N as ->.
  split; [now exists cs|]. rewrite (set_law _ _ _ _ E2), P1, V1, update_app, update_twice. apply (update_ext _ _ _ _ _ A). now apply add_then_set.
Qed.

Lemma replace_string_spec k h n s k' c : replace_string k h n s = (k', true) -> at_setting k h c ->
  child n (with_string n s c) = Some (SString s) /\ view k' = update (path h) (fun _ => with_string n s c) (view k).
Proof.
  unfold replace_string. destruct (config_setting_remove k h n) as [k1 b] eqn:E1. intros E2 A. pose proof (remove_law _ _ _ _ _ E1) as V1.
  destruct (add_string_spec _ _ _ _ _ _ E2 (at_replaced _ _ _ _ _ A V1)) as ((cs & Hc & Hn) & V2). split.
  - unfold with_string. now apply (child_add _ _ _ cs).
  - rewrite V2, V1, update_twice. now apply (update_ext _ _ _ _ _ A).
Qed.

Lemma add_identity_spec k h name value k' l : add_identity k h name value = (k', true) -> at_setting k h (SList l) ->
  view k' = update (path h) (fun _ => SList (l ++ [identity name value])) (view k).
Proof.
  unfold add_identity. destruct (config_setting_add k h None CONFIG_TYPE_GROUP) as [k1 [h1|]] eqn:E1; [|done]. intros E A.
  destruct (add_item_law _ _ _ _ _ E1) as (l' & N & V1 & P1). unfold at_setting in A. rewrite A in N. injection N as <-.
  destruct (add_string k1 h1 "name" name) as [k2 [|]] eqn:E2; [|done]. cbn [negb] in E.
  assert (A1 : at_setting k1 h1 (SGroup [])).
  { unfold at_setting. rewrite P1, V1. erewrite node_app by (apply node_update; exact A). cbn.
    rewrite lookup_app_r by lia. now rewrite Nat.sub_diag. }
  destruct (add_string_spec _ _ _ _ _ _ E2 A1) as (_ & V2).
  destruct (add_string_spec _ _ _ _ _ _ E (at_replaced _ _ _ _ _ A1 V2)) as (_ & V3).
  rewrite V3, V2, update_twice, P1, V1. now rewrite (update_last _ _ _ _ _ A).
Qed.

(** A new child of the top level. *)
Lemma add_top_spec k n ty k' h : config_setting_add k (config_root_setting k) (Some n) ty = (k', Some h) ->
  path h = [Name n] /\ child n (view k) = None /\ child n (view k') = Some (blank ty) /\ same_but [n] (view k) (view k').
Proof.
  intros E. destruct (add_law _ _ _ _ _ _ E) as ((cs & N & Hn) & V1 & P1). destruct (root_law k) as [R _]. rewrite R in N, V1, P1.
  cbn in N. injection N as N. rewrite V1, N. cbn [update]. split; [exact P1|]. split; [exact Hn|]. split; [now apply (child_add _ _ _ cs)|].
  intros m Hm. apply child_add_ne. set_solver.
Qed.

Lemma child_update_top n f v cs c : v = SGroup cs -> child n v = Some c ->
  child n (update [Name n] f v) = Some (f c) /\ same_but [n] v (update [Name n] f v).
Proof.
  intros -> Hc. cbn. split; [now apply child_of_update|]. intros m Hm. apply child_of_update_ne. set_solver.
Qed.

Lemma globals_spec k k' : prv_swupdate_add_globals k = (k', true) -> is_Some (child "globals" (view k')) /\ same_but ["globals"] (view k) (view k') /\
  (is_Some (child "globals" (view k)) -> view k' = view k).
Proof.
  unfold prv_swupdate_add_globals. pose proof (lookup_law k "globals") as L. destruct (config_lookup k "globals") as [h|].
  - intros [= <-]. destruct L as [_ L]. split; [exact L|]. now split.
  - destruct (config_setting_add k _ _ _) as [k1 [h|]] eqn:E; [|done]. intros [= <-]. destruct (add_top_spec _ _ _ _ _ E) as (_ & N & V & S).
    split; [eauto|]. split; [exact S|]. intros [c Hc]. congruence.
Qed.

(** What the section for the update server becomes. *)
Definition suricatta_settings (url id token : string) (c : setting) : setting :=
  with_string "gatewaytoken" token (with_string "tenant" DEFAULT_SURICATTA_TENANT (with_string "id" id (with_string "url" url c))).

Lemma with_string_ne n m s c : n <> m -> child n (with_string m s c) = child n c.
Proof. intros Hne. unfold with_string. rewrite child_add_ne by done. now apply child_remove_ne. Qed.

Lemma replaced_four k h c url id tenant token k1 k2 k3 k4 : at_setting k h c ->
  replace_string k h "url" url = (k1, true) -> replace_string k1 h "id" id = (k2, true) ->
  replace_string k2 h "tenant" tenant = (k3, true) -> replace_string k3 h "gatewaytoken" token = (k4, true) ->
  let c' := with_string "gatewaytoken" token (with_string "tenant" tenant (with_string "id" id (with_string "url" url c))) in
  view k4 = update (path h) (fun _ => c') (view k) /\ child "url" c' = Some (SString url) /\ child "id" c' = Some (SString id) /\
  child "tenant" c' = Some (SString tenant) /\ child "gatewaytoken" c' = Some (SString token).
Proof.
  intros A E1 E2 E3 E4 c'.
  destruct (replace_string_spec _ _ _ _ _ _ E1 A) as [C1 V1]. pose proof (at_replaced _ _ _ _ _ A V1) as A1.
  destruct (replace_string_spec _ _ _ _ _ _ E2 A1) as [C2 V2]. pose proof (at_replaced _ _ _ _ _ A1 V2) as A2.
  destruct (replace_string_spec _ _ _ _ _ _ E3 A2) as [C3 V3]. pose proof (at_replaced _ _ _ _ _ A2 V3) as A3.
  destruct (replace_string_spec _ _ _ _ _ _ E4 A3) as [C4 V4].
  split; [now rewrite V4, V3, V2, V1, !update_twice|]. unfold c'.
  split; [|split; [|split]]; rewrite ?with_string_ne by done; assumption.
Qed.

Lemma section_spec k n k1 h :
  match config_lookup k n with
  | Some s => (k, Some s)
  | None => config_setting_add k (config_root_setting k) (Some n) CONFIG_TYPE_GROUP
  end = (k1, Some h) ->
  path h = [Name n] /\ child n (view k1) = Some (default (SGroup []) (child n (view k))) /\ same_but [n] (view k) (view k1).
Proof.
  pose proof (lookup_law k n) as L. destruct (config_lookup k n) as [s|].
  - intros [= <- <-]. destruct L as [P [c Hc]]. rewrite Hc. now split.
  - intros E. destruct (add_top_spec _ _ _ _ _ E) as (P & N & V & S). now rewrite N.
Qed.

(** The section [c] with the server, the device and the key in it. *)
Definition suricatta_done (t : sTicosd Q C W) (c c' : setting) : Prop := exists base_url token,
  ticosd_get_string (Some EmptyString) "base_url" t = Some base_url /\
  ticosd_get_string (Some EmptyString) "project_key" t = Some token /\
  child "url" c' = Some (SString (base_url +:+ HAWKBIT_PATH)) /\
  child "id" c' = Some (SString (device_id (dsettings t))) /\ child "tenant" c' = Some (SString DEFAULT_SURICATTA_TENANT) /\
  child "gatewaytoken" c' = Some (SString token) /\ same_but ["url"; "id"; "tenant"; "gatewaytoken"] c c'.

Lemma suricatta_spec k (t t' : sTicosd Q C W) k' : prv_swupdate_add_suricatta k t = Val (t', (k', true)) ->
  (exists c', child "suricatta" (view k') = Some c' /\ suricatta_done t (default (SGroup []) (child "suricatta" (view k))) c') /\
  same_but ["suricatta"] (view k) (view k') /\ config t' = config t /\ dsettings t' = dsettings t.
Proof.
  unfold prv_swupdate_add_suricatta. destruct (match config_lookup k "suricatta" with Some s => _ | None => _ end) as [k0 [h|]] eqn:E0; [|done].
  destruct (section_spec _ _ _ _ E0) as (P & A & S). intros E.
  apply bind_inv in E as (t1 & settings & E1 & E). injection E1 as <- <-. apply bind_inv in E as (t1 & url & E1 & E). injection E1 as <- <-.
  destruct (ticosd_get_string (Some EmptyString) "base_url" t) as [base_url|] eqn:U; [|done].
  apply bind_inv in E as (t1 & ok & E1 & E). assert (T : config t1 = config t /\ dsettings t1 = dsettings t).
  { unfold malloc_ok in E1. destruct (heap_get t); injection E1 as <- _; done. }
  destruct ok; [|done]. cbn [negb] in E.
  destruct (replace_string k0 h "url" _) as [k1 [|]] eqn:R1; [|done]. cbn [negb] in E.
  destruct (replace_string k1 h "id" _) as [k2 [|]] eqn:R2; [|done]. cbn [negb] in E.
  destruct (replace_string k2 h "tenant" _) as [k3 [|]] eqn:R3; [|done]. cbn [negb] in E.
  apply bind_inv in E as (t2 & key & E2 & E). injection E2 as <- <-.
  destruct (ticosd_get_string (Some EmptyString) "project_key" t1) as [token|] eqn:K1; [|done].
  injection E as <- R4.
  assert (A0 : at_setting k0 h (default (SGroup []) (child "suricatta" (view k)))) by (unfold at_setting; rewrite P; cbn; now rewrite A).
  destruct (replaced_four _ _ _ _ _ _ _ _ _ _ _ A0 R1 R2 R3 R4) as (V & C1 & C2 & C3 & C4).
  destruct (root_law k0) as [_ [cs Hcs]]. rewrite P in V.
  destruct (child_update_top "suricatta" (fun _ => suricatta_settings (base_url +:+ HAWKBIT_PATH) (device_id (dsettings t)) token
    (default (SGroup []) (child "suricatta" (view k)))) _ _ _ Hcs A) as [N S']. unfold ticosd_get_device_settings in V.
  rewrite V. split; [|split; [|exact T]]; [|intros n Hn; etransitivity; [apply S'; exact Hn|now apply S]].
  eexists. split; [exact N|]. exists base_url, token. split; [done|].
  split; [unfold ticosd_get_string in *; now rewrite <- (proj1 T)|]. do 4 (split; [assumption|]).
  intros n Hn. unfold suricatta_settings. rewrite !with_string_ne by set_solver. done.
Qed.

Definition identify_done (t : sTicosd Q C W) (x : setting) : Prop := exists version type,
  ticosd_get_string (Some EmptyString) "software_version" t = Some version /\
  ticosd_get_string (Some EmptyString) "software_type" t = Some type /\
  x = SList [identity "ticos__current_version" version;
    identity "ticos__hardware_version" (hardware_version (dsettings t)); identity "ticos__software_type" type].

Lemma at_list_added k k' h l x : at_setting k h (SList l) -> view k' = update (path h) (fun _ => SList (l ++ [x])) (view k) ->
  at_setting k' h (SList (l ++ [x])).
Proof. intros A V. exact (at_replaced _ _ _ _ _ A V). Qed.

Lemma identify_spec (t : sTicosd Q C W) k k' : prv_swupdate_add_identify t k = (k', true) ->
  (exists x, child "identify" (view k') = Some x /\ identify_done t x) /\ same_but ["identify"] (view k) (view k').
Proof.
  unfold prv_swupdate_add_identify. destruct (config_setting_remove k _ _) as [k0 b] eqn:R.
  pose proof (remove_law _ _ _ _ _ R) as V0. destruct (root_law k) as [P0 [cs Hcs]]. rewrite P0 in V0. cbn in V0.
  destruct (config_setting_add k0 _ _ _) as [k1 [h|]] eqn:E0; [|done]. destruct (add_top_spec _ _ _ _ _ E0) as (P & _ & A & S).
  destruct (ticosd_get_string (Some EmptyString) "software_version" t) as [version|] eqn:Ev; [|done].
  destruct (ticosd_get_string (Some EmptyString) "software_type" t) as [type|] eqn:Et; [|done].
  destruct (add_identity k1 h _ version) as [k2 [|]] eqn:E1; [|done]. cbn [negb].
  destruct (add_identity k2 h _ _) as [k3 [|]] eqn:E2; [|done]. cbn [negb]. intros E3.
  assert (A1 : at_setting k1 h (SList [])) by (unfold at_setting; rewrite P; cbn; now rewrite A).
  pose proof (add_identity_spec _ _ _ _ _ _ E1 A1) as V1. pose proof (at_list_added _ _ _ _ _ A1 V1) as A2.
  pose proof (add_identity_spec _ _ _ _ _ _ E2 A2) as V2. pose proof (at_list_added _ _ _ _ _ A2 V2) as A3.
  pose proof (add_identity_spec _ _ _ _ _ _ E3 A3) as V3. rewrite V2, V1, !update_twice, P in V3. cbn [app] in V3.
  destruct (root_law k1) as [_ [cs1 Hcs1]]. destruct (child_update_top "identify" (fun _ => SList [identity "ticos__current_version" version;
    identity "ticos__hardware_version" (hardware_version (dsettings t)); identity "ticos__software_type" type]) _ _ _ Hcs1 A) as [N S'].
  unfold ticosd_get_device_settings in V3. rewrite V3. split; [eexists; split; [exact N|]; now exists version, type|].
  intros n Hn. etransitivity; [apply S'; exact Hn|]. etransitivity; [apply S; exact Hn|]. rewrite V0. apply child_remove_ne. set_solver.
Qed.

End Spec.

(** ** A libconfig, and the device it is used on

    An implementation of [Libconfig] on trees, with handles that are paths and files that hold
    the tree in prefix form, and proof that it meets [LibconfigLaws]. *)

(** ** Files *)
Definition put_string (s : string) : list Z := Z.of_nat (String.length s) :: bytes_of_string s.

Fixpoint put (v : setting) : list Z :=
  match v with
  | SString s => 0 :: put_string s
  | SGroup cs => 1 :: Z.of_nat (length cs) :: concat (map (fun '(n, c) => put_string n ++ put c) cs)
  | SList l => 2 :: Z.of_nat (length l) :: concat (map put l)
  | SOther s => 3 :: put_string s
  end.

Definition get_string (bs : list Z) : option (string * list Z) :=
  match bs with
  | n :: bs => Some (string_of_bytes (take (Z.to_nat n) bs), drop (Z.to_nat n) bs)
  | [] => None
  end.

(** [n] times. *)
Fixpoint get_many {A} (get : list Z -> option (A * list Z)) (n : nat) (bs : list Z) : option (list A * list Z) :=
  match n with
  | O => Some ([], bs)
  | S n => match get bs with
           | Some (a, bs) => match get_many get n bs with Some (l, bs) => Some (a :: l, bs) | None => None end
           | None => None
           end
  end.

(** [fuel] bounds the depth. *)
Fixpoint get (fuel : nat) (bs : list Z) : option (setting * list Z) :=
  match fuel with
  | O => None
  | S fuel =>
      let get_named bs := match get_string bs with
                          | Some (n, bs) => match get fuel bs with Some (c, bs) => Some ((n, c), bs) | None => None end
                          | None => None
                          end in
      match bs with
      | 0 :: bs => match get_string bs with Some (s, bs) => Some (SString s, bs) | None => None end
      | 1 :: n :: bs => match get_many get_named (Z.to_nat n) bs with Some (cs, bs) => Some (SGroup cs, bs) | None => None end
      | 2 :: n :: bs => match get_many (get fuel) (Z.to_nat n) bs with Some (l, bs) => Some (SList l, bs) | None => None end
      | 3 :: bs => match get_string bs with Some (s, bs) => Some (SOther s, bs) | None => None end
      | _ => None
      end
  end.

Lemma get_put_string s rest : get_string (put_string s ++ rest) = Some (s, rest).
Proof.
  unfold get_string, put_string. cbn. rewrite Nat2Z.id. replace (String.length s) with (length (bytes_of_string s)).
  - now rewrite take_app_length, drop_app_length, string_of_bytes_of_string.
  - induction s as [|a s IH]; [done|]. cbn. now rewrite IH.
Qed.

Lemma get_put_many {A} (get : list Z -> option (A * list Z)) put l rest :
  Forall (fun a => forall rest, get (put a ++ rest) = Some (a, rest)) l ->
  get_many get (length l) (concat (map put l) ++ rest) = Some (l, rest).
Proof. induction 1 as [|a l Ha _ IH]; [done|]. cbn. now rewrite <- app_assoc, Ha, IH. Qed.

Fixpoint depth (v : setting) : nat :=
  match v with
  | SGroup cs => S (max_list (map (fun c => depth (snd c)) cs))
  | SList l => S (max_list (map depth l))
  | _ => 1
  end.

Lemma depth_bound {A} (f : A -> nat) l d : (max_list (map f l) <= d)%nat -> Forall (fun a => f a <= d)%nat l.
Proof. induction l as [|a l IH]; [constructor|]. cbn. intros H. constructor; [lia|]. apply IH. lia. Qed.

Lemma get_put fuel v rest : (depth v <= fuel)%nat -> get fuel (put v ++ rest) = Some (v, rest).
Proof.
  revert v rest. induction fuel as [|fuel IH]; intros v rest H; [destruct v; cbn in H; lia|].
  destruct v as [s|cs|l|s]; cbn [put app get]; try now rewrite get_put_string.
  - rewrite Nat2Z.id. erewrite get_put_many; [reflexivity|]. cbn in H. apply le_S_n, depth_bound in H.
    eapply Forall_impl; [exact H|]. intros [n c] Hc r. cbn in Hc. rewrite <- app_assoc, get_put_string. now rewrite IH.
  - rewrite Nat2Z.id. erewrite get_put_many; [reflexivity|]. cbn in H. apply le_S_n, depth_bound in H.
    eapply Forall_impl; [exact H|]. intros c Hc r. now apply IH.
Qed.

(** ** Configurations: the children of the top level *)
Definition children (v : setting) : list (string * setting) := match v with SGroup cs => cs | _ => [] end.

Definition read_tree (bs : list Z) : option setting :=
  match bs with
  | d :: bs => match get (Z.to_nat d) bs with Some (SGroup cs, []) => Some (SGroup cs) | _ => None end
  | [] => None
  end.
Definition write_tree (v : setting) : list Z := Z.of_nat (depth v) :: put v.

Definition tree_add (k : list (string * setting)) (h : list path_step) (n : option string) (ty : config_type) :
    list (string * setting) * option (list path_step) :=
  match node h (SGroup k), n with
  | Some (SGroup cs), Some n =>
      match child_of n cs with
      | Some _ => (k, None)
      | None => (children (update h (add_child n (blank ty)) (SGroup k)), Some (h ++ [Name n]))
      end
  | Some (SList l), None => (children (update h (add_item (blank ty)) (SGroup k)), Some (h ++ [Index (length l)]))
  | _, _ => (k, None)
  end.

#[export] Instance tree_config : Libconfig (list (string * setting)) (list path_step) := {
  config_init := [];
  config_read_file k content :=
    match content with
    | Some bs => match read_tree bs with Some v => (children v, true) | None => (k, false) end
    | None => (k, false)
    end;
  config_write_file k := Some (write_tree (SGroup k));
  config_root_setting _ := [];
  config_lookup k n := match child_of n k with Some _ => Some [Name n] | None => None end;
  config_setting_add := tree_add;
  config_setting_set_string k h s :=
    match node h (SGroup k) with
    | Some (SString _) => (children (update h (fun _ => SString s) (SGroup k)), true)
    | _ => (k, false)
    end;
  config_setting_remove k h n :=
    (children (update h (remove_child n) (SGroup k)),
     match node h (SGroup k) with Some v => bool_decide (is_Some (child n v)) | None => false end) }.

(** An update that leaves groups groups leaves the top level one. *)
Lemma update_group h f k : (h = [] -> exists cs, f (SGroup k) = SGroup cs) ->
  SGroup (children (update h f (SGroup k))) = update h f (SGroup k).
Proof. intros F. destruct h as [|[n|i] h]; [destruct (F eq_refl) as [cs E]; cbn; now rewrite E|done|done]. Qed.

#[export] Program Instance tree_config_laws : LibconfigLaws (list (string * setting)) (list path_step) := {
  view := SGroup;
  path h := h;
  parse := read_tree }.
Next Obligation.
  intros k bytes [= <-]. unfold read_tree, write_tree. rewrite Nat2Z.id, <- (app_nil_r (put _)). now rewrite get_put.
Qed.
Next Obligation. split; [done|]. now exists k. Qed.
Next Obligation. intros k n. cbn. destruct (child_of n k); [split; eauto|done]. Qed.
Next Obligation.
  intros k h n ty k' h'. cbn. unfold tree_add. destruct (node h (SGroup k)) as [[| cs | |]|] eqn:N; try done.
  destruct (child_of n cs) eqn:E; [done|]. intros [= <- <-]. split; [now exists cs|]. split; [|done].
  apply update_group. eauto.
Qed.
Next Obligation.
  intros k h ty k' h'. cbn. unfold tree_add. destruct (node h (SGroup k)) as [[| |l|]|] eqn:N; try done.
  intros [= <- <-]. exists l. split; [done|]. split; [|done]. apply update_group. intros ->. eauto.
Qed.
Next Obligation.
  intros k h s k'. cbn. destruct (node h (SGroup k)) as [[| | |]|] eqn:N; try done. intros [= <-].
  apply update_group. now intros ->.
Qed.
Next Obligation. intros k h n k' b [= <- _]. apply update_group. intros ->. cbn. eauto. Qed.

(** ** A device *)
#[export] Instance keyed_config : ConfigOps (list (string * string)) := {
  ticosd_config_get_boolean _ _ _ := None;
  ticosd_config_get_integer _ _ _ := None;
  ticosd_config_get_string c _ key := snd <$> List.find (fun p => String.eqb key (fst p)) c }.

Definition update_config : list (string * string) :=
  [("base_url", "https://t"); ("project_key", "k"); ("software_version", "2"); ("software_type", "main"); ("input_file", "/in"); ("output_file", "/out")].

Definition update_template : setting :=
  SGroup [("suricatta", SGroup [("polldelay", SOther "300"); ("tenant", SString "other")]); ("identify", SList []); ("webserver", SOther "{}")].

Definition update_world (template : option setting) : swupdate_world (Q := unit) (C := list (string * string)) (W := unit) (B := unit_table) :=
  MkSwupdateWorld (MkTicosd tt tt update_config (MkSettings "dev" "hw") false false [])
    match template with Some v => {["/in" := write_tree v]} | None => ∅ end (MkUnits (fun _ => Some "active") []).

Definition update_written : setting :=
  SGroup [("suricatta", SGroup [("polldelay", SOther "300"); ("url", SString "https://t/api/v0/hawkbit"); ("id", SString "dev");
                                ("tenant", SString "default"); ("gatewaytoken", SString "k")]);
          ("webserver", SOther "{}"); ("globals", SGroup []);
          ("identify", SList [identity "ticos__current_version" "2"; identity "ticos__hardware_version" "hw"; identity "ticos__software_type" "main"])].

Definition update_done : swupdate_world (Q := unit) (C := list (string * string)) (W := unit) (B := unit_table) :=
  MkSwupdateWorld (ticosd (update_world None)) (<["/out" := write_tree update_written]> (fs (update_world (Some update_template))))
    (MkUnits (fun _ => Some "active") []).


(** Without a template a configuration is written all the same; without a server it is not. *)
Example without_template :
  (let! (w, ok) := prv_swupdate_reload (K := list (string * setting)) (update_world None) in Val (ok, map fst (requests (bus w)))) =
  Val (true, ["swupdate.service"; "swupdate.socket"]).
Proof. vm_compute. reflexivity. Qed.
