(* ===== verification/Cbor.v ===== *)
(** * The CBOR encoder (src/util/cbor.c)

    The encoder state with its write callback, one definition per function.  The
    callback is a function on the storage it writes to; an encoder without one only
    counts bytes. *)
From S2P Require Import Prelude.

(** eCborMajorType *)
Definition kCborMajorType_UnsignedInteger : Z := 0.
Definition kCborMajorType_NegativeInteger : Z := 1.
Definition kCborMajorType_ByteString : Z := 2.
Definition kCborMajorType_TextString : Z := 3.
Definition kCborMajorType_Array : Z := 4.
Definition kCborMajorType_Map : Z := 5.
Definition kCborMajorType_SimpleType : Z := 7.

Definition CBOR_SERIALIZE_MAJOR_TYPE (mt : Z) : Z := u8 (Z.shiftl (Z.land mt 0x7) 5).

(** [TicosCborWriteCallback]: storage, offset, data. *)
Definition write_callback (C : Type) : Type := C -> Z -> list Z -> outcome C.

Record sTicosCborEncoder (C : Type) := MkEncoder {
  compute_size_only : bool;
  write_cb : option (write_callback C);
  write_cb_ctx : C;
  buf_len : Z;
  encoded_size : Z }.
Arguments MkEncoder {C} _ _ _ _ _.
Arguments compute_size_only {C} _.
Arguments write_cb {C} _.
Arguments write_cb_ctx {C} _.
Arguments buf_len {C} _.
Arguments encoded_size {C} _.

Section Encoder.
Context {C : Type}.
Implicit Type e : sTicosCborEncoder C.

Definition set_encoded_size e n : sTicosCborEncoder C :=
  MkEncoder (compute_size_only e) (write_cb e) (write_cb_ctx e) (buf_len e) n.
Definition set_write_cb_ctx e c : sTicosCborEncoder C :=
  MkEncoder (compute_size_only e) (write_cb e) c (buf_len e) (encoded_size e).

Definition ticos_cbor_encoder_init (write_cb : option (write_callback C)) (ctx : C) (buf_len : Z)
    : sTicosCborEncoder C :=
  let compute_size_only := match write_cb with None => true | Some _ => false end in
  MkEncoder compute_size_only write_cb ctx buf_len 0.

Definition ticos_cbor_encoder_size_only_init (ctx : C) : sTicosCborEncoder C :=
  ticos_cbor_encoder_init None ctx 0.

(** The number of bytes encoded; the zeroed structure is not used afterwards. *)
Definition ticos_cbor_encoder_deinit e : Z := encoded_size e.

Definition prv_add_to_result_buffer e (data : list Z) : outcome (sTicosCborEncoder C * bool) :=
  let data_len := zlen data in
  if data_len =? 0 then Val (e, true)
  else if compute_size_only e then Val (set_encoded_size e (u64 (encoded_size e + data_len)), true)
  else if u64 (encoded_size e + data_len) >? buf_len e then Val (e, false)
  else
    match write_cb e with
    | None => Fault
    | Some cb =>
        let! ctx := cb (write_cb_ctx e) (u32 (encoded_size e)) data in
        Val (set_encoded_size (set_write_cb_ctx e ctx) (u64 (encoded_size e + data_len)), true)
    end.

(** [f(encoder) && g(encoder)] *)
Definition and_then (r : outcome (sTicosCborEncoder C * bool))
    (k : sTicosCborEncoder C -> outcome (sTicosCborEncoder C * bool)) : outcome (sTicosCborEncoder C * bool) :=
  let! (e, ok) := r in if (ok : bool) then k e else Val (e, false).

(** The bytes of [tmp_buf]. *)
Definition unsigned_integer_bytes (major_type val : Z) : list Z :=
  let mt := CBOR_SERIALIZE_MAJOR_TYPE major_type in
  if val <? 24 then [u8 (mt + val)]
  else if val <=? 0xff then [u8 (mt + 24); Z.land val 0xff]
  else if val <=? 0xffff then [u8 (mt + 25); Z.land (Z.shiftr val 8) 0xff; Z.land val 0xff]
  else [u8 (mt + 26); Z.land (Z.shiftr val 24) 0xff; Z.land (Z.shiftr val 16) 0xff;
        Z.land (Z.shiftr val 8) 0xff; Z.land val 0xff].

Definition prv_encode_unsigned_integer e (major_type val : Z) : outcome (sTicosCborEncoder C * bool) :=
  prv_add_to_result_buffer e (unsigned_integer_bytes major_type val).

Definition prv_encode_uint64 (val : Z) : list Z :=
  map (fun shift => Z.land (Z.shiftr val shift) 0xff) [56; 48; 40; 32; 24; 16; 8; 0].

(** [>>] on a negative value keeps the sign, [^] with all ones is the complement. *)
Definition ticos_cbor_encode_long_signed_integer e (value : Z) : outcome (sTicosCborEncoder C * bool) :=
  let ui := Z.shiftr value 63 in
  let cbor_major_type := Z.land ui 0x1 in
  let ui := Z.lxor ui value in
  if ui <=? 0xffffffff then prv_encode_unsigned_integer e cbor_major_type (u32 ui)
  else
    prv_add_to_result_buffer e
      (Z.lor (CBOR_SERIALIZE_MAJOR_TYPE cbor_major_type) 27 :: prv_encode_uint64 (u64 ui)).

(** [val] is the IEEE 754 bit pattern. *)
Definition ticos_cbor_encode_uint64_as_double e (val : Z) : outcome (sTicosCborEncoder C * bool) :=
  prv_add_to_result_buffer e
    (Z.lor (CBOR_SERIALIZE_MAJOR_TYPE kCborMajorType_SimpleType) 27 :: prv_encode_uint64 val).

Definition ticos_cbor_encode_unsigned_integer e (value : Z) : outcome (sTicosCborEncoder C * bool) :=
  prv_encode_unsigned_integer e kCborMajorType_UnsignedInteger value.

Definition ticos_cbor_join e (cbor_data : list Z) : outcome (sTicosCborEncoder C * bool) :=
  prv_add_to_result_buffer e cbor_data.

Definition ticos_cbor_encode_signed_integer e (value : Z) : outcome (sTicosCborEncoder C * bool) :=
  let ui := Z.shiftr value 31 in
  let cbor_major_type := Z.land ui 0x1 in
  let ui := Z.lxor ui value in
  prv_encode_unsigned_integer e cbor_major_type (u32 ui).

(** The length argument is a [uint32_t]: a [size_t] is cut to 32 bits. *)
Definition ticos_cbor_encode_byte_string e (buf : list Z) : outcome (sTicosCborEncoder C * bool) :=
  and_then (prv_encode_unsigned_integer e kCborMajorType_ByteString (u32 (zlen buf)))
    (fun e => prv_add_to_result_buffer e buf).

Definition ticos_cbor_encode_byte_string_begin e (buf_len : Z) : outcome (sTicosCborEncoder C * bool) :=
  prv_encode_unsigned_integer e kCborMajorType_ByteString (u32 buf_len).

(** [str] is a C string: its bytes before the NUL. *)
Definition ticos_cbor_encode_string e (str : list Z) : outcome (sTicosCborEncoder C * bool) :=
  and_then (prv_encode_unsigned_integer e kCborMajorType_TextString (u32 (zlen str)))
    (fun e => prv_add_to_result_buffer e str).

Definition ticos_cbor_encode_string_begin e (str_len : Z) : outcome (sTicosCborEncoder C * bool) :=
  prv_encode_unsigned_integer e kCborMajorType_TextString (u32 str_len).

Definition ticos_cbor_encode_dictionary_begin e (num_elements : Z) : outcome (sTicosCborEncoder C * bool) :=
  prv_encode_unsigned_integer e kCborMajorType_Map (u32 num_elements).

Definition ticos_cbor_encode_array_begin e (num_elements : Z) : outcome (sTicosCborEncoder C * bool) :=
  prv_encode_unsigned_integer e kCborMajorType_Array (u32 num_elements).

End Encoder.
