(* ===== verification/CborSpec.v ===== *)
(** * What the CBOR encoder writes

    A reference decoder for the data items of RFC 7049 that the encoder can produce, the
    item each call of the encoder stands for, and the theorems that relate them: what was
    encoded decodes to the same items, the size-only encoder counts exactly the bytes
    written, and an encoder never writes outside the storage it was given. *)
From S2P Require Import Prelude Cbor.

(** ** Reference decoder *)
Inductive item :=
| IUnsigned (n : Z)
| INegative (n : Z)        (** the value is [-1 - n] *)
| IBytes (bs : list Z)
| IText (bs : list Z)
| IArray (n : Z)           (** header only: [n] items follow *)
| IMap (n : Z)             (** header only: [n] pairs follow *)
| IDouble (bits : Z).

(** The first [n] bytes and the others. *)
Definition split_bytes (n : Z) (bs : list Z) : option (list Z * list Z) :=
  if n <=? zlen bs then Some (take (Z.to_nat n) bs, drop (Z.to_nat n) bs) else None.

(** Bytes of the argument that follow the first byte. *)
Definition head_width (ai : Z) : option Z :=
  if ai <? 24 then Some 0 else if ai =? 24 then Some 1 else if ai =? 25 then Some 2
  else if ai =? 26 then Some 4 else if ai =? 27 then Some 8 else None.

(** Major type, additional information, argument, rest. *)
Definition decode_head (bs : list Z) : option (Z * Z * Z * list Z) :=
  match bs with
  | [] => None
  | b :: rest =>
      match head_width (b mod 32) with
      | None => None
      | Some w =>
          match split_bytes w rest with
          | None => None
          | Some (arg, rest) => Some (b / 32, b mod 32, if w =? 0 then b mod 32 else be_val arg, rest)
          end
      end
  end.

Definition decode_item (bs : list Z) : option (item * list Z) :=
  match decode_head bs with
  | None => None
  | Some (mt, ai, n, rest) =>
      if mt =? 0 then Some (IUnsigned n, rest)
      else if mt =? 1 then Some (INegative n, rest)
      else if mt =? 2 then match split_bytes n rest with Some (x, rest) => Some (IBytes x, rest) | None => None end
      else if mt =? 3 then match split_bytes n rest with Some (x, rest) => Some (IText x, rest) | None => None end
      else if mt =? 4 then Some (IArray n, rest)
      else if mt =? 5 then Some (IMap n, rest)
      else if (mt =? 7) && (ai =? 27) then Some (IDouble n, rest)
      else None
  end.

(** [n] items in a row that use up all bytes. *)
Fixpoint decode_items (n : nat) (bs : list Z) : option (list item) :=
  match n with
  | O => match bs with [] => Some [] | _ => None end
  | S n =>
      match decode_item bs with
      | Some (i, rest) => match decode_items n rest with Some its => Some (i :: its) | None => None end
      | None => None
      end
  end.

(** ** Calls of the encoder *)
Inductive call :=
| EncUnsigned (v : Z)
| EncSigned (v : Z)
| EncLongSigned (v : Z)
| EncDouble (bits : Z)
| EncByteString (bs : list Z)
| EncString (bs : list Z)
| EncDictionary (n : Z)
| EncArray (n : Z).

(** Arguments within their C types; strings short enough for their 32-bit length field. *)
Definition call_ok (c : call) : Prop :=
  match c with
  | EncUnsigned v | EncDictionary v | EncArray v => 0 <= v < 2 ^ 32
  | EncSigned v => - 2 ^ 31 <= v < 2 ^ 31
  | EncLongSigned v => - 2 ^ 63 <= v < 2 ^ 63
  | EncDouble bits => 0 <= bits < 2 ^ 64
  | EncByteString bs | EncString bs => zlen bs < 2 ^ 32
  end.

Definition signed_item (v : Z) : item := if v <? 0 then INegative (-1 - v) else IUnsigned v.

Definition item_of (c : call) : item :=
  match c with
  | EncUnsigned v => IUnsigned v
  | EncSigned v | EncLongSigned v => signed_item v
  | EncDouble bits => IDouble bits
  | EncByteString bs => IBytes bs
  | EncString bs => IText bs
  | EncDictionary n => IMap n
  | EncArray n => IArray n
  end.

Definition run_call {C} (e : sTicosCborEncoder C) (c : call) : outcome (sTicosCborEncoder C * bool) :=
  match c with
  | EncUnsigned v => ticos_cbor_encode_unsigned_integer e v
  | EncSigned v => ticos_cbor_encode_signed_integer e v
  | EncLongSigned v => ticos_cbor_encode_long_signed_integer e v
  | EncDouble bits => ticos_cbor_encode_uint64_as_double e bits
  | EncByteString bs => ticos_cbor_encode_byte_string e bs
  | EncString bs => ticos_cbor_encode_string e bs
  | EncDictionary n => ticos_cbor_encode_dictionary_begin e n
  | EncArray n => ticos_cbor_encode_array_begin e n
  end.

(** Calls joined with [&&]. *)
Fixpoint run_calls {C} (e : sTicosCborEncoder C) (cs : list call) : outcome (sTicosCborEncoder C * bool) :=
  match cs with
  | [] => Val (e, true)
  | c :: cs => and_then (run_call e c) (fun e => run_calls e cs)
  end.

(** The bytes a call hands to [prv_add_to_result_buffer], chunk by chunk. *)
Definition signed_bytes (v : Z) : list Z :=
  let '(mt, n) := if v <? 0 then (1, -1 - v) else (0, v) in
  if n <=? 0xffffffff then unsigned_integer_bytes mt n
  else (32 * mt + 27) :: prv_encode_uint64 n.

Definition chunks (c : call) : list (list Z) :=
  match c with
  | EncUnsigned v => [unsigned_integer_bytes 0 v]
  | EncSigned v | EncLongSigned v => [signed_bytes v]
  | EncDouble bits => [251 :: prv_encode_uint64 bits]
  | EncByteString bs => [unsigned_integer_bytes 2 (zlen bs); bs]
  | EncString bs => [unsigned_integer_bytes 3 (zlen bs); bs]
  | EncDictionary n => [unsigned_integer_bytes 5 n]
  | EncArray n => [unsigned_integer_bytes 4 n]
  end.

(** The encoding of a list of calls. *)
Definition encoding (cs : list call) : list Z := concat (concat (map chunks cs)).

(** Chunks appended one after the other, stopping at the first that does not fit. *)
Fixpoint add_all {C} (e : sTicosCborEncoder C) (ds : list (list Z)) : outcome (sTicosCborEncoder C * bool) :=
  match ds with
  | [] => Val (e, true)
  | d :: ds => and_then (prv_add_to_result_buffer e d) (fun e => add_all e ds)
  end.

(** ** Every call is [add_all] of its chunks *)
Lemma and_then_ret {C} (r : outcome (sTicosCborEncoder C * bool)) : and_then r (fun e => Val (e, true)) = r.
Proof. destruct r as [[e []]| |]; done. Qed.

Lemma add_all_app {C} (e : sTicosCborEncoder C) ds1 ds2 :
  add_all e (ds1 ++ ds2) = and_then (add_all e ds1) (fun e => add_all e ds2).
Proof.
  revert e. induction ds1 as [|d ds1 IH]; intros e; [done|]. cbn [app add_all].
  destruct (prv_add_to_result_buffer e d) as [[e' []]| |]; cbn [and_then obind]; auto.
Qed.

(** The sign bit and the argument that the shift and the exclusive or compute. *)
Lemma sign_extension w v : 0 < w -> - 2 ^ w <= v < 2 ^ w ->
  Z.land (Z.shiftr v w) 1 = (if v <? 0 then 1 else 0) /\
  Z.lxor (Z.shiftr v w) v = (if v <? 0 then -1 - v else v).
Proof.
  intros Hw Hv. rewrite Z.shiftr_div_pow2 by lia. destruct (Z.ltb_spec v 0).
  - replace (v / 2 ^ w) with (-1); [|apply Z.div_unique with (v + 2 ^ w); lia].
    split; [done|]. rewrite Z.lxor_m1_l. unfold Z.lnot. lia.
  - rewrite Z.div_small by lia. done.
Qed.

Lemma add_all_one {C} (e : sTicosCborEncoder C) d : add_all e [d] = prv_add_to_result_buffer e d.
Proof. apply and_then_ret. Qed.

Lemma add_all_two {C} (e : sTicosCborEncoder C) d1 d2 :
  add_all e [d1; d2] = and_then (prv_add_to_result_buffer e d1) (fun e => prv_add_to_result_buffer e d2).
Proof.
  cbn [add_all]. destruct (prv_add_to_result_buffer e d1) as [[e' []]| |]; cbn [and_then obind]; try done.
  apply and_then_ret.
Qed.

Lemma run_call_chunks {C} (e : sTicosCborEncoder C) c : call_ok c -> run_call e c = add_all e (chunks c).
Proof.
  destruct c as [v|v|v|bits|bs|bs|n|n]; intros Hc; cbn [run_call chunks call_ok] in *;
    rewrite ?add_all_one, ?add_all_two;
    unfold ticos_cbor_encode_dictionary_begin, ticos_cbor_encode_array_begin, ticos_cbor_encode_byte_string,
      ticos_cbor_encode_string, prv_encode_unsigned_integer; rewrite ?u32_small by lia; try reflexivity.
  - unfold ticos_cbor_encode_signed_integer, prv_encode_unsigned_integer, signed_bytes.
    destruct (sign_extension 31 v) as [-> ->]; [lia..|].
    destruct (Z.ltb_spec v 0); rewrite u32_small by lia.
    + now test_true (-1 - v <=? 0xffffffff).
    + now test_true (v <=? 0xffffffff).
  - unfold ticos_cbor_encode_long_signed_integer, prv_encode_unsigned_integer, signed_bytes.
    destruct (sign_extension 63 v) as [-> ->]; [lia..|].
    destruct (Z.ltb_spec v 0); case_test; tests_to_props;
      rewrite ?u32_small, ?u64_small by lia; reflexivity.
Qed.

Lemma run_calls_chunks {C} (e : sTicosCborEncoder C) cs : Forall call_ok cs ->
  run_calls e cs = add_all e (concat (map chunks cs)).
Proof.
  intros H. revert e. induction H as [|c cs Hc Hcs IH]; intros e; [done|].
  cbn [run_calls map concat]. rewrite add_all_app, run_call_chunks by done.
  destruct (add_all e (chunks c)) as [[e' []]| |]; cbn [and_then obind]; auto.
Qed.

(** ** Round trip with the reference decoder *)
Lemma split_bytes_app x r : split_bytes (zlen x) (x ++ r) = Some (x, r).
Proof.
  unfold split_bytes. rewrite length_app. test_true (zlen x <=? Z.of_nat (length x + length r)).
  now rewrite Nat2Z.id, take_app_length, drop_app_length.
Qed.

Lemma serialize_major_type mt : 0 <= mt < 8 -> CBOR_SERIALIZE_MAJOR_TYPE mt = 32 * mt.
Proof.
  intros H. assert (E : mt = 0 \/ mt = 1 \/ mt = 2 \/ mt = 3 \/ mt = 4 \/ mt = 5 \/ mt = 6 \/ mt = 7) by lia.
  destruct E as [-> |[-> |[-> |[-> |[-> |[-> |[-> | ->]]]]]]]; reflexivity.
Qed.

Lemma head_byte mt ai : 0 <= mt < 8 -> 0 <= ai < 32 ->
  u8 (32 * mt + ai) = 32 * mt + ai /\ (32 * mt + ai) / 32 = mt /\ (32 * mt + ai) mod 32 = ai.
Proof.
  intros Hm Ha. split; [apply Z.mod_small; lia|]. rewrite Z.add_comm, (Z.mul_comm 32).
  now rewrite Z.div_add, Z.mod_add, Z.div_small, Z.mod_small by lia.
Qed.

Lemma decode_head_direct mt v r : 0 <= mt < 8 -> 0 <= v < 24 ->
  decode_head ((32 * mt + v) :: r) = Some (mt, v, v, r).
Proof.
  intros Hm Hv. destruct (head_byte mt v) as (_ & Ed & Em); [lia..|].
  cbn [decode_head]. rewrite Em, Ed. unfold head_width. test_true (v <? 24).
  change (split_bytes 0 r) with (split_bytes (zlen (@nil Z)) ([] ++ r)). now rewrite split_bytes_app.
Qed.

Lemma decode_head_sized mt ai k v r : 0 <= mt < 8 -> 0 <= ai < 32 -> 0 <= v < 256 ^ Z.of_nat (S k) ->
  head_width ai = Some (Z.of_nat (S k)) ->
  decode_head ((32 * mt + ai) :: be_bytes (S k) v ++ r) = Some (mt, ai, v, r).
Proof.
  intros Hm Ha Hv Hw. destruct (head_byte mt ai) as (_ & Ed & Em); [done..|].
  cbn [decode_head]. rewrite Em, Ed, Hw.
  pose proof (split_bytes_app (be_bytes (S k) v) r) as E. rewrite be_bytes_length in E. rewrite E.
  rewrite be_val_be_bytes, Z.mod_small by done. reflexivity.
Qed.

Lemma unsigned_bytes_form mt v : 0 <= mt < 8 -> 0 <= v < 2 ^ 32 ->
  unsigned_integer_bytes mt v =
    if v <? 24 then [32 * mt + v]
    else if v <=? 0xff then (32 * mt + 24) :: be_bytes 1 v
    else if v <=? 0xffff then (32 * mt + 25) :: be_bytes 2 v
    else (32 * mt + 26) :: be_bytes 4 v.
Proof.
  intros Hm Hv. unfold unsigned_integer_bytes. rewrite serialize_major_type by done.
  replace (Z.land v 0xff) with (Z.land (Z.shiftr v 0) 0xff) by now rewrite Z.shiftr_0_r.
  rewrite !shift_mask_byte by lia. destruct (Z.ltb_spec v 24).
  - destruct (head_byte mt v) as (-> & _); [lia..|done].
  - assert (E : forall ai, 0 <= ai < 32 -> u8 (32 * mt + ai) = 32 * mt + ai) by (intros ai ?; now apply head_byte).
    rewrite !E by lia. reflexivity.
Qed.

Lemma decode_unsigned mt v r : 0 <= mt < 8 -> 0 <= v < 2 ^ 32 ->
  exists ai, decode_head (unsigned_integer_bytes mt v ++ r) = Some (mt, ai, v, r).
Proof.
  intros Hm Hv. rewrite unsigned_bytes_form by done. repeat case_test; tests_to_props; cbn [app]; eexists.
  - now apply decode_head_direct.
  - apply (decode_head_sized mt 24 0); [done|lia|lia|done].
  - apply (decode_head_sized mt 25 1); [done|lia|lia|done].
  - apply (decode_head_sized mt 26 3); [done|lia|lia|done].
Qed.

Lemma uint64_bytes v : 0 <= v -> prv_encode_uint64 v = be_bytes 8 v.
Proof. intros. unfold prv_encode_uint64. cbn [map]. rewrite !shift_mask_byte by lia. reflexivity. Qed.

Lemma decode_uint64 mt v r : 0 <= mt < 8 -> 0 <= v < 2 ^ 64 ->
  decode_head ((32 * mt + 27) :: prv_encode_uint64 v ++ r) = Some (mt, 27, v, r).
Proof. intros. rewrite uint64_bytes by lia. apply decode_head_sized; [done|lia|done|done]. Qed.

Lemma decode_signed v r : - 2 ^ 63 <= v < 2 ^ 63 -> decode_item (signed_bytes v ++ r) = Some (signed_item v, r).
Proof.
  intros Hv. unfold signed_bytes, signed_item, decode_item.
  destruct (Z.ltb_spec v 0); (case_test; tests_to_props;
    [edestruct decode_unsigned as (ai & ->); [lia|lia|reflexivity]
    |cbn [app]; rewrite decode_uint64 by lia; reflexivity]).
Qed.

(** One call, whatever follows it. *)
Lemma decode_call c r : call_ok c -> decode_item (concat (chunks c) ++ r) = Some (item_of c, r).
Proof.
  destruct c as [v|v|v|bits|bs|bs|n|n]; intros Hc; cbn [chunks call_ok item_of concat] in *;
    rewrite ?app_nil_r, <- ?app_assoc.
  1, 5, 6, 7, 8: unfold decode_item; edestruct decode_unsigned as (ai & ->); [lia|lia|]; cbn [Z.eqb Pos.eqb];
    rewrite ?split_bytes_app; reflexivity.
  - apply decode_signed. lia.
  - now apply decode_signed.
  - unfold decode_item. cbn [app]. change 251 with (32 * 7 + 27). rewrite decode_uint64 by lia. reflexivity.
Qed.

Lemma decode_encoding cs : Forall call_ok cs -> decode_items (length cs) (encoding cs) = Some (map item_of cs).
Proof.
  unfold encoding. induction 1 as [|c cs Hc Hcs IH]; [done|]. cbn [map concat length decode_items].
  rewrite concat_app, decode_call by done. now rewrite IH.
Qed.

(** ** Encoding into memory *)

(** The callback of a plain buffer, at byte offset [base] of an object. *)
Definition memory_cb (base : Z) : write_callback (list Z) := fun mem offset data => store mem (base + offset) data.

(** An encoder over memory that starts at [base] and may use the bytes up to its [buf_len]. *)
Record memory_encoder (base : Z) (e : sTicosCborEncoder (list Z)) : Prop := {
  me_mode : compute_size_only e = false;
  me_cb : write_cb e = Some (memory_cb base);
  me_base : 0 <= base;
  me_size : 0 <= encoded_size e <= buf_len e;
  me_len : buf_len e < 2 ^ 32;
  me_mem : base + buf_len e <= zlen (write_cb_ctx e) }.

Definition total (ds : list (list Z)) : Z := zlen (concat ds).

Lemma total_cons d ds : total (d :: ds) = zlen d + total ds.
Proof. unfold total. cbn [concat]. rewrite length_app. lia. Qed.

Lemma total_nonneg ds : 0 <= total ds.
Proof. unfold total. lia. Qed.

Lemma add_fits base e d : memory_encoder base e -> encoded_size e + zlen d <= buf_len e ->
  exists mem, prv_add_to_result_buffer e d =
      Val (set_encoded_size (set_write_cb_ctx e mem) (encoded_size e + zlen d), true) /\
    unchanged_outside (write_cb_ctx e) mem (base + encoded_size e) (base + encoded_size e + zlen d) /\
    mem @ (base + encoded_size e) ↦ d.
Proof.
  intros [Hm Hc Hb Hs Hl Hmem] Hd. unfold prv_add_to_result_buffer. destruct (Z.eqb_spec (zlen d) 0) as [E|E].
  - exists (write_cb_ctx e). destruct d as [|? ?]; [|cbn in E; lia]. cbn [length]. rewrite !Z.add_0_r.
    split; [destruct e; reflexivity|]. split; [apply unchanged_refl|]. apply bytes_at_nil. lia.
  - rewrite Hm, Hc, u64_small, u32_small by lia. test_false (encoded_size e + zlen d >? buf_len e).
    unfold memory_cb. destruct (store_spec (write_cb_ctx e) (base + encoded_size e) d) as (mem & Es & L & A & _); try lia.
    exists mem. rewrite Es. cbn [obind]. split; [done|]. split; [|done].
    split; [done|]. intros off len Ho. eapply store_load_disjoint; [done|lia].
Qed.

Lemma add_overflows base e (d : list Z) : memory_encoder base e -> zlen d < 2 ^ 63 -> buf_len e < encoded_size e + zlen d ->
  prv_add_to_result_buffer e d = Val (e, false).
Proof.
  intros [Hm Hc Hb Hs Hl Hmem] Hz Hd. unfold prv_add_to_result_buffer. test_false (zlen d =? 0).
  rewrite Hm, u64_small by lia. now test_true (encoded_size e + zlen d >? buf_len e).
Qed.

Lemma memory_encoder_step base e (d mem : list Z) : memory_encoder base e -> encoded_size e + zlen d <= buf_len e ->
  zlen mem = zlen (write_cb_ctx e) ->
  memory_encoder base (set_encoded_size (set_write_cb_ctx e mem) (encoded_size e + zlen d)).
Proof. intros [Hm Hc Hb Hs Hl Hmem] Hd E. split; cbn; try done; lia. Qed.

Lemma add_all_fits base ds : forall e, memory_encoder base e -> encoded_size e + total ds <= buf_len e ->
  exists mem, add_all e ds = Val (set_encoded_size (set_write_cb_ctx e mem) (encoded_size e + total ds), true) /\
    unchanged_outside (write_cb_ctx e) mem (base + encoded_size e) (base + encoded_size e + total ds) /\
    mem @ (base + encoded_size e) ↦ concat ds.
Proof.
  induction ds as [|d ds IH]; intros e He Hd.
  - exists (write_cb_ctx e). unfold total. cbn [concat length add_all]. rewrite !Z.add_0_r.
    split; [destruct e; reflexivity|]. split; [apply unchanged_refl|]. destruct He. apply bytes_at_nil. lia.
  - rewrite total_cons in *. pose proof (total_nonneg ds). cbn [add_all concat].
    destruct (add_fits base e d He) as (mem & -> & U & A); [lia|]. cbn [and_then obind].
    pose proof (memory_encoder_step base e d mem He ltac:(lia) (proj1 U)) as He'.
    destruct (IH _ He') as (mem' & -> & U' & A'); [cbn; lia|]. cbn in U', A'.
    rewrite !Z.add_assoc in *. exists mem'. split; [done|]. split.
    + eapply unchanged_trans; [exact U|exact U'|lia].
    + apply bytes_at_app. split; [|done]. eapply unchanged_bytes_at; [exact U'|lia|done].
Qed.

Lemma add_all_bounded base (ds : list (list Z)) : forall e, memory_encoder base e -> Forall (fun d => zlen d < 2 ^ 63) ds ->
  exists e', add_all e ds = Val (e', encoded_size e + total ds <=? buf_len e) /\
    encoded_size e <= encoded_size e' <= buf_len e /\
    unchanged_outside (write_cb_ctx e) (write_cb_ctx e') (base + encoded_size e) (base + encoded_size e').
Proof.
  induction ds as [|d ds IH]; intros e He Hds.
  - exists e. pose proof (me_size _ _ He). unfold total. cbn [concat length add_all].
    test_true (encoded_size e + Z.of_nat 0 <=? buf_len e). split; [done|]. split; [lia|]. apply unchanged_refl.
  - apply Forall_cons_1 in Hds as [Hd Hds]. rewrite total_cons. pose proof (total_nonneg ds). cbn [add_all].
    destruct (Z.le_gt_cases (encoded_size e + zlen d) (buf_len e)) as [Hle|Hgt].
    + destruct (add_fits base e d He Hle) as (mem & -> & U & A). cbn [and_then obind].
      pose proof (memory_encoder_step base e d mem He Hle (proj1 U)) as He'.
      destruct (IH _ He' Hds) as (e' & -> & S & U'). cbn in S, U' |- *. rewrite !Z.add_assoc in *.
      exists e'. split; [done|]. split; [lia|]. eapply unchanged_trans; [exact U|exact U'|lia].
    + rewrite (add_overflows base) by (done || lia). cbn [and_then obind]. pose proof (me_size _ _ He).
      test_false (encoded_size e + (zlen d + total ds) <=? buf_len e).
      exists e. split; [done|]. split; [lia|]. apply unchanged_refl.
Qed.

Lemma add_all_size_only {C} ds : forall e : sTicosCborEncoder C, compute_size_only e = true ->
  encoded_size e = u64 (encoded_size e) ->
  exists e', add_all e ds = Val (e', true) /\ encoded_size e' = u64 (encoded_size e + total ds).
Proof.
  induction ds as [|d ds IH]; intros e He Hn.
  - exists e. unfold total. cbn [concat length]. rewrite Z.add_0_r. auto.
  - rewrite total_cons. cbn [add_all]. unfold prv_add_to_result_buffer. rewrite He.
    case_test; tests_to_props; cbn [and_then obind].
    + destruct (IH e He Hn) as (e' & -> & E'). exists e'. split; [done|]. rewrite E'. f_equal. lia.
    + edestruct (IH (set_encoded_size e (u64 (encoded_size e + zlen d)))) as (e' & -> & E'); [done| |].
      * cbn. unfold u64. now rewrite Z.mod_mod by lia.
      * exists e'. split; [done|]. rewrite E'. cbn. rewrite u64_add. f_equal. lia.
Qed.

(** ** The encoder's contract *)
Lemma chunk_lengths c : call_ok c -> Forall (fun d => zlen d < 2 ^ 63) (chunks c).
Proof.
  assert (U : forall mt v, zlen (unsigned_integer_bytes mt v) < 2 ^ 63)
    by (intros; unfold unsigned_integer_bytes; repeat case_test; done).
  destruct c as [v|v|v|bits|bs|bs|n|n]; cbn [call_ok chunks]; intros; repeat (apply Forall_cons_2 || apply Forall_nil_2); auto; try lia; try done.
  all: unfold signed_bytes; destruct (v <? 0); case_test; auto; done.
Qed.

Lemma calls_lengths cs : Forall call_ok cs -> Forall (fun d => zlen d < 2 ^ 63) (concat (map chunks cs)).
Proof. induction 1; cbn [map concat]; [constructor|]. apply Forall_app_2; auto using chunk_lengths. Qed.

Lemma init_memory_encoder base mem len : 0 <= base -> 0 <= len < 2 ^ 32 -> base + len <= zlen mem ->
  memory_encoder base (ticos_cbor_encoder_init (Some (memory_cb base)) mem len).
Proof. intros. split; cbn; try done; lia. Qed.

(** Encoding into a buffer that is large enough, with the bytes it leaves in memory. *)
Lemma run_calls_fits base mem len cs : Forall call_ok cs -> 0 <= base -> 0 <= len < 2 ^ 32 ->
  base + len <= zlen mem -> zlen (encoding cs) <= len ->
  exists e, run_calls (ticos_cbor_encoder_init (Some (memory_cb base)) mem len) cs = Val (e, true) /\
    ticos_cbor_encoder_deinit e = zlen (encoding cs) /\ write_cb_ctx e @ base ↦ encoding cs /\
    unchanged_outside mem (write_cb_ctx e) base (base + zlen (encoding cs)).
Proof.
  intros Hc Hb Hl Hm Hs. rewrite run_calls_chunks by done.
  destruct (add_all_fits base (concat (map chunks cs)) _ (init_memory_encoder base mem len Hb Hl Hm))
    as (mem' & -> & U & A); [exact Hs|].
  cbn in U, A. rewrite Z.add_0_r in *. eexists. split; [done|]. done.
Qed.

(** Counting only. *)
Lemma run_calls_size_only {C} (ctx : C) cs : Forall call_ok cs ->
  exists e, run_calls (ticos_cbor_encoder_size_only_init ctx) cs = Val (e, true) /\
    ticos_cbor_encoder_deinit e = u64 (zlen (encoding cs)).
Proof. intros Hc. rewrite run_calls_chunks by done. now apply add_all_size_only. Qed.

(** C15: encoding a list of data items into a large enough buffer succeeds, and the bytes found
    there afterwards, as many as the encoder counted, decode to exactly these items. *)
Theorem cbor_roundtrip base mem len cs : Forall call_ok cs -> 0 <= base -> 0 <= len < 2 ^ 32 ->
  base + len <= zlen mem -> zlen (encoding cs) <= len ->
  exists e bs, run_calls (ticos_cbor_encoder_init (Some (memory_cb base)) mem len) cs = Val (e, true) /\
    load (write_cb_ctx e) base (ticos_cbor_encoder_deinit e) = Val bs /\
    decode_items (length cs) bs = Some (map item_of cs).
Proof.
  intros Hc Hb Hl Hm Hs. destruct (run_calls_fits base mem len cs Hc Hb Hl Hm Hs) as (e & E & D & A & _).
  exists e, (encoding cs). rewrite D. auto using load_bytes_at, decode_encoding.
Qed.

(** C18: an encoder, whether or not its calls fit, runs without undefined behaviour, changes no
    byte outside the [len] bytes of its buffer, and succeeds exactly when the count of a
    size-only encoder over the same calls is at most [len]. *)
Theorem cbor_bounded base mem len cs : Forall call_ok cs -> 0 <= base -> 0 <= len < 2 ^ 32 ->
  base + len <= zlen mem -> zlen (encoding cs) < 2 ^ 64 ->
  exists e e0, run_calls (ticos_cbor_encoder_size_only_init tt) cs = Val (e0, true) /\
    run_calls (ticos_cbor_encoder_init (Some (memory_cb base)) mem len) cs =
      Val (e, ticos_cbor_encoder_deinit e0 <=? len) /\
    unchanged_outside mem (write_cb_ctx e) base (base + len).
Proof.
  intros Hc Hb Hl Hm Hs. destruct (run_calls_size_only tt cs Hc) as (e0 & E0 & D0).
  rewrite (run_calls_chunks (ticos_cbor_encoder_init _ _ _)) by done.
  destruct (add_all_bounded base (concat (map chunks cs)) _ (init_memory_encoder base mem len Hb Hl Hm)
    (calls_lengths cs Hc)) as (e & E & S & U).
  exists e, e0. split; [done|]. rewrite D0, u64_small by lia. split; [exact E|].
  cbn in S, U. eapply unchanged_weaken; [exact U|lia|lia].
Qed.

(** ** Concrete calls *)
Definition sample_calls : list call :=
  [EncDictionary 2; EncUnsigned 1; EncString [104; 105]; EncLongSigned (- 2 ^ 40); EncByteString [1; 2; 3]].

Lemma sample_calls_ok : Forall call_ok sample_calls.
Proof. unfold sample_calls. repeat (apply Forall_cons_2 || apply Forall_nil_2); cbn; lia. Qed.

Lemma cbor_roundtrip_witness :
  exists e bs, run_calls (ticos_cbor_encoder_init (Some (memory_cb 2)) (zeros 24) 20) sample_calls = Val (e, true) /\
    load (write_cb_ctx e) 2 (ticos_cbor_encoder_deinit e) = Val bs /\
    decode_items 5 bs = Some [IMap 2; IUnsigned 1; IText [104; 105]; INegative (2 ^ 40 - 1); IBytes [1; 2; 3]].
Proof.
  apply (cbor_roundtrip 2 (zeros 24) 20 sample_calls);
    [apply sample_calls_ok | lia | lia | vm_compute; congruence | vm_compute; congruence].
Defined.

Lemma cbor_bounded_witness :
  exists e e0, run_calls (ticos_cbor_encoder_size_only_init tt) sample_calls = Val (e0, true) /\
    run_calls (ticos_cbor_encoder_init (Some (memory_cb 2)) (zeros 24) 7) sample_calls =
      Val (e, ticos_cbor_encoder_deinit e0 <=? 7) /\
    unchanged_outside (zeros 24) (write_cb_ctx e) 2 9.
Proof.
  apply (cbor_bounded 2 (zeros 24) 7 sample_calls);
    [apply sample_calls_ok | lia | lia | vm_compute; congruence | vm_compute; reflexivity].
Defined.

(** Encodings of the repository's unit test (test/cbor.test.cpp and RFC 7049, appendix A). *)
Example test_unsigned_boundaries :
  map (fun v => encoding [EncUnsigned v]) [0; 23; 24; 255; 256; 65535; 65536; 4294967295] =
    [[0x00]; [0x17]; [0x18; 0x18]; [0x18; 0xff]; [0x19; 0x01; 0x00]; [0x19; 0xff; 0xff];
     [0x1a; 0x00; 0x01; 0x00; 0x00]; [0x1a; 0xff; 0xff; 0xff; 0xff]].
Proof. vm_compute. reflexivity. Qed.

Example test_signed :
  map (fun v => encoding [EncSigned v]) [-1; -10; -100; -1000; - 2 ^ 31] =
    [[0x20]; [0x29]; [0x38; 0x63]; [0x39; 0x03; 0xe7]; [0x3a; 0x7f; 0xff; 0xff; 0xff]].
Proof. vm_compute. reflexivity. Qed.

Example test_long_signed :
  map (fun v => encoding [EncLongSigned v]) [1000000000000; -4294967297] =
    [[0x1b; 0x00; 0x00; 0x00; 0xe8; 0xd4; 0xa5; 0x10; 0x00];
     [0x3b; 0x00; 0x00; 0x00; 0x01; 0x00; 0x00; 0x00; 0x00]].
Proof. vm_compute. reflexivity. Qed.
