(* ===== verification/ElfNote.v ===== *)
(** * ELF notes (src/plugins/coredump/core_elf_note.c, include/ticos/core/math.h)

    [ticos_core_elf_note_init] lays out a note with an empty description; a reference
    parser of the ELF note format reads back what was put there. *)
From S2P Require Import Prelude.

(** size_t arithmetic: [((size) + (alignment - 1)) & ~(alignment - 1)] *)
Definition TICOS_ALIGN_UP (size alignment : Z) : Z :=
  Z.land (u64 (size + (alignment - 1))) (u64 (Z.lnot (alignment - 1))).

(** sizeof(Elf_Nhdr): three 32-bit words. *)
Definition Elf_Nhdr_size : Z := 12.

(** [owner_name] is a C string without its NUL, or NULL. *)
Definition prv_calc_owner_name_size (owner_name : option (list Z)) : Z :=
  let owner_name_strlen := match owner_name with None => 0 | Some s => zlen s end in
  if owner_name_strlen >? 0 then owner_name_strlen + 1 else 0.

Definition ticos_core_elf_note_calculate_size (owner_name : option (list Z)) (description_size : Z) : Z :=
  let owner_name_size := prv_calc_owner_name_size owner_name in
  u64 (Elf_Nhdr_size + TICOS_ALIGN_UP owner_name_size 4 + TICOS_ALIGN_UP description_size 4).

(** The header, the zeroed name and description, then the name; returns the offset of the
    description. [out_buffer] is an offset in object [b]. *)
Definition ticos_core_elf_note_init (b : list Z) (out_buffer : Z) (owner_name : option (list Z))
    (description_size n_type : Z) : outcome (list Z * Z) :=
  let owner_name_size := prv_calc_owner_name_size owner_name in
  let! b := store b out_buffer
    (le_bytes 4 (u32 owner_name_size) ++ le_bytes 4 (u32 description_size) ++ le_bytes 4 (u32 n_type)) in
  let payload := out_buffer + Elf_Nhdr_size in
  let owner_name_and_padding_size := TICOS_ALIGN_UP owner_name_size 4 in
  let! b := store b payload (zeros (u64 (owner_name_and_padding_size + TICOS_ALIGN_UP description_size 4))) in
  let! name := match owner_name with
               | None => Val []
               | Some s => load (s ++ [0]) 0 owner_name_size
               end in
  let! b := store b payload name in
  Val (b, payload + owner_name_and_padding_size).

(** ** Alignment *)
Lemma align_up_pow2 size k : 0 <= k < 64 -> 0 <= size -> size + 2 ^ k <= 2 ^ 64 ->
  TICOS_ALIGN_UP size (2 ^ k) = (size + (2 ^ k - 1)) / 2 ^ k * 2 ^ k.
Proof.
  intros Hk Hs Hb. unfold TICOS_ALIGN_UP.
  assert (0 < 2 ^ k) by lia.
  set (x := size + (2 ^ k - 1)). assert (Hx : 0 <= x < 2 ^ 64) by (subst x; lia).
  unfold u64 at 1. rewrite Z.mod_small by done.
  unfold u64. rewrite <- !Z.land_ones by lia.
  rewrite Z.land_assoc, <- (Z.land_comm (Z.ones 64)), Z.land_assoc, (Z.land_comm (Z.ones 64)).
  rewrite (Z.land_ones x 64), (Z.mod_small x) by (done || lia).
  replace (2 ^ k - 1) with (Z.ones k) by (rewrite Z.ones_equiv; lia).
  rewrite <- Z.ldiff_land, Z.ldiff_ones_r, Z.shiftl_mul_pow2, Z.shiftr_div_pow2 by lia. done.
Qed.

(** Rounding up to words of four bytes. *)
Lemma align_up_4 n : 0 <= n < 2 ^ 64 - 4 -> TICOS_ALIGN_UP n 4 = (n + 3) / 4 * 4 /\ n <= TICOS_ALIGN_UP n 4 < n + 4.
Proof.
  intros Hn. assert (E : TICOS_ALIGN_UP n 4 = (n + 3) / 4 * 4).
  { change (TICOS_ALIGN_UP n 4) with (TICOS_ALIGN_UP n (2 ^ 2)). now rewrite align_up_pow2 by lia. }
  rewrite E. split; [done|].
  pose proof (Z.div_mod (n + 3) 4). pose proof (Z.mod_pos_bound (n + 3) 4). lia.
Qed.

(** ** Reference parser: name with its NUL, type, description, rest *)
Definition take_bytes (n : Z) (bs : list Z) : option (list Z * list Z) :=
  if (0 <=? n) && (n <=? zlen bs) then Some (take (Z.to_nat n) bs, drop (Z.to_nat n) bs) else None.

Definition parse_note (bs : list Z) : option (list Z * Z * list Z * list Z) :=
  match take_bytes 4 bs with None => None | Some (namesz, bs) =>
  match take_bytes 4 bs with None => None | Some (descsz, bs) =>
  match take_bytes 4 bs with None => None | Some (type, bs) =>
  let namesz := le_val namesz in let descsz := le_val descsz in
  match take_bytes namesz bs with None => None | Some (name, bs) =>
  match take_bytes ((- namesz) mod 4) bs with None => None | Some (_, bs) =>
  match take_bytes descsz bs with None => None | Some (desc, bs) =>
  match take_bytes ((- descsz) mod 4) bs with None => None | Some (_, bs) =>
  Some (name, le_val type, desc, bs)
  end end end end end end end.

Lemma take_bytes_app n x r : zlen x = n -> take_bytes n (x ++ r) = Some (x, r).
Proof.
  intros <-. unfold take_bytes. rewrite length_app.
  test_true ((0 <=? zlen x) && (zlen x <=? Z.of_nat (length x + length r))).
  now rewrite Nat2Z.id, take_app_length, drop_app_length.
Qed.

(** A note as bytes: all up to the description, and the whole. *)
Definition note_prefix (name : list Z) (descsz type : Z) : list Z :=
  le_bytes 4 (zlen name) ++ le_bytes 4 descsz ++ le_bytes 4 type ++ name ++ zeros ((- zlen name) mod 4).

Definition note_bytes (name desc : list Z) (type : Z) : list Z :=
  note_prefix name (zlen desc) type ++ desc ++ zeros ((- zlen desc) mod 4).

Lemma parse_note_bytes name desc type r : zlen name < 2 ^ 32 -> zlen desc < 2 ^ 32 -> 0 <= type < 2 ^ 32 ->
  parse_note (note_bytes name desc type ++ r) = Some (name, type, desc, r).
Proof.
  intros Hn Hd Ht. unfold parse_note, note_bytes, note_prefix. rewrite <- !app_assoc.
  do 3 (rewrite take_bytes_app by (now rewrite le_bytes_length)). cbv zeta.
  rewrite !le_val_le32 by lia.
  rewrite take_bytes_app by done. rewrite take_bytes_app by (apply zeros_length, Z.mod_pos_bound; lia).
  rewrite take_bytes_app by done. rewrite take_bytes_app by (apply zeros_length, Z.mod_pos_bound; lia).
  reflexivity.
Qed.

Lemma pad4 n : 0 <= n -> (n + 3) / 4 * 4 = n + (- n) mod 4.
Proof.
  intros. pose proof (Z.div_mod (n + 3) 4). pose proof (Z.mod_pos_bound (n + 3) 4).
  pose proof (Z.div_mod (- n) 4). pose proof (Z.mod_pos_bound (- n) 4). lia.
Qed.

(** ** What [ticos_core_elf_note_init] writes *)

(** The name as stored: nothing for a missing or empty name, else the string with its NUL. *)
Definition note_name (owner_name : option (list Z)) : list Z :=
  match owner_name with
  | None => []
  | Some s => if zlen s =? 0 then [] else s ++ [0]
  end.

Lemma owner_name_size_eq o : prv_calc_owner_name_size o = zlen (note_name o).
Proof.
  destruct o as [s|]; [|done]. unfold prv_calc_owner_name_size, note_name.
  destruct (Z.eqb_spec (zlen s) 0) as [E|E]; [now rewrite E|].
  test_true (zlen s >? 0). rewrite length_app. cbn [length]. lia.
Qed.

Lemma load_owner_name o :
  match o with None => Val [] | Some s => load (s ++ [0]) 0 (prv_calc_owner_name_size o) end = Val (note_name o).
Proof.
  destruct o as [s|]; [|done]. rewrite owner_name_size_eq. unfold note_name.
  destruct (Z.eqb_spec (zlen s) 0) as [E|E].
  - destruct s; [reflexivity|cbn in E; lia].
  - unfold load. rewrite length_app. cbn [length].
    test_true ((0 <=? 0) && (0 <=? Z.of_nat (length s + 1)) && (0 + Z.of_nat (length s + 1) <=? Z.of_nat (length s + 1))).
    rewrite Nat2Z.id. f_equal. rewrite drop_0. apply take_ge. rewrite length_app. cbn [length]. lia.
Qed.

Lemma note_size_eq o ds : zlen (note_name o) < 2 ^ 32 - 4 -> 0 <= ds < 2 ^ 32 - 4 ->
  ticos_core_elf_note_calculate_size o ds = 12 + (zlen (note_name o) + 3) / 4 * 4 + (ds + 3) / 4 * 4.
Proof.
  intros Hn Hd. unfold ticos_core_elf_note_calculate_size. rewrite owner_name_size_eq.
  destruct (align_up_4 (zlen (note_name o))) as [E ?]; [lia|]. destruct (align_up_4 ds) as [E' ?]; [lia|].
  rewrite <- E, <- E'. unfold u64, Elf_Nhdr_size. apply Z.mod_small. lia.
Qed.

Lemma note_init_ok b off o ds type : zlen (note_name o) < 2 ^ 32 - 4 -> 0 <= ds < 2 ^ 32 - 4 -> 0 <= type < 2 ^ 32 ->
  0 <= off -> off + ticos_core_elf_note_calculate_size o ds <= zlen b ->
  let dofs := off + 12 + (zlen (note_name o) + 3) / 4 * 4 in
  exists b', ticos_core_elf_note_init b off o ds type = Val (b', dofs) /\
    unchanged_outside b b' off (off + ticos_core_elf_note_calculate_size o ds) /\
    b' @ off ↦ note_prefix (note_name o) ds type /\
    b' @ dofs ↦ zeros ((ds + 3) / 4 * 4).
Proof.
  intros Hn Hd Ht Ho Hb dofs. rewrite note_size_eq in * by done.
  unfold ticos_core_elf_note_init. rewrite load_owner_name, owner_name_size_eq.
  destruct (align_up_4 (zlen (note_name o))) as [En ?]; [lia|]. destruct (align_up_4 ds) as [Ed ?]; [lia|].
  rewrite En, Ed in *. unfold u32, u64, Elf_Nhdr_size. rewrite !(Z.mod_small _ (2 ^ 32)), Z.mod_small by lia.
  set (hd := le_bytes 4 _ ++ _). assert (Lh : zlen hd = 12) by done.
  set (nm := note_name o) in *. set (pn := (zlen nm + 3) / 4 * 4) in *. set (pd := (ds + 3) / 4 * 4) in *.
  assert (Lz : zlen (zeros (pn + pd)) = pn + pd) by (apply zeros_length; lia).
  destruct (store_spec b off hd) as (b1 & E1 & L1 & A1 & F1); [lia..|].
  rewrite E1. cbn [obind].
  destruct (store_spec b1 (off + 12) (zeros (pn + pd))) as (b2 & E2 & L2 & A2 & F2); [lia..|].
  rewrite E2. cbn [obind].
  destruct (store_spec b2 (off + 12) nm) as (b3 & E3 & L3 & A3 & F3); [lia..|].
  rewrite E3. cbn [obind]. exists b3. split; [done|].
  assert (Z2 : b2 @ (off + 12 + zlen nm) ↦ zeros ((- zlen nm) mod 4) /\ b2 @ dofs ↦ zeros pd).
  { replace (pn + pd) with (zlen nm + ((- zlen nm) mod 4 + pd)) in A2
      by (unfold pn; rewrite pad4 by lia; lia).
    pose proof (Z.mod_pos_bound (- zlen nm) 4).
    unfold zeros in A2. rewrite !Z2Nat.inj_add, !replicate_add, !bytes_at_app in A2 by lia.
    rewrite !length_replicate, !Z2Nat.id in A2 by lia. destruct A2 as (_ & A & A'). split; [done|].
    unfold zeros. replace dofs with (off + 12 + zlen nm + (- zlen nm) mod 4); [done|].
    unfold dofs. fold pn. unfold pn. rewrite pad4 by lia. lia. }
  destruct Z2 as [Z2 Z2']. split; [|split].
  - split; [lia|]. intros o' len D.
    rewrite (store_load_disjoint _ _ _ _ o' len E3), (store_load_disjoint _ _ _ _ o' len E2),
      (store_load_disjoint _ _ _ _ o' len E1) by lia. done.
  - pose proof (zeros_length ((- zlen nm) mod 4)). pose proof (Z.mod_pos_bound (- zlen nm) 4).
    replace (note_prefix nm ds type) with (hd ++ nm ++ zeros ((- zlen nm) mod 4))
      by (unfold hd, note_prefix; now rewrite <- !app_assoc).
    rewrite !bytes_at_app, Lh. split; [|split; [done|]].
    + apply F3; [apply F2; [done|lia]|lia].
    + apply F3; [done|]. right. lia.
  - apply F3; [done|]. right. unfold dofs. fold pn. lia.
Qed.

Lemma note_prefix_length name ds type : zlen (note_prefix name ds type) = 12 + (zlen name + 3) / 4 * 4.
Proof.
  unfold note_prefix. rewrite !length_app, !le_bytes_length, pad4 by lia.
  pose proof (zeros_length ((- zlen name) mod 4)). pose proof (Z.mod_pos_bound (- zlen name) 4). lia.
Qed.

(** Filling in the description completes the note. *)
Lemma note_complete b1 b2 off name desc type :
  let dofs := off + 12 + (zlen name + 3) / 4 * 4 in
  b1 @ off ↦ note_prefix name (zlen desc) type -> b1 @ dofs ↦ zeros ((zlen desc + 3) / 4 * 4) ->
  unchanged_outside b1 b2 dofs (dofs + zlen desc) -> b2 @ dofs ↦ desc ->
  b2 @ off ↦ note_bytes name desc type /\
  zlen (note_bytes name desc type) = 12 + (zlen name + 3) / 4 * 4 + (zlen desc + 3) / 4 * 4.
Proof.
  intros dofs A Z U D. pose proof (note_prefix_length name (zlen desc) type) as Lp.
  pose proof (pad4 (zlen desc) ltac:(lia)) as Hpad. pose proof (Z.mod_pos_bound (- zlen desc) 4).
  pose proof (zeros_length ((- zlen desc) mod 4)) as Lz. split.
  - unfold note_bytes. rewrite !bytes_at_app. replace (off + zlen (note_prefix name (zlen desc) type)) with dofs by (unfold dofs; lia).
    split; [eapply unchanged_bytes_at; [exact U|unfold dofs; lia|done]|]. split; [done|].
    eapply unchanged_bytes_at; [exact U|lia|]. rewrite Hpad in Z. unfold zeros in Z |- *.
    rewrite Z2Nat.inj_add, replicate_add, bytes_at_app, length_replicate, Z2Nat.id in Z by lia. tauto.
  - unfold note_bytes. rewrite !length_app. lia.
Qed.

(** a note initialised in a buffer of the calculated size, once its description is filled
    in, is read back by a parser of the ELF note format: same name, type and description,
    and nothing left over. *)
Theorem note_roundtrip b off o type desc : zlen (note_name o) < 2 ^ 32 - 4 -> zlen desc < 2 ^ 32 - 4 ->
  0 <= type < 2 ^ 32 -> 0 <= off -> off + ticos_core_elf_note_calculate_size o (zlen desc) <= zlen b ->
  exists b' description b'' bs, ticos_core_elf_note_init b off o (zlen desc) type = Val (b', description) /\
    store b' description desc = Val b'' /\
    load b'' off (ticos_core_elf_note_calculate_size o (zlen desc)) = Val bs /\
    parse_note bs = Some (note_name o, type, desc, []).
Proof.
  intros Hn Hd Ht Ho Hb.
  destruct (note_init_ok b off o (zlen desc) type) as (b' & E & U & A & Z); [lia..|].
  rewrite note_size_eq in * by lia. set (dofs := off + 12 + _) in *.
  pose proof (align_up_4 (zlen desc)) as Hup. pose proof (align_up_4 (zlen (note_name o))) as Hup'.
  pose proof (proj1 U) as L.
  destruct (store_spec b' dofs desc) as (b'' & Es & L'' & A'' & F); [lia..|].
  exists b', dofs, b'', (note_bytes (note_name o) desc type).
  split; [done|]. split; [done|]. split.
  2:{ rewrite <- (app_nil_r (note_bytes _ _ _)). apply parse_note_bytes; lia. }
  pose proof (store_unchanged _ _ _ _ Es) as U2.
  destruct (note_complete b' b'' off (note_name o) desc type A Z U2 A'') as [W Wl].
  apply load_bytes_at; [done|lia].
Qed.

(** The name "ab" and a five-byte description at offset 4 of a 40-byte object. *)
Lemma note_roundtrip_witness :
  exists b' description b'' bs, ticos_core_elf_note_init (zeros 40) 4 (Some [97; 98]) 5 7 = Val (b', description) /\
    store b' description [1; 2; 3; 4; 5] = Val b'' /\ load b'' 4 24 = Val bs /\
    parse_note bs = Some ([97; 98; 0], 7, [1; 2; 3; 4; 5], []).
Proof.
  apply (note_roundtrip (zeros 40) 4 (Some [97; 98]) 7 [1; 2; 3; 4; 5]);
    [reflexivity | reflexivity | lia | lia | vm_compute; congruence].
Defined.

(** The notes of the repository's unit test (test/core_elf_note.test.cpp). *)
Example test_calculate_size : ticos_core_elf_note_calculate_size (Some [65; 66; 67]) 5 = 24.
Proof. reflexivity. Qed.

Example test_no_name : prv_calc_owner_name_size None = 0 /\ prv_calc_owner_name_size (Some []) = 0.
Proof. done. Qed.
