(* ===== verification/ElfMetadata.v ===== *)
(** * The metadata note of a core dump (src/plugins/coredump/core_elf_metadata.c)

    The seven-entry CBOR map inside an ELF note.  The central theorem reads the note back:
    a parser of the note format and a CBOR decoder find every field of the metadata. *)
From S2P Require Import Prelude Cbor CborSpec ElfNote.

Record sTicosCoreElfMetadata := MkMetadata {
  linux_sdk_version : list Z;
  captured_time_epoch_s : Z;
  device_serial : list Z;
  hardware_version : list Z;
  software_type : list Z;
  software_version : list Z }.

Definition kTicosCoreElfMetadataKey_SchemaVersion : Z := 1.
Definition kTicosCoreElfMetadataKey_LinuxSdkVersion : Z := 2.
Definition kTicosCoreElfMetadataKey_CapturedTime : Z := 3.
Definition kTicosCoreElfMetadataKey_DeviceSerial : Z := 4.
Definition kTicosCoreElfMetadataKey_HardwareVersion : Z := 5.
Definition kTicosCoreElfMetadataKey_SoftwareType : Z := 6.
Definition kTicosCoreElfMetadataKey_SoftwareVersion : Z := 7.
Definition TICOS_CORE_ELF_METADATA_SCHEMA_VERSION_V1 : Z := 1.

(** "Ticos" *)
Definition s_note_name : list Z := [84; 105; 99; 111; 115].
Definition s_metadata_note_type : Z := 0x4154454d.

(** The context is the description buffer: an object and the offset in it. *)
Definition prv_write_cbor_to_buffer_cb (description_buffer : Z) : write_callback (list Z) :=
  fun mem offset buf => store mem (description_buffer + offset) buf.

Section Metadata.
Context {C : Type}.
Implicit Type encoder : sTicosCborEncoder C.

Definition prv_add_schema_version encoder :=
  and_then (ticos_cbor_encode_unsigned_integer encoder kTicosCoreElfMetadataKey_SchemaVersion)
    (fun encoder => ticos_cbor_encode_unsigned_integer encoder TICOS_CORE_ELF_METADATA_SCHEMA_VERSION_V1).

Definition prv_add_linux_sdk_version encoder (linux_sdk_version : list Z) :=
  and_then (ticos_cbor_encode_unsigned_integer encoder kTicosCoreElfMetadataKey_LinuxSdkVersion)
    (fun encoder => ticos_cbor_encode_string encoder linux_sdk_version).

Definition prv_add_captured_time encoder (captured_time_epoch_s : Z) :=
  and_then (ticos_cbor_encode_unsigned_integer encoder kTicosCoreElfMetadataKey_CapturedTime)
    (fun encoder => ticos_cbor_encode_unsigned_integer encoder captured_time_epoch_s).

Definition prv_add_device_serial encoder (device_serial : list Z) :=
  and_then (ticos_cbor_encode_unsigned_integer encoder kTicosCoreElfMetadataKey_DeviceSerial)
    (fun encoder => ticos_cbor_encode_string encoder device_serial).

Definition prv_add_hardware_version encoder (hardware_version : list Z) :=
  and_then (ticos_cbor_encode_unsigned_integer encoder kTicosCoreElfMetadataKey_HardwareVersion)
    (fun encoder => ticos_cbor_encode_string encoder hardware_version).

Definition prv_add_software_type encoder (software_type : list Z) :=
  and_then (ticos_cbor_encode_unsigned_integer encoder kTicosCoreElfMetadataKey_SoftwareType)
    (fun encoder => ticos_cbor_encode_string encoder software_type).

Definition prv_add_software_version encoder (software_version : list Z) :=
  and_then (ticos_cbor_encode_unsigned_integer encoder kTicosCoreElfMetadataKey_SoftwareVersion)
    (fun encoder => ticos_cbor_encode_string encoder software_version).

Definition prv_add_cbor_metadata encoder (metadata : sTicosCoreElfMetadata) : outcome (sTicosCborEncoder C * bool) :=
  and_then (ticos_cbor_encode_dictionary_begin encoder 7) (fun encoder =>
  and_then (prv_add_schema_version encoder) (fun encoder =>
  and_then (prv_add_linux_sdk_version encoder (linux_sdk_version metadata)) (fun encoder =>
  and_then (prv_add_captured_time encoder (captured_time_epoch_s metadata)) (fun encoder =>
  and_then (prv_add_device_serial encoder (device_serial metadata)) (fun encoder =>
  and_then (prv_add_hardware_version encoder (hardware_version metadata)) (fun encoder =>
  and_then (prv_add_software_type encoder (software_type metadata)) (fun encoder =>
  prv_add_software_version encoder (software_version metadata)))))))).

End Metadata.

Definition prv_cbor_calculate_size (metadata : sTicosCoreElfMetadata) : outcome Z :=
  let! (encoder, _) := prv_add_cbor_metadata (ticos_cbor_encoder_size_only_init tt) metadata in
  Val (ticos_cbor_encoder_deinit encoder).

Definition ticos_core_elf_metadata_note_calculate_size (metadata : sTicosCoreElfMetadata) : outcome Z :=
  let! size := prv_cbor_calculate_size metadata in
  Val (ticos_core_elf_note_calculate_size (Some s_note_name) size).

(** [note_buffer] is the whole object; returns it with the result. *)
Definition ticos_core_elf_metadata_note_write (metadata : sTicosCoreElfMetadata) (note_buffer : list Z)
    (note_buffer_size : Z) : outcome (list Z * bool) :=
  let! description_size := prv_cbor_calculate_size metadata in
  let! (note_buffer, description_buffer) :=
    ticos_core_elf_note_init note_buffer 0 (Some s_note_name) description_size s_metadata_note_type in
  let note_header_size := description_buffer in
  let encoder := ticos_cbor_encoder_init (Some (prv_write_cbor_to_buffer_cb description_buffer)) note_buffer
                   (u64 (note_buffer_size - note_header_size)) in
  let! (encoder, ok) := prv_add_cbor_metadata encoder metadata in
  Val (write_cb_ctx encoder, ok).

(** ** The calls behind [prv_add_cbor_metadata] *)
Definition metadata_calls (m : sTicosCoreElfMetadata) : list call :=
  [EncDictionary 7; EncUnsigned 1; EncUnsigned 1; EncUnsigned 2; EncString (linux_sdk_version m);
   EncUnsigned 3; EncUnsigned (captured_time_epoch_s m); EncUnsigned 4; EncString (device_serial m);
   EncUnsigned 5; EncString (hardware_version m); EncUnsigned 6; EncString (software_type m);
   EncUnsigned 7; EncString (software_version m)].

Definition metadata_ok (m : sTicosCoreElfMetadata) : Prop :=
  0 <= captured_time_epoch_s m < 2 ^ 32 /\
  Forall (fun s => zlen s < 2 ^ 28)
    [linux_sdk_version m; device_serial m; hardware_version m; software_type m; software_version m].

Lemma metadata_calls_ok m : metadata_ok m -> Forall call_ok (metadata_calls m).
Proof.
  intros [Ht H]. unfold metadata_calls. forall_inv H.
  repeat (apply Forall_cons_2 || apply Forall_nil_2); cbn; lia.
Qed.

Lemma and_then_assoc {C} (r : outcome (sTicosCborEncoder C * bool)) f g :
  and_then (and_then r f) g = and_then r (fun e => and_then (f e) g).
Proof. destruct r as [[e []]| |]; done. Qed.

Lemma and_then_ext {C} (r : outcome (sTicosCborEncoder C * bool)) f g : (forall e, f e = g e) ->
  and_then r f = and_then r g.
Proof. intros H. destruct r as [[e []]| |]; cbn; auto. Qed.

Lemma add_cbor_metadata_calls {C} (e : sTicosCborEncoder C) m : prv_add_cbor_metadata e m = run_calls e (metadata_calls m).
Proof.
  unfold prv_add_cbor_metadata, prv_add_schema_version, prv_add_linux_sdk_version, prv_add_captured_time,
    prv_add_device_serial, prv_add_hardware_version, prv_add_software_type, prv_add_software_version.
  unfold metadata_calls. cbn [run_calls run_call].
  repeat (rewrite ?and_then_assoc; apply and_then_ext; intros ?). now rewrite and_then_ret.
Qed.

(** ** Sizes *)
Lemma unsigned_bytes_short mt v : zlen (unsigned_integer_bytes mt v) <= 5.
Proof. unfold unsigned_integer_bytes. repeat case_test; cbn [length]; lia. Qed.

Lemma metadata_size m : metadata_ok m -> zlen (encoding (metadata_calls m)) < 2 ^ 31.
Proof.
  intros [_ H]. forall_inv H.
  unfold encoding, metadata_calls. cbn [map chunks concat app]. rewrite !length_app.
  repeat match goal with |- context [length (unsigned_integer_bytes ?mt ?v)] =>
    generalize (unsigned_bytes_short mt v); generalize (length (unsigned_integer_bytes mt v)); intros ? ? end.
  cbn [length]. lia.
Qed.

Lemma cbor_calculate_size m : metadata_ok m -> prv_cbor_calculate_size m = Val (zlen (encoding (metadata_calls m))).
Proof.
  intros Hm. unfold prv_cbor_calculate_size. rewrite add_cbor_metadata_calls.
  destruct (run_calls_size_only tt (metadata_calls m) (metadata_calls_ok m Hm)) as (e & -> & E).
  cbn [obind]. rewrite E, u64_small; [done|]. pose proof (metadata_size m Hm). lia.
Qed.

Lemma metadata_note_size m n : metadata_ok m -> ticos_core_elf_metadata_note_calculate_size m = Val n -> 0 <= n < 2 ^ 32.
Proof.
  intros Hm Hn. unfold ticos_core_elf_metadata_note_calculate_size in Hn. rewrite cbor_calculate_size in Hn by done.
  apply Val_inj in Hn. pose proof (metadata_size m Hm). rewrite note_size_eq in Hn by (done || lia).
  change (zlen (note_name (Some s_note_name))) with 6 in Hn. change ((6 + 3) / 4 * 4) with 8 in Hn.
  set (l := zlen (encoding (metadata_calls m))) in *. pose proof (Z.mul_div_le (l + 3) 4). pose proof (Z.div_pos (l + 3) 4). lia.
Qed.

(** The bytes of the note that gets written. *)
Definition metadata_note (m : sTicosCoreElfMetadata) : list Z :=
  note_bytes (s_note_name ++ [0]) (encoding (metadata_calls m)) s_metadata_note_type.

Lemma metadata_note_write_ok m b n : metadata_ok m ->
  ticos_core_elf_metadata_note_calculate_size m = Val n -> zlen b = n ->
  ticos_core_elf_metadata_note_write m b n = Val (metadata_note m, true) /\ zlen (metadata_note m) = n.
Proof.
  intros Hm Hn Hb. set (desc := encoding (metadata_calls m)).
  pose proof (metadata_size m Hm) as Hsz. fold desc in Hsz.
  unfold ticos_core_elf_metadata_note_calculate_size in Hn. rewrite cbor_calculate_size in Hn by done.
  cbn [obind] in Hn. apply Val_inj in Hn. fold desc in Hn.
  pose proof (note_size_eq (Some s_note_name) (zlen desc) ltac:(done) ltac:(lia)) as Hs.
  destruct (note_init_ok b 0 (Some s_note_name) (zlen desc) s_metadata_note_type) as (b1 & E1 & U1 & A1 & Z1);
    [done|lia|done|lia|lia|].
  change (zlen (note_name (Some s_note_name))) with 6 in *. change ((6 + 3) / 4 * 4) with 8 in *.
  change (0 + 12 + 8) with 20 in *.
  pose proof (align_up_4 (zlen desc) ltac:(lia)) as [Ha Ha']. rewrite Ha in Ha'.
  destruct (run_calls_fits 20 b1 (u64 (n - 20)) (metadata_calls m)) as (e & E & D & A & U).
  { now apply metadata_calls_ok. } { lia. } { rewrite u64_small; lia. }
  { rewrite (proj1 U1), u64_small; lia. } { rewrite u64_small by lia. fold desc. lia. }
  fold desc in D, A, U. pose proof (proj1 U1) as L1. pose proof (proj1 U) as L2.
  destruct (note_complete b1 (write_cb_ctx e) 0 (s_note_name ++ [0]) desc s_metadata_note_type A1 Z1 U A) as [W Wl].
  change (zlen (s_note_name ++ [0])) with 6 in Wl. change ((6 + 3) / 4 * 4) with 8 in Wl.
  apply bytes_at_all in W; [|lia]. unfold metadata_note. fold desc. split; [|lia].
  unfold ticos_core_elf_metadata_note_write. rewrite cbor_calculate_size by done. cbn [obind]. fold desc.
  rewrite E1. cbn [obind]. rewrite add_cbor_metadata_calls.
  change (prv_write_cbor_to_buffer_cb 20) with (memory_cb 20). rewrite E. cbn [obind]. now rewrite W.
Qed.

(** The note read back. *)
Definition metadata_note_reads (m : sTicosCoreElfMetadata) (note : list Z) : Prop :=
  exists desc, parse_note note = Some (s_note_name ++ [0], s_metadata_note_type, desc, []) /\
    decode_items 15 desc = Some
      [IMap 7; IUnsigned 1; IUnsigned 1; IUnsigned 2; IText (linux_sdk_version m);
       IUnsigned 3; IUnsigned (captured_time_epoch_s m); IUnsigned 4; IText (device_serial m);
       IUnsigned 5; IText (hardware_version m); IUnsigned 6; IText (software_type m);
       IUnsigned 7; IText (software_version m)].

Lemma metadata_note_parses m : metadata_ok m -> metadata_note_reads m (metadata_note m).
Proof.
  intros Hm. pose proof (metadata_size m Hm) as Hsz. exists (encoding (metadata_calls m)). split.
  - unfold metadata_note. rewrite <- (app_nil_r (note_bytes _ _ _)). apply parse_note_bytes; [done|lia|done].
  - apply (decode_encoding (metadata_calls m)). now apply metadata_calls_ok.
Qed.


(** The buffer size handed to [ticos_core_elf_metadata_note_write] bounds only the CBOR encoder:
    the note header and the zeroed description are written before any check, so a smaller
    buffer is overrun rather than refused. *)
Lemma metadata_note_short_buffer m b n : metadata_ok m ->
  ticos_core_elf_metadata_note_calculate_size m = Val n -> zlen b < n ->
  ticos_core_elf_metadata_note_write m b (zlen b) = Fault.
Proof.
  intros Hm Hn Hb. pose proof (metadata_size m Hm) as Hsz.
  unfold ticos_core_elf_metadata_note_calculate_size in Hn. rewrite cbor_calculate_size in Hn by done.
  cbn [obind] in Hn. apply Val_inj in Hn.
  unfold ticos_core_elf_metadata_note_write. rewrite cbor_calculate_size by done. cbn [obind].
  set (d := zlen (encoding (metadata_calls m))) in *.
  rewrite note_size_eq in Hn by (done || lia). change (zlen (note_name (Some s_note_name))) with 6 in Hn.
  pose proof (align_up_4 d ltac:(lia)) as [Ha ?].
  assert (E : ticos_core_elf_note_init b 0 (Some s_note_name) d s_metadata_note_type = Fault); [|now rewrite E].
  unfold ticos_core_elf_note_init. set (hd := le_bytes 4 _ ++ _).
  destruct (store b 0 hd) as [b1| |] eqn:E1; cbn [obind]; [|done|].
  2:{ revert E1. unfold store. case_test; discriminate. }
  apply store_unchanged in E1 as [L1 _]. rewrite Ha. unfold u64.
  change (TICOS_ALIGN_UP (prv_calc_owner_name_size (Some s_note_name)) 4) with 8.
  rewrite Z.mod_small by lia. change ((6 + 3) / 4 * 4) with 8 in Hn. unfold store at 1. rewrite zeros_length by lia.
  change (0 + Elf_Nhdr_size) with 12. now test_false ((0 <=? 12) && (12 + (8 + (d + 3) / 4 * 4) <=? zlen b1)).
Qed.

(** ** The metadata of test/core_elf_metadata.test.cpp *)
Definition test_metadata : sTicosCoreElfMetadata :=
  MkMetadata [0x30; 0x2e; 0x34; 0x2e; 0x30] 1663064648 [0x31; 0x32; 0x33; 0x34; 0x41; 0x42; 0x43]
    [0x65; 0x76; 0x74] [0x6d; 0x61; 0x69; 0x6e] [0x31; 0x2e; 0x32; 0x2e; 0x33].


(** The bytes of the test, except that the test still expects the note name of another product. *)
Example Test_WriteMetadata :
  ticos_core_elf_metadata_note_write test_metadata (replicate 64 0xaa) 64 =
    Val ([0x06; 0; 0; 0; 0x2b; 0; 0; 0; 0x4d; 0x45; 0x54; 0x41] ++ s_note_name ++ [0; 0; 0] ++
         [0xa7; 0x01; 0x01; 0x02; 0x65; 0x30; 0x2e; 0x34; 0x2e; 0x30; 0x03; 0x1a; 0x63; 0x20; 0x5a; 0x48;
          0x04; 0x67; 0x31; 0x32; 0x33; 0x34; 0x41; 0x42; 0x43; 0x05; 0x63; 0x65; 0x76; 0x74;
          0x06; 0x64; 0x6d; 0x61; 0x69; 0x6e; 0x07; 0x65; 0x31; 0x2e; 0x32; 0x2e; 0x33; 0], true).
Proof. vm_compute. reflexivity. Qed.
