(* ===== verification/Elf.v ===== *)
(** * ELF structures (src/plugins/coredump/core_elf.h and <elf.h>)

    The file header and segment header of a 64-bit little-endian ELF file, the choice that
    core_elf.h makes when [unsigned long] has 64 bits: field by field as in <elf.h>, their bytes
    in memory and in the file, and a reference parser. *)
From S2P Require Import Prelude.

Record Elf_Ehdr := MkEhdr {
  e_ident : list Z;          (** 16 bytes *)
  e_type : Z;
  e_machine : Z;
  e_version : Z;
  e_entry : Z;
  e_phoff : Z;
  e_shoff : Z;
  e_flags : Z;
  e_ehsize : Z;
  e_phentsize : Z;
  e_phnum : Z;
  e_shentsize : Z;
  e_shnum : Z;
  e_shstrndx : Z }.

Record Elf_Phdr := MkPhdr {
  p_type : Z;
  p_flags : Z;
  p_offset : Z;
  p_vaddr : Z;
  p_paddr : Z;
  p_filesz : Z;
  p_memsz : Z;
  p_align : Z }.

Definition set_p_offset (h : Elf_Phdr) (off : Z) : Elf_Phdr :=
  MkPhdr (p_type h) (p_flags h) off (p_vaddr h) (p_paddr h) (p_filesz h) (p_memsz h) (p_align h).

Definition sizeof_Ehdr : Z := 64.
Definition sizeof_Phdr : Z := 56.

Definition ELFMAG0 : Z := 0x7f.
Definition ELFMAG1 : Z := 0x45.
Definition ELFMAG2 : Z := 0x4c.
Definition ELFMAG3 : Z := 0x46.
Definition ELFCLASS : Z := 2.
Definition ELFDATA : Z := 1.
Definition EV_CURRENT : Z := 1.
Definition ET_CORE : Z := 4.
Definition PT_LOAD : Z := 1.
Definition PT_NOTE : Z := 4.

(** ** Bytes *)

(** Fields one after the other: width in bytes and value. *)
Definition fields (l : list (nat * Z)) : list Z := concat (map (fun '(n, v) => le_bytes n v) l).

Definition ehdr_fields (h : Elf_Ehdr) : list (nat * Z) :=
  [(2, e_type h); (2, e_machine h); (4, e_version h); (8, e_entry h); (8, e_phoff h); (8, e_shoff h);
   (4, e_flags h); (2, e_ehsize h); (2, e_phentsize h); (2, e_phnum h); (2, e_shentsize h); (2, e_shnum h);
   (2, e_shstrndx h)]%nat.

Definition ehdr_bytes (h : Elf_Ehdr) : list Z := e_ident h ++ fields (ehdr_fields h).

Definition phdr_fields (h : Elf_Phdr) : list (nat * Z) :=
  [(4, p_type h); (4, p_flags h); (8, p_offset h); (8, p_vaddr h); (8, p_paddr h); (8, p_filesz h);
   (8, p_memsz h); (8, p_align h)]%nat.

Definition phdr_bytes (h : Elf_Phdr) : list Z := fields (phdr_fields h).

(** Fields within their widths. *)
Definition phdr_ok (h : Elf_Phdr) : Prop :=
  0 <= p_type h < 2 ^ 32 /\ 0 <= p_flags h < 2 ^ 32 /\ 0 <= p_offset h < 2 ^ 64 /\ 0 <= p_vaddr h < 2 ^ 64 /\
  0 <= p_paddr h < 2 ^ 64 /\ 0 <= p_filesz h < 2 ^ 64 /\ 0 <= p_memsz h < 2 ^ 64 /\ 0 <= p_align h < 2 ^ 64.

Definition ehdr_ok (h : Elf_Ehdr) : Prop :=
  zlen (e_ident h) = 16 /\ 0 <= e_type h < 2 ^ 16 /\ 0 <= e_machine h < 2 ^ 16 /\ 0 <= e_version h < 2 ^ 32 /\
  0 <= e_entry h < 2 ^ 64 /\ 0 <= e_phoff h < 2 ^ 64 /\ 0 <= e_shoff h < 2 ^ 64 /\ 0 <= e_flags h < 2 ^ 32 /\
  0 <= e_ehsize h < 2 ^ 16 /\ 0 <= e_phentsize h < 2 ^ 16 /\ 0 <= e_phnum h < 2 ^ 16 /\
  0 <= e_shentsize h < 2 ^ 16 /\ 0 <= e_shnum h < 2 ^ 16 /\ 0 <= e_shstrndx h < 2 ^ 16.

(** ** Reading structures out of bytes *)

(** The [n]-byte field at offset [off]; missing bytes count as zero. *)
Definition field (bs : list Z) (off n : nat) : Z := le_val (take n (drop off bs)).

Definition parse_phdr (bs : list Z) : Elf_Phdr :=
  MkPhdr (field bs 0 4) (field bs 4 4) (field bs 8 8) (field bs 16 8) (field bs 24 8) (field bs 32 8)
    (field bs 40 8) (field bs 48 8).

Definition parse_ehdr (bs : list Z) : Elf_Ehdr :=
  MkEhdr (take 16 bs) (field bs 16 2) (field bs 18 2) (field bs 20 4) (field bs 24 8) (field bs 32 8)
    (field bs 40 8) (field bs 48 4) (field bs 52 2) (field bs 54 2) (field bs 56 2) (field bs 58 2)
    (field bs 60 2) (field bs 62 2).

(** [n] segment headers in a row. *)
Fixpoint parse_phdrs (n : nat) (bs : list Z) : list Elf_Phdr :=
  match n with
  | O => []
  | S n => parse_phdr (take 56 bs) :: parse_phdrs n (drop 56 bs)
  end.

Definition phdrs_bytes (hs : list Elf_Phdr) : list Z := concat (map phdr_bytes hs).

Definition fields_size (l : list (nat * Z)) : nat := sum_list (map fst l).

Lemma fields_length l : length (fields l) = fields_size l.
Proof.
  unfold fields, fields_size. induction l as [|[n v] l IH]; [done|]. cbn [map concat sum_list fst].
  now rewrite length_app, le_bytes_length, IH.
Qed.

(** Reading back the field at position [k]. *)
Lemma field_nth l k n v r : l !! k = Some (n, v) -> 0 <= v < 256 ^ Z.of_nat n ->
  field (fields l ++ r) (fields_size (take k l)) n = v.
Proof.
  revert k. induction l as [|[n' v'] l IH]; intros [|k] Hk Hv; try done.
  - injection Hk as -> ->. unfold field, fields. cbn [map concat take fields_size sum_list].
    rewrite drop_0, <- app_assoc. rewrite <- (le_bytes_length n v) at 1.
    rewrite take_app_length, le_val_le_bytes. now apply Z.mod_small.
  - cbn [lookup list_lookup] in Hk. transitivity (field (fields l ++ r) (fields_size (take k l)) n); [|auto].
    change (fields_size (take (S k) ((n', v') :: l))) with (n' + fields_size (take k l))%nat.
    unfold field, fields. cbn [map concat].
    rewrite <- app_assoc, drop_app_ge by (rewrite le_bytes_length; lia).
    rewrite le_bytes_length. do 3 f_equal. lia.
Qed.

Lemma field_skip pre bs off n : field (pre ++ bs) (length pre + off) n = field bs off n.
Proof. unfold field. rewrite drop_app_ge by lia. do 3 f_equal. lia. Qed.

Lemma phdr_bytes_length h : length (phdr_bytes h) = 56%nat.
Proof. apply fields_length. Qed.

Lemma ehdr_bytes_length h : ehdr_ok h -> length (ehdr_bytes h) = 64%nat.
Proof.
  intros [H _]. unfold ehdr_bytes. rewrite length_app, fields_length.
  change (fields_size (ehdr_fields h)) with 48%nat. lia.
Qed.

Lemma phdrs_bytes_length hs : length (phdrs_bytes hs) = (56 * length hs)%nat.
Proof.
  unfold phdrs_bytes. induction hs as [|h hs IH]; [done|]. cbn [map concat].
  rewrite length_app, phdr_bytes_length, IH. cbn [length]. lia.
Qed.

Lemma parse_phdr_bytes h : phdr_ok h -> parse_phdr (phdr_bytes h) = h.
Proof.
  intros (H1 & H2 & H3 & H4 & H5 & H6 & H7 & H8). rewrite <- (app_nil_r (phdr_bytes h)).
  unfold parse_phdr, phdr_bytes.
  assert (F : forall k off n v, phdr_fields h !! k = Some (n, v) -> fields_size (take k (phdr_fields h)) = off ->
    0 <= v < 256 ^ Z.of_nat n -> field (fields (phdr_fields h) ++ []) off n = v).
  { intros k off n v Hk <- Hv. now apply field_nth. }
  rewrite (F 0%nat 0%nat 4%nat _ eq_refl eq_refl H1), (F 1%nat 4%nat 4%nat _ eq_refl eq_refl H2),
    (F 2%nat 8%nat 8%nat _ eq_refl eq_refl H3), (F 3%nat 16%nat 8%nat _ eq_refl eq_refl H4),
    (F 4%nat 24%nat 8%nat _ eq_refl eq_refl H5), (F 5%nat 32%nat 8%nat _ eq_refl eq_refl H6),
    (F 6%nat 40%nat 8%nat _ eq_refl eq_refl H7), (F 7%nat 48%nat 8%nat _ eq_refl eq_refl H8).
  now destruct h.
Qed.

Lemma parse_phdrs_bytes hs r : Forall phdr_ok hs -> parse_phdrs (length hs) (phdrs_bytes hs ++ r) = hs.
Proof.
  unfold phdrs_bytes. induction 1 as [|h hs Hh Hhs IH]; [done|]. cbn [map concat length parse_phdrs].
  rewrite <- app_assoc. pose proof (phdr_bytes_length h) as L.
  rewrite <- L, take_app_length, drop_app_length, IH. now rewrite parse_phdr_bytes.
Qed.

Lemma parse_ehdr_bytes h r : ehdr_ok h -> parse_ehdr (ehdr_bytes h ++ r) = h.
Proof.
  intros (Hi & H1 & H2 & H3 & H4 & H5 & H6 & H7 & H8 & H9 & H10 & H11 & H12 & H13).
  assert (L : length (e_ident h) = 16%nat) by lia.
  unfold parse_ehdr, ehdr_bytes. rewrite <- !app_assoc.
  assert (F : forall k off n v, ehdr_fields h !! k = Some (n, v) ->
    (16 + fields_size (take k (ehdr_fields h)))%nat = off -> 0 <= v < 256 ^ Z.of_nat n ->
    field (e_ident h ++ fields (ehdr_fields h) ++ r) off n = v).
  { intros k off n v Hk <- Hv. rewrite <- L, field_skip. now apply field_nth. }
  rewrite (F 0%nat 16%nat 2%nat _ eq_refl eq_refl H1), (F 1%nat 18%nat 2%nat _ eq_refl eq_refl H2),
    (F 2%nat 20%nat 4%nat _ eq_refl eq_refl H3), (F 3%nat 24%nat 8%nat _ eq_refl eq_refl H4),
    (F 4%nat 32%nat 8%nat _ eq_refl eq_refl H5), (F 5%nat 40%nat 8%nat _ eq_refl eq_refl H6),
    (F 6%nat 48%nat 4%nat _ eq_refl eq_refl H7), (F 7%nat 52%nat 2%nat _ eq_refl eq_refl H8),
    (F 8%nat 54%nat 2%nat _ eq_refl eq_refl H9), (F 9%nat 56%nat 2%nat _ eq_refl eq_refl H10),
    (F 10%nat 58%nat 2%nat _ eq_refl eq_refl H11), (F 11%nat 60%nat 2%nat _ eq_refl eq_refl H12),
    (F 12%nat 62%nat 2%nat _ eq_refl eq_refl H13).
  rewrite <- L, take_app_length. now destruct h.
Qed.
