(* ===== verification/ElfWriter.v ===== *)
(** * The streaming ELF core writer (src/plugins/coredump/core_elf_writer.c)

    The output goes through the interface [sTicosCoreElfWriteIO], here the class [WriteIO] on
    a type of worlds.  A writer keeps its output ([sWriterOut]: the world and the write
    offset, all that a segment callback may change) and the array of segments, whose
    slots beyond [segments_idx] are uninitialised.  [fuel] bounds the turns of one write loop
    (a device may be interrupted or write nothing any number of times). *)
From S2P Require Import Prelude ElfNote Elf.

(** [sTicosCoreElfWriteIO]: write returns an [ssize_t], and [errno] tells about the last error. *)
Class WriteIO (S : Type) := {
  io_write : S -> list Z -> outcome (S * Z);
  io_sync : S -> outcome (S * bool);
  errno_is_EINTR : S -> bool }.

Definition SEGMENTS_REALLOC_STEP_SIZE : Z := 32.
Definition PADDING_WRITE_SIZE : Z := 4096.

Record sWriterOut (S : Type) := MkOut {
  io : S;
  write_offset : Z }.
Arguments MkOut {S} _ _.
Arguments io {S} _.
Arguments write_offset {S} _.

(** The data of a segment: a buffer, or a callback that writes it to the output. *)
Inductive segment_data (S : Type) :=
| Buffer (data : list Z)
| Callback (fn : sWriterOut S -> Elf_Phdr -> outcome (sWriterOut S * bool)).
Arguments Buffer {S} _.
Arguments Callback {S} _.

Record sTicosCoreElfWriterSegment (S : Type) := MkSegment {
  header : Elf_Phdr;
  data : segment_data S }.
Arguments MkSegment {S} _ _.
Arguments header {S} _.
Arguments data {S} _.

(** [segments] has one entry per allocated slot, [None] while uninitialised. *)
Record sTicosCoreElfWriter (S : Type) := MkWriter {
  out : sWriterOut S;
  w_e_machine : Z;
  w_e_flags : Z;
  segments : list (option (sTicosCoreElfWriterSegment S));
  segments_max : Z;
  segments_idx : Z }.
Arguments MkWriter {S} _ _ _ _ _ _.
Arguments out {S} _.
Arguments w_e_machine {S} _.
Arguments w_e_flags {S} _.
Arguments segments {S} _.
Arguments segments_max {S} _.
Arguments segments_idx {S} _.

Section Writer.
Context {S : Type} `{WriteIO S} (fuel : nat).
Implicit Type writer : sTicosCoreElfWriter S.

Definition ticos_core_elf_writer_init (io : S) : sTicosCoreElfWriter S :=
  MkWriter (MkOut io 0) 0 0 [] 0 (-1).

Definition ticos_core_elf_writer_set_elf_header_fields writer (e_machine e_flags : Z) : sTicosCoreElfWriter S :=
  MkWriter (out writer) e_machine e_flags (segments writer) (segments_max writer) (segments_idx writer).

Definition set_out writer (o : sWriterOut S) : sTicosCoreElfWriter S :=
  MkWriter o (w_e_machine writer) (w_e_flags writer) (segments writer) (segments_max writer) (segments_idx writer).

(** The index of the slot, or [None] for NULL.  The size is raised before [realloc] is tried. *)
Definition prv_alloc_next_segment (realloc_ok : bool) writer : sTicosCoreElfWriter S * option Z :=
  let grow := segments_idx writer >=? i32 (segments_max writer) - 1 in
  let segments_max := if grow then segments_max writer + SEGMENTS_REALLOC_STEP_SIZE else segments_max writer in
  if grow && negb realloc_ok then
    (MkWriter (out writer) (w_e_machine writer) (w_e_flags writer) (segments writer) segments_max
       (segments_idx writer), None)
  else
    let segments := if grow then resize (Z.to_nat segments_max) None (segments writer) else segments writer in
    let idx := segments_idx writer + 1 in
    (MkWriter (out writer) (w_e_machine writer) (w_e_flags writer) segments segments_max idx, Some idx).

(** [*segment_wrapper = ...]: a slot outside the allocation is a heap overflow. *)
Definition put_segment writer (slot : Z) (seg : sTicosCoreElfWriterSegment S) : outcome (sTicosCoreElfWriter S) :=
  if (0 <=? slot) && (slot <? zlen (segments writer)) then
    Val (MkWriter (out writer) (w_e_machine writer) (w_e_flags writer)
           (<[Z.to_nat slot := Some seg]> (segments writer)) (segments_max writer) (segments_idx writer))
  else Fault.

Definition ticos_core_elf_writer_add_segment_with_buffer (realloc_ok : bool) writer (segment : Elf_Phdr)
    (segment_data : list Z) : outcome (sTicosCoreElfWriter S * bool) :=
  match prv_alloc_next_segment realloc_ok writer with
  | (writer, None) => Val (writer, false)
  | (writer, Some slot) =>
      let! writer := put_segment writer slot (MkSegment segment (Buffer segment_data)) in Val (writer, true)
  end.

Definition ticos_core_elf_writer_add_segment_with_callback (realloc_ok : bool) writer (segment : Elf_Phdr)
    (segment_data_cb : sWriterOut S -> Elf_Phdr -> outcome (sWriterOut S * bool)) : outcome (sTicosCoreElfWriter S * bool) :=
  match prv_alloc_next_segment realloc_ok writer with
  | (writer, None) => Val (writer, false)
  | (writer, Some slot) =>
      let! writer := put_segment writer slot (MkSegment segment (Callback segment_data_cb)) in Val (writer, true)
  end.

(** ** Writing *)

(** [data]: what is left to write. *)
Fixpoint write_loop (fuel : nat) (io : S) (data : list Z) : outcome (S * bool) :=
  match fuel with
  | O => OutOfFuel
  | Datatypes.S fuel =>
      if zlen data >? 0 then
        let! (io, rv) := io_write io data in
        if rv <? 0 then
          if errno_is_EINTR io then write_loop fuel io data else Val (io, false)
        else write_loop fuel io (drop (Z.to_nat rv) data)
      else Val (io, true)
  end.

Definition prv_io_write_all (io : S) (data : list Z) : outcome (S * bool) := write_loop fuel io data.

Definition prv_write_all (o : sWriterOut S) (data : list Z) : outcome (sWriterOut S * bool) :=
  let! (io, ok) := prv_io_write_all (io o) data in
  if negb ok then Val (MkOut io (write_offset o), false)
  else Val (MkOut io (u64 (write_offset o + zlen data)), true).

Definition prv_calc_padding (offset : Z) (segment : Elf_Phdr) : Z :=
  if p_align segment <=? 1 then 0
  else u64 (TICOS_ALIGN_UP offset (p_align segment) - offset).

(** The loop of [prv_write_padding]; its own fuel counts pages. *)
Fixpoint padding_loop (pages : nat) (o : sWriterOut S) (pad_size : Z) : outcome (sWriterOut S * bool) :=
  if pad_size >? 0 then
    match pages with
    | O => OutOfFuel
    | Datatypes.S pages =>
        let sz := Z.min PADDING_WRITE_SIZE pad_size in
        let! (o, ok) := prv_write_all o (zeros sz) in
        if negb ok then Val (o, false) else padding_loop pages o (pad_size - sz)
    end
  else Val (o, true).

Definition prv_write_padding (o : sWriterOut S) (pad_size : Z) : outcome (sWriterOut S * bool) :=
  if pad_size =? 0 then Val (o, true)
  else padding_loop (Datatypes.S (Z.to_nat (pad_size / PADDING_WRITE_SIZE))) o pad_size.

Definition ticos_core_elf_writer_write_segment_data (o : sWriterOut S) (data : list Z) : outcome (sWriterOut S * bool) :=
  prv_write_all o data.

Definition elf_header writer (num_segments : Z) : Elf_Ehdr :=
  MkEhdr ([ELFMAG0; ELFMAG1; ELFMAG2; ELFMAG3; ELFCLASS; ELFDATA; EV_CURRENT] ++ zeros 9) ET_CORE
    (w_e_machine writer) EV_CURRENT 0 (if num_segments >? 0 then sizeof_Ehdr else 0) 0 (w_e_flags writer) sizeof_Ehdr
    (if num_segments >? 0 then sizeof_Phdr else 0) (u16 num_segments) 0 0 0.

(** The segment table loop: fills in the file offsets and writes the headers. *)
Fixpoint write_table (o : sWriterOut S) (segs : list (option (sTicosCoreElfWriterSegment S)))
    (segment_data_offset : Z) : outcome (sWriterOut S * list (option (sTicosCoreElfWriterSegment S)) * bool) :=
  match segs with
  | [] => Val (o, [], true)
  | None :: _ => Fault
  | Some wrapper :: segs =>
      let pad_size := prv_calc_padding segment_data_offset (header wrapper) in
      let hdr := set_p_offset (header wrapper) (u64 (segment_data_offset + pad_size)) in
      let segment_data_offset := u64 (segment_data_offset + p_filesz hdr + pad_size) in
      let wrapper := MkSegment hdr (data wrapper) in
      let! (o, ok) := prv_write_all o (phdr_bytes hdr) in
      if negb ok then Val (o, Some wrapper :: segs, false)
      else
        let! (o, segs, ok) := write_table o segs segment_data_offset in
        Val (o, Some wrapper :: segs, ok)
  end.

(** One turn of the segment data loop. *)
Definition write_segment (o : sWriterOut S) (wrapper : sTicosCoreElfWriterSegment S) : outcome (sWriterOut S * bool) :=
  let hdr := header wrapper in
  let pad_size := u64 (p_offset hdr - write_offset o) in
  let! (o, ok) := prv_write_padding o pad_size in
  if negb ok then Val (o, false)
  else
    let! (o, ok) :=
      match data wrapper with
      | Callback fn => fn o hdr
      | Buffer d => let! d := load d 0 (p_filesz hdr) in prv_write_all o d
      end in
    if negb ok then Val (o, false)
    else Val (o, write_offset o =? u64 (p_offset hdr + p_filesz hdr)).

Fixpoint write_segments (o : sWriterOut S) (segs : list (option (sTicosCoreElfWriterSegment S)))
    : outcome (sWriterOut S * bool) :=
  match segs with
  | [] => Val (o, true)
  | None :: _ => Fault
  | Some wrapper :: segs =>
      let! (o, ok) := write_segment o wrapper in
      if negb ok then Val (o, false) else write_segments o segs
  end.

Definition ticos_core_elf_writer_write writer : outcome (sTicosCoreElfWriter S * bool) :=
  let num_segments := segments_idx writer + 1 in
  if num_segments >? zlen (segments writer) then Fault
  else
    let n := Z.to_nat num_segments in
    let! (o, ok) := prv_write_all (out writer) (ehdr_bytes (elf_header writer num_segments)) in
    if negb ok then Val (set_out writer o, false)
    else
      let segment_data_offset := u64 (write_offset o + sizeof_Phdr * num_segments) in
      let! (o, segs, ok) := write_table o (take n (segments writer)) segment_data_offset in
      let writer := MkWriter o (w_e_machine writer) (w_e_flags writer) (segs ++ drop n (segments writer))
                      (segments_max writer) (segments_idx writer) in
      if negb ok then Val (writer, false)
      else
        let! (o, ok) := write_segments o segs in
        if negb ok then Val (set_out writer o, false)
        else
          let! (s, ok) := io_sync (io o) in
          Val (set_out writer (MkOut s (write_offset o)), ok).

End Writer.
