(* ===== verification/ElfWriterFile.v ===== *)
(** * The file the ELF writer leaves behind

    The writer's main theorem, the segment array that the add functions build, and the two ways
    in which writing goes wrong: a callback that writes the wrong number of bytes is
    detected, an allocation failure that is ignored is not. *)
From S2P Require Import Prelude ElfNote Elf ElfWriter ElfWriterSpec.

(** [file] holds the data [ds] of the segments [hs] at their offsets, aligned, in order and
    without overlap, from offset [lo] to its end. *)
Fixpoint holds (file : list Z) (lo : Z) (hs : list Elf_Phdr) (ds : list (list Z)) : Prop :=
  match hs, ds with
  | [], [] => lo = zlen file
  | h :: hs, d :: ds =>
      lo <= p_offset h /\ (p_align h <= 1 \/ p_offset h mod p_align h = 0) /\
      load file (p_offset h) (p_filesz h) = Val d /\ holds file (p_offset h + p_filesz h) hs ds
  | _, _ => False
  end.

Section File.
Context {S : Type} `{WriteIOSpec S} (fuel : nat).

(** The writer's array holds exactly the segments [segs]. *)
Definition has_segments (w : sTicosCoreElfWriter S) (segs : list (sTicosCoreElfWriterSegment S)) : Prop :=
  segments_idx w + 1 = zlen segs /\ take (length segs) (segments w) = map Some segs /\
  zlen (segments w) = segments_max w /\ zlen segs <= segments_max w <= zlen segs + SEGMENTS_REALLOC_STEP_SIZE.

Lemma plan_length off (segs : list (sTicosCoreElfWriterSegment S)) : length (plan off segs) = length segs.
Proof. unfold plan. rewrite length_map. revert off. induction segs; intros; cbn [replan length]; auto. Qed.

Lemma pad_aligned off h : p_align h <= 1 \/ (off + pad off h) mod p_align h = 0.
Proof.
  unfold pad. case_test; tests_to_props; [now left|right].
  rewrite Zplus_mod_idemp_r. replace (off + - off) with 0 by lia. apply Z.mod_0_l. lia.
Qed.

Lemma plan_phdr_ok (segs : list (sTicosCoreElfWriterSegment S)) : forall off, Forall seg_ok segs -> 0 <= off ->
  plan_end off segs < 2 ^ 63 -> Forall phdr_ok (plan off segs).
Proof.
  induction segs as [|s segs IH]; intros off Hs Ho He; [constructor|]. apply Forall_cons_1 in Hs as [[Hp Ha] Hs].
  cbn [plan_end] in He. pose proof (plan_end_le (off + pad off (header s) + p_filesz (header s)) segs Hs).
  pose proof (pad_nonneg off (header s)). unfold phdr_ok in Hp.
  apply Forall_cons_2; [|apply IH; [done|lia|done]].
  unfold phdr_ok. cbn. lia.
Qed.

Lemma plan_headers (segs : list (sTicosCoreElfWriterSegment S)) : forall off,
  Forall2 (fun s h => h = set_p_offset (header s) (p_offset h)) segs (plan off segs).
Proof. induction segs as [|s segs IH]; intros off; constructor; [done|apply IH]. Qed.

Lemma body_holds file segs ds : Forall2 (seg_gives fuel) segs ds -> forall off, 0 <= off ->
  Forall seg_ok segs -> file @ off ↦ body off segs ds -> plan_end off segs = zlen file -> holds file off (plan off segs) ds.
Proof.
  induction 1 as [|s d segs ds [Hl _] _ IH]; intros off Ho Hs A E; [done|].
  apply Forall_cons_1 in Hs as [[Hp _] Hs]. cbn [body plan_end] in *. unfold phdr_ok in Hp.
  pose proof (pad_nonneg off (header s)). rewrite !bytes_at_app, zeros_length in A by lia. destruct A as (_ & A & A').
  rewrite Hl in A'. split; [cbn; lia|]. split; [apply (pad_aligned off (header s))|]. split; [now apply load_bytes_at|].
  apply IH; auto. cbn. lia.
Qed.

Lemma elf_header_ok (w : sTicosCoreElfWriter S) n : 0 <= w_e_machine w < 2 ^ 16 -> 0 <= w_e_flags w < 2 ^ 32 ->
  ehdr_ok (elf_header w n).
Proof.
  intros. assert (0 <= u16 n < 2 ^ 16) by (apply Z.mod_pos_bound; lia). split; [done|].
  cbn [elf_header e_type e_machine e_version e_entry e_phoff e_shoff e_flags e_ehsize e_phentsize e_phnum e_shentsize e_shnum e_shstrndx].
  destruct (n >? 0); unfold sizeof_Ehdr, sizeof_Phdr, EV_CURRENT, ET_CORE; lia.
Qed.

(** The bytes written for the segments [segs] with data [ds]. *)
Definition core_file (w : sTicosCoreElfWriter S) (segs : list (sTicosCoreElfWriterSegment S)) (ds : list (list Z)) : list Z :=
  let off := sizeof_Ehdr + sizeof_Phdr * zlen segs in
  ehdr_bytes (elf_header w (zlen segs)) ++ phdrs_bytes (plan off segs) ++ body off segs ds.

Lemma writer_write_spec w segs ds : has_segments w segs -> Forall seg_ok segs -> Forall2 (seg_gives fuel) segs ds ->
  0 <= w_e_machine w < 2 ^ 16 -> 0 <= w_e_flags w < 2 ^ 32 -> write_offset (out w) = 0 ->
  let total := plan_end (sizeof_Ehdr + sizeof_Phdr * zlen segs) segs in
  total < 2 ^ 63 -> can_write fuel (out w) total ->
  exists w', ticos_core_elf_writer_write fuel w = Val (w', true) /\
    io_content (io (out w')) = io_content (io (out w)) ++ core_file w segs ds /\ write_offset (out w') = total /\
    io_synced (io (out w')).
Proof.
  unfold sizeof_Ehdr, sizeof_Phdr. intros (Hn & Ht & Hz & Hm) Hs Hd Hma Hfl Ho. cbv zeta. intros Htot Hc.
  pose proof (elf_header_ok w (zlen segs) Hma Hfl) as Hh. apply ehdr_bytes_length in Hh.
  set (off := 64 + 56 * zlen segs) in *. set (total := plan_end off segs) in *. pose proof (plan_end_le off segs Hs) as Hle.
  unfold ticos_core_elf_writer_write. rewrite Hn, Nat2Z.id, Ht.
  test_false (zlen segs >? zlen (segments w)).
  destruct (write_all_spec fuel (out w) (ehdr_bytes (elf_header w (zlen segs)))) as (o1 & -> & W1);
    [eapply can_write_less; [exact Hc|lia]|].
  cbn [obind negb]. pose proof (proj2 W1) as E1. rewrite E1, Ho, Hh. unfold sizeof_Phdr.
  rewrite u64_small by lia. change (0 + Z.of_nat 64 + 56 * zlen segs) with off.
  assert (Hc1 : can_write fuel o1 (total - 64))
    by (eapply can_write_after; [|exact W1]; eapply can_write_less; [exact Hc|lia]).
  destruct (write_table_spec fuel segs o1 off) as (o2 & -> & W2); [done|lia|done|eapply can_write_less; [exact Hc1|unfold sizeof_Phdr; lia]|].
  cbn [obind negb].
  pose proof (phdrs_bytes_length (plan off segs)) as Lp. rewrite plan_length in Lp.
  pose proof (proj2 W2) as E2.
  assert (Hc2 : can_write fuel o2 (plan_end off segs - off))
    by (eapply can_write_after; [|exact W2]; eapply can_write_less; [exact Hc1|lia]).
  destruct (write_segments_spec fuel segs ds Hd o2 off) as (o3 & -> & W3); [done|lia|done|done|].
  cbn [obind negb]. pose proof (out_wrote_trans _ _ _ _ _ (out_wrote_trans _ _ _ _ _ W1 W2) W3) as ((Hok & C3 & _) & E3).
  destruct (io_sync_spec (io o3) Hok) as (s' & -> & Cs & Sy). cbn [obind].
  eexists. split; [done|]. cbn. split; [|split; [|exact Sy]].
  - rewrite Cs, C3. unfold core_file, sizeof_Ehdr, sizeof_Phdr. now rewrite <- app_assoc.
  - rewrite E3, Ho, !length_app, !Nat2Z.inj_add, (body_length fuel) by done. lia.
Qed.

Lemma core_file_length w segs ds : Forall2 (seg_gives fuel) segs ds ->
  0 <= w_e_machine w < 2 ^ 16 -> 0 <= w_e_flags w < 2 ^ 32 ->
  zlen (core_file w segs ds) = plan_end (sizeof_Ehdr + sizeof_Phdr * zlen segs) segs.
Proof.
  intros Hd Hma Hfl. pose proof (ehdr_bytes_length _ (elf_header_ok w (zlen segs) Hma Hfl)) as Hh.
  unfold core_file, sizeof_Ehdr, sizeof_Phdr. rewrite !length_app, !Nat2Z.inj_add, (body_length fuel) by done.
  rewrite phdrs_bytes_length, plan_length, Hh. lia.
Qed.

(** Such a file read by a parser of the format. *)
Definition parses_as (w : sTicosCoreElfWriter S) (segs : list (sTicosCoreElfWriterSegment S)) (ds : list (list Z))
    (file : list Z) : Prop :=
  parse_ehdr file = elf_header w (zlen segs) /\ e_phnum (parse_ehdr file) = zlen segs /\
  exists hs, parse_phdrs (length segs) (drop 64 file) = hs /\
    Forall2 (fun s h => h = set_p_offset (header s) (p_offset h)) segs hs /\
    holds file (sizeof_Ehdr + sizeof_Phdr * zlen segs) hs ds.

Lemma core_file_parses w segs ds : Forall seg_ok segs -> Forall2 (seg_gives fuel) segs ds ->
  0 <= w_e_machine w < 2 ^ 16 -> 0 <= w_e_flags w < 2 ^ 32 -> zlen segs < 2 ^ 16 ->
  plan_end (sizeof_Ehdr + sizeof_Phdr * zlen segs) segs < 2 ^ 63 -> parses_as w segs ds (core_file w segs ds).
Proof.
  intros Hs Hd Hma Hfl Hn Htot.
  set (off := sizeof_Ehdr + sizeof_Phdr * zlen segs) in *.
  assert (0 <= off) by (unfold off, sizeof_Ehdr, sizeof_Phdr; lia).
  pose proof (elf_header_ok w (zlen segs) Hma Hfl) as Hh. pose proof (ehdr_bytes_length _ Hh) as Lh.
  pose proof (core_file_length w segs ds Hd Hma Hfl) as Lf. fold off in Lf.
  assert (P : parse_ehdr (core_file w segs ds) = elf_header w (zlen segs)) by now apply parse_ehdr_bytes.
  split; [done|]. split; [rewrite P; cbn; apply Z.mod_small; lia|]. exists (plan off segs). split; [|split].
  - unfold core_file. fold off. rewrite <- Lh, drop_app_length. rewrite <- (plan_length off segs).
    apply parse_phdrs_bytes. now apply plan_phdr_ok.
  - apply plan_headers.
  - apply body_holds; auto. apply bytes_at_compute.
    assert (A : core_file w segs ds @ 0 ↦ core_file w segs ds)
      by (split; [lia|]; split; [lia|]; intros; now rewrite Z2Nat.inj_0).
    unfold core_file in A at 2. fold off in A. rewrite !bytes_at_app in A. destruct A as (_ & _ & A).
    rewrite phdrs_bytes_length, plan_length, Lh in A.
    replace (0 + Z.of_nat 64 + Z.of_nat (56 * length segs)) with off in A by (unfold off, sizeof_Ehdr, sizeof_Phdr; lia).
    now apply load_bytes_at.
Qed.

(** C23: for a writer holding any segments with data of the announced sizes (buffers or callbacks),
    on any device that follows write(2) and has room, [ticos_core_elf_writer_write] returns
    true and leaves a file that parses back: the ELF header of a core file with the
    configured machine and flags, one segment header per segment unchanged but for its
    offset, and at every offset, aligned and in order without overlap, exactly its data. *)
Theorem writer_writes_elf w segs ds : has_segments w segs -> Forall seg_ok segs -> Forall2 (seg_gives fuel) segs ds ->
  0 <= w_e_machine w < 2 ^ 16 -> 0 <= w_e_flags w < 2 ^ 32 -> write_offset (out w) = 0 ->
  io_content (io (out w)) = [] -> zlen segs < 2 ^ 16 ->
  plan_end (sizeof_Ehdr + sizeof_Phdr * zlen segs) segs < 2 ^ 63 ->
  can_write fuel (out w) (plan_end (sizeof_Ehdr + sizeof_Phdr * zlen segs) segs) ->
  exists w', ticos_core_elf_writer_write fuel w = Val (w', true) /\
    parses_as w segs ds (io_content (io (out w'))).
Proof.
  intros Hw Hs Hd Hma Hfl Ho Hcont Hn Htot Hc.
  destruct (writer_write_spec w segs ds Hw Hs Hd Hma Hfl Ho Htot Hc) as (w' & E & C & _).
  exists w'. split; [done|]. rewrite C, Hcont. now apply core_file_parses.
Qed.

(** ** Filling the segment array *)

(** The slot that [prv_alloc_next_segment] hands out, when memory is available. *)
Lemma alloc_next w segs seg : has_segments w segs -> zlen segs < 2 ^ 30 ->
  exists w1 w2, prv_alloc_next_segment true w = (w1, Some (zlen segs)) /\ put_segment w1 (zlen segs) seg = Val w2 /\
    has_segments w2 (segs ++ [seg]) /\ out w2 = out w /\ w_e_machine w2 = w_e_machine w /\ w_e_flags w2 = w_e_flags w.
Proof.
  unfold has_segments, prv_alloc_next_segment, SEGMENTS_REALLOC_STEP_SIZE. intros (Hn & Ht & Hz & Hm) Hmax.
  assert (Ei : i32 (segments_max w) = segments_max w) by (unfold i32, swrap; rewrite Z.mod_small by lia; lia).
  rewrite Ei, Hn, andb_false_r. set (slots := if segments_idx w >=? segments_max w - 1 then _ else segments w).
  assert (Hs : take (length segs) slots = map Some segs /\ zlen segs < zlen slots /\
    zlen slots = if segments_idx w >=? segments_max w - 1 then segments_max w + 32 else segments_max w).
  { unfold slots. rewrite Z.geb_leb. destruct (Z.leb_spec (segments_max w - 1) (segments_idx w)).
    - rewrite length_resize. split; [|lia]. rewrite resize_spec, take_app_le, take_take by (rewrite length_take; lia).
      now rewrite Nat.min_l by lia.
    - split; [done|]. lia. }
  clearbody slots. destruct Hs as (Hs1 & Hs2 & Hs3). eexists _, _. split; [done|].
  unfold put_segment. cbn [segments]. test_true ((0 <=? zlen segs) && (zlen segs <? zlen slots)).
  split; [done|]. split; [|done].
  cbn [segments_idx segments segments_max]. rewrite length_app, Nat2Z.id, length_insert. cbn [length].
  split; [lia|]. split; [|case_test; tests_to_props; lia].
  assert (El : (length segs + 1 = Datatypes.S (length segs))%nat) by lia. rewrite El.
  rewrite (take_S_r _ _ (Some seg)) by (apply list_lookup_insert_eq; lia).
  rewrite take_insert_ge by lia. now rewrite Hs1, map_app.
Qed.

(** adding a segment, with buffer or callback, extends the array of a writer by exactly that
    segment, growing the allocation when it is full, and touches nothing else. *)
Theorem writer_adds_segment w segs hdr (d : segment_data S) : has_segments w segs -> zlen segs < 2 ^ 30 ->
  exists w', match d with
    | Buffer b => ticos_core_elf_writer_add_segment_with_buffer true w hdr b
    | Callback fn => ticos_core_elf_writer_add_segment_with_callback true w hdr fn
    end = Val (w', true) /\
    has_segments w' (segs ++ [MkSegment hdr d]) /\ out w' = out w /\ w_e_machine w' = w_e_machine w /\
    w_e_flags w' = w_e_flags w.
Proof.
  intros Hw Hm. destruct (alloc_next w segs (MkSegment hdr d) Hw Hm) as (w1 & w2 & E1 & E2 & Hw2).
  exists w2. unfold ticos_core_elf_writer_add_segment_with_buffer, ticos_core_elf_writer_add_segment_with_callback.
  destruct d; rewrite E1, E2; done.
Qed.

Lemma init_has_segments (s : S) : has_segments (ticos_core_elf_writer_init s) [].
Proof. unfold has_segments, SEGMENTS_REALLOC_STEP_SIZE. cbn. split; [done|]. split; [done|]. lia. Qed.

(** when [realloc] fails, [segments_max] stays raised: the caller gets false, and if it goes on,
    as the transformer does after a warning, the next segment is written behind the array. *)
Theorem alloc_failure_overflows w segs hdr b hdr' b' again : has_segments w segs ->
  zlen segs < 2 ^ 30 -> zlen segs = segments_max w ->
  exists w', ticos_core_elf_writer_add_segment_with_buffer false w hdr b = Val (w', false) /\
    ticos_core_elf_writer_add_segment_with_buffer again w' hdr' b' = Fault.
Proof.
  intros (Hn & Ht & Hz & Hm) Hlen Hfull. unfold SEGMENTS_REALLOC_STEP_SIZE in Hm.
  unfold ticos_core_elf_writer_add_segment_with_buffer, prv_alloc_next_segment, SEGMENTS_REALLOC_STEP_SIZE.
  assert (Ei : forall m, 0 <= m < 2 ^ 31 -> i32 m = m) by (intros; unfold i32, swrap; rewrite Z.mod_small by lia; lia).
  rewrite Ei by lia. test_true (segments_idx w >=? segments_max w - 1). cbn [andb negb].
  eexists. split; [done|]. cbn [segments_idx segments_max segments]. rewrite Ei by lia.
  test_false (segments_idx w >=? segments_max w + 32 - 1). cbn [andb].
  unfold put_segment. cbn [segments]. now test_false ((0 <=? segments_idx w + 1) && (segments_idx w + 1 <? zlen (segments w))).
Qed.

(** a callback that reports success but writes more or fewer bytes than the segment header
    announces makes the write fail. *)
Theorem writer_detects_mismatch o hdr fn d : can_write fuel o (zlen d) -> p_offset hdr = write_offset o ->
  0 <= p_filesz hdr -> p_offset hdr + p_filesz hdr < 2 ^ 64 -> zlen d <> p_filesz hdr ->
  (exists o', fn o hdr = Val (o', true) /\ out_wrote o o' d) ->
  exists o', write_segment fuel o (MkSegment hdr (Callback fn)) = Val (o', false).
Proof.
  intros (Hok & Hr & Hf & Hw0 & Hb) Hp Hz Hs Hne (o' & Efn & _ & Ew). exists o'. unfold write_segment. cbn [header data].
  rewrite Hp, Z.sub_diag. change (prv_write_padding fuel o (u64 0)) with (@Val (sWriterOut S * bool) (o, true)). cbn [obind negb]. rewrite Efn. cbn [obind negb].
  unfold u64. rewrite Z.mod_small by lia. now test_false (write_offset o' =? write_offset o + p_filesz hdr).
Qed.
End File.
