(* ===== verification/ElfFileIO.v ===== *)
(** * Writing the core file to a descriptor (prv_fio_write, prv_fio_sync in core_elf_writer.c)

    [sTicosCoreElfWriteFileIO] with the file behind its descriptor.  What write(2) answers is
    a list of [os_write]; when the list is used up every write is complete.  The class
    instance makes the writer's theorems apply to files; three more theorems are about the
    size limit. *)
From S2P Require Import Prelude ElfNote Elf ElfWriter ElfWriterSpec ElfWriterFile.

(** An answer of write(2): at most that many bytes, or -1 with errno EINTR or another one. *)
Inductive os_write :=
| OsWrote (n : Z)
| OsError (eintr : bool).

Record sTicosCoreElfWriteFileIO := MkFileIO {
  max_size : Z;
  written_size : Z;
  fd_content : list Z;
  os_answers : list os_write;
  fsync_ok : bool;
  eintr : bool }.

Definition ticos_core_elf_write_file_io_init (answers : list os_write) (fsync_ok : bool) (max_size : Z)
    : sTicosCoreElfWriteFileIO := MkFileIO max_size 0 [] answers fsync_ok false.

(** write(2) itself, before [written_size] is updated. *)
Definition os_write_call (fio : sTicosCoreElfWriteFileIO) (data : list Z) : sTicosCoreElfWriteFileIO * Z :=
  match os_answers fio with
  | [] => (MkFileIO (max_size fio) (written_size fio) (fd_content fio ++ data) [] (fsync_ok fio) (eintr fio), zlen data)
  | OsWrote n :: rest =>
      let n := Z.min (Z.max n 0) (zlen data) in
      (MkFileIO (max_size fio) (written_size fio) (fd_content fio ++ take (Z.to_nat n) data) rest (fsync_ok fio)
         (eintr fio), n)
  | OsError e :: rest =>
      (MkFileIO (max_size fio) (written_size fio) (fd_content fio) rest (fsync_ok fio) e, -1)
  end.

Definition set_written_size (fio : sTicosCoreElfWriteFileIO) (n : Z) : sTicosCoreElfWriteFileIO :=
  MkFileIO (max_size fio) n (fd_content fio) (os_answers fio) (fsync_ok fio) (eintr fio).

(** The result of write(2) goes through a [size_t], so that -1 is added as 2^64 - 1. *)
Definition prv_fio_write (fio : sTicosCoreElfWriteFileIO) (data : list Z) : outcome (sTicosCoreElfWriteFileIO * Z) :=
  if u64 (written_size fio + zlen data) >? max_size fio then Val (fio, -1)
  else
    let '(fio, rv) := os_write_call fio data in
    let bytes := u64 rv in
    Val (set_written_size fio (u64 (written_size fio + bytes)), i64 bytes).

Definition prv_fio_sync (fio : sTicosCoreElfWriteFileIO) : outcome (sTicosCoreElfWriteFileIO * bool) :=
  Val (fio, fsync_ok fio).

#[export] Instance file_io : WriteIO sTicosCoreElfWriteFileIO := {
  io_write := prv_fio_write;
  io_sync := prv_fio_sync;
  errno_is_EINTR := eintr }.

(** ** A file without write errors fulfils the contract *)
Definition is_short (a : os_write) : Prop := match a with OsWrote _ => True | OsError _ => False end.

Definition fio_ok (fio : sTicosCoreElfWriteFileIO) : Prop :=
  Forall is_short (os_answers fio) /\ fsync_ok fio = true /\ written_size fio = zlen (fd_content fio) /\
  written_size fio <= max_size fio < 2 ^ 62.

Definition fio_room (fio : sTicosCoreElfWriteFileIO) : Z := max_size fio - written_size fio.

Lemma i64_u64_small n : 0 <= n < 2 ^ 63 -> i64 (u64 n) = n.
Proof. intros. rewrite u64_small by lia. unfold i64, swrap. rewrite Z.mod_small by lia. lia. Qed.

(** One successful write, whole or short. *)
Lemma fio_write_ok fio data : fio_ok fio -> 0 < zlen data <= fio_room fio ->
  exists fio' rv, prv_fio_write fio data = Val (fio', rv) /\ fio_ok fio' /\ 0 <= rv <= zlen data /\
    fd_content fio' = fd_content fio ++ take (Z.to_nat rv) data /\ fio_room fio' = fio_room fio - rv /\
    (length (os_answers fio') <= length (os_answers fio))%nat /\
    (rv = 0 -> (length (os_answers fio') < length (os_answers fio))%nat).
Proof.
  intros (Ha & Hf & Hw & Hm) Hd. unfold fio_room in *. unfold prv_fio_write.
  rewrite u64_small by lia. test_false (written_size fio + zlen data >? max_size fio).
  unfold os_write_call. destruct (os_answers fio) as [|[n|e] rest] eqn:Ea; [| |apply Forall_cons_1 in Ha as [[] _]].
  - eexists _, _. split; [reflexivity|]. cbn [written_size]. rewrite i64_u64_small by lia.
    rewrite (u64_small (zlen data)) by lia. rewrite u64_small by lia. unfold fio_ok. cbn.
    rewrite length_app, Nat2Z.id, take_ge by lia. repeat split; try done; lia.
  - apply Forall_cons_1 in Ha as [_ Ha]. set (k := Z.min _ _). assert (Hk : 0 <= k <= zlen data) by lia.
    eexists _, _. split; [reflexivity|]. cbn [written_size]. rewrite i64_u64_small by lia.
    rewrite (u64_small k) by lia. rewrite u64_small by lia. unfold fio_ok. cbn. rewrite length_app, length_take. repeat split; try done; lia.
Qed.

#[export] Program Instance file_io_spec : WriteIOSpec sTicosCoreElfWriteFileIO := {
  io_ok := fio_ok;
  io_content := fd_content;
  io_room := fio_room;
  io_credit := fun fio => length (os_answers fio);
  io_synced := fun fio => fsync_ok fio = true }.
Next Obligation.
  intros s d Hok Hd. destruct (fio_write_ok s d Hok Hd) as (s' & rv & E & Hok' & Hrv & Hc & Hr & Hcr & Hz).
  exists s', rv. split; [done|]. split; [done|]. left. repeat split; try done; lia.
Qed.
Next Obligation. intros s (? & Hf & _). exists s. cbn. unfold prv_fio_sync. rewrite Hf. done. Qed.

(** ** The size limit *)

(** Any number of writes through [prv_io_write_all], each with its result ignored. *)
Fixpoint fio_writes (fuel : nat) (fio : sTicosCoreElfWriteFileIO) (ds : list (list Z)) : outcome sTicosCoreElfWriteFileIO :=
  match ds with
  | [] => Val fio
  | d :: ds => let! (fio, _) := prv_io_write_all fuel fio d in fio_writes fuel fio ds
  end.

Lemma fio_write_full fio data : fio_ok fio -> fio_room fio < zlen data < 2 ^ 63 -> prv_fio_write fio data = Val (fio, -1).
Proof.
  intros (_ & _ & Hw & Hm) Hd. unfold fio_room in Hd. unfold prv_fio_write. rewrite u64_small by lia.
  now test_true (written_size fio + zlen data >? max_size fio).
Qed.

(** Writing as much as fits; without errors the loop always comes to an end. *)
Lemma fio_write_loop fuel : forall fio data, fio_ok fio -> eintr fio = false -> zlen data < 2 ^ 63 ->
  (length data + length (os_answers fio) < fuel)%nat ->
  exists fio' ok k, write_loop fuel fio data = Val (fio', ok) /\ fio_ok fio' /\ eintr fio' = false /\
    max_size fio' = max_size fio /\ fd_content fio' = fd_content fio ++ take k data /\
    (ok = true -> take k data = data) /\ (length (os_answers fio') <= length (os_answers fio))%nat.
Proof.
  induction fuel as [|fuel IH]; intros fio data Hok He Hl Hf; [lia|]. cbn [write_loop].
  destruct (Z.gtb_spec (zlen data) 0) as [Hd|Hd].
  2:{ exists fio, true, 0%nat. destruct data; [|cbn in Hd; lia]. rewrite app_nil_r. repeat split; try done; apply Hok. }
  destruct (Z.le_gt_cases (zlen data) (fio_room fio)) as [Hr|Hr].
  - destruct (fio_write_ok fio data Hok) as (f1 & rv & E & Hok1 & Hrv & Hc & Hr1 & Hcr & Hz); [lia|].
    assert (P : eintr f1 = false /\ max_size f1 = max_size fio).
    { revert E. unfold prv_fio_write. case_test; [intros [= <- _]; done|]. unfold os_write_call.
      destruct Hok as [Ha _]. destruct (os_answers fio) as [|[n|e] rest]; [intros [= <- _]; done..|].
      apply Forall_cons_1 in Ha as [[] _]. }
    destruct P as [P1 P2]. cbn [io_write file_io]. rewrite E. cbn [obind]. test_false (rv <? 0).
    destruct (IH f1 (drop (Z.to_nat rv) data)) as (f2 & ok & k & -> & Hok2 & He2 & Hm2 & Hc2 & Ht2 & Hcr2); [done|done| | |].
    + rewrite length_drop. lia.
    + rewrite length_drop. destruct (Z.eq_dec rv 0) as [E0|E0]; [specialize (Hz E0)|]; lia.
    + exists f2, ok, (Z.to_nat rv + k)%nat. split; [done|]. split; [done|]. split; [done|]. split; [congruence|].
      rewrite <- take_take_drop. split; [rewrite Hc2, Hc; now rewrite app_assoc|].
      split; [intros ->; rewrite Ht2 by done; apply take_drop|lia].
  - cbn [io_write file_io]. rewrite fio_write_full by (done || lia). cbn [obind errno_is_EINTR file_io].
    change (-1 <? 0) with true. cbn iota. rewrite He.
    exists fio, false, 0%nat. rewrite take_0, app_nil_r. repeat split; try done; apply Hok.
Qed.

(** without interrupted writes the file never grows beyond [max_size], whatever is written to
    it in whatever pieces and however short the single writes are; a write that would pass
    the limit returns false, and no loop runs forever. *)
Theorem fio_respects_max_size fuel fio ds : fio_ok fio -> eintr fio = false ->
  Forall (fun d => zlen d < 2 ^ 63 /\ (length d + length (os_answers fio) < fuel)%nat) ds ->
  exists fio', fio_writes fuel fio ds = Val fio' /\ zlen (fd_content fio) <= zlen (fd_content fio') <= max_size fio.
Proof.
  intros Hok He Hds. assert (G : exists fio', fio_writes fuel fio ds = Val fio' /\ fio_ok fio' /\
    max_size fio' = max_size fio /\ zlen (fd_content fio) <= zlen (fd_content fio')).
  2:{ destruct G as (fio' & E & (_ & _ & Hw & Hm) & Em & Hl). exists fio'. split; [done|]. lia. }
  revert fio Hok He Hds. induction ds as [|d ds IH]; intros fio Hok He Hds; cbn [fio_writes]; [exists fio; repeat split; try done; apply Hok|].
  apply Forall_cons_1 in Hds as [[Hd1 Hd2] Hds].
  destruct (fio_write_loop fuel fio d Hok He Hd1 Hd2) as (f1 & ok & k & E & Hok1 & He1 & Hm1 & Hc1 & _ & Hcr).
  unfold prv_io_write_all. rewrite E. cbn [obind].
  destruct (IH f1) as (f2 & -> & Hok2 & Hm2 & Hl2); [done|done| |].
  - revert Hds. apply Forall_impl. cbn. intros x [? ?]. split; [done|lia].
  - exists f2. split; [done|]. split; [done|]. split; [congruence|]. rewrite Hc1, length_app in Hl2. lia.
Qed.

(** [prv_fio_write] reports the size limit as -1 without setting errno.  If the last failed
    write(2) was interrupted, [prv_io_write_all] takes the stale EINTR for the reason and
    retries for ever. *)
Theorem fio_full_after_eintr_diverges fio data : 0 < zlen data -> eintr fio = true ->
  max_size fio < u64 (written_size fio + zlen data) -> forall fuel, prv_io_write_all fuel fio data = OutOfFuel.
Proof.
  intros Hd He Hm fuel. unfold prv_io_write_all. induction fuel as [|fuel IH]; [done|]. cbn [write_loop].
  test_true (zlen data >? 0). cbn [io_write file_io]. unfold prv_fio_write.
  test_true (u64 (written_size fio + zlen data) >? max_size fio). cbn [obind errno_is_EINTR file_io].
  change (-1 <? 0) with true. cbn iota. now rewrite He.
Qed.

(** Every interrupted write lowers [written_size] by one, so the file can pass its limit: here five
    bytes in a file limited to four. *)
Example fio_limit_drifts :
  (let! fio := fio_writes 9 (ticos_core_elf_write_file_io_init [OsWrote 2; OsError true] true 4) [[1; 2; 3; 4]; [5]] in
   Val (fd_content fio)) = Val [1; 2; 3; 4; 5].
Proof. reflexivity. Qed.

(** ** Concrete instances *)
Lemma fio_respects_max_size_witness :
  exists fio', fio_writes 9 (ticos_core_elf_write_file_io_init [OsWrote 1; OsWrote 0] true 4) [[1; 2; 3]; [4; 5]] = Val fio' /\
    zlen (@nil Z) <= zlen (fd_content fio') <= 4.
Proof.
  apply (fio_respects_max_size 9 (ticos_core_elf_write_file_io_init [OsWrote 1; OsWrote 0] true 4)).
  - split; [repeat constructor|]. cbn. lia.
  - reflexivity.
  - repeat (apply Forall_cons_2 || apply Forall_nil_2); cbn; lia.
Defined.

(** The limit is reached right after an interruption. *)
Lemma fio_full_after_eintr_diverges_witness :
  prv_io_write_all 1000 (MkFileIO 4 3 [1; 2; 3; 4] [] true true) [5; 6] = OutOfFuel.
Proof. apply fio_full_after_eintr_diverges; reflexivity. Defined.

(** A core file of two segments: a note with a buffer, and a load segment whose callback writes
    four bytes. *)
Definition demo_note : Elf_Phdr := MkPhdr PT_NOTE 4 0 0 0 3 0 0.
Definition demo_load : Elf_Phdr := MkPhdr PT_LOAD 5 0 0x1000 0 4 4 16.

Definition demo_callback (o : sWriterOut sTicosCoreElfWriteFileIO) (h : Elf_Phdr) :=
  ticos_core_elf_writer_write_segment_data 300 o [5; 6; 7; 8].

Definition demo_segments : list (sTicosCoreElfWriterSegment sTicosCoreElfWriteFileIO) :=
  [MkSegment demo_note (Buffer [1; 2; 3]); MkSegment demo_load (Callback demo_callback)].

Definition demo_fio : sTicosCoreElfWriteFileIO := ticos_core_elf_write_file_io_init [OsWrote 7; OsWrote 0; OsWrote 30] true 1000.

Definition demo_writer : sTicosCoreElfWriter sTicosCoreElfWriteFileIO :=
  MkWriter (MkOut demo_fio 0) 62 0 (map Some demo_segments ++ replicate 30 None) 32 1.

Lemma demo_fio_ok : fio_ok demo_fio.
Proof. split; [repeat constructor|]. cbn. lia. Qed.

Lemma demo_has_segments : has_segments demo_writer demo_segments.
Proof. unfold has_segments, SEGMENTS_REALLOC_STEP_SIZE. cbn. repeat split; lia. Qed.

Lemma demo_callback_writes o h : can_write 300 o 4 ->
  exists o', demo_callback o h = Val (o', true) /\ out_wrote o o' [5; 6; 7; 8].
Proof. intros. now apply write_all_spec. Qed.

Lemma writer_writes_elf_witness :
  exists w', ticos_core_elf_writer_write 300 demo_writer = Val (w', true) /\
    parses_as demo_writer demo_segments [[1; 2; 3]; [5; 6; 7; 8]] (io_content (io (out w'))).
Proof.
  apply (writer_writes_elf 300 demo_writer demo_segments [[1; 2; 3]; [5; 6; 7; 8]]); try reflexivity;
    try (split; [discriminate | reflexivity]).
  - apply demo_has_segments.
  - repeat (apply Forall_cons_2 || apply Forall_nil_2); (split; [vm_compute; repeat split; discriminate|]).
    + left. discriminate.
    + right. exists 4. split; [lia|reflexivity].
  - repeat (apply Forall2_cons_2 || apply Forall2_nil_2); (split; [reflexivity|]); [reflexivity|].
    intros off o Hc. now apply demo_callback_writes.
  - split; [apply demo_fio_ok|]. vm_compute. repeat split; discriminate.
Defined.

Lemma writer_adds_segment_witness :
  exists w', ticos_core_elf_writer_add_segment_with_buffer true demo_writer demo_note [9; 9; 9] = Val (w', true) /\
    has_segments w' (demo_segments ++ [MkSegment demo_note (Buffer [9; 9; 9])]) /\ out w' = out demo_writer /\
    w_e_machine w' = 62 /\ w_e_flags w' = 0.
Proof. apply (writer_adds_segment demo_writer demo_segments demo_note (Buffer [9; 9; 9])); [apply demo_has_segments | reflexivity]. Defined.

Lemma alloc_failure_overflows_witness :
  exists w', ticos_core_elf_writer_add_segment_with_buffer false (ticos_core_elf_writer_init demo_fio) demo_note [1; 2; 3] = Val (w', false) /\
    ticos_core_elf_writer_add_segment_with_buffer true w' demo_note [1; 2; 3] = Fault.
Proof. apply (alloc_failure_overflows _ []); [apply init_has_segments | reflexivity | reflexivity]. Defined.

Lemma writer_detects_mismatch_witness :
  exists o', write_segment 300 (MkOut demo_fio 0) (MkSegment demo_note (Callback demo_callback)) = Val (o', false).
Proof.
  apply (writer_detects_mismatch 300 (MkOut demo_fio 0) demo_note demo_callback [5; 6; 7; 8]); try reflexivity; try discriminate.
  - split; [apply demo_fio_ok|]. vm_compute. repeat split; discriminate.
  - apply demo_callback_writes. split; [apply demo_fio_ok|]. vm_compute. repeat split; discriminate.
Defined.
