(* ===== verification/GzipIO.v ===== *)
(** * Compressing the core file (prv_write, prv_sync and ticos_core_elf_write_gzip_io_init in
    src/plugins/coredump/core_elf_writer.c)

    [sTicosCoreElfWriteGzipIO] compresses what is written to it and passes it to the next
    device.  zlib is a parameter: [Zlib] are the functions the code calls, [ZlibLaws] what its
    documentation says about them.  The instance at the end makes every theorem about the ELF
    writer one about the uncompressed data of a gzip stream. *)
From S2P Require Import Prelude ElfNote Elf ElfWriter ElfWriterSpec.

Definition GZIP_COMPRESSION_BUFFER_SIZE : Z := 4096.

Definition Z_OK : Z := 0.
Definition Z_STREAM_END : Z := 1.

(** What one call of deflate leaves: the stream, how much input it took, the output, and the
    return value. *)
Record deflate_result (Zs : Type) := MkDeflate {
  zs_after : Zs;
  consumed : nat;
  produced : list Z;
  deflate_rv : Z }.
Arguments MkDeflate {Zs} _ _ _ _.
Arguments zs_after {Zs} _.
Arguments consumed {Zs} _.
Arguments produced {Zs} _.
Arguments deflate_rv {Zs} _.

(** [deflate zs next_in avail_out finish]; [finish] stands for Z_FINISH, else Z_NO_FLUSH.
    [deflateInit2] is [None] when it does not return Z_OK. *)
Class Zlib (Zs : Type) := {
  deflateInit2 : option Zs;
  deflate : Zs -> list Z -> Z -> bool -> deflate_result Zs }.

(** [z_in] and [z_out] are all the input a stream has taken and all the output it has given,
    [z_finishing] tells whether it was called with Z_FINISH, [gunzip] what a decompressor makes
    of a complete stream.  As long as there is input and room for output, deflate makes
    progress; the output is never much longer than the input. *)
Class ZlibLaws (Zs : Type) `{Zlib Zs} := {
  z_ok : Zs -> Prop;
  z_in : Zs -> list Z;
  z_out : Zs -> list Z;
  z_finishing : Zs -> bool;
  gunzip : list Z -> option (list Z);
  init_law zs : deflateInit2 = Some zs -> z_ok zs /\ z_in zs = [] /\ z_out zs = [] /\ z_finishing zs = false;
  bound_law zs : z_ok zs -> zlen (z_out zs) <= 2 * zlen (z_in zs) + 64;
  write_law zs data avail : z_ok zs -> z_finishing zs = false -> data <> [] -> 0 < avail ->
    let r := deflate zs data avail false in
    deflate_rv r = Z_OK /\ (consumed r <= length data)%nat /\ zlen (produced r) <= avail /\
    (0 < consumed r + length (produced r))%nat /\ z_ok (zs_after r) /\ z_finishing (zs_after r) = false /\
    z_in (zs_after r) = z_in zs ++ take (consumed r) data /\ z_out (zs_after r) = z_out zs ++ produced r;
  finish_law zs avail : z_ok zs -> 0 < avail ->
    let r := deflate zs [] avail true in
    zlen (produced r) <= avail /\ z_ok (zs_after r) /\ z_in (zs_after r) = z_in zs /\
    z_out (zs_after r) = z_out zs ++ produced r /\
    ((deflate_rv r = Z_OK /\ produced r <> []) \/
     (deflate_rv r = Z_STREAM_END /\ gunzip (z_out (zs_after r)) = Some (z_in zs))) }.

Record sTicosCoreElfWriteGzipIO (Zs W : Type) := MkGzipIO {
  next : W;
  zs : Zs }.
Arguments MkGzipIO {Zs W} _ _.
Arguments next {Zs W} _.
Arguments zs {Zs W} _.

Section Gzip.
Context {Zs W : Type} `{Zlib Zs} `{WriteIO W} (fuel : nat).
Implicit Type gzio : sTicosCoreElfWriteGzipIO Zs W.

(** The loop of [prv_write]; [data] is the input that is left, [turns] its fuel. *)
Fixpoint deflate_loop (turns : nat) gzio (data : list Z) : outcome (sTicosCoreElfWriteGzipIO Zs W * bool) :=
  if zlen data >? 0 then
    match turns with
    | O => OutOfFuel
    | S turns =>
        let r := deflate (zs gzio) data GZIP_COMPRESSION_BUFFER_SIZE false in
        if negb (deflate_rv r =? Z_OK) then Val (MkGzipIO (next gzio) (zs_after r), false)
        else
          let! (nx, ok) := prv_io_write_all fuel (next gzio) (produced r) in
          let gzio := MkGzipIO nx (zs_after r) in
          if negb ok then Val (gzio, false) else deflate_loop turns gzio (drop (consumed r) data)
    end
  else Val (gzio, true).

Definition prv_write gzio (data : list Z) : outcome (sTicosCoreElfWriteGzipIO Zs W * Z) :=
  let! (gzio, ok) := deflate_loop fuel gzio data in
  Val (gzio, if ok : bool then zlen data else -1).

(** The loop of [prv_sync]; the next device is not synced. *)
Fixpoint finish_loop (turns : nat) gzio : outcome (sTicosCoreElfWriteGzipIO Zs W * bool) :=
  match turns with
  | O => OutOfFuel
  | S turns =>
      let r := deflate (zs gzio) [] GZIP_COMPRESSION_BUFFER_SIZE true in
      if negb (deflate_rv r =? Z_OK) && negb (deflate_rv r =? Z_STREAM_END) then
        Val (MkGzipIO (next gzio) (zs_after r), false)
      else
        let! (nx, ok) := prv_io_write_all fuel (next gzio) (produced r) in
        let gzio := MkGzipIO nx (zs_after r) in
        if negb ok then Val (gzio, false)
        else if deflate_rv r =? Z_STREAM_END then Val (gzio, true)
        else finish_loop turns gzio
  end.

Definition prv_sync gzio : outcome (sTicosCoreElfWriteGzipIO Zs W * bool) := finish_loop fuel gzio.

(** errno belongs to the next device's system calls. *)
#[local] Instance gzip_io : WriteIO (sTicosCoreElfWriteGzipIO Zs W) := {
  io_write := prv_write;
  io_sync := prv_sync;
  errno_is_EINTR gzio := errno_is_EINTR (next gzio) }.

Definition ticos_core_elf_write_gzip_io_init (next : W) : option (sTicosCoreElfWriteGzipIO Zs W) :=
  option_map (MkGzipIO next) deflateInit2.
End Gzip.

(** ** The contract *)
Section Spec.
Context {Zs W : Type} `{ZlibLaws Zs} `{WriteIOSpec W} (fuel : nat).
Implicit Type gzio : sTicosCoreElfWriteGzipIO Zs W.

(** The next device holds what the stream has given. *)
Definition synced gzio : Prop :=
  z_ok (zs gzio) /\ io_ok (next gzio) /\ io_content (next gzio) = z_out (zs gzio) /\
  GZIP_COMPRESSION_BUFFER_SIZE + Z.of_nat (io_credit (next gzio)) < Z.of_nat fuel.

(** The stream's output so far and what the next device still takes. *)
Definition capacity gzio : Z := zlen (z_out (zs gzio)) + io_room (next gzio).

(** How much more may be written: the output must fit the device, the turns the fuel. *)
Definition gzip_room gzio : Z :=
  Z.min ((capacity gzio - 64) `div` 2) ((Z.of_nat fuel - 66) `div` 3) - zlen (z_in (zs gzio)).

Definition gzip_ok gzio : Prop := synced gzio /\ z_finishing (zs gzio) = false /\ 0 <= gzip_room gzio.

Lemma room_bounds gzio n : n <= gzip_room gzio ->
  2 * (zlen (z_in (zs gzio)) + n) + 64 <= capacity gzio /\ 3 * (zlen (z_in (zs gzio)) + n) + 66 <= Z.of_nat fuel.
Proof.
  unfold gzip_room. intros Hn. pose proof (Z.mul_div_le (capacity gzio - 64) 2). pose proof (Z.mul_div_le (Z.of_nat fuel - 66) 3). lia.
Qed.

(** Passing output on. *)
Lemma pass_on gzio r : synced gzio -> z_ok (zs_after r) -> z_out (zs_after r) = z_out (zs gzio) ++ produced r ->
  zlen (produced r) <= GZIP_COMPRESSION_BUFFER_SIZE -> zlen (produced r) <= io_room (next gzio) ->
  exists nx, prv_io_write_all fuel (next gzio) (produced r) = Val (nx, true) /\ synced (MkGzipIO nx (zs_after r)) /\
    capacity gzio <= capacity (MkGzipIO nx (zs_after r)).
Proof.
  intros (Hz & Hok & Hc & Hf) Hz' Ho Hl Hr. unfold prv_io_write_all.
  destruct (write_loop_spec fuel (next gzio) (produced r) Hok Hr) as (nx & E & Hok' & Hc' & Hr' & Hcr); [lia|].
  exists nx. split; [exact E|]. split.
  - repeat split; cbn [next zs]; [done|done|now rewrite Hc', Hc, Ho|lia].
  - unfold capacity. cbn [next zs]. rewrite Ho. lens.
Qed.

Lemma deflate_loop_spec turns : forall gzio data, synced gzio -> z_finishing (zs gzio) = false ->
  2 * (zlen (z_in (zs gzio)) + zlen data) + 64 <= capacity gzio ->
  3 * zlen data + 2 * zlen (z_in (zs gzio)) + 64 - zlen (z_out (zs gzio)) <= Z.of_nat turns ->
  exists gzio', deflate_loop fuel turns gzio data = Val (gzio', true) /\ synced gzio' /\ z_finishing (zs gzio') = false /\
    z_in (zs gzio') = z_in (zs gzio) ++ data /\ capacity gzio <= capacity gzio'.
Proof.
  induction turns as [|turns IH]; intros gzio data Hs Hfin Hcap Ht.
  all: pose proof (bound_law (zs gzio) (proj1 Hs)) as Hb.
  all: destruct data as [|x data]; [exists gzio; rewrite app_nil_r;
    split; [done|]; split; [exact Hs|]; split; [exact Hfin|]; split; [done|reflexivity]|].
  - cbn [length] in Ht. lia.
  - cbn [deflate_loop]. set (d := x :: data) in *. assert (Hd : 0 < zlen d) by (cbn [d length]; lia). test_true (zlen d >? 0).
    destruct (write_law (zs gzio) d GZIP_COMPRESSION_BUFFER_SIZE (proj1 Hs) Hfin ltac:(discriminate) ltac:(done))
      as (Hrv & Hc & Hl & Hp & Hok & Hf' & Hin & Hout). set (r := deflate _ _ _ _) in *.
    rewrite Hrv. cbn [Z.eqb Z_OK negb]. pose proof (bound_law (zs_after r) Hok) as Hb'.
    assert (Lin : zlen (z_in (zs_after r)) = zlen (z_in (zs gzio)) + Z.of_nat (consumed r)) by (rewrite Hin; lens).
    assert (Lout : zlen (z_out (zs_after r)) = zlen (z_out (zs gzio)) + zlen (produced r)) by (rewrite Hout; lens).
    destruct (pass_on gzio r) as (nx & E & Hs' & Hcap'); try done; [unfold capacity in Hcap; lia|].
    rewrite E. cbn [obind negb].
    destruct (IH (MkGzipIO nx (zs_after r)) (drop (consumed r) d)) as (g2 & E2 & Hs2 & Hf2 & Hin2 & Hcap2); cbn [zs]; try done.
    + rewrite length_drop. lia.
    + rewrite length_drop. lia.
    + exists g2. split; [exact E2|]. split; [done|]. split; [done|]. split; [|lia].
      cbn [zs] in Hin2. rewrite Hin2, Hin, <- app_assoc, take_drop. done.
Qed.

Lemma finish_loop_spec turns : forall gzio, synced gzio -> 2 * zlen (z_in (zs gzio)) + 64 <= capacity gzio ->
  2 * zlen (z_in (zs gzio)) + 64 - zlen (z_out (zs gzio)) < Z.of_nat turns ->
  exists gzio', finish_loop fuel turns gzio = Val (gzio', true) /\ z_in (zs gzio') = z_in (zs gzio) /\
    gunzip (io_content (next gzio')) = Some (z_in (zs gzio)).
Proof.
  induction turns as [|turns IH]; intros gzio Hs Hcap Ht.
  all: pose proof (bound_law (zs gzio) (proj1 Hs)) as Hb.
  { lia. }
  cbn [finish_loop].
  destruct (finish_law (zs gzio) GZIP_COMPRESSION_BUFFER_SIZE (proj1 Hs) ltac:(done)) as (Hl & Hok & Hin & Hout & Hrv).
  set (r := deflate _ _ _ _) in *. pose proof (bound_law (zs_after r) Hok) as Hb'. rewrite Hin in Hb'.
  assert (Lout : zlen (z_out (zs_after r)) = zlen (z_out (zs gzio)) + zlen (produced r)) by (rewrite Hout; lens).
  destruct (pass_on gzio r) as (nx & E & Hs' & Hcap'); try done; [unfold capacity in Hcap; lia|]. rewrite E. cbn [obind negb].
  destruct Hrv as [[Hrv Hne]|[Hrv Hg]]; rewrite Hrv.
  - change (Z_OK =? Z_OK) with true. change (Z_OK =? Z_STREAM_END) with false. cbn [negb andb].
    assert (0 < zlen (produced r)) by (destruct (produced r); [done|cbn [length]; lia]).
    destruct (IH (MkGzipIO nx (zs_after r))) as (g2 & E2 & Hin2 & Hg2); cbn [zs] in *; rewrite ?Hin; [done|lia|lia|].
    exists g2. rewrite E2. split; [done|]. split; [congruence|]. now rewrite Hg2, Hin.
  - change (Z_STREAM_END =? Z_OK) with false. change (Z_STREAM_END =? Z_STREAM_END) with true. cbn [negb andb].
    exists (MkGzipIO nx (zs_after r)). split; [done|]. split; [done|]. cbn [next]. destruct Hs' as (_ & _ & Hc & _).
    cbn [next zs] in Hc. now rewrite Hc.
Qed.

(** A gzip stream is a device whose content is the uncompressed data. *)
#[local] Program Instance gzip_io_spec : @WriteIOSpec (sTicosCoreElfWriteGzipIO Zs W) (gzip_io fuel) := {
  io_ok := gzip_ok;
  io_content gzio := z_in (zs gzio);
  io_room := gzip_room;
  io_credit _ := O;
  io_synced gzio := gunzip (io_content (next gzio)) = Some (z_in (zs gzio)) }.
Next Obligation.
  intros gzio data (Hs & Hfin & Hroom) Hd. destruct (room_bounds gzio (zlen data)) as [Hcap Hfuel]; [lia|].
  pose proof (bound_law (zs gzio) (proj1 Hs)).
  destruct (deflate_loop_spec fuel gzio data Hs Hfin Hcap) as (g2 & E & Hs2 & Hf2 & Hin & Hcap2); [lia|].
  exists g2, (zlen data). cbn [io_write gzip_io]. unfold prv_write. rewrite E. cbn [obind].
  assert (R : gzip_room gzio - zlen data <= gzip_room g2).
  { unfold gzip_room. rewrite Hin, length_app. pose proof (Z.div_le_mono (capacity gzio - 64) (capacity g2 - 64) 2). lia. }
  split; [done|]. split; [split; [done|split; [done|lia]]|]. left. rewrite Nat2Z.id, take_ge by lia.
  split; [lia|]. split; [exact Hin|]. split; [exact R|]. split; [lia|]. lia.
Qed.
Next Obligation.
  intros gzio (Hs & Hfin & Hroom). destruct (room_bounds gzio 0) as [Hcap Hfuel]; [lia|].
  destruct (finish_loop_spec fuel gzio Hs) as (g2 & E & Hin & Hg); [lia|lia|]. exists g2.
  split; [exact E|]. split; [exact Hin|]. now rewrite Hin.
Qed.
End Spec.
