(* ===== verification/ElfReader.v ===== *)
(** * The streaming ELF core reader (src/plugins/coredump/core_elf_reader.c)

    The reader is a little state machine: [action] says what to do next.  It reads through
    [sTicosCoreElfReadIO], the class [ReadIO] on a type [R] of input devices, and reports to
    a handler, the classes [WarningHandler] and [ReaderHandler] on a type [T] of handler
    states.  [fuel] bounds the turns of one read loop. *)
From S2P Require Import Prelude Elf.

(** What read(2) gives: that many bytes, or -1. *)
Inductive read_result :=
| ReadBytes (bs : list Z)
| ReadError.

(** [io_read dev buffered size]: [buffered] is false when the buffer is NULL. *)
Class ReadIO (R : Type) := {
  io_read : R -> bool -> Z -> outcome (R * read_result);
  read_errno_is_EINTR : R -> bool }.

Inductive reader_warning :=
| WarnReadFailure
| WarnShortSegmentHeaders
| WarnNoMemory
| WarnShortSkip
| WarnShortElfHeader
| WarnNotACore
| WarnIgnoringData
| WarnSegmentTableOffset
| WarnNoteBuffer
| WarnNoteRead
| WarnNoteAdd
| WarnSegmentType (p_type : Z).

(** The action function pointers, [None] being NULL. *)
Inductive reader_action :=
| ReadElfHeader
| SkipToSegmentHeaders
| PrepareSegmentHeaders
| ReadSegmentHeaders
| ActionDone.

(** [r_segments]: whether the segment array is allocated, and its bytes. *)
Record sTicosCoreElfReader (R : Type) := MkReader {
  r_io : R;
  action : option reader_action;
  stream_pos : Z;
  elf_hdr : Elf_Ehdr;
  r_segments : option (list Z) }.
Arguments MkReader {R} _ _ _ _ _.
Arguments r_io {R} _.
Arguments action {R} _.
Arguments stream_pos {R} _.
Arguments elf_hdr {R} _.
Arguments r_segments {R} _.

(** The handler callbacks.  Only [handle_segments] may read on from the device. *)
Class WarningHandler (T : Type) := { handle_warning : T -> reader_warning -> outcome T }.
Class ReaderHandler (R T : Type) := {
  handle_elf_header : T -> Elf_Ehdr -> outcome T;
  handle_segments : sTicosCoreElfReader R -> T -> list Elf_Phdr -> outcome (sTicosCoreElfReader R * T);
  handle_done : T -> outcome T }.

Definition zero_ehdr : Elf_Ehdr := parse_ehdr (zeros 64).

(** [elf_buffer] is the buffer, [None] for NULL. *)
Definition ticos_core_elf_reader_is_valid_core_elf (elf_buffer : option (list Z)) (buffer_size : Z) : bool :=
  match elf_buffer with
  | None => false
  | Some bs =>
      if buffer_size <? sizeof_Ehdr then false
      else
        let h := parse_ehdr bs in
        match e_ident h with
        | i0 :: i1 :: i2 :: i3 :: i4 :: _ =>
            (i0 =? ELFMAG0) && (i1 =? ELFMAG1) && (i2 =? ELFMAG2) && (i3 =? ELFMAG3) && (i4 =? ELFCLASS) &&
            (e_version h =? EV_CURRENT) && (e_ehsize h =? sizeof_Ehdr) && (e_phentsize h =? sizeof_Phdr) &&
            (e_type h =? ET_CORE)
        | _ => false
        end
  end.

Section Reader.
Context {R T : Type} `{ReadIO R} `{WarningHandler T} (fuel : nat).
Implicit Type reader : sTicosCoreElfReader R.

Definition ticos_core_elf_reader_init (io : R) : sTicosCoreElfReader R := MkReader io None 0 zero_ehdr None.

Definition set_action reader (a : option reader_action) : sTicosCoreElfReader R :=
  MkReader (r_io reader) a (stream_pos reader) (elf_hdr reader) (r_segments reader).

Definition set_elf_hdr reader (h : Elf_Ehdr) : sTicosCoreElfReader R :=
  MkReader (r_io reader) (action reader) (stream_pos reader) h (r_segments reader).

Definition set_r_segments reader (s : option (list Z)) : sTicosCoreElfReader R :=
  MkReader (r_io reader) (action reader) (stream_pos reader) (elf_hdr reader) s.

(** The device moved on by [n] bytes. *)
Definition advance reader (io : R) (n : Z) : sTicosCoreElfReader R :=
  MkReader io (action reader) (u64 (stream_pos reader + n)) (elf_hdr reader) (r_segments reader).

(** The loop of [prv_read_all]; [acc] is what has been read. *)
Fixpoint read_loop (fuel : nat) reader (t : T) (buffered : bool) (size_remaining : Z) (acc : list Z)
    : outcome (sTicosCoreElfReader R * T * list Z) :=
  match fuel with
  | O => OutOfFuel
  | S fuel =>
      if size_remaining >? 0 then
        let! (io, r) := io_read (r_io reader) buffered size_remaining in
        match r with
        | ReadError =>
            if read_errno_is_EINTR io then read_loop fuel (advance reader io 0) t buffered size_remaining acc
            else let! t := handle_warning t WarnReadFailure in Val (advance reader io 0, t, acc)
        | ReadBytes bs =>
            let reader := advance reader io (zlen bs) in
            let acc := acc ++ bs in
            if zlen bs =? 0 then Val (reader, t, acc)
            else read_loop fuel reader t buffered (u64 (size_remaining - zlen bs)) acc
        end
      else Val (reader, t, acc)
  end.

(** The bytes read; the C function returns their number and leaves them in [buffer]. *)
Definition prv_read_all reader (t : T) (buffered : bool) (size : Z) : outcome (sTicosCoreElfReader R * T * list Z) :=
  if size =? 0 then Val (reader, t, []) else read_loop fuel reader t buffered size [].

Definition ticos_core_elf_reader_read_segment_data reader (t : T) (at_pos buffer_size : Z)
    : outcome (sTicosCoreElfReader R * T * list Z) :=
  match action reader with
  | Some ReadSegmentHeaders =>
      if at_pos <? stream_pos reader then Val (reader, t, [])
      else
        let skip_size := at_pos - stream_pos reader in
        let! (reader, t, read_size) :=
          (if skip_size >? 0 then
             let! (reader, t, bs) := prv_read_all reader t false skip_size in Val (reader, t, zlen bs)
           else Val (reader, t, 0)) in
        if (skip_size >? 0) && (read_size <? skip_size) then Val (reader, t, [])
        else prv_read_all reader t true buffer_size
  | _ => Fault  (* assert *)
  end.

Context `{ReaderHandler R T}.

(** [free] leaves the pointer in place. *)
Definition prv_action_done reader (t : T) : outcome (sTicosCoreElfReader R * T) :=
  let! t := handle_done (R := R) t in Val (set_action reader None, t).

Definition prv_action_read_segment_headers reader (t : T) : outcome (sTicosCoreElfReader R * T) :=
  let total_segments_size := e_phnum (elf_hdr reader) * sizeof_Phdr in
  let! (reader, t, bs) := prv_read_all reader t true total_segments_size in
  let! (reader, t) :=
    (if zlen bs =? total_segments_size
     then handle_segments reader t (parse_phdrs (Z.to_nat (e_phnum (elf_hdr reader))) bs)
     else let! t := handle_warning t WarnShortSegmentHeaders in Val (reader, t)) in
  Val (set_action reader (Some ActionDone), t).

Definition prv_action_prepare_segment_headers (malloc_ok : bool) reader (t : T) : outcome (sTicosCoreElfReader R * T) :=
  match r_segments reader with
  | Some _ => Fault  (* assert *)
  | None =>
      let total_segments_size := e_phnum (elf_hdr reader) * sizeof_Phdr in
      if total_segments_size >? 0 then
        if negb malloc_ok then
          let! t := handle_warning t WarnNoMemory in Val (set_action reader (Some ActionDone), t)
        else
          Val (set_action (set_r_segments reader (Some (zeros total_segments_size))) (Some ReadSegmentHeaders), t)
      else Val (set_action reader (Some ReadSegmentHeaders), t)
  end.

Definition prv_action_skip_to_segment_headers reader (t : T) : outcome (sTicosCoreElfReader R * T) :=
  if e_phoff (elf_hdr reader) <? stream_pos reader then Fault  (* assert *)
  else
    let skip_size := e_phoff (elf_hdr reader) - stream_pos reader in
    let! (reader, t, bs) := prv_read_all reader t false skip_size in
    if zlen bs <? skip_size then
      let! t := handle_warning t WarnShortSkip in Val (set_action reader (Some ActionDone), t)
    else Val (set_action reader (Some PrepareSegmentHeaders), t).

Definition prv_action_read_elf_header reader (t : T) : outcome (sTicosCoreElfReader R * T) :=
  let! (reader, t, bs) := prv_read_all reader t true sizeof_Ehdr in
  let reader := set_elf_hdr reader (parse_ehdr bs) in
  if zlen bs >? sizeof_Ehdr then Fault  (* assert *)
  else if zlen bs <? sizeof_Ehdr then
    let! t := handle_warning t WarnShortElfHeader in Val (set_action reader (Some ActionDone), t)
  else if negb (ticos_core_elf_reader_is_valid_core_elf (Some bs) sizeof_Ehdr) then
    let! t := handle_warning t WarnNotACore in Val (set_action reader (Some ActionDone), t)
  else
    let! t := handle_elf_header (R := R) t (elf_hdr reader) in
    if e_phoff (elf_hdr reader) =? stream_pos reader then
      Val (set_action reader (Some PrepareSegmentHeaders), t)
    else if e_phoff (elf_hdr reader) >? stream_pos reader then
      let! t := handle_warning t WarnIgnoringData in Val (set_action reader (Some SkipToSegmentHeaders), t)
    else
      let! t := handle_warning t WarnSegmentTableOffset in Val (set_action reader (Some ActionDone), t).

Definition run_action (malloc_ok : bool) (a : reader_action) reader (t : T) : outcome (sTicosCoreElfReader R * T) :=
  match a with
  | ReadElfHeader => prv_action_read_elf_header reader t
  | SkipToSegmentHeaders => prv_action_skip_to_segment_headers reader t
  | PrepareSegmentHeaders => prv_action_prepare_segment_headers malloc_ok reader t
  | ReadSegmentHeaders => prv_action_read_segment_headers reader t
  | ActionDone => prv_action_done reader t
  end.

(** [while (reader->action != NULL) reader->action(reader);] *)
Fixpoint run_actions (turns : nat) (malloc_ok : bool) reader (t : T) : outcome (sTicosCoreElfReader R * T) :=
  match action reader with
  | None => Val (reader, t)
  | Some a =>
      match turns with
      | O => OutOfFuel
      | S turns => let! (reader, t) := run_action malloc_ok a reader t in run_actions turns malloc_ok reader t
      end
  end.

(** Five turns are enough: every action moves on to a later one ([reader_returns]). *)
Definition ticos_core_elf_reader_read_all (malloc_ok : bool) reader (t : T) : outcome (sTicosCoreElfReader R * T * bool) :=
  match action reader with
  | Some _ => Val (reader, t, false)
  | None =>
      let! (reader, t) := run_actions 5 malloc_ok (set_action reader (Some ReadElfHeader)) t in Val (reader, t, true)
  end.

End Reader.

(** ** Reading from a descriptor (prv_fio_read) *)

(** An answer of read(2): at most that many bytes, or -1 with errno EINTR or another one. *)
Inductive os_read :=
| OsRead (n : Z)
| OsReadError (eintr : bool).

(** [fd_rest]: the bytes still to come; answers as for the write side. A NULL buffer is EFAULT
    (unless there is nothing left to copy). *)
Record sTicosCoreElfReadFileIO := MkReadFileIO {
  fd_rest : list Z;
  os_reads : list os_read;
  read_eintr : bool }.

Definition prv_fio_read (fio : sTicosCoreElfReadFileIO) (buffered : bool) (buffer_size : Z)
    : outcome (sTicosCoreElfReadFileIO * read_result) :=
  let give n rest :=
    let n := Z.min n (zlen (fd_rest fio)) in
    if negb buffered && (n >? 0) then Val (MkReadFileIO (fd_rest fio) rest false, ReadError)
    else Val (MkReadFileIO (drop (Z.to_nat n) (fd_rest fio)) rest (read_eintr fio),
              ReadBytes (take (Z.to_nat n) (fd_rest fio))) in
  match os_reads fio with
  | [] => give buffer_size []
  | OsRead n :: rest => give (Z.min (Z.max n 1) buffer_size) rest
  | OsReadError e :: rest => Val (MkReadFileIO (fd_rest fio) rest e, ReadError)
  end.

Definition ticos_core_elf_read_file_io_init (fd : list Z) (answers : list os_read) : sTicosCoreElfReadFileIO := MkReadFileIO fd answers false.

#[export] Instance read_file_io : ReadIO sTicosCoreElfReadFileIO := {
  io_read := prv_fio_read;
  read_errno_is_EINTR := read_eintr }.
