(* ===== verification/ElfReaderSpec.v ===== *)
(** * What the ELF reader reports

    The contract of an input device ([ReadIOSpec]: the semantics of read(2)) and the reader's
    theorems: on a core file the handler sees the header and the segment table that a
    reference parser finds, on anything else a warning, and the reader always comes to an
    end. *)
From S2P Require Import Prelude Elf ElfReader.

(** [rd_rest]: the bytes still to come.  [rd_credit]: bounds the interruptions.
    [rd_discards]: whether a NULL buffer is accepted. *)
Class ReadIOSpec (R : Type) `{ReadIO R} := {
  rd_ok : R -> Prop;
  rd_rest : R -> list Z;
  rd_credit : R -> nat;
  rd_discards : R -> bool;
  io_read_spec : forall s buffered n, rd_ok s -> 0 < n -> buffered || rd_discards s = true ->
    exists s' r, io_read s buffered n = Val (s', r) /\ rd_ok s' /\ rd_discards s' = rd_discards s /\
      match r with
      | ReadBytes bs => rd_rest s = bs ++ rd_rest s' /\ zlen bs <= n /\ (bs = [] -> rd_rest s = []) /\
                        (rd_credit s' <= rd_credit s)%nat
      | ReadError => read_errno_is_EINTR s' = true /\ rd_rest s' = rd_rest s /\ (rd_credit s' < rd_credit s)%nat
      end }.

Section Spec.
Context {R T : Type} `{ReadIOSpec R} `{WarningHandler T} (fuel : nat).
Implicit Type reader : sTicosCoreElfReader R.

(** The device is fine, and the fuel covers all it still holds. *)
Definition can_read reader : Prop :=
  rd_ok (r_io reader) /\ (length (rd_rest (r_io reader)) + rd_credit (r_io reader) + 1 < fuel)%nat.

(** [reader'] is [reader] after reading [bs]. *)
Definition moved reader reader' (bs : list Z) : Prop :=
  rd_ok (r_io reader') /\ rd_rest (r_io reader) = bs ++ rd_rest (r_io reader') /\
  rd_discards (r_io reader') = rd_discards (r_io reader) /\
  (rd_credit (r_io reader') <= rd_credit (r_io reader))%nat /\
  action reader' = action reader /\ elf_hdr reader' = elf_hdr reader /\ r_segments reader' = r_segments reader /\
  stream_pos reader' = u64 (stream_pos reader + zlen bs).

Lemma moved_can_read reader reader' bs : can_read reader -> moved reader reader' bs -> can_read reader'.
Proof.
  intros [_ Hf] (Hok & Hr & _ & Hc & _). split; [done|]. rewrite Hr, length_app in Hf. lia.
Qed.

Lemma moved_trans r1 r2 r3 b1 b2 : moved r1 r2 b1 -> moved r2 r3 b2 -> moved r1 r3 (b1 ++ b2).
Proof.
  intros (? & E1 & ? & ? & ? & ? & ? & P1) (? & E2 & ? & ? & ? & ? & ? & P2). unfold moved.
  rewrite E1, E2, app_assoc, P2, P1, u64_add, length_app. repeat split; try congruence; try lia. f_equal. lia.
Qed.

Lemma moved_advance reader io bs : rd_ok io -> rd_rest (r_io reader) = bs ++ rd_rest io ->
  rd_discards io = rd_discards (r_io reader) -> (rd_credit io <= rd_credit (r_io reader))%nat ->
  moved reader (advance reader io (zlen bs)) bs.
Proof. intros. unfold moved. cbn. done. Qed.

Lemma read_loop_spec f : forall reader (t : T) buffered size acc, rd_ok (r_io reader) ->
  (length (rd_rest (r_io reader)) + rd_credit (r_io reader) + 1 < f)%nat ->
  buffered || rd_discards (r_io reader) = true -> 0 <= size < 2 ^ 64 -> 0 <= stream_pos reader < 2 ^ 64 ->
  exists reader' bs, read_loop f reader t buffered size acc = Val (reader', t, acc ++ bs) /\
    bs = take (Z.to_nat size) (rd_rest (r_io reader)) /\ moved reader reader' bs.
Proof.
  induction f as [|f IH]; intros reader t buffered size acc Hok Hf Hb Hs Hp; [lia|]. cbn [read_loop].
  destruct (Z.gtb_spec size 0) as [Hpos|Hz].
  2:{ replace size with 0 by lia. exists reader, []. rewrite app_nil_r. split; [done|]. split; [done|].
      unfold moved. cbn [app length]. rewrite Z.add_0_r, u64_small by lia. done. }
  destruct (io_read_spec (r_io reader) buffered size Hok Hpos Hb) as (io & r & -> & Hok1 & Hd1 & Hr). cbn [obind].
  destruct r as [bs|].
  - destruct Hr as (Er & Hl & Hn & Hc). pose proof (moved_advance reader io bs Hok1 Er Hd1 Hc) as M.
    destruct (Z.eqb_spec (zlen bs) 0) as [E0|E0].
    + destruct bs; [|cbn in E0; lia]. exists (advance reader io 0), []. rewrite app_nil_r, Hn by done.
      rewrite take_nil. done.
    + rewrite u64_small by lia. rewrite Er, length_app in Hf.
      destruct (IH (advance reader io (zlen bs)) t buffered (size - zlen bs) (acc ++ bs)) as (r' & bs' & -> & E' & M').
      * done.
      * cbn. lia.
      * cbn. now rewrite Hd1.
      * lia.
      * cbn. apply Z.mod_pos_bound. lia.
      * exists r', (bs ++ bs'). rewrite <- app_assoc. split; [done|]. split; [|eapply moved_trans; eassumption].
        rewrite E', Er. cbn. rewrite take_app_ge by lia. do 2 f_equal. lia.
  - destruct Hr as (He & Er & Hc). rewrite He.
    pose proof (moved_advance reader io [] Hok1 (eq_sym Er) Hd1 ltac:(lia)) as M.
    destruct (IH (advance reader io 0) t buffered size acc) as (r' & bs' & -> & E' & M').
    + done.
    + cbn. rewrite Er. lia.
    + cbn. now rewrite Hd1.
    + done.
    + cbn. apply Z.mod_pos_bound. lia.
    + exists r', bs'. split; [done|]. split; [rewrite E'; cbn; now rewrite Er|].
      apply (moved_trans _ _ _ [] bs' M M').
Qed.

Lemma read_all_spec reader (t : T) buffered size : can_read reader -> buffered || rd_discards (r_io reader) = true ->
  0 <= size < 2 ^ 64 -> 0 <= stream_pos reader < 2 ^ 64 ->
  exists reader' bs, prv_read_all fuel reader t buffered size = Val (reader', t, bs) /\
    bs = take (Z.to_nat size) (rd_rest (r_io reader)) /\ moved reader reader' bs.
Proof.
  intros [Hok Hf] Hb Hs Hp. unfold prv_read_all. destruct (Z.eqb_spec size 0) as [-> |E].
  - exists reader, []. split; [done|]. split; [done|]. unfold moved. cbn [app length].
    rewrite Z.add_0_r, u64_small by lia. done.
  - apply (read_loop_spec fuel reader t buffered size []); auto.
Qed.

(** Data of a segment read in the [handle_segments] callback: the bytes of the file from [at_pos]
    on, if the stream has not passed it yet. *)
Lemma read_segment_data_spec reader (t : T) at_pos n file : can_read reader -> action reader = Some ReadSegmentHeaders ->
  0 <= n < 2 ^ 64 -> stream_pos reader <= at_pos < 2 ^ 63 -> 0 <= stream_pos reader -> zlen file < 2 ^ 63 ->
  at_pos + n <= zlen file ->
  (at_pos = stream_pos reader \/ rd_discards (r_io reader) = true) ->
  rd_rest (r_io reader) = drop (Z.to_nat (stream_pos reader)) file ->
  exists reader' skipped bs, ticos_core_elf_reader_read_segment_data fuel reader t at_pos n = Val (reader', t, bs) /\
    load file at_pos n = Val bs /\ moved reader reader' (skipped ++ bs) /\ stream_pos reader' = at_pos + n /\
    rd_rest (r_io reader') = drop (Z.to_nat (at_pos + n)) file.
Proof.
  intros Hc Ha Hn Hat Hp Hlf Hend Hskip Hr. unfold ticos_core_elf_reader_read_segment_data. rewrite Ha.
  test_false (at_pos <? stream_pos reader). cbv zeta. set (skip := at_pos - stream_pos reader).
  assert (K : exists r1 skipped, (if skip >? 0 then let! (r, t, bs) := prv_read_all fuel reader t false skip in Val (r, t, zlen bs)
      else Val (reader, t, 0)) = Val (r1, t, skip) /\ moved reader r1 skipped /\ zlen skipped = skip /\
      skipped = take (Z.to_nat skip) (rd_rest (r_io reader))).
  { destruct (Z.gtb_spec skip 0) as [Hs|Hs].
    - destruct (read_all_spec reader t false skip) as (r1 & bs & -> & E & M); [done| |lia|lia|].
      { cbn. destruct Hskip as [?|?]; [lia|done]. }
      assert (zlen bs = skip) by (rewrite E, length_take, Hr, length_drop; lia).
      exists r1, bs. cbn [obind]. now rewrite H2.
    - exists reader, []. replace skip with 0 by lia. split; [done|]. split; [|done].
      destruct Hc. unfold moved. cbn [app length]. rewrite Z.add_0_r, u64_small by lia. done. }
  destruct K as (r1 & skipped & -> & M1 & L1 & E1). cbn [obind].
  test_false ((skip >? 0) && (skip <? skip)).
  pose proof M1 as (_ & Er1 & _ & _ & _ & _ & _ & P1). rewrite u64_small, L1 in P1 by lia.
  assert (Hr1 : rd_rest (r_io r1) = drop (Z.to_nat at_pos) file).
  { assert (D : drop (length skipped) (rd_rest (r_io reader)) = rd_rest (r_io r1)) by now rewrite Er1, drop_app_length.
    rewrite <- D, Hr, drop_drop. f_equal. lia. }
  destruct (read_all_spec r1 t true n) as (r2 & bs & -> & E2 & M2); [eapply moved_can_read; eassumption|done|lia|lia|].
  assert (Lb : load file at_pos n = Val bs).
  { unfold load. test_true ((0 <=? at_pos) && (0 <=? n) && (at_pos + n <=? zlen file)). now rewrite E2, Hr1. }
  exists r2, skipped, bs. split; [done|]. split; [done|]. split; [eapply moved_trans; eassumption|].
  apply load_val in Lb as [_ Lb]. destruct M2 as (_ & Er2 & _ & _ & _ & _ & _ & P2).
  split; [rewrite P2, u64_small by lia; lia|].
  assert (D : drop (length bs) (rd_rest (r_io r1)) = rd_rest (r_io r2)) by now rewrite Er2, drop_app_length.
  rewrite <- D, Hr1, drop_drop. f_equal. lia.
Qed.
(** ** A whole run *)
Context `{ReaderHandler R T}.

(** The headers [ticos_core_elf_reader_is_valid_core_elf] accepts. *)
Definition core_ehdr (h : Elf_Ehdr) : Prop :=
  ehdr_ok h /\ take 5 (e_ident h) = [ELFMAG0; ELFMAG1; ELFMAG2; ELFMAG3; ELFCLASS] /\ e_version h = EV_CURRENT /\
  e_ehsize h = sizeof_Ehdr /\ e_phentsize h = sizeof_Phdr /\ e_type h = ET_CORE.

Lemma valid_core_elf h : core_ehdr h -> ticos_core_elf_reader_is_valid_core_elf (Some (ehdr_bytes h)) sizeof_Ehdr = true.
Proof.
  intros (Hok & Hi & Hv & He & Hp & Ht). unfold ticos_core_elf_reader_is_valid_core_elf, sizeof_Ehdr.
  change (64 <? 64) with false. cbn iota zeta. rewrite <- (app_nil_r (ehdr_bytes h)), parse_ehdr_bytes by done.
  destruct (e_ident h) as [|i0 [|i1 [|i2 [|i3 [|i4 l]]]]]; try discriminate. injection Hi as -> -> -> -> ->.
  rewrite Hv, He, Hp, Ht. reflexivity.
Qed.

(** After the file header: where the run stands when it has been accepted. *)
Lemma read_elf_header_valid reader (t : T) h rest : can_read reader -> stream_pos reader = 0 ->
  core_ehdr h -> rd_rest (r_io reader) = ehdr_bytes h ++ rest ->
  exists reader', moved reader reader' (ehdr_bytes h) /\
    prv_action_read_elf_header fuel reader t =
      let! t := handle_elf_header (R := R) t h in
      let reader := set_elf_hdr reader' h in
      if e_phoff h =? 64 then Val (set_action reader (Some PrepareSegmentHeaders), t)
      else if e_phoff h >? 64 then
        let! t := handle_warning t WarnIgnoringData in Val (set_action reader (Some SkipToSegmentHeaders), t)
      else
        let! t := handle_warning t WarnSegmentTableOffset in Val (set_action reader (Some ActionDone), t).
Proof.
  intros Hc Hp Hh Hr. pose proof (ehdr_bytes_length h (proj1 Hh)) as Lh.
  destruct (read_all_spec reader t true sizeof_Ehdr) as (r1 & bs & E & Eb & M); [done|done|done|lia|].
  unfold sizeof_Ehdr in *. rewrite Hr, take_app_le, take_ge in Eb by lia. subst bs.
  exists r1. split; [done|]. unfold prv_action_read_elf_header, sizeof_Ehdr. rewrite E. cbn [obind].
  rewrite Lh. test_false (Z.of_nat 64 >? 64). test_false (Z.of_nat 64 <? 64).
  pose proof (valid_core_elf h Hh) as V. unfold sizeof_Ehdr in V. rewrite V. cbn [negb].
  assert (Ep : parse_ehdr (ehdr_bytes h) = h) by (rewrite <- (app_nil_r (ehdr_bytes h)); apply parse_ehdr_bytes, Hh).
  rewrite Ep. cbn [elf_hdr set_elf_hdr]. destruct M as (_ & _ & _ & _ & _ & _ & _ & P).
  unfold set_elf_hdr. cbn [stream_pos]. rewrite P, Hp, Lh. reflexivity.
Qed.

(** The table: reading all of it calls [handle_segments]. *)
Lemma read_segment_headers_valid reader (t : T) hs rest : can_read reader -> 0 <= stream_pos reader < 2 ^ 63 ->
  Forall phdr_ok hs -> zlen hs < 2 ^ 16 -> e_phnum (elf_hdr reader) = zlen hs ->
  rd_rest (r_io reader) = phdrs_bytes hs ++ rest ->
  exists reader', moved reader reader' (phdrs_bytes hs) /\
    prv_action_read_segment_headers fuel reader t =
      let! (reader, t) := handle_segments reader' t hs in Val (set_action reader (Some ActionDone), t).
Proof.
  intros Hc Hp Hhs Hn Hnum Hr. pose proof (phdrs_bytes_length hs) as Lp.
  destruct (read_all_spec reader t true (zlen hs * sizeof_Phdr)) as (r' & bs & E & Eb & M);
    [done|done|unfold sizeof_Phdr; lia|lia|].
  unfold sizeof_Phdr in *. rewrite Hr in Eb. replace (Z.to_nat (zlen hs * 56)) with (length (phdrs_bytes hs)) in Eb by lia.
  rewrite take_app_length in Eb. subst bs. exists r'. split; [done|].
  unfold prv_action_read_segment_headers, sizeof_Phdr. rewrite Hnum, E. cbn [obind].
  test_true (zlen (phdrs_bytes hs) =? zlen hs * 56). destruct M as (_ & _ & _ & _ & _ & Eh & _). rewrite Eh, Hnum, Nat2Z.id.
  pose proof (parse_phdrs_bytes hs [] Hhs) as Ph. rewrite app_nil_r in Ph. now rewrite Ph.
Qed.

(** on a core file whose segment table follows its header, the reader calls the handler with
    exactly that header, then with exactly the segment headers of the table, the stream
    standing behind it, and then reports the end. *)
Theorem reader_reads_core io (t t1 : T) h hs rest : rd_ok io ->
  (length (rd_rest io) + rd_credit io + 1 < fuel)%nat ->
  core_ehdr h -> Forall phdr_ok hs -> e_phoff h = 64 -> e_phnum h = zlen hs ->
  rd_rest io = ehdr_bytes h ++ phdrs_bytes hs ++ rest -> handle_elf_header (R := R) t h = Val t1 ->
  exists reader, can_read reader /\ action reader = Some ReadSegmentHeaders /\
    stream_pos reader = 64 + 56 * zlen hs /\ rd_rest (r_io reader) = rest /\
    rd_discards (r_io reader) = rd_discards io /\
    ticos_core_elf_reader_read_all fuel true (ticos_core_elf_reader_init io) t =
      let! (reader, t) := handle_segments reader t1 hs in
      let! t := handle_done (R := R) t in
      Val (set_action reader None, t, true).
Proof.
  intros Hok Hf Hh Hhs Hoff Hnum Hrest Ht1. set (r0 := set_action (ticos_core_elf_reader_init io) (Some ReadElfHeader)).
  pose proof (phdrs_bytes_length hs) as Lp. assert (Hn : zlen hs < 2 ^ 16) by (destruct Hh as [Hh _]; unfold ehdr_ok in Hh; lia).
  destruct (read_elf_header_valid r0 t h (phdrs_bytes hs ++ rest)) as (r1 & M1 & E1); [done|done|done|done|].
  pose proof (moved_can_read r0 r1 _ (conj Hok Hf) M1) as C1. pose proof M1 as (_ & Er1 & Ed1 & _ & _ & _ & Es1 & P1).
  pose proof (ehdr_bytes_length h (proj1 Hh)) as Lh. rewrite Lh in P1. cbn in P1, Er1, Ed1, Es1.
  change (u64 (0 + 64)) with 64 in P1. rewrite Hrest in Er1. apply app_inv_head in Er1.
  set (r2 := set_action (if zlen hs * 56 >? 0 then set_r_segments (set_action (set_elf_hdr r1 h) (Some PrepareSegmentHeaders)) (Some (zeros (zlen hs * 56)))
             else set_action (set_elf_hdr r1 h) (Some PrepareSegmentHeaders)) (Some ReadSegmentHeaders)).
  assert (Q : r_io r2 = r_io r1 /\ stream_pos r2 = 64 /\ elf_hdr r2 = h /\ action r2 = Some ReadSegmentHeaders)
    by (unfold r2; case_test; done).
  destruct Q as (Q1 & Q2 & Q3 & Q4).
  destruct (read_segment_headers_valid r2 t1 hs rest) as (r3 & M3 & E3).
  { unfold can_read. now rewrite Q1. } { lia. } { done. } { done. } { now rewrite Q3. } { now rewrite Q1. }
  pose proof M3 as (_ & Er3 & Ed3 & _ & Ea3 & _ & _ & P3).
  exists r3. split; [apply (moved_can_read r2 r3 (phdrs_bytes hs)); [unfold can_read; now rewrite Q1|done]|].
  split; [congruence|]. split; [rewrite P3, Q2, u64_small by lia; lia|].
  split; [rewrite Q1, <- Er1 in Er3; now apply app_inv_head in Er3|]. split; [congruence|].
  unfold ticos_core_elf_reader_read_all. cbn [action ticos_core_elf_reader_init]. fold r0.
  cbn [run_actions]. change (action r0) with (Some ReadElfHeader). cbn [run_action]. rewrite E1, Ht1. cbn [obind].
  rewrite Hoff. cbn [Z.eqb Pos.eqb obind action set_action run_action].
  unfold prv_action_prepare_segment_headers. cbn [r_segments set_action set_elf_hdr elf_hdr]. rewrite Es1, Hnum.
  unfold sizeof_Phdr. match goal with |- context [if zlen hs * 56 >? 0 then ?a else ?b] =>
    replace (if zlen hs * 56 >? 0 then a else b) with (@Val (sTicosCoreElfReader R * T) (r2, t1))
      by (unfold r2; destruct (zlen hs * 56 >? 0); reflexivity) end.
  cbn [obind]. rewrite Q4. cbn [run_action]. rewrite E3.
  destruct (handle_segments r3 t1 hs) as [[r4 t4]| |]; cbn [obind action set_action run_action]; [|done|done].
  unfold prv_action_done. destruct (handle_done t4) as [t5| |]; done.
Qed.

(** an input that is too short for an ELF header, or whose first 64 bytes are not the header of
    a core file, is reported by one warning and the end; no segment reaches the handler. *)
Theorem reader_rejects io (t : T) malloc_ok : rd_ok io ->
  (length (rd_rest io) + rd_credit io + 1 < fuel)%nat ->
  let first := take 64 (rd_rest io) in
  zlen first < 64 \/ ticos_core_elf_reader_is_valid_core_elf (Some first) 64 = false ->
  exists reader, ticos_core_elf_reader_read_all fuel malloc_ok (ticos_core_elf_reader_init io) t =
    let! t := handle_warning t (if zlen first <? 64 then WarnShortElfHeader else WarnNotACore) in
    let! t := handle_done (R := R) t in
    Val (reader, t, true).
Proof.
  intros Hok Hf first Hbad. set (r0 := set_action (ticos_core_elf_reader_init io) (Some ReadElfHeader)).
  destruct (read_all_spec r0 t true 64) as (r1 & bs & E & Eb & M); [done|done|lia|cbn; lia|].
  change (Z.to_nat 64) with 64%nat in Eb. change (rd_rest (r_io r0)) with (rd_rest io) in Eb. fold first in Eb. subst bs.
  assert (Lf : zlen first <= 64) by (unfold first; rewrite length_take; lia).
  exists (set_action (set_action (set_elf_hdr r1 (parse_ehdr first)) (Some ActionDone)) None).
  unfold ticos_core_elf_reader_read_all. cbn [action ticos_core_elf_reader_init]. fold r0.
  cbn [run_actions]. change (action r0) with (Some ReadElfHeader). cbn [run_action].
  unfold prv_action_read_elf_header, sizeof_Ehdr. rewrite E. cbn [obind].
  test_false (zlen first >? 64). destruct (Z.ltb_spec (zlen first) 64) as [Hlt|Hge].
  - destruct (handle_warning t WarnShortElfHeader) as [t1| |]; cbn [obind action set_action run_action]; [|done|done].
    unfold prv_action_done. destruct (handle_done t1) as [t2| |]; done.
  - destruct Hbad as [Hbad|Hbad]; [lia|]. rewrite Hbad. cbn [negb].
    destruct (handle_warning t WarnNotACore) as [t1| |]; cbn [obind action set_action run_action]; [|done|done].
    unfold prv_action_done. destruct (handle_done t1) as [t2| |]; done.
Qed.

(** ** Termination *)
Definition handlers_return : Prop :=
  (forall (t : T) w, defined (handle_warning t w)) /\ (forall t h, defined (handle_elf_header (R := R) t h)) /\
  (forall (r : sTicosCoreElfReader R) t hs, defined (handle_segments r t hs)) /\ (forall t, defined (handle_done (R := R) t)).

(** Between two actions, before the segments have been handed out. *)
Definition reading reader : Prop :=
  can_read reader /\ rd_discards (r_io reader) = true /\ 0 <= stream_pos reader < 2 ^ 64 /\
  bytes_ok (rd_rest (r_io reader)) /\ 0 <= e_phnum (elf_hdr reader) < 2 ^ 16 /\ e_phoff (elf_hdr reader) < 2 ^ 64.

Lemma reading_moved reader reader' bs : reading reader -> moved reader reader' bs -> reading reader'.
Proof.
  intros (Hc & Hd & Hp & Hb & Hn) M. pose proof (moved_can_read _ _ _ Hc M) as Hc'.
  destruct M as (_ & Er & Ed & _ & _ & Eh & _ & P). rewrite Er in Hb. apply Forall_app in Hb as [_ Hb].
  unfold reading. rewrite Eh, Ed, P. repeat split; try done; try apply Hn; try apply Hc'; apply Z.mod_pos_bound; lia.
Qed.

Lemma reading_set_action reader a : reading reader -> reading (set_action reader a).
Proof. done. Qed.

Lemma field_bound bs off n : bytes_ok bs -> 0 <= field bs off n < 256 ^ Z.of_nat n.
Proof.
  intros Hb. unfold field. pose proof (le_val_bound (take n (drop off bs))) as B.
  specialize (B ltac:(now apply Forall_take, Forall_drop)).
  assert (256 ^ zlen (take n (drop off bs)) <= 256 ^ Z.of_nat n)
    by (apply Z.pow_le_mono_r; [lia|rewrite length_take; lia]). lia.
Qed.

(** The number of actions left at most, counting the present one. *)
Definition actions_left (a : reader_action) : nat :=
  match a with
  | ReadElfHeader => 5
  | SkipToSegmentHeaders => 4
  | PrepareSegmentHeaders => 3
  | ReadSegmentHeaders => 2
  | ActionDone => 1
  end.

(** A run-time state from which [run_actions] has at most [n] turns to go. *)
Definition on_track (n : nat) reader : Prop :=
  match action reader with
  | None => True
  | Some a => (actions_left a <= n)%nat /\ (a = ActionDone \/ reading reader) /\
              (a = ReadElfHeader \/ a = SkipToSegmentHeaders \/ a = PrepareSegmentHeaders -> r_segments reader = None) /\
              (a = SkipToSegmentHeaders -> stream_pos reader <= e_phoff (elf_hdr reader))
  end.

Lemma on_track_done n reader : (1 <= n)%nat -> on_track n (set_action reader (Some ActionDone)).
Proof. intros. split; [done|]. split; [now left|]. split; [intros [?|[?|?]]; discriminate|discriminate]. Qed.

Lemma on_track_headers n reader a : a = PrepareSegmentHeaders \/ a = ReadSegmentHeaders -> (actions_left a <= n)%nat ->
  reading reader -> (a = PrepareSegmentHeaders -> r_segments reader = None) -> on_track n (set_action reader (Some a)).
Proof.
  intros Ha Hn Hr Hs. split; [done|]. split; [now right|]. split.
  - intros H3. apply Hs. naive_solver.
  - intros ->. destruct Ha; discriminate.
Qed.

Ltac returns H := let x := fresh in let E := fresh in destruct H as [x E]; rewrite E; cbn [obind]; clear E.

(** The first action, the one with the most ways on. *)
Lemma read_elf_header_on_track n reader t : handlers_return -> (4 <= n)%nat -> reading reader -> r_segments reader = None ->
  exists reader' t', prv_action_read_elf_header fuel reader t = Val (reader', t') /\ on_track n reader'.
Proof.
  intros (Hw & He & _ & _) Hn Hr Hs.
  pose proof Hr as (Hc & Hdis & Hp & Hb & _).
  destruct (read_all_spec reader t true sizeof_Ehdr) as (r1 & bs & E & Eb & M); [done|done|done|done|].
  pose proof (reading_moved _ _ _ Hr M) as Hr1. destruct M as (_ & _ & _ & _ & _ & _ & Es & _).
  unfold prv_action_read_elf_header. rewrite E. cbn [obind].
  assert (Hbb : bytes_ok bs) by (rewrite Eb; now apply Forall_take).
  assert (Hr2 : reading (set_elf_hdr r1 (parse_ehdr bs))).
  { destruct Hr1 as (Hc1 & Hd1 & Hp1 & Hb1 & _). split; [done|]. split; [done|]. split; [done|]. split; [done|].
    split; [exact (field_bound bs 56 2 Hbb)|exact (proj2 (field_bound bs 32 8 Hbb))]. }
  assert (Ls : zlen bs <= sizeof_Ehdr) by (rewrite Eb, length_take; unfold sizeof_Ehdr; lia).
  test_false (zlen bs >? sizeof_Ehdr). case_test; [returns (Hw t WarnShortElfHeader)|].
  { eexists _, _. split; [done|]. apply on_track_done. lia. }
  case_test; [returns (Hw t WarnNotACore)|].
  { eexists _, _. split; [done|]. apply on_track_done. lia. }
  returns (He t (elf_hdr (set_elf_hdr r1 (parse_ehdr bs)))).
  rewrite <- Es in Hs.
  case_test; [|case_test; [returns (Hw H3 WarnIgnoringData)|returns (Hw H3 WarnSegmentTableOffset)]];
    eexists _, _; (split; [done|]).
  - apply on_track_headers; auto. cbn; lia.
  - tests_to_props. split; [cbn; lia|]. split; [now right|]. split; [done|]. intros _. cbn in *; lia.
  - apply on_track_done. lia.
Qed.

Lemma run_action_on_track malloc_ok n a reader t : handlers_return -> on_track (S n) reader ->
  action reader = Some a -> exists reader' t', run_action fuel malloc_ok a reader t = Val (reader', t') /\ on_track n reader'.
Proof.
  intros (Hw & He & Hsg & Hd) Ht Ha. unfold on_track in Ht. rewrite Ha in Ht. destruct Ht as (Hn & Hr & Hs & Hk).
  destruct a; cbn [run_action actions_left] in *.
  - destruct Hr as [|Hr]; [done|]. apply read_elf_header_on_track; [done|lia|done|auto].
  - (* SkipToSegmentHeaders *)
    destruct Hr as [|Hr]; [done|]. pose proof Hr as (Hc & Hdis & Hp & Hb & _ & Ho). specialize (Hk eq_refl).
    unfold prv_action_skip_to_segment_headers. test_false (e_phoff (elf_hdr reader) <? stream_pos reader).
    destruct (read_all_spec reader t false (e_phoff (elf_hdr reader) - stream_pos reader)) as (r1 & bs & E & Eb & M);
      [done|by rewrite Hdis|lia|done|].
    pose proof (reading_moved _ _ _ Hr M) as Hr1. destruct M as (_ & _ & _ & _ & _ & _ & Es & _). rewrite E. cbn [obind].
    specialize (Hs (or_intror (or_introl eq_refl))). rewrite <- Es in Hs.
    case_test; [returns (Hw t WarnShortSkip)|]; eexists _, _; (split; [done|]); [apply on_track_done; lia|].
    apply on_track_headers; auto. cbn; lia.
  - (* PrepareSegmentHeaders *)
    destruct Hr as [|Hr]; [done|]. specialize (Hs (or_intror (or_intror eq_refl))).
    unfold prv_action_prepare_segment_headers. rewrite Hs.
    case_test; [case_test; [returns (Hw t WarnNoMemory)|]|]; eexists _, _; (split; [done|]);
      [apply on_track_done; lia|..]; (apply on_track_headers; [auto|cbn; lia|done|discriminate]).
  - (* ReadSegmentHeaders *)
    destruct Hr as [|Hr]; [done|]. pose proof Hr as (Hc & Hdis & Hp & Hb & Hnum & _).
    unfold prv_action_read_segment_headers.
    destruct (read_all_spec reader t true (e_phnum (elf_hdr reader) * sizeof_Phdr)) as (r1 & bs & -> & Eb & M);
      [done|done|unfold sizeof_Phdr; lia|done|]. cbn [obind].
    case_test; [destruct (Hsg r1 t (parse_phdrs (Z.to_nat (e_phnum (elf_hdr r1))) bs)) as [[r2 t2] ->]|returns (Hw t WarnShortSegmentHeaders)];
      cbn [obind]; eexists _, _; (split; [done|]); apply on_track_done; lia.
  - (* ActionDone *)
    unfold prv_action_done. returns (Hd t). eexists _, _. split; [done|]. done.
Qed.

Lemma run_actions_return malloc_ok n : forall reader t, handlers_return -> on_track n reader ->
  defined (run_actions fuel n malloc_ok reader t).
Proof.
  induction n as [|n IH]; intros reader t Hh Ht; cbn [run_actions]; destruct (action reader) as [a|] eqn:Ea; try (eexists; reflexivity).
  - unfold on_track in Ht. rewrite Ea in Ht. destruct a; cbn in Ht; lia.
  - destruct (run_action_on_track malloc_ok n a reader t Hh Ht Ea) as (r1 & t1 & -> & Ht1). cbn [obind]. auto.
Qed.

End Spec.
