(* ===== verification/ElfReaderFile.v ===== *)
(** * Reading a core from a descriptor

    [prv_fio_read] fulfils the contract of [ElfReaderSpec] for reads into a buffer; it cannot
    discard, because read(2) fails with EFAULT on a NULL buffer, and so the reader's attempt to
    skip ahead in the stream always fails.  A handler that records its calls serves for
    examples. *)
From S2P Require Import Prelude Elf ElfReader ElfReaderSpec.

Definition interrupted_only (a : os_read) : Prop := match a with OsRead _ => True | OsReadError e => e = true end.

#[export] Program Instance read_file_io_spec : ReadIOSpec sTicosCoreElfReadFileIO := {
  rd_ok := fun fio => Forall interrupted_only (os_reads fio);
  rd_rest := fd_rest;
  rd_credit := fun fio => length (os_reads fio);
  rd_discards := fun _ => false }.
Next Obligation.
  intros [rest reads e] buffered n Hok Hn Hb. rewrite orb_false_r in Hb. subst buffered. cbn in *.
  assert (G : forall k l, 0 < k <= n -> Forall interrupted_only l -> (length l <= length reads)%nat -> exists s' r,
    Val (MkReadFileIO (drop (Z.to_nat (Z.min k (zlen rest))) rest) l e, ReadBytes (take (Z.to_nat (Z.min k (zlen rest))) rest)) = Val (s', r) /\
    Forall interrupted_only (os_reads s') /\ false = false /\
    match r with
    | ReadBytes bs => rest = bs ++ fd_rest s' /\ zlen bs <= n /\ (bs = [] -> rest = []) /\ (length (os_reads s') <= length reads)%nat
    | ReadError => read_eintr s' = true /\ fd_rest s' = rest /\ (length (os_reads s') < length reads)%nat
    end).
  { intros k l Hk Hl Hlen. eexists _, _. split; [done|]. split; [done|]. split; [done|]. cbn. rewrite take_drop.
    split; [done|]. split; [rewrite length_take; lia|]. split; [|done]. intros E. apply (f_equal length) in E.
    rewrite length_take in E. cbn in E. destruct rest; [done|]. cbn [length] in E. lia. }
  unfold prv_fio_read. cbn. destruct reads as [|[k|e'] l]; cbn.
  - apply G; [lia|constructor|done].
  - apply Forall_cons_1 in Hok as [_ Hok]. apply G; [lia|done|cbn; lia].
  - apply Forall_cons_1 in Hok as [-> Hok]. eexists _, _. split; [done|]. cbn. repeat split; try done. lia.
Qed.

(** ** A recording handler *)
Inductive event :=
| EvHeader (h : Elf_Ehdr)
| EvSegments (hs : list Elf_Phdr)
| EvWarning (w : reader_warning)
| EvDone.

#[export] Instance record_warning : WarningHandler (list event) := {
  handle_warning := fun t w => Val (t ++ [EvWarning w]) }.
#[export] Instance record_events {R} : ReaderHandler R (list event) := {
  handle_elf_header := fun t h => Val (t ++ [EvHeader h]);
  handle_segments := fun r t hs => Val (r, t ++ [EvSegments hs]);
  handle_done := fun t => Val (t ++ [EvDone]) }.

(** The events of reading a file. *)
Definition read_events (file : list Z) (reads : list os_read) : outcome (list event) :=
  let! (_, t, _) := ticos_core_elf_reader_read_all 2000 true (ticos_core_elf_reader_init (MkReadFileIO file reads false)) [] in
  Val t.

(** ** Skipping *)
Section Skip.
Context {T : Type} `{WarningHandler T} `{ReaderHandler sTicosCoreElfReadFileIO T}.

(** when the segment table does not directly follow the header, the reader means to skip the
    data in between; over a descriptor it reads into NULL, which fails, and the core is given
    up although it is valid: the handler never sees its segments. *)
Theorem descriptor_cannot_skip fuel malloc_ok (t t1 : T) h rest : (length (ehdr_bytes h ++ rest) + 1 < fuel)%nat ->
  core_ehdr h -> 64 < e_phoff h -> rest <> [] -> handle_elf_header (R := sTicosCoreElfReadFileIO) t h = Val t1 ->
  exists reader, ticos_core_elf_reader_read_all fuel malloc_ok
      (ticos_core_elf_reader_init (MkReadFileIO (ehdr_bytes h ++ rest) [] false)) t =
    let! t := handle_warning t1 WarnIgnoringData in
    let! t := handle_warning t WarnReadFailure in
    let! t := handle_warning t WarnShortSkip in
    let! t := handle_done (R := sTicosCoreElfReadFileIO) t in
    Val (reader, t, true).
Proof.
  intros Hf Hh Hoff Hne Ht1. pose proof (ehdr_bytes_length h (proj1 Hh)) as Lh.
  assert (Lr : 0 < zlen rest) by (destruct rest; [done|cbn; lia]).
  set (io := MkReadFileIO (ehdr_bytes h ++ rest) [] false).
  set (r0 := set_action (ticos_core_elf_reader_init io) (Some ReadElfHeader)).
  destruct (read_elf_header_valid fuel r0 t h rest) as (r1 & (_ & Er & _ & Hcr & _ & _ & _ & P1) & E1); [|done|done|done|].
  { split; [constructor|]. cbn [r0 r_io set_action ticos_core_elf_reader_init rd_rest read_file_io_spec fd_rest io rd_credit os_reads length]. lia. }
  cbn in Hcr, Er. apply app_inv_head in Er. cbn in P1. rewrite Lh in P1. change (u64 (0 + Z.of_nat 64)) with 64 in P1.
  assert (Eio : exists e, r_io r1 = MkReadFileIO rest [] e).
  { destruct (r_io r1) as [rest' [|? ?] e]; cbn in *; [|lia]. exists e. now subst. }
  destruct Eio as [e Eio]. destruct fuel as [|fuel]; [lia|].
  set (r2 := set_action (set_elf_hdr r1 h) (Some SkipToSegmentHeaders)) in *.
  set (r3 := advance r2 (MkReadFileIO rest [] false) 0).
  assert (E2 : forall t : T, prv_read_all (S fuel) r2 t false (e_phoff h - 64) =
    let! t := handle_warning t WarnReadFailure in Val (r3, t, [])).
  { intros t'. unfold prv_read_all. test_false (e_phoff h - 64 =? 0). cbn [read_loop]. test_true (e_phoff h - 64 >? 0).
    change (r_io r2) with (r_io r1). rewrite Eio. cbn [io_read read_file_io]. unfold prv_fio_read. cbn [os_reads fd_rest].
    cbn [negb andb]. test_true (Z.min (e_phoff h - 64) (zlen rest) >? 0). reflexivity. }
  exists (set_action (set_action r3 (Some ActionDone)) None).
  unfold ticos_core_elf_reader_read_all. cbn [action ticos_core_elf_reader_init]. fold io r0.
  cbn [run_actions]. change (action r0) with (Some ReadElfHeader). cbn [run_action]. rewrite E1, Ht1. cbn [obind].
  test_false (e_phoff h =? 64). test_true (e_phoff h >? 64).
  destruct (handle_warning t1 WarnIgnoringData) as [t2| |]; cbn [obind]; [|done|done].
  fold r2. change (action r2) with (Some SkipToSegmentHeaders). cbn [run_action].
  unfold prv_action_skip_to_segment_headers. change (elf_hdr r2) with h. change (stream_pos r2) with (stream_pos r1). rewrite P1.
  test_false (e_phoff h <? 64). rewrite E2.
  destruct (handle_warning t2 WarnReadFailure) as [t3| |]; cbn [obind]; [|reflexivity|reflexivity].
  cbn [length]. test_true (Z.of_nat 0 <? e_phoff h - 64).
  destruct (handle_warning t3 WarnShortSkip) as [t4| |]; cbn [obind action set_action run_action]; [|reflexivity|reflexivity].
  unfold prv_action_done. destruct (handle_done t4) as [t5| |]; reflexivity.
Qed.
End Skip.

(** ** Concrete files *)
Definition demo_ehdr (e_phoff e_phnum : Z) : Elf_Ehdr :=
  MkEhdr ([ELFMAG0; ELFMAG1; ELFMAG2; ELFMAG3; ELFCLASS; ELFDATA; EV_CURRENT] ++ zeros 9) ET_CORE 62 EV_CURRENT 0
    e_phoff 0 0 sizeof_Ehdr sizeof_Phdr e_phnum 0 0 0.

Definition demo_phdr : Elf_Phdr := MkPhdr PT_NOTE 4 120 0 0 3 0 0.

Definition demo_core : list Z := ehdr_bytes (demo_ehdr 64 1) ++ phdrs_bytes [demo_phdr] ++ [1; 2; 3].

Lemma demo_core_ehdr off n : 0 <= off < 2 ^ 64 -> 0 <= n < 2 ^ 16 -> core_ehdr (demo_ehdr off n).
Proof.
  intros. split; [|done]. unfold ehdr_ok, demo_ehdr, sizeof_Ehdr, sizeof_Phdr, EV_CURRENT, ET_CORE.
  cbn [e_ident e_type e_machine e_version e_entry e_phoff e_shoff e_flags e_ehsize e_phentsize e_phnum e_shentsize e_shnum e_shstrndx].
  split; [done|]. lia.
Qed.

Lemma demo_phdr_ok : phdr_ok demo_phdr.
Proof. vm_compute. repeat split; discriminate. Qed.

Lemma reader_reads_core_witness :
  exists reader, can_read 500 reader /\ action reader = Some ReadSegmentHeaders /\ stream_pos reader = 120 /\
    rd_rest (r_io reader) = [1; 2; 3] /\ rd_discards (r_io reader) = false /\
    ticos_core_elf_reader_read_all 500 true
      (ticos_core_elf_reader_init (MkReadFileIO demo_core [OsRead 7; OsReadError true] false)) [] =
      Val (set_action reader None, [EvHeader (demo_ehdr 64 1); EvSegments [demo_phdr]; EvDone], true).
Proof.
  destruct (reader_reads_core 500 (MkReadFileIO demo_core [OsRead 7; OsReadError true] false) []
    [EvHeader (demo_ehdr 64 1)] (demo_ehdr 64 1) [demo_phdr] [1; 2; 3]) as (reader & P).
  9: exists reader; exact P.
  - repeat constructor.
  - apply Nat.ltb_lt. vm_compute. reflexivity.
  - apply demo_core_ehdr; lia.
  - repeat constructor; apply demo_phdr_ok.
  - reflexivity.
  - reflexivity.
  - reflexivity.
  - reflexivity.
Defined.

Lemma reader_rejects_witness :
  exists reader, ticos_core_elf_reader_read_all 100 true
      (ticos_core_elf_reader_init (MkReadFileIO [0x7f; 0x45] [] false)) [] =
    Val (reader, [EvWarning WarnShortElfHeader; EvDone], true).
Proof.
  destruct (reader_rejects 100 (MkReadFileIO [0x7f; 0x45] [] false) [] true) as (reader & P);
    [constructor | apply Nat.ltb_lt; reflexivity | left; reflexivity | exists reader; exact P].
Defined.

Lemma descriptor_cannot_skip_witness :
  exists reader, ticos_core_elf_reader_read_all 500 true
      (ticos_core_elf_reader_init (MkReadFileIO (ehdr_bytes (demo_ehdr 72 1) ++ zeros 8 ++ phdrs_bytes [demo_phdr]) [] false)) [] =
    Val (reader, [EvHeader (demo_ehdr 72 1); EvWarning WarnIgnoringData; EvWarning WarnReadFailure;
                  EvWarning WarnShortSkip; EvDone], true).
Proof.
  destruct (descriptor_cannot_skip 500 true [] [EvHeader (demo_ehdr 72 1)] (demo_ehdr 72 1)
    (zeros 8 ++ phdrs_bytes [demo_phdr])) as (reader & P).
  6: exists reader; exact P.
  - apply Nat.ltb_lt. vm_compute. reflexivity.
  - apply demo_core_ehdr; lia.
  - reflexivity.
  - discriminate.
  - reflexivity.
Defined.

(** ** A device that discards *)

(** Input from memory, as the repository's tests use it (test/core_elf_memory_io.c): a NULL
    buffer skips. *)
#[export] Instance memory_read_io : ReadIO (list Z) := {
  io_read := fun rest _ n => let n := Z.to_nat (Z.min n (zlen rest)) in Val (drop n rest, ReadBytes (take n rest));
  read_errno_is_EINTR := fun _ => false }.

#[export] Program Instance memory_read_io_spec : ReadIOSpec (list Z) := {
  rd_ok := fun _ => True;
  rd_rest := fun rest => rest;
  rd_credit := fun _ => 0%nat;
  rd_discards := fun _ => true }.
Next Obligation.
  intros rest b n _ Hn _. eexists _, _. split; [done|]. split; [done|]. split; [done|]. cbn. rewrite take_drop.
  split; [done|]. split; [rewrite length_take; lia|]. split; [|done]. intros E. apply (f_equal length) in E.
  rewrite length_take in E. destruct rest; [done|]. cbn [length] in E. lia.
Qed.

