(* ===== verification/ElfTransformer.v ===== *)
(** * The core dump transformer (src/plugins/coredump/core_elf_transformer.c)

    The reader's handler: note segments are copied from the stream, load segments are read
    from the memory of the dead process when the writer asks for them, a metadata note
    comes last.  [allocs] holds the allocator's answers (true when the list is used up);
    [uninit] is what fresh memory contains. *)
From S2P Require Import Prelude Cbor CborSpec ElfNote ElfMetadata Elf ElfWriter ElfReader.

Definition TICOS_CORE_ELF_TRANSFORMER_PROC_MEM_COPY_BUFFER_SIZE_BYTES : Z := 4 * 1024.
Definition NUM_WARNINGS : Z := 16.

(** [copy_proc_mem vaddr size]: the bytes copied, [None] for -1.  The process does not run any
    more, so its memory does not change. *)
Definition transformer_handler : Type := Z -> Z -> option (list Z).

Record sTicosCoreElfTransformer (W : Type) := MkTransformer {
  writer : sTicosCoreElfWriter W;
  metadata : sTicosCoreElfMetadata;
  copy_proc_mem : transformer_handler;
  warnings : list (option reader_warning);
  next_warning_idx : Z;
  write_success : bool;
  allocs : list bool }.
Arguments MkTransformer {W} _ _ _ _ _ _ _.
Arguments writer {W} _.
Arguments metadata {W} _.
Arguments copy_proc_mem {W} _.
Arguments warnings {W} _.
Arguments next_warning_idx {W} _.
Arguments write_success {W} _.
Arguments allocs {W} _.

Section Transformer.
Context {R W : Type} `{ReadIO R} `{WriteIO W} (fuel : nat) (uninit : Z -> list Z).
Implicit Type transformer : sTicosCoreElfTransformer W.
Implicit Type reader : sTicosCoreElfReader R.

Definition set_writer transformer w : sTicosCoreElfTransformer W :=
  MkTransformer w (metadata transformer) (copy_proc_mem transformer) (warnings transformer)
    (next_warning_idx transformer) (write_success transformer) (allocs transformer).

Definition set_write_success transformer b : sTicosCoreElfTransformer W :=
  MkTransformer (writer transformer) (metadata transformer) (copy_proc_mem transformer) (warnings transformer)
    (next_warning_idx transformer) b (allocs transformer).

(** The allocator's next answer. *)
Definition ask_alloc transformer : bool * sTicosCoreElfTransformer W :=
  match allocs transformer with
  | [] => (true, transformer)
  | a :: rest =>
      (a, MkTransformer (writer transformer) (metadata transformer) (copy_proc_mem transformer) (warnings transformer)
            (next_warning_idx transformer) (write_success transformer) rest)
  end.

(** [warnings] has 16 slots; writing slot 16 is outside the array. *)
Definition prv_add_warning transformer (warning_msg : option reader_warning) : outcome (sTicosCoreElfTransformer W) :=
  match warning_msg with
  | None => Val transformer
  | Some msg =>
      if next_warning_idx transformer >? NUM_WARNINGS then Val transformer
      else if next_warning_idx transformer <? NUM_WARNINGS then
        Val (MkTransformer (writer transformer) (metadata transformer) (copy_proc_mem transformer)
               (<[Z.to_nat (next_warning_idx transformer) := Some msg]> (warnings transformer))
               (next_warning_idx transformer + 1) (write_success transformer) (allocs transformer))
      else Fault
  end.

Definition prv_handle_warning transformer (warning_msg : reader_warning) : outcome (sTicosCoreElfTransformer W) :=
  prv_add_warning transformer (Some warning_msg).

#[local] Instance transformer_warning : WarningHandler (sTicosCoreElfTransformer W) := {
  handle_warning := prv_handle_warning }.

Definition prv_handle_elf_header transformer (elf_header : Elf_Ehdr) : outcome (sTicosCoreElfTransformer W) :=
  Val (set_writer transformer
         (ticos_core_elf_writer_set_elf_header_fields (writer transformer) (e_machine elf_header) (e_flags elf_header))).

Definition prv_process_note_segment reader transformer (segment : Elf_Phdr)
    : outcome (sTicosCoreElfReader R * sTicosCoreElfTransformer W) :=
  let '(malloc_ok, transformer) := ask_alloc transformer in
  if negb malloc_ok then
    let! transformer := prv_add_warning transformer (Some WarnNoteBuffer) in Val (reader, transformer)
  else
    let! (reader, transformer, note_buffer) :=
      ticos_core_elf_reader_read_segment_data fuel reader transformer (p_offset segment) (p_filesz segment) in
    if negb (zlen note_buffer =? p_filesz segment) then
      let! transformer := prv_add_warning transformer (Some WarnNoteRead) in Val (reader, transformer)
    else
      let '(realloc_ok, transformer) := ask_alloc transformer in
      let! (w, ok) :=
        ticos_core_elf_writer_add_segment_with_buffer realloc_ok (writer transformer) segment note_buffer in
      let transformer := set_writer transformer w in
      if negb ok then
        let! transformer := prv_add_warning transformer (Some WarnNoteAdd) in Val (reader, transformer)
      else Val (reader, transformer).

(** One turn of the copy loop: the bytes for the next chunk of at most [sz] bytes. *)
Definition proc_mem_chunk (copy : transformer_handler) (vaddr sz : Z) : list Z :=
  match copy vaddr sz with
  | Some (b :: bs) => b :: bs
  | _ => replicate (Z.to_nat sz) 0xef
  end.

(** The loop of [prv_write_load_segment_data_cb]; every turn makes progress. *)
Fixpoint load_loop (turns : nat) (copy : transformer_handler) (o : sWriterOut W) (vaddr bytes_remaining : Z)
    : outcome (sWriterOut W * bool) :=
  if bytes_remaining >? 0 then
    match turns with
    | O => OutOfFuel
    | S turns =>
        let sz := Z.min bytes_remaining TICOS_CORE_ELF_TRANSFORMER_PROC_MEM_COPY_BUFFER_SIZE_BYTES in
        let buffer := proc_mem_chunk copy vaddr sz in
        let bytes_read := zlen buffer in
        let! (o, ok) := ticos_core_elf_writer_write_segment_data fuel o buffer in
        if negb ok then Val (o, false)
        else load_loop turns copy o (u64 (vaddr + bytes_read)) (u64 (bytes_remaining - bytes_read))
    end
  else Val (o, true).

Definition prv_write_load_segment_data_cb (copy : transformer_handler) (o : sWriterOut W) (segment : Elf_Phdr)
    : outcome (sWriterOut W * bool) :=
  load_loop (Z.to_nat (p_filesz segment)) copy o (p_vaddr segment) (p_filesz segment).

(** The result of adding the segment is not looked at by the caller. *)
Definition prv_process_load_segment transformer (segment_header : Elf_Phdr)
    : outcome (sTicosCoreElfTransformer W * bool) :=
  let '(realloc_ok, transformer) := ask_alloc transformer in
  let! (w, ok) := ticos_core_elf_writer_add_segment_with_callback realloc_ok (writer transformer) segment_header
                    (prv_write_load_segment_data_cb (copy_proc_mem transformer)) in
  Val (set_writer transformer w, ok).

Definition prv_append_ticos_metadata_note transformer : outcome (sTicosCoreElfTransformer W) :=
  let! note_buffer_size := ticos_core_elf_metadata_note_calculate_size (metadata transformer) in
  let '(malloc_ok, transformer) := ask_alloc transformer in
  if negb malloc_ok then Val transformer
  else
    let! (note_buffer, ok) :=
      ticos_core_elf_metadata_note_write (metadata transformer) (uninit note_buffer_size) note_buffer_size in
    if negb ok then Val transformer
    else
      let segment := MkPhdr PT_NOTE 0 0 0 0 note_buffer_size 0 0 in
      let '(realloc_ok, transformer) := ask_alloc transformer in
      let! (w, _) := ticos_core_elf_writer_add_segment_with_buffer realloc_ok (writer transformer) segment note_buffer in
      Val (set_writer transformer w).

(** The loop over the segment headers. *)
Fixpoint process_segments reader transformer (segments : list Elf_Phdr)
    : outcome (sTicosCoreElfReader R * sTicosCoreElfTransformer W) :=
  match segments with
  | [] => Val (reader, transformer)
  | segment :: segments =>
      let! (reader, transformer) :=
        (if p_type segment =? PT_NOTE then prv_process_note_segment reader transformer segment
         else if p_type segment =? PT_LOAD then
           let! (transformer, _) := prv_process_load_segment transformer segment in Val (reader, transformer)
         else
           let! transformer := prv_add_warning transformer (Some (WarnSegmentType (p_type segment))) in
           Val (reader, transformer)) in
      process_segments reader transformer segments
  end.

Definition prv_handle_segments reader transformer (segments : list Elf_Phdr)
    : outcome (sTicosCoreElfReader R * sTicosCoreElfTransformer W) :=
  let! (reader, transformer) := process_segments reader transformer segments in
  let! transformer := prv_append_ticos_metadata_note transformer in
  let! (w, ok) := ticos_core_elf_writer_write fuel (writer transformer) in
  Val (reader, set_write_success (set_writer transformer w) ok).

(** Freeing the writer's buffers and the warnings leaves no trace in the model. *)
Definition prv_handle_done transformer : outcome (sTicosCoreElfTransformer W) := Val transformer.

#[local] Instance transformer_events : ReaderHandler R (sTicosCoreElfTransformer W) := {
  handle_elf_header := prv_handle_elf_header;
  handle_segments := prv_handle_segments;
  handle_done := prv_handle_done }.

Definition ticos_core_elf_transformer_init (writer_io : W) (metadata : sTicosCoreElfMetadata)
    (transformer_handler : transformer_handler) (allocs : list bool) : sTicosCoreElfTransformer W :=
  MkTransformer (ticos_core_elf_writer_init writer_io) metadata transformer_handler
    (replicate (Z.to_nat NUM_WARNINGS) None) 0 false allocs.

(** The reader is part of the transformer structure; [malloc_ok] answers its own allocation. *)
Definition ticos_core_elf_transformer_run (malloc_ok : bool) reader transformer
    : outcome (sTicosCoreElfReader R * sTicosCoreElfTransformer W * bool) :=
  let! (reader, transformer, ok) := ticos_core_elf_reader_read_all fuel malloc_ok reader transformer in
  Val (reader, transformer, ok && write_success transformer).

End Transformer.
