(* ===== verification/ElfTransformerSpec.v ===== *)
(** * The transformer, from the kernel's core to the uploaded one

    The main theorem composes the reader's, the writer's and the metadata note's: a valid core
    read from a device that follows read(2) becomes, on a device that follows write(2), a
    core with the same machine and flags, the notes copied, the load segments filled from
    the memory of the process, and the metadata note behind them.  At the end, the array of
    warnings, and the main theorem on a concrete core, read from one descriptor and written to
    another. *)
From S2P Require Import Prelude Cbor CborSpec ElfNote ElfMetadata Elf ElfWriter ElfWriterSpec ElfWriterFile ElfReader.
From S2P Require Import ElfFileIO ElfReaderSpec ElfReaderFile ElfTransformer.

#[local] Existing Instance transformer_warning.
#[local] Existing Instance transformer_events.

(** ** Load segments *)

(** What [copy_proc_mem] promises: no more bytes than asked for. *)
Definition copy_ok (copy : transformer_handler) : Prop :=
  forall vaddr sz bs, 0 < sz -> copy vaddr sz = Some bs -> zlen bs <= sz.

(** The bytes of a load segment, chunk by chunk. *)
Fixpoint segment_image (turns : nat) (copy : transformer_handler) (vaddr n : Z) : list Z :=
  match turns with
  | O => []
  | S turns =>
      if n >? 0 then
        let buffer := proc_mem_chunk copy vaddr (Z.min n TICOS_CORE_ELF_TRANSFORMER_PROC_MEM_COPY_BUFFER_SIZE_BYTES) in
        buffer ++ segment_image turns copy (u64 (vaddr + zlen buffer)) (u64 (n - zlen buffer))
      else []
  end.

Definition load_image (copy : transformer_handler) (h : Elf_Phdr) : list Z :=
  segment_image (Z.to_nat (p_filesz h)) copy (p_vaddr h) (p_filesz h).

Lemma chunk_length copy vaddr sz : copy_ok copy -> 0 < sz -> 0 < zlen (proc_mem_chunk copy vaddr sz) <= sz.
Proof.
  intros Hc Hs. unfold proc_mem_chunk. destruct (copy vaddr sz) as [[|b bs]|] eqn:E.
  - rewrite length_replicate. lia.
  - pose proof (Hc _ _ _ Hs E). cbn [length] in *. lia.
  - rewrite length_replicate. lia.
Qed.

Lemma segment_image_length copy turns : copy_ok copy -> forall vaddr n, 0 <= n <= Z.of_nat turns -> n < 2 ^ 64 ->
  zlen (segment_image turns copy vaddr n) = n.
Proof.
  unfold TICOS_CORE_ELF_TRANSFORMER_PROC_MEM_COPY_BUFFER_SIZE_BYTES. intros Hc.
  induction turns as [|turns IH]; intros vaddr n Hn Hb; cbn [segment_image]; [cbn; lia|].
  destruct (Z.gtb_spec n 0) as [Hp|Hz]; [|cbn; lia].
  unfold TICOS_CORE_ELF_TRANSFORMER_PROC_MEM_COPY_BUFFER_SIZE_BYTES. set (sz := Z.min n (4 * 1024)).
  pose proof (chunk_length copy vaddr sz Hc ltac:(lia)) as L.
  rewrite length_app, Nat2Z.inj_add, (u64_small (n - _)), IH by lia. lia.
Qed.

(** A memory behind [copy]: what it copies is what is there. *)
Definition copies (mem : Z -> option Z) (copy : transformer_handler) : Prop :=
  forall vaddr sz bs, 0 < sz -> copy vaddr sz = Some bs ->
    zlen bs <= sz /\ forall i b, bs !! i = Some b -> mem (vaddr + Z.of_nat i) = Some b.

Lemma copies_ok mem copy : copies mem copy -> copy_ok copy.
Proof. intros H v sz bs Hs E. now apply (H v sz bs Hs E). Qed.

Lemma image_bytes mem copy turns : copies mem copy -> forall vaddr n i b, 0 <= n <= Z.of_nat turns -> 0 <= vaddr ->
  vaddr + n < 2 ^ 64 -> segment_image turns copy vaddr n !! i = Some b ->
  mem (vaddr + Z.of_nat i) = Some b \/
  (b = 0xef /\ exists v sz, 0 < sz /\ vaddr <= v /\ v + sz <= vaddr + n /\ (copy v sz = None \/ copy v sz = Some [])).
Proof.
  unfold TICOS_CORE_ELF_TRANSFORMER_PROC_MEM_COPY_BUFFER_SIZE_BYTES. intros Hc.
  induction turns as [|turns IH]; intros vaddr n i b Hn Hv Hb; cbn [segment_image]; [done|].
  destruct (Z.gtb_spec n 0) as [Hp|Hz]; [|done].
  unfold TICOS_CORE_ELF_TRANSFORMER_PROC_MEM_COPY_BUFFER_SIZE_BYTES. set (sz := Z.min n (4 * 1024)).
  pose proof (chunk_length copy vaddr sz (copies_ok _ _ Hc) ltac:(lia)) as L.
  rewrite !u64_small by lia. intros Hi. apply lookup_app_Some in Hi as [Hi|[Hge Hi]].
  - unfold proc_mem_chunk in Hi. destruct (copy vaddr sz) as [[|x bs]|] eqn:E.
    + apply lookup_replicate in Hi as [-> _]. right. split; [done|]. exists vaddr, sz. split; [lia|]. split; [lia|]. split; [lia|auto].
    + left. now apply (Hc vaddr sz (x :: bs) ltac:(lia) E).
    + apply lookup_replicate in Hi as [-> _]. right. split; [done|]. exists vaddr, sz. split; [lia|]. split; [lia|]. split; [lia|auto].
  - apply IH in Hi; [|lia..]. destruct Hi as [Hi|(-> & v & s & ? & ? & ? & ?)].
    + left. rewrite <- Hi. f_equal. lia.
    + right. split; [done|]. exists v, s. split; [lia|]. split; [lia|]. split; [lia|done].
Qed.

(** the data written for a load segment has exactly the size announced, and each of its bytes is
    the byte of the process's memory at that address or, only if some copy out of the
    segment's range failed, the placeholder 0xEF. *)
Theorem load_segment_is_memory mem copy h : copies mem copy -> phdr_ok h -> p_vaddr h + p_filesz h < 2 ^ 64 ->
  zlen (load_image copy h) = p_filesz h /\
  forall i b, load_image copy h !! i = Some b ->
    mem (p_vaddr h + Z.of_nat i) = Some b \/
    (b = 0xef /\ exists v sz, 0 < sz /\ p_vaddr h <= v /\ v + sz <= p_vaddr h + p_filesz h /\
       (copy v sz = None \/ copy v sz = Some [])).
Proof.
  intros Hc Hh Hb. unfold phdr_ok in Hh. unfold load_image. split.
  - apply segment_image_length; [now apply (copies_ok mem)|lia|lia].
  - intros i b. apply (image_bytes mem copy); [done|lia..].
Qed.

Section Spec.
Context {R W : Type} `{ReadIOSpec R} `{WriteIOSpec W} (fuel : nat) (uninit : Z -> list Z).
Context (Huninit : forall n, 0 <= n -> zlen (uninit n) = n).
Implicit Type t : sTicosCoreElfTransformer W.

Lemma load_loop_spec copy turns : copy_ok copy -> forall (o : sWriterOut W) vaddr n, 0 <= n <= Z.of_nat turns ->
  n < 2 ^ 64 -> can_write fuel o n ->
  exists o', load_loop fuel turns copy o vaddr n = Val (o', true) /\ out_wrote o o' (segment_image turns copy vaddr n).
Proof.
  unfold TICOS_CORE_ELF_TRANSFORMER_PROC_MEM_COPY_BUFFER_SIZE_BYTES. intros Hc.
  induction turns as [|turns IH]; intros o vaddr n Hn Hb Ho; cbn [load_loop segment_image].
  - test_false (n >? 0). exists o. split; [done|]. apply out_wrote_nil, Ho.
  - destruct (Z.gtb_spec n 0) as [Hp|Hz]; [|exists o; split; [done|]; apply out_wrote_nil, Ho].
    unfold TICOS_CORE_ELF_TRANSFORMER_PROC_MEM_COPY_BUFFER_SIZE_BYTES. set (sz := Z.min n (4 * 1024)).
    pose proof (chunk_length copy vaddr sz Hc ltac:(lia)) as L. set (buffer := proc_mem_chunk copy vaddr sz) in *.
    unfold ticos_core_elf_writer_write_segment_data.
    destruct (write_all_spec fuel o buffer) as (o1 & -> & W1); [eapply can_write_less; [exact Ho|lia]|]. cbn [obind negb].
    rewrite (u64_small (n - zlen buffer)) by lia.
    destruct (IH o1 (u64 (vaddr + zlen buffer)) (n - zlen buffer)) as (o2 & -> & W2); [lia|lia| |].
    + eapply can_write_after; [|exact W1]. eapply can_write_less; [exact Ho|lia].
    + exists o2. split; [done|]. eapply out_wrote_trans; eassumption.
Qed.

(** ** From input segments to output segments *)

(** The bytes of a segment in the file it comes from. *)
Definition slice (file : list Z) (h : Elf_Phdr) : list Z := take (Z.to_nat (p_filesz h)) (drop (Z.to_nat (p_offset h)) file).

Definition output_segment (file : list Z) (copy : transformer_handler) (h : Elf_Phdr) : sTicosCoreElfWriterSegment W :=
  MkSegment h (if p_type h =? PT_NOTE then Buffer (slice file h) else Callback (prv_write_load_segment_data_cb fuel copy)).

Definition output_data (file : list Z) (copy : transformer_handler) (h : Elf_Phdr) : list Z :=
  if p_type h =? PT_NOTE then slice file h else load_image copy h.

(** Only notes and load segments; each note lies in the file, behind the stream position [pos],
    and directly there unless the device can discard. *)
Fixpoint notes_ok (discards : bool) (file : list Z) (pos : Z) (hs : list Elf_Phdr) : Prop :=
  match hs with
  | [] => True
  | h :: hs =>
      if p_type h =? PT_NOTE then
        pos <= p_offset h /\ (pos = p_offset h \/ discards = true) /\ p_offset h + p_filesz h <= zlen file /\
        notes_ok discards file (p_offset h + p_filesz h) hs
      else p_type h = PT_LOAD /\ notes_ok discards file pos hs
  end.

Definition seg_in_ok (h : Elf_Phdr) : Prop := phdr_ok h /\ align_ok (p_align h).

Lemma output_seg_ok file copy h : seg_in_ok h -> seg_ok (output_segment file copy h).
Proof. done. Qed.

Lemma output_seg_gives file copy h : copy_ok copy -> seg_in_ok h ->
  (p_type h = PT_NOTE -> p_offset h + p_filesz h <= zlen file) ->
  seg_gives fuel (output_segment file copy h) (output_data file copy h).
Proof.
  intros Hc [Hh _] Hn. unfold phdr_ok in Hh. unfold seg_gives, output_segment, output_data, slice. cbn [header data].
  destruct (Z.eqb_spec (p_type h) PT_NOTE) as [E|E].
  - specialize (Hn E). split; [rewrite length_take, length_drop; lia|done].
  - unfold load_image. assert (L : zlen (segment_image (Z.to_nat (p_filesz h)) copy (p_vaddr h) (p_filesz h)) = p_filesz h)
      by (apply segment_image_length; [done|lia|lia]).
    split; [done|]. intros off o Ho. rewrite L in Ho. unfold prv_write_load_segment_data_cb. cbn [set_p_offset p_filesz p_vaddr].
    apply load_loop_spec; [done|lia|lia|done].
Qed.

(** ** The loop over the segments *)

(** The transformer [t'] is [t] with the segments [segs] in its writer, and nothing else changed. *)
Definition extends t t' (segs segs' : list (sTicosCoreElfWriterSegment W)) : Prop :=
  has_segments (writer t') (segs ++ segs') /\ out (writer t') = out (writer t) /\
  w_e_machine (writer t') = w_e_machine (writer t) /\ w_e_flags (writer t') = w_e_flags (writer t) /\
  metadata t' = metadata t /\ copy_proc_mem t' = copy_proc_mem t /\ allocs t' = [].

Lemma extends_refl t segs : has_segments (writer t) segs -> allocs t = [] -> extends t t segs [].
Proof. intros. unfold extends. rewrite app_nil_r. auto 10. Qed.

Lemma extends_trans t1 t2 t3 segs s1 s2 : extends t1 t2 segs s1 -> extends t2 t3 (segs ++ s1) s2 -> extends t1 t3 segs (s1 ++ s2).
Proof.
  intros (? & E1 & E2 & E3 & E4 & E5 & ?) (? & F1 & F2 & F3 & F4 & F5 & ?). unfold extends.
  rewrite app_assoc. split; [done|]. repeat split; congruence.
Qed.

(** Where the reader stands. *)
Definition at_pos (reader : sTicosCoreElfReader R) (file : list Z) (pos : Z) : Prop :=
  can_read fuel reader /\ action reader = Some ReadSegmentHeaders /\ stream_pos reader = pos /\ 0 <= pos < 2 ^ 63 /\
  rd_rest (r_io reader) = drop (Z.to_nat pos) file.

Lemma ask_alloc_nil t : allocs t = [] -> ask_alloc t = (true, t).
Proof. intros E. unfold ask_alloc. now rewrite E. Qed.

Lemma process_note reader t file pos h segs : at_pos reader file pos -> allocs t = [] -> has_segments (writer t) segs ->
  zlen segs < 2 ^ 30 -> zlen file < 2 ^ 63 -> phdr_ok h -> p_type h = PT_NOTE -> pos <= p_offset h ->
  pos = p_offset h \/ rd_discards (r_io reader) = true -> p_offset h + p_filesz h <= zlen file ->
  exists reader' t', prv_process_note_segment fuel reader t h = Val (reader', t') /\
    at_pos reader' file (p_offset h + p_filesz h) /\ rd_discards (r_io reader') = rd_discards (r_io reader) /\
    extends t t' segs [output_segment file (copy_proc_mem t) h].
Proof.
  intros (Hc & Ha & Hp & Hpb & Hr) Hal Hs Hn Hf Hh Ht Hle Hd Hend. unfold phdr_ok in Hh.
  unfold prv_process_note_segment. rewrite ask_alloc_nil by done. cbn [negb].
  destruct (read_segment_data_spec fuel reader t (p_offset h) (p_filesz h) file) as (r' & sk & bs & -> & Eb & M & Hp' & Hr');
    [done|done|lia|lia|lia|done|lia|naive_solver|congruence|]. cbn [obind].
  pose proof (proj2 (load_val _ _ _ _ Eb)) as Lb. rewrite Lb, Z.eqb_refl. cbn [negb]. rewrite ask_alloc_nil by done.
  destruct (alloc_next (writer t) segs (MkSegment h (Buffer bs)) Hs Hn) as (w1 & w2 & E1 & E2 & Hs2 & Eo & Em & Ef).
  unfold ticos_core_elf_writer_add_segment_with_buffer. rewrite E1, E2. cbn [obind negb].
  exists r', (set_writer t w2). split; [done|]. split; [|split; [apply M|]].
  - split; [eapply moved_can_read; eassumption|]. destruct M as (_ & _ & _ & _ & Ea & _).
    split; [congruence|]. split; [done|]. split; [lia|done].
  - unfold extends, output_segment. cbn [writer set_writer metadata copy_proc_mem allocs]. rewrite Ht, Z.eqb_refl.
    replace (slice file h) with bs; [done|]. unfold load in Eb. revert Eb. case_test; [|discriminate]. now intros [= <-].
Qed.

Lemma process_load t h segs file : allocs t = [] -> has_segments (writer t) segs -> zlen segs < 2 ^ 30 ->
  p_type h = PT_LOAD ->
  exists t' ok, prv_process_load_segment fuel t h = Val (t', ok) /\ extends t t' segs [output_segment file (copy_proc_mem t) h].
Proof.
  intros Hal Hs Hn Ht. unfold prv_process_load_segment. rewrite ask_alloc_nil by done.
  destruct (alloc_next (writer t) segs (MkSegment h (Callback (prv_write_load_segment_data_cb fuel (copy_proc_mem t)))) Hs Hn)
    as (w1 & w2 & E1 & E2 & Hs2 & Eo & Em & Ef).
  unfold ticos_core_elf_writer_add_segment_with_callback. rewrite E1, E2. cbn [obind].
  eexists _, true. split; [done|]. unfold extends, output_segment. cbn [writer set_writer metadata copy_proc_mem allocs].
  rewrite Ht. done.
Qed.

Lemma process_segments_spec file hs : zlen file < 2 ^ 63 -> forall reader t pos segs, at_pos reader file pos ->
  allocs t = [] -> has_segments (writer t) segs -> zlen segs + zlen hs < 2 ^ 30 -> Forall seg_in_ok hs ->
  notes_ok (rd_discards (r_io reader)) file pos hs ->
  exists reader' t', process_segments fuel reader t hs = Val (reader', t') /\
    extends t t' segs (map (output_segment file (copy_proc_mem t)) hs).
Proof.
  intros Hf. induction hs as [|h hs IH]; intros reader t pos segs Hr Hal Hs Hn Hok Hnotes; cbn [process_segments map].
  - eexists _, _. split; [done|]. now apply extends_refl.
  - apply Forall_cons_1 in Hok as [[Hh _] Hok]. cbn [notes_ok length] in *.
    assert (Step : exists r1 t1 pos1, (if p_type h =? PT_NOTE then prv_process_note_segment fuel reader t h
       else if p_type h =? PT_LOAD then let! (t, _) := prv_process_load_segment fuel t h in Val (reader, t)
       else let! t := prv_add_warning t (Some (WarnSegmentType (p_type h))) in Val (reader, t)) = Val (r1, t1) /\
       at_pos r1 file pos1 /\ extends t t1 segs [output_segment file (copy_proc_mem t) h] /\
       notes_ok (rd_discards (r_io r1)) file pos1 hs).
    { destruct (Z.eqb_spec (p_type h) PT_NOTE) as [E|E].
      - destruct Hnotes as (Hle & Hd & Hend & Hnotes).
        destruct (process_note reader t file pos h segs) as (r1 & t1 & -> & Hr1 & Hd1 & X); [done..|lia|done|done|done|done|done|done|].
        exists r1, t1, (p_offset h + p_filesz h). now rewrite Hd1.
      - destruct Hnotes as [El Hnotes]. rewrite El. cbn [Z.eqb PT_LOAD Pos.eqb].
        destruct (process_load t h segs file) as (t1 & ok & -> & X); [done..|lia|done|]. cbn [obind]. eauto 10. }
    destruct Step as (r1 & t1 & pos1 & -> & Hr1 & X & Hn1). cbn [obind].
    destruct (IH r1 t1 pos1 (segs ++ [output_segment file (copy_proc_mem t) h])) as (r2 & t2 & -> & X2); auto.
    + apply X. + apply X. + rewrite length_app. cbn [length]. lia.
    + exists r2, t2. split; [done|]. replace (copy_proc_mem t1) with (copy_proc_mem t) in X2 by (symmetry; apply X).
      apply (extends_trans _ _ _ _ [_] _ X X2).
Qed.

(** ** The metadata note *)
Definition metadata_phdr (m : sTicosCoreElfMetadata) : Elf_Phdr := MkPhdr PT_NOTE 0 0 0 0 (zlen (metadata_note m)) 0 0.

Lemma append_metadata t segs : metadata_ok (metadata t) -> allocs t = [] -> has_segments (writer t) segs ->
  zlen segs < 2 ^ 30 ->
  exists t', prv_append_ticos_metadata_note uninit t = Val t' /\
    extends t t' segs [MkSegment (metadata_phdr (metadata t)) (Buffer (metadata_note (metadata t)))].
Proof.
  intros Hm Hal Hs Hn. unfold prv_append_ticos_metadata_note.
  destruct (ticos_core_elf_metadata_note_calculate_size (metadata t)) as [n| |] eqn:En.
  2,3: revert En; unfold ticos_core_elf_metadata_note_calculate_size; now rewrite cbor_calculate_size by done.
  cbn [obind]. rewrite ask_alloc_nil by done. cbn [negb].
  assert (Hn0 : 0 <= n).
  { revert En. unfold ticos_core_elf_metadata_note_calculate_size. rewrite cbor_calculate_size by done. cbn [obind].
    intros E. apply Val_inj in E. subst n. apply Z.mod_pos_bound. lia. }
  destruct (metadata_note_write_ok (metadata t) (uninit n) n Hm En (Huninit n Hn0)) as [E L].
  rewrite E. cbn [obind negb]. rewrite ask_alloc_nil by done. rewrite <- L. fold (metadata_phdr (metadata t)).
  destruct (alloc_next (writer t) segs (MkSegment (metadata_phdr (metadata t)) (Buffer (metadata_note (metadata t)))) Hs Hn)
    as (w1 & w2 & E1 & E2 & Hs2 & Eo & Em & Ef).
  unfold ticos_core_elf_writer_add_segment_with_buffer. rewrite E1, E2. cbn [obind].
  eexists. split; [done|]. unfold extends. cbn [writer set_writer metadata copy_proc_mem allocs]. done.
Qed.

(** ** The whole run *)

(** What the writer is to write. *)
Definition output_segments (file : list Z) (copy : transformer_handler) (m : sTicosCoreElfMetadata) (hs : list Elf_Phdr) :=
  map (output_segment file copy) hs ++ [MkSegment (metadata_phdr m) (Buffer (metadata_note m))].

Definition output_datas (file : list Z) (copy : transformer_handler) (m : sTicosCoreElfMetadata) (hs : list Elf_Phdr) :=
  map (output_data file copy) hs ++ [metadata_note m].

Lemma metadata_phdr_ok m : metadata_ok m -> seg_in_ok (metadata_phdr m).
Proof.
  intros Hm. assert (zlen (metadata_note m) < 2 ^ 64).
  { destruct (ticos_core_elf_metadata_note_calculate_size m) as [n| |] eqn:En.
    2,3: revert En; unfold ticos_core_elf_metadata_note_calculate_size; now rewrite cbor_calculate_size by done.
    assert (Hn0 : 0 <= n < 2 ^ 64).
    { revert En. unfold ticos_core_elf_metadata_note_calculate_size. rewrite cbor_calculate_size by done. cbn [obind].
      intros E. apply Val_inj in E. subst n. apply Z.mod_pos_bound. lia. }
    destruct (metadata_note_write_ok m (zeros n) n Hm En) as [_ <-]; [apply zeros_length; lia|lia]. }
  split; [|left; unfold metadata_phdr; cbn; lia]. unfold phdr_ok, metadata_phdr, PT_NOTE.
  cbn [p_type p_flags p_offset p_vaddr p_paddr p_filesz p_memsz p_align]. lia.
Qed.

Lemma output_segments_ok file copy m hs : metadata_ok m -> Forall seg_in_ok hs ->
  Forall seg_ok (output_segments file copy m hs).
Proof.
  intros Hm Hs. unfold output_segments. apply Forall_app_2.
  - induction Hs; cbn [map]; constructor; auto. 
  - constructor; [|constructor]. now apply metadata_phdr_ok.
Qed.

Lemma output_segments_give file copy m hs : metadata_ok m -> copy_ok copy -> Forall seg_in_ok hs ->
  Forall (fun h => p_type h = PT_NOTE -> p_offset h + p_filesz h <= zlen file) hs ->
  Forall2 (seg_gives fuel) (output_segments file copy m hs) (output_datas file copy m hs).
Proof.
  intros Hm Hc Hs Hn. unfold output_segments, output_datas. apply Forall2_app.
  - induction Hs as [|h hs Hh Hs IH]; cbn [map]; [constructor|]. apply Forall_cons_1 in Hn as [Hn Hns].
    constructor; [now apply output_seg_gives|auto].
  - constructor; [|constructor]. done.
Qed.

Lemma notes_ok_bounds discards file hs : forall pos, notes_ok discards file pos hs ->
  Forall (fun h => p_type h = PT_NOTE -> p_offset h + p_filesz h <= zlen file) hs.
Proof.
  induction hs as [|h hs IH]; intros pos H3; [constructor|]. cbn [notes_ok] in H3.
  destruct (Z.eqb_spec (p_type h) PT_NOTE) as [E|E].
  - destruct H3 as (_ & _ & Hb & H3). constructor; [done|eauto].
  - destruct H3 as [_ H3]. constructor; [done|eauto].
Qed.

Lemma handle_segments_spec reader t file pos hs : at_pos reader file pos -> allocs t = [] -> has_segments (writer t) [] ->
  zlen file < 2 ^ 63 -> zlen hs < 2 ^ 29 -> Forall seg_in_ok hs -> notes_ok (rd_discards (r_io reader)) file pos hs ->
  metadata_ok (metadata t) -> copy_ok (copy_proc_mem t) ->
  0 <= w_e_machine (writer t) < 2 ^ 16 -> 0 <= w_e_flags (writer t) < 2 ^ 32 -> write_offset (out (writer t)) = 0 ->
  io_content (io (out (writer t))) = [] ->
  let segs := output_segments file (copy_proc_mem t) (metadata t) hs in
  let total := plan_end (sizeof_Ehdr + sizeof_Phdr * zlen segs) segs in
  zlen segs < 2 ^ 16 -> total < 2 ^ 63 -> can_write fuel (out (writer t)) total ->
  exists reader' t' w, prv_handle_segments fuel uninit reader t hs = Val (reader', t') /\ write_success t' = true /\
    w_e_machine w = w_e_machine (writer t) /\ w_e_flags w = w_e_flags (writer t) /\
    parses_as w segs (output_datas file (copy_proc_mem t) (metadata t) hs) (io_content (io (out (writer t')))) /\
    io_synced (io (out (writer t'))).
Proof.
  intros Hr Hal Hs Hf Hn Hok Hnotes Hm Hc Hma Hfl Hwo Hcont segs total Hlen Htot Hcan.
  unfold prv_handle_segments.
  destruct (process_segments_spec file hs Hf reader t pos []) as (r1 & t1 & -> & X1); auto; [cbn; lia|]. cbn [obind].
  pose proof X1 as (Hs1 & Eo1 & Em1 & Ef1 & Emd1 & Ec1 & Ea1).
  destruct (append_metadata t1 ([] ++ map (output_segment file (copy_proc_mem t)) hs)) as (t2 & -> & X2);
    [congruence|done|done|rewrite length_app, length_map; cbn; lia|]. cbn [obind].
  pose proof (extends_trans _ _ _ _ _ _ X1 X2) as (Hs2 & Eo & Em & Ef & Emd & Ec & Ea). cbn [app] in Hs2.
  rewrite Emd1 in Hs2. fold (output_segments file (copy_proc_mem t) (metadata t) hs) in Hs2. fold segs in Hs2.
  assert (Hgive : Forall2 (seg_gives fuel) segs (output_datas file (copy_proc_mem t) (metadata t) hs))
    by (apply output_segments_give; auto; eapply notes_ok_bounds; eassumption).
  assert (Hsok : Forall seg_ok segs) by now apply output_segments_ok.
  destruct (writer_write_spec fuel (writer t2) segs (output_datas file (copy_proc_mem t) (metadata t) hs) Hs2)
    as (w & E & C & _ & Sy); [done|done|congruence|congruence|congruence|done|now rewrite Eo|].
  rewrite E. cbn [obind]. eexists _, _, (writer t2). split; [done|]. split; [done|]. split; [done|]. split; [done|].
  cbn [writer set_write_success set_writer]. split; [|exact Sy]. rewrite C, Eo, Hcont. cbn [app].
  apply (core_file_parses fuel); auto; congruence.
Qed.

(** A run, and what it leaves in the device. *)
Lemma transformer_run_spec rio wio m copy h hs rest : let file := ehdr_bytes h ++ phdrs_bytes hs ++ rest in
  rd_ok rio -> rd_rest rio = file -> (length file + rd_credit rio + 1 < fuel)%nat -> zlen file < 2 ^ 63 ->
  core_ehdr h -> e_phoff h = 64 -> e_phnum h = zlen hs -> zlen hs + 1 < 2 ^ 16 -> Forall seg_in_ok hs ->
  notes_ok (rd_discards rio) file (64 + 56 * zlen hs) hs -> metadata_ok m -> copy_ok copy -> io_content wio = [] ->
  let segs := output_segments file copy m hs in
  let total := plan_end (sizeof_Ehdr + sizeof_Phdr * zlen segs) segs in
  total < 2 ^ 63 -> can_write fuel (MkOut wio 0) total ->
  exists reader t w, ticos_core_elf_transformer_run fuel uninit true (ticos_core_elf_reader_init rio)
      (ticos_core_elf_transformer_init wio m copy []) = Val (reader, t, true) /\
    w_e_machine w = e_machine h /\ w_e_flags w = e_flags h /\
    parses_as w segs (output_datas file copy m hs) (io_content (io (out (writer t)))) /\
    io_synced (io (out (writer t))).
Proof.
  intros file Hrok Hrest Hfuel Hfile Hh Hoff Hnum Hn Hseg Hnotes Hm Hc Hcont segs total Htot Hcan.
  set (t0 := ticos_core_elf_transformer_init wio m copy []).
  set (t1 := set_writer t0 (ticos_core_elf_writer_set_elf_header_fields (writer t0) (e_machine h) (e_flags h))).
  pose proof Hh as [Hho _]. unfold ehdr_ok in Hho. pose proof (ehdr_bytes_length h (proj1 Hh)) as Lh.
  pose proof (phdrs_bytes_length hs) as Lp.
  pose (events := transformer_events (R := R) fuel uninit : ReaderHandler R (sTicosCoreElfTransformer W)).
  destruct (reader_reads_core fuel rio t0 t1 h hs rest) as (r1 & Hc1 & Ha1 & Hp1 & Hr1 & Hd1 & E); auto.
  { now rewrite Hrest. }
  { revert Hseg. apply Forall_impl. now intros ? [? _]. }
  destruct (handle_segments_spec r1 t1 file (64 + 56 * zlen hs) hs) as (r2 & t2 & w & Es & Hw & Em & Ef & P); auto.
  - split; [done|]. split; [done|]. split; [done|]. split; [lia|]. rewrite Hr1. unfold file.
    rewrite drop_app_ge, drop_app_ge by lia. rewrite Lh, Lp. now replace (_ - _)%nat with 0%nat by lia.
  - apply init_has_segments.
  - lia.
  - now rewrite Hd1.
  - cbn. lia.
  - cbn. lia.
  - unfold output_segments. rewrite length_app, length_map. cbn [length]. lia.
  - exists (set_action r2 None), t2, w. split; [|done].
    unfold ticos_core_elf_transformer_run. fold t0.
    subst events. change (handle_segments r1 t1 hs) with (prv_handle_segments fuel uninit r1 t1 hs) in E. rewrite E, Es.
    cbn [obind]. change (handle_done t2) with (@Val (sTicosCoreElfTransformer W) t2). cbn [obind]. now rewrite Hw.
Qed.
(** C12: given a valid core whose notes can be reached by reading on, memory to allocate, and a
    device with room, [ticos_core_elf_transformer_run] returns true, and the file written is a
    core with the machine and flags of the input and one segment more: every segment header
    unchanged but for its offset; the notes hold the input's bytes, the load segments the
    process's memory, and the last segment the metadata note. *)
Theorem transformer_output rio wio m copy h hs rest : let file := ehdr_bytes h ++ phdrs_bytes hs ++ rest in
  rd_ok rio -> rd_rest rio = file -> (length file + rd_credit rio + 1 < fuel)%nat -> zlen file < 2 ^ 63 ->
  core_ehdr h -> e_phoff h = 64 -> e_phnum h = zlen hs -> zlen hs + 1 < 2 ^ 16 -> Forall seg_in_ok hs ->
  notes_ok (rd_discards rio) file (64 + 56 * zlen hs) hs -> metadata_ok m -> copy_ok copy -> io_content wio = [] ->
  let segs := output_segments file copy m hs in
  let total := plan_end (sizeof_Ehdr + sizeof_Phdr * zlen segs) segs in
  total < 2 ^ 63 -> can_write fuel (MkOut wio 0) total ->
  exists reader t w, ticos_core_elf_transformer_run fuel uninit true (ticos_core_elf_reader_init rio)
      (ticos_core_elf_transformer_init wio m copy []) = Val (reader, t, true) /\
    w_e_machine w = e_machine h /\ w_e_flags w = e_flags h /\
    parses_as w segs (output_datas file copy m hs) (io_content (io (out (writer t)))).
Proof.
  intros file Hrok Hrest Hfuel Hfile Hh Hoff Hnum Hn Hseg Hnotes Hm Hc Hcont segs total Htot Hcan.
  destruct (transformer_run_spec rio wio m copy h hs rest) as (r & t & w & E & Em & Ef & P & _); try done. now exists r, t, w.
Qed.
End Spec.

(** ** The warning array

    [prv_add_warning] compares the index with the array size one off; a core with enough
    unexpected segments makes it write behind the array. *)
Section Warnings.
Context {R W : Type} `{ReadIO R} `{WriteIO W} (fuel : nat).

Lemma warnings_overflow hs : forall (reader : sTicosCoreElfReader R) (t : sTicosCoreElfTransformer W),
  0 <= next_warning_idx t <= NUM_WARNINGS -> NUM_WARNINGS < next_warning_idx t + zlen hs ->
  Forall (fun h => p_type h <> PT_NOTE /\ p_type h <> PT_LOAD) hs ->
  process_segments fuel reader t hs = Fault.
Proof.
  unfold NUM_WARNINGS. induction hs as [|h hs IH]; intros reader t Hi Hn Ht; [cbn in Hn; lia|].
  apply Forall_cons_1 in Ht as [[Ht1 Ht2] Ht]. cbn [process_segments length] in *.
  test_false (p_type h =? PT_NOTE). test_false (p_type h =? PT_LOAD). unfold prv_add_warning, NUM_WARNINGS.
  test_false (next_warning_idx t >? 16). destruct (Z.ltb_spec (next_warning_idx t) 16) as [Hlt|Hge]; cbn [obind]; [|done].
  apply IH; [cbn; lia|cbn; lia|done].
Qed.

(** the bound of [prv_add_warning] admits one warning too many: a core with 17 or more segments of
    unexpected types makes the transformer write outside its array of 16 warnings. *)
Theorem seventeenth_warning_overflows reader wio m copy hs : 16 < zlen hs ->
  Forall (fun h => p_type h <> PT_NOTE /\ p_type h <> PT_LOAD) hs ->
  process_segments (R := R) fuel reader (ticos_core_elf_transformer_init wio m copy []) hs = Fault.
Proof. intros Hn Ht. apply warnings_overflow; [done|cbn; unfold NUM_WARNINGS; lia|done]. Qed.
End Warnings.

Lemma seventeenth_warning_overflows_witness :
  process_segments 10 (ticos_core_elf_reader_init (MkReadFileIO [] [] false))
    (ticos_core_elf_transformer_init demo_fio test_metadata (fun _ _ => None) [])
    (replicate 17 (MkPhdr 6 4 0 0 0 0 0 0)) = Fault.
Proof.
  apply seventeenth_warning_overflows; [reflexivity|].
  apply Forall_replicate. split; discriminate.
Defined.

(** ** A run *)

(** A core with one note, behind the table, and one load segment of 6000 bytes at 0x1000. *)
Definition run_phdrs : list Elf_Phdr :=
  [MkPhdr PT_NOTE 4 176 0 0 3 0 0; MkPhdr PT_LOAD 5 4096 0x1000 0 6000 6000 4096].

Definition run_core : list Z := ehdr_bytes (demo_ehdr 64 2) ++ phdrs_bytes run_phdrs ++ [1; 2; 3].

(** Memory that can be read in full, in pieces of at most 1000 bytes. *)
Definition run_memory : transformer_handler :=
  fun vaddr sz => Some (map (fun i => (vaddr + i) mod 256) (seqZ 0 (Z.min sz 1000))).

Lemma run_memory_ok : copy_ok run_memory.
Proof. intros v sz bs Hs [= <-]. rewrite length_map, length_seqZ. lia. Qed.

Definition run_output : sTicosCoreElfWriteFileIO := ticos_core_elf_write_file_io_init [OsWrote 10; OsWrote 0] true 100000.

Lemma transformer_output_witness :
  exists reader t w,
    ticos_core_elf_transformer_run 20000 zeros true
      (ticos_core_elf_reader_init (MkReadFileIO run_core [OsRead 5; OsReadError true] false))
      (ticos_core_elf_transformer_init run_output test_metadata run_memory []) = Val (reader, t, true) /\
    w_e_machine w = 62 /\ w_e_flags w = 0 /\
    parses_as w (output_segments 20000 run_core run_memory test_metadata run_phdrs)
      (output_datas run_core run_memory test_metadata run_phdrs) (io_content (io (out (writer t)))).
Proof.
  apply (transformer_output 20000 zeros zeros_length (MkReadFileIO run_core [OsRead 5; OsReadError true] false) run_output
    test_metadata run_memory (demo_ehdr 64 2) run_phdrs [1; 2; 3]).
  - repeat constructor.
  - reflexivity.
  - apply Nat.ltb_lt. vm_compute. reflexivity.
  - reflexivity.
  - apply demo_core_ehdr; lia.
  - reflexivity.
  - reflexivity.
  - reflexivity.
  - constructor; [|constructor; [|constructor]]; (split; [vm_compute; repeat split; discriminate|]).
    + left. discriminate.
    + right. exists 12. split; [lia|reflexivity].
  - split; [discriminate|]. split; [now left|]. split; [discriminate|]. split; [reflexivity|]. exact I.
  - split; [cbn; lia|]. repeat (apply Forall_cons_2 || apply Forall_nil_2); cbn; lia.
  - apply run_memory_ok.
  - reflexivity.
  - vm_compute. reflexivity.
  - split; [|vm_compute; repeat split; discriminate]. split; [repeat constructor|]. cbn. lia.
Defined.

Lemma load_segment_is_memory_witness :
  let h := MkPhdr PT_LOAD 5 0 0x1000 0 6000 6000 4096 in
  zlen (load_image run_memory h) = 6000 /\
  forall i b, load_image run_memory h !! i = Some b ->
    Some ((0x1000 + Z.of_nat i) mod 256) = Some b \/
    (b = 0xef /\ exists v sz, 0 < sz /\ 0x1000 <= v /\ v + sz <= 0x1000 + 6000 /\
       (run_memory v sz = None \/ run_memory v sz = Some [])).
Proof.
  apply (load_segment_is_memory (fun a => Some (a mod 256)) run_memory (MkPhdr PT_LOAD 5 0 0x1000 0 6000 6000 4096)).
  - intros v sz bs Hs [= <-]. rewrite length_map, length_seqZ. split; [lia|]. intros i b Hi.
    apply list_lookup_fmap_Some in Hi as (x & -> & Hx). apply lookup_seqZ in Hx as [-> _]. reflexivity.
  - vm_compute. repeat split; discriminate.
  - reflexivity.
Defined.
