(* ===== verification/Ownership.v ===== *)
(** * Who frees the buffers of a core dump

    The transformer hands note buffers to the writer, which frees them in
    [ticos_core_elf_writer_finalize] with the array of segments; the warnings are strings that
    [prv_free_warnings] frees.  Here the transformer runs with a heap of blocks beside it: every
    malloc, realloc and strdup takes a fresh block, every free gives back one that must be live.
    Leaving the heap out gives the transformer of [ElfTransformer] again. *)
From stdpp Require Import gmultiset.
From S2P Require Import Prelude Cbor CborSpec ElfNote ElfMetadata Elf ElfWriter ElfFileIO ElfReader ElfReaderSpec ElfReaderFile.
From S2P Require Import ElfTransformer ElfTransformerSpec.

(** ** Blocks *)

(** Block numbers are never reused. *)
Record heap := MkHeap { live : gmultiset nat; next : nat }.

Definition empty_heap : heap := MkHeap ∅ 0.

Definition malloc (h : heap) : nat * heap := (next h, MkHeap ({[+ next h +]} ⊎ live h) (S (next h))).

(** [free(p)]: nothing for NULL; freeing a block that is not live is undefined. *)
Definition free (p : option nat) (h : heap) : outcome heap :=
  match p with
  | None => Val h
  | Some b => if decide (b ∈ live h) then Val (MkHeap (live h ∖ {[+ b +]}) (next h)) else Fault
  end.

Fixpoint free_all (ps : list (option nat)) (h : heap) : outcome heap :=
  match ps with
  | [] => Val h
  | p :: ps => let! h := free p h in free_all ps h
  end.

(** The blocks behind pointers. *)
Definition blocks (ps : list (option nat)) : gmultiset nat := list_to_set_disj (omap id ps).

Lemma blocks_app ps qs : blocks (ps ++ qs) = blocks ps ⊎ blocks qs.
Proof. unfold blocks. now rewrite omap_app, list_to_set_disj_app. Qed.

Lemma blocks_cons p ps : blocks (p :: ps) = blocks [p] ⊎ blocks ps.
Proof. exact (blocks_app [p] ps). Qed.

Lemma blocks_nil : blocks [] = ∅.
Proof. reflexivity. Qed.

Lemma blocks_none : blocks [None] = ∅.
Proof. reflexivity. Qed.

Lemma blocks_some b : blocks [Some b] = {[+ b +]}.
Proof. unfold blocks. simpl. multiset_solver. Qed.

Lemma free_ok p h rest : live h = blocks [p] ⊎ rest -> free p h = Val (MkHeap rest (next h)).
Proof.
  intros E. destruct h as [l n]. unfold free, live, next in *. subst l. destruct p as [b|].
  - rewrite blocks_some, decide_True by multiset_solver. do 2 f_equal. multiset_solver.
  - rewrite blocks_none. do 2 f_equal. multiset_solver.
Qed.

Lemma free_all_ok ps : forall h rest, live h = blocks ps ⊎ rest -> free_all ps h = Val (MkHeap rest (next h)).
Proof.
  induction ps as [|p ps IH]; intros h rest E; cbn [free_all].
  - destruct h as [l n]. cbn [live next] in *. rewrite blocks_nil in E. do 2 f_equal. subst l. multiset_solver.
  - rewrite blocks_cons in E. rewrite (free_ok p h (blocks ps ⊎ rest)) by (rewrite E; multiset_solver). cbn [obind].
    now rewrite (IH _ rest).
Qed.

(** ** Two runs side by side

    [lifts P m1 m2]: when [m2] ends normally so does [m1], with a result related to it. *)
Definition lifts {A1 A2} (P : A1 -> A2 -> Prop) (m1 : outcome A1) (m2 : outcome A2) : Prop :=
  forall a2, m2 = Val a2 -> exists a1, m1 = Val a1 /\ P a1 a2.

Lemma lifts_val {A1 A2} (P : A1 -> A2 -> Prop) a1 a2 : P a1 a2 -> lifts P (Val a1) (Val a2).
Proof. intros HP b [= <-]. eauto. Qed.

Lemma lifts_not {A1 A2} (P : A1 -> A2 -> Prop) m1 : lifts P m1 Fault.
Proof. intros b [=]. Qed.

Lemma lifts_out {A1 A2} (P : A1 -> A2 -> Prop) m1 : lifts P m1 OutOfFuel.
Proof. intros b [=]. Qed.

Lemma lifts_same {A} (m : outcome A) : lifts eq m m.
Proof. intros a E. eauto. Qed.

Lemma lifts_bind {A1 A2 B1 B2} (P : A1 -> A2 -> Prop) (Q : B1 -> B2 -> Prop) m1 m2 f1 f2 :
  lifts P m1 m2 -> (forall a1 a2, P a1 a2 -> lifts Q (f1 a1) (f2 a2)) -> lifts Q (obind m1 f1) (obind m2 f2).
Proof.
  intros Hm Hf b. destruct m2 as [a2| |] eqn:E; cbn; [|done..]. intros E2.
  destruct (Hm a2 eq_refl) as (a1 & -> & HP). cbn. now apply (Hf a1 a2).
Qed.

(** The transformer's own warnings of a note that does not reach the output. *)
Definition note_lost (w : reader_warning) : bool :=
  match w with WarnNoteRead | WarnNoteAdd => true | _ => false end.

(** The reader does not look into its handlers' state: related handlers give related runs. *)
Section Reader.
Context {R T1 T2} `{ReadIO R} `{WarningHandler T1} `{WarningHandler T2} (fuel : nat).

Section Reading.
Context (Rel : T1 -> T2 -> Prop).
Context (Hwarning : forall o t w, note_lost w = false -> Rel o t -> lifts Rel (handle_warning o w) (handle_warning t w)).

(** The same reader, related handler states, and the same result. *)
Definition same_read {A} (x : sTicosCoreElfReader R * T1 * A) (y : sTicosCoreElfReader R * T2 * A) : Prop :=
  x.1.1 = y.1.1 /\ Rel x.1.2 y.1.2 /\ x.2 = y.2.
Definition same_reader (x : sTicosCoreElfReader R * T1) (y : sTicosCoreElfReader R * T2) : Prop := x.1 = y.1 /\ Rel x.2 y.2.

Lemma read_loop_lifts f : forall reader o t buffered n acc, Rel o t ->
  lifts same_read (read_loop f reader o buffered n acc) (read_loop f reader t buffered n acc).
Proof.
  induction f as [|f IH]; intros reader o t buffered n acc HR; cbn [read_loop]; [apply lifts_out|].
  destruct (n >? 0); [|now apply lifts_val].
  eapply lifts_bind; [apply lifts_same|]. intros [io [bs|]] ? <-.
  - destruct (zlen bs =? 0); [now apply lifts_val|now apply IH].
  - destruct (read_errno_is_EINTR io); [now apply IH|].
    eapply lifts_bind; [now apply Hwarning|]. intros o1 t1 HR1. now apply lifts_val.
Qed.

Lemma prv_read_all_lifts reader o t buffered n : Rel o t ->
  lifts same_read (prv_read_all fuel reader o buffered n) (prv_read_all fuel reader t buffered n).
Proof. intros HR. unfold prv_read_all. destruct (n =? 0); [now apply lifts_val|now apply read_loop_lifts]. Qed.

Lemma read_segment_data_lifts reader o t pos n : Rel o t ->
  lifts same_read (ticos_core_elf_reader_read_segment_data fuel reader o pos n)
                  (ticos_core_elf_reader_read_segment_data fuel reader t pos n).
Proof.
  intros HR. unfold ticos_core_elf_reader_read_segment_data.
  destruct (action reader) as [[]|]; try apply lifts_not. destruct (pos <? stream_pos reader); [now apply lifts_val|].
  eapply (lifts_bind same_read).
  - destruct (pos - stream_pos reader >? 0); [|now apply lifts_val].
    eapply lifts_bind; [now apply prv_read_all_lifts|]. intros [[r1 o1] b1] [[r2 t2] b2] (E1 & HR1 & E2). cbn in *. subst.
    now apply lifts_val.
  - intros [[r1 o1] b1] [[r2 t2] b2] (E1 & HR1 & E2). cbn in *. subst.
    case_match; [now apply lifts_val|now apply prv_read_all_lifts].
Qed.
End Reading.

Section Actions.
Context `{ReaderHandler R T1} `{ReaderHandler R T2} (Rel Done : T1 -> T2 -> Prop).
Context (Hwarning : forall o t w, note_lost w = false -> Rel o t -> lifts Rel (handle_warning o w) (handle_warning t w)).
Context (Hheader : forall o t h, Rel o t -> lifts Rel (handle_elf_header (R := R) o h) (handle_elf_header (R := R) t h)).
Context (Hsegments : forall reader o t hs, Rel o t ->
  lifts (same_reader Rel) (handle_segments reader o hs) (handle_segments reader t hs)).
Context (Hdone : forall o t, Rel o t -> lifts Done (handle_done (R := R) o) (handle_done (R := R) t)).

(** While there is something to do, and at the end. *)
Definition same_action (x : sTicosCoreElfReader R * T1) (y : sTicosCoreElfReader R * T2) : Prop :=
  x.1 = y.1 /\ match action x.1 with Some _ => Rel | None => Done end x.2 y.2.

(** A warning, and on to the end. *)
Lemma warn_and_done reader o t w : note_lost w = false -> Rel o t ->
  lifts same_action (let! o := handle_warning o w in Val (set_action reader (Some ActionDone), o))
                    (let! t := handle_warning t w in Val (set_action reader (Some ActionDone), t)).
Proof. intros Hw HR. eapply lifts_bind; [now apply Hwarning|]. intros o1 t1 HR1. now apply lifts_val. Qed.

Lemma read_elf_header_lifts reader o t : Rel o t ->
  lifts same_action (prv_action_read_elf_header fuel reader o) (prv_action_read_elf_header fuel reader t).
Proof.
  intros HR. unfold prv_action_read_elf_header. eapply lifts_bind; [now apply (prv_read_all_lifts Rel)|].
  intros [[r o1] bs] [[r2 t1] bs2] (E1 & HR1 & E2). cbn [fst snd] in *. subst.
  case_match; [apply lifts_not|]. case_match; [now apply warn_and_done|]. case_match; [now apply warn_and_done|].
  eapply lifts_bind; [now apply Hheader|]. intros o3 t3 HR3.
  case_match; [now apply lifts_val|]. case_match; [|now apply warn_and_done].
  eapply lifts_bind; [now apply Hwarning|]. intros o4 t4 HR4. now apply lifts_val.
Qed.

Lemma skip_lifts reader o t : Rel o t ->
  lifts same_action (prv_action_skip_to_segment_headers fuel reader o) (prv_action_skip_to_segment_headers fuel reader t).
Proof.
  intros HR. unfold prv_action_skip_to_segment_headers. case_match; [apply lifts_not|].
  eapply lifts_bind; [now apply (prv_read_all_lifts Rel)|].
  intros [[r o1] bs] [[r2 t1] bs2] (E1 & HR1 & E2). cbn [fst snd] in *. subst.
  case_match; [now apply warn_and_done|now apply lifts_val].
Qed.

Lemma prepare_lifts malloc_ok reader o t : Rel o t ->
  lifts same_action (prv_action_prepare_segment_headers malloc_ok reader o) (prv_action_prepare_segment_headers malloc_ok reader t).
Proof.
  intros HR. unfold prv_action_prepare_segment_headers. case_match; [apply lifts_not|].
  case_match; [|now apply lifts_val]. case_match; [now apply warn_and_done|now apply lifts_val].
Qed.

Lemma read_headers_lifts reader o t : Rel o t ->
  lifts same_action (prv_action_read_segment_headers fuel reader o) (prv_action_read_segment_headers fuel reader t).
Proof.
  intros HR. unfold prv_action_read_segment_headers. eapply lifts_bind; [now apply (prv_read_all_lifts Rel)|].
  intros [[r o1] bs] [[r2 t1] bs2] (E1 & HR1 & E2). cbn [fst snd] in *. subst.
  eapply (lifts_bind (same_reader Rel)).
  - case_match; [now apply Hsegments|]. eapply lifts_bind; [now apply Hwarning|]. intros o3 t3 HR3. now apply lifts_val.
  - intros [r3 o3] [r4 t3] [E HR3]. cbn [fst snd] in *. subst. now apply lifts_val.
Qed.

Lemma run_actions_lifts turns malloc_ok : forall reader o t, action reader <> None -> Rel o t ->
  lifts (fun x y => x.1 = y.1 /\ Done x.2 y.2) (run_actions fuel turns malloc_ok reader o) (run_actions fuel turns malloc_ok reader t).
Proof.
  induction turns as [|turns IH]; intros reader o t Ha HR; cbn [run_actions];
    (destruct (action reader) as [a|]; [|done]); [apply lifts_out|].
  eapply (lifts_bind same_action).
  - destruct a; cbn [run_action].
    + now apply read_elf_header_lifts. + now apply skip_lifts. + now apply prepare_lifts. + now apply read_headers_lifts.
    + unfold prv_action_done. eapply lifts_bind; [now apply Hdone|]. intros o1 t1 HD. now apply lifts_val.
  - intros [r o1] [r2 t1] [E HR1]. cbn [fst snd] in *. subst r2. destruct (action r) eqn:E1.
    + apply IH; congruence.
    + destruct turns; cbn [run_actions]; rewrite E1; now apply lifts_val.
Qed.

Lemma read_all_lifts malloc_ok reader o t : action reader = None -> Rel o t ->
  lifts (same_read Done) (ticos_core_elf_reader_read_all fuel malloc_ok reader o)
                         (ticos_core_elf_reader_read_all fuel malloc_ok reader t).
Proof.
  intros Ha HR. unfold ticos_core_elf_reader_read_all. rewrite Ha.
  eapply lifts_bind; [now apply run_actions_lifts|]. intros [r o1] [r2 t1] [E HD]. cbn [fst snd] in *. subst. now apply lifts_val.
Qed.
End Actions.
End Reader.

(** ** The transformer with its blocks *)

(** [array], [buffers] and [messages] are the pointers the code keeps: the array of segments, the
    data of each segment ([None] for one with a callback), and the warnings.  [lost] are the
    note buffers whose last pointer is gone, [lost_metadata] those of the metadata note. *)
Record owned (W : Type) := MkOwned {
  core : sTicosCoreElfTransformer W;
  mem : heap;
  array : option nat;
  buffers : list (option nat);
  messages : list nat;
  lost : list nat;
  lost_metadata : list nat }.
Arguments MkOwned {W} _ _ _ _ _ _ _.
Arguments core {W} _.
Arguments mem {W} _.
Arguments array {W} _.
Arguments buffers {W} _.
Arguments messages {W} _.
Arguments lost {W} _.
Arguments lost_metadata {W} _.

Section Owned.
Context {R W : Type} `{ReadIO R} `{WriteIO W} (fuel : nat) (uninit : Z -> list Z).
Implicit Types (o : owned W) (t : sTicosCoreElfTransformer W) (reader : sTicosCoreElfReader R).

Definition set_core o t : owned W := MkOwned t (mem o) (array o) (buffers o) (messages o) (lost o) (lost_metadata o).

Definition own_malloc o : nat * owned W :=
  let '(b, h) := malloc (mem o) in (b, MkOwned (core o) h (array o) (buffers o) (messages o) (lost o) (lost_metadata o)).

(** A block nothing points to any more. *)
Definition lose o (b : nat) : owned W :=
  MkOwned (core o) (mem o) (array o) (buffers o) (messages o) (lost o ++ [b]) (lost_metadata o).
Definition lose_metadata o (b : nat) : owned W :=
  MkOwned (core o) (mem o) (array o) (buffers o) (messages o) (lost o) (lost_metadata o ++ [b]).

Definition own_ask_alloc o : bool * owned W := let '(ok, t) := ask_alloc (core o) in (ok, set_core o t).

(** The text of a warning is a block of its own; when the array is found full it is freed. *)
Definition own_add_warning o (w : reader_warning) : outcome (owned W) :=
  let '(b, o) := own_malloc o in
  let! t := prv_add_warning (core o) (Some w) in
  if next_warning_idx (core o) >? NUM_WARNINGS then
    let! h := free (Some b) (mem o) in
    Val (MkOwned t h (array o) (buffers o) (messages o) (lost o) (lost_metadata o))
  else Val (MkOwned t (mem o) (array o) (buffers o) (messages o ++ [b]) (lost o) (lost_metadata o)).

#[local] Instance owned_warning : WarningHandler (owned W) := { handle_warning := own_add_warning }.

(** The array of segments moves when it grows: realloc frees the old one, if any. *)
Definition own_realloc o (realloc_ok : bool) : outcome (owned W) :=
  let grow := segments_idx (writer (core o)) >=? i32 (segments_max (writer (core o))) - 1 in
  if grow && realloc_ok then
    let! h := free (array o) (mem o) in
    let '(b, h) := malloc h in
    Val (MkOwned (core o) h (Some b) (buffers o) (messages o) (lost o) (lost_metadata o))
  else Val o.

(** [add] is one of the writer's two functions, [p] the pointer it stores. *)
Definition own_add_segment o (realloc_ok : bool) (add : sTicosCoreElfWriter W -> outcome (sTicosCoreElfWriter W * bool))
    (p : option nat) : outcome (owned W * bool) :=
  let! o := own_realloc o realloc_ok in
  let! (w, ok) := add (writer (core o)) in
  let o := set_core o (set_writer (core o) w) in
  if ok : bool then
    Val (MkOwned (core o) (mem o) (array o) (buffers o ++ [p]) (messages o) (lost o) (lost_metadata o), true)
  else Val (o, false).

Definition own_process_note_segment reader o (segment : Elf_Phdr) : outcome (sTicosCoreElfReader R * owned W) :=
  let '(malloc_ok, o) := own_ask_alloc o in
  if negb malloc_ok then
    let! o := own_add_warning o WarnNoteBuffer in Val (reader, o)
  else
    let '(note_buffer, o) := own_malloc o in
    let! (reader, o, bs) :=
      ticos_core_elf_reader_read_segment_data fuel reader o (p_offset segment) (p_filesz segment) in
    if negb (zlen bs =? p_filesz segment) then
      let! o := own_add_warning (lose o note_buffer) WarnNoteRead in Val (reader, o)
    else
      let '(realloc_ok, o) := own_ask_alloc o in
      let! (o, ok) := own_add_segment o realloc_ok
        (fun w => ticos_core_elf_writer_add_segment_with_buffer realloc_ok w segment bs) (Some note_buffer) in
      if negb ok then
        let! o := own_add_warning (lose o note_buffer) WarnNoteAdd in Val (reader, o)
      else Val (reader, o).

Definition own_process_load_segment o (segment_header : Elf_Phdr) : outcome (owned W * bool) :=
  let '(realloc_ok, o) := own_ask_alloc o in
  own_add_segment o realloc_ok
    (fun w => ticos_core_elf_writer_add_segment_with_callback realloc_ok w segment_header
       (prv_write_load_segment_data_cb fuel (copy_proc_mem (core o)))) None.

Definition own_append_ticos_metadata_note o : outcome (owned W) :=
  let! note_buffer_size := ticos_core_elf_metadata_note_calculate_size (metadata (core o)) in
  let '(malloc_ok, o) := own_ask_alloc o in
  if negb malloc_ok then Val o
  else
    let '(b, o) := own_malloc o in
    let! (note_buffer, ok) :=
      ticos_core_elf_metadata_note_write (metadata (core o)) (uninit note_buffer_size) note_buffer_size in
    if negb ok then Val (lose_metadata o b)
    else
      let segment := MkPhdr PT_NOTE 0 0 0 0 note_buffer_size 0 0 in
      let '(realloc_ok, o) := own_ask_alloc o in
      let! (o, ok) := own_add_segment o realloc_ok
        (fun w => ticos_core_elf_writer_add_segment_with_buffer realloc_ok w segment note_buffer) (Some b) in
      Val (if ok : bool then o else lose_metadata o b).

Fixpoint own_process_segments reader o (segments : list Elf_Phdr) : outcome (sTicosCoreElfReader R * owned W) :=
  match segments with
  | [] => Val (reader, o)
  | segment :: segments =>
      let! (reader, o) :=
        (if p_type segment =? PT_NOTE then own_process_note_segment reader o segment
         else if p_type segment =? PT_LOAD then
           let! (o, _) := own_process_load_segment o segment in Val (reader, o)
         else
           let! o := own_add_warning o (WarnSegmentType (p_type segment)) in Val (reader, o)) in
      own_process_segments reader o segments
  end.

Definition own_handle_segments reader o (segments : list Elf_Phdr) : outcome (sTicosCoreElfReader R * owned W) :=
  let! (reader, o) := own_process_segments reader o segments in
  let! o := own_append_ticos_metadata_note o in
  let! (w, ok) := ticos_core_elf_writer_write fuel (writer (core o)) in
  Val (reader, set_core o (set_write_success (set_writer (core o) w) ok)).

Definition own_handle_elf_header o (elf_header : Elf_Ehdr) : outcome (owned W) :=
  let! t := prv_handle_elf_header (core o) elf_header in Val (set_core o t).

(** The buffers of the segments without a callback, then the array. *)
Definition ticos_core_elf_writer_finalize o : outcome heap :=
  let! h := free_all (buffers o) (mem o) in free (array o) h.

Definition prv_free_warnings o (h : heap) : outcome heap := free_all (map Some (messages o)) h.

Definition own_handle_done o : outcome (owned W) :=
  let! h := ticos_core_elf_writer_finalize o in
  let! h := prv_free_warnings o h in
  Val (MkOwned (core o) h (array o) (buffers o) (messages o) (lost o) (lost_metadata o)).

#[local] Instance owned_events : ReaderHandler R (owned W) := {
  handle_elf_header := own_handle_elf_header;
  handle_segments := own_handle_segments;
  handle_done := own_handle_done }.

Definition own_init (writer_io : W) (m : sTicosCoreElfMetadata) (copy : transformer_handler) (al : list bool) : owned W :=
  MkOwned (ticos_core_elf_transformer_init writer_io m copy al) empty_heap None [] [] [] [].

Definition own_run (malloc_ok : bool) reader o : outcome (sTicosCoreElfReader R * owned W * bool) :=
  let! (reader, o, ok) := ticos_core_elf_reader_read_all fuel malloc_ok reader o in
  Val (reader, o, ok && write_success (core o)).

(** ** What is live is what somebody points to *)

(** Warnings of lost notes among those kept. *)
Definition notes_lost t : Z :=
  zlen (List.filter note_lost (omap id (take (Z.to_nat (next_warning_idx t)) (warnings t)))).

(** [held] are the blocks in local variables, [k] lost notes whose warning is still to come.
    In a [clean] run the allocator does not fail and the metadata fits its encoding. *)
Definition owns (clean : Prop) (held : gmultiset nat) (k : Z) o : Prop :=
  live (mem o) = blocks (buffers o) ⊎ blocks [array o] ⊎ blocks (map Some (messages o)) ⊎
                 blocks (map Some (lost o)) ⊎ blocks (map Some (lost_metadata o)) ⊎ held /\
  zlen (buffers o) = segments_idx (writer (core o)) + 1 /\
  (zlen (messages o) = next_warning_idx (core o) /\ next_warning_idx (core o) <= NUM_WARNINGS) /\
  length (warnings (core o)) = 16%nat /\
  zlen (lost o) = notes_lost (core o) + k /\
  (clean -> allocs (core o) = [] /\ metadata_ok (metadata (core o)) /\ lost_metadata o = []).

Definition owned_by (clean : Prop) (held : gmultiset nat) (k : Z) o t : Prop := core o = t /\ owns clean held k o.

Context (clean : Prop).

Lemma add_warning_lifts held k o t w : owned_by clean held (k + if note_lost w then 1 else 0) o t ->
  lifts (owned_by clean held k) (own_add_warning o w) (prv_add_warning t (Some w)).
Proof.
  intros [<- (L & Hb & [Hm Hi] & Hl & Hk & Hc)]. unfold own_add_warning, own_malloc, malloc. cbn [core mem].
  unfold prv_add_warning. test_false (next_warning_idx (core o) >? NUM_WARNINGS).
  destruct (Z.ltb_spec (next_warning_idx (core o)) NUM_WARNINGS) as [Hn|]; [|apply lifts_not].
  apply lifts_val. split; [done|]. unfold owns. cbn [core mem array buffers messages lost lost_metadata live writer warnings
    next_warning_idx allocs metadata]. unfold NUM_WARNINGS in *.
  split; [rewrite L, map_app, blocks_app; cbn [map]; rewrite blocks_some; multiset_solver|]. split; [done|].
  split; [rewrite length_app; cbn [length]; lia|]. split; [now rewrite length_insert|]. split; [|done].
  rewrite Hk. unfold notes_lost. cbn [warnings next_warning_idx].
  replace (Z.to_nat (next_warning_idx (core o) + 1)) with (S (Z.to_nat (next_warning_idx (core o)))) by lia.
  rewrite (take_S_r _ _ (Some w)) by (apply list_lookup_insert_eq; lia). rewrite take_insert_ge by lia.
  rewrite omap_app, filter_app, length_app. cbn [omap list_omap id List.filter].
  destruct (note_lost w); cbn [length]; lia.
Qed.

Lemma ask_alloc_same o : exists ok t, ask_alloc (core o) = (ok, t) /\ own_ask_alloc o = (ok, set_core o t) /\ metadata t = metadata (core o) /\
  (forall held k, owns clean held k o -> owns clean held k (set_core o t) /\ (clean -> ok = true)).
Proof.
  unfold own_ask_alloc. destruct (ask_alloc (core o)) as [ok t] eqn:E. exists ok, t. split; [done|]. split; [done|].
  split; [revert E; unfold ask_alloc; destruct (allocs (core o)); now intros [= _ <-]|]. intros held k (L & Hb & Hm & Hl & Hk & Hc). revert E. unfold ask_alloc.
  destruct (allocs (core o)) as [|a al] eqn:Ea; intros [= <- <-].
  - split; [|done]. refine (conj L (conj Hb (conj Hm (conj Hl (conj Hk _))))). cbn. now rewrite Ea.
  - split; [|intros Cl; now destruct (Hc Cl)]. refine (conj L (conj Hb (conj Hm (conj Hl (conj Hk _))))).
    intros Cl. now destruct (Hc Cl).
Qed.

Lemma malloc_owns held k o : owns clean held k o ->
  core (own_malloc o).2 = core o /\ owns clean ({[+ (own_malloc o).1 +]} ⊎ held) k (own_malloc o).2.
Proof.
  intros (L & Hr). split; [done|]. split; [|exact Hr]. unfold own_malloc, malloc.
  cbn [fst snd mem live buffers array messages lost lost_metadata]. rewrite L. multiset_solver.
Qed.

Lemma lose_owns held k o b : owns clean ({[+ b +]} ⊎ held) k o -> owns clean held (k + 1) (lose o b).
Proof.
  intros (L & Hb & Hm & Hl & Hk & Hc). split; [|split; [done|split; [done|split; [done|split; [|done]]]]].
  - cbn [lose mem buffers array messages lost lost_metadata]. rewrite L, map_app, blocks_app. cbn [map]. rewrite blocks_some.
    multiset_solver.
  - cbn [lose lost core]. rewrite length_app. cbn [length]. lia.
Qed.

Lemma lose_metadata_owns held k o b : ~ clean -> owns clean ({[+ b +]} ⊎ held) k o -> owns clean held k (lose_metadata o b).
Proof.
  intros Hn (L & Hb & Hm & Hl & Hk & Hc). split; [|split; [done|split; [done|split; [done|split; [done|done]]]]].
  cbn [lose_metadata mem buffers array messages lost lost_metadata]. rewrite L, (map_app _ (lost_metadata o)), blocks_app.
  cbn [map]. rewrite blocks_some. multiset_solver.
Qed.

(** A segment more, or none. *)
Definition adds_one (realloc_ok : bool) (add : sTicosCoreElfWriter W -> outcome (sTicosCoreElfWriter W * bool)) : Prop :=
  forall w w' ok, add w = Val (w', ok) -> segments_idx w' = segments_idx w + (if ok then 1 else 0) /\ (realloc_ok = true -> ok = true).

Lemma put_segment_idx (w w' : sTicosCoreElfWriter W) slot seg : put_segment w slot seg = Val w' -> segments_idx w' = segments_idx w.
Proof. unfold put_segment. case_match; [|done]. now intros [= <-]. Qed.

Lemma alloc_next_idx realloc_ok (w : sTicosCoreElfWriter W) :
  match prv_alloc_next_segment realloc_ok w with
  | (w', Some _) => segments_idx w' = segments_idx w + 1
  | (w', None) => segments_idx w' = segments_idx w /\ realloc_ok = false
  end.
Proof. unfold prv_alloc_next_segment. destruct (_ >=? _), realloc_ok; done. Qed.

Lemma buffer_adds_one realloc_ok segment bs :
  adds_one realloc_ok (fun w => ticos_core_elf_writer_add_segment_with_buffer realloc_ok w segment bs).
Proof.
  intros w w' ok. unfold ticos_core_elf_writer_add_segment_with_buffer. pose proof (alloc_next_idx realloc_ok w) as E.
  destruct (prv_alloc_next_segment realloc_ok w) as [w1 [slot|]].
  - destruct (put_segment w1 slot _) as [w2| |] eqn:E2; cbn [obind]; [|done..]. intros [= <- <-].
    apply put_segment_idx in E2. split; [lia|done].
  - intros [= <- <-]. destruct E as [E ->]. split; [lia|done].
Qed.

Lemma callback_adds_one realloc_ok segment cb :
  adds_one realloc_ok (fun w => ticos_core_elf_writer_add_segment_with_callback realloc_ok w segment cb).
Proof.
  intros w w' ok. unfold ticos_core_elf_writer_add_segment_with_callback. pose proof (alloc_next_idx realloc_ok w) as E.
  destruct (prv_alloc_next_segment realloc_ok w) as [w1 [slot|]].
  - destruct (put_segment w1 slot _) as [w2| |] eqn:E2; cbn [obind]; [|done..]. intros [= <- <-].
    apply put_segment_idx in E2. split; [lia|done].
  - intros [= <- <-]. destruct E as [E ->]. split; [lia|done].
Qed.

(** The old array is live when realloc gives it back. *)
Lemma realloc_owns held k o realloc_ok : owns clean held k o ->
  exists o', own_realloc o realloc_ok = Val o' /\ core o' = core o /\ buffers o' = buffers o /\ owns clean held k o'.
Proof.
  intros (L & Hr). unfold own_realloc. case_match; [|now exists o].
  set (rest := blocks (buffers o) ⊎ blocks (map Some (messages o)) ⊎ blocks (map Some (lost o)) ⊎
    blocks (map Some (lost_metadata o)) ⊎ held).
  rewrite (free_ok (array o) (mem o) rest) by (rewrite L; unfold rest; multiset_solver). cbn [obind malloc live next].
  eexists. split; [reflexivity|]. split; [done|]. split; [done|]. split; [|exact Hr].
  cbn [mem buffers array messages lost lost_metadata live]. rewrite blocks_some. unfold rest. multiset_solver.
Qed.

Lemma add_segment_owns held k o realloc_ok add p w ok : adds_one realloc_ok add -> owns clean (blocks [p] ⊎ held) k o ->
  add (writer (core o)) = Val (w, ok) ->
  exists o', own_add_segment o realloc_ok add p = Val (o', ok) /\ core o' = set_writer (core o) w /\
    owns clean (if ok then held else blocks [p] ⊎ held) k o'.
Proof.
  intros Ha Ho E. unfold own_add_segment. destruct (realloc_owns _ _ _ realloc_ok Ho) as (o1 & -> & Ec & _ & L & Hb & Hm & Hl & Hk & Hc).
  cbn [obind]. rewrite Ec, E. cbn [obind]. apply Ha in E as [E _].
  destruct ok; eexists; (split; [reflexivity|]); rewrite <- Ec; (split; [done|]).
  - split; [|split; [|split; [done|split; [done|split; [done|done]]]]].
    + cbn [mem buffers array messages lost lost_metadata live set_core]. rewrite L, blocks_app. multiset_solver.
    + cbn [buffers core set_core writer set_writer]. rewrite length_app. cbn [length]. rewrite E. rewrite Ec in Hb. lia.
  - split; [done|split; [|split; [done|split; [done|split; [done|done]]]]].
    cbn [buffers core set_core writer set_writer]. rewrite Hb, Ec. lia.
Qed.

(** ** The handlers *)
#[local] Existing Instance transformer_warning.
#[local] Existing Instance transformer_events.

#[local] Abbreviation steady := (owned_by clean ∅ 0).

Lemma reader_warning_lifts held o t w : note_lost w = false -> owned_by clean held 0 o t ->
  lifts (owned_by clean held 0) (handle_warning o w) (handle_warning t w).
Proof. intros Hw HR. apply add_warning_lifts. now rewrite Hw. Qed.

Lemma note_lifts reader o t segment : steady o t ->
  lifts (same_reader steady) (own_process_note_segment reader o segment) (prv_process_note_segment fuel reader t segment).
Proof.
  intros [<- Ho]. unfold own_process_note_segment, prv_process_note_segment.
  destruct (ask_alloc_same o) as (ok & t1 & -> & -> & Em & Hs). destruct (Hs _ _ Ho) as [Ho1 _]. destruct ok; cbn [negb].
  2:{ eapply lifts_bind; [apply (add_warning_lifts ∅ 0); split; [reflexivity|exact Ho1]|]. intros o2 t2 HR2. now apply lifts_val. }
  destruct (malloc_owns _ _ _ Ho1) as [Ec Ho2]. destruct (own_malloc (set_core o t1)) as [b o2]. cbn [fst snd set_core core] in *.
  eapply (lifts_bind (same_read (owned_by clean ({[+ b +]} ⊎ ∅) 0)));
    [apply read_segment_data_lifts; [apply reader_warning_lifts|done]|].
  intros [[r o3] bs] [[r2 t3] bs2] (E1 & HR3 & E2). cbn [fst snd] in *. subst r2 bs2.
  destruct HR3 as [<- Ho3].
  destruct (negb (zlen bs =? p_filesz segment)).
  { eapply lifts_bind; [apply (add_warning_lifts ∅ 0); split; [reflexivity|exact (lose_owns ∅ 0 o3 b Ho3)]|].
    intros o4 t4 HR4. now apply lifts_val. }
  destruct (ask_alloc_same o3) as (ok2 & t4 & -> & -> & Em2 & Hs2). destruct (Hs2 _ _ Ho3) as [Ho4 _].
  destruct (ticos_core_elf_writer_add_segment_with_buffer ok2 (writer t4) segment bs) as [[w ok3]| |] eqn:E5;
    [|apply lifts_not|apply lifts_out].
  destruct (add_segment_owns ∅ 0 (set_core o3 t4) ok2 _ (Some b) w ok3 (buffer_adds_one ok2 segment bs)) as (o5 & -> & Ec5 & Ho5);
    [now rewrite blocks_some|exact E5|]. cbn [obind set_core core] in *. destruct ok3; cbn [negb].
  - now apply lifts_val.
  - eapply lifts_bind; [apply (add_warning_lifts ∅ 0); split; [exact Ec5|apply (lose_owns ∅ 0); now rewrite <- blocks_some]|].
    intros o6 t6 HR6. now apply lifts_val.
Qed.

Lemma load_lifts o t segment : steady o t ->
  lifts (fun x y => steady x.1 y.1 /\ x.2 = y.2) (own_process_load_segment o segment) (prv_process_load_segment fuel t segment).
Proof.
  intros [<- Ho]. unfold own_process_load_segment, prv_process_load_segment.
  destruct (ask_alloc_same o) as (ok & t1 & -> & -> & Em & Hs). destruct (Hs _ _ Ho) as [Ho1 _].
  set (cb := prv_write_load_segment_data_cb fuel (copy_proc_mem t1)).
  destruct (ticos_core_elf_writer_add_segment_with_callback ok (writer t1) segment cb) as [[w ok3]| |] eqn:E5;
    [|apply lifts_not|apply lifts_out].
  destruct (add_segment_owns ∅ 0 (set_core o t1) ok _ None w ok3 (callback_adds_one ok segment cb)) as (o5 & E6 & Ec5 & Ho5);
    [rewrite blocks_none; now rewrite gmultiset_disj_union_left_id|exact E5|].
  cbn [set_core core] in *. fold cb. rewrite E6. cbn [obind]. apply lifts_val. split; [|done]. split; [done|].
  cbn [fst]. destruct ok3; [done|]. revert Ho5. rewrite blocks_none. now rewrite gmultiset_disj_union_left_id.
Qed.

Lemma metadata_lifts o t : (forall n, 0 <= n -> zlen (uninit n) = n) -> steady o t ->
  lifts steady (own_append_ticos_metadata_note o) (prv_append_ticos_metadata_note uninit t).
Proof.
  intros Hu [<- Ho]. unfold own_append_ticos_metadata_note, prv_append_ticos_metadata_note.
  destruct (ticos_core_elf_metadata_note_calculate_size (metadata (core o))) as [n| |] eqn:En; [|apply lifts_not|apply lifts_out].
  cbn [obind].
  destruct (ask_alloc_same o) as (ok & t1 & -> & -> & Em & Hs). destruct (Hs _ _ Ho) as [Ho1 _]. destruct ok; cbn [negb]; [|now apply lifts_val].
  destruct (malloc_owns _ _ _ Ho1) as [Ec Ho2]. destruct (own_malloc (set_core o t1)) as [b o2]. cbn [fst snd set_core core] in *.
  subst t1.
  destruct (ticos_core_elf_metadata_note_write (metadata (core o2)) (uninit n) n) as [[nb wok]| |] eqn:Ew; [|apply lifts_not|apply lifts_out].
  cbn [obind].
  assert (Hw : clean -> wok = true).
  { intros Cl. rewrite Em in Ew. destruct Ho as (_ & _ & _ & _ & _ & Hc). destruct (Hc Cl) as (_ & Hm & _).
    destruct (metadata_note_write_ok (metadata (core o)) (uninit n) n Hm En) as [E _]; [|congruence].
    apply Hu. now apply (metadata_note_size (metadata (core o))). }
  destruct wok; cbn [negb].
  2:{ apply lifts_val. split; [done|]. apply lose_metadata_owns; [|done]. intros Cl. now discriminate Hw. }
  destruct (ask_alloc_same o2) as (ok2 & t4 & -> & -> & Em2 & Hs2). destruct (Hs2 _ _ Ho2) as [Ho4 Hok].
  set (seg := MkPhdr PT_NOTE 0 0 0 0 n 0 0).
  destruct (ticos_core_elf_writer_add_segment_with_buffer ok2 (writer t4) seg nb) as [[w ok3]| |] eqn:E5;
    [|apply lifts_not|apply lifts_out].
  destruct (add_segment_owns ∅ 0 (set_core o2 t4) ok2 _ (Some b) w ok3 (buffer_adds_one ok2 seg nb)) as (o5 & -> & Ec5 & Ho5);
    [now rewrite blocks_some|exact E5|]. cbn [obind set_core core] in *. apply lifts_val. destruct ok3; [done|].
  split; [exact Ec5|]. apply lose_metadata_owns; [|now rewrite <- blocks_some].
  intros Cl. apply buffer_adds_one in E5 as [_ E5]. discriminate (E5 (Hok Cl)).
Qed.

Lemma process_segments_lifts hs : forall reader o t, steady o t ->
  lifts (same_reader steady) (own_process_segments reader o hs) (process_segments fuel reader t hs).
Proof.
  induction hs as [|h hs IH]; intros reader o t HR; cbn [own_process_segments process_segments]; [now apply lifts_val|].
  eapply (lifts_bind (same_reader steady)).
  - destruct (p_type h =? PT_NOTE); [now apply note_lifts|]. destruct (p_type h =? PT_LOAD).
    + eapply lifts_bind; [now apply load_lifts|]. intros [o1 b1] [t1 b2] [HR1 _]. now apply lifts_val.
    + eapply lifts_bind; [now apply (add_warning_lifts ∅ 0)|]. intros o1 t1 HR1. now apply lifts_val.
  - intros [r1 o1] [r2 t1] [E HR1]. cbn [fst snd] in *. subst r2. now apply IH.
Qed.

Lemma writer_write_idx (w w' : sTicosCoreElfWriter W) ok :
  ElfWriter.ticos_core_elf_writer_write fuel w = Val (w', ok) -> segments_idx w' = segments_idx w.
Proof.
  unfold ElfWriter.ticos_core_elf_writer_write. case_match; [done|].
  destruct (prv_write_all fuel (out w) _) as [[o1 ok1]| |]; cbn [obind]; [|done..]. destruct ok1; cbn [negb]; [|now intros [= <- <-]].
  destruct (write_table fuel o1 _ _) as [[[o2 segs] ok2]| |]; cbn [obind]; [|done..]. destruct ok2; cbn [negb]; [|now intros [= <- <-]].
  destruct (write_segments fuel o2 segs) as [[o3 ok3]| |]; cbn [obind]; [|done..]. destruct ok3; cbn [negb]; [|now intros [= <- <-]].
  destruct (io_sync (io o3)) as [[s ok4]| |]; cbn [obind]; [|done..]. now intros [= <- <-].
Qed.

Context (Huninit : forall n, 0 <= n -> zlen (uninit n) = n).

Lemma handle_segments_lifts reader o t hs : steady o t ->
  lifts (same_reader steady) (own_handle_segments reader o hs) (prv_handle_segments fuel uninit reader t hs).
Proof.
  intros HR. unfold own_handle_segments, prv_handle_segments.
  eapply lifts_bind; [now apply process_segments_lifts|]. intros [r1 o1] [r2 t1] [E HR1]. cbn [fst snd] in *. subst r2.
  eapply lifts_bind; [now apply metadata_lifts|]. intros o2 t2 [<- Ho2].
  destruct (ElfWriter.ticos_core_elf_writer_write fuel (writer (core o2))) as [[w ok]| |] eqn:E; [|apply lifts_not|apply lifts_out].
  apply lifts_val. split; [done|]. split; [done|]. apply writer_write_idx in E. destruct Ho2 as (L & Hb & Hm & Hl & Hk & Hc).
  split; [done|split; [|split; [done|split; [done|split; [done|done]]]]].
  cbn [snd set_core core set_write_success writer set_writer buffers]. now rewrite E.
Qed.

Lemma handle_elf_header_lifts o t h : steady o t -> lifts steady (own_handle_elf_header o h) (prv_handle_elf_header t h).
Proof.
  intros [<- (L & Hb & Hm & Hl & Hk & Hc)]. unfold own_handle_elf_header, prv_handle_elf_header. cbn [obind].
  apply lifts_val. split; [done|]. now split; [|split; [|split; [|split; [|split]]]].
Qed.

(** What is left at the end. *)
Definition finished o t : Prop :=
  core o = t /\ live (mem o) = blocks (map Some (lost o)) ⊎ blocks (map Some (lost_metadata o)) /\
  zlen (lost o) = notes_lost t /\ (clean -> lost_metadata o = []).

Lemma handle_done_lifts o t : steady o t -> lifts finished (own_handle_done o) (prv_handle_done t).
Proof.
  intros [<- (L & Hb & Hm & Hl & Hk & Hc)]. unfold own_handle_done, prv_handle_done, ticos_core_elf_writer_finalize, prv_free_warnings.
  rewrite (free_all_ok (buffers o) (mem o) (blocks [array o] ⊎ blocks (map Some (messages o)) ⊎
    blocks (map Some (lost o)) ⊎ blocks (map Some (lost_metadata o)))) by (rewrite L; multiset_solver). cbn [obind].
  rewrite (free_ok (array o) _ (blocks (map Some (messages o)) ⊎ blocks (map Some (lost o)) ⊎ blocks (map Some (lost_metadata o))))
    by (cbn [live]; multiset_solver). cbn [obind].
  rewrite (free_all_ok (map Some (messages o)) _ (blocks (map Some (lost o)) ⊎ blocks (map Some (lost_metadata o))))
    by (cbn [live]; multiset_solver). cbn [obind].
  apply lifts_val. split; [done|]. split; [done|]. split; [cbn [lost core]; lia|]. intros Cl. now destruct (Hc Cl) as (_ & _ & ?).
Qed.

Lemma own_run_lifts malloc_ok reader o t : action reader = None -> steady o t ->
  lifts (same_read finished) (own_run malloc_ok reader o) (ticos_core_elf_transformer_run fuel uninit malloc_ok reader t).
Proof.
  intros Ha HR. unfold own_run, ticos_core_elf_transformer_run.
  eapply lifts_bind.
  - apply (read_all_lifts fuel steady finished); [apply reader_warning_lifts|apply handle_elf_header_lifts|
      intros; now apply handle_segments_lifts|apply handle_done_lifts|done|done].
  - intros [[r1 o1] b1] [[r2 t2] b2] (E1 & HF & E2). cbn [fst snd] in *. subst. destruct HF as [<- HF]. now apply lifts_val.
Qed.
End Owned.

Lemma blocks_size l : size (blocks (map Some l)) = length l.
Proof.
  induction l as [|b l IH]; [done|]. cbn [map]. rewrite blocks_cons, blocks_some, gmultiset_size_disj_union, gmultiset_size_singleton, IH.
  done.
Qed.

(** ** The theorem *)

(** C19: on any input, with any answers of the allocator and of both devices, whenever the transformer
    comes to its end it has freed no block twice, and what is still live is exactly one buffer
    for each note it warned about (it could not be read in full, or not added) and that of a
    metadata note that could not be written or added, which needs an allocation to fail. *)
Theorem transformer_frees {R W} `{ReadIO R} `{WriteIO W} fuel uninit malloc_ok (rio : R) (wio : W) m copy al reader t ok :
  (forall n, 0 <= n -> zlen (uninit n) = n) ->
  ticos_core_elf_transformer_run fuel uninit malloc_ok (ticos_core_elf_reader_init rio)
    (ticos_core_elf_transformer_init wio m copy al) = Val (reader, t, ok) ->
  exists o, own_run fuel uninit malloc_ok (ticos_core_elf_reader_init rio) (own_init wio m copy al) = Val (reader, o, ok) /\
    core o = t /\ live (mem o) = blocks (map Some (lost o ++ lost_metadata o)) /\
    Z.of_nat (size (live (mem o))) = notes_lost t + zlen (lost_metadata o) /\
    (al = [] -> metadata_ok m -> lost_metadata o = []).
Proof.
  intros Hu E. set (clean := al = [] /\ metadata_ok m).
  destruct (own_run_lifts fuel uninit clean Hu malloc_ok (ticos_core_elf_reader_init rio) (own_init wio m copy al)
    (ticos_core_elf_transformer_init wio m copy al)) with (a2 := (reader, t, ok)) as ([[r o] b] & Eo & E1 & HF & E2); [done| |done|].
  { split; [done|]. split; [done|]. split; [done|]. split; [done|]. split; [done|]. split; [done|]. now intros [-> Hm]. }
  cbn [fst snd] in *. subst r b. destruct HF as (Ec & L & Hn & Hc). exists o. split; [exact Eo|]. split; [done|].
  rewrite L, map_app, blocks_app. split; [done|]. split; [|now intros; apply Hc].
  rewrite gmultiset_size_disj_union, !blocks_size. lia.
Qed.

(** ** Two cores *)

(** The run of [transformer_output_witness]: everything is freed. *)
Definition run_input : sTicosCoreElfReadFileIO := MkReadFileIO run_core [OsRead 5; OsReadError true] false.
Definition run_fuel : nat := Z.to_nat 20000.

#[local] Abbreviation whole_run :=
  (ticos_core_elf_transformer_run run_fuel zeros true (ticos_core_elf_reader_init run_input)
    (ticos_core_elf_transformer_init run_output test_metadata run_memory [])).
#[local] Abbreviation whole_own_run :=
  (own_run run_fuel zeros true (ticos_core_elf_reader_init run_input) (own_init run_output test_metadata run_memory [])).

Lemma whole_run_ends : exists reader t, whole_run = Val (reader, t, true) /\ notes_lost t = 0.
Proof.
  assert (C : match whole_run with Val (_, t, ok) => ok && (notes_lost t =? 0) | _ => false end = true) by (vm_compute; reflexivity).
  destruct whole_run as [[[r t] ok]| |]; [|done..]. apply andb_prop in C as [-> C]. exists r, t. split; [done|]. now apply Z.eqb_eq.
Qed.

Lemma zeros_size n : 0 <= n -> zlen (zeros n) = n.
Proof. apply zeros_length. Qed.

Lemma transformer_frees_witness :
  exists reader o, whole_own_run = Val (reader, o, true) /\ live (mem o) = ∅.
Proof.
  destruct whole_run_ends as (reader & t & E & Hn).
  destruct (transformer_frees run_fuel zeros true run_input run_output test_metadata
    run_memory [] reader t true zeros_size E) as (o & Eo & _ & _ & Hs & Hm).
  exists reader, o. split; [exact Eo|]. apply gmultiset_size_empty_inv. rewrite Hn, Hm in Hs; [apply Nat2Z.inj; exact Hs|reflexivity|].
  split; [cbn; lia|]. repeat (apply Forall_cons_2 || apply Forall_nil_2); cbn; lia.
Defined.

(** A note that lies before the stream position cannot be read: its buffer stays behind. *)
Definition lost_note_core : list Z := ehdr_bytes (demo_ehdr 64 1) ++ phdrs_bytes [MkPhdr PT_NOTE 4 10 0 0 3 0 0].

Example unreadable_note_lost :
  match own_run run_fuel zeros true (ticos_core_elf_reader_init (MkReadFileIO lost_note_core [] false))
          (own_init run_output test_metadata run_memory []) with
  | Val (_, o, ok) => (ok, size (live (mem o)), lost o)
  | _ => (false, 0%nat, [])
  end = (true, 1%nat, [0%nat]).
Proof. vm_compute. reflexivity. Qed.
