(* ===== verification/Procfs.v ===== *)
(** * The memory of a dead process (src/plugins/coredump/core_elf_transformer.c)

    The transformer's handler over /proc/<pid>/mem.  What is behind the file is data; open and
    pread follow their manual pages. *)
From S2P Require Import Prelude CLib Elf ElfTransformer ElfTransformerSpec.
#[local] Open Scope string_scope.
#[local] Open Scope list_scope.
#[local] Open Scope Z_scope.

(** ** The system *)

(** The descriptor of a path, -1 when it cannot be opened; the bytes a read of a descriptor
    finds at an offset, [None] when it fails.  A process that does not run any more keeps its
    memory. *)
Record procfs := MkProcfs {
  open_read : string -> Z;
  read_at : Z -> Z -> option (list Z) }.

(** pread: no negative offset (EINVAL), no more bytes than asked for. *)
Definition pread (p : procfs) (fd count offset : Z) : option (list Z) :=
  if offset <? 0 then None else option_map (take (Z.to_nat count)) (read_at p fd offset).

(** ** The handler *)

(** sTicosCoreElfTransformerProcfsHandler: the descriptor; its function is [prv_copy_proc_mem]. *)
Record procfs_handler := MkProcfsHandler { procfs_fd : Z }.

(** The address becomes an off_t. *)
Definition prv_copy_proc_mem (p : procfs) (handler : procfs_handler) : transformer_handler :=
  fun vaddr size => pread p (procfs_fd handler) size (i64 vaddr).

(** [snprintf] into 128 bytes, more than the text can need. *)
Definition procfs_path (pid : Z) : string := "/proc/" +:+ print_Z (i32 pid) +:+ "/mem".

Definition ticos_init_core_elf_transformer_procfs_handler (p : procfs) (pid : Z) : procfs_handler * bool :=
  let fd := open_read p (procfs_path pid) in
  (MkProcfsHandler fd, negb (fd =? -1)).

(** [close_ok]: what close returns, if it is called. *)
Definition ticos_deinit_core_elf_transformer_procfs_handler (close_ok : bool) (handler : procfs_handler) : bool :=
  if procfs_fd handler =? -1 then true else close_ok.

(** The transformer's way to a process, [None] when there is none. *)
Definition proc_mem (p : procfs) (pid : Z) : option transformer_handler :=
  let '(handler, ok) := ticos_init_core_elf_transformer_procfs_handler p pid in
  if ok then Some (prv_copy_proc_mem p handler) else None.

(** ** What it promises *)
Lemma pread_bound p fd count offset bs : 0 <= count -> pread p fd count offset = Some bs -> zlen bs <= count.
Proof.
  intros Hc. unfold pread. destruct (offset <? 0); [done|]. destruct (read_at p fd offset) as [b|]; [|done]. intros [= <-].
  rewrite length_take. lia.
Qed.

Lemma copy_proc_mem_ok p handler : copy_ok (prv_copy_proc_mem p handler).
Proof. intros v sz bs Hs. apply pread_bound. lia. Qed.

Lemma proc_mem_ok p pid copy : proc_mem p pid = Some copy -> copy_ok copy.
Proof.
  unfold proc_mem, ticos_init_core_elf_transformer_procfs_handler. destruct (negb _); [|done]. intros [= <-]. apply copy_proc_mem_ok.
Qed.

(** An address in the upper half is a negative offset. *)
Lemma upper_half_not_copied p handler vaddr sz : 2 ^ 63 <= vaddr < 2 ^ 64 -> prv_copy_proc_mem p handler vaddr sz = None.
Proof.
  intros Hv. unfold prv_copy_proc_mem, pread. replace (i64 vaddr <? 0) with true; [done|]. symmetry. apply Z.ltb_lt.
  unfold i64, swrap. change (64 - 1) with 63. replace (vaddr + 2 ^ 63) with ((vaddr - 2 ^ 63) + 1 * 2 ^ 64) by lia.
  rewrite Z_mod_plus_full, Z.mod_small by lia. lia.
Qed.

(** A segment there, such as the kernel's vsyscall page, holds the placeholder only, even if the
    core the kernel wrote has its bytes. *)
Lemma upper_half_is_placeholder p handler turns : forall vaddr n, 2 ^ 63 <= vaddr -> vaddr + n <= 2 ^ 64 -> 0 <= n <= Z.of_nat turns ->
  segment_image turns (prv_copy_proc_mem p handler) vaddr n = replicate (Z.to_nat n) 0xef.
Proof.
  induction turns as [|turns IH]; intros vaddr n Hv Hn Ht; [now replace n with 0 by lia|]. cbn [segment_image].
  destruct (n >? 0) eqn:En; tests_to_props; [|now replace n with 0 by lia]. cbv zeta.
  assert (Hs : exists sz, 0 < sz <= n /\ Z.min n TICOS_CORE_ELF_TRANSFORMER_PROC_MEM_COPY_BUFFER_SIZE_BYTES = sz)
    by (eexists; split; [|reflexivity]; unfold TICOS_CORE_ELF_TRANSFORMER_PROC_MEM_COPY_BUFFER_SIZE_BYTES; lia).
  destruct Hs as (sz & Hs & ->).
  assert (E : proc_mem_chunk (prv_copy_proc_mem p handler) vaddr sz = replicate (Z.to_nat sz) 0xef)
    by (unfold proc_mem_chunk; rewrite upper_half_not_copied by lia; reflexivity).
  rewrite E, length_replicate, Z2Nat.id by lia. unfold u64. rewrite (Z.mod_small (n - sz)) by lia. destruct (Z.eq_dec n sz) as [->|Hne].
  - rewrite Z.sub_diag. destruct turns; cbn; now rewrite app_nil_r.
  - rewrite (Z.mod_small (vaddr + sz)) by lia. rewrite IH by lia. rewrite <- replicate_add. f_equal. lia.
Qed.
