(* ===== verification/GzipSpec.v ===== *)
(** * A compressed core dump

    The transformer over the gzip device: what a decompressor makes of the file is the core
    that the uncompressed output would be.  The example compressor stores its input. *)
From S2P Require Import Prelude Cbor CborSpec ElfNote ElfMetadata Elf ElfWriter ElfWriterSpec ElfWriterFile ElfFileIO GzipIO.
From S2P Require Import ElfReader ElfReaderSpec ElfReaderFile ElfTransformer ElfTransformerSpec.

Section Compressed.
Context {R Zs W : Type} `{ReadIOSpec R} `{ZlibLaws Zs} `{WriteIOSpec W} (gfuel fuel : nat) (uninit : Z -> list Z).
Hypothesis Huninit : forall n, 0 <= n -> zlen (uninit n) = n.

#[local] Instance gz_io : WriteIO (sTicosCoreElfWriteGzipIO Zs W) := gzip_io gfuel.
#[local] Instance gz_spec : WriteIOSpec (sTicosCoreElfWriteGzipIO Zs W) := gzip_io_spec gfuel.

Lemma gzip_init_ok (nx : W) (gz : sTicosCoreElfWriteGzipIO Zs W) : ticos_core_elf_write_gzip_io_init nx = Some gz -> io_ok nx -> io_content nx = [] ->
  GZIP_COMPRESSION_BUFFER_SIZE + Z.of_nat (io_credit nx) < Z.of_nat gfuel -> 64 <= io_room nx ->
  gzip_ok gfuel gz /\ z_in (zs gz) = [] /\
  forall n, 2 * n + 64 <= io_room nx -> 3 * n + 66 <= Z.of_nat gfuel -> n <= gzip_room gfuel gz.
Proof.
  unfold ticos_core_elf_write_gzip_io_init, GZIP_COMPRESSION_BUFFER_SIZE. destruct deflateInit2 as [zs0|] eqn:E; [|done].
  intros [= <-] Hok Hc Hf Hr. destruct (init_law zs0 E) as (Hz & Hin & Hout & Hfin).
  assert (K : forall n, 2 * n + 64 <= io_room nx -> 3 * n + 66 <= Z.of_nat gfuel -> n <= gzip_room gfuel (MkGzipIO nx zs0)).
  { intros n Hn Hg. unfold gzip_room, capacity. cbn [next zs]. rewrite Hin, Hout. cbn [length].
    assert (n <= (Z.of_nat 0 + io_room nx - 64) `div` 2) by (apply Z.div_le_lower_bound; lia).
    assert (n <= (Z.of_nat gfuel - 66) `div` 3) by (apply Z.div_le_lower_bound; lia). lia. }
  split; [|split; [exact Hin|exact K]]. split; [|split; [exact Hfin|apply K; lia]].
  split; [exact Hz|]. split; [exact Hok|]. split; [cbn [next zs]; congruence|exact Hf].
Qed.

(** The run over a compressing device. *)
Lemma compressed_run (rio : R) (nx : W) (gz : sTicosCoreElfWriteGzipIO Zs W) m copy h hs rest : let file := ehdr_bytes h ++ phdrs_bytes hs ++ rest in
  rd_ok rio -> rd_rest rio = file -> (length file + rd_credit rio + 1 < fuel)%nat -> zlen file < 2 ^ 63 ->
  core_ehdr h -> e_phoff h = 64 -> e_phnum h = zlen hs -> zlen hs + 1 < 2 ^ 16 -> Forall seg_in_ok hs ->
  notes_ok (rd_discards rio) file (64 + 56 * zlen hs) hs -> metadata_ok m -> copy_ok copy ->
  ticos_core_elf_write_gzip_io_init nx = Some gz -> io_ok nx -> io_content nx = [] ->
  let segs := output_segments (W := sTicosCoreElfWriteGzipIO Zs W) fuel file copy m hs in
  let total := plan_end (sizeof_Ehdr + sizeof_Phdr * zlen segs) segs in
  0 <= total < 2 ^ 63 -> 2 * total + 64 <= io_room nx -> total < Z.of_nat fuel ->
  3 * total + 66 <= Z.of_nat gfuel -> GZIP_COMPRESSION_BUFFER_SIZE + Z.of_nat (io_credit nx) < Z.of_nat gfuel ->
  exists reader t w core, ticos_core_elf_transformer_run fuel uninit true (ticos_core_elf_reader_init rio)
      (ticos_core_elf_transformer_init gz m copy []) = Val (reader, t, true) /\
    gunzip (io_content (next (io (out (writer t))))) = Some core /\
    w_e_machine w = e_machine h /\ w_e_flags w = e_flags h /\
    parses_as w segs (output_datas file copy m hs) core.
Proof.
  intros file Hrok Hrest Hfuel Hfile Hh Hoff Hnum Hn Hseg Hnotes Hm Hc Hinit Hok Hcont segs total Htot Hroom Hf Hg Hcr.
  destruct (gzip_init_ok nx gz Hinit Hok Hcont Hcr) as (Hgz & Hin & Hr); [lia|].
  destruct (transformer_run_spec fuel uninit Huninit rio gz m copy h hs rest) as (r & t & w & E & Em & Ef & P & Sy);
    try done; [apply Htot| |].
  - split; [exact Hgz|]. cbn [io write_offset]. split; [apply Hr; done|].
    split; [change (total + Z.of_nat 0 < Z.of_nat fuel); lia|]. split; [done|]. apply (Z.lt_trans _ (2 ^ 63)); [apply Htot|done].
  - exists r, t, w, (io_content (io (out (writer t)))). split; [exact E|]. split; [exact Sy|]. now split.
Qed.

(** with compression the run succeeds as without, given twice the room, and the file
    decompresses to a core with the machine and flags of the input, the same segments and the
    same data; the stream is complete when the run returns. *)
Theorem compressed_core (rio : R) (nx : W) (gz : sTicosCoreElfWriteGzipIO Zs W) m copy h hs rest : let file := ehdr_bytes h ++ phdrs_bytes hs ++ rest in
  rd_ok rio -> rd_rest rio = file -> (length file + rd_credit rio + 1 < fuel)%nat -> zlen file < 2 ^ 63 ->
  core_ehdr h -> e_phoff h = 64 -> e_phnum h = zlen hs -> zlen hs + 1 < 2 ^ 16 -> Forall seg_in_ok hs ->
  notes_ok (rd_discards rio) file (64 + 56 * zlen hs) hs -> metadata_ok m -> copy_ok copy ->
  ticos_core_elf_write_gzip_io_init nx = Some gz -> io_ok nx -> io_content nx = [] ->
  let segs := output_segments (W := sTicosCoreElfWriteGzipIO Zs W) fuel file copy m hs in
  let total := plan_end (sizeof_Ehdr + sizeof_Phdr * zlen segs) segs in
  0 <= total < 2 ^ 63 -> 2 * total + 64 <= io_room nx -> total < Z.of_nat fuel ->
  3 * total + 66 <= Z.of_nat gfuel -> GZIP_COMPRESSION_BUFFER_SIZE + Z.of_nat (io_credit nx) < Z.of_nat gfuel ->
  exists reader t w core, ticos_core_elf_transformer_run fuel uninit true (ticos_core_elf_reader_init rio)
      (ticos_core_elf_transformer_init gz m copy []) = Val (reader, t, true) /\
    gunzip (io_content (next (io (out (writer t))))) = Some core /\
    w_e_machine w = e_machine h /\ w_e_flags w = e_flags h /\
    parses_as w segs (output_datas file copy m hs) core.
Proof.
  intros file Hrok Hrest Hfuel Hfile Hh Hoff Hnum Hn Hseg Hnotes Hm Hc Hinit Hok Hcont segs total Htot Hroom Hf Hg Hcr.
  eapply compressed_run; eassumption.
Qed.
End Compressed.

(** ** A compressor that stores *)
Record stored := MkStored { st_in : list Z; st_out : list Z; st_ended : bool }.

#[export] Instance stored_zlib : Zlib stored := {
  deflateInit2 := Some (MkStored [] [] false);
  deflate s next_in avail_out finish :=
    if finish : bool then
      if st_ended s then MkDeflate s 0 [] Z_STREAM_END
      else MkDeflate (MkStored (st_in s) (st_out s ++ [0]) true) 0 [0] Z_STREAM_END
    else
      let piece := take (Z.to_nat avail_out) next_in in
      MkDeflate (MkStored (st_in s ++ piece) (st_out s ++ piece) (st_ended s)) (length piece) piece Z_OK }.

#[export] Program Instance stored_laws : ZlibLaws stored := {
  z_ok s := st_out s = st_in s ++ (if st_ended s then [0] else []);
  z_in := st_in;
  z_out := st_out;
  z_finishing := st_ended;
  gunzip l := Some (take (length l - 1) l) }.
Next Obligation. intros zs [= <-]. done. Qed.
Next Obligation. intros s E. cbv beta in E. rewrite E. destruct (st_ended s); lens. Qed.
Next Obligation.
  intros s data avail E Hf Hd Ha. cbv beta in E. rewrite Hf, app_nil_r in E. cbn. rewrite Hf, E, app_nil_r.
  assert (length data <> 0)%nat by (destruct data; [done|cbn; lia]). rewrite length_take.
  split; [done|]. split; [lia|]. split; [lia|]. split; [lia|]. split; [done|]. split; [done|]. split; [|done].
  f_equal. destruct (Nat.le_gt_cases (length data) (Z.to_nat avail)); [rewrite !take_ge by lia; done|now rewrite Nat.min_l by lia].
Qed.
Next Obligation.
  intros s avail E Ha. cbv beta in E. cbn. destruct (st_ended s) eqn:Ee; cbn.
  - rewrite Ee, app_nil_r. split; [lia|]. split; [exact E|]. split; [done|]. split; [done|]. right. split; [done|].
    rewrite E. f_equal. rewrite length_app. cbn [length]. replace (length (st_in s) + 1 - 1)%nat with (length (st_in s)) by lia.
    apply take_app_length.
  - rewrite app_nil_r in E. rewrite E. split; [lia|]. split; [done|]. split; [done|]. split; [done|]. right. split; [done|].
    f_equal. rewrite length_app. cbn [length]. replace (length (st_in s) + 1 - 1)%nat with (length (st_in s)) by lia.
    apply take_app_length.
Qed.

Definition run_gzip : sTicosCoreElfWriteGzipIO stored sTicosCoreElfWriteFileIO := MkGzipIO run_output (MkStored [] [] false).

Lemma compressed_core_witness :
  exists reader t w core,
    ticos_core_elf_transformer_run (H0 := gzip_io 100000) 20000 zeros true
      (ticos_core_elf_reader_init (MkReadFileIO run_core [OsRead 5; OsReadError true] false))
      (ticos_core_elf_transformer_init run_gzip test_metadata run_memory []) = Val (reader, t, true) /\
    gunzip (io_content (next (io (out (writer t))))) = Some core /\
    w_e_machine w = 62 /\ w_e_flags w = 0 /\
    parses_as w (output_segments (H1 := gzip_io 100000) 20000 run_core run_memory test_metadata run_phdrs)
      (output_datas run_core run_memory test_metadata run_phdrs) core.
Proof.
  apply (compressed_core 100000 20000 zeros zeros_length (MkReadFileIO run_core [OsRead 5; OsReadError true] false) run_output
    run_gzip test_metadata run_memory (demo_ehdr 64 2) run_phdrs [1; 2; 3]).
  - repeat constructor.
  - reflexivity.
  - apply Nat.ltb_lt. vm_compute. reflexivity.
  - reflexivity.
  - apply demo_core_ehdr; lia.
  - reflexivity.
  - reflexivity.
  - reflexivity.
  - constructor; [|constructor; [|constructor]]; (split; [vm_compute; repeat split; discriminate|]).
    + left. discriminate.
    + right. exists 12. split; [lia|reflexivity].
  - split; [discriminate|]. split; [now left|]. split; [discriminate|]. split; [reflexivity|]. exact I.
  - split; [cbn; lia|]. repeat (apply Forall_cons_2 || apply Forall_nil_2); cbn; lia.
  - apply run_memory_ok.
  - reflexivity.
  - split; [repeat constructor|]. cbn. lia.
  - reflexivity.
  - vm_compute. split; [discriminate|reflexivity].
  - vm_compute. discriminate.
  - vm_compute. reflexivity.
  - vm_compute. discriminate.
  - vm_compute. reflexivity.
Defined.
