(* ===== verification/DeviceInv.v ===== *)
(** * What the output device keeps

    A property of the output device that every write keeps is kept by the whole
    transformation of a core, whatever the device answers: the writer and the transformer touch
    the device through its operations only, in pieces that fit in memory. *)
From S2P Require Import Prelude CborSpec ElfNote ElfMetadata Elf ElfWriter ElfWriterSpec ElfFileIO GzipIO.
From S2P Require Import ElfReader ElfTransformer ElfTransformerSpec.

(** Objects are smaller than that. *)
Definition fits (d : list Z) : Prop := zlen d < 2 ^ 63.

(** Take a computation that gave a value apart. *)
Ltac outcome_step :=
  match goal with
  | H : obind ?m _ = Val _ |- _ => destruct m as [?| |] eqn:?; cbn [obind] in H; [|discriminate H|discriminate H]
  | H : Val _ = Val _ |- _ => injection H; clear H; intros; subst
  | H : Fault = Val _ |- _ => discriminate H
  | H : OutOfFuel = Val _ |- _ => discriminate H
  | H : (if ?b then _ else _) = Val _ |- _ => destruct b eqn:?
  | p : (_ * _)%type |- _ => destruct p
  end.
Ltac outcome_inv := repeat outcome_step.

(** [keeps]: what keeps the device. *)
Create HintDb keeps.

Section Writer.
Context {S : Type} `{WriteIO S} (fuel : nat).

(** [P] holds while data is written, [F] from then on. *)
Variables P F : S -> Prop.
Hypothesis keeps_write : forall s d s' n, P s -> fits d -> io_write s d = Val (s', n) -> P s'.
Hypothesis keeps_sync : forall s s' b, P s -> io_sync s = Val (s', b) -> F s'.
Hypothesis keeps_end : forall s, P s -> F s.

Lemma write_loop_keeps n : forall s d s' b, P s -> fits d -> write_loop n s d = Val (s', b) -> P s'.
Proof.
  induction n as [|n IH]; intros s d s' b Hs Hd E; cbn [write_loop] in E; [done|].
  outcome_inv; eauto. all: eapply IH; [| |eassumption]; [eauto|unfold fits in *; lens].
Qed.

Lemma write_all_keeps (o o' : sWriterOut S) d b : P (io o) -> fits d -> prv_write_all fuel o d = Val (o', b) -> P (io o').
Proof. unfold prv_write_all, prv_io_write_all. intros Hs Hd E. outcome_inv; cbn [io]; eapply write_loop_keeps; eauto. Qed.
#[local] Hint Resolve write_all_keeps : keeps.

Lemma padding_loop_keeps n : forall (o o' : sWriterOut S) sz b, P (io o) -> padding_loop fuel n o sz = Val (o', b) -> P (io o').
Proof.
  assert (Z : forall sz, fits (zeros (Z.min PADDING_WRITE_SIZE sz))).
  { intros sz. unfold fits, zeros, PADDING_WRITE_SIZE. lens. }
  induction n as [|n IH]; intros o o' sz b Hs E; cbn [padding_loop] in E; outcome_inv; eauto with keeps.
Qed.
#[local] Hint Resolve padding_loop_keeps : keeps.

Lemma write_padding_keeps (o o' : sWriterOut S) sz b : P (io o) -> prv_write_padding fuel o sz = Val (o', b) -> P (io o').
Proof. unfold prv_write_padding. intros Hs E. outcome_inv; eauto with keeps. Qed.
#[local] Hint Resolve write_padding_keeps : keeps.

(** What may stand in the segment array. *)
Definition segment_keeps (wrapper : sTicosCoreElfWriterSegment S) : Prop :=
  match data wrapper with
  | Buffer d => fits d
  | Callback fn => forall o h o' b, P (io o) -> fn o h = Val (o', b) -> P (io o')
  end.
Definition slot_keeps (slot : option (sTicosCoreElfWriterSegment S)) : Prop :=
  match slot with Some wrapper => segment_keeps wrapper | None => True end.

Lemma write_table_keeps segs : forall (o o' : sWriterOut S) off segs' b, P (io o) -> Forall slot_keeps segs ->
  write_table fuel o segs off = Val (o', segs', b) -> P (io o') /\ Forall slot_keeps segs'.
Proof.
  induction segs as [|[w|] segs IH]; intros o o' off segs' b Hs Hf E; cbn [write_table] in E; [|apply Forall_cons_1 in Hf as [Hw Hf]|done].
  - outcome_inv. auto.
  - assert (fits (phdr_bytes (set_p_offset (header w) (u64 (off + prv_calc_padding off (header w)))))).
    { unfold fits. rewrite phdr_bytes_length. lia. }
    outcome_inv; [split; [eauto with keeps|constructor; auto]|].
    edestruct IH as [IH1 IH2]; [..|eassumption|]; eauto with keeps.
Qed.

Lemma write_segment_keeps (o o' : sWriterOut S) wrapper b : P (io o) -> segment_keeps wrapper ->
  write_segment fuel o wrapper = Val (o', b) -> P (io o').
Proof.
  unfold write_segment, segment_keeps. intros Hs Hw E. destruct (data wrapper); outcome_inv; eauto with keeps.
  all: match goal with L : load ?d _ _ = Val ?d' |- _ =>
    assert (fits d') by (revert L; unfold load, fits in *; case_test; [intros [= <-]; lens|done]) end; eauto with keeps.
Qed.

Lemma write_segments_keeps segs : forall (o o' : sWriterOut S) b, P (io o) -> Forall slot_keeps segs ->
  write_segments fuel o segs = Val (o', b) -> P (io o').
Proof.
  induction segs as [|[w|] segs IH]; intros o o' b Hs Hf E; cbn [write_segments] in E; [|apply Forall_cons_1 in Hf as [Hw Hf]|done].
  all: outcome_inv; eauto using write_segment_keeps.
Qed.

Definition writer_keeps (w : sTicosCoreElfWriter S) : Prop := P (io (out w)) /\ Forall slot_keeps (segments w).

Lemma elf_header_fits (w : sTicosCoreElfWriter S) n : fits (ehdr_bytes (elf_header w n)).
Proof. reflexivity. Qed.

Lemma writer_write_keeps (w w' : sTicosCoreElfWriter S) b : writer_keeps w ->
  ticos_core_elf_writer_write fuel w = Val (w', b) -> F (io (out w')).
Proof.
  intros [Hs Hf] E. unfold ticos_core_elf_writer_write in E. pose proof (elf_header_fits w).
  outcome_inv; cbn [out set_out io].
  all: match goal with T : write_table _ _ _ _ = _ |- _ => eapply write_table_keeps in T as [? ?];
         [|eauto with keeps|now apply Forall_take] | _ => idtac end; eauto 6 using write_segments_keeps with keeps.
Qed.


(** Growing the array. *)
Lemma alloc_keeps ok (w w' : sTicosCoreElfWriter S) slot : writer_keeps w -> prv_alloc_next_segment ok w = (w', slot) -> writer_keeps w'.
Proof.
  unfold prv_alloc_next_segment, writer_keeps. intros [Hs Hf] E.
  repeat case_match; simplify_eq/=; split; auto. now apply Forall_resize.
Qed.

Lemma put_segment_keeps (w w' : sTicosCoreElfWriter S) slot seg : writer_keeps w -> segment_keeps seg ->
  put_segment w slot seg = Val w' -> writer_keeps w'.
Proof. unfold put_segment, writer_keeps. intros [Hs Hf] Hseg E. outcome_inv. split; [done|]. cbn. now apply Forall_insert. Qed.

Lemma add_buffer_keeps ok (w w' : sTicosCoreElfWriter S) h d b : writer_keeps w -> fits d ->
  ticos_core_elf_writer_add_segment_with_buffer ok w h d = Val (w', b) -> writer_keeps w'.
Proof.
  unfold ticos_core_elf_writer_add_segment_with_buffer. intros Hw Hd E. destruct (prv_alloc_next_segment ok w) as [w1 slot] eqn:A.
  apply alloc_keeps in A; [|done]. destruct slot; outcome_inv; [|done]. eapply put_segment_keeps; [| |eassumption]; done.
Qed.

Lemma add_callback_keeps ok (w w' : sTicosCoreElfWriter S) h fn b : writer_keeps w ->
  (forall o h o' b, P (io o) -> fn o h = Val (o', b) -> P (io o')) ->
  ticos_core_elf_writer_add_segment_with_callback ok w h fn = Val (w', b) -> writer_keeps w'.
Proof.
  unfold ticos_core_elf_writer_add_segment_with_callback. intros Hw Hd E. destruct (prv_alloc_next_segment ok w) as [w1 slot] eqn:A.
  apply alloc_keeps in A; [|done]. destruct slot; outcome_inv; [|done]. eapply put_segment_keeps; [| |eassumption]; done.
Qed.

(** ** The transformer *)
Section Transformer.
Context {R : Type} `{ReadIO R} (uninit : Z -> list Z).
Implicit Type t : sTicosCoreElfTransformer S.
Implicit Type reader : sTicosCoreElfReader R.

(** A bound on what the stream still gives. *)
Variable left : R -> Z.
Hypothesis left_nonneg : forall r, 0 <= left r.
Hypothesis left_read : forall r b n r' res, io_read r b n = Val (r', res) ->
  match res with ReadBytes bs => zlen bs + left r' <= left r | ReadError => left r' <= left r end.
Hypothesis uninit_length : forall n, 0 <= n -> zlen (uninit n) = n.

Definition reader_keeps reader : Prop := left (r_io reader) < 2 ^ 63.
Definition transformer_keeps t : Prop := writer_keeps (writer t) /\ copy_ok (copy_proc_mem t) /\ metadata_ok (metadata t).
#[local] Instance warnings_of_transformer : WarningHandler (sTicosCoreElfTransformer S) := transformer_warning.
#[local] Instance events_of_transformer : ReaderHandler R (sTicosCoreElfTransformer S) := transformer_events fuel uninit.

Lemma add_warning_keeps t t' w : transformer_keeps t -> prv_add_warning t w = Val t' -> transformer_keeps t'.
Proof. unfold prv_add_warning. intros Ht E. destruct w; outcome_inv; done. Qed.
#[local] Hint Resolve add_warning_keeps : keeps.

Lemma ask_alloc_keeps t t' b : transformer_keeps t -> ask_alloc t = (b, t') -> transformer_keeps t'.
Proof. unfold ask_alloc. intros Ht E. case_match; simplify_eq/=; done. Qed.

Lemma read_loop_keeps n : forall reader t b sz acc reader' t' acc', transformer_keeps t ->
  read_loop n reader t b sz acc = Val (reader', t', acc') ->
  transformer_keeps t' /\ zlen acc' + left (r_io reader') <= zlen acc + left (r_io reader).
Proof.
  induction n as [|n IH]; intros reader t b sz acc reader' t' acc' Ht E; cbn [read_loop] in E; [done|].
  destruct (sz >? 0); [|outcome_inv; split; [done|lia]].
  destruct (io_read (r_io reader) b sz) as [[r res]| |] eqn:Er; cbn [obind] in E; [|done..].
  apply left_read in Er. destruct res as [bs|].
  - destruct (zlen bs =? 0).
    + outcome_inv. split; [done|]. cbn [advance r_io]. lens.
    + eapply IH in E; [|done]. destruct E as [? E]. split; [done|]. cbn [advance r_io] in E. autorewrite with lens in E. lia.
  - destruct (read_errno_is_EINTR r).
    + eapply IH in E; [|done]. destruct E as [? E]. split; [done|]. cbn [advance r_io] in E. lia.
    + outcome_inv. cbn [advance r_io]. split; [|lia]. exact (add_warning_keeps _ _ (Some WarnReadFailure) Ht ltac:(eassumption)).
Qed.

Lemma read_all_keeps reader t b sz reader' t' acc' : transformer_keeps t ->
  prv_read_all fuel reader t b sz = Val (reader', t', acc') ->
  transformer_keeps t' /\ zlen acc' + left (r_io reader') <= left (r_io reader).
Proof.
  intros Ht E. unfold prv_read_all in E. case_match; [outcome_inv; split; [done|cbn; lia]|].
  eapply read_loop_keeps in E; [|done..]. cbn in E. done.
Qed.

(** The end of a read: the bytes fit in memory. *)
Lemma read_buffer_keeps reader t b sz reader' t' acc' : reader_keeps reader -> transformer_keeps t ->
  prv_read_all fuel reader t b sz = Val (reader', t', acc') -> reader_keeps reader' /\ transformer_keeps t' /\ fits acc'.
Proof.
  intros Hr Ht E. apply read_all_keeps in E as [Ht' Hl]; [|done]. pose proof (left_nonneg (r_io reader')).
  unfold reader_keeps, fits in *. split; [lia|]. split; [done|lia].
Qed.

Lemma read_segment_keeps reader t pos sz reader' t' bs : reader_keeps reader -> transformer_keeps t ->
  ticos_core_elf_reader_read_segment_data fuel reader t pos sz = Val (reader', t', bs) ->
  reader_keeps reader' /\ transformer_keeps t' /\ fits bs.
Proof.
  intros Hr Ht E. unfold ticos_core_elf_reader_read_segment_data in E.
  destruct (action reader) as [[]|]; try done. destruct (pos <? stream_pos reader); [outcome_inv; done|].
  destruct (pos - stream_pos reader >? 0); cbn [obind andb] in E; [|eauto using read_buffer_keeps].
  destruct (prv_read_all fuel reader t false _) as [[[r1 t1] b1]| |] eqn:E1; cbn [obind] in E; [|done..].
  apply read_buffer_keeps in E1 as (? & ? & _); [|done..]. case_match; [outcome_inv; done|]. eauto using read_buffer_keeps.
Qed.

Lemma load_loop_keeps n copy : copy_ok copy -> forall (o o' : sWriterOut S) vaddr sz b, P (io o) ->
  load_loop fuel n copy o vaddr sz = Val (o', b) -> P (io o').
Proof.
  intros Hc. induction n as [|n IH]; intros o o' vaddr sz b Hs E; cbn [load_loop] in E; outcome_inv; tests_to_props; eauto.
  all: assert (fits (proc_mem_chunk copy vaddr (Z.min sz TICOS_CORE_ELF_TRANSFORMER_PROC_MEM_COPY_BUFFER_SIZE_BYTES))) by
    (unfold fits; pose proof (chunk_length copy vaddr (Z.min sz TICOS_CORE_ELF_TRANSFORMER_PROC_MEM_COPY_BUFFER_SIZE_BYTES) Hc);
     unfold TICOS_CORE_ELF_TRANSFORMER_PROC_MEM_COPY_BUFFER_SIZE_BYTES in *; lia).
  all: unfold ticos_core_elf_writer_write_segment_data in *; eauto using write_all_keeps.
Qed.

Lemma process_note_keeps reader reader' t t' h : reader_keeps reader -> transformer_keeps t ->
  prv_process_note_segment fuel reader t h = Val (reader', t') -> reader_keeps reader' /\ transformer_keeps t'.
Proof.
  intros Hr Ht E. unfold prv_process_note_segment in E. destruct (ask_alloc t) as [ok t1] eqn:A. apply ask_alloc_keeps in A; [|done].
  destruct (negb ok); [outcome_inv; split; eauto with keeps|].
  destruct (ticos_core_elf_reader_read_segment_data fuel reader t1 (p_offset h) (p_filesz h)) as [[[r2 t2] bs]| |] eqn:Er; cbn [obind] in E; [|done..].
  apply read_segment_keeps in Er as (Hr2 & Ht2 & Hb); [|done..].
  destruct (negb (zlen bs =? p_filesz h)); [outcome_inv; split; eauto with keeps|].
  destruct (ask_alloc t2) as [ok2 t3] eqn:A2. apply ask_alloc_keeps in A2 as (Hw & Hc & Hm); [|done].
  destruct (ticos_core_elf_writer_add_segment_with_buffer ok2 (writer t3) h bs) as [[w ok3]| |] eqn:Ew; cbn [obind] in E; [|done..].
  apply add_buffer_keeps in Ew; [|done..].
  assert (transformer_keeps (set_writer t3 w)) by done. outcome_inv; split; eauto with keeps.
Qed.

Lemma process_load_keeps t t' h b : transformer_keeps t -> prv_process_load_segment fuel t h = Val (t', b) -> transformer_keeps t'.
Proof.
  intros Ht E. unfold prv_process_load_segment in E. destruct (ask_alloc t) as [ok t1] eqn:A.
  apply ask_alloc_keeps in A as (Hw & Hc & Hm); [|done]. outcome_inv. split; [|done]. cbn [set_writer writer].
  eapply add_callback_keeps; [exact Hw| |eassumption]. intros o h' o' b' Ho El. eapply load_loop_keeps; [exact Hc|exact Ho|exact El].
Qed.

Lemma append_note_keeps t t' : transformer_keeps t -> prv_append_ticos_metadata_note uninit t = Val t' -> transformer_keeps t'.
Proof.
  intros Ht E. unfold prv_append_ticos_metadata_note in E.
  destruct (ticos_core_elf_metadata_note_calculate_size (metadata t)) as [n| |] eqn:En; cbn [obind] in E; [|done..].
  destruct (ask_alloc t) as [ok t1] eqn:A.
  assert (M : metadata t1 = metadata t) by (revert A; unfold ask_alloc; repeat case_match; intros [= _ <-]; done).
  apply ask_alloc_keeps in A as (Hw & Hc & Hm); [|done]. destruct (negb ok); [outcome_inv; done|].
  pose proof (metadata_note_size _ _ (proj2 (proj2 Ht)) En).
  destruct (metadata_note_write_ok (metadata t1) (uninit n) n) as [Ew Hl]; [done|now rewrite M|apply uninit_length; lia|].
  rewrite Ew in E. cbn [obind negb] in E. destruct (ask_alloc t1) as [ok2 t2] eqn:A2. apply ask_alloc_keeps in A2 as (Hw2 & Hc2 & Hm2); [|done].
  outcome_inv. split; [|done]. cbn [set_writer writer]. eapply add_buffer_keeps; [exact Hw2| |eassumption]. unfold fits. lia.
Qed.

Lemma process_segments_keeps hs : forall reader reader' t t', reader_keeps reader -> transformer_keeps t ->
  process_segments fuel reader t hs = Val (reader', t') -> transformer_keeps t'.
Proof.
  induction hs as [|h hs IH]; intros reader reader' t t' Hr Ht E; cbn [process_segments] in E; [outcome_inv; done|].
  destruct (p_type h =? PT_NOTE); [|destruct (p_type h =? PT_LOAD)].
  - destruct (prv_process_note_segment fuel reader t h) as [[r1 t1]| |] eqn:E1; cbn [obind] in E; [|done..].
    apply process_note_keeps in E1 as [? ?]; eauto.
  - destruct (prv_process_load_segment fuel t h) as [[t1 b]| |] eqn:E1; cbn [obind] in E; [|done..].
    apply process_load_keeps in E1; eauto.
  - destruct (prv_add_warning t _) as [t1| |] eqn:E1; cbn [obind] in E; [|done..]. apply add_warning_keeps in E1; eauto.
Qed.

(** [F] is enough from the writer's run on. *)
Definition transformer_ends t : Prop := F (io (out (writer t))).

Lemma transformer_keeps_ends t : transformer_keeps t -> transformer_ends t.
Proof. intros [[Hw _] _]. now apply keeps_end. Qed.

Lemma handle_segments_ends reader reader' t t' hs : reader_keeps reader -> transformer_keeps t ->
  prv_handle_segments fuel uninit reader t hs = Val (reader', t') -> transformer_ends t'.
Proof.
  intros Hr Ht E. unfold prv_handle_segments in E.
  destruct (process_segments fuel reader t hs) as [[r1 t1]| |] eqn:E1; cbn [obind] in E; [|done..].
  apply process_segments_keeps in E1; [|done..].
  destruct (prv_append_ticos_metadata_note uninit t1) as [t2| |] eqn:E2; cbn [obind] in E; [|done..].
  apply append_note_keeps in E2 as (Hw & _ & _); [|done].
  destruct (ticos_core_elf_writer_write fuel (writer t2)) as [[w b]| |] eqn:E3; cbn [obind] in E; [|done..].
  apply writer_write_keeps in E3; [|done]. outcome_inv. exact E3.
Qed.

(** Before the segments are handled, and afterwards only the last action is left. *)
Definition stage reader t : Prop :=
  (reader_keeps reader /\ transformer_keeps t) \/ (action reader = Some ActionDone \/ action reader = None) /\ transformer_ends t.

Lemma set_action_stage reader t a : reader_keeps reader -> transformer_keeps t -> stage (set_action reader a) t.
Proof. left. done. Qed.

Lemma warned_stage reader t t' w a : reader_keeps reader -> transformer_keeps t -> handle_warning t w = Val t' ->
  stage (set_action reader a) t'.
Proof. intros Hr Ht E. left. split; [exact Hr|]. exact (add_warning_keeps _ _ (Some w) Ht E). Qed.

Lemma handle_header_keeps t t' h : transformer_keeps t -> prv_handle_elf_header t h = Val t' -> transformer_keeps t'.
Proof. unfold prv_handle_elf_header. intros Ht E. outcome_inv. done. Qed.

Lemma run_action_stage ok a reader reader' t t' : action reader = Some a -> stage reader t ->
  run_action fuel ok a reader t = Val (reader', t') -> stage reader' t'.
Proof.
  intros Ha [[Hr Ht]|[[Hd|Hd] He]] E; [|rewrite Hd in Ha; injection Ha as <-; cbn in E; outcome_inv; right; split; [now right|done]|congruence].
  destruct a; cbn [run_action] in E.
  - unfold prv_action_read_elf_header in E.
    destruct (prv_read_all fuel reader t true sizeof_Ehdr) as [[[r1 t1] bs]| |] eqn:E1; cbn [obind] in E; [|done..].
    apply read_buffer_keeps in E1 as (Hr1 & Ht1 & _); [|done..]. 
    assert (W : forall w a, (let! t := handle_warning t1 w in Val (set_action (set_elf_hdr r1 (parse_ehdr bs)) a, t)) = Val (reader', t') ->
      stage reader' t') by (intros w a Ew; outcome_inv; eauto using warned_stage).
    destruct (zlen bs >? sizeof_Ehdr); [done|]. destruct (zlen bs <? sizeof_Ehdr); [exact (W _ _ E)|].
    destruct (negb (ticos_core_elf_reader_is_valid_core_elf _ _)); [exact (W _ _ E)|].
    destruct (handle_elf_header (R := R) t1 _) as [t2| |] eqn:E2; cbn [obind] in E; [|done..]. apply handle_header_keeps in E2; [|done].
    outcome_inv; eauto using warned_stage, set_action_stage.
  - unfold prv_action_skip_to_segment_headers in E. case_match; [done|].
    destruct (prv_read_all fuel reader t false _) as [[[r1 t1] bs]| |] eqn:E1; cbn [obind] in E; [|done..].
    apply read_buffer_keeps in E1 as (Hr1 & Ht1 & _); [|done..]. outcome_inv; eauto using warned_stage, set_action_stage.
  - unfold prv_action_prepare_segment_headers in E. case_match; [done|].
    outcome_inv; eauto using warned_stage, set_action_stage.
  - unfold prv_action_read_segment_headers in E.
    destruct (prv_read_all fuel reader t true _) as [[[r1 t1] bs]| |] eqn:E1; cbn [obind] in E; [|done..].
    apply read_buffer_keeps in E1 as (Hr1 & Ht1 & _); [|done..].
    destruct (zlen bs =? _); [|outcome_inv; eauto using warned_stage].
    destruct (handle_segments r1 t1 _) as [[r2 t2]| |] eqn:E2; cbn [obind] in E; [|done..]. apply handle_segments_ends in E2; [|done..].
    outcome_inv. right. split; [now left|done].
  - cbn in E. outcome_inv. left. done.
Qed.

Lemma run_actions_ends ok n : forall reader reader' t t', stage reader t ->
  run_actions fuel n ok reader t = Val (reader', t') -> transformer_ends t'.
Proof.
  assert (G : forall reader t, stage reader t -> transformer_ends t).
  { intros reader t [[_ Ht]|[_ He]]; [now apply transformer_keeps_ends|done]. }
  induction n as [|n IH]; intros reader reader' t t' Hs E; cbn [run_actions] in E; destruct (action reader) eqn:Ha; outcome_inv; eauto.
  eapply IH; [|eassumption]. eapply run_action_stage; [exact Ha|exact Hs|eassumption].
Qed.

Lemma transformer_run_keeps ok io reader' t' stream m copy allocs b : P io -> left stream < 2 ^ 63 -> copy_ok copy -> metadata_ok m ->
  ticos_core_elf_transformer_run fuel uninit ok (ticos_core_elf_reader_init stream) (ticos_core_elf_transformer_init io m copy allocs) =
    Val (reader', t', b) -> F (ElfWriter.io (out (writer t'))).
Proof.
  intros Hio Hl Hc Hm E. unfold ticos_core_elf_transformer_run, ticos_core_elf_reader_read_all in E. cbn [ticos_core_elf_reader_init action] in E.
  outcome_inv. eapply run_actions_ends; [|eassumption]. left. split; [exact Hl|]. split; [|done]. split; [done|]. constructor.
Qed.
End Transformer.
End Writer.

(** ** A file with its size limit *)
Definition is_error (a : os_write) : bool := match a with OsError _ => true | OsWrote _ => false end.
Definition os_errors (answers : list os_write) : Z := zlen (List.filter is_error answers).

(** Every failed write(2) takes one byte off the account, so the file may pass the limit [m] by
    as many bytes; [e] is a bound on the failures, those to come included. *)
Definition within (m e : Z) (fio : sTicosCoreElfWriteFileIO) : Prop :=
  max_size fio = m /\ zlen (fd_content fio) <= m + e /\
  exists k, 0 <= k /\ k + os_errors (os_answers fio) <= e /\ written_size fio = u64 (zlen (fd_content fio) - k).

Lemma within_init answers sync_ok m : 0 <= m ->
  within m (os_errors answers) (ticos_core_elf_write_file_io_init answers sync_ok m).
Proof. intros Hm. split; [done|]. split; [cbn; unfold os_errors; lia|]. exists 0. now split. Qed.

Lemma within_write m e fio d fio' n : 0 <= m -> m + e < 2 ^ 63 -> within m e fio -> fits d ->
  io_write fio d = Val (fio', n) -> within m e fio'.
Proof.
  unfold fits. intros Hm Hme (Em & Hc & k & Hk & He & Hw) Hd E. cbn [io_write file_io] in E. unfold prv_fio_write in E. rewrite Hw, Em in E.
  set (c := zlen (fd_content fio)) in *. assert (0 <= c) by lia.
  destruct (u64 (u64 (c - k) + zlen d) >? m) eqn:Hlim; [outcome_inv; split; [done|]; split; [done|]; exists k; done|].
  assert (0 <= os_errors (os_answers fio)) by (unfold os_errors; lia).
  assert (Hfit : c + zlen d <= m + e).
  { rewrite u64_add in Hlim. tests_to_props. destruct (Z.le_gt_cases 0 (c - k + zlen d)); [|lia].
    rewrite u64_small in Hlim; lia. }
  assert (A : forall x, u64 (u64 (c - k) + u64 x) = u64 (c - k + x)) by (intros x; unfold u64; now rewrite <- Zplus_mod).
  unfold os_write_call in E. destruct (os_answers fio) as [|[x|x] rest] eqn:Eo; outcome_inv; unfold within; cbn [set_written_size max_size fd_content os_answers written_size].
  - split; [done|]. split; [lens|]. exists k. split; [done|]. split; [unfold os_errors in *; cbn in *; lia|].
    rewrite Hw. rewrite A. f_equal. lens.
  - split; [done|]. split; [lens|]. exists k. split; [done|]. split; [done|].
    rewrite Hw. rewrite A. f_equal. lens.
  - split; [done|]. split; [fold c; lia|]. exists (k + 1). split; [lia|]. split; [unfold os_errors in *; cbn in *; lia|].
    rewrite Hw. rewrite A. f_equal. fold c. lia.
Qed.

(** ** A compressed stream *)
Section Gzip.
Context {Zs W : Type} `{ZlibLaws Zs} `{WriteIO W} (fuel : nat) (P : W -> Prop).
Hypothesis keeps_write : forall s d s' n, P s -> fits d -> io_write s d = Val (s', n) -> P s'.
Implicit Type gzio : sTicosCoreElfWriteGzipIO Zs W.

Definition gzip_keeps gzio : Prop := P (next gzio) /\ z_ok (zs gzio) /\ z_finishing (zs gzio) = false.
Definition gzip_ends gzio : Prop := P (next gzio).

Lemma pass_on_keeps nx d nx' b : P nx -> zlen d <= GZIP_COMPRESSION_BUFFER_SIZE -> prv_io_write_all fuel nx d = Val (nx', b) -> P nx'.
Proof.
  unfold GZIP_COMPRESSION_BUFFER_SIZE. intros Hn Hd E. eapply (write_loop_keeps P keeps_write); [exact Hn| |exact E]. unfold fits. lia.
Qed.

Lemma deflate_loop_keeps turns : forall gzio d gzio' b, gzip_keeps gzio -> deflate_loop fuel turns gzio d = Val (gzio', b) -> gzip_keeps gzio'.
Proof.
  induction turns as [|turns IH]; intros gzio d gzio' b Hg E; cbn [deflate_loop] in E; destruct (Z.gtb_spec (zlen d) 0); [done|outcome_inv; done| |outcome_inv; done].
  destruct Hg as (Hn & Hz & Hf).
  destruct (write_law (zs gzio) d GZIP_COMPRESSION_BUFFER_SIZE Hz Hf) as (Hrv & _ & Hl & _ & Hz' & Hf' & _); [intros ->; cbn in *; lia|done|].
  set (r := deflate _ _ _ _) in *. rewrite Hrv in E. change (negb (Z_OK =? Z_OK)) with false in E. cbv iota in E.
  destruct (prv_io_write_all fuel (next gzio) (produced r)) as [[nx ok]| |] eqn:Ew; cbn [obind] in E; [|done..].
  apply pass_on_keeps in Ew; [|done..]. assert (gzip_keeps (MkGzipIO nx (zs_after r))) by done. outcome_inv; eauto.
Qed.

Lemma finish_loop_keeps turns : forall gzio gzio' b, P (next gzio) -> z_ok (zs gzio) -> finish_loop fuel turns gzio = Val (gzio', b) -> P (next gzio').
Proof.
  induction turns as [|turns IH]; intros gzio gzio' b Hn Hz E; cbn [finish_loop] in E; [done|].
  destruct (finish_law (zs gzio) GZIP_COMPRESSION_BUFFER_SIZE Hz) as (Hl & Hz' & _); [done|]. set (r := deflate _ _ _ _) in *.
  destruct (negb (deflate_rv r =? Z_OK) && _); [outcome_inv; done|].
  destruct (prv_io_write_all fuel (next gzio) (produced r)) as [[nx ok]| |] eqn:Ew; cbn [obind] in E; [|done..].
  apply pass_on_keeps in Ew; [|done..]. outcome_inv; eauto. eapply IH; [| |eassumption]; done.
Qed.

Lemma gzip_write_keeps gzio d gzio' n : gzip_keeps gzio -> prv_write fuel gzio d = Val (gzio', n) -> gzip_keeps gzio'.
Proof. unfold prv_write. intros Hg E. outcome_inv. eapply deflate_loop_keeps; eauto. Qed.

Lemma gzip_sync_keeps gzio gzio' b : gzip_keeps gzio -> prv_sync fuel gzio = Val (gzio', b) -> gzip_ends gzio'.
Proof. intros (Hn & Hz & _) E. eapply finish_loop_keeps; eauto. Qed.
End Gzip.
