(* ===== verification/CoreHandler.v ===== *)
(** * The program the kernel starts with a core (ticos-core-handler.c)

    It forwards its arguments and its standard input, the core, to the daemon, and waits for an
    exit code.  [opts] are the options getopt returns, [args] what follows them; what the
    system answers is in [handler_env].  The second part follows the program statement by statement
    with its socket, its files and the handler of signals, which may run between any two. *)
From S2P Require Import Prelude CLib.
#[local] Open Scope string_scope.
#[local] Open Scope list_scope.
#[local] Open Scope Z_scope.

Definition SOCKET_PATH : string := "/tmp/ticos-ipc.sock".
Definition TX_BUFFER_SIZE : Z := 1024.
Definition EXIT_FAILURE : Z := 1.

(** ** Numbers of any base (strtol with base 0) *)
Definition digit_value (b : Z) : Z :=
  if (48 <=? b) && (b <=? 57) then b - 48
  else if (97 <=? b) && (b <=? 122) then b - 87
  else if (65 <=? b) && (b <=? 90) then b - 55
  else 36.

Fixpoint digits (base acc : Z) (s : list Z) : Z :=
  match s with
  | [] => acc
  | b :: r => if digit_value b <? base then digits base (acc * base + digit_value b) r else acc
  end.

Definition strtol_base0 (text : string) : Z :=
  let s := bytes_of_string (skip_spaces text) in
  let '(sign, s) := match s with 45 :: r => (-1, r) | 43 :: r => (1, r) | _ => (1, s) end in
  let n :=
    match s with
    | 48 :: x :: d :: r => if ((x =? 120) || (x =? 88)) && (digit_value d <? 16) then digits 16 0 (d :: r) else digits 8 0 s
    | 48 :: _ => digits 8 0 s
    | _ => digits 10 0 s
    end in
  clamp_long (sign * n).

(** ** Options *)
Record options := MkOptions { completion_timeout : Z; tx_retry_count : Z }.

(** [None] when the program ends with its usage. *)
Fixpoint parse_options (opts : list (ascii * string)) (o : options) : option options :=
  match opts with
  | [] => Some o
  | (letter, optarg) :: opts =>
      match letter with
      | "r"%char => parse_options opts (MkOptions (completion_timeout o) (i32 (strtol_base0 optarg)))
      | "t"%char => parse_options opts (MkOptions (i32 (strtol_base0 optarg)) (tx_retry_count o))
      | _ => None
      end
  end.

(** ** The message *)

(** strncpy of [n] bytes to [&buf[offset]], padded with NULs. *)
Definition strncpy (buf : list Z) (offset : Z) (src : string) (n : Z) : outcome (list Z) :=
  if (offset <? 0) || (offset + n >? zlen buf) then Fault
  else
    let data := take (Z.to_nat n) (bytes_of_string src) in
    store buf offset (data ++ zeros (n - zlen data)).

(** The next argument, and the offset behind its NUL. *)
Definition append_argument (buf : list Z) (offset : Z) (arg : string) : outcome (list Z * Z) :=
  let! buf := strncpy buf offset arg (u64 (i32 (TX_BUFFER_SIZE - offset - 1))) in
  let! s := c_string (drop (Z.to_nat offset) buf) in
  Val (buf, offset + (zlen (bytes_of_string s) + 1)).

Fixpoint append_arguments (buf : list Z) (offset : Z) (args : list string) : outcome (list Z * Z) :=
  match args with
  | [] => Val (buf, offset)
  | arg :: args => let! (buf, offset) := append_argument buf offset arg in append_arguments buf offset args
  end.

(** The first [offset] bytes of the buffer are sent. *)
Definition build_message (args : list string) : outcome (list Z) :=
  let! (buf, offset) := append_arguments (zeros TX_BUFFER_SIZE) 0 ("CORE" :: "ELF" :: args) in
  load buf 0 offset.

(** ** Sending *)

(** The answers of sendmsg, success when they are used up; the number of sleeps. *)
Fixpoint send_loop (answers : list bool) (i tx_retry_count : Z) : Z * bool :=
  match answers with
  | false :: answers =>
      let i := i + 1 in
      if i >? tx_retry_count then (i - 1, false) else send_loop answers i tx_retry_count
  | _ => (i, true)
  end.

Record handler_env := MkHandlerEnv {
  socket_ok : bool;
  mkstemps_ok : bool;
  unlink_ok : bool;
  bind_ok : bool;
  sendmsg_ok : list bool;
  recv : option (list Z) }.

(** What was sent, how often the program slept, the exit status; [recv] answers [None] for -1, and
    gives at most [TX_BUFFER_SIZE] bytes. *)
Record handler_run := MkRun { sent : option (list Z); sleeps : Z; status : Z }.

Definition core_handler_main (env : handler_env) (opts : list (ascii * string)) (args : list string) : outcome handler_run :=
  match parse_options opts (MkOptions 60 10) with
  | None => Val (MkRun None 0 EXIT_FAILURE)
  | Some o =>
      if negb (socket_ok env) || negb (mkstemps_ok env) || negb (unlink_ok env) || negb (bind_ok env) then Val (MkRun None 0 EXIT_FAILURE)
      else
        let! msg := build_message args in
        let '(n, ok) := send_loop (sendmsg_ok env) 0 (tx_retry_count o) in
        if negb ok then Val (MkRun None n EXIT_FAILURE)
        else
          match recv env with
          | Some (b :: rest as answer) =>
              if Z.min (zlen answer) TX_BUFFER_SIZE =? 4 then Val (MkRun (Some msg) n b)
              else Val (MkRun (Some msg) n EXIT_FAILURE)
          | _ => Val (MkRun (Some msg) n EXIT_FAILURE)
          end
  end.

(** ** Statement by statement *)

(** The next system call of [main]. *)
Inductive handler_pc := AtSocket | AtMkstemps | AtCloseTmp | AtUnlink | AtBind | AtSend | AtRecv | AtClose | AtUnlinkEnd | Ended.

(** The socket behind the global [fd]; the variable keeps the number when it is closed. *)
Inductive handler_fd := FdUnset | FdOpen (shut : bool) | FdClosed.

(** The next system call of the signal handler. *)
Inductive signal_pc := SigShutdown | SigUnlink.

(** [named]: [resp_socket] holds the name that mkstemps has chosen; [file]: there is a file of that
    name; [running] are the signal handlers on top of each other. *)
Record handler_state := MkHandlerState {
  pc : handler_pc;
  fd : handler_fd;
  tmp_socket : bool;
  named : bool;
  file : bool;
  tries : Z;
  exit_code : Z;
  running : list signal_pc }.

Definition handler_start : handler_state := MkHandlerState AtSocket FdUnset false false false 0 EXIT_FAILURE [].

Definition goto (p : handler_pc) (m : handler_state) : handler_state :=
  MkHandlerState p (fd m) (tmp_socket m) (named m) (file m) (tries m) (exit_code m) (running m).
Definition set_fd (f : handler_fd) (m : handler_state) : handler_state :=
  MkHandlerState (pc m) f (tmp_socket m) (named m) (file m) (tries m) (exit_code m) (running m).
Definition set_tmp (open : bool) (m : handler_state) : handler_state :=
  MkHandlerState (pc m) (fd m) open (named m) (file m) (tries m) (exit_code m) (running m).
Definition set_name (m : handler_state) : handler_state :=
  MkHandlerState (pc m) (fd m) (tmp_socket m) true (file m) (tries m) (exit_code m) (running m).
Definition set_file (there : bool) (m : handler_state) : handler_state :=
  MkHandlerState (pc m) (fd m) (tmp_socket m) (named m) there (tries m) (exit_code m) (running m).
Definition set_tries (i : Z) (m : handler_state) : handler_state :=
  MkHandlerState (pc m) (fd m) (tmp_socket m) (named m) (file m) i (exit_code m) (running m).
Definition set_exit (code : Z) (m : handler_state) : handler_state :=
  MkHandlerState (pc m) (fd m) (tmp_socket m) (named m) (file m) (tries m) code (running m).
Definition set_running (l : list signal_pc) (m : handler_state) : handler_state :=
  MkHandlerState (pc m) (fd m) (tmp_socket m) (named m) (file m) (tries m) (exit_code m) l.

Section Steps.
Context (can_unlink : bool) (tx_retry_count : Z).

(** One statement of [main]; [ok] is what its system call answers, [answer] what recv gives. *)
Definition main_step (ok : bool) (answer : option (list Z)) (m : handler_state) : option handler_state :=
  match pc m with
  | AtSocket => Some (if ok then goto AtMkstemps (set_fd (FdOpen false) m) else goto AtClose m)
  | AtMkstemps => Some (if ok then goto AtCloseTmp (set_tmp true (set_file true (set_name m))) else goto AtClose m)
  | AtCloseTmp => Some (goto AtUnlink (set_tmp false m))
  | AtUnlink => Some (if file m && negb can_unlink then goto AtClose m else goto AtBind (set_file false m))
  | AtBind => Some (if ok then goto AtSend (set_file true m) else goto AtClose m)
  | AtSend =>
      Some (if ok then goto AtRecv m
            else if tries m + 1 >? tx_retry_count then goto AtClose m else set_tries (tries m + 1) m)
  | AtRecv =>
      Some (goto AtClose
        match answer with
        | Some (b :: _ as bytes) => if Z.min (zlen bytes) TX_BUFFER_SIZE =? 4 then set_exit b m else m
        | _ => m
        end)
  | AtClose => Some (goto AtUnlinkEnd (match fd m with FdOpen _ => set_fd FdClosed m | _ => m end))
  | AtUnlinkEnd => Some (goto Ended (if can_unlink then set_file false m else m))
  | Ended => None
  end.

(** The handler: shutdown of the socket, if there is one, and unlink; it returns to the statement
    that was interrupted. *)
Definition prv_sig_handler (m : handler_state) : option handler_state :=
  match running m with
  | [] => None
  | SigShutdown :: rest =>
      Some (set_running (SigUnlink :: rest) (match fd m with FdOpen _ => set_fd (FdOpen true) m | _ => m end))
  | SigUnlink :: rest => Some (set_running rest (if named m && can_unlink then set_file false m else m))
  end.

(** A statement of main, one of the handler on top, or a signal. *)
Inductive handler_choice := MainStep (ok : bool) (answer : option (list Z)) | HandlerStep | SignalArrives.

Definition handler_act (c : handler_choice) (m : handler_state) : option handler_state :=
  match c with
  | MainStep ok answer => match running m with [] => main_step ok answer m | _ => None end
  | HandlerStep => prv_sig_handler m
  | SignalArrives => match pc m with Ended => None | _ => Some (set_running (SigShutdown :: running m) m) end
  end.

Fixpoint handler_play (cs : list handler_choice) (m : handler_state) : option handler_state :=
  match cs with
  | [] => Some m
  | c :: cs => match handler_act c m with Some m => handler_play cs m | None => None end
  end.

(** The run in which nothing disturbs the program; the answers are those of [env]. *)
Definition answer_of (env : handler_env) (m : handler_state) : bool :=
  match pc m with
  | AtSocket => socket_ok env
  | AtMkstemps => mkstemps_ok env
  | AtBind => bind_ok env
  | AtSend => nth (Z.to_nat (tries m)) (sendmsg_ok env) true
  | _ => true
  end.

Fixpoint undisturbed (env : handler_env) (n : nat) (m : handler_state) : handler_state :=
  match n with
  | O => m
  | S n => match main_step (answer_of env m) (recv env) m with Some m => undisturbed env n m | None => m end
  end.
End Steps.

(** [prv_usage], whose text [core_handler_main] leaves out. *)
Definition prv_usage (cmd : string) : string :=
  "Usage: " +:+ cmd +:+ " [-r tx_retry_count] [-t completion_timeout] ARGS ..." +:+ String "010" EmptyString.
