(* ===== verification/Coredump.v ===== *)
(** * The core dump plugin (src/plugins/coredump/coredump.c, src/util/disk.c)

    The handler of the messages of ticos-core-handler: it finds the PID, asks the rate limiter
    and the disk, runs the transformer from the stream into a new file, and queues an entry
    with the file's name.  It acts on the daemon, on the files of the device and on its own
    handle.  What the system answers while one message is handled is in [core_env]. *)
From stdpp Require Import gmap.
From S2P Require Import Prelude CLib Network TxQueue Daemon Plugins RateLimiter.
From S2P Require Import ElfMetadata Elf ElfWriter ElfFileIO GzipIO ElfReader ElfTransformer Procfs.
#[local] Open Scope string_scope.
#[local] Open Scope list_scope.
#[local] Open Scope Z_scope.

Definition CORE_PATTERN_PATH : string := "/proc/sys/kernel/core_pattern".
Definition CORE_PATTERN : string := "|/usr/sbin/ticos-core-handler %P".
Definition COMPRESSION_DEFAULT : string := "gzip".

(** ** disk.c *)

(** statfs: block size, free blocks, blocks available to users. *)
Record statfs := MkStatfs { f_bsize : Z; f_bfree : Z; f_bavail : Z }.

Definition ticosd_get_free_space (buf : option statfs) (privileged : bool) : Z :=
  match buf with
  | None => 0
  | Some buf => u64 (f_bsize buf * (if privileged then f_bfree buf else f_bavail buf))
  end.

(** The sizes nftw reports, [None] when it fails. *)
Definition ticosd_get_folder_size (walk : option (list Z)) : Z :=
  match walk with
  | None => 0
  | Some sizes => foldl (fun total st_size => u64 (total + st_size)) 0 sizes
  end.

(** ** The message *)

(** strnlen over at most [n] bytes. *)
Fixpoint strnlen (s : list Z) (n : Z) : outcome Z :=
  if n =? 0 then Val 0
  else
    match s with
    | [] => Fault
    | b :: s => if b =? 0 then Val 0 else let! k := strnlen s (n - 1) in Val (k + 1)
    end.

(** The digits strtol takes after [acc], and where it stops; it reads one character more. *)
Fixpoint strtol_digits (acc : Z) (s : list Z) : outcome (Z * list Z) :=
  match s with
  | [] => Fault
  | b :: r => if (48 <=? b) && (b <=? 57) then strtol_digits (10 * acc + (b - 48)) r else Val (acc, s)
  end.

Fixpoint strtol_spaces (s : list Z) : outcome (list Z) :=
  match s with
  | [] => Fault
  | b :: r => if (b =? 32) || ((9 <=? b) && (b <=? 13)) then strtol_spaces r else Val s
  end.

(** strtol in base 10: the value, and the text at [endptr]; [None] when there is no digit and
    [endptr] is the beginning. *)
Definition strtol (s : list Z) : outcome (option (Z * list Z)) :=
  let! s := strtol_spaces s in
  let '(sign, s) := match s with 45 :: r => (-1, r) | 43 :: r => (1, r) | _ => (1, s) end in
  match s with
  | [] => Fault
  | b :: _ =>
      if (48 <=? b) && (b <=? 57) then
        let! (n, rest) := strtol_digits 0 s in Val (Some (clamp_long (sign * n), rest))
      else Val None
  end.

(** The PID of a message in [buf] of [received_size] bytes, [None] when it is malformed.  An
    unknown subtype is only logged. *)
Definition message_pid (buf : list Z) (received_size : Z) : outcome (option Z) :=
  let! n := strnlen buf received_size in
  let offset := u64 (n + 1) in
  if offset >=? received_size then Val None
  else
    let! m := strnlen (drop (Z.to_nat offset) buf) (u64 (received_size - offset)) in
    let! _ := strcmp_equal (bytes_of_string "ELF") (drop (Z.to_nat offset) buf) in
    let offset := u64 (offset + (m + 1)) in
    if offset >=? received_size then Val None
    else
      let! r := strtol (drop (Z.to_nat offset) buf) in
      match r with
      | None => Val None
      | Some (pid, endptr) =>
          match endptr with
          | [] => Fault
          | b :: _ => if negb (b =? 0) then Val None else Val (Some (i32 pid))
          end
      end.

(** ** State *)
Record sTicosdPlugin := MkCoredump {
  enable_data_collection : bool;
  rate_limiter : option sTicosdRateLimiter;
  core_dir : string;
  gzip_enabled : bool }.

Section Coredump.
Context {Q C W R Zs : Type} `{TxQueue Q, ConfigOps C, NetworkOps W, ReadIO R, Zlib Zs}.
Context (ticosd_sdk_version : string) (fuel : nat) (uninit : Z -> list Z).

Record core_world := MkCoreWorld {
  ticosd : sTicosd Q C W;
  fs : files;
  handle : sTicosdPlugin }.

(** The answers to one message: the descriptor sent along, the disk, the UUID, the clock,
    whether the history of the limiter can be written, /proc/pid/mem, whether the file can be
    made (it does not exist yet), what write(2) and fsync answer, allocations of the
    transformer and of the reader. *)
Record core_env := MkCoreEnv {
  file_stream : option R;
  fs_stat : option statfs;
  fs_walk : option (list Z);
  uuid_str : string;
  now : Z;
  limiter_fopen : bool;
  proc : procfs;
  open_ok : bool;
  out_answers : list os_write;
  out_fsync : bool;
  transformer_allocs : list bool;
  reader_malloc : bool;
  can_unlink : bool }.

Definition on_ticosd {A} (m : M (sTicosd Q C W) A) : M core_world A := fun w =>
  let! (t, a) := m (ticosd w) in Val (MkCoreWorld t (fs w) (handle w), a).

Definition set_fs (f : files) (w : core_world) : core_world := MkCoreWorld (ticosd w) f (handle w).

(** ** The handler *)
Definition prv_generate_filename (env : core_env) (prefix extension : string) : M core_world (option string) := fun w =>
  on_ticosd (ticos_asprintf "%s/%s%s%s"
    [ArgS (Some (core_dir (handle w))); ArgS (Some prefix); ArgS (Some (uuid_str env)); ArgS (Some extension)]) w.

Definition non_empty (s : option string) : option string :=
  match s with Some s => if String.eqb s EmptyString then None else Some s | None => None end.

(** [None] for false. *)
Definition prv_init_metadata (env : core_env) (t : sTicosd Q C W) : option sTicosCoreElfMetadata :=
  let device_settings := ticosd_get_device_settings t in
  match non_empty (ticosd_get_string (Some EmptyString) "software_type" t),
        non_empty (ticosd_get_string (Some EmptyString) "software_version" t) with
  | Some software_type, Some software_version =>
      Some (MkMetadata (bytes_of_string ticosd_sdk_version) (u32 (if negb (now env =? -1) then now env else 0))
        (bytes_of_string (device_id device_settings)) (bytes_of_string (Network.hardware_version device_settings))
        (bytes_of_string software_type) (bytes_of_string software_version))
  | _, _ => None
  end.

(** The transformer over one of the two devices: what the file holds afterwards, and the
    result. *)
Definition run_transformer {D} `{WriteIO D} (env : core_env) (stream : R) (io : D) (m : sTicosCoreElfMetadata)
    (copy : transformer_handler) : outcome (D * bool) :=
  let! (_, t, ok) := ticos_core_elf_transformer_run fuel uninit (reader_malloc env) (ticos_core_elf_reader_init stream)
    (ticos_core_elf_transformer_init io m copy (transformer_allocs env)) in
  Val (ElfWriter.io (out (writer t)), ok).

(** Without metadata the cleanup closes the descriptor of a handler that was never set. *)
Definition prv_transform_coredump_from_fd_to_file (env : core_env) (path : string) (stream : R) (pid max_size : Z)
    : M core_world bool := fun w =>
  match prv_init_metadata env (ticosd w) with
  | None => Fault
  | Some metadata =>
      match proc_mem (proc env) pid with
      | None => Val (w, false)
      | Some copy =>
          if negb (open_ok env) || bool_decide (is_Some (fs w !! path)) then Val (w, false)
          else
            let writer_io := ticos_core_elf_write_file_io_init (out_answers env) (out_fsync env) max_size in
            if gzip_enabled (handle w) then
              match ticos_core_elf_write_gzip_io_init (Zs := Zs) writer_io with
              | None => Val (set_fs (<[path := []]> (fs w)) w, false)
              | Some gzip =>
                  let! (d, ok) := run_transformer (H4 := gzip_io fuel) env stream gzip metadata copy in
                  Val (set_fs (<[path := fd_content (next d)]> (fs w)) w, ok)
              end
            else
              let! (d, ok) := run_transformer env stream writer_io metadata copy in
              Val (set_fs (<[path := fd_content d]> (fs w)) w, ok)
      end
  end.

(** The entry, [None] when malloc fails, and the payload size. *)
Definition prv_build_queue_entry (gzip_enabled : bool) (filename : string) : M core_world (option (list Z) * Z) :=
  let type := if gzip_enabled then kTicosdTxDataType_CoreUploadWithGzip else kTicosdTxDataType_CoreUpload in
  let filename_len := zlen (bytes_of_string filename) in
  let* ok := on_ticosd malloc_ok in
  ret (if negb ok then None else Some (type :: bytes_of_string filename ++ [0]), u32 (filename_len + 1)).

(** A limit in KiB from the configuration, written through an int pointer into a size_t. *)
Definition limit_kib (key : string) (t : sTicosd Q C W) : Z :=
  u32 (default 0 (ticosd_get_integer (Some "coredump_plugin") key t)).

Definition prv_check_for_available_space (env : core_env) (t : sTicosd Q C W) : Z :=
  let min_headroom := limit_kib "storage_min_headroom_kib" t in
  let max_usage := limit_kib "storage_max_usage_kib" t in
  let max_size := limit_kib "coredump_max_size_kib" t in
  if (min_headroom =? 0) && (max_usage =? 0) && (max_size =? 0) then ticosd_get_free_space (fs_stat env) false
  else
    let min_headroom := u64 (min_headroom * 1024) in
    let max_usage := u64 (max_usage * 1024) in
    let max_size := u64 (max_size * 1024) in
    let free := ticosd_get_free_space (fs_stat env) true in
    let used := ticosd_get_folder_size (fs_walk env) in
    if negb (min_headroom =? 0) && (free <=? min_headroom) then 0
    else
      let headroom_delta := if negb (min_headroom =? 0) then free - min_headroom else 2 ^ 64 - 1 in
      if negb (max_usage =? 0) && (used >=? max_usage) then 0
      else
        let usage_delta := if negb (max_usage =? 0) then max_usage - used else 2 ^ 64 - 1 in
        Z.min (Z.min headroom_delta usage_delta) max_size.

Definition unlink (env : core_env) (path : string) : M core_world unit := fun w =>
  Val (if can_unlink env then set_fs (delete path (fs w)) w else w, tt).

(** The limiter's handle and file are in the state. *)
Definition check_event (env : core_env) : M core_world bool := fun w =>
  let! (limiter, fs, ok) := ticosd_rate_limiter_check_event (now env) (limiter_fopen env) (rate_limiter (handle w)) (fs w) in
  Val (MkCoreWorld (ticosd w) fs
         (MkCoredump (enable_data_collection (handle w)) limiter (core_dir (handle w)) (gzip_enabled (handle w))), ok).

(** What follows once the file has its name. *)
Definition store_core (env : core_env) (stream : R) (pid max_size : Z) (outfile : string) : M core_world bool :=
  let* gzip := gets (fun w => gzip_enabled (handle w)) in
  let* ok := prv_transform_coredump_from_fd_to_file env outfile stream pid max_size in
  if negb ok then let* _ := unlink env outfile in let* _ := unlink env outfile in ret false
  else
    let* (data, payload_size) := prv_build_queue_entry gzip outfile in
    match data with
    | None => let* _ := unlink env outfile in ret false
    | Some data =>
        let* ok := on_ticosd (ticosd_txdata (Some data) payload_size) in
        if negb ok then let* _ := unlink env outfile in ret false else ret true
    end.

Definition prv_msg_handler (env : core_env) (buf : list Z) (received_size : Z) : M core_world bool :=
  match file_stream env with
  | None => ret false
  | Some stream =>
      let* pid := lift (message_pid buf received_size) in
      match pid with
      | None => ret false
      | Some pid =>
          let* enabled := gets (fun w => enable_data_collection (handle w)) in
          if negb enabled then ret true
          else
            let* allowed := check_event env in
            if negb allowed then ret true
            else
              let* max_size := gets (fun w => prv_check_for_available_space env (ticosd w)) in
              if max_size =? 0 then ret false
              else
                let* extension := gets (fun w => if gzip_enabled (handle w) then ".gz" else EmptyString) in
                let* outfile := prv_generate_filename env "corefile-" extension in
                match outfile with
                | None => ret false
                | Some outfile => store_core env stream pid max_size outfile
                end
      end
  end.

(** ** Starting *)

(** What the system answers: calloc, stat and mkdir, opening and writing the kernel's
    core_pattern, and what the limiter asks. *)
Record core_init_env := MkCoreInitEnv {
  calloc_ok : bool;
  is_dir : string -> bool;
  mkdir_ok : bool;
  pattern_open : bool;
  pattern_write : bool;
  limiter : limiter_env }.

(** The path, [None] for NULL. *)
Definition prv_create_dir (env : core_init_env) (subdir : string) : M (sTicosd Q C W) (option string) :=
  let* data_dir := gets (ticosd_get_string (Some EmptyString) "data_dir") in
  match non_empty data_dir with
  | None => ret None
  | Some data_dir =>
      let* path := ticos_asprintf "%s/%s" [ArgS (Some data_dir); ArgS (Some subdir)] in
      match path with
      | None => ret None
      | Some path => ret (if is_dir env path || mkdir_ok env then Some path else None)
      end
  end.

(** The handle and the files, [None] for false; without memory the cleanup reads through the
    null handle. *)
Definition ticosd_coredump_init (env : core_init_env) (fs : files) : M (sTicosd Q C W) (files * option sTicosdPlugin) :=
  if negb (calloc_ok env) then fault
  else
    let* enabled := gets (fun t => negb (data_collection_off (Some EmptyString) t)) in
    let* dir := prv_create_dir env "core" in
    match dir with
    | None => ret (fs, None)
    | Some dir =>
        if negb (pattern_open env) then ret (fs, None)
        else if negb (pattern_write env) then ret (fs, None)
        else
          let fs := <[CORE_PATTERN_PATH := bytes_of_string CORE_PATTERN]> fs in
          let* dev_mode := gets ticosd_is_dev_mode in
          let* count := gets (ticosd_get_integer (Some "coredump_plugin") "rate_limit_count") in
          let* duration := gets (ticosd_get_integer (Some "coredump_plugin") "rate_limit_duration_seconds") in
          let* rate_limiter := lift (coredump_create_rate_limiter (limiter env) dev_mode count duration fs) in
          let* compression := gets (fun t => default COMPRESSION_DEFAULT (ticosd_get_string (Some "coredump_plugin") "compression" t)) in
          let gzip := if String.eqb compression "gzip" then true else if String.eqb compression "none" then false else true in
          ret (fs, Some (MkCoredump enabled rate_limiter dir gzip))
    end.
End Coredump.
