(* ===== verification/CoredumpSpec.v ===== *)
(** * What the core dump plugin guarantees

    A message leaves at most one new file, and only together with an accepted queue entry; the
    file stays within what the configured limits leave of the disk. *)
From stdpp Require Import gmap.
From S2P Require Import Prelude CLib Network TxQueue Daemon Frame Plugins RateLimiter.
From S2P Require Import CborSpec ElfMetadata Elf ElfWriter ElfFileIO GzipIO ElfReader ElfTransformer ElfTransformerSpec DeviceInv Procfs Coredump.
#[local] Open Scope string_scope.
#[local] Open Scope list_scope.
#[local] Open Scope Z_scope.

(** Take a handler's run apart. *)
Ltac run_step :=
  match goal with
  | H : bind _ _ _ = Val _ |- _ => apply bind_inv in H as (? & ? & ? & ?)
  | H : ret _ _ = Val _ |- _ => injection H; clear H; intros; subst
  | H : gets _ _ = Val _ |- _ => injection H; clear H; intros; subst
  | H : lift _ _ = Val _ |- _ => unfold lift in H
  | H : match ?x with Some _ => _ | None => _ end _ = Val _ |- _ => destruct x eqn:?
  | H : (if ?b then _ else _) _ = Val _ |- _ => destruct b eqn:?
  | _ => outcome_step
  end.
Ltac run_inv := repeat (run_step; cbv beta in *).

(** ** Free space *)
Section Space.
Context {Q C W R : Type} `{ConfigOps C}.
Implicit Type env : core_env (R := R).
Implicit Type t : sTicosd Q C W.

Definition headroom_kib t : Z := limit_kib "storage_min_headroom_kib" t.
Definition usage_kib t : Z := limit_kib "storage_max_usage_kib" t.
Definition size_kib t : Z := limit_kib "coredump_max_size_kib" t.

(** [n] bytes more on the disk break none of the limits that are set. *)
Definition limits_allow env t (n : Z) : Prop :=
  (headroom_kib t <> 0 -> headroom_kib t * 1024 + n <= ticosd_get_free_space (fs_stat env) true) /\
  (usage_kib t <> 0 -> ticosd_get_folder_size (fs_walk env) + n <= usage_kib t * 1024) /\
  (size_kib t <> 0 -> n <= size_kib t * 1024).

Definition unlimited t : Prop := headroom_kib t = 0 /\ usage_kib t = 0 /\ size_kib t = 0.

Lemma limit_kib_range key t : 0 <= limit_kib key t < 2 ^ 32.
Proof. unfold limit_kib, u32. apply Z.mod_pos_bound. done. Qed.

Lemma free_space_range b p : 0 <= ticosd_get_free_space b p < 2 ^ 64.
Proof. destruct b; cbn; [apply Z.mod_pos_bound; done|lia]. Qed.

Lemma available_limits env t : let n := prv_check_for_available_space env t in
  0 <= n /\ (n <> 0 -> limits_allow env t n) /\ (unlimited t -> n = ticosd_get_free_space (fs_stat env) false) /\
  (~ unlimited t -> n <= size_kib t * 1024).
Proof.
  pose proof (limit_kib_range "storage_min_headroom_kib" t) as Hh. pose proof (limit_kib_range "storage_max_usage_kib" t) as Hu.
  pose proof (limit_kib_range "coredump_max_size_kib" t) as Hs.
  pose proof (free_space_range (fs_stat env) true) as F1. pose proof (free_space_range (fs_stat env) false) as F2.
  unfold limits_allow, unlimited, headroom_kib, usage_kib, size_kib, prv_check_for_available_space.
  set (h := limit_kib "storage_min_headroom_kib" t) in *. set (u := limit_kib "storage_max_usage_kib" t) in *.
  set (s := limit_kib "coredump_max_size_kib" t) in *. rewrite !(u64_small (_ * 1024)) by lia.
  set (used := ticosd_get_folder_size _).
  destruct ((h =? 0) && (u =? 0) && (s =? 0)) eqn:E0; cbv zeta.
  - tests_to_props. split; [lia|]. split; [lia|]. split; [done|lia].
  - assert (N : ~ (h = 0 /\ u = 0 /\ s = 0)) by (intros (-> & -> & ->); done).
    destruct (Z.eqb_spec (h * 1024) 0), (Z.eqb_spec (u * 1024) 0); cbn [negb andb].
    all: repeat case_test; tests_to_props; lia.
Qed.
End Space.

(** ** One message *)
Section Handler.
Context {Q C W R Zs : Type} `{TxQueue Q, ConfigOps C, NetworkOps W, ReadIO R, Zlib Zs}.
Context (ticosd_sdk_version : string) (fuel : nat) (uninit : Z -> list Z).
Implicit Type env : core_env (R := R).
Implicit Type t : sTicosd Q C W.
Implicit Type w : core_world (Q := Q) (C := C) (W := W).

Definition same_plugin (h h' : sTicosdPlugin) : Prop :=
  enable_data_collection h' = enable_data_collection h /\ core_dir h' = core_dir h /\ gzip_enabled h' = gzip_enabled h /\
  option_map file (rate_limiter h') = option_map file (rate_limiter h).

Definition core_file_name env (h : sTicosdPlugin) : string :=
  core_dir h +:+ "/" +:+ "corefile-" +:+ uuid_str env +:+ (if gzip_enabled h then ".gz" else EmptyString).

(** The entry that stands for the file. *)
Definition core_entry (gzip : bool) (name : string) : list Z :=
  (if gzip then kTicosdTxDataType_CoreUploadWithGzip else kTicosdTxDataType_CoreUpload) :: bytes_of_string name ++ [0].

(** The file of the rate limiter. *)
Definition history_file (h : sTicosdPlugin) (p : string) : Prop := exists l, rate_limiter h = Some l /\ file l = Some p.

Lemma generate_filename_inv env w w' o :
  prv_generate_filename env "corefile-" (if gzip_enabled (handle w) then ".gz" else EmptyString) w = Val (w', o) ->
  same_but_heap (ticosd w) (ticosd w') /\ fs w' = fs w /\ handle w' = handle w /\
  (o = None \/ o = Some (core_file_name env (handle w))).
Proof.
  unfold prv_generate_filename, on_ticosd, ticos_asprintf, core_file_name. intros E. run_inv; cbn.
  all: repeat match goal with H : malloc_ok _ = Val _ |- _ => apply malloc_inv in H end.
  match goal with V : vsprintf _ _ = Val _, M : same_but_heap _ _ |- _ =>
    cbn in V; rewrite string_app_nil_r in V; injection V as <-; split; [exact M|] end.
  split; [done|]. split; [done|]. match goal with |- context [if ?b then Some _ else None] => destruct b end; auto.
Qed.

(** The limiter touches its file and its history only. *)
Lemma check_event_inv env w w' ok : check_event env w = Val (w', ok) ->
  ticosd w' = ticosd w /\ same_plugin (handle w) (handle w') /\
  forall p, ~ history_file (handle w) p -> fs w' !! p = fs w !! p.
Proof.
  unfold check_event, ticosd_rate_limiter_check_event, same_plugin, history_file.
  destruct (rate_limiter (handle w)) as [l|] eqn:El; intros E.
  - run_inv; cbn; rewrite ?El; (split; [done|]; split; [done|]); [done|].
    intros p Hp. destruct (file l) as [name|] eqn:Ef; [|done]. destruct (limiter_fopen env); [|done].
    apply (lookup_insert_ne (M := gmap string)). intros ->. apply Hp. eauto.
  - run_inv; cbn; rewrite ?El. done.
Qed.

(** What the transformer can have left in a new file. *)
Definition produced env w (stream : R) (pid size : Z) (content : list Z) (ok : bool) : Prop :=
  exists m copy, prv_init_metadata ticosd_sdk_version env (ticosd w) = Some m /\ proc_mem (proc env) pid = Some copy /\
    let io := ticos_core_elf_write_file_io_init (out_answers env) (out_fsync env) size in
    (content = [] /\ ok = false) \/
    (exists d, run_transformer fuel uninit env stream io m copy = Val (d, ok) /\ content = fd_content d) \/
    (exists gz d, ticos_core_elf_write_gzip_io_init (Zs := Zs) io = Some gz /\
       run_transformer (H4 := gzip_io fuel) fuel uninit env stream gz m copy = Val (d, ok) /\ content = fd_content (next d)).

Lemma transform_inv env path stream pid size w w' ok :
  prv_transform_coredump_from_fd_to_file (Zs := Zs) ticosd_sdk_version fuel uninit env path stream pid size w = Val (w', ok) ->
  ticosd w' = ticosd w /\ handle w' = handle w /\
  ((fs w' = fs w /\ ok = false) \/
   (fs w !! path = None /\ exists content, fs w' = <[path := content]> (fs w) /\ produced env w stream pid size content ok)).
Proof.
  unfold prv_transform_coredump_from_fd_to_file. intros E.
  destruct (prv_init_metadata _ env (ticosd w)) as [m|] eqn:Em; [|done].
  destruct (proc_mem (proc env) pid) as [copy|] eqn:Ec; [|outcome_inv; auto].
  destruct (negb (open_ok env) || bool_decide (is_Some (fs w !! path))) eqn:Eo; [outcome_inv; auto|].
  apply orb_false_iff in Eo as [_ Eo]. apply bool_decide_eq_false, eq_None_not_Some in Eo. cbv zeta in E.
  destruct (gzip_enabled (handle w)); [destruct (ticos_core_elf_write_gzip_io_init _) as [gz|] eqn:Eg|].
  - destruct (run_transformer _ _ _ _ _ _ _) as [[d b]| |] eqn:Er; cbn [obind] in E; [|done..]. injection E as <- <-.
    split; [done|]. split; [done|]. right. split; [done|]. exists (fd_content (next d)). split; [done|].
    exists m, copy. split; [done|]. split; [done|]. right. right. eauto.
  - injection E as <- <-. split; [done|]. split; [done|]. right. split; [done|]. exists []. split; [done|].
    exists m, copy. split; [done|]. split; [done|]. now left.
  - destruct (run_transformer _ _ _ _ _ _ _) as [[d b]| |] eqn:Er; cbn [obind] in E; [|done..]. injection E as <- <-.
    split; [done|]. split; [done|]. right. split; [done|]. exists (fd_content d). split; [done|].
    exists m, copy. split; [done|]. split; [done|]. right. left. eauto.
Qed.

(** The queue is as it was, or something was written to it. *)
Definition queue_moved t t' : Prop :=
  queue t' = queue t \/ exists data n ok, queue_write (queue t) data n = Val (queue t', ok).

Lemma txdata_inv t t' data n ok : ticosd_txdata data n t = Val (t', ok) ->
  same_daemon t t' /\ queue_moved t t' /\ (data_collection_off (Some EmptyString) t = false -> queue_write (queue t) data (u32 (1 + n)) = Val (queue t', ok)).
Proof.
  unfold ticosd_txdata. intros E. apply bind_inv in E as (t1 & off & E1 & E). injection E1 as <- <-.
  destruct (data_collection_off (Some EmptyString) t); [injection E as <- _; split; [done|split; [now left|done]]|].
  unfold on_queue in E. outcome_inv. split; [done|]. split; [right; eauto|done].
Qed.

(** The entry for [name] was accepted. *)
Definition queued t t' (gzip : bool) (name : string) : Prop :=
  queue_write (queue t) (Some (core_entry gzip name)) (u32 (1 + u32 (zlen (bytes_of_string name) + 1))) = Val (queue t', true).

Lemma unlink_inv env name w w' u : can_unlink env = true -> unlink env name w = Val (w', u) -> w' = set_fs (delete name (fs w)) w.
Proof. unfold unlink. intros ->. congruence. Qed.

(** Either the file is gone, or it is there and queued. *)
Lemma store_core_inv env stream pid size name w w' ok : can_unlink env = true ->
  store_core (Zs := Zs) ticosd_sdk_version fuel uninit env stream pid size name w = Val (w', ok) ->
  handle w' = handle w /\ same_daemon (ticosd w) (ticosd w') /\ queue_moved (ticosd w) (ticosd w') /\
  (ok = false /\ fs w' = delete name (fs w) \/
   ok = true /\ fs w !! name = None /\
   (exists content, fs w' = <[name := content]> (fs w) /\ produced env w stream pid size content true) /\
   (data_collection_off (Some EmptyString) (ticosd w) = false -> queued (ticosd w) (ticosd w') (gzip_enabled (handle w)) name)).
Proof.
  intros Hu E. unfold store_core in E. apply bind_inv in E as (w0 & gz & E0 & E). injection E0 as <- <-.
  apply bind_inv in E as (w1 & b & E1 & E). apply transform_inv in E1 as (T1 & H1' & F1).
  assert (D : forall w2 w3 (u : unit), same_daemon (ticosd w) (ticosd w2) -> queue_moved (ticosd w) (ticosd w2) -> handle w2 = handle w -> fs w2 = fs w1 ->
    unlink env name w2 = Val (w3, u) -> handle w3 = handle w /\ same_daemon (ticosd w) (ticosd w3) /\ queue_moved (ticosd w) (ticosd w3) /\ fs w3 = delete name (fs w)).
  { intros w2 w3 u Hd Hm Hh Hf Eu. apply unlink_inv in Eu as ->; [|done]. split; [done|]. split; [done|]. split; [done|]. cbn. rewrite Hf.
    destruct F1 as [[-> _]|(Hn & c & -> & _)]; [done|]. now apply (delete_insert_eq (M := gmap string)). }
  destruct b; cbn [negb] in E.
  2:{ apply bind_inv in E as (w2 & u2 & E2 & E). apply bind_inv in E as (w3 & u3 & E3 & E). injection E as <- <-.
      eapply (D w1) in E2 as (A & B & M & F); [|now rewrite T1|left; now rewrite T1|done|done]. apply unlink_inv in E3 as ->; [|done].
      split; [done|]. split; [done|]. split; [done|]. left. split; [done|]. cbn. rewrite F. apply (delete_delete_eq (M := gmap string)). }
  apply bind_inv in E as (w2 & [data n] & E2 & E).
  assert (K : same_but_heap (ticosd w) (ticosd w2) /\ handle w2 = handle w /\ fs w2 = fs w1 /\
    (data = None \/ data = Some (core_entry (gzip_enabled (handle w)) name)) /\ n = u32 (zlen (bytes_of_string name) + 1)).
  { clear E. unfold prv_build_queue_entry, on_ticosd in E2. run_inv; cbn. rewrite <- T1.
    match goal with M : malloc_ok _ = Val _ |- _ => apply malloc_inv in M; split; [exact M|] end. rewrite <- H1'.
    repeat (split; [done|]). split; [|done]. match goal with |- context [negb ?b] => destruct b end; [now right|now left]. }
  destruct K as ((Kq & Kd) & Kh & Kf & Kdata & ->). destruct data as [data|].
  - destruct Kdata as [|[= ->]]; [done|]. apply bind_inv in E as (w3 & b3 & E3 & E). unfold on_ticosd in E3.
    destruct (ticosd_txdata _ _ (ticosd w2)) as [[t3 b3']| |] eqn:Et; cbn [obind] in E3; [|done..]. injection E3 as <- <-.
    apply txdata_inv in Et as (Dt & Mt & Qt).
    assert (Mw : queue_moved (ticosd w) t3) by (unfold queue_moved in *; now rewrite Kq in Mt).
    assert (Sd : same_daemon (ticosd w) t3) by (unfold same_daemon in *; intuition congruence). destruct b3'; cbn [negb] in E.
    + injection E as <- <-. split; [done|]. split; [done|]. split; [done|]. right. split; [done|]. destruct F1 as [[_ F1]|(Hn & c & Ef & P)]; [done|].
      split; [done|]. split; [exists c; split; [cbn; congruence|done]|]. intros Hoff. unfold queued. cbn [ticosd].
      rewrite <- Kq. apply Qt. unfold data_collection_off, ticosd_get_boolean in *. now rewrite (proj1 (proj2 Kd)).
    + apply bind_inv in E as (w4 & u4 & E4 & E). injection E as <- <-. eapply D in E4 as (A & B & M & F); [|done..].
      split; [done|]. split; [done|]. split; [done|]. now left.
  - apply bind_inv in E as (w4 & u4 & E4 & E). injection E as <- <-. eapply D in E4 as (A & B & M & F); [|done|now left|done..].
    split; [done|]. split; [done|]. split; [done|]. now left.
Qed.

(** What a message does: nothing to the files but the limiter's, or one core. *)
Definition rejected env w w' : Prop :=
  same_but_heap (ticosd w) (ticosd w') /\ forall p, ~ history_file (handle w) p -> fs w' !! p = fs w !! p.

Definition handled env w w' (ok : bool) : Prop :=
  exists stream pid w1, let size := prv_check_for_available_space env (ticosd w) in let name := core_file_name env (handle w) in
    file_stream env = Some stream /\ size <> 0 /\ same_but_heap (ticosd w) (ticosd w1) /\ same_daemon (ticosd w) (ticosd w') /\ queue_moved (ticosd w) (ticosd w') /\
    (forall p, ~ history_file (handle w) p -> fs w1 !! p = fs w !! p) /\
    (ok = false /\ fs w' = delete name (fs w1) \/
     ok = true /\ fs w1 !! name = None /\
     (exists content, fs w' = <[name := content]> (fs w1) /\ produced env w1 stream pid size content true) /\
     (data_collection_off (Some EmptyString) (ticosd w) = false -> queued (ticosd w) (ticosd w') (gzip_enabled (handle w)) name)).

Lemma msg_handler_inv env buf n w w' ok : can_unlink env = true ->
  prv_msg_handler (Zs := Zs) ticosd_sdk_version fuel uninit env buf n w = Val (w', ok) ->
  same_plugin (handle w) (handle w') /\ (rejected env w w' \/ handled env w w' ok).
Proof.
  unfold prv_msg_handler. intros Hu E. assert (Sp : same_plugin (handle w) (handle w)) by done.
  assert (Rj : rejected env w w) by (split; [split|]; done).
  destruct (file_stream env) as [stream|] eqn:Es; [|injection E as <- <-; auto].
  apply bind_inv in E as (w0 & pid & E0 & E). unfold lift in E0. destruct (message_pid buf n) as [o| |]; cbn [obind] in E0; [|done..].
  injection E0 as <- <-. destruct o as [pid|]; [|injection E as <- <-; auto].
  apply bind_inv in E as (w0 & en & E0 & E). injection E0 as <- <-.
  destruct (negb (enable_data_collection (handle w))); [injection E as <- <-; auto|].
  apply bind_inv in E as (w1 & allowed & E1 & E). apply check_event_inv in E1 as (T1 & P1 & F1).
  assert (Rj1 : rejected env w w1) by (split; [rewrite T1; split; [|split]; done|exact F1]).
  destruct (negb allowed); [injection E as <- <-; auto|].
  apply bind_inv in E as (w0 & size & E0 & E). injection E0 as <- <-. rewrite T1 in E.
  destruct (Z.eqb_spec (prv_check_for_available_space env (ticosd w)) 0) as [|Hsize]; [injection E as <- <-; auto|].
  apply bind_inv in E as (w0 & ext & E0 & E). injection E0 as <- <-.
  apply bind_inv in E as (w2 & name & E2 & E). apply generate_filename_inv in E2 as (T2 & F2 & H2' & Hname).
  assert (Rj2 : rejected env w w2) by (rewrite T1 in T2; split; [exact T2|intros p Hp; rewrite F2; auto]).
  rewrite <- H2' in P1. destruct Hname as [-> | ->]; [injection E as <- <-; auto|].
  assert (N : core_file_name env (handle w1) = core_file_name env (handle w)).
  { unfold core_file_name. rewrite H2' in P1. destruct P1 as (_ & -> & -> & _). done. }
  rewrite N in E. apply store_core_inv in E as (H3' & Sd & Mq & K); [|done]. rewrite H3'. split; [exact P1|].
  right. exists stream, pid, w2. destruct Rj2 as [Sh Fh]. split; [done|]. split; [done|]. split; [exact Sh|].
  split; [destruct Sh as [_ Sh]; unfold same_daemon in *; intuition congruence|].
  split; [unfold queue_moved in *; now rewrite (proj1 Sh) in Mq|]. split; [exact Fh|].
  destruct K as [K|(-> & Hn & Hc & Hq)]; [now left|]. right. split; [done|]. split; [done|]. split; [done|].
  intros Hoff. destruct Sh as (Eq & Ec). rewrite H2' in Hq. destruct P1 as (_ & _ & Eg & _). rewrite H2' in Eg. rewrite Eg in Hq.
  unfold queued in *. rewrite <- Eq. apply Hq. unfold data_collection_off, ticosd_get_boolean in *. now rewrite (proj1 (proj2 Ec)).
Qed.

(** The outcome of a message.  Unless it succeeds there is no file afterwards that was not there
    before, but for the history of the rate limiter; when it succeeds there is at most one,
    under a fresh name in the core directory, and the queue has accepted an entry that names
    it and tells whether it is compressed. *)
Lemma core_file_accounted env buf n w w' ok : can_unlink env = true ->
  data_collection_off (Some EmptyString) (ticosd w) = false ->
  prv_msg_handler (Zs := Zs) ticosd_sdk_version fuel uninit env buf n w = Val (w', ok) ->
  forall p, ~ history_file (handle w) p -> fs w !! p = None -> is_Some (fs w' !! p) ->
    ok = true /\ p = core_file_name env (handle w) /\ queued (ticosd w) (ticosd w') (gzip_enabled (handle w)) p.
Proof.
  intros Hu Hoff E p Hp Hn [c Hc]. apply msg_handler_inv in E as [_ [[_ F]|(stream & pid & w1 & K)]]; [rewrite (F p Hp) in Hc; congruence| |done].
  cbv zeta in K. destruct K as (_ & _ & _ & _ & _ & F & K). destruct (String.eqb_spec p (core_file_name env (handle w))) as [->|Hne].
  - destruct K as [[_ K]|(-> & _ & _ & Hq)]; [|auto].
    rewrite K in Hc. assert (N : delete (core_file_name env (handle w)) (fs w1) !! core_file_name env (handle w) = None) by apply (lookup_delete_eq (M := gmap string)).
    congruence.
  - exfalso. assert (fs w' !! p = fs w1 !! p) as E.
    { destruct K as [[_ ->]|(_ & _ & (c' & -> & _) & _)]; [apply (lookup_delete_ne (M := gmap string))|apply (lookup_insert_ne (M := gmap string))]; done. }
    rewrite E, (F p Hp) in Hc. congruence.
Qed.
End Handler.

(** ** Messages and the main thread *)

(** A queue together with all that was ever written to it. *)
Record logged (Q : Type) := MkLogged { inner : Q; log : list (list Z) }.
Arguments MkLogged {Q}.
Arguments inner {Q}.
Arguments log {Q}.

#[export] Instance logged_queue {Q} `{TxQueue Q} : TxQueue (logged Q) := {
  queue_read_head s := let! (q, r) := queue_read_head (inner s) in Val (MkLogged q (log s), r);
  queue_complete_read s := let! (q, r) := queue_complete_read (inner s) in Val (MkLogged q (log s), r);
  queue_write s p n :=
    let! (q, ok) := queue_write (inner s) p n in
    Val (MkLogged q (log s ++ match p with Some data => if ok : bool then [data] else [] | None => [] end), ok);
  queue_reset s := let! q := queue_reset (inner s) in Val (MkLogged q (log s)) }.

Section Threads.
Context {Q C W R Zs : Type} `{TxQueue Q, ConfigOps C, NetworkOps W, ReadIO R, Zlib Zs}.
Context (ticosd_sdk_version : string) (fuel : nat) (uninit : Z -> list Z).
Abbreviation World := (core_world (Q := logged Q) (C := C) (W := W)).
Implicit Type w : World.

Definition on_world (t : sTicosd (logged Q) C W) w : core_world := MkCoreWorld t (fs w) (handle w).

(** The IPC thread handles messages while the main thread reads the queue, talks to the
    server and deletes files. *)
Inductive step : World -> World -> Prop :=
| step_message (env : core_env) buf n w w' ok : can_unlink env = true ->
    prv_msg_handler (Zs := Zs) ticosd_sdk_version fuel uninit env buf n w = Val (w', ok) -> step w w'
| step_read w t r : on_queue queue_read_head (ticosd w) = Val (t, r) -> step w (on_world t w)
| step_complete w t r : on_queue queue_complete_read (ticosd w) = Val (t, r) -> step w (on_world t w)
| step_network w x : step w (on_world (set_network x (ticosd w)) w)
| step_deleted w p : step w (set_fs (delete p (fs w)) w).

(** Every new file but the limiter's has its entry. *)
Definition accounted (w0 w : World) : Prop :=
  same_plugin (handle w0) (handle w) /\ data_collection_off (Some EmptyString) (ticosd w) = false /\
  forall p, ~ history_file (handle w0) p -> is_Some (fs w !! p) -> is_Some (fs w0 !! p) \/ exists gzip, core_entry gzip p ∈ log (queue (ticosd w)).

Lemma history_same (h h' : sTicosdPlugin) p : same_plugin h h' -> history_file h' p -> history_file h p.
Proof.
  intros (_ & _ & _ & E) (l & El & Ef). rewrite El in E. unfold history_file.
  destruct (rate_limiter h) as [l0|]; [|done]. cbn in E. exists l0. split; [done|congruence].
Qed.

Lemma queue_step_accounted w0 w t : accounted w0 w -> config t = config (ticosd w) ->
  (forall e, e ∈ log (queue (ticosd w)) -> e ∈ log (queue t)) -> accounted w0 (on_world t w).
Proof.
  intros (Hp & Hd & Hf) Hc Hl. split; [done|]. split; [unfold data_collection_off, ticosd_get_boolean in *; cbn; now rewrite Hc|].
  intros p Hn Hs. destruct (Hf p Hn Hs) as [|[g Hg]]; eauto.
Qed.

Lemma write_log (q q' : logged Q) data n ok : queue_write q data n = Val (q', ok) -> forall e, e ∈ log q -> e ∈ log q'.
Proof. cbn. intros E e He. outcome_inv. cbn. apply elem_of_app. now left. Qed.

Lemma handler_frame (env : core_env) buf n w w' ok : can_unlink env = true ->
  prv_msg_handler (R := R) (Zs := Zs) ticosd_sdk_version fuel uninit env buf n w = Val (w', ok) ->
  same_plugin (handle w) (handle w') /\ config (ticosd w') = config (ticosd w) /\
  forall e, e ∈ log (queue (ticosd w)) -> e ∈ log (queue (ticosd w')).
Proof.
  intros Hu E. apply msg_handler_inv in E as [Sp K]; [|done]. split; [exact Sp|].
  destruct K as [[(Eq & _ & Ec & _) _]|(stream & pid & w1 & K)]; [now rewrite Eq|].
  cbv zeta in K. destruct K as (_ & _ & _ & (_ & Ec & _) & [-> |(data & m & b & Eq)] & _); [done|]. split; [done|].
  intros e. exact (write_log _ _ _ _ _ Eq e).
Qed.

Lemma message_accounted w0 (env : core_env) buf n w w' ok : can_unlink env = true -> accounted w0 w ->
  prv_msg_handler (R := R) (Zs := Zs) ticosd_sdk_version fuel uninit env buf n w = Val (w', ok) -> accounted w0 w'.
Proof.
  intros Hu (Hp & Hd & Hf) E. pose proof (core_file_accounted _ _ _ _ _ _ _ _ _ Hu Hd E) as New.
  apply handler_frame in E as (Hp' & Hc & Hl); [|done]. split; [|split].
  - unfold same_plugin in *. intuition congruence.
  - unfold data_collection_off, ticosd_get_boolean in *. now rewrite Hc.
  - intros p Hn Hs. destruct (fs w !! p) as [c|] eqn:Ew.
    + destruct (Hf p Hn (mk_is_Some _ _ Ew)) as [|[g Hg]]; [now left|right; eauto].
    + right. destruct (New p) as (_ & _ & Q'); [intros Hh; apply Hn; eapply history_same; eauto|done|done|].
      exists (gzip_enabled (handle w)). unfold queued in Q'. cbn in Q'.
      destruct (queue_write (inner (queue (ticosd w))) _ _) as [[q b]| |]; cbn [obind] in Q'; [|done..]. injection Q' as <- ->. cbn.
      apply elem_of_app. right. now apply list_elem_of_singleton.
Qed.

(** C10: no core file is forgotten: however the handling of messages and the work of the main
    thread are interleaved, every file that came into being, but for the history of the rate
    limiter, has had an entry in the queue that names it. *)
Theorem core_files_accounted w0 w : data_collection_off (Some EmptyString) (ticosd w0) = false -> rtc step w0 w -> accounted w0 w.
Proof.
  intros Hd. revert w. apply (rtc_ind_r (fun w => accounted w0 w) w0); [split; [done|]; split; [done|]; auto|].
  intros wi wj _ Hs IH. destruct Hs as [env buf n w1 w2 ok Hu E|w t r E|w t r E|w x|w p].
  - eapply message_accounted; eauto.
  - apply queue_step_accounted; [done|..]; unfold on_queue in E; cbn in E; outcome_inv; done.
  - apply queue_step_accounted; [done|..]; unfold on_queue in E; cbn in E; outcome_inv; done.
  - now apply queue_step_accounted.
  - destruct IH as (Hp & Hc & Hf). split; [done|]. split; [done|]. intros q Hn [c Hq]. apply (Hf q Hn). cbn in Hq.
    apply (lookup_delete_Some (M := gmap string)) in Hq as [_ Hq]. eauto.
Qed.
End Threads.

(** ** The disk *)
Section Limits.
Context {Q C W Zs : Type} `{TxQueue Q, ConfigOps C, NetworkOps W, ZlibLaws Zs}.
Context (ticosd_sdk_version : string) (fuel : nat) (uninit : Z -> list Z).
Hypothesis uninit_length : forall n, 0 <= n -> zlen (uninit n) = n.
Implicit Type env : core_env (R := sTicosCoreElfReadFileIO).
Implicit Type w : core_world (Q := Q) (C := C) (W := W).

Lemma fio_read_left r b n r' res : prv_fio_read r b n = Val (r', res) ->
  match res with ReadBytes bs => zlen bs + zlen (fd_rest r') <= zlen (fd_rest r) | ReadError => zlen (fd_rest r') <= zlen (fd_rest r) end.
Proof.
  unfold prv_fio_read. intros E. destruct (os_reads r) as [|[k|e] rest]; cbv zeta in E; outcome_inv; cbn [fd_rest]; lens.
Qed.

Lemma run_transformer_keeps {D} `{WriteIO D} (P F : D -> Prop) env stream io m copy d ok :
  (forall s d s' n, P s -> fits d -> io_write s d = Val (s', n) -> P s') ->
  (forall s s' b, P s -> io_sync s = Val (s', b) -> F s') -> (forall s, P s -> F s) ->
  P io -> zlen (fd_rest stream) < 2 ^ 63 -> copy_ok copy -> metadata_ok m ->
  run_transformer fuel uninit env stream io m copy = Val (d, ok) -> F d.
Proof.
  intros Hw Hs He Hio Hl Hc Hm E. unfold run_transformer in E. outcome_inv.
  refine (transformer_run_keeps fuel P F Hw Hs He uninit (fun r => zlen (fd_rest r)) _ fio_read_left uninit_length _ _ _ _ _ _ _ _ _ Hio Hl Hc Hm _).
  2: eassumption. intros. lia.
Qed.

(** The size of a new file. *)
Lemma produced_within env w stream pid size content ok : 0 <= size -> size + os_errors (out_answers env) < 2 ^ 63 ->
  zlen (fd_rest stream) < 2 ^ 63 ->
  (forall m, prv_init_metadata ticosd_sdk_version env (ticosd w) = Some m -> metadata_ok m) ->
  produced (Zs := Zs) ticosd_sdk_version fuel uninit env w stream pid size content ok ->
  zlen content <= size + os_errors (out_answers env).
Proof.
  intros Hs He Hl Hm (m & copy & Em & Ec & K). pose proof (proc_mem_ok _ _ _ Ec) as Hc. cbv zeta in K. set (e := os_errors (out_answers env)) in *.
  pose proof (within_init (out_answers env) (out_fsync env) size Hs) as I. fold e in I.
  assert (Wr : forall s d s' n, within size e s -> fits d -> io_write s d = Val (s', n) -> within size e s') by (intros; eapply within_write; eauto).
  destruct K as [[-> _]|[(d & Er & ->)|(gz & d & Eg & Er & ->)]].
  - cbn. unfold e, os_errors. lia.
  - eapply (run_transformer_keeps (within size e) (within size e)) in Er as (_ & Hd & _); eauto.
    intros s s' b Hw E. cbn in E. unfold prv_fio_sync in E. now injection E as <- _.
  - unfold ticos_core_elf_write_gzip_io_init in Eg. destruct deflateInit2 as [z|] eqn:Ez; [|done]. injection Eg as <-.
    apply init_law in Ez as (Hz & _ & _ & Hf).
    eapply (run_transformer_keeps (gzip_keeps (within size e)) (gzip_ends (within size e))) in Er as (_ & Hd & _); eauto.
    + intros s d0 s' n Hg _ E. eapply gzip_write_keeps; [exact Wr|exact Hg|exact E].
    + intros s s' b Hg E. eapply gzip_sync_keeps; [exact Wr|exact Hg|exact E].
    + intros s Hg. apply Hg.
    + split; [exact I|]. now split.
Qed.

(** What is asked of the surroundings of a message: a stream that fits in memory, strings
    of a sensible length in the metadata, and a disk far from 2^63 bytes. *)
Definition surroundings_ok env w : Prop :=
  can_unlink env = true /\
  (forall stream, file_stream env = Some stream -> zlen (fd_rest stream) < 2 ^ 63) /\
  (forall m, prv_init_metadata ticosd_sdk_version env (ticosd w) = Some m -> metadata_ok m) /\
  ticosd_get_free_space (fs_stat env) false + os_errors (out_answers env) + 2 ^ 42 < 2 ^ 63.

End Limits.
