(* ===== verification/CoreHandlerSpec.v ===== *)
(** * From the kernel to the plugin

    The message of ticos-core-handler, and what the daemon's IPC thread makes of it. *)
From S2P Require Import Prelude CLib Plugins PluginsSpec Coredump CoreHandler.
#[local] Open Scope string_scope.
#[local] Open Scope list_scope.
#[local] Open Scope Z_scope.

(** ** Building the message *)

(** The arguments one after the other, each with its NUL. *)
Definition message (args : list string) : list Z := concat (map (fun s => bytes_of_string s ++ [0]) args).

Lemma zeros_add a b : 0 <= a -> 0 <= b -> zeros a ++ zeros b = zeros (a + b).
Proof. intros. unfold zeros. now rewrite <- replicate_add, <- Z2Nat.inj_add. Qed.

Lemma drop_zeros (n : nat) a : 0 <= a -> drop n (zeros a) = zeros (a - Z.of_nat n).
Proof. intros. unfold zeros. rewrite drop_replicate. f_equal. lia. Qed.

Lemma strncpy_ok pre arg : zlen pre + zlen (bytes_of_string arg) < TX_BUFFER_SIZE ->
  strncpy (pre ++ zeros (TX_BUFFER_SIZE - zlen pre)) (zlen pre) arg (TX_BUFFER_SIZE - zlen pre - 1) =
    Val ((pre ++ bytes_of_string arg ++ [0]) ++ zeros (TX_BUFFER_SIZE - zlen (pre ++ bytes_of_string arg ++ [0]))).
Proof.
  unfold TX_BUFFER_SIZE. intros Hl. unfold strncpy. set (b := bytes_of_string arg) in *.
  assert (L : zlen (pre ++ zeros (1024 - zlen pre)) = 1024) by (rewrite length_app, Nat2Z.inj_add, zeros_length; lia).
  rewrite L. test_false ((zlen pre <? 0) || (zlen pre + (1024 - zlen pre - 1) >? 1024)). rewrite take_ge by lia.
  unfold store. assert (Ld : zlen (b ++ zeros (1024 - zlen pre - 1 - zlen b)) = 1024 - zlen pre - 1)
    by (rewrite length_app, Nat2Z.inj_add, zeros_length; lia).
  rewrite L, Ld. test_true ((0 <=? zlen pre) && (zlen pre + (1024 - zlen pre - 1) <=? 1024)).
  rewrite Nat2Z.id, take_app_length, drop_app_ge by lia. rewrite drop_zeros by lia. f_equal.
  rewrite <- !app_assoc. f_equal. f_equal. rewrite zeros_add by lia. change [0] with (zeros 1).
  assert (Lm : zlen (pre ++ b ++ zeros 1) = zlen pre + zlen b + 1) by (rewrite !length_app; change (length (zeros 1)) with 1%nat; lia).
  rewrite Lm, zeros_add by lia. f_equal. lia.
Qed.

Lemma append_argument_ok pre arg : no_nul arg -> zlen pre + zlen (bytes_of_string arg) < TX_BUFFER_SIZE ->
  append_argument (pre ++ zeros (TX_BUFFER_SIZE - zlen pre)) (zlen pre) arg =
    Val ((pre ++ bytes_of_string arg ++ [0]) ++ zeros (TX_BUFFER_SIZE - zlen (pre ++ bytes_of_string arg ++ [0])), zlen (pre ++ bytes_of_string arg ++ [0])).
Proof.
  intros Hn Hl. unfold append_argument. rewrite i32_small, u64_small by (unfold TX_BUFFER_SIZE in *; lia).
  rewrite strncpy_ok by done. cbn [obind]. rewrite <- app_assoc, Nat2Z.id, drop_app_length, <- app_assoc. cbn [app].
  rewrite c_string_of_bytes by done. cbn [obind]. f_equal. f_equal. lens.
Qed.

Lemma append_arguments_ok args : forall pre, Forall no_nul args -> zlen pre + zlen (message args) <= TX_BUFFER_SIZE ->
  append_arguments (pre ++ zeros (TX_BUFFER_SIZE - zlen pre)) (zlen pre) args =
    Val ((pre ++ message args) ++ zeros (TX_BUFFER_SIZE - zlen (pre ++ message args)), zlen (pre ++ message args)).
Proof.
  induction args as [|a args IH]; intros pre Hn Hl; cbn [append_arguments].
  - unfold message. cbn [map concat]. now rewrite app_nil_r.
  - apply Forall_cons_1 in Hn as [Ha Hn]. assert (M : message (a :: args) = (bytes_of_string a ++ [0]) ++ message args) by done.
    rewrite M in *. rewrite append_argument_ok; [|done|revert Hl; lens]. cbn [obind]. rewrite IH; [|done|revert Hl; lens].
    now rewrite <- !app_assoc.
Qed.

Lemma build_message_ok args : Forall no_nul args -> zlen (message args) + 9 <= TX_BUFFER_SIZE ->
  build_message args = Val (message ("CORE" :: "ELF" :: args)).
Proof.
  intros Hn Hl. unfold build_message.
  assert (Hm : zlen (message ("CORE" :: "ELF" :: args)) = zlen (message args) + 9) by (change (message ("CORE" :: "ELF" :: args)) with ([67; 79; 82; 69; 0; 69; 76; 70; 0] ++ message args); lens).
  pose proof (append_arguments_ok ("CORE" :: "ELF" :: args) []) as A. cbn [app length] in A. rewrite Z.sub_0_r in A. change (Z.of_nat 0) with 0 in A.
  rewrite A; [|do 2 (apply Forall_cons_2; [repeat constructor; discriminate|]); exact Hn|lia]. cbn [obind].
  unfold load. set (msg := message ("CORE" :: "ELF" :: args)) in *. rewrite length_app, Nat2Z.inj_add, zeros_length by lia.
  test_true ((0 <=? 0) && (0 <=? zlen msg) && (0 + zlen msg <=? zlen msg + (TX_BUFFER_SIZE - zlen msg))).
  rewrite Nat2Z.id, drop_0, take_app_length. done.
Qed.

(** ** Reading it back *)
Lemma strnlen_spec s r n : no_nul s -> zlen (bytes_of_string s) < n -> strnlen (bytes_of_string s ++ 0 :: r) n = Val (zlen (bytes_of_string s)).
Proof.
  revert n. induction s as [|a s IH]; intros n Hs Hn; cbn [bytes_of_string app strnlen length] in *.
  - now test_false (n =? 0).
  - unfold no_nul in Hs. cbn in Hs. apply Forall_cons_1 in Hs as [Ha Hs]. test_false (n =? 0). test_false (byte_of_ascii a =? 0).
    rewrite IH by (done || lia). cbn [obind]. f_equal. lia.
Qed.

Lemma strtol_spaces_spec s r : no_nul s -> strtol_spaces (bytes_of_string s ++ 0 :: r) = Val (bytes_of_string (skip_spaces s) ++ 0 :: r).
Proof.
  induction s as [|a s IH]; intros Hs; [done|]. unfold no_nul in Hs. cbn in Hs. apply Forall_cons_1 in Hs as [_ Hs].
  cbn [bytes_of_string app strtol_spaces skip_spaces]. unfold is_space. case_test; [auto|done].
Qed.

Lemma strtol_digits_spec s r : forall acc, no_nul s ->
  strtol_digits acc (bytes_of_string s ++ 0 :: r) = (let '(n, rest) := scan_digits acc s in Val (n, bytes_of_string rest ++ 0 :: r)).
Proof.
  induction s as [|a s IH]; intros acc Hs; [done|]. unfold no_nul in Hs. cbn in Hs. apply Forall_cons_1 in Hs as [_ Hs].
  cbn [bytes_of_string app strtol_digits scan_digits]. unfold is_digit. case_test; [auto|done].
Qed.

Lemma no_nul_skip_spaces s : no_nul s -> no_nul (skip_spaces s).
Proof.
  induction s as [|a s IH]; intros Hs; [done|]. cbn. case_test; [|done]. unfold no_nul in Hs. cbn in Hs. apply Forall_cons_1 in Hs as [_ Hs]. auto.
Qed.

(** strtol on the text of a C string. *)
Lemma strtol_spec s r : no_nul s -> strtol (bytes_of_string s ++ 0 :: r) =
  Val (match scan_Z s with Some (z, rest) => Some (clamp_long z, bytes_of_string rest ++ 0 :: r) | None => None end).
Proof.
  intros Hs. unfold strtol, scan_Z. rewrite strtol_spaces_spec by done. cbn [obind].
  apply no_nul_skip_spaces in Hs. destruct (skip_spaces s) as [|a t]; [done|].
  assert (D : forall sign u, no_nul u ->
    (match bytes_of_string u ++ 0 :: r with
     | [] => Fault
     | b :: _ => if (48 <=? b) && (b <=? 57) then
         let! (n, rest) := strtol_digits 0 (bytes_of_string u ++ 0 :: r) in Val (Some (clamp_long (sign * n), rest))
       else Val None
     end) = Val (match (match u with
       | String a _ => if is_digit a then let '(n, r) := scan_digits 0 u in Some (sign * n, r) else None
       | EmptyString => None end) with Some (z, rest) => Some (clamp_long z, bytes_of_string rest ++ 0 :: r) | None => None end)).
  { intros sign u Hu. destruct u as [|c u]; [done|]. rewrite strtol_digits_spec by done. cbn [bytes_of_string app].
    fold (is_digit c). destruct (is_digit c); [|done]. destruct (scan_digits 0 (String c u)). done. }
  assert (T : no_nul t) by (unfold no_nul in Hs; cbn in Hs; now apply Forall_cons_1 in Hs).
  destruct (ascii_dec a "-") as [->|Hm]; [exact (D (-1) t T)|]. destruct (ascii_dec a "+") as [->|Hp]; [exact (D 1 t T)|].
  specialize (D 1 (String a t) Hs). destruct a as [[] [] [] [] [] [] [] []]; try done; exact D.
Qed.

Lemma strtol_print_Z z r : - 2 ^ 63 <= z < 2 ^ 63 -> strtol (bytes_of_string (print_Z z) ++ 0 :: r) = Val (Some (z, 0 :: r)).
Proof.
  intros Hz. rewrite strtol_spec by apply no_nul_print_Z. rewrite <- (string_app_nil_r (print_Z z)), scan_print_Z by done.
  cbn. now rewrite clamp_long_small.
Qed.

(** ** The way of a request *)

(** What a handler that meets no obstacle needs. *)
Definition unobstructed (env : handler_env) : Prop :=
  socket_ok env = true /\ mkstemps_ok env = true /\ unlink_ok env = true /\ bind_ok env = true.

Lemma handler_sends env args : unobstructed env -> Forall no_nul args -> zlen (message args) + 9 <= TX_BUFFER_SIZE ->
  snd (send_loop (sendmsg_ok env) 0 10) = true ->
  exists n st, core_handler_main env [] args = Val (MkRun (Some (message ("CORE" :: "ELF" :: args))) n st).
Proof.
  intros (H1 & H2 & H3 & H4) Hn Hl Hs. unfold core_handler_main. cbn [parse_options tx_retry_count]. rewrite H1, H2, H3, H4. cbn [negb orb].
  rewrite build_message_ok by done. cbn [obind]. destruct (send_loop (sendmsg_ok env) 0 10) as [n ok]. cbn in Hs. subst ok. cbn [negb].
  destruct (recv env) as [[|b l]|]; eauto. case_test; eauto.
Qed.

Lemma print_Z_short z : - 2 ^ 31 <= z < 2 ^ 31 -> zlen (bytes_of_string (print_Z z)) <= 11.
Proof.
  intros Hz. unfold print_Z. pose proof (print_digits_length (Z.to_nat (Z.log2 (Z.abs z))) (Z.abs z) EmptyString 9).
  cbn [bytes_of_string length] in *. destruct (z <? 0) eqn:Es; tests_to_props; cbn [bytes_of_string length]; lia.
Qed.

(** The message about [pid]. *)
Definition core_message (pid : Z) : list Z := message ["CORE"; "ELF"; print_Z pid].

Lemma core_message_eq pid : core_message pid = bytes_of_string "CORE" ++ 0 :: bytes_of_string "ELF" ++ 0 :: bytes_of_string (print_Z pid) ++ [0].
Proof. unfold core_message, message. cbn [map concat bytes_of_string app]. rewrite app_nil_r. reflexivity. Qed.

Lemma core_message_length pid : zlen (core_message pid) = zlen (bytes_of_string (print_Z pid)) + 10.
Proof. rewrite core_message_eq. cbn [bytes_of_string app length]. rewrite length_app. cbn [length]. lia. Qed.

Lemma message_pid_ok pid rest : - 2 ^ 31 <= pid < 2 ^ 31 ->
  message_pid (core_message pid ++ rest) (zlen (core_message pid)) = Val (Some pid).
Proof.
  intros Hp. pose proof (print_Z_short pid Hp) as Hl. pose proof (no_nul_print_Z pid) as Hn.
  rewrite core_message_length, core_message_eq. set (p := print_Z pid) in *. set (n := zlen (bytes_of_string p)) in *. unfold message_pid.
  assert (A : forall l, (bytes_of_string "CORE" ++ 0 :: bytes_of_string "ELF" ++ 0 :: bytes_of_string p ++ [0]) ++ l =
    bytes_of_string "CORE" ++ 0 :: bytes_of_string "ELF" ++ 0 :: bytes_of_string p ++ 0 :: l) by (intros l; cbn; now rewrite <- app_assoc).
  rewrite A. rewrite (strnlen_spec "CORE") by (repeat constructor; discriminate || (cbn [bytes_of_string length]; lia)). cbn [obind].
  change (zlen (bytes_of_string "CORE")) with 4. rewrite (u64_small (4 + 1)) by lia. test_false (4 + 1 >=? n + 10).
  assert (D5 : forall l, drop (Z.to_nat (4 + 1)) (bytes_of_string "CORE" ++ 0 :: l) = l) by done.
  assert (D9 : forall l, drop (Z.to_nat (4 + 1 + (3 + 1))) (bytes_of_string "CORE" ++ 0 :: bytes_of_string "ELF" ++ 0 :: l) = l) by done.
  rewrite D5, (u64_small (n + 10 - (4 + 1))) by lia.
  rewrite (strnlen_spec "ELF") by (repeat constructor; discriminate || (cbn [bytes_of_string length]; lia)). cbn [obind].
  change (zlen (bytes_of_string "ELF")) with 3. rewrite strcmp_equal_spec; [|repeat constructor; discriminate|cbn; lia]. cbn [obind].
  rewrite u64_small by lia. test_false (4 + 1 + (3 + 1) >=? n + 10). rewrite D9; unfold p; rewrite strtol_print_Z by lia. cbn [obind].
  cbn [negb Z.eqb]. now rewrite i32_small.
Qed.

(** Only its own name makes a message one for the plugin. *)
Lemma name_is_core s r : no_nul s -> take (Datatypes.S (length (bytes_of_string s))) (bytes_of_string "CORE" ++ 0 :: r) = bytes_of_string s ++ [0] -> s = "CORE".
Proof.
  intros Hs E. set (m := bytes_of_string "CORE" ++ 0 :: r) in *.
  assert (A : c_string m = Val "CORE") by (apply c_string_of_bytes; repeat constructor; discriminate).
  rewrite <- (take_drop (Datatypes.S (length (bytes_of_string s))) m), E in A.
  rewrite (c_string_app (bytes_of_string s ++ [0]) _ s) in A by (now apply c_string_of_bytes). congruence.
Qed.

(** C29: the PID the kernel passes reaches the plugin: ticos-core-handler sends a message from which
    the IPC thread hands the buffer to the plugin registered for CORE and to no other, and
    the plugin finds the PID in it. *)
Theorem core_request_roundtrip {G : Type} env pid (before rest : list (sTicosdPluginDef G)) p d h rx (s : G) :
  unobstructed env -> snd (send_loop (sendmsg_ok env) 0 10) = true -> - 2 ^ 31 <= pid < 2 ^ 31 -> zlen rx = RX_BUFFER_SIZE ->
  ipc_name p = "CORE" -> fns p = Some (MkFns d (Some h)) ->
  Forall (fun q => no_nul (ipc_name q) /\ zlen (bytes_of_string (ipc_name q)) < RX_BUFFER_SIZE /\ ipc_name q <> "CORE") before ->
  exists msg n st, core_handler_main env [] [print_Z pid] = Val (MkRun (Some msg) n st) /\
    let buf := msg ++ drop (length msg) rx in
    ipc_turn (before ++ p :: rest) rx (Datagram msg) s = (let* _ := h buf (zlen msg) in ret buf) s /\
    message_pid buf (zlen msg) = Val (Some pid).
Proof.
  intros Henv Hsend Hp Hrx Hname Hfns Hb. pose proof (print_Z_short pid Hp) as Hl. pose proof (core_message_length pid) as Lm.
  assert (Hm1 : zlen (message [print_Z pid]) = zlen (bytes_of_string (print_Z pid)) + 1) by (unfold message; cbn [map concat]; rewrite app_nil_r; lens).
  destruct (handler_sends env [print_Z pid] Henv) as (n & st & E); [repeat constructor; apply no_nul_print_Z|unfold TX_BUFFER_SIZE; lia|exact Hsend|].
  exists (core_message pid), n, st. split; [exact E|]. cbv zeta. split; [|now apply message_pid_ok].
  unfold RX_BUFFER_SIZE in *. set (msg := core_message pid) in *. set (buf := msg ++ drop (length msg) rx).
  assert (Lb : zlen buf = 1024) by (unfold buf; rewrite length_app, length_drop; lia).
  assert (Eb : exists r, buf = bytes_of_string "CORE" ++ 0 :: r) by (unfold buf, msg; rewrite core_message_eq; eexists; cbn; reflexivity).
  destruct Eb as [r Eb]. rewrite ipc_turn_datagram by (unfold RX_BUFFER_SIZE; lia). fold buf.
  assert (Hc : takes buf (zlen msg) p).
  { split; [eauto|]. rewrite Hname. split; [done|]. split; [cbn [bytes_of_string length]; lia|]. rewrite Eb. reflexivity. }
  assert (Hno : Forall (fun q => ~ takes buf (zlen msg) q) before).
  { eapply Forall_impl; [exact Hb|]. intros q (Hq & _ & Hne) (_ & _ & _ & Et). apply Hne. rewrite Eb in Et. now apply name_is_core in Et. }
  assert (Hnames : names_ok buf before).
  { eapply Forall_impl; [exact Hb|]. intros q (Hq & Hlq & _). split; [exact Hq|lia]. }
  unfold bind at 1. cbv zeta.
  assert (D : ticosd_plugins_process_ipc (before ++ p :: rest) buf (zlen msg) = (let* _ := h buf (zlen msg) in ret true)).
  { rewrite process_ipc_skips by done. apply (process_ipc_take _ _ _ _ d); [|..]; try done; rewrite Hname; [repeat constructor; discriminate|cbn; lia]. }
  rewrite D. unfold bind, ret. now destruct (h buf (zlen msg) s) as [[s1 b]| |].
Qed.

(** ** Arguments that are too long *)
Lemma c_string_bytes bs r : Forall (fun b => b <> 0) bs -> c_string (bs ++ 0 :: r) = Val (string_of_bytes bs).
Proof.
  induction bs as [|b bs IH]; intros Hb; [done|]. apply Forall_cons_1 in Hb as [Hb Hbs]. cbn [app c_string string_of_bytes].
  test_false (b =? 0). now rewrite IH.
Qed.

Lemma string_of_bytes_length bs : length (bytes_of_string (string_of_bytes bs)) = length bs.
Proof. induction bs as [|b bs IH]; cbn; [done|]. now rewrite IH. Qed.

(** The last argument that finds room is cut off at the end of the buffer. *)
Lemma append_argument_cut pre arg : no_nul arg -> zlen pre < TX_BUFFER_SIZE -> TX_BUFFER_SIZE <= zlen pre + zlen (bytes_of_string arg) ->
  exists buf, append_argument (pre ++ zeros (TX_BUFFER_SIZE - zlen pre)) (zlen pre) arg = Val (buf, TX_BUFFER_SIZE) /\ zlen buf = TX_BUFFER_SIZE.
Proof.
  unfold TX_BUFFER_SIZE. intros Hn Hp Hl. unfold append_argument, TX_BUFFER_SIZE. rewrite i32_small, u64_small by lia. unfold strncpy.
  assert (L : zlen (pre ++ zeros (1024 - zlen pre)) = 1024) by (rewrite length_app, Nat2Z.inj_add, zeros_length; lia).
  rewrite L. test_false ((zlen pre <? 0) || (zlen pre + (1024 - zlen pre - 1) >? 1024)).
  set (data := take (Z.to_nat (1024 - zlen pre - 1)) (bytes_of_string arg)).
  assert (Ld : zlen data = 1024 - zlen pre - 1) by (unfold data; rewrite length_take; lia). rewrite Ld, Z.sub_diag, app_nil_r.
  unfold store. rewrite L, Ld. test_true ((0 <=? zlen pre) && (zlen pre + (1024 - zlen pre - 1) <=? 1024)). cbn [obind].
  rewrite Nat2Z.id, take_app_length. rewrite (drop_app_ge pre _ (length pre + length data)) by lia. rewrite drop_zeros by lia.
  replace (1024 - zlen pre - Z.of_nat (length pre + length data - length pre)) with 1 by lia. change (zeros 1) with [0].
  rewrite drop_app_length. assert (Hd : Forall (fun b => b <> 0) data) by now apply Forall_take.
  rewrite c_string_bytes by done. cbn [obind]. rewrite string_of_bytes_length, Ld. eexists. split; [f_equal; f_equal; lia|]. lens.
Qed.

Lemma append_argument_past buf arg : zlen buf = TX_BUFFER_SIZE -> append_argument buf TX_BUFFER_SIZE arg = Fault.
Proof. intros L. unfold append_argument, strncpy. rewrite L. reflexivity. Qed.

Lemma append_arguments_app a : forall b buf off buf' off', append_arguments buf off a = Val (buf', off') ->
  append_arguments buf off (a ++ b) = append_arguments buf' off' b.
Proof.
  induction a as [|x a IH]; intros b buf off buf' off' E; cbn [app append_arguments] in *; [congruence|].
  destruct (append_argument buf off x) as [[buf1 off1]| |]; cbn [obind] in *; [|done..]. eauto.
Qed.

(** nothing checks that the arguments fit the buffer: when one more follows the argument that
    fills its 1024 bytes, strncpy gets the size -1 and the program writes past its end. *)
Theorem long_arguments_undefined env pre arg next more : unobstructed env -> Forall no_nul (pre ++ [arg]) ->
  zlen (message pre) + 9 < TX_BUFFER_SIZE -> TX_BUFFER_SIZE <= zlen (message pre) + 9 + zlen (bytes_of_string arg) ->
  core_handler_main env [] (pre ++ arg :: next :: more) = Fault.
Proof.
  intros (H1 & H2 & H3 & H4) Hn Hp Ha. apply Forall_app in Hn as [Hn Harg]. apply Forall_cons_1 in Harg as [Harg _].
  unfold core_handler_main. cbn [parse_options]. rewrite H1, H2, H3, H4. cbn [negb orb]. unfold build_message.
  change ("CORE" :: "ELF" :: pre ++ arg :: next :: more) with (("CORE" :: "ELF" :: pre) ++ arg :: next :: more).
  assert (Hm : zlen (message ("CORE" :: "ELF" :: pre)) = zlen (message pre) + 9)
    by (change (message ("CORE" :: "ELF" :: pre)) with ([67; 79; 82; 69; 0; 69; 76; 70; 0] ++ message pre); lens).
  pose proof (append_arguments_ok ("CORE" :: "ELF" :: pre) []) as A. cbn [app length] in A. rewrite Z.sub_0_r in A. change (Z.of_nat 0) with 0 in A.
  erewrite append_arguments_app; [|apply A; [do 2 (apply Forall_cons_2; [repeat constructor; discriminate|]); exact Hn|lia]].
  destruct (append_argument_cut (message ("CORE" :: "ELF" :: pre)) arg Harg) as (buf & E & L); [lia..|].
  cbn [append_arguments]. rewrite E. cbn [obind]. rewrite append_argument_past by done. reflexivity.
Qed.

(** ** Signals *)
Section Steps.
Context (can_unlink : bool) (tx_retry_count : Z).
Abbreviation play := (handler_play can_unlink tx_retry_count).

(** What the statements that are still to come rely on. *)
Definition handler_inv (m : handler_state) : Prop :=
  (tmp_socket m = true -> pc m = AtCloseTmp) /\
  match pc m with
  | AtSocket => fd m = FdUnset
  | AtUnlinkEnd => fd m = FdUnset \/ fd m = FdClosed
  | Ended => (fd m = FdUnset \/ fd m = FdClosed) /\ (file m = true -> can_unlink = false)
  | _ => True
  end /\ (fd m = FdClosed -> pc m = AtUnlinkEnd \/ pc m = Ended).

Lemma handler_act_inv c m m' : handler_inv m -> handler_act can_unlink tx_retry_count c m = Some m' -> handler_inv m'.
Proof.
  destruct m as [p f t n fl i e l]. unfold handler_inv. cbn [pc fd tmp_socket named file tries exit_code running].
  intros (Ht & Hp & Hf) E. destruct c as [ok answer| |]; cbn [handler_act running pc] in E.
  - destruct l; [|done]. destruct p; cbn [main_step pc fd file tries] in E; try discriminate E; injection E as <-;
      repeat case_match; cbn; naive_solver.
  - destruct l as [|[] l]; [done|..]; injection E as <-; destruct f; destruct (n && can_unlink) eqn:En; destruct p; cbn; naive_solver.
  - destruct p; [..|done]; injection E as <-; cbn; naive_solver.
Qed.

Lemma handler_play_inv cs : forall m m', handler_inv m -> play cs m = Some m' -> handler_inv m'.
Proof.
  induction cs as [|c cs IH]; intros m m' Hm; cbn [handler_play]; [now intros [= <-]|].
  destruct (handler_act _ _ c m) as [m1|] eqn:E; [|done]. apply IH. eapply handler_act_inv; eauto.
Qed.

(** The statements that are left to main, those left to the handlers, and their number in a run. *)
Definition main_left (m : handler_state) : Z :=
  let r := Z.max 0 tx_retry_count in
  match pc m with
  | AtSocket => 9 + r | AtMkstemps => 8 + r | AtCloseTmp => 7 + r | AtUnlink => 6 + r | AtBind => 5 + r
  | AtSend => 4 + Z.max 0 (r - tries m) | AtRecv => 3 | AtClose => 2 | AtUnlinkEnd => 1 | Ended => 0
  end.

Definition handlers_left (m : handler_state) : Z :=
  foldr (fun p n => match p with SigShutdown => 2 | SigUnlink => 1 end + n) 0 (running m).

Definition is_main (c : handler_choice) : bool := match c with MainStep _ _ => true | _ => false end.
Definition is_handler (c : handler_choice) : bool := match c with HandlerStep => true | _ => false end.
Definition is_signal (c : handler_choice) : bool := match c with SignalArrives => true | _ => false end.
Definition number (p : handler_choice -> bool) (cs : list handler_choice) : Z := zlen (List.filter p cs).

Definition tries_ok (m : handler_state) : Prop :=
  0 <= tries m /\ match pc m with AtSocket | AtMkstemps | AtCloseTmp | AtUnlink | AtBind => tries m = 0 | _ => True end.

Lemma handler_act_measure c m m' : tries_ok m -> handler_act can_unlink tx_retry_count c m = Some m' ->
  tries_ok m' /\ number is_main [c] + main_left m' <= main_left m /\
  number is_handler [c] + handlers_left m' = 2 * number is_signal [c] + handlers_left m.
Proof.
  destruct m as [p f t n fl i e l]. unfold number, main_left, handlers_left, tries_ok.
  cbn [pc tries running List.filter is_main is_handler is_signal]. intros [Hi Hz] E. destruct c as [ok answer| |];
    cbn [handler_act running pc is_main is_handler is_signal length] in *.
  - destruct l; [|done]. destruct p; cbn [main_step pc fd file tries] in E; try discriminate E; injection E as <-;
      repeat case_match; cbn [goto set_fd set_name set_file set_tmp set_tries set_exit pc tries running foldr] in *; tests_to_props;
      split_and!; try done; lia.
  - destruct l as [|[] l]; [done|..]; injection E as <-; cbn [goto set_running foldr running pc tries];
      repeat case_match; cbn [set_file set_fd set_running pc tries running foldr] in *; split_and!; try done; lia.
  - destruct p; try discriminate E; injection E as <-; cbn [set_running foldr running pc tries]; split_and!; try done; lia.
Qed.

Lemma number_cons p c cs : number p (c :: cs) = number p [c] + number p cs.
Proof. unfold number. cbn [List.filter]. destruct (p c); cbn [length]; lia. Qed.

Lemma handler_play_measure cs : forall m m', tries_ok m -> play cs m = Some m' ->
  number is_main cs + main_left m' <= main_left m /\
  number is_handler cs + handlers_left m' = 2 * number is_signal cs + handlers_left m.
Proof.
  induction cs as [|c cs IH]; intros m m' Hm; cbn [handler_play]; [intros [= <-]; unfold number; cbn; lia|].
  destruct (handler_act _ _ c m) as [m1|] eqn:E; [|done]. intros E'. destruct (handler_act_measure c m m1 Hm E) as (H1 & N1 & N2).
  destruct (IH m1 m' H1 E'). rewrite !(number_cons _ c cs). lia.
Qed.

(** Nothing blocks for ever: recv has its timeout. *)
Lemma handler_progress m : pc m <> Ended -> exists c m', is_signal c = false /\ handler_act can_unlink tx_retry_count c m = Some m'.
Proof.
  intros Hp. destruct (running m) as [|[] l] eqn:El.
  - exists (MainStep true None). cbn [handler_act]. rewrite El. unfold main_step. destruct (pc m); [eauto..|done].
  - exists HandlerStep. cbn [handler_act]. unfold prv_sig_handler. rewrite El. eauto.
  - exists HandlerStep. cbn [handler_act]. unfold prv_sig_handler. rewrite El. eauto.
Qed.

End Steps.

(** Two signals during the wait for the daemon, the second while the first is handled. *)
Definition disturbed_run : list handler_choice :=
  [MainStep true None; MainStep true None; MainStep true None; MainStep true None; MainStep true None; MainStep false None; MainStep true None;
   SignalArrives; HandlerStep; SignalArrives; HandlerStep; HandlerStep; HandlerStep; MainStep true (Some []); MainStep true None; MainStep true None].

Definition disturbed_end : handler_state := MkHandlerState Ended FdClosed false true false 1 EXIT_FAILURE [].


(** ** Without signals *)
Section Undisturbed.
Context (env : handler_env) (tx_retry_count : Z).
Abbreviation run := (undisturbed (unlink_ok env) tx_retry_count env).

Lemma undisturbed_ended n m : pc m = Ended -> run n m = m.
Proof. intros Hp. destruct n; cbn [undisturbed]; [done|]. unfold main_step. now rewrite Hp. Qed.

Lemma undisturbed_step n m m' :
  main_step (unlink_ok env) tx_retry_count (answer_of env m) (recv env) m = Some m' -> run (S n) m = run n m'.
Proof. intros E. cbn [undisturbed]. now rewrite E. Qed.

(** The last two statements. *)
Lemma undisturbed_closes n m : (2 <= n)%nat -> pc m = AtClose ->
  pc (run n m) = Ended /\ exit_code (run n m) = exit_code m /\ tries (run n m) = tries m.
Proof.
  intros Hn Hp. destruct n as [|[|n]]; [lia..|]. destruct m as [p f t nm fl i e l]. cbn [pc] in Hp. subst p.
  cbn [undisturbed main_step pc fd]. destruct f; cbn [goto set_fd main_step pc]; rewrite undisturbed_ended by done;
    destruct (unlink_ok env); done.
Qed.

Definition answer_code : Z :=
  match recv env with
  | Some (b :: _ as answer) => if Z.min (zlen answer) TX_BUFFER_SIZE =? 4 then b else EXIT_FAILURE
  | _ => EXIT_FAILURE
  end.

Lemma after_send n m : (3 <= n)%nat -> pc m = AtSend -> exit_code m = EXIT_FAILURE ->
  pc (run n (goto AtRecv m)) = Ended /\ (tries (run n (goto AtRecv m)), exit_code (run n (goto AtRecv m))) = (tries m, answer_code).
Proof.
  intros Hn Hp He. destruct n as [|n]; [lia|]. cbn [undisturbed main_step goto pc]. unfold answer_code.
  set (m' := match recv env with Some _ => _ | None => _ end).
  assert (M : tries m' = tries m /\ exit_code m' = answer_code) by (unfold m', answer_code; repeat case_match; done).
  destruct (undisturbed_closes n (goto AtClose m')) as (H1 & H2 & H3); [lia|done|]. split; [exact H1|]. rewrite H2, H3. cbn [goto tries exit_code].
  destruct M as [-> ->]. reflexivity.
Qed.

(** The loop of sendmsg, and what follows it. *)
Lemma undisturbed_sends n : forall m, 0 <= tries m -> pc m = AtSend -> (4 + Z.to_nat (tx_retry_count - tries m) <= n)%nat ->
  exit_code m = EXIT_FAILURE ->
  pc (run n m) = Ended /\
  (tries (run n m), exit_code (run n m)) =
    (let '(k, ok) := send_loop (drop (Z.to_nat (tries m)) (sendmsg_ok env)) (tries m) tx_retry_count in
     (k, if ok : bool then answer_code else EXIT_FAILURE)).
Proof.
  induction n as [|n IH]; intros m Hi Hp Hn He; [lia|].
  pose proof (undisturbed_step n m) as Hs. unfold answer_of, main_step in Hs. rewrite Hp in Hs. specialize (Hs _ eq_refl). rewrite Hs. clear Hs.
  destruct (drop (Z.to_nat (tries m)) (sendmsg_ok env)) as [|a l] eqn:Ed.
  - rewrite nth_overflow by (apply (f_equal length) in Ed; rewrite length_drop in Ed; cbn in Ed; lia). cbn [send_loop].
    apply after_send; [lia|done..].
  - assert (Ea : nth (Z.to_nat (tries m)) (sendmsg_ok env) true = a).
    { rewrite <- (take_drop (Z.to_nat (tries m)) (sendmsg_ok env)), Ed. rewrite app_nth2; rewrite length_take_le; [now rewrite Nat.sub_diag|..];
        apply (f_equal length) in Ed; rewrite length_drop in Ed; cbn in Ed; lia. }
    rewrite Ea. destruct a; cbn [send_loop]; [apply after_send; [lia|done..]|].
    destruct (tries m + 1 >? tx_retry_count) eqn:Et; tests_to_props.
    + destruct (undisturbed_closes n (goto AtClose m)) as (H1 & H2 & H3); [lia|done|]. split; [exact H1|].
      rewrite H2, H3. cbn [goto tries exit_code]. rewrite He. f_equal. lia.
    + destruct (IH (set_tries (tries m + 1) m)) as (H1 & H2); [cbn [set_tries tries]; lia|exact Hp|cbn [set_tries tries]; lia|exact He|].
      split; [exact H1|]. rewrite H2. cbn [set_tries tries].
      replace (drop (Z.to_nat (tries m + 1)) (sendmsg_ok env)) with l; [reflexivity|].
      replace (Z.to_nat (tries m + 1)) with (Z.to_nat (tries m) + 1)%nat by lia. rewrite <- drop_drop, Ed. reflexivity.
Qed.
End Undisturbed.

(** A failure before anything is sent. *)
Lemma undisturbed_fails env tx_retry_count n m : (2 <= n)%nat -> pc m = AtClose -> exit_code m = EXIT_FAILURE -> tries m = 0 ->
  let m' := undisturbed (unlink_ok env) tx_retry_count env n m in pc m' = Ended /\ exit_code m' = EXIT_FAILURE /\ tries m' = 0.
Proof.
  intros Hn Hp He Ht. destruct (undisturbed_closes env tx_retry_count n m Hn Hp) as (H1 & H2 & H3). cbv zeta. now rewrite H2, H3, He, Ht.
Qed.


Definition silent_daemon : handler_env := MkHandlerEnv true true true true [false; false] None.

