(* ===== verification/CoredumpRun.v ===== *)
(** * A core that is stored and sent

    With a valid core, a disk with room and without failures the handler succeeds: the file it
    leaves is the core with the metadata note, compressed or not, and the entry it queues
    makes the daemon upload that file. *)
From stdpp Require Import gmap.
From S2P Require Import Prelude CLib Network TxQueue Daemon DaemonSpec Plugins RateLimiter CborSpec ElfNote ElfMetadata Elf.
From S2P Require Import ElfWriter ElfWriterSpec ElfWriterFile ElfFileIO GzipIO ElfReader ElfReaderSpec ElfReaderFile.
From S2P Require Import ElfTransformer ElfTransformerSpec GzipSpec Procfs Coredump CoredumpSpec.
#[local] Open Scope string_scope.
#[local] Open Scope list_scope.
#[local] Open Scope Z_scope.

(** ** The file *)

(** The end of the last segment when the headers [hs] are laid out from offset [off] on. *)
Fixpoint layout_end (off : Z) (hs : list Elf_Phdr) : Z :=
  match hs with
  | [] => off
  | h :: hs => layout_end (off + pad off h + p_filesz h) hs
  end.

Lemma plan_end_layout {S} (segs : list (sTicosCoreElfWriterSegment S)) : forall off, plan_end off segs = layout_end off (map header segs).
Proof. induction segs as [|s segs IH]; intros off; cbn; auto. Qed.

Definition out_headers (m : sTicosCoreElfMetadata) (hs : list Elf_Phdr) : list Elf_Phdr := hs ++ [metadata_phdr m].

Definition core_size (m : sTicosCoreElfMetadata) (hs : list Elf_Phdr) : Z :=
  layout_end (sizeof_Ehdr + sizeof_Phdr * zlen (out_headers m hs)) (out_headers m hs).

Lemma output_headers {S} `{WriteIO S} fuel file copy m hs :
  map header (output_segments (W := S) fuel file copy m hs) = out_headers m hs.
Proof.
  unfold output_segments, out_headers. rewrite map_app, map_map. f_equal. rewrite <- (map_id hs) at 2. apply map_ext.
  intros h. unfold output_segment. done.
Qed.

Lemma output_length {S} `{WriteIO S} fuel file copy m hs :
  length (output_segments (W := S) fuel file copy m hs) = length (out_headers m hs).
Proof. rewrite <- (output_headers (S := S) fuel file copy m hs). now rewrite length_map. Qed.

Lemma output_size {S} `{WriteIO S} fuel file copy m hs : let segs := output_segments (W := S) fuel file copy m hs in
  plan_end (sizeof_Ehdr + sizeof_Phdr * zlen segs) segs = core_size m hs.
Proof. cbv zeta. now rewrite plan_end_layout, output_headers, output_length. Qed.

(** [out] is the core: machine and flags of [h], the headers [hs] and the metadata's but for their
    offsets, and behind them the notes of [file], the process's memory and the metadata. *)
Definition core_written (h : Elf_Ehdr) (hs : list Elf_Phdr) (m : sTicosCoreElfMetadata) (copy : transformer_handler)
    (file out : list Z) : Prop :=
  e_machine (parse_ehdr out) = e_machine h /\ e_flags (parse_ehdr out) = e_flags h /\
  e_phnum (parse_ehdr out) = zlen (out_headers m hs) /\
  let hdrs := parse_phdrs (length (out_headers m hs)) (drop 64 out) in
  Forall2 (fun hd h' => h' = set_p_offset hd (p_offset h')) (out_headers m hs) hdrs /\
  holds out (sizeof_Ehdr + sizeof_Phdr * zlen (out_headers m hs)) hdrs (output_datas file copy m hs).

Lemma parses_as_written {S} `{WriteIO S} fuel (w : sTicosCoreElfWriter S) h hs m copy file out :
  w_e_machine w = e_machine h -> w_e_flags w = e_flags h ->
  parses_as w (output_segments fuel file copy m hs) (output_datas file copy m hs) out -> core_written h hs m copy file out.
Proof.
  intros Hm Hf (Eh & En & hdrs & Ep & F & Hh). pose proof (output_headers (S := S) fuel file copy m hs) as O.
  rewrite output_length in *. unfold core_written. rewrite Ep. split; [now rewrite Eh|]. split; [now rewrite Eh|]. split; [done|]. split; [|done].
  rewrite <- O. clear - F. induction F; cbn; constructor; auto.
Qed.

(** ** The transformer over the two devices *)
Section Runs.
Context {Zs : Type} `{ZlibLaws Zs} (fuel : nat) (uninit : Z -> list Z).
Hypothesis uninit_length : forall n, 0 <= n -> zlen (uninit n) = n.
Implicit Type env : core_env (R := sTicosCoreElfReadFileIO).

(** A stream with a core whose notes directly follow the segment table, in order. *)
Definition sound_core (stream : sTicosCoreElfReadFileIO) (h : Elf_Ehdr) (hs : list Elf_Phdr) (rest : list Z) : Prop :=
  let file := ehdr_bytes h ++ phdrs_bytes hs ++ rest in
  Forall interrupted_only (os_reads stream) /\ fd_rest stream = file /\ zlen file < 2 ^ 63 /\
  (length file + length (os_reads stream) + 1 < fuel)%nat /\ core_ehdr h /\ e_phoff h = 64 /\ e_phnum h = zlen hs /\
  zlen hs + 1 < 2 ^ 16 /\ Forall seg_in_ok hs /\ notes_ok false file (64 + 56 * zlen hs) hs.

(** A disk without write errors, with [size] bytes for the file, and memory to allocate. *)
Definition sound_disk env (gzip : bool) (m : sTicosCoreElfMetadata) (hs : list Elf_Phdr) (size : Z) : Prop :=
  Forall is_short (out_answers env) /\ out_fsync env = true /\ reader_malloc env = true /\ transformer_allocs env = [] /\ size < 2 ^ 62 /\
  0 < core_size m hs /\ core_size m hs + zlen (out_answers env) < Z.of_nat fuel /\
  if gzip then 2 * core_size m hs + 64 <= size /\ 3 * core_size m hs + 66 <= Z.of_nat fuel /\
    GZIP_COMPRESSION_BUFFER_SIZE + zlen (out_answers env) < Z.of_nat fuel
  else core_size m hs <= size.

Lemma file_run env stream h hs rest m copy size : sound_core stream h hs rest -> sound_disk env false m hs size ->
  metadata_ok m -> copy_ok copy ->
  exists d, run_transformer fuel uninit env stream (ticos_core_elf_write_file_io_init (out_answers env) (out_fsync env) size) m copy = Val (d, true) /\
    core_written h hs m copy (fd_rest stream) (fd_content d).
Proof.
  intros (Hi & Hfile & Hlen & Hfuel & Hh & Ho & Hn & Hn' & Hs & Hnotes) (Ha & Hsync & Hmal & Hal & Hsz & Hc0 & Hcf & Hroom) Hm Hc.
  rewrite Hfile in *.
  destruct (transformer_run_spec fuel uninit uninit_length stream (ticos_core_elf_write_file_io_init (out_answers env) (out_fsync env) size) m copy h hs rest)
    as (r & t & w & E & Em & Ef & P & _); try done.
  - rewrite output_size. lia.
  - rewrite output_size. split; [split; [done|]; split; [done|]; cbn; lia|].
    cbn [io write_offset io_room io_credit file_io_spec]. unfold fio_room. cbn. lia.
  - exists (io (out (writer t))). unfold run_transformer. rewrite Hmal, Hal, E. cbn [obind]. split; [done|].
    eapply parses_as_written; eassumption.
Qed.

Lemma gzip_run env stream h hs rest m copy size gz : sound_core stream h hs rest -> sound_disk env true m hs size ->
  metadata_ok m -> copy_ok copy ->
  ticos_core_elf_write_gzip_io_init (Zs := Zs) (ticos_core_elf_write_file_io_init (out_answers env) (out_fsync env) size) = Some gz ->
  exists d core, run_transformer (H4 := gzip_io fuel) fuel uninit env stream gz m copy = Val (d, true) /\
    gunzip (fd_content (next d)) = Some core /\ core_written h hs m copy (fd_rest stream) core.
Proof.
  intros (Hi & Hfile & Hlen & Hfuel & Hh & Ho & Hn & Hn' & Hs & Hnotes) (Ha & Hsync & Hmal & Hal & Hsz & Hc0 & Hcf & Hr1 & Hr2 & Hr3) Hm Hc Hg.
  rewrite Hfile in *. set (io0 := ticos_core_elf_write_file_io_init (out_answers env) (out_fsync env) size) in *.
  destruct (compressed_run fuel fuel uninit uninit_length stream io0 gz m copy h hs rest) as (r & t & w & core & E & G & Em & Ef & P); try done.
  all: rewrite ?output_size; try (unfold io0; cbn; unfold fio_room; cbn; lia).
  - split; [done|]. split; [done|]. cbn. lia.
  - unfold gz_io in *. exists (io (out (writer t))), core. unfold run_transformer. rewrite Hmal, Hal, E. cbn [obind]. split; [done|]. split; [exact G|].
    eapply (parses_as_written (H := gzip_io fuel)); eassumption.
Qed.
End Runs.

(** ** The handler *)
Section Handler.
Context {Q C W Zs : Type} `{TxQueue Q, ConfigOps C, NetworkOps W, ZlibLaws Zs}.
Context (ticosd_sdk_version : string) (fuel : nat) (uninit : Z -> list Z).
Hypothesis uninit_length : forall n, 0 <= n -> zlen (uninit n) = n.
Implicit Type env : core_env (R := sTicosCoreElfReadFileIO).
Implicit Type w : core_world (Q := Q) (C := C) (W := W).

(** What the file must hold. *)
Definition core_kept (gzip : bool) h hs m copy (file content : list Z) : Prop :=
  if gzip then exists core, gunzip content = Some core /\ core_written h hs m copy file core
  else core_written h hs m copy file content.

Lemma transform_stores env path stream pid size w h hs rest m copy : sound_core fuel stream h hs rest ->
  sound_disk fuel env (gzip_enabled (handle w)) m hs size -> metadata_ok m -> copy_ok copy ->
  prv_init_metadata ticosd_sdk_version env (ticosd w) = Some m -> proc_mem (proc env) pid = Some copy ->
  open_ok env = true -> fs w !! path = None -> (gzip_enabled (handle w) = true -> deflateInit2 (Zs := Zs) <> None) ->
  exists content, prv_transform_coredump_from_fd_to_file (Zs := Zs) ticosd_sdk_version fuel uninit env path stream pid size w =
      Val (set_fs (<[path := content]> (fs w)) w, true) /\
    core_kept (gzip_enabled (handle w)) h hs m copy (fd_rest stream) content.
Proof.
  intros Hs Hd Hm Hc Em Ec Ho Hp Hz. unfold prv_transform_coredump_from_fd_to_file. rewrite Em, Ec, Ho, bool_decide_false by (intros [? ?]; congruence).
  cbn [negb orb]. cbv zeta. destruct (gzip_enabled (handle w)).
  - destruct (ticos_core_elf_write_gzip_io_init (Zs := Zs) _) as [gz|] eqn:Eg.
    + destruct (gzip_run fuel uninit uninit_length env stream h hs rest m copy size gz) as (d & core & E & G & P); try done.
      rewrite E. cbn [obind]. exists (fd_content (next d)). split; [done|]. exists core. done.
    + exfalso. unfold ticos_core_elf_write_gzip_io_init in Eg. destruct deflateInit2 eqn:Ez; [done|]. now apply Hz.
  - destruct (file_run fuel uninit uninit_length env stream h hs rest m copy size) as (d & E & P); try done.
    rewrite E. cbn [obind]. exists (fd_content d). done.
Qed.

Lemma malloc_val (t : sTicosd Q C W) : mallocs t = [] -> malloc_ok t = Val (t, true).
Proof. intros E. unfold malloc_ok. cbn [heap_get daemon_heap]. now rewrite E. Qed.

Lemma generate_filename_val env w : mallocs (ticosd w) = [] ->
  prv_generate_filename env "corefile-" (if gzip_enabled (handle w) then ".gz" else EmptyString) w = Val (w, Some (core_file_name env (handle w))).
Proof.
  intros Hm. unfold prv_generate_filename, on_ticosd, ticos_asprintf.
  assert (V : vsprintf "%s/%s%s%s" [ArgS (Some (core_dir (handle w))); ArgS (Some "corefile-"); ArgS (Some (uuid_str env));
    ArgS (Some (if gzip_enabled (handle w) then ".gz" else EmptyString))] = Val (core_file_name env (handle w)))
    by (cbn; now rewrite string_app_nil_r).
  unfold bind, lift, ret. rewrite V. cbn [obind]. rewrite malloc_val by done. cbn [obind]. now destruct w.
Qed.

Lemma entry_text ty name : no_nul name -> entry_string (ty :: bytes_of_string name ++ [0]) 1 = Val name.
Proof.
  intros Hn. unfold entry_string. change (ty :: bytes_of_string name ++ [0]) with ([ty] ++ bytes_of_string name ++ [0]). change 1 with (zlen [ty]).
  rewrite load_after by (rewrite !length_app; cbn [length]; lia). cbn [obind]. rewrite take_ge by (rewrite !length_app; cbn [length]; lia).
  now apply c_string_of_bytes.
Qed.

(** The daemon's part: the entry of a core uploads its file. *)
Lemma core_entry_sent gzip name (t : sTicosd Q C W) : no_nul name -> mallocs t = [] ->
  send_entry (core_entry gzip name) t =
    on_network (fun x => network_file_upload x ("/chunks/" +:+ device_id (dsettings t) +:+ "/url") name gzip) t.
Proof.
  intros Hn Hm. assert (S : forall b, send_core_upload (core_entry gzip name) b t =
    on_network (fun x => network_file_upload x ("/chunks/" +:+ device_id (dsettings t) +:+ "/url") name b) t).
  { intros b. unfold send_core_upload.
    assert (P : device_path "/chunks/%s/url" [] t = Val (t, Some ("/chunks/" +:+ device_id (dsettings t) +:+ "/url"))).
    { erewrite device_path_val by (cbn; reflexivity). rewrite Hm. cbn. destruct t. cbn in *. now subst. }
    rewrite (bind_val _ _ _ _ _ P). unfold core_entry. rewrite (bind_val _ _ t t name); [done|]. unfold lift. now rewrite entry_text. }
  rewrite <- S. unfold send_entry. rewrite (bind_val _ _ t t (if gzip then kTicosdTxDataType_CoreUploadWithGzip else kTicosdTxDataType_CoreUpload)).
  2:{ unfold lift, core_entry. rewrite (load8_bytes_at _ _ (if gzip then kTicosdTxDataType_CoreUploadWithGzip else kTicosdTxDataType_CoreUpload)); [done|].
      repeat split; cbn [length]; try lia. intros [|i] Hi; [done|cbn in Hi; lia]. }
  destruct gzip; reflexivity.
Qed.

End Handler.
