(* ===== verification/CoredumpWitnesses.v ===== *)
(** * A core on a concrete device

    A small configuration, the queue of queue.c, a compressor that stores; a process with two
    segments crashes. *)
From stdpp Require Import gmap.
From S2P Require Import Prelude CLib Queue QueueSpec QueueLap QueueWitnesses TxQueue Network NetworkWitnesses Daemon DaemonSpec DaemonWitnesses.
From S2P Require Import Plugins PluginsSpec RateLimiter CborSpec ElfNote ElfMetadata Elf ElfWriter ElfWriterSpec ElfFileIO GzipIO.
From S2P Require Import ElfReader ElfReaderSpec ElfReaderFile ElfTransformer ElfTransformerSpec GzipSpec.
From S2P Require Import Procfs Coredump CoredumpSpec CoreHandler CoreHandlerSpec CoredumpRun.
#[local] Open Scope string_scope.
#[local] Open Scope list_scope.
#[local] Open Scope Z_scope.

(** ** The device *)
Record store_config := MkStoreConfig { headroom : Z; max_kib : Z }.

#[export] Instance store_config_ops : ConfigOps store_config := {
  ticosd_config_get_boolean _ _ _ := Some true;
  ticosd_config_get_integer c _ key :=
    if String.eqb key "storage_min_headroom_kib" then Some (headroom c)
    else if String.eqb key "coredump_max_size_kib" then Some (max_kib c) else None;
  ticosd_config_get_string _ _ key :=
    if String.eqb key "software_type" then Some "main" else if String.eqb key "software_version" then Some "1" else None }.

Abbreviation world := (core_world (Q := shared_queue) (C := store_config) (W := net_state steady)).

Definition crash_daemon : sTicosd shared_queue store_config (net_state steady) :=
  MkTicosd (MkShared (empty_queue true 256) []) (MkNet sample_network [] sample_disk (MkSteady 200)) (MkStoreConfig 100 200)
    (MkSettings "dev" "hw") false false [].

Definition crash_world (gzip : bool) : world := MkCoreWorld crash_daemon ∅ (MkCoredump true None "/data/core" gzip).

(** Process 42 has died; reads of its memory end after 1000 bytes. *)
Definition crash_proc : procfs :=
  MkProcfs (fun path => if String.eqb path "/proc/42/mem" then 3 else -1)
    (fun _ offset => Some (map (fun i => (offset + i) mod 256) (seqZ 0 1000))).

Definition crash_memory : transformer_handler := prv_copy_proc_mem crash_proc (MkProcfsHandler 3).

(** 1000 blocks of a KiB. *)
Definition crash_env : core_env (R := sTicosCoreElfReadFileIO) :=
  MkCoreEnv (Some (MkReadFileIO run_core [OsRead 5; OsReadError true] false)) (Some (MkStatfs 1024 1000 900)) (Some []) "u" 7 true
    crash_proc true [OsWrote 10; OsWrote 0] true [] true true.

Definition crash_metadata : sTicosCoreElfMetadata :=
  MkMetadata (bytes_of_string "1.0") 7 (bytes_of_string "dev") (bytes_of_string "hw") (bytes_of_string "main") (bytes_of_string "1").

Definition crash_entry : list Z := core_entry true "/data/core/corefile-u.gz".

Definition queue_with_crash : shared_queue :=
  match queue_write (queue crash_daemon) (Some crash_entry) (zlen crash_entry) with Val (q, _) => q | _ => queue crash_daemon end.

Lemma crash_metadata_ok : metadata_ok crash_metadata.
Proof. split; [cbn; lia|]. repeat (apply Forall_cons_2 || apply Forall_nil_2); cbn; lia. Qed.

Lemma run_core_sound : sound_core 40000 (MkReadFileIO run_core [OsRead 5; OsReadError true] false) (demo_ehdr 64 2) run_phdrs [1; 2; 3].
Proof.
  split; [repeat constructor|]. split; [reflexivity|]. split; [reflexivity|]. split; [apply Nat.ltb_lt; vm_compute; reflexivity|].
  split; [apply demo_core_ehdr; lia|]. split; [reflexivity|]. split; [reflexivity|]. split; [reflexivity|]. split.
  - constructor; [|constructor; [|constructor]]; (split; [vm_compute; repeat split; discriminate|]).
    + left. discriminate.
    + right. exists 12. split; [lia|reflexivity].
  - split; [discriminate|]. split; [now left|]. split; [discriminate|]. split; [reflexivity|]. exact I.
Qed.


(** ** One message, computed *)

(** A core of a note and four bytes. *)
Definition small_core : list Z :=
  ehdr_bytes (demo_ehdr 64 2) ++ phdrs_bytes [MkPhdr PT_NOTE 4 176 0 0 3 0 0; MkPhdr PT_LOAD 5 0 0x1000 0 4 4 1] ++ [1; 2; 3].

Definition small_env : core_env (R := sTicosCoreElfReadFileIO) :=
  MkCoreEnv (Some (MkReadFileIO small_core [] false)) (Some (MkStatfs 1024 1000 900)) (Some []) "u" 7 true
    crash_proc true [OsWrote 10; OsError true] true [] true true.

Definition small_run {Q} `{TxQueue Q} (w : core_world (Q := Q) (C := store_config) (W := net_state steady)) :=
  prv_msg_handler (Zs := stored) "1.0" 2000 zeros small_env (core_message 42) (zlen (core_message 42)) w.

Definition world_after {Q} `{TxQueue Q} (w : core_world (Q := Q) (C := store_config) (W := net_state steady)) :=
  match small_run w with Val (w', _) => w' | _ => w end.

Lemma small_run_ends : small_run (crash_world false) = Val (world_after (crash_world false), true).
Proof. vm_compute. reflexivity. Qed.

Definition small_file : list Z := default [] (fs (world_after (crash_world false)) !! "/data/core/corefile-u").

Lemma small_surroundings : surroundings_ok "1.0" small_env (crash_world false).
Proof.
  split; [done|]. split; [intros stream [= <-]; reflexivity|]. split.
  - intros m [= <-]. exact crash_metadata_ok.
  - vm_compute. reflexivity.
Qed.


Example small_file_length : zlen small_file = 287.
Proof. vm_compute. reflexivity. Qed.

(** ** Two threads *)
Definition logged_world : core_world (Q := logged shared_queue) (C := store_config) (W := net_state steady) :=
  MkCoreWorld
    (MkTicosd (MkLogged (MkShared (empty_queue true 256) []) []) (network crash_daemon) (config crash_daemon) (dsettings crash_daemon) false false [])
    ∅ (MkCoredump true None "/data/core" false).

Lemma logged_run_ends : small_run logged_world = Val (world_after logged_world, true).
Proof. vm_compute. reflexivity. Qed.

(** A message, then the main thread looks at the queue. *)
Definition logged_read :=
  match on_queue queue_read_head (ticosd (world_after logged_world)) with Val (t, _) => on_world t (world_after logged_world) | _ => logged_world end.

Lemma core_files_accounted_witness : accounted logged_world logged_read.
Proof.
  apply (core_files_accounted (R := sTicosCoreElfReadFileIO) (Zs := stored) "1.0" 2000 zeros); [reflexivity|].
  eapply rtc_l; [|eapply rtc_l; [|apply rtc_refl]].
  - apply (step_message "1.0" 2000 zeros small_env (core_message 42) (zlen (core_message 42)) logged_world _ true eq_refl logged_run_ends).
  - unfold logged_read. destruct (on_queue queue_read_head (ticosd (world_after logged_world))) as [[t r]| |] eqn:E.
    + exact (step_read "1.0" 2000 zeros _ t r E).
    + exfalso. vm_compute in E. discriminate E.
    + exfalso. vm_compute in E. discriminate E.
Defined.

(** ** ticos-core-handler *)
Definition handler_world : handler_env := MkHandlerEnv true true true true [false; false] None.

Definition recorder (msg : list Z) (n : Z) : M (list Z) bool := fun _ => Val (take (Z.to_nat n) msg, true).
Definition core_plugin : sTicosdPluginDef (list Z) :=
  MkPlugin (fun f => ret (f, true)) (Some (MkFns None (Some recorder))) "coredump" "CORE".
Definition other_plugin : sTicosdPluginDef (list Z) :=
  MkPlugin (fun f => ret (f, true)) (Some (MkFns None (Some recorder))) "attributes" "ATTRIBUTES".

Lemma core_request_roundtrip_witness :
  exists msg n st, core_handler_main handler_world [] [print_Z 42] = Val (MkRun (Some msg) n st) /\
    let buf := msg ++ drop (length msg) (zeros 1024) in
    ipc_turn ([other_plugin] ++ core_plugin :: []) (zeros 1024) (Datagram msg) [] = (let* _ := recorder buf (zlen msg) in ret buf) [] /\
    message_pid buf (zlen msg) = Val (Some 42).
Proof.
  apply (core_request_roundtrip handler_world 42 [other_plugin] [] core_plugin None recorder (zeros 1024) []); try reflexivity.
  - repeat split.
  - split; [discriminate|reflexivity].
  - apply Forall_cons_2; [|apply Forall_nil_2]. split; [repeat (apply Forall_cons_2; [discriminate|]); apply Forall_nil_2|].
    split; [reflexivity|discriminate].
Defined.

Fixpoint many (n : nat) : string := match n with O => EmptyString | S n => String "a" (many n) end.

Lemma no_nul_many n : no_nul (many n).
Proof. induction n as [|n IH]; [apply Forall_nil_2|]. apply Forall_cons_2; [discriminate|exact IH]. Qed.

Lemma long_arguments_undefined_witness : core_handler_main handler_world [] ([] ++ many 1015 :: "42" :: []) = Fault.
Proof.
  apply long_arguments_undefined.
  - repeat split.
  - apply Forall_cons_2; [apply no_nul_many|apply Forall_nil_2].
  - reflexivity.
  - vm_compute. discriminate.
Defined.
