(* ===== verification/Device.v ===== *)
(** * The whole daemon: the table of plugins over one device (src/util/plugins.c)

    [g_plugins] with every plugin built in.  A plugin's operations act on the part of the
    device it knows; together they share the daemon's handle, the system bus and the files, which
    are also those that the network layer uploads. *)
From stdpp Require Import gmap.
From S2P Require Import Prelude CLib TxQueue Network Daemon Frame Config Plugins Shutdown Systemd.
From S2P Require Import Reboot Swupdate Collectd ElfReader GzipIO Coredump.
#[local] Open Scope string_scope.
#[local] Open Scope list_scope.
#[local] Open Scope Z_scope.

(** The files of the device, which the network layer uploads from and deletes. *)
Class HasDisk (W : Type) := {
  disk_of : W -> files;
  put_disk : files -> W -> W;
  disk_put f w : disk_of (put_disk f w) = f;
  put_twice f g w : put_disk f (put_disk g w) = put_disk f w;
  put_own w : put_disk (disk_of w) w = w }.

#[export] Program Instance net_disk {N} : HasDisk (net_state N) := {
  disk_of := disk;
  put_disk f s := MkNet (Network.handle s) (allocs s) f (peer s) }.
Next Obligation. done. Qed.
Next Obligation. done. Qed.
Next Obligation. now intros N []. Qed.

Section Device.
Context {Q C W B K H R Zs : Type} `{TxQueue Q, ConfigOps C, NetworkOps W, HasDisk W, SdBus B, Libconfig K H, ReadIO R, Zlib Zs}.
Context (ticosd_sdk_version : string) (fuel : nat) (uninit : Z -> list Z).

(** The handles of the plugins that keep one; how often collectd's plugin has slept; how many
    messages the core dump plugin has had. *)
Record device := MkDevice {
  handle_of_daemon : sTicosd Q C W;
  system_bus : B;
  collectd_handle : Collectd.sTicosdPlugin;
  seconds_slept : Z;
  coredump_handle : Coredump.sTicosdPlugin;
  core_messages : nat }.

(** What the system answers the plugins; [core_answers] those to each core message. *)
Record device_env := MkDeviceEnv {
  calloc_answers : string -> bool;
  filename_malloc : string -> bool;
  reboot_answers : reboot_env;
  destroy_answers : reboot_env;
  collectd_answers : collectd_env;
  core_init_answers : core_init_env;
  core_answers : nat -> core_env (R := R) }.

(** ** The parts *)
Definition set_daemon (t : sTicosd Q C W) (d : device) : device :=
  MkDevice t (system_bus d) (collectd_handle d) (seconds_slept d) (coredump_handle d) (core_messages d).

Definition filesystem (d : device) : files := disk_of (network (handle_of_daemon d)).

(** The daemon with other files on the disk. *)
Definition put_files (fs : files) (t : sTicosd Q C W) : sTicosd Q C W := set_network (put_disk fs (network t)) t.

#[export] Instance device_has_daemon : HasDaemon device (sTicosd Q C W) := {
  daemon := handle_of_daemon;
  with_daemon := set_daemon;
  daemon_with _ _ := eq_refl }.

Definition reboot_part (d : device) : Reboot.world Q C W := Reboot.MkWorld (handle_of_daemon d) (filesystem d).
Definition set_reboot_part (w : Reboot.world Q C W) (d : device) : device :=
  MkDevice (put_files (Reboot.fs w) (Reboot.ticosd w)) (system_bus d) (collectd_handle d) (seconds_slept d) (coredump_handle d) (core_messages d).

Definition swupdate_part (d : device) : swupdate_world (Q := Q) (C := C) (W := W) (B := B) :=
  MkSwupdateWorld (handle_of_daemon d) (filesystem d) (system_bus d).
Definition set_swupdate_part (w : swupdate_world (Q := Q) (C := C) (W := W) (B := B)) (d : device) : device :=
  MkDevice (put_files (Swupdate.fs w) (Swupdate.ticosd w)) (Swupdate.bus w) (collectd_handle d) (seconds_slept d) (coredump_handle d) (core_messages d).

Definition collectd_part (d : device) : collectd_world (Q := Q) (C := C) (W := W) (B := B) :=
  MkCollectdWorld (handle_of_daemon d) (filesystem d) (system_bus d) (collectd_handle d) (seconds_slept d).
Definition set_collectd_part (w : collectd_world (Q := Q) (C := C) (W := W) (B := B)) (d : device) : device :=
  MkDevice (put_files (Collectd.fs w) (Collectd.ticosd w)) (Collectd.bus w) (Collectd.handle w) (Collectd.slept w) (coredump_handle d) (core_messages d).

Definition coredump_part (d : device) : core_world (Q := Q) (C := C) (W := W) :=
  MkCoreWorld (handle_of_daemon d) (filesystem d) (coredump_handle d).
Definition set_coredump_part (w : core_world (Q := Q) (C := C) (W := W)) (d : device) : device :=
  MkDevice (put_files (Coredump.fs w) (Coredump.ticosd w)) (system_bus d) (collectd_handle d) (seconds_slept d) (Coredump.handle w) (S (core_messages d)).

(** ** The table *)
Context (env : device_env).

Definition zoom_fns {P} (get : device -> P) (put : P -> device -> device) (f : sTicosdPluginCallbackFns P) : sTicosdPluginCallbackFns device :=
  MkFns (option_map (zoom get put) (plugin_destroy f))
        (option_map (fun handler buf n => zoom get put (handler buf n)) (plugin_ipc_msg_handler f)).

(** The names of the reboot plugin's files come from the configuration. *)
Definition with_filenames (c : C) (e : reboot_env) : reboot_env :=
  MkRebootEnv (fun name => ticosd_config_generate_rw_filename (filename_malloc env name) c name)
    (Reboot.can_open e) (can_write e) (Reboot.can_unlink e) (boot_id e) (id_env e) (pstore_walk e) (Reboot.sd_bus e) (uboot e).

Definition init_attributes (f : option (sTicosdPluginCallbackFns device)) : M device (option (sTicosdPluginCallbackFns device) * bool) :=
  let* (fns, ok) := zoom handle_of_daemon set_daemon (ticosd_attributes_init (calloc_answers env "attributes") None) in
  ret (match fns with Some fns => Some (zoom_fns handle_of_daemon set_daemon fns) | None => f end, ok).

Definition init_reboot (f : option (sTicosdPluginCallbackFns device)) : M device (option (sTicosdPluginCallbackFns device) * bool) :=
  let* c := gets (fun d => config (handle_of_daemon d)) in
  let* (fns, ok) := zoom reboot_part set_reboot_part
    (ticosd_reboot_init (with_filenames c (reboot_answers env)) (with_filenames c (destroy_answers env)) (calloc_answers env "reboot")) in
  ret (option_map (zoom_fns reboot_part set_reboot_part) fns, ok).

Definition init_swupdate (f : option (sTicosdPluginCallbackFns device)) : M device (option (sTicosdPluginCallbackFns device) * bool) :=
  let* ok := zoom swupdate_part set_swupdate_part (ticosd_swupdate_init (K := K) (H := H) (calloc_answers env "swupdate")) in
  ret (if ok then Some (MkFns (Some (ret tt)) None) else f, ok).

Definition init_collectd (f : option (sTicosdPluginCallbackFns device)) : M device (option (sTicosdPluginCallbackFns device) * bool) :=
  let* ok := zoom collectd_part set_collectd_part (ticosd_collectd_init (collectd_answers env) (calloc_answers env "collectd")) in
  ret (if ok then Some (zoom_fns collectd_part set_collectd_part Collectd.s_fns) else f, ok).

(** The plugin's functions; its destructor only frees. *)
Definition core_message_handler (buf : list Z) (received_size : Z) : M device bool :=
  let* n := gets core_messages in
  zoom coredump_part set_coredump_part
    (Coredump.prv_msg_handler (Zs := Zs) ticosd_sdk_version fuel uninit (core_answers env n) buf received_size).

Definition coredump_fns : sTicosdPluginCallbackFns device := MkFns (Some (ret tt)) (Some core_message_handler).

Definition init_coredump (f : option (sTicosdPluginCallbackFns device)) : M device (option (sTicosdPluginCallbackFns device) * bool) := fun d =>
  let! (t, (fs, h)) := ticosd_coredump_init (core_init_answers env) (filesystem d) (handle_of_daemon d) in
  Val (MkDevice (put_files fs t) (system_bus d) (collectd_handle d) (seconds_slept d) (default (coredump_handle d) h) (core_messages d),
       (Some coredump_fns, match h with Some _ => true | None => false end)).

Definition CORE_IPC_NAME : string := "CORE".

Definition g_plugins : list (sTicosdPluginDef device) := [
  MkPlugin init_attributes None "attributes" ATTRIBUTES_IPC_NAME;
  MkPlugin init_reboot None "reboot" EmptyString;
  MkPlugin init_swupdate None "swupdate" EmptyString;
  MkPlugin init_collectd None "collectd" PLUGIN_COLLECTD_IPC_NAME;
  MkPlugin init_coredump None "coredump" CORE_IPC_NAME ].

(** Before the plugins are loaded: no handle has been allocated. *)
Definition bare_device (bus : B) (t : sTicosd Q C W) : device :=
  MkDevice t bus (MkCollectd false EmptyString EmptyString) 0 (MkCoredump false None EmptyString false) 0.

Definition load_device (bus : B) (t : sTicosd Q C W) : outcome (device * list (sTicosdPluginDef device)) :=
  ticosd_load_plugins g_plugins (bare_device bus t).
End Device.
Arguments device : clear implicits.
