(* ===== verification/DeviceSpec.v ===== *)
(** * A device without consent to data collection

    From the loading of the plugins to the end of the daemon: with every plugin in the table and
    in every interleaving of threads, messages and signals. *)
From stdpp Require Import gmap relations.
From S2P Require Import Prelude CLib Queue QueueSpec TxQueue Network Daemon Frame Config Plugins Startup StartupSpec Shutdown Systemd.
From S2P Require Import Reboot Swupdate Collectd ElfReader GzipIO Coredump Device.
#[local] Open Scope string_scope.
#[local] Open Scope list_scope.
#[local] Open Scope Z_scope.

(** ** The daemon's handle *)
Section Quiet.
Context {Q C W : Type} `{TxQueue Q, ConfigOps C, NetworkOps W}.
Implicit Type t : sTicosd Q C W.

Definition forbids (c : C) : Prop := forall parent_key, parent_key = None \/ parent_key = Some EmptyString ->
  ticosd_config_get_boolean c parent_key "enable_data_collection" <> Some true.

(** What is to be sent, what has been, and what that depends on. *)
Definition same_goods t t' : Prop := queue t' = queue t /\ network t' = network t /\ config t' = config t /\ dsettings t' = dsettings t.

Definition quiet t t' : Prop := forbids (config t) -> same_goods t t'.

#[export] Instance same_goods_preorder : PreOrder same_goods.
Proof. split; [done|]. intros t1 t2 t3. unfold same_goods. intuition congruence. Qed.

#[export] Instance quiet_preorder : PreOrder quiet.
Proof.
  split; [done|]. intros t1 t2 t3 H12 H23 F. specialize (H12 F). etransitivity; [exact H12|]. apply H23. now destruct H12 as (_ & _ & -> & _).
Qed.

Lemma heap_goods t t' : same_but_heap t t' -> same_goods t t'.
Proof. unfold same_but_heap, same_daemon, same_goods. tauto. Qed.

Lemma heap_quiet {A} (m : M (sTicosd Q C W) A) : keeps same_but_heap m -> keeps quiet m.
Proof. intros Hm. apply (keeps_implied _ _ _ Hm). intros t t' S _. now apply heap_goods. Qed.

Lemma forbids_off parent_key t : forbids (config t) -> parent_key = None \/ parent_key = Some EmptyString -> data_collection_off parent_key t = true.
Proof.
  intros F Hp. specialize (F parent_key Hp). unfold data_collection_off, ticosd_get_boolean.
  destruct (ticosd_config_get_boolean (config t) parent_key "enable_data_collection") as [[]|]; done.
Qed.

Lemma quiet_txdata data n : keeps quiet (ticosd_txdata (Q := Q) (C := C) (W := W) data n).
Proof.
  intros t t' b E F. unfold ticosd_txdata, bind, gets in E. cbn [obind] in E. rewrite forbids_off in E by auto. now injection E as <- _.
Qed.

Lemma quiet_process_tx_queue fuel : keeps quiet (prv_ticosd_process_tx_queue (Q := Q) (C := C) (W := W) fuel).
Proof.
  intros t t' b E F. unfold prv_ticosd_process_tx_queue, bind, gets in E. cbn [obind] in E. rewrite forbids_off in E by auto.
  now injection E as <- _.
Qed.

Lemma quiet_terminate b : keeps quiet (modify (set_terminate (Q := Q) (C := C) (W := W) b)).
Proof. now apply keeps_modify. Qed.
End Quiet.
#[export] Hint Resolve heap_quiet quiet_txdata quiet_process_tx_queue quiet_terminate : frame.

Lemma quiet_turn {Q C W} `{TxQueue Q, ConfigOps C, NetworkOps W} fuel l w :
  keeps quiet (process_turn (Q := Q) (C := C) (W := W) fuel l w).
Proof. unfold process_turn. frame. Qed.

Lemma quiet_attributes {Q C W} `{TxQueue Q, ConfigOps C, NetworkOps W} msg n :
  keeps quiet (Plugins.prv_msg_handler (Q := Q) (C := C) (W := W) msg n).
Proof. unfold Plugins.prv_msg_handler, Plugins.prv_build_queue_entry. frame. Qed.

(** ** Loading the plugins without consent *)
Section Load.
Context {Q C W B K H R Zs : Type} `{TxQueue Q, ConfigOps C, NetworkOps W, HasDisk W, SdBus B, Libconfig K H, ReadIO R, Zlib Zs}.

Abbreviation collectd_state := (collectd_world (Q := Q) (C := C) (W := W) (B := B)).
Abbreviation swupdate_state := (swupdate_world (Q := Q) (C := C) (W := W) (B := B)).

(** The reboot plugin keeps books of the boot and cleans up. *)
Lemma reboot_init_off (env denv : reboot_env) ok (w w' : Reboot.world Q C W) r : forbids (config (Reboot.ticosd w)) ->
  ticosd_reboot_init env denv ok w = Val (w', r) -> Reboot.ticosd w' = Reboot.ticosd w /\ r = (None, true).
Proof.
  intros F E. unfold ticosd_reboot_init in E. rewrite (bind_val _ _ w w true) in E.
  2:{ unfold Reboot.on_ticosd, gets. cbn [obind]. rewrite forbids_off by auto. now destruct w. }
  assert (Kf : forall {A} (f : files -> outcome (files * A)), keeps (fun w w' : Reboot.world Q C W => Reboot.ticosd w' = Reboot.ticosd w) (Reboot.on_files f)).
  { intros A f x x' b. unfold Reboot.on_files. destruct (f (Reboot.fs x)) as [[fs a]| |]; [|done..]. now intros [= <- _]. }
  assert (P : PreOrder (fun w w' : Reboot.world Q C W => Reboot.ticosd w' = Reboot.ticosd w)) by (split; [done|intros ? ? ? -> ->; done]).
  apply bind_inv in E as (w1 & u & E1 & E). apply bind_inv in E as (w2 & u2 & E2 & E). injection E as <- <-. split; [|done].
  assert (K1 : keeps (fun w w' : Reboot.world Q C W => Reboot.ticosd w' = Reboot.ticosd w) (prv_run_if_untracked_boot_id env prv_noop_untracked_boot_id_handler)).
  { unfold prv_run_if_untracked_boot_id, prv_noop_untracked_boot_id_handler. frame. }
  rewrite <- (K1 _ _ _ E1). exact (Kf _ _ _ _ _ E2).
Qed.

(** swupdate's configuration is written all the same. *)
Definition same_swupdate (w w' : swupdate_state) : Prop := same_but_heap (Swupdate.ticosd w) (Swupdate.ticosd w').

#[local] Instance same_swupdate_preorder : PreOrder same_swupdate.
Proof. unfold same_swupdate. split; [done|]. intros ? ? ? S1 S2. etransitivity; eassumption. Qed.

Lemma suricatta_heap (k : K) : keeps same_but_heap (prv_swupdate_add_suricatta (Q := Q) (C := C) (W := W) (K := K) (H := H) k).
Proof. unfold prv_swupdate_add_suricatta. cbv zeta. frame. Qed.

Lemma swupdate_config_keeps : keeps same_swupdate (prv_swupdate_generate_config (K := K) (H := H)).
Proof.
  intros w w' b E. unfold prv_swupdate_generate_config in E. destruct (config_read_file config_init _) as [k u].
  destruct (prv_swupdate_add_globals k) as [k1 []]; cbn [negb] in E; [|now injection E as <- _].
  unfold Swupdate.on_daemon in E. destruct (prv_swupdate_add_suricatta k1 (Swupdate.ticosd w)) as [[t [k2 ok]]| |] eqn:Es; [|done..].
  apply suricatta_heap in Es. cbn [obind] in E. destruct ok; cbn [negb] in E; [|now injection E as <- _].
  cbn [Swupdate.ticosd] in E. destruct (prv_swupdate_add_identify t k2) as [k3 []]; cbn [negb] in E; [|now injection E as <- _].
  cbn [prv_swupdate_add_runtime negb] in E. destruct (config_write_file k3); now injection E as <- _.
Qed.

Lemma swupdate_bus {A} (f : B -> B * A) : keeps same_swupdate (Swupdate.on_bus f).
Proof. intros w w' b. unfold Swupdate.on_bus. destruct (f (Swupdate.bus w)). now intros [= <- _]. Qed.

Lemma swupdate_init_keeps ok : keeps same_swupdate (ticosd_swupdate_init (K := K) (H := H) ok).
Proof. unfold ticosd_swupdate_init, prv_swupdate_reload. frame; first [apply swupdate_config_keeps|apply swupdate_bus]. Qed.

(** The collectd plugin empties its files and does not ask for metrics later. *)
Definition same_collectd (w w' : collectd_state) : Prop :=
  same_but_heap (Collectd.ticosd w) (Collectd.ticosd w') /\ (was_enabled (Collectd.handle w) = false -> was_enabled (Collectd.handle w') = false).

#[local] Instance same_collectd_preorder : PreOrder same_collectd.
Proof. unfold same_collectd. split; [done|]. intros ? ? ? [S1 ?] [S2 ?]. split; [etransitivity; eassumption|auto]. Qed.

Lemma collectd_fopen env name : keeps same_collectd (fopen_w env name).
Proof. unfold fopen_w, set_files. frame. now apply keeps_modify. Qed.

Lemma collectd_bus {A} (f : B -> B * A) : keeps same_collectd (Collectd.on_bus f).
Proof. intros w w' b. unfold Collectd.on_bus. destruct (f (Collectd.bus w)). now intros [= <- _]. Qed.

Lemma collectd_off : keeps same_collectd (set_was_enabled (Q := Q) (C := C) (W := W) (B := B) false).
Proof. unfold set_was_enabled. now apply keeps_modify. Qed.

Lemma collectd_reload_off env (w w' : collectd_state) b : forbids (config (Collectd.ticosd w)) -> prv_reload env w = Val (w', b) -> same_collectd w w'.
Proof.
  intros F E. unfold prv_reload in E. rewrite (bind_val _ _ w w true) in E.
  2:{ unfold Collectd.on_daemon, gets. cbn [obind]. rewrite forbids_off by auto. now destruct w. }
  revert E. match goal with |- ?m w = _ -> _ => assert (Km : keeps same_collectd m); [|intros E; exact (Km _ _ _ E)] end.
  unfold prv_clear_config_files_if_not_already_cleared, clear_if_needed, prv_write_empty_file. cbv zeta.
  frame; first [apply collectd_fopen|apply collectd_bus|apply collectd_off].
Qed.

Lemma collectd_init_off env ok (w w' : collectd_state) b : forbids (config (Collectd.ticosd w)) -> was_enabled (Collectd.handle w) = false ->
  ticosd_collectd_init env ok w = Val (w', b) ->
  same_but_heap (Collectd.ticosd w) (Collectd.ticosd w') /\ was_enabled (Collectd.handle w') = false.
Proof.
  intros F Hw E. unfold ticosd_collectd_init in E. destruct ok; cbn [negb] in E; [|now injection E as <- _].
  unfold Collectd.on_daemon, gets, bind in E. cbn [obind modify Collectd.ticosd Collectd.fs Collectd.bus Collectd.handle] in E.
  match type of E with obind (prv_reload env ?x) _ = _ => destruct (prv_reload env x) as [[w1 r]| |] eqn:Er; [|done..] end.
  injection E as <- _. apply collectd_reload_off in Er; [|exact F]. destruct Er as [S Hs]. split; [exact S|]. apply Hs. cbn.
  unfold ticosd_get_boolean. destruct (ticosd_config_get_boolean _ _ _) as [[]|] eqn:Eb; try done. exfalso. eapply (F (Some EmptyString)); eauto.
Qed.

Lemma metrics_off (w w' : collectd_state) b : was_enabled (Collectd.handle w) = false ->
  prv_request_metrics w = Val (w', b) -> w' = w.
Proof. intros Hw E. unfold prv_request_metrics, bind, gets in E. cbn [obind] in E. rewrite Hw in E. now injection E as <- _. Qed.

(** The core dump plugin keeps the consent it was loaded with. *)
Lemma coredump_init_off env fs t t' fs' h : forbids (config t) ->
  ticosd_coredump_init (Q := Q) (C := C) (W := W) env fs t = Val (t', (fs', h)) ->
  same_but_heap t t' /\ forall p, h = Some p -> enable_data_collection p = false.
Proof.
  intros F E. unfold ticosd_coredump_init in E. destruct (negb (calloc_ok env)); [done|].
  rewrite (bind_val _ _ t t false) in E by (unfold gets; now rewrite forbids_off by auto).
  apply bind_inv in E as (t1 & dir & Ed & E).
  assert (Kd : keeps (same_but_heap (Q := Q) (C := C) (W := W)) (prv_create_dir env "core")) by (unfold prv_create_dir; frame).
  apply Kd in Ed. destruct dir as [dir|]; [|now injection E as <- _ <-].
  destruct (negb (pattern_open env)); [now injection E as <- _ <-|]. destruct (negb (pattern_write env)); [now injection E as <- _ <-|].
  unfold bind, gets, lift in E. cbn [obind] in E.
  destruct (RateLimiter.coredump_create_rate_limiter _ _ _ _ _) as [limiter| |]; [|done..]. cbn [obind] in E.
  injection E as <- _ <-. split; [exact Ed|]. now intros p [= <-].
Qed.

Lemma core_message_off ver fuel uninit env buf n (w w' : core_world (Q := Q) (C := C) (W := W)) b :
  enable_data_collection (Coredump.handle w) = false ->
  Coredump.prv_msg_handler (R := R) (Zs := Zs) ver fuel uninit env buf n w = Val (w', b) -> w' = w.
Proof.
  intros Hw E. unfold Coredump.prv_msg_handler in E. destruct (file_stream env) as [stream|]; [|now injection E as <- _].
  unfold bind, lift, gets in E. destruct (message_pid buf n) as [[pid|]| |]; cbn [obind] in E; [|now injection E as <- _|done..].
  rewrite Hw in E. now injection E as <- _.
Qed.

(** ** The device *)
Abbreviation device := (device Q C W B).
Implicit Type d : device.
Implicit Type t : sTicosd Q C W.

Record inert d : Prop := {
  inert_config : forbids (config (handle_of_daemon d));
  inert_collectd : was_enabled (collectd_handle d) = false;
  inert_coredump : enable_data_collection (coredump_handle d) = false }.

Definition idle d d' : Prop := inert d ->
  inert d' /\ same_goods (handle_of_daemon d) (handle_of_daemon d') /\ system_bus d' = system_bus d.

#[export] Instance idle_preorder : PreOrder idle.
Proof.
  split; [done|]. intros d1 d2 d3 H12 H23 I. destruct (H12 I) as (I2 & S2 & B2). destruct (H23 I2) as (I3 & S3 & B3).
  split; [done|]. split; [etransitivity; eassumption|congruence].
Qed.

Lemma idle_daemon d t : quiet (handle_of_daemon d) t -> idle d (set_daemon t d).
Proof.
  intros Hq [F Hc Hd]. specialize (Hq F). split; [|done]. split; cbn; [|done..]. now destruct Hq as (_ & _ & -> & _).
Qed.

(** Loading may also write files. *)
Definition loading t t' : Prop := queue t' = queue t /\ network t' = put_disk (disk_of (network t')) (network t) /\
  config t' = config t /\ dsettings t' = dsettings t.

Lemma loading_refl t : loading t t.
Proof. unfold loading. now rewrite put_own. Qed.

Lemma loading_trans t1 t2 t3 : loading t1 t2 -> loading t2 t3 -> loading t1 t3.
Proof.
  intros (Q1 & N1 & C1 & D1) (Q2 & N2 & C2 & D2). split; [congruence|]. split; [|split; congruence]. now rewrite N2 at 1; rewrite N1, put_twice.
Qed.

Lemma loading_files fs t t' : same_goods t t' -> loading t (put_files fs t').
Proof. intros (Eq & En & Ec & Ed). split; [exact Eq|]. split; [|now split]. cbn. now rewrite disk_put, En. Qed.

(** A plugin that changed nothing but its handle. *)
Lemma put_files_own t : put_files (disk_of (network t)) t = t.
Proof. unfold put_files. rewrite put_own. now destruct t. Qed.

Definition harmless_fns (f : sTicosdPluginCallbackFns device) : Prop :=
  (forall m, plugin_destroy f = Some m -> keeps idle m) /\
  (forall handler buf n, plugin_ipc_msg_handler f = Some handler -> keeps idle (handler buf n)).

Definition harmless (p : sTicosdPluginDef device) : Prop := forall f, fns p = Some f -> harmless_fns f.

Definition loads (p : sTicosdPluginDef device) : Prop := forall d d' f ok, inert d -> init p (fns p) d = Val (d', (f, ok)) ->
  inert d' /\ loading (handle_of_daemon d) (handle_of_daemon d') /\ (ok = true -> forall f', f = Some f' -> harmless_fns f').

Lemma load_harmless ps : Forall loads ps -> forall d d' ps', inert d -> ticosd_load_plugins ps d = Val (d', ps') ->
  inert d' /\ loading (handle_of_daemon d) (handle_of_daemon d') /\ Forall harmless ps'.
Proof.
  induction 1 as [|p ps Hp _ IH]; intros d d' ps' I E; [injection E as <- <-; split; [done|]; split; [apply loading_refl|done]|]. cbn [ticosd_load_plugins] in E.
  apply bind_inv in E as (d1 & [f ok] & E1 & E). destruct (Hp _ _ _ _ I E1) as (I1 & S1 & H1').
  apply bind_inv in E as (d2 & rest & E2 & E). destruct (IH _ _ _ I1 E2) as (I2 & S2 & F2). injection E as <- <-.
  split; [done|]. split; [eapply loading_trans; eassumption|]. constructor; [|done].
  intros f' Ef. cbn in Ef. destruct ok; [|done]. now apply H1'.
Qed.

(** *** The five plugins *)
Context (ticosd_sdk_version : string) (fuel : nat) (uninit : Z -> list Z) (env : device_env (R := R)).

Lemma loads_attributes name ipc : loads (MkPlugin (init_attributes env) None name ipc).
Proof.
  intros d d' f ok I E. cbn [init fns] in E. unfold init_attributes, ticosd_attributes_init in E. apply bind_inv in E as (d1 & [g k] & E1 & E).
  injection E as <- <- <-. unfold zoom in E1. destruct (calloc_answers env "attributes"); cbn in E1; injection E1 as <- <- <-.
  - split; [now destruct d, I|]. split; [apply loading_refl|]. intros _ f' [= <-]. split; [done|]. intros handler buf n [= <-].
    apply (keeps_zoom _ _ quiet); [apply quiet_attributes|apply idle_daemon].
  - split; [now destruct d, I|]. split; [apply loading_refl|done].
Qed.

Lemma loads_reboot name ipc : loads (MkPlugin (init_reboot env) None name ipc).
Proof.
  intros d d' f ok I E. cbn [init fns] in E. unfold init_reboot in E. rewrite (bind_val _ _ d d (config (handle_of_daemon d))) in E by done.
  apply bind_inv in E as (d1 & [g k] & E1 & E). injection E as <- <- <-. apply zoom_val in E1 as (w & E1 & ->).
  apply reboot_init_off in E1; [|apply I]. destruct E1 as [T E1]. injection E1 as -> ->. destruct I as [I1 I2 I3].
  cbn in T. unfold set_reboot_part. rewrite T. split; [now split|]. split; [now apply loading_files|done].
Qed.

Lemma loads_swupdate name ipc : loads (MkPlugin (init_swupdate (K := K) (H := H) env) None name ipc).
Proof.
  intros d d' f ok [I1 I2 I3] E. cbn [init fns] in E. unfold init_swupdate in E. apply bind_inv in E as (d1 & k & E1 & E).
  injection E as <- <- <-. apply zoom_val in E1 as (w & E1 & ->). apply swupdate_init_keeps, heap_goods in E1. cbn in E1.
  split; [|split; [now apply loading_files|]].
  - split; cbn; [|done..]. now destruct E1 as (_ & _ & -> & _).
  - intros -> f' [= <-]. split; [intros m [= <-]; apply keeps_ret|done].
Qed.

Lemma loads_collectd name ipc : loads (MkPlugin (init_collectd env) None name ipc).
Proof.
  intros d d' f ok [I1 I2 I3] E. cbn [init fns] in E. unfold init_collectd in E. apply bind_inv in E as (d1 & k & E1 & E).
  injection E as <- <- <-. apply zoom_val in E1 as (w & E1 & ->). apply collectd_init_off in E1; [|done..]. destruct E1 as [S E1].
  apply heap_goods in S. cbn in S. split; [|split; [now apply loading_files|]].
  - split; cbn; [|done..]. now destruct S as (_ & _ & -> & _).
  - assert (Own : forall d, idle d (set_collectd_part (collectd_part d) d)).
    { intros g Ig. unfold set_collectd_part. cbn. unfold filesystem. rewrite put_files_own. now destruct g, Ig. }
    intros -> f' [= <-]. split; [intros m [= <-]; apply (keeps_zoom _ _ eq); [apply keeps_ret|intros g _ <-; apply Own]|].
    intros handler buf n [= <-] g g' b E' Ig. apply zoom_val in E' as (w' & E' & ->). apply metrics_off in E'; [|apply Ig]. subst w'.
    now apply Own.
Qed.

Lemma loads_coredump name ipc : loads (MkPlugin (init_coredump (Zs := Zs) ticosd_sdk_version fuel uninit env) None name ipc).
Proof.
  intros d d' f ok [I1 I2 I3] E. cbn [init fns] in E. unfold init_coredump in E.
  destruct (ticosd_coredump_init _ _ _) as [[t [fs h]]| |] eqn:E1; [|done..]. cbn [obind] in E. injection E as <- <- <-.
  apply coredump_init_off in E1 as [S Hh]; [|done]. apply heap_goods in S. split; [|split; [now apply loading_files|]].
  - split; cbn; [|done|]; [now destruct S as (_ & _ & -> & _)|]. destruct h as [p|]; [now apply Hh|done].
  - intros _ f' [= <-]. split; [intros m [= <-]; apply keeps_ret|].
    intros handler buf n [= <-] g g' b E Ig. unfold core_message_handler in E. apply bind_inv in E as (g1 & k & E1 & E).
    injection E1 as <- <-. apply zoom_val in E as (w' & E & ->). apply core_message_off in E; [|apply Ig]. subst w'.
    unfold set_coredump_part. cbn. unfold filesystem. rewrite put_files_own. destruct Ig. now split.
Qed.

Lemma table_loads : Forall loads (g_plugins (K := K) (H := H) (Zs := Zs) ticosd_sdk_version fuel uninit env).
Proof.
  repeat apply Forall_cons_2; [apply loads_attributes|apply loads_reboot|apply loads_swupdate|apply loads_collectd|apply loads_coredump|constructor].
Qed.
End Load.

(** ** Running without consent *)
Section Run.
Context {Q C W B : Type} `{TxQueue Q, ConfigOps C, NetworkOps W}.
Abbreviation device := (device Q C W B).
Context (ps : list (sTicosdPluginDef device)) (Hps : Forall harmless ps).

Lemma process_ipc_idle msg n : keeps idle (ticosd_plugins_process_ipc ps msg n).
Proof.
  induction Hps as [|p qs Hp Hqs IH]; cbn [ticosd_plugins_process_ipc]; [apply keeps_ret|]. specialize (IH Hqs).
  destruct (fns p) as [[dm [handler|]]|] eqn:F; [|exact IH..].
  destruct (String.eqb _ _); [exact IH|]. destruct (n <=? _); [exact IH|].
  apply keeps_bind; [apply keeps_lift|]. intros []; cbn [negb]; [|exact IH].
  apply keeps_bind; [|intros; apply keeps_ret]. now apply (proj2 (Hp _ F)).
Qed.

Lemma destroy_idle : keeps idle (ticosd_destroy_plugins ps).
Proof.
  induction Hps as [|p qs Hp Hqs IH]; cbn [ticosd_destroy_plugins]; [apply keeps_ret|]. apply keeps_bind; [|intros; exact (IH Hqs)].
  destruct (fns p) as [[[m|] handler]|] eqn:F; [|apply keeps_ret..]. now apply (proj1 (Hp _ F)).
Qed.

Lemma ipc_turn_idle b answer : keeps idle (ipc_turn ps b answer).
Proof.
  unfold ipc_turn. destruct (recvmsg b answer) as [b' n]. destruct (u64 n <=? 0); [apply keeps_ret|].
  apply keeps_bind; [apply process_ipc_idle|]. intros. apply keeps_ret.
Qed.

Lemma signal_idle (d : device) : idle d (set_daemon (set_terminate true (handle_of_daemon d)) d).
Proof. apply idle_daemon. now intros _. Qed.

Ltac stays := match goal with E : Val (Some _) = Val (Some _) |- _ => injection E as <-; repeat case_match; reflexivity end.

Lemma step_idle fuel mv m m' : step ps fuel mv m m' -> idle (Shutdown.world m) (Shutdown.world m').
Proof.
  destruct 1 as [ok m m' _ E|before after m m' _ E|t m _|sig t m _|d m _].
  - unfold prv_ipc_process_thread in E.
    destruct (ipc m); [stays|stays|stays|stays| | |stays..|done].
    + destruct (inbox m); [|stays]. destruct (socket m) as [|[]|]; try (stays); destruct ok; try done; stays.
    + destruct (ipc_turn ps (rx m) answer (Shutdown.world m)) as [[g b]| |] eqn:Ei; [|done..]. injection E as <-. exact (ipc_turn_idle _ _ _ _ _ Ei).
  - unfold main_thread in E. destruct (main m); [stays| |stays| | |stays|done].
    + destruct (process_turn fuel (loop m) (MkWakeup before after false) (daemon (Shutdown.world m))) as [[s [l sleep]]| |] eqn:Et; [|done..].
      injection E as <-. apply idle_daemon, (quiet_turn _ _ _ _ _ _ Et).
    + destruct (ipc m); try done. stays.
    + destruct (ticosd_destroy_plugins ps (Shutdown.world m)) as [[g u]| |] eqn:Ed; [|done..]. injection E as <-. exact (destroy_idle _ _ _ Ed).
  - unfold handler_returns. destruct (socket m), t; cbn; reflexivity.
  - unfold prv_ticosd_sig_handler, handler_enters. destruct (sig =? Daemon.SIGUSR1); [reflexivity|]. destruct t; apply signal_idle.
  - reflexivity.
Qed.

Lemma run_idle fuel n k m m' : run ps fuel n k m m' -> idle (Shutdown.world m) (Shutdown.world m').
Proof.
  induction 1 as [m|n k m m1 m2 S _ IH|n k m m1 m2 S _ IH|n k m m1 m2 S _ IH]; [reflexivity|..];
    (etransitivity; [exact (step_idle _ _ _ _ S)|exact IH]).
Qed.
End Run.

(** ** From the command line *)
Lemma main_starts {G Q C W} `{TxQueue Q, ConfigOps C, NetworkOps W} (env : startup_env (G := G) (Q := Q) (C := C) (W := W)) ok argv dir g ps :
  ticosd_main env ok argv = Val (dir, Running g ps) ->
  exists o c settings, Startup.config_init env (config_file o) = Some c /\ start_services env o c settings = Val (Running g ps).
Proof.
  unfold ticosd_main. destruct (parse_options no_options argv) as [o|]; [|done]. destruct (negb ok); [done|].
  destruct (Startup.config_init env (config_file o)) as [c|] eqn:Ec; [|done]. destruct (after_config env o c) as [r| |] eqn:Ea; [|done..].
  intros [= <- ->]. unfold after_config in Ea.
  destruct (enable_comms o || disable_comms o).
  { destruct (enable_comms o && disable_comms o); [done|]. now destruct (set_and_reload env c _ _). }
  destruct (enable_devmode o || disable_devmode o).
  { destruct (enable_devmode o && disable_devmode o); [done|]. now destruct (set_and_reload env c _ _). }
  destruct (settings_init env) as [settings|]; [|done]. destruct (display_config o); [done|].
  destruct (negb (daemonize o) && pid_file env); [done|]. eauto.
Qed.

Section OptOut.
Context {C W B K H R Zs : Type} `{ConfigOps C, NetworkOps W, HasDisk W, SdBus B, Libconfig K H, ReadIO R, Zlib Zs}.
Context (ticosd_sdk_version : string) (fuel : nat) (uninit : Z -> list Z) (env : device_env (R := R)).

(** C17: a device that is started without consent to data collection, with all the plugins:
    whatever messages and signals arrive and however the threads are interleaved until the
    daemon has ended, nothing is in the queue, even if an earlier run left something, the
    network layer has had no request and is as it was initialised but for the files that loading
    the plugins has written, and once they are loaded no file changes and no service is asked
    for anything. *)
Theorem opted_out_device_is_inert (senv : startup_env (G := device shared_queue C W B) (Q := shared_queue) (C := C) (W := W)) bus ok argv dir g ps :
  (forall file c, Startup.config_init senv file = Some c -> forbids c) ->
  Startup.load_plugins senv = load_device (K := K) (H := H) (Zs := Zs) ticosd_sdk_version fuel uninit env bus ->
  (forall n q, queue_init senv n = Some q -> queue_ok (shared q) /\ schedule q = []) ->
  ticosd_main senv ok argv = Val (dir, Running g ps) ->
  forall rounds n k rx m, run ps rounds n k (started g rx) m ->
    let t := handle_of_daemon (Shutdown.world m) in
    queue_read_head (queue t) = Val (queue t, None) /\
    (exists settings c w, network_init senv settings c = Some w /\ network t = put_disk (filesystem g) w) /\
    system_bus (Shutdown.world m) = system_bus g.
Proof.
  intros Hc Hl Hq E rounds n k rx m Rm. apply main_starts in E as (o & c & settings & Ec & Es). specialize (Hc _ _ Ec).
  apply start_services_off in Es as (q & w & dev & Hread & Ew & El); [|apply Hc; auto|done]. rewrite Hl in El. unfold load_device in El.
  apply load_harmless in El as (I & (Sq & Sw & _) & Fh); [|apply table_loads|split; done].
  apply run_idle in Rm; [|done]. destruct (Rm I) as (_ & (Tq & Tw & _) & Tb). cbn in *.
  rewrite Tq, Tw, Sq. split; [exact Hread|]. split; [exists settings, c, w; now split|done].
Qed.
End OptOut.
