(* ===== verification/DeviceWitnesses.v ===== *)
(** * A concrete device with all the plugins

    Started without consent, with an entry left in the queue: a core, attributes and a request for
    metrics arrive and the daemon is told to stop.  The same device with consent does react. *)
From stdpp Require Import gmap relations.
From S2P Require Import Prelude CLib Queue QueueSpec QueueLap QueueWitnesses TxQueue Network NetworkWitnesses.
From S2P Require Import Daemon DaemonWitnesses Frame Config Plugins Startup StartupSpec Shutdown ShutdownWitnesses Systemd.
From S2P Require Import Reboot RebootSpec Swupdate SwupdateSpec Collectd RateLimiter GzipIO GzipSpec ElfReader ElfReaderFile CoreHandler CoreHandlerSpec.
From S2P Require Import Coredump CoredumpWitnesses Device DeviceSpec.
#[local] Open Scope string_scope.
#[local] Open Scope list_scope.
#[local] Open Scope Z_scope.

(** ** Its configuration *)
Inductive value := VBool (b : bool) | VInt (z : Z) | VString (s : string).
Definition device_config : Type := list (string * value).

Definition value_of (c : device_config) (key : string) : option value := snd <$> List.find (fun p => String.eqb key (fst p)) c.

#[export] Instance device_config_ops : ConfigOps device_config := {
  ticosd_config_get_boolean c _ key := match value_of c key with Some (VBool b) => Some b | _ => None end;
  ticosd_config_get_integer c _ key := match value_of c key with Some (VInt z) => Some z | _ => None end;
  ticosd_config_get_string c _ key := match value_of c key with Some (VString s) => Some s | _ => None end }.

Definition configured (consent : bool) : device_config :=
  [("enable_data_collection", VBool consent); ("data_dir", VString "/data"); ("queue_size_kib", VInt 1);
   ("base_url", VString "https://t"); ("project_key", VString "k"); ("software_type", VString "main"); ("software_version", VString "1");
   ("input_file", VString "/in"); ("output_file", VString "/out"); ("coredump_max_size_kib", VInt 200)].

(** ** Its surroundings *)

(** An earlier run left an entry in the queue. *)
Definition left_queue : shared_queue := MkShared (queue_after 1024 [OpWrite reboot_entry]) [].

Definition device_files : files := {["/in" := write_tree update_template]}.
Definition sample_startup (consent : bool) (load : sTicosd shared_queue device_config (net_state steady) -> outcome (device shared_queue device_config (net_state steady) unit_table *
    list (sTicosdPluginDef (device shared_queue device_config (net_state steady) unit_table)))) : startup_env (Q := shared_queue) (C := device_config) (W := net_state steady) :=
  MkStartupEnv (fun _ => Some (configured consent)) (fun _ => true) (fun c _ _ => (c, 0)) (Some (MkSettings "dev" "hw")) false
    (fun _ => Some left_queue) (fun _ _ => Some (MkNet sample_network [] device_files (MkSteady 200))) load true true.

Definition sample_device_env : device_env (R := sTicosCoreElfReadFileIO) :=
  MkDeviceEnv (fun _ => true) (fun _ => true) (sample_reboot_env "running" "0") (sample_reboot_env "stopping" "0") stop_env
    (MkCoreInitEnv true (fun _ => true) true true true (MkLimiterEnv true true (Some "/data/history") true)) (fun _ => crash_env).

Definition services : unit_table := MkUnits (fun _ => Some "active") [].

Definition load_sample : sTicosd shared_queue device_config (net_state steady) -> _ :=
  load_device (K := list (string * setting)) (Zs := stored) "1.0" 40000 zeros sample_device_env services.

Abbreviation sample_start consent := (ticosd_main (sample_startup consent load_sample) true [("c"%char, "/etc/ticosd.conf")]).

Abbreviation World := (device shared_queue device_config (net_state steady) unit_table).

Definition dead_device : World :=
  bare_device services (MkTicosd left_queue (MkNet sample_network [] device_files (MkSteady 200)) [] (MkSettings "dev" "hw") false false []).

Definition running (consent : bool) : World * list (sTicosdPluginDef World) :=
  match sample_start consent with Val (_, Running g ps) => (g, ps) | _ => (dead_device, []) end.

Definition is_running {G C} (r : outcome (option string * startup_result (G := G) (C := C))) : bool :=
  match r with Val (_, Running _ _) => true | _ => false end.

Lemma sample_runs consent : exists dir, sample_start consent = Val (dir, Running (fst (running consent)) (snd (running consent))).
Proof.
  assert (R : is_running (sample_start consent) = true) by (destruct consent; vm_compute; reflexivity).
  unfold running. destruct (sample_start consent) as [[dir [|g ps]]| |]; try discriminate R. now exists dir.
Qed.

(** Three messages, a turn of the loop, and the end. *)
Definition requests_and_end : list choice :=
  [Ipc true; Ipc true; Ipc true; Ipc true;
   Send (core_message 42); Send (bytes_of_string "ATTRIBUTES" ++ zeros 6 ++ le_bytes 8 5 ++ bytes_of_string "[1]" ++ [0]);
   Send (bytes_of_string "COLLECTD" ++ [0]);
   Ipc true; Ipc true; Ipc true; Ipc true; Ipc true; Ipc true; Ipc true; Ipc true; Ipc true;
   Shutdown.Main 0 0; Shutdown.Main 0 0; Kill SIGTERM InMain; Return InMain; Ipc true; Ipc true; Ipc true; Ipc true; Shutdown.Main 0 0; Shutdown.Main 0 0; Shutdown.Main 0 0;
   Shutdown.Main 0 0; Shutdown.Main 0 0].

Abbreviation sample_play consent :=
  (play (Q := shared_queue) (C := device_config) (W := net_state steady) (snd (running consent)) 10 requests_and_end
    (Shutdown.started (fst (running consent)) (zeros RX_BUFFER_SIZE))).

Definition is_played {A} (m : option A) : bool := match m with Some _ => true | None => false end.

Definition after_requests (consent : bool) : machine (G := World) :=
  default (Shutdown.started (fst (running consent)) []) (sample_play consent).

Lemma opted_out_device_is_inert_witness :
  let t := handle_of_daemon (Shutdown.world (after_requests false)) in
  queue_read_head (queue t) = Val (queue t, None) /\
  (exists settings c w, network_init (sample_startup false load_sample) settings c = Some w /\ network t = put_disk (filesystem (fst (running false))) w) /\
  system_bus (Shutdown.world (after_requests false)) = system_bus (fst (running false)).
Proof.
  destruct (sample_runs false) as [dir E].
  assert (P : is_played (sample_play false) = true) by (vm_compute; reflexivity).
  destruct (sample_play false) as [m|] eqn:Em; [|discriminate P].
  destruct (play_run (snd (running false)) 10 requests_and_end _ m Em) as (n & k & Rm).
  assert (A : after_requests false = m) by (unfold after_requests; now rewrite Em). rewrite A.
  assert (Hl : Startup.load_plugins (sample_startup false load_sample) = load_device (K := list (string * setting)) (H := list path_step) (Zs := stored) "1.0" 40000 zeros sample_device_env services) by reflexivity.
  pose proof (fun Hc Hq => opted_out_device_is_inert "1.0" 40000 zeros sample_device_env (sample_startup false load_sample) services true
    [("c"%char, "/etc/ticosd.conf")] dir (fst (running false)) (snd (running false)) Hc Hl Hq E 10%nat n k (zeros RX_BUFFER_SIZE) m Rm) as T.
  apply T.
  - intros file c [= <-] p _. discriminate.
  - intros n0 q [= <-]. split; [|reflexivity]. concrete_queue.
Defined.

(** With consent the entry of the earlier run, the reboot, the core and the attributes are sent, the
    core's file is deleted once it is uploaded, and collectd is asked for metrics. *)
Example with_consent : let m := after_requests true in let t := handle_of_daemon (Shutdown.world m) in
  (main m, ipc m) = (MainDone, IpcDone) /\ queue_read_head (queue t) = Val (queue t, None) /\
  filesystem (Shutdown.world m) !! "/data/core/corefile-u.gz" = None /\
  map fst (requests (system_bus (Shutdown.world m))) = ["swupdate.service"; "swupdate.socket"; "collectd.service"; "collectd.service"; "collectd.service"].
Proof. vm_compute. repeat split; reflexivity. Qed.
