(* ===== verification/Lifetime.v ===== *)
(** * What the daemon's handles hold (the init and destroy functions of src/)

    The same functions as in the components' files, with the things they hold beside them:
    blocks of memory, the mapping of the queue file, the mutex, the curl handle, references to
    JSON trees, streams, descriptors and zlib's state.  Taking one gives a fresh number; giving one back
    that is not held, or using a block that is not, is undefined.  [LifetimeSpec] shows that
    leaving the resources out gives the components' functions again, and what is held when.
    What a function takes and gives back within one call of a plugin is not followed. *)
From stdpp Require Import gmap gmultiset.
From S2P Require Import Prelude CLib Queue TxQueue Network Daemon Json Config DeviceSettings RateLimiter.
From S2P Require Import ElfFileIO ElfReader GzipIO Procfs Coredump.
#[local] Open Scope string_scope.
#[local] Open Scope list_scope.
#[local] Open Scope Z_scope.

(** ** Resources *)
Inductive kind := Memory | Mapping | Mutex | CurlHandle | JsonReference | Stream | Descriptor | Deflate.

#[export] Instance kind_eq_dec : EqDecision kind.
Proof. solve_decision. Defined.

Definition kind_number (k : kind) : nat :=
  match k with Memory => 0 | Mapping => 1 | Mutex => 2 | CurlHandle => 3 | JsonReference => 4 | Stream => 5 | Descriptor => 6 | Deflate => 7 end.
Definition kind_of (n : nat) : kind :=
  nth n [Memory; Mapping; Mutex; CurlHandle; JsonReference; Stream; Descriptor; Deflate] Memory.

#[export] Instance kind_countable : Countable kind.
Proof. refine (inj_countable' kind_number kind_of _). now intros []. Defined.

Definition resource : Type := kind * nat.
#[export] Instance resource_eq_dec : EqDecision resource := _.
#[export] Instance resource_countable : Countable resource := _.

(** Numbers are never used again. *)
Record resources := MkResources { held : gmultiset resource; next : nat }.

Definition no_resources : resources := MkResources ∅ 0.

(** A pointer, [None] for NULL. *)
Abbreviation pointer := (option nat).

Definition is_null (p : pointer) : bool := match p with None => true | Some _ => false end.

(** [ok] is the answer of the allocator or of the system. *)
Definition take (k : kind) (ok : bool) : M resources pointer := fun r =>
  if ok then Val (MkResources ({[+ (k, next r) +]} ⊎ held r) (S (next r)), Some (next r)) else Val (r, None).

Definition calloc (ok : bool) : M resources pointer := take Memory ok.

(** Access to a field. *)
Definition use (p : pointer) : M resources unit := fun r =>
  match p with
  | None => Fault
  | Some b => if decide ((Memory, b) ∈ held r) then Val (r, tt) else Fault
  end.

(** Nothing is given back for NULL. *)
Definition give (k : kind) (p : pointer) : M resources unit := fun r =>
  match p with
  | None => Val (r, tt)
  | Some b => if decide ((k, b) ∈ held r) then Val (MkResources (held r ∖ {[+ (k, b) +]}) (next r), tt) else Fault
  end.

Definition free (p : pointer) : M resources unit := give Memory p.

(** [handle->field], and its value. *)
Definition read {A} (handle : pointer) (field : A) : M resources A := do* use handle in ret field.

(** Freeing what a field points to. *)
Definition free_field (handle field : pointer) : M resources unit := let* p := read handle field in free p.

(** ** src/util/rate_limiter.c *)
Record limiter_blocks := MkLimiterBlocks { limiter_self : nat; limiter_history : pointer; limiter_file : pointer }.

Definition ticosd_rate_limiter_destroy (handle : option limiter_blocks) : M resources unit :=
  match handle with
  | None => ret tt
  | Some h =>
      let self := Some (limiter_self h) in
      do* free_field self (limiter_file h) in
      do* free_field self (limiter_history h) in
      free self
  end.

Definition ticosd_rate_limiter_init (env : limiter_env) (ticosd : bool) (count duration : Z) (filename : bool) (fs : files)
    : M resources (option (sTicosdRateLimiter * limiter_blocks)) :=
  let cleanup handle file history :=
    do* free_field handle file in do* free_field handle history in do* free handle in ret None in
  if (count =? 0) || (duration =? 0) || negb ticosd then ret None
  else
    let* handle := calloc (handle_ok env) in
    match handle with
    | None => cleanup handle None None
    | Some self =>
        let* history := calloc (history_ok env && (count >? 0)) in
        if is_null history then cleanup handle None None
        else
          let zero := replicate (Z.to_nat count) 0 in
          if filename then
            let* file := calloc (match rw_filename env with Some _ => true | None => false end) in
            if is_null file then cleanup handle None history
            else
              let name := default EmptyString (rw_filename env) in
              let* fd := take Stream (can_open env && match fs !! name with Some _ => true | None => false end) in
              match fs !! name with
              | None => ret (Some (MkRateLimiter count duration zero (Some name), MkLimiterBlocks self history file))
              | Some bytes =>
                  if is_null fd then cleanup handle file history
                  else
                    do* give Stream fd in
                    ret (Some (MkRateLimiter count duration (read_history (Z.to_nat count) (string_of_bytes bytes)) (Some name),
                               MkLimiterBlocks self history file))
              end
          else ret (Some (MkRateLimiter count duration zero None, MkLimiterBlocks self history None))
    end.

Definition coredump_create_rate_limiter (env : limiter_env) (dev_mode : bool)
    (rate_limit_count rate_limit_duration_seconds : option Z) (fs : files) : M resources (option (sTicosdRateLimiter * limiter_blocks)) :=
  let '(c, d) := if negb dev_mode then (default 0 rate_limit_count, default 0 rate_limit_duration_seconds) else (0, 0) in
  ticosd_rate_limiter_init env true c d true fs.

(** ** src/util/device_settings.c *)

(** [lost] are strings whose pointer a later line has overwritten. *)
Record settings_blocks := MkSettingsBlocks { device_id : pointer; hardware_version : pointer; lost : list pointer }.

(** A field that is freed unless it is NULL. *)
Definition free_if (handle field : pointer) : M resources unit :=
  let* p := read handle field in if is_null p then ret tt else free_field handle field.

Definition ticosd_device_settings_destroy (handle : option (nat * settings_blocks)) : M resources unit :=
  match handle with
  | None => ret tt
  | Some (self, b) =>
      do* free_if (Some self) (device_id b) in
      do* free_if (Some self) (hardware_version b) in
      free (Some self)
  end.

(** [strdup] does not fail. *)
Definition device_line (self : nat) (line : string) (handle : device_info * settings_blocks)
    : M resources (device_info * settings_blocks) :=
  let '(info, b) := handle in
  let '(name, rest) := strtok "=" line in
  let '(val, _) := strtok "010" rest in
  match name with
  | None => fault
  | Some name =>
      if String.eqb name "TICOS_DEVICE_ID" then
        match val with
        | None => ret handle
        | Some val =>
            let* p := calloc true in
            do* use (Some self) in
            ret (MkDeviceInfo (Some val) (hardware info), MkSettingsBlocks p (hardware_version b) (device_id b :: lost b))
        end
      else if String.eqb name "TICOS_HARDWARE_VERSION" then
        match val with
        | None => ret handle
        | Some val =>
            let* p := calloc true in
            do* use (Some self) in
            ret (MkDeviceInfo (id info) (Some val), MkSettingsBlocks (device_id b) p (hardware_version b :: lost b))
        end
      else ret handle
  end.

Fixpoint device_lines (self : nat) (lines : list string) (handle : device_info * settings_blocks)
    : M resources (device_info * settings_blocks) :=
  match lines with
  | [] => ret handle
  | l :: lines => let* handle := device_line self l handle in device_lines self lines handle
  end.

(** The settings and their handle; the strings, also those that are lost when there is no
    handle in the end. *)
Definition ticosd_device_settings_init (calloc_ok : bool) (lines : option (list string))
    : M resources (option (sTicosdDeviceSettings * nat) * settings_blocks) :=
  let nothing := MkSettingsBlocks None None [] in
  match lines with
  | None => ret (None, nothing)
  | Some lines =>
      let* fd := take Stream true in
      let* handle := calloc calloc_ok in
      match handle with
      | None => fault
      | Some self =>
          let* (info, b) := device_lines self lines (MkDeviceInfo None None, nothing) in
          do* give Stream fd in
          do* use handle in
          match id info, hardware info with
          | Some i, Some h => ret (Some (MkSettings i h, self), b)
          | _, _ => do* ticosd_device_settings_destroy (Some (self, b)) in ret (None, b)
          end
      end
  end.

(** ** src/util/config.c *)

(** A call of json-c that gives a reference, or NULL. *)
Definition json_take {A} (o : option A) : M resources pointer :=
  take JsonReference (match o with Some _ => true | None => false end).

Record config_blocks := MkConfigBlocks { config_self : nat; config_base : pointer; config_runtime : pointer }.

Section Config.
Context `{JsonC, !JsonTree}.

(** The configuration file merged into the base tree.  Its members that go there stay alive by
    references of their own. *)
Definition merge_file (fuel : nat) (conf : opened) (base : option json_object) : M resources (option json_object) :=
  match conf with
  | OpenFailed => ret base
  | Opened bytes =>
      let* fd := take Descriptor true in
      let* base :=
        match json_object_from_fd bytes with
        | None => ret base
        | Some object =>
            let* reference := take JsonReference true in
            let* merged :=
              lift (match base with
                    | None => let! _ := object_members object in Fault
                    | Some base => prv_config_merge_objects fuel base object
                    end) in
            do* give JsonReference reference in
            ret (Some merged)
        end in
      do* give Descriptor fd in
      ret base
  end.

(** [handle->runtime = json_object_new_object()] *)
Definition new_runtime (self : nat) : M resources (json_object * pointer) :=
  let* p := take JsonReference true in do* use (Some self) in ret (json_object_new_object, p).

Definition read_runtime (self : nat) (file : opened) : M resources (json_object * pointer) :=
  match file with
  | OpenFailed => new_runtime self
  | Opened bytes =>
      let* fd := take Descriptor true in
      let* p := json_take (json_object_from_fd bytes) in
      do* use (Some self) in
      let* r := match json_object_from_fd bytes with Some tree => ret (tree, p) | None => new_runtime self end in
      do* give Descriptor fd in
      ret r
  end.

Definition ticosd_config_init (fuel : nat) (calloc_ok path_malloc_ok : bool) (builtin : string) (conf : opened)
    (runtime_conf : string -> opened) : M resources (sTicosdConfig * config_blocks) :=
  let* handle := calloc calloc_ok in
  let base := json_tokener_parse builtin in
  let* base_ref := json_take base in
  match handle with
  | None => fault
  | Some self =>
      let* base := merge_file fuel conf base in
      let path := ticosd_config_generate_rw_filename path_malloc_ok (MkConfig base None) "runtime.conf" in
      let* runtime_path := calloc (match path with Some _ => true | None => false end) in
      let* (runtime, runtime_ref) :=
        match path with
        | None => new_runtime self
        | Some name => let* r := read_runtime self (runtime_conf name) in do* free runtime_path in ret r
        end in
      ret (MkConfig base (Some runtime), MkConfigBlocks self base_ref runtime_ref)
  end.
End Config.

Definition ticosd_config_destroy (handle : option config_blocks) : M resources unit :=
  match handle with
  | None => ret tt
  | Some b =>
      let self := Some (config_self b) in
      let* p := read self (config_base b) in
      do* if is_null p then ret tt else give JsonReference p in
      let* p := read self (config_runtime b) in
      do* if is_null p then ret tt else give JsonReference p in
      free self
  end.

(** ** src/queue.c *)
Record queue_blocks := MkQueueBlocks { queue_self : nat; queue_lock : pointer; queue_buf : pointer }.

(** The mapping and the bytes of the queue file; the name and the descriptor are given back. *)
Definition map_file (env : init_env) (size : Z) : M resources (pointer * list Z) :=
  let* file := calloc (queue_file env) in
  if is_null file then ret (None, [])
  else
    let* mapped :=
      match open_contents env with
      | None => ret (None, [])
      | Some contents =>
          let* fd := take Descriptor true in
          if ftruncate_ok env then
            let* m := take Mapping (mmap_ok env) in
            do* give Descriptor fd in
            ret (m, if is_null m then [] else ftruncate_bytes size contents)
          else do* give Descriptor fd in ret (None, [])
      end in
    do* free file in
    ret mapped.

Definition ticosd_queue_init (handle_calloc_ok : bool) (env : init_env) (size : Z) : M resources (option (sTicosdQueue * queue_blocks)) :=
  let* handle := calloc handle_calloc_ok in
  match handle with
  | None => fault
  | Some self =>
      let* lock := take Mutex (mutex_init_ok env) in
      if is_null lock then do* free handle in ret None
      else
        let '(size, ok) := prv_check_queue_size size in
        let size := if ok then size else 1024 * 1024 in
        let* (m, bytes) := map_file env size in
        if is_null m then
          let* buf := calloc (Queue.calloc_ok env) in
          do* use buf in
          let* q := lift (prv_queue_find_read_write_ptr (MkQueue false size (zeros size) 0 0 0 false)) in
          ret (Some (q, MkQueueBlocks self lock buf))
        else
          let* q := lift (prv_queue_find_read_write_ptr (MkQueue true size bytes 0 0 0 false)) in
          ret (Some (q, MkQueueBlocks self lock m))
  end.

Definition ticosd_queue_destroy (handle : option (sTicosdQueue * queue_blocks)) : M resources unit :=
  match handle with
  | None => ret tt
  | Some (q, b) =>
      let self := Some (queue_self b) in
      let* file_backed := read self (is_file_backed q) in
      do* (if file_backed : bool then let* p := read self (queue_buf b) in give Mapping p else free_if self (queue_buf b)) in
      let* p := read self (queue_lock b) in
      do* give Mutex p in
      free self
  end.

(** ** src/network.c *)
Record network_blocks := MkNetworkBlocks { network_self : nat; network_curl : pointer; network_header : pointer }.

(** The handle, and the curl handle, which a failure does not give back. *)
Definition ticosd_network_init (calloc_ok curl_ok asprintf_ok : bool) (settings : sTicosdDeviceSettings)
    (cfg : network_config) : M resources (option (sTicosdNetwork * network_blocks) * pointer) :=
  let* handle := calloc calloc_ok in
  let cleanup curl := do* free_field handle None in do* free handle in ret (None, curl) in
  match handle with
  | None => cleanup None
  | Some self =>
      let* curl := take CurlHandle curl_ok in
      if is_null curl then cleanup curl
      else if missing (cfg_software_type cfg) then cleanup curl
      else if missing (cfg_software_version cfg) then cleanup curl
      else if missing (cfg_base_url cfg) then cleanup curl
      else if missing (cfg_project_key cfg) then cleanup curl
      else
        let* header := lift (vsprintf "Ticos-Project-Key: %s" [ArgS (cfg_project_key cfg)]) in
        let* project_key_header := calloc asprintf_ok in
        if is_null project_key_header then cleanup curl
        else
          let text := default EmptyString in
          ret (Some (MkNetwork settings false [] (text (cfg_base_url cfg)) header (text (cfg_software_type cfg)) (text (cfg_software_version cfg)),
                     MkNetworkBlocks self curl project_key_header), None)
  end.

Definition ticosd_network_destroy (handle : option (sTicosdNetwork * network_blocks)) : M resources unit :=
  match handle with
  | None => ret tt
  | Some (_, b) =>
      let self := Some (network_self b) in
      let* curl := read self (network_curl b) in
      do* if is_null curl then ret tt else give CurlHandle curl in
      do* free_field self (network_header b) in
      free self
  end.

(** ** The plugins *)
Record core_blocks := MkCoreBlocks { core_self : nat; core_limiter : option limiter_blocks; core_dir : pointer }.

(** What a plugin's handle holds; [NoHandle]: the plugin is loaded without functions, or not at all. *)
Inductive plugin :=
| NoHandle
| AttributesPlugin (self : nat)
| RebootPlugin (self : nat)
| SwupdatePlugin (self : nat)
| CollectdPlugin (self : nat)
| CoredumpPlugin (b : core_blocks).

(** The functions [plugin_destroy].  [stopping] is what systemd tells the reboot plugin, which
    then writes a file with what the handle points to. *)
Definition prv_reboot_destroy (stopping : bool) (handle : pointer) : M resources unit :=
  if is_null handle then ret tt else do* if stopping then use handle else ret tt in free handle.

(** swupdate.c *)
Definition prv_swupdate_destroy (handle : pointer) : M resources unit := if is_null handle then ret tt else free handle.

(** collectd.c *)
Definition prv_collectd_destroy (handle : pointer) : M resources unit := if is_null handle then ret tt else free handle.

(** coredump.c *)
Definition prv_coredump_destroy (handle : option core_blocks) : M resources unit :=
  match handle with
  | None => ret tt
  | Some b =>
      let self := Some (core_self b) in
      let* limiter := read self (core_limiter b) in
      do* ticosd_rate_limiter_destroy limiter in
      do* free_field self (core_dir b) in
      free self
  end.

(** The attributes plugin has none. *)
Definition plugin_destroy (stopping : bool) (p : plugin) : M resources unit :=
  match p with
  | NoHandle | AttributesPlugin _ => ret tt
  | RebootPlugin self => prv_reboot_destroy stopping (Some self)
  | SwupdatePlugin self => prv_swupdate_destroy (Some self)
  | CollectdPlugin self => prv_collectd_destroy (Some self)
  | CoredumpPlugin b => prv_coredump_destroy (Some b)
  end.

Fixpoint ticosd_destroy_plugins (stopping : bool) (fns : list plugin) : M resources unit :=
  match fns with
  | [] => ret tt
  | p :: fns => do* plugin_destroy stopping p in ticosd_destroy_plugins stopping fns
  end.

Section Plugins.
Context {Q C W : Type} `{ConfigOps C}.
Implicit Type t : sTicosd Q C W.

(** Its own part of the daemon changes with the allocator's answers. *)
Definition prv_create_dir (env : core_init_env) (subdir : string) t : M resources (sTicosd Q C W * option (string * pointer)) :=
  match non_empty (ticosd_get_string (Some EmptyString) "data_dir" t) with
  | None => ret (t, None)
  | Some data_dir =>
      let* (t, text) := lift (ticos_asprintf "%s/%s" [ArgS (Some data_dir); ArgS (Some subdir)] t) in
      let* path := calloc (match text with Some _ => true | None => false end) in
      match text with
      | None => ret (t, None)
      | Some name =>
          if Coredump.is_dir env name then ret (t, Some (name, path))
          else if negb (mkdir_ok env) then do* free path in ret (t, None)
          else ret (t, Some (name, path))
      end
  end.

Definition ticosd_coredump_init (env : core_init_env) (fs : files) t
    : M resources (sTicosd Q C W * (files * option (sTicosdPlugin * core_blocks))) :=
  let cleanup t fs handle dir fd :=
    let* limiter := read handle None in
    do* ticosd_rate_limiter_destroy limiter in
    do* free_field handle dir in
    do* free handle in
    do* if is_null fd then ret tt else give Descriptor fd in
    ret (t, (fs, None)) in
  let* handle := calloc (Coredump.calloc_ok env) in
  match handle with
  | None => cleanup t fs handle None None
  | Some self =>
      let enabled := negb (data_collection_off (Some EmptyString) t) in
      let* (t, dir) := prv_create_dir env "core" t in
      match dir with
      | None => cleanup t fs handle None None
      | Some (name, dir) =>
          let* fd := take Descriptor (pattern_open env) in
          if is_null fd then cleanup t fs handle dir fd
          else if negb (pattern_write env) then cleanup t fs handle dir fd
          else
            let fs := <[CORE_PATTERN_PATH := bytes_of_string CORE_PATTERN]> fs in
            do* give Descriptor fd in
            let count := ticosd_get_integer (Some "coredump_plugin") "rate_limit_count" t in
            let duration := ticosd_get_integer (Some "coredump_plugin") "rate_limit_duration_seconds" t in
            let* limiter := coredump_create_rate_limiter (Coredump.limiter env) (ticosd_is_dev_mode t) count duration fs in
            do* use handle in
            let compression := default COMPRESSION_DEFAULT (ticosd_get_string (Some "coredump_plugin") "compression" t) in
            let gzip := if String.eqb compression "gzip" then true else if String.eqb compression "none" then false else true in
            ret (t, (fs, Some (MkCoredump enabled (fst <$> limiter) name gzip, MkCoreBlocks self (snd <$> limiter) dir)))
      end
  end.

(** The handles of the other plugins: calloc, and the pointer to the daemon put into it. *)
Definition init_handle (ok : bool) (make : nat -> plugin) : M resources plugin :=
  let* handle := calloc ok in
  match handle with
  | None => ret NoHandle
  | Some self => do* use handle in ret (make self)
  end.

(** Without consent the plugin has no handle; calloc is not checked. *)
Definition ticosd_reboot_init (ok : bool) t : M resources plugin :=
  if data_collection_off (Some EmptyString) t then ret NoHandle
  else
    let* handle := calloc ok in
    do* use handle in
    ret (match handle with Some self => RebootPlugin self | None => NoHandle end).

(** [calloc_answers] by the plugin's name; the result is the table [g_plugins]. *)
Definition ticosd_load_plugins (calloc_answers : string -> bool) (env : core_init_env) (fs : files) t
    : M resources (sTicosd Q C W * files * list plugin) :=
  let* attributes := init_handle (calloc_answers "attributes") AttributesPlugin in
  let* reboot := ticosd_reboot_init (calloc_answers "reboot") t in
  let* swupdate := init_handle (calloc_answers "swupdate") SwupdatePlugin in
  let* collectd := init_handle (calloc_answers "collectd") CollectdPlugin in
  let* (t, (fs, core)) := ticosd_coredump_init env fs t in
  ret (t, fs, [attributes; reboot; swupdate; collectd; match core with Some (_, b) => CoredumpPlugin b | None => NoHandle end]).
End Plugins.

(** ** The message about a core *)
Section Message.
Context {Q C W R Zs : Type} `{TxQueue Q, ConfigOps C, NetworkOps W, ReadIO R, Zlib Zs}.
Context (ticosd_sdk_version : string) (fuel : nat) (uninit : Z -> list Z).
Implicit Type w : core_world (Q := Q) (C := C) (W := W).

Definition is_some {A} (o : option A) : bool := match o with Some _ => true | None => false end.

(** deflateEnd frees the state, also of a stream that has not ended, for which [rv] is not Z_OK. *)
Definition ticos_core_elf_write_gzip_io_deinit (rv : Z) (gzio : pointer) : M resources bool :=
  do* give Deflate gzio in
  ret (rv =? Z_OK).

(** The descriptors of the process's memory and of the file, and the state of zlib, for which deflateEnd answers [rv].
    Without metadata the cleanup closes the descriptor of a handler that was never set. *)
Definition prv_transform_coredump_from_fd_to_file (rv : Z) (env : core_env (R := R)) (path : string) (stream : R) (pid max_size : Z) w
    : M resources (core_world * bool) :=
  let transformed := Coredump.prv_transform_coredump_from_fd_to_file (Zs := Zs) ticosd_sdk_version fuel uninit env path stream pid max_size w in
  match prv_init_metadata ticosd_sdk_version env (Coredump.ticosd w) with
  | None => fault
  | Some _ =>
      let* proc_fd := take Descriptor (is_some (proc_mem (proc env) pid)) in
      if is_null proc_fd then ret (w, false)
      else
        let* out_fd := take Descriptor (open_ok env && negb (bool_decide (is_Some (Coredump.fs w !! path)))) in
        if is_null out_fd then do* give Descriptor proc_fd in ret (w, false)
        else
          let writer_io := ticos_core_elf_write_file_io_init (out_answers env) (out_fsync env) max_size in
          let* gzip :=
            take Deflate (gzip_enabled (Coredump.handle w) && is_some (ticos_core_elf_write_gzip_io_init (Zs := Zs) writer_io)) in
          let* r := lift transformed in
          do* give Descriptor proc_fd in
          let* _ := if is_null gzip then ret true else ticos_core_elf_write_gzip_io_deinit rv gzip in
          do* give Descriptor out_fd in
          ret r
  end.

(** [file_stream] is the descriptor that came with the message; the functions in between are
    those of [Coredump]. *)
Definition prv_msg_handler (rv : Z) (env : core_env (R := R)) (file_stream : pointer) (buf : list Z) (received_size : Z) w
    : M resources (core_world * bool) :=
  let cleanup w ok outfile data :=
    do* free data in
    do* give Descriptor file_stream in
    do* free outfile in
    ret (w, ok) in
  match Coredump.file_stream env with
  | None => cleanup w false None None
  | Some stream =>
      let* pid := lift (message_pid buf received_size) in
      match pid with
      | None => cleanup w false None None
      | Some pid =>
          if negb (enable_data_collection (Coredump.handle w)) then cleanup w true None None
          else
            let* (w, allowed) := lift (check_event env w) in
            if negb (allowed : bool) then cleanup w true None None
            else
              let max_size := prv_check_for_available_space env (Coredump.ticosd w) in
              if max_size =? 0 then cleanup w false None None
              else
                let extension := if gzip_enabled (Coredump.handle w) then ".gz" else EmptyString in
                let* (w, name) := lift (prv_generate_filename env "corefile-" extension w) in
                let* outfile := calloc (is_some name) in
                match name with
                | None => cleanup w false outfile None
                | Some name =>
                    let gzip := gzip_enabled (Coredump.handle w) in
                    let* (w, ok) := prv_transform_coredump_from_fd_to_file rv env name stream pid max_size w in
                    if negb (ok : bool) then
                      let* (w, _) := lift (unlink env name w) in
                      let* (w, _) := lift (unlink env name w) in
                      cleanup w false outfile None
                    else
                      let* (w, (entry, payload_size)) := lift (prv_build_queue_entry gzip name w) in
                      let* data := calloc (is_some entry) in
                      match entry with
                      | None => let* (w, _) := lift (unlink env name w) in cleanup w false outfile data
                      | Some entry =>
                          let* (w, ok) := lift (on_ticosd (ticosd_txdata (Some entry) payload_size) w) in
                          if negb (ok : bool) then let* (w, _) := lift (unlink env name w) in cleanup w false outfile data
                          else cleanup w true outfile data
                      end
                end
      end
  end.

(** recvmsg makes the descriptor, the handler has it from then on. *)
Definition receive_core (rv : Z) (env : core_env (R := R)) (buf : list Z) (received_size : Z) w : M resources (core_world * bool) :=
  let* file_stream := take Descriptor (is_some (Coredump.file_stream env)) in
  prv_msg_handler rv env file_stream buf received_size w.
End Message.

(** ** src/ticosd.c *)

(** struct Ticosd, as pointers, and the table of plugins. *)
Record handles := MkHandles {
  main_self : nat;
  main_config : config_blocks;
  main_settings : nat * settings_blocks;
  main_queue : sTicosdQueue * queue_blocks;
  main_network : sTicosdNetwork * network_blocks;
  main_plugins : list plugin }.

Section Main.
Context `{JsonC, !JsonTree}.

(** What the allocator and the system answer while the daemon starts. *)
Record main_env := MkMainEnv {
  handle_calloc : bool;
  config_fuel : nat;
  config_calloc : bool;
  config_path_malloc : bool;
  builtin_conf : string;
  conf : opened;
  runtime_conf : string -> opened;
  settings_calloc : bool;
  info_lines : option (list string);
  queue_handle_calloc : bool;
  queue_answers : Z -> init_env;
  network_calloc : bool;
  network_curl_ok : bool;
  network_asprintf : bool;
  plugin_calloc : string -> bool;
  core_answers : core_init_env;
  disk : files;
  more_mallocs : list bool }.

Definition network_settings (c : sTicosdConfig) : network_config :=
  let string key := ticosd_config_get_string c (Some EmptyString) key in
  MkNetworkConfig (string "software_type") (string "software_version") (string "base_url") (string "project_key").

(** The queue, the network and the plugins. *)
Definition start_services (env : main_env) (self : nat) (c : sTicosdConfig) (config : config_blocks) (s : sTicosdDeviceSettings)
    (settings : nat * settings_blocks) : M resources (option handles) :=
  let* bytes := lift (int_mul (default 0 (ticosd_config_get_integer c None "queue_size_kib")) 1024) in
  let* queue := ticosd_queue_init (queue_handle_calloc env) (queue_answers env bytes) bytes in
  do* use (Some self) in
  match queue with
  | None => ret None
  | Some (q, b) =>
      let allowed := default false (ticosd_config_get_boolean c None "enable_data_collection") in
      let* q := if allowed : bool then ret q else do* use (Some (queue_self b)) in lift (ticosd_queue_reset q) in
      let* (network, _) := ticosd_network_init (network_calloc env) (network_curl_ok env) (network_asprintf env) s (network_settings c) in
      do* use (Some self) in
      match network with
      | None => ret None
      | Some (n, nb) =>
          let dev := default false (ticosd_config_get_boolean c None "enable_dev_mode") in
          let* (_, _, plugins) := ticosd_load_plugins (plugin_calloc env) (core_answers env) (disk env) (MkTicosd q n c s false dev (more_mallocs env)) in
          ret (Some (MkHandles self config settings (q, b) (n, nb) plugins))
      end
  end.

(** [ticosd_main] from the first calloc to the loop; [None] when it exits. *)
Definition start_main (env : main_env) : M resources (option handles) :=
  let* handle := calloc (handle_calloc env) in
  let* (c, config) := ticosd_config_init (config_fuel env) (config_calloc env) (config_path_malloc env) (builtin_conf env) (conf env) (runtime_conf env) in
  match handle with
  | None => fault
  | Some self =>
      do* use handle in
      let* (settings, b) := ticosd_device_settings_init (settings_calloc env) (info_lines env) in
      do* use handle in
      match settings with
      | None => ret None
      | Some (s, p) => start_services env self c config s (p, b)
      end
  end.
End Main.

(** From the end of the loop to the end of [ticosd_main]. *)
Definition end_main (stopping : bool) (h : handles) : M resources unit :=
  let self := Some (main_self h) in
  do* ticosd_destroy_plugins stopping (main_plugins h) in
  let* network := read self (main_network h) in
  do* ticosd_network_destroy (Some network) in
  let* queue := read self (main_queue h) in
  do* ticosd_queue_destroy (Some queue) in
  let* config := read self (main_config h) in
  do* ticosd_config_destroy (Some config) in
  let* settings := read self (main_settings h) in
  do* ticosd_device_settings_destroy (Some settings) in
  free self.
