(* ===== verification/LifetimeSpec.v ===== *)
(** * Everything the daemon takes is given back (the theorems about [Lifetime])

    A small logic for computations on resources: [takes P f Q m g] says that [m], started with
    the resources [P] beside any others, has the value of [g] up to [f], touches no other
    resource and leaves [Q].  Each init function has the value of the component's own
    function, and each destroy function gives back exactly what its init function took. *)
From stdpp Require Import gmap gmultiset.
From S2P Require Import Prelude CLib Queue TxQueue Network Daemon Json JsonTree Config DeviceSettings RateLimiter.
From S2P Require Import ElfFileIO ElfReader GzipIO Procfs Coredump Lifetime.
#[local] Open Scope string_scope.
#[local] Open Scope list_scope.
#[local] Open Scope Z_scope.

(** ** The logic *)
Abbreviation assertion := (@gmultiset resource resource_eq_dec resource_countable).

Abbreviation how_many R := (base.size (R : assertion)).

(** What a pointer stands for. *)
Definition one (k : kind) (p : pointer) : assertion := match p with Some b => {[+ (k, b) +]} | None => ∅ end.
Abbreviation mem := (one Memory).

Definition takes {A B : Type} (P : assertion) (f : A -> B) (Q : A -> assertion) (m : M resources A) (g : outcome B) : Prop :=
  forall r rest, held r = P ⊎ rest ->
    match g with
    | Val b => exists r' a, m r = Val (r', a) /\ f a = b /\ held r' = Q a ⊎ rest
    | Fault => m r = Fault
    | OutOfFuel => m r = OutOfFuel
    end.

Section Rules.
Context {A B : Type} (f : A -> B).
Implicit Types (P R : assertion) (Q : A -> assertion).

Lemma takes_ret P Q a b : f a = b -> P = Q a -> takes P f Q (ret a) (Val b).
Proof. intros E1 E2 r rest Hr. exists r, a. subst P. done. Qed.

Lemma takes_fault P Q : takes P f Q fault Fault.
Proof. intros r rest _. done. Qed.

Lemma takes_bind {C D} (h : C -> D) P R Q (m : M resources C) (k : C -> M resources A) g g' :
  takes P h (fun c => R) m g -> (forall c d, h c = d -> takes R f Q (k c) (g' d)) -> takes P f Q (bind m k) (obind g g').
Proof.
  intros Hm Hk r rest Hr. specialize (Hm r rest Hr). unfold bind. destruct g as [d| |]; cbn [obind]; [|now rewrite Hm..].
  destruct Hm as (r' & c & -> & E & Hr'). cbn [obind]. exact (Hk c d E r' rest Hr').
Qed.

(** The general rule: what the first part leaves may depend on its result. *)
Lemma takes_seq {C D} (h : C -> D) P (R : C -> assertion) (X : assertion) P' Q (m : M resources C) (k : C -> M resources A) g g' :
  takes P h R m g -> P' = P ⊎ X -> (forall c, takes (R c ⊎ X) f Q (k c) (g' (h c))) -> takes P' f Q (bind m k) (obind g g').
Proof.
  intros Hm -> Hk r rest Hr. specialize (Hm r (X ⊎ rest)). rewrite assoc_L in Hm by apply _. specialize (Hm Hr). unfold bind.
  destruct g as [d| |]; cbn [obind]; [|now rewrite Hm..]. destruct Hm as (r' & c & -> & <- & Hr'). cbn [obind].
  apply (Hk c r' rest). rewrite Hr'. now rewrite assoc_L by apply _.
Qed.

Lemma takes_lift {C} (o : outcome C) P Q k g : (forall c, o = Val c -> takes P f Q (k c) (g c)) -> takes P f Q (bind (lift o) k) (obind o g).
Proof. intros Hk r rest Hr. unfold bind, lift. destruct o as [c| |]; cbn [obind]; [exact (Hk c eq_refl r rest Hr)|done..]. Qed.

Lemma takes_eq P P' Q m g : P = P' -> takes P f Q m g -> takes P' f Q m g.
Proof. now intros ->. Qed.

(** Pure results in front. *)
Lemma takes_bind_ret {C} (c : C) P Q k g : takes P f Q (k c) g -> takes P f Q (bind (ret c) k) g.
Proof. intros Hk r rest Hr. exact (Hk r rest Hr). Qed.

Lemma takes_assoc {C D} (m : M resources C) (k1 : C -> M resources D) (k2 : D -> M resources A) P Q g :
  takes P f Q (bind m (fun c => bind (k1 c) k2)) g -> takes P f Q (bind (bind m k1) k2) g.
Proof.
  intros Hm r rest Hr. specialize (Hm r rest Hr). unfold bind in *.
  now destruct (m r) as [[r1 c]| |]; cbn [obind] in *.
Qed.

Lemma takes_take_true k P Q cont g : (forall b, takes (one k (Some b) ⊎ P) f Q (cont (Some b)) g) -> takes P f Q (bind (take k true) cont) g.
Proof.
  intros Hk r rest Hr. unfold bind, take. cbn [obind]. apply (Hk (next r)). cbn [held one]. rewrite Hr. now rewrite assoc_L by apply _.
Qed.

Lemma takes_take_false k P Q cont g : takes P f Q (cont None) g -> takes P f Q (bind (take k false) cont) g.
Proof. intros Hk r rest Hr. exact (Hk r rest Hr). Qed.

Lemma takes_use b X P Q cont g : P = mem (Some b) ⊎ X -> takes P f Q (cont tt) g -> takes P f Q (bind (use (Some b)) cont) g.
Proof.
  intros -> Hk r rest Hr. unfold bind, use. cbn [one] in *. rewrite decide_True by (rewrite Hr; multiset_solver). exact (Hk r rest Hr).
Qed.

Lemma takes_use_null P Q cont : takes P f Q (bind (use None) cont) Fault.
Proof. intros r rest _. done. Qed.

Lemma takes_give k p X P Q cont g : P = one k p ⊎ X -> takes X f Q (cont tt) g -> takes P f Q (bind (give k p) cont) g.
Proof.
  intros -> Hk r rest Hr. unfold bind, give. destruct p as [b|]; cbn [one] in *.
  - rewrite decide_True by (rewrite Hr; multiset_solver). apply Hk. cbn [held]. rewrite Hr. multiset_solver.
  - apply Hk. rewrite Hr. multiset_solver.
Qed.
End Rules.

(** A value that stays the result. *)
Lemma takes_lift_same {C : Type} (o : outcome C) P Q (k : C -> M resources C) :
  (forall c, takes P Datatypes.id Q (k c) (Val c)) -> takes P Datatypes.id Q (bind (lift o) k) o.
Proof. intros Hk r rest Hr. unfold bind, lift. destruct o as [c| |]; cbn [obind]; [exact (Hk c r rest Hr)|done..]. Qed.

(** The last statement of a function. *)
Lemma takes_last {B : Type} P (f : unit -> B) Q m g : takes P f Q (bind m ret) g -> takes P f Q m g.
Proof.
  intros Hm r rest Hr. specialize (Hm r rest Hr). unfold bind, ret in Hm.
  destruct (m r) as [[r' []]| |] eqn:E; cbn [obind] in Hm; exact Hm.
Qed.

(** A call that gives a known value. *)
Lemma takes_value {A B C D : Type} (f : A -> B) (h : C -> D) P R X P' Q (m : M resources C) (k : C -> M resources A) v g :
  takes P h R m (Val v) -> P' = P ⊎ X -> (forall c, h c = v -> takes (R c ⊎ X) f Q (k c) g) -> takes P' f Q (bind m k) g.
Proof.
  intros Hm -> Hk r rest Hr. specialize (Hm r (X ⊎ rest)). rewrite assoc_L in Hm by apply _. destruct (Hm Hr) as (r' & c & E & Hv & Hr').
  rewrite assoc_L in Hr' by apply _. specialize (Hk c Hv r' rest Hr'). unfold bind. now rewrite E.
Qed.

(** A call of a function that only gives back. *)
Lemma takes_call {A B : Type} (f : A -> B) P P' X Q (m : M resources unit) (k : unit -> M resources A) g :
  takes P (fun _ => tt) (fun _ => ∅) m (Val tt) -> P' = P ⊎ X -> takes X f Q (k tt) g -> takes P' f Q (bind m k) g.
Proof.
  intros Hm E Hk. apply (takes_value f (fun _ => tt) P (fun _ => ∅) X P' Q m k tt g Hm E).
  intros [] _. eapply takes_eq; [|exact Hk]. multiset_solver.
Qed.

(** Finding a resource among others. *)
Lemma split_here (x : assertion) : x = x ⊎ ∅.
Proof. multiset_solver. Qed.
Lemma split_left (x a b a' : assertion) : a = x ⊎ a' -> a ⊎ b = x ⊎ (a' ⊎ b).
Proof. intros ->. multiset_solver. Qed.
Lemma split_right (x a b b' : assertion) : b = x ⊎ b' -> a ⊎ b = x ⊎ (a ⊎ b').
Proof. intros ->. multiset_solver. Qed.
Lemma split_none k (p : assertion) : p = one k None ⊎ p.
Proof. cbn [one]. multiset_solver. Qed.

Create HintDb resources.
#[export] Hint Resolve split_here split_left split_right : resources.
#[export] Hint Resolve split_none | 0 : resources.

(** The same resources, whatever their order. *)
Ltac fields :=
  autounfold with resources;
  cbn [one fst snd option_map limiter_self limiter_history limiter_file device_id hardware_version lost config_self config_base
       config_runtime queue_self queue_lock queue_buf network_self network_curl network_header core_self core_limiter core_dir].
Ltac owned := repeat progress fields; multiset_solver.

(** One statement. *)
Ltac held := solve [eauto 12 with resources nocore].
Ltac statement :=
  unfold calloc, free, free_field, read; cbn [is_null negb andb orb ticosd_rate_limiter_destroy];
  lazymatch goal with
  | |- takes _ _ _ (bind (bind _ _) _) _ => apply takes_assoc
  | |- takes _ _ _ (bind (ret _) _) _ => apply takes_bind_ret
  | |- takes _ _ _ (bind fault _) Fault => intros ? ? _; reflexivity
  | |- takes _ _ _ (bind (take _ true) _) _ => apply takes_take_true; intros ?
  | |- takes _ _ _ (bind (take _ false) _) _ => apply takes_take_false
  | |- takes _ _ _ (bind (use None) _) _ => apply takes_use_null
  | |- takes _ _ _ (bind (use (Some _)) _) _ => eapply takes_use; [held|]
  | |- takes _ _ _ (bind (give _ _) _) _ => eapply takes_give; [held|]
  | |- takes _ _ _ (give _ _) _ => apply takes_last
  | |- takes _ _ _ (ret _) _ => apply takes_ret; [reflexivity|owned]
  | |- takes _ _ _ fault Fault => apply takes_fault
  end.
Ltac statements := repeat statement.

(** ** Rate limiters *)
Definition limiter_holds (b : limiter_blocks) : assertion := mem (Some (limiter_self b)) ⊎ mem (limiter_history b) ⊎ mem (limiter_file b).

Definition held_by {V X : Type} (holds : X -> assertion) (o : option (V * X)) : assertion := match o with Some (_, b) => holds b | None => ∅ end.
#[export] Hint Unfold limiter_holds held_by : resources.

Lemma rate_limiter_init_takes env ticosd count duration filename fs :
  takes ∅ (option_map fst) (held_by limiter_holds) (ticosd_rate_limiter_init env ticosd count duration filename fs)
    (RateLimiter.ticosd_rate_limiter_init env ticosd count duration filename fs).
Proof.
  unfold ticosd_rate_limiter_init, RateLimiter.ticosd_rate_limiter_init. destruct ((count =? 0) || _ || _); [now apply takes_ret|].
  destruct (handle_ok env); cbn [negb]; [|statements]. destruct (history_ok env && (count >? 0)); cbn [negb]; [|now statements].
  destruct filename; [|now statements]. destruct (rw_filename env) as [name|]; [|now statements].
  change (default EmptyString (Some name)) with name. destruct (fs !! name) as [bytes|]; destruct (can_open env); now statements.
Qed.

Lemma rate_limiter_destroy_takes o :
  takes (match o with Some b => limiter_holds b | None => ∅ end) (fun _ => tt) (fun _ => ∅) (ticosd_rate_limiter_destroy o) (Val tt).
Proof. unfold ticosd_rate_limiter_destroy. destruct o as [b|]; [|now apply takes_ret]. unfold limiter_holds. now statements. Qed.

(** ** Device settings *)
Definition all (ps : list pointer) : assertion := foldr (fun p R => mem p ⊎ R) ∅ ps.
Definition strings_hold (b : settings_blocks) : assertion := mem (device_id b) ⊎ mem (hardware_version b).
Definition settings_hold (h : nat * settings_blocks) : assertion := mem (Some h.1) ⊎ strings_hold h.2.
#[export] Hint Unfold strings_hold settings_hold : resources.

Lemma device_line_takes self line h :
  takes (mem (Some self) ⊎ strings_hold h.2 ⊎ all (lost h.2)) fst (fun h => mem (Some self) ⊎ strings_hold h.2 ⊎ all (lost h.2))
    (device_line self line h) (DeviceSettings.device_line line h.1).
Proof.
  destruct h as [info b]. unfold device_line, DeviceSettings.device_line. destruct (strtok "=" line) as [[name|] rest];
    destruct (strtok "010" rest) as [val rest']; [|now apply takes_fault].
  destruct (String.eqb name "TICOS_DEVICE_ID"); [destruct val as [val|]; [now statements|now apply takes_ret]|].
  destruct (String.eqb name "TICOS_HARDWARE_VERSION"); [destruct val as [val|]; [now statements|now apply takes_ret]|].
  now apply takes_ret.
Qed.

Lemma device_lines_takes self lines : forall h,
  takes (mem (Some self) ⊎ strings_hold h.2 ⊎ all (lost h.2)) fst (fun h => mem (Some self) ⊎ strings_hold h.2 ⊎ all (lost h.2))
    (device_lines self lines h) (DeviceSettings.device_lines lines h.1).
Proof.
  induction lines as [|l lines IH]; intros h; cbn [device_lines DeviceSettings.device_lines]; [now apply takes_ret|].
  eapply (takes_seq _ fst _ _ ∅); [apply device_line_takes|multiset_solver|]. intros h'. eapply takes_eq; [|apply IH]. multiset_solver.
Qed.

Lemma settings_destroy_takes h : takes (settings_hold h) (fun _ => tt) (fun _ => ∅) (ticosd_device_settings_destroy (Some h)) (Val tt).
Proof.
  destruct h as [self [i hw l]]. unfold ticosd_device_settings_destroy, settings_hold, strings_hold, free_if. cbn [fst snd device_id hardware_version].
  destruct i, hw; now statements.
Qed.

Lemma settings_init_takes lines :
  takes ∅ (fun r => option_map fst r.1) (fun r => match r.1 with Some (_, p) => settings_hold (p, r.2) | None => ∅ end ⊎ all (lost r.2))
    (ticosd_device_settings_init true lines) (DeviceSettings.ticosd_device_settings_init lines).
Proof.
  unfold ticosd_device_settings_init, DeviceSettings.ticosd_device_settings_init. destruct lines as [lines|]; [|now apply takes_ret].
  do 2 statement. cbn match.
  eapply (takes_seq _ fst _ _ (one Stream (Some b))); [apply (device_lines_takes b0 lines (MkDeviceInfo None None, MkSettingsBlocks None None []))| |].
  { fields. multiset_solver. }
  intros [info h]. cbn [fst snd]. do 2 statement. destruct (id info) as [i|], (hardware info) as [hw|]; [now statements|..];
    (eapply takes_call; [apply (settings_destroy_takes (b0, h))| |apply takes_ret; [reflexivity|]]; owned).
Qed.

(** ** The configuration *)
Definition config_holds (b : config_blocks) : assertion :=
  mem (Some (config_self b)) ⊎ one JsonReference (config_base b) ⊎ one JsonReference (config_runtime b).
#[export] Hint Unfold config_holds : resources.

Lemma config_destroy_takes b : takes (config_holds b) (fun _ => tt) (fun _ => ∅) (ticosd_config_destroy (Some b)) (Val tt).
Proof.
  destruct b as [self [base|] [runtime|]]; unfold ticosd_config_destroy, config_holds; cbn [config_self config_base config_runtime]; now statements.
Qed.

Section Config.
Context `{JsonC, !JsonTree}.

Lemma merge_file_takes fuel conf base :
  takes ∅ Datatypes.id (fun _ => ∅) (merge_file fuel conf base)
    (match conf with
     | OpenFailed => Val base
     | Opened bytes =>
         match json_object_from_fd bytes with
         | None => Val base
         | Some object =>
             match base with
             | None => let! _ := object_members object in Fault
             | Some base => let! merged := prv_config_merge_objects fuel base object in Val (Some merged)
             end
         end
     end).
Proof.
  unfold merge_file. destruct conf as [|bytes]; [now statements|]. destruct (json_object_from_fd bytes) as [object|]; [|now statements].
  repeat statement. destruct base as [base|]; [apply takes_lift; intros merged _; now statements|].
  intros r rest _. unfold bind, lift. now destruct (object_members object).
Qed.

Lemma new_runtime_takes self :
  takes (mem (Some self)) fst (fun r => mem (Some self) ⊎ one JsonReference r.2) (new_runtime self) (Val json_object_new_object).
Proof. unfold new_runtime. now statements. Qed.

Lemma read_runtime_takes self file :
  takes (mem (Some self)) fst (fun r => mem (Some self) ⊎ one JsonReference r.2) (read_runtime self file)
    (Val (match file with OpenFailed => json_object_new_object | Opened bytes => default json_object_new_object (json_object_from_fd bytes) end)).
Proof.
  unfold read_runtime, json_take. destruct file as [|bytes]; [apply new_runtime_takes|]. destruct (json_object_from_fd bytes) as [tree|]; [now statements|].
  unfold new_runtime. now statements.
Qed.

Lemma config_init_takes fuel ok path_ok builtin conf runtime_conf :
  takes ∅ fst (fun r => config_holds r.2) (ticosd_config_init fuel ok path_ok builtin conf runtime_conf)
    (Config.ticosd_config_init fuel ok path_ok builtin conf runtime_conf).
Proof.
  unfold ticosd_config_init, Config.ticosd_config_init, json_take. destruct ok; cbn [negb]; [|destruct (json_tokener_parse builtin); now statements].
  statement. destruct (json_tokener_parse builtin) as [base|]; statement; cbn match.
  all: eapply (takes_seq _ Datatypes.id ∅ (fun _ => ∅)); [apply merge_file_takes|symmetry; apply (left_id_L ∅ (⊎))|].
  all: intros base'; change (Datatypes.id base') with base'; destruct (ticosd_config_generate_rw_filename _ _ _) as [name|]; statement.
  all: first [eapply takes_value; [apply new_runtime_takes| |]|apply takes_assoc; eapply takes_value; [apply read_runtime_takes| |]];
    [held|intros [tree p] <-; now statements].
Qed.
End Config.

(** ** The queue *)
Definition queue_holds (h : sTicosdQueue * queue_blocks) : assertion :=
  mem (Some (queue_self h.2)) ⊎ one Mutex (queue_lock h.2) ⊎ one (if is_file_backed h.1 then Mapping else Memory) (queue_buf h.2).
#[export] Hint Unfold queue_holds : resources.

Lemma queue_destroy_takes h : takes (queue_holds h) (fun _ => tt) (fun _ => ∅) (ticosd_queue_destroy (Some h)) (Val tt).
Proof.
  destruct h as [q [self lock buf]]. unfold ticosd_queue_destroy, queue_holds, free_if. cbn [fst snd queue_self queue_lock queue_buf].
  repeat statement. destruct (is_file_backed q); [now statements|]. destruct buf; now statements.
Qed.

Lemma map_file_takes env size :
  takes ∅ (fun r => match r.1 with Some _ => Some r.2 | None => None end) (fun r => one Mapping r.1) (map_file env size)
    (Val (map_queue_file env size)).
Proof.
  unfold map_file, map_queue_file. destruct (queue_file env); [|now statements]. repeat statement.
  destruct (open_contents env) as [contents|]; [|now statements]. destruct (ftruncate_ok env), (mmap_ok env); now statements.
Qed.

Lemma find_pointers_backed q q' : prv_queue_find_read_write_ptr q = Val q' -> is_file_backed q' = is_file_backed q.
Proof.
  unfold prv_queue_find_read_write_ptr. destruct (find_forward _ _ _ _ _ _) as [[[r w] p]| |]; [|done..]. cbn [obind].
  destruct (if (r =? 0) && negb (w =? 0) then _ else _) as [r'| |]; [|done..]. now intros [= <-].
Qed.

Lemma queue_init_takes env size :
  takes ∅ (option_map fst) (fun o => match o with Some h => queue_holds h | None => ∅ end) (ticosd_queue_init true env size)
    (Queue.ticosd_queue_init env size).
Proof.
  unfold ticosd_queue_init, Queue.ticosd_queue_init. statement. cbn match. destruct (mutex_init_ok env); [|now statements].
  statement. cbn [negb]. destruct (prv_check_queue_size size) as [n ok]. set (m := if ok then n else _). clearbody m.
  eapply takes_value; [apply map_file_takes|symmetry; apply (left_id_L ∅ (⊎))|]. intros [[p|] bytes] E; cbn [fst snd] in *; rewrite <- E; cbn [is_null].
  - apply takes_lift. intros q Hq. apply find_pointers_backed in Hq. cbn in Hq. apply takes_ret; [done|]. fields. rewrite Hq. multiset_solver.
  - destruct (Queue.calloc_ok env); cbn [negb]; [|now statements]. repeat statement.
    apply takes_lift. intros q Hq. apply find_pointers_backed in Hq. cbn in Hq. apply takes_ret; [done|]. fields. rewrite Hq. multiset_solver.
Qed.

(** ** The network *)
Definition network_holds (b : network_blocks) : assertion :=
  mem (Some (network_self b)) ⊎ one CurlHandle (network_curl b) ⊎ mem (network_header b).
#[export] Hint Unfold network_holds : resources.

Lemma network_destroy_takes h : takes (network_holds h.2) (fun _ => tt) (fun _ => ∅) (ticosd_network_destroy (Some h)) (Val tt).
Proof.
  destruct h as [n [self [curl|] header]]; unfold ticosd_network_destroy, network_holds; cbn [snd network_self network_curl network_header]; now statements.
Qed.

Lemma network_init_takes ok curl_ok asprintf_ok settings cfg :
  takes ∅ (fun r => option_map fst r.1) (fun r => match r.1 with Some (_, b) => network_holds b | None => one CurlHandle r.2 end)
    (ticosd_network_init ok curl_ok asprintf_ok settings cfg) (Network.ticosd_network_init ok curl_ok asprintf_ok settings cfg).
Proof.
  unfold ticosd_network_init, Network.ticosd_network_init. destruct ok; cbn [negb]; [|now statements]. statement. cbn match.
  destruct curl_ok; cbn [negb]; [|now statements]. statement. cbn match.
  destruct (missing (cfg_software_type cfg)), (missing (cfg_software_version cfg)), (missing (cfg_base_url cfg)), (missing (cfg_project_key cfg));
    try (now statements). cbn [is_null]. apply takes_lift. intros header _. destruct asprintf_ok; now statements.
Qed.

(** ** The plugins *)
Definition core_holds (b : core_blocks) : assertion :=
  mem (Some (core_self b)) ⊎ match core_limiter b with Some l => limiter_holds l | None => ∅ end ⊎ mem (core_dir b).
#[export] Hint Unfold core_holds : resources.

Definition plugin_holds (p : plugin) : assertion :=
  match p with
  | NoHandle => ∅
  | AttributesPlugin self | RebootPlugin self | SwupdatePlugin self | CollectdPlugin self => mem (Some self)
  | CoredumpPlugin b => core_holds b
  end.

(** What the end leaves of it. *)
Definition plugin_leaves (p : plugin) : assertion := match p with AttributesPlugin self => mem (Some self) | _ => ∅ end.

Definition plugins_hold (ps : list plugin) : assertion := foldr (fun p R => plugin_holds p ⊎ R) ∅ ps.
Definition plugins_leave (ps : list plugin) : assertion := foldr (fun p R => plugin_leaves p ⊎ R) ∅ ps.

Lemma plugin_destroy_takes stopping p : takes (plugin_holds p) (fun _ => tt) (fun _ => plugin_leaves p) (plugin_destroy stopping p) (Val tt).
Proof.
  unfold plugin_destroy, plugin_holds, plugin_leaves, prv_reboot_destroy, prv_swupdate_destroy, prv_collectd_destroy, prv_coredump_destroy. cbn [is_null].
  destruct p as [|self|self|self|self|[self limiter dir]]; try (now statements).
  { destruct stopping; now statements. }
  unfold core_holds. cbn [core_self core_limiter core_dir]. repeat statement.
  eapply takes_call; [apply (rate_limiter_destroy_takes limiter)|held|now statements].
Qed.

Lemma destroy_plugins_takes stopping ps :
  takes (plugins_hold ps) (fun _ => tt) (fun _ => plugins_leave ps) (ticosd_destroy_plugins stopping ps) (Val tt).
Proof.
  induction ps as [|p ps IH]; cbn [ticosd_destroy_plugins]; [now apply takes_ret|].
  eapply takes_value; [apply plugin_destroy_takes|reflexivity|]. intros [] _.
  apply takes_last. eapply takes_value; [exact IH|rewrite (comm_L (⊎)); reflexivity|]. intros [] _.
  apply takes_ret; [done|]. unfold plugins_leave. cbn [foldr]. multiset_solver.
Qed.

Section Plugins.
Context {Q C W : Type} `{TxQueue Q, ConfigOps C, NetworkOps W}.
Implicit Type t : sTicosd Q C W.

Lemma bind_eq {S X Y} (m : M S X) (k : X -> M S Y) s : bind m k s = obind (m s) (fun '(s', x) => k x s').
Proof. reflexivity. Qed.

Lemma bind_lift {S X Y} (o : outcome X) (k : X -> M S Y) s : bind (lift o) k s = obind o (fun x => k x s).
Proof. unfold bind, lift. now destruct o. Qed.

Lemma create_limiter_takes env dev_mode count duration fs :
  takes ∅ (option_map fst) (held_by limiter_holds) (coredump_create_rate_limiter env dev_mode count duration fs)
    (RateLimiter.coredump_create_rate_limiter env dev_mode count duration fs).
Proof.
  unfold coredump_create_rate_limiter, RateLimiter.coredump_create_rate_limiter. destruct (negb dev_mode); apply rate_limiter_init_takes.
Qed.

Lemma create_dir_takes env subdir t :
  takes ∅ (fun r => (r.1, option_map fst r.2)) (fun r => match r.2 with Some (_, p) => mem p | None => ∅ end)
    (prv_create_dir env subdir t) (Coredump.prv_create_dir env subdir t).
Proof.
  unfold prv_create_dir, Coredump.prv_create_dir. rewrite (bind_val _ _ t t (ticosd_get_string (Some EmptyString) "data_dir" t)) by done.
  destruct (non_empty _) as [data_dir|]; [|now apply takes_ret]. rewrite bind_eq.
  apply takes_lift. intros [t' [name|]] _; [|now statements]. statement. destruct (is_dir env name); [now statements|].
  destruct (mkdir_ok env); now statements.
Qed.

Lemma coredump_init_takes env fs t :
  takes ∅ (fun r => (r.1, (r.2.1, option_map fst r.2.2))) (fun r => held_by core_holds r.2.2)
    (ticosd_coredump_init env fs t) (Coredump.ticosd_coredump_init env fs t).
Proof.
  unfold ticosd_coredump_init, Coredump.ticosd_coredump_init. destruct (Coredump.calloc_ok env); cbn [negb]; [|now statements].
  statement. cbn match. rewrite (bind_val _ _ t t (negb (data_collection_off (Some EmptyString) t))) by done. rewrite bind_eq.
  eapply takes_seq; [apply create_dir_takes|symmetry; apply (left_id_L ∅ (⊎))|]. intros [t' [[name dir]|]]; cbn [fst snd option_map]; [|now statements].
  destruct (pattern_open env); cbn [negb]; [|now statements]. statement. cbn [is_null]. destruct (pattern_write env); cbn [negb]; [|now statements].
  repeat statement. repeat (rewrite (bind_val (gets _) _ t' t' _) by reflexivity; cbv beta).
  rewrite bind_lift. eapply takes_seq; [apply create_limiter_takes|symmetry; apply (left_id_L ∅ (⊎))|].
  intros [[l lb]|]; cbn [option_map fst]; rewrite (bind_val (gets _) _ t' t' _) by reflexivity; now statements.
Qed.

Lemma init_handle_takes ok make : (forall p, plugin_holds (make p) = mem (Some p)) ->
  takes ∅ (fun _ => tt) plugin_holds (init_handle ok make) (Val tt).
Proof.
  intros Hm. unfold init_handle. destruct ok; [|now statements]. repeat statement. apply takes_ret; [done|]. rewrite Hm. multiset_solver.
Qed.

Lemma reboot_init_takes ok t : data_collection_off (Some EmptyString) t || ok = true ->
  takes ∅ (fun _ => tt) plugin_holds (ticosd_reboot_init ok t) (Val tt).
Proof.
  intros Hok. unfold ticosd_reboot_init. destruct (data_collection_off (Some EmptyString) t); [now statements|]. cbn in Hok. subst ok. now statements.
Qed.
End Plugins.

(** ** Partial correctness

    [leaves P Q m]: if [m] comes to an end, it leaves [Q]; nothing is said where [Q] is [None]. *)
Definition leaves {A : Type} (P : assertion) (Q : A -> option assertion) (m : M resources A) : Prop :=
  forall r rest r' a, held r = P ⊎ rest -> m r = Val (r', a) -> match Q a with Some R => held r' = R ⊎ rest | None => True end.

Lemma takes_leaves {A B : Type} P (f : A -> B) Q m g : takes P f Q m g -> leaves P (fun a => Some (Q a)) m.
Proof.
  intros Hm r rest r' a Hr E. specialize (Hm r rest Hr). rewrite E in Hm. destruct g; [|done..].
  destruct Hm as (r2 & a2 & [= <- <-] & _ & Hr'). exact Hr'.
Qed.

Lemma leaves_bind {A C : Type} P R X P' Q (m : M resources C) (k : C -> M resources A) :
  leaves P (fun c => Some (R c)) m -> P' = P ⊎ X -> (forall c, leaves (R c ⊎ X) Q (k c)) -> leaves P' Q (bind m k).
Proof.
  intros Hm -> Hk r rest r' a Hr E. apply bind_inv in E as (r1 & c & E1 & E2).
  refine (Hk c r1 rest r' a _ E2). rewrite <- (assoc_L (⊎)). refine (Hm r (X ⊎ rest) r1 c _ E1). now rewrite (assoc_L (⊎)).
Qed.

Lemma leaves_lift {A C : Type} P Q (o : outcome C) (k : C -> M resources A) :
  (forall c, o = Val c -> leaves P Q (k c)) -> leaves P Q (bind (lift o) k).
Proof.
  intros Hk r rest r' a Hr E. unfold bind, lift in E. destruct o as [c| |]; cbn [obind] in E; [|done..]. exact (Hk c eq_refl r rest r' a Hr E).
Qed.

Lemma leaves_ret {A : Type} P Q (a : A) : (forall R, Q a = Some R -> P = R) -> leaves P Q (ret a).
Proof. intros HP r rest r' a' Hr [= <- <-]. destruct (Q a) as [R|]; [|done]. now rewrite <- (HP R eq_refl). Qed.

Lemma leaves_fault {A : Type} P (Q : A -> option assertion) : leaves P Q fault.
Proof. intros r rest r' a _ [=]. Qed.

Lemma leaves_use {A : Type} P Q p (k : unit -> M resources A) : leaves P Q (k tt) -> leaves P Q (bind (use p) k).
Proof.
  intros Hk r rest r' a Hr E. apply bind_inv in E as (r1 & [] & E1 & E2). destruct p as [b|]; [|done]. cbn in E1.
  case_decide; [|done]. injection E1 as <-. exact (Hk r rest r' a Hr E2).
Qed.

Lemma leaves_take {A : Type} P Q k ok (cont : pointer -> M resources A) :
  (forall p, leaves (one k p ⊎ P) Q (cont p)) -> leaves P Q (bind (take k ok) cont).
Proof.
  intros Hk. eapply leaves_bind; [|symmetry; apply (left_id_L ∅ (⊎))|exact Hk].
  apply takes_leaves with (f := fun _ => tt) (g := Val tt). intros r rest Hr. unfold take. destruct ok.
  - eexists _, _. split; [reflexivity|]. split; [done|]. cbn [held one]. rewrite Hr. multiset_solver.
  - eexists _, _. split; [reflexivity|]. split; [done|]. cbn [one]. rewrite Hr. multiset_solver.
Qed.

(** The next call is that of a function with a theorem about what it takes. *)
Tactic Notation "calls" uconstr(H) := eapply leaves_bind; [eapply takes_leaves; apply H|first [symmetry; apply (left_id_L ∅ (⊎))|held]|].

Section Load.
Context {Q C W : Type} `{TxQueue Q, ConfigOps C, NetworkOps W}.
Implicit Type t : sTicosd Q C W.

Lemma reboot_init_leaves ok t : leaves ∅ (fun p => Some (plugin_holds p)) (ticosd_reboot_init ok t).
Proof.
  destruct (data_collection_off (Some EmptyString) t || ok) eqn:E; [eapply takes_leaves, (reboot_init_takes ok t E)|].
  apply orb_false_iff in E as [E ->]. unfold ticosd_reboot_init. rewrite E. intros r rest r' a _ Er. done.
Qed.

Lemma load_plugins_leaves answers env fs t :
  leaves ∅ (fun r => Some (plugins_hold r.2)) (ticosd_load_plugins answers env fs t).
Proof.
  unfold ticosd_load_plugins. calls (init_handle_takes (answers "attributes") AttributesPlugin); [done|]. intros attributes.
  eapply leaves_bind; [apply reboot_init_leaves|symmetry; apply (left_id_L ∅ (⊎))|]. intros reboot.
  calls (init_handle_takes (answers "swupdate") SwupdatePlugin); [done|]. intros swupdate.
  calls (init_handle_takes (answers "collectd") CollectdPlugin); [done|]. intros collectd.
  calls (coredump_init_takes env fs t). intros [t' [fs' core]]. apply leaves_ret. intros R [= <-].
  unfold plugins_hold. cbn [snd foldr]. destruct core as [[c b]|]; cbn [held_by plugin_holds snd]; multiset_solver.
Qed.

(** The only plugin without a destroy function. *)
Lemma load_plugins_attributes answers env fs t r r' t' fs' ps :
  ticosd_load_plugins answers env fs t r = Val (r', (t', fs', ps)) ->
  how_many (plugins_leave ps) = if answers "attributes" then 1%nat else 0%nat.
Proof.
  assert (I : forall ok make r r' p, init_handle ok make r = Val (r', p) -> if ok : bool then exists n, p = make n else p = NoHandle).
  { intros ok make s s' p E. unfold init_handle, bind, calloc, take in E. destruct ok; cbn [obind] in E; [|now injection E as _ <-].
    destruct (use _ _) as [[s1 []]| |]; [|done..]. cbn [obind] in E. injection E as _ <-. eauto. }
  intros E. unfold ticosd_load_plugins in E. apply bind_inv in E as (r1 & a & Ea & E). apply bind_inv in E as (r2 & b & Eb & E).
  apply bind_inv in E as (r3 & s & Es & E). apply bind_inv in E as (r4 & c & Ec & E). apply bind_inv in E as (r5 & [t2 [fs2 core]] & _ & E).
  injection E as _ _ _ <-. apply I in Ea, Es, Ec.
  assert (B : plugin_leaves b = ∅).
  { unfold ticosd_reboot_init in Eb. destruct (data_collection_off _ _); [now injection Eb as _ <-|].
    apply bind_inv in Eb as (r6 & p & _ & Eb). apply bind_inv in Eb as (r7 & [] & _ & Eb). injection Eb as _ <-. now destruct p. }
  unfold plugins_leave. cbn [foldr]. rewrite B.
  assert (S1 : plugin_leaves s = ∅) by (destruct (answers "swupdate"); [destruct Es as [n ->]|subst s]; done). rewrite S1.
  assert (C1 : plugin_leaves c = ∅) by (destruct (answers "collectd"); [destruct Ec as [n ->]|subst c]; done). rewrite C1.
  assert (D1 : plugin_leaves (match core with Some (_, b) => CoredumpPlugin b | None => NoHandle end) = ∅) by now destruct core as [[]|].
  rewrite D1. destruct (answers "attributes"); [destruct Ea as [n ->]|subst a]; cbn [plugin_leaves one].
  - rewrite !(right_id_L ∅ (⊎)). apply gmultiset_size_singleton.
  - now rewrite !(left_id_L ∅ (⊎)).
Qed.
End Load.

(** ** The message about a core *)
Section Message.
Context {Q C W R Zs : Type} `{TxQueue Q, ConfigOps C, NetworkOps W, ReadIO R, Zlib Zs}.
Context (ver : string) (fuel : nat) (uninit : Z -> list Z) (rv : Z) (env : core_env (R := R)).
Implicit Type w : core_world (Q := Q) (C := C) (W := W).

Lemma transform_takes path stream pid max_size w :
  takes ∅ Datatypes.id (fun _ => ∅) (prv_transform_coredump_from_fd_to_file (Zs := Zs) ver fuel uninit rv env path stream pid max_size w)
    (Coredump.prv_transform_coredump_from_fd_to_file (Zs := Zs) ver fuel uninit env path stream pid max_size w).
Proof.
  unfold prv_transform_coredump_from_fd_to_file. set (transformed := Coredump.prv_transform_coredump_from_fd_to_file _ _ _ _ _ _ _ _ w).
  destruct (prv_init_metadata ver env (Coredump.ticosd w)) as [m|] eqn:Em.
  2: { unfold transformed, Coredump.prv_transform_coredump_from_fd_to_file. rewrite Em. apply takes_fault. }
  destruct (proc_mem (proc env) pid) as [copy|] eqn:Ep; cbn [is_some].
  2: { unfold transformed, Coredump.prv_transform_coredump_from_fd_to_file. rewrite Em, Ep. now statements. }
  statement. cbn [is_null]. destruct (open_ok env && negb (bool_decide (is_Some (Coredump.fs w !! path)))) eqn:Eo.
  2: { assert (V : transformed = Val (w, false)).
       { unfold transformed, Coredump.prv_transform_coredump_from_fd_to_file. rewrite Em, Ep.
         now destruct (open_ok env), (bool_decide (is_Some (Coredump.fs w !! path))). }
       rewrite V. now statements. }
  statement. cbn [is_null]. unfold ticos_core_elf_write_gzip_io_deinit.
  destruct (gzip_enabled (Coredump.handle w) && _); statement; apply takes_lift_same; intros r; now statements.
Qed.

(** Calls of the component's functions. *)
Ltac component := first [rewrite bind_lift; apply takes_lift | rewrite bind_eq; apply takes_lift].

Lemma msg_handler_takes buf n fd w : is_null fd = negb (is_some (Coredump.file_stream env)) ->
  takes (one Descriptor fd) Datatypes.id (fun _ => ∅) (prv_msg_handler (Zs := Zs) ver fuel uninit rv env fd buf n w)
    (Coredump.prv_msg_handler (Zs := Zs) ver fuel uninit env buf n w).
Proof.
  intros Hfd. unfold prv_msg_handler, Coredump.prv_msg_handler. destruct (Coredump.file_stream env) as [stream|]; [|now statements].
  destruct fd as [fd|]; [|done]. clear Hfd. component. intros [pid|] _; [|now statements].
  rewrite (bind_val (gets _) _ w w (enable_data_collection (Coredump.handle w))) by done.
  destruct (enable_data_collection (Coredump.handle w)); cbn [negb]; [|now statements].
  component. intros [w1 [|]] _; cbn [negb]; [|now statements].
  rewrite (bind_val (gets _) _ w1 w1 (prv_check_for_available_space env (Coredump.ticosd w1))) by done.
  destruct (prv_check_for_available_space env (Coredump.ticosd w1) =? 0); [now statements|].
  rewrite (bind_val (gets _) _ w1 w1 (if gzip_enabled (Coredump.handle w1) then ".gz" else EmptyString)) by done.
  component. intros [w2 [name|]] _; cbn [is_some]; [|now statements]. statement. unfold store_core.
  rewrite (bind_val (gets _) _ w2 w2 (gzip_enabled (Coredump.handle w2))) by done. rewrite bind_eq.
  eapply takes_seq; [apply transform_takes|symmetry; apply (left_id_L ∅ (⊎))|]. intros [w3 [|]]; unfold Datatypes.id; cbn [negb].
  - component. intros [w4 [[entry|] size]] _; cbn [is_some]; statement; [|component; intros [w5 []] _; now statements].
    component. intros [w5 [|]] _; cbn [negb]; [now statements|]. component. intros [w6 []] _. now statements.
  - component. intros [w4 []] _. component. intros [w5 []] _. now statements.
Qed.

End Message.

(** ** How many strings of the settings are lost *)

(** The line is one that sets [name]. *)
Definition sets (name line : string) : bool :=
  let '(token, rest) := strtok "=" line in
  match token, (strtok "010" rest).1 with Some token, Some _ => String.eqb token name | _, _ => false end.

Definition lines_that_set (name : string) (lines : list string) : nat := length (List.filter (sets name) lines).

Definition allocated (ps : list pointer) : nat := length (omap Datatypes.id ps).
Definition strings (b : settings_blocks) : list pointer := device_id b :: hardware_version b :: lost b.

Lemma all_size ps : how_many (all ps) = allocated ps.
Proof.
  unfold allocated. induction ps as [|[p|] ps IH]; cbn [all foldr one]; [done| |].
  - rewrite gmultiset_size_disj_union, gmultiset_size_singleton. cbn. now rewrite <- IH.
  - rewrite (left_id_L ∅ (⊎)). exact IH.
Qed.

Definition missing_value (s : option string) : bool := match s with Some _ => false | None => true end.

(** A string for every line, and a field that is not NULL where there is a value. *)
Lemma device_line_strings self l i b r r' i' b' :
  device_line self l (i, b) r = Val (r', (i', b')) ->
  is_null (device_id b) = missing_value (id i) -> is_null (hardware_version b) = missing_value (hardware i) ->
  allocated (strings b') = (allocated (strings b) + lines_that_set "TICOS_DEVICE_ID" [l] + lines_that_set "TICOS_HARDWARE_VERSION" [l])%nat /\
  is_null (device_id b') = missing_value (id i') /\ is_null (hardware_version b') = missing_value (hardware i').
Proof.
  unfold device_line, lines_that_set, sets, allocated, strings. cbn [List.filter]. destruct (strtok "=" l) as [[name|] rest]; [|now destruct (strtok _ _)].
  destruct (strtok "010" rest) as [val rest']. cbn [fst].
  destruct (String.eqb_spec name "TICOS_DEVICE_ID") as [->|]; [|destruct (String.eqb_spec name "TICOS_HARDWARE_VERSION") as [->|]];
    (destruct val as [val|]; [|intros [= _ <- <-]; cbn [length]; split; [lia|done]]).
  - intros E Hi Hh. apply bind_inv in E as (r1 & p & Ep & E). injection Ep as _ <-. apply bind_inv in E as (r2 & [] & _ & E). injection E as _ <- <-.
    cbn [device_id hardware_version lost]. split; [|done]. destruct (device_id b), (hardware_version b); cbn; lia.
  - intros E Hi Hh. apply bind_inv in E as (r1 & p & Ep & E). injection Ep as _ <-. apply bind_inv in E as (r2 & [] & _ & E). injection E as _ <- <-.
    cbn [device_id hardware_version lost]. split; [|done]. destruct (device_id b), (hardware_version b); cbn; lia.
  - intros [= _ <- <-]. cbn [length]. split; [lia|done].
Qed.

Lemma lines_that_set_cons name l lines : lines_that_set name (l :: lines) = (lines_that_set name [l] + lines_that_set name lines)%nat.
Proof. unfold lines_that_set. cbn [List.filter]. now destruct (sets name l). Qed.

Lemma device_lines_strings self lines : forall i b r r' i' b',
  device_lines self lines (i, b) r = Val (r', (i', b')) ->
  is_null (device_id b) = missing_value (id i) -> is_null (hardware_version b) = missing_value (hardware i) ->
  allocated (strings b') = (allocated (strings b) + lines_that_set "TICOS_DEVICE_ID" lines + lines_that_set "TICOS_HARDWARE_VERSION" lines)%nat /\
  is_null (device_id b') = missing_value (id i') /\ is_null (hardware_version b') = missing_value (hardware i').
Proof.
  induction lines as [|l lines IH]; intros i b r r' i' b' E Hi Hh; cbn [device_lines] in E.
  - injection E as _ <- <-. cbn. split; [lia|done].
  - apply bind_inv in E as (r1 & [i1 b1] & E1 & E). destruct (device_line_strings _ _ _ _ _ _ _ _ E1 Hi Hh) as (N1 & Hi1 & Hh1).
    destruct (IH _ _ _ _ _ _ E Hi1 Hh1) as (N & Hi' & Hh'). split; [|done]. rewrite !(lines_that_set_cons _ l lines). lia.
Qed.

(** Of the strings of the lines two are kept. *)
Lemma settings_init_lost ok lines r r' s p b :
  ticosd_device_settings_init ok (Some lines) r = Val (r', (Some (s, p), b)) ->
  (allocated (lost b) + 2 = lines_that_set "TICOS_DEVICE_ID" lines + lines_that_set "TICOS_HARDWARE_VERSION" lines)%nat.
Proof.
  unfold ticosd_device_settings_init. intros E. apply bind_inv in E as (r1 & fd & _ & E). apply bind_inv in E as (r2 & [self|] & _ & E); [|done].
  apply bind_inv in E as (r3 & [i b'] & El & E). destruct (device_lines_strings _ _ _ _ _ _ _ _ El eq_refl eq_refl) as (N & Hi & Hh).
  apply bind_inv in E as (r4 & [] & _ & E). apply bind_inv in E as (r5 & [] & _ & E). cbn [lost] in N.
  destruct (id i) as [di|], (hardware i) as [hw|]; cbn [missing_value] in Hi, Hh;
    [|apply bind_inv in E as (r6 & [] & _ & E); discriminate..].
  injection E as _ _ _ <-. destruct b' as [[x|] [y|] l]; [|done..]. cbn [device_id hardware_version lost] in *. unfold strings, allocated in *. cbn in N. cbn. lia.
Qed.

(** ** The daemon from its first to its last statement *)
Definition main_holds (h : handles) : assertion :=
  mem (Some (main_self h)) ⊎ config_holds (main_config h) ⊎ settings_hold (main_settings h) ⊎ queue_holds (main_queue h) ⊎
  network_holds (main_network h).2 ⊎ plugins_hold (main_plugins h).

Lemma end_main_takes stopping h :
  takes (main_holds h) (fun _ => tt) (fun _ => plugins_leave (main_plugins h)) (end_main stopping h) (Val tt).
Proof.
  destruct h as [self config settings queue network plugins]. unfold main_holds, end_main.
  cbn [main_self main_config main_settings main_queue main_network main_plugins].
  eapply takes_value; [apply destroy_plugins_takes|rewrite (comm_L (⊎)); reflexivity|]. intros [] _.
  do 2 statement. eapply takes_call; [apply network_destroy_takes|held|]. repeat statement.
  eapply takes_call; [apply queue_destroy_takes|held|]. repeat statement.
  eapply takes_call; [apply config_destroy_takes|held|]. repeat statement.
  eapply takes_call; [apply settings_destroy_takes|held|]. now statements.
Qed.

(** Without memory for these handles the functions are undefined. *)
Lemma queue_init_leaves ok env size :
  leaves ∅ (fun o => Some (match o with Some h => queue_holds h | None => ∅ end)) (ticosd_queue_init ok env size).
Proof. destruct ok; [eapply takes_leaves, queue_init_takes|]. intros r rest r' a _ [=]. Qed.

Lemma settings_init_leaves ok lines :
  leaves ∅ (fun r => Some (match r.1 with Some (_, p) => settings_hold (p, r.2) | None => ∅ end ⊎ all (lost r.2)))
    (ticosd_device_settings_init ok lines).
Proof.
  destruct ok; [eapply takes_leaves, settings_init_takes|]. destruct lines as [lines|]; [intros r rest r' a _ [=]|]. now apply leaves_ret; intros R [= <-].
Qed.

Lemma queue_reset_backed q q' : ticosd_queue_reset q = Val q' -> is_file_backed q' = is_file_backed q.
Proof. unfold ticosd_queue_reset. destruct (store _ _ _) as [b| |]; [|done..]. now intros [= <-]. Qed.

Section Main.
Context `{JsonC, !JsonTree}.

(** The step from one call to the next. *)
Tactic Notation "next" uconstr(H) := eapply leaves_bind; [apply H|first [symmetry; apply (left_id_L ∅ (⊎))|held]|].

Lemma start_services_leaves env self c config s settings :
  leaves (mem (Some self) ⊎ config_holds config ⊎ settings_hold settings ⊎ all (lost settings.2))
    (fun o => match o with Some h => Some (main_holds h ⊎ all (lost (main_settings h).2)) | None => None end) (start_services env self c config s settings).
Proof.
  unfold start_services. apply leaves_lift. intros bytes _. next queue_init_leaves. intros [[q b]|]; apply leaves_use; [|now apply leaves_ret].
  eapply leaves_bind with (R := fun q => queue_holds (q, b)).
  { destruct (default false _) as [].
    - apply leaves_ret. intros R [= <-]. reflexivity.
    - apply leaves_use. intros r rest r' q' Hr E. unfold lift in E. destruct (ticosd_queue_reset q) as [q2| |] eqn:Eq; [|done..].
      injection E as <- <-. apply queue_reset_backed in Eq. cbn [settings_hold] in *. rewrite Hr. unfold queue_holds. cbn [fst snd]. now rewrite Eq. }
  { reflexivity. }
  intros q'. calls (network_init_takes (network_calloc env) (network_curl_ok env) (network_asprintf env) s (network_settings c)).
  intros [network curl]. apply leaves_use. destruct network as [[n nb]|]; [|now apply leaves_ret].
  next load_plugins_leaves. intros [[t fs] plugins]. apply leaves_ret. intros R [= <-].
  unfold main_holds. cbn [main_self main_config main_settings main_queue main_network main_plugins fst snd]. multiset_solver.
Qed.

Lemma start_main_leaves env :
  leaves ∅ (fun o => match o with Some h => Some (main_holds h ⊎ all (lost (main_settings h).2)) | None => None end) (start_main env).
Proof.
  unfold start_main. apply leaves_take. intros handle. calls config_init_takes. intros [c config]. cbn [snd].
  destruct handle as [self|]; [|apply leaves_fault]. apply leaves_use. next settings_init_leaves. intros [[[s p]|] b]; apply leaves_use; [|now apply leaves_ret].
  intros r rest r' a Hr. apply start_services_leaves. rewrite Hr. cbn [fst snd]. multiset_solver.
Qed.

(** The strings and the plugins of a daemon that has started. *)
Lemma start_main_counts env r r' h : start_main env r = Val (r', Some h) ->
  exists lines, info_lines env = Some lines /\
    (allocated (lost (main_settings h).2) + 2 = lines_that_set "TICOS_DEVICE_ID" lines + lines_that_set "TICOS_HARDWARE_VERSION" lines)%nat /\
    how_many (plugins_leave (main_plugins h)) = if plugin_calloc env "attributes" then 1%nat else 0%nat.
Proof.
  intros E. unfold start_main in E. apply bind_inv in E as (r1 & [self|] & _ & E); apply bind_inv in E as (r2 & [c config] & _ & E); [|done].
  apply bind_inv in E as (r3 & [] & _ & E). apply bind_inv in E as (r4 & [[[s p]|] b] & Es & E); apply bind_inv in E as (r5 & [] & _ & E); [|done].
  destruct (info_lines env) as [lines|]; [|done]. exists lines. split; [done|].
  unfold start_services in E. apply bind_inv in E as (r6 & bytes & _ & E). apply bind_inv in E as (r7 & [[q qb]|] & _ & E);
    apply bind_inv in E as (r8 & [] & _ & E); [|done]. apply bind_inv in E as (r9 & q' & _ & E).
  apply bind_inv in E as (r10 & [[[n nb]|] curl] & _ & E); apply bind_inv in E as (r11 & [] & _ & E); [|done].
  apply bind_inv in E as (r12 & [[t fs] ps] & Ep & E). injection E as _ <-. cbn [main_settings main_plugins snd].
  split; [exact (settings_init_lost _ _ _ _ _ _ _ Es)|exact (load_plugins_attributes _ _ _ _ _ _ _ _ _ Ep)].
Qed.

End Main.

(** ** Each handle on its own *)

(** [init] has the value of the component's function [g], and [destroy] gives back all it took
    but [left]. *)
Definition balanced {A B : Type} (f : A -> B) (init : M resources A) (g : outcome B) (destroy : A -> M resources unit)
    (left : A -> assertion) : Prop :=
  forall r,
    match g with
    | Val b => exists r1 a r2, init r = Val (r1, a) /\ f a = b /\ destroy a r1 = Val (r2, tt) /\ held r2 = left a ⊎ held r
    | Fault => init r = Fault
    | OutOfFuel => init r = OutOfFuel
    end.

Lemma balanced_intro {A B : Type} (f : A -> B) Q init g destroy left : takes ∅ f Q init g ->
  (forall a, takes (Q a) (fun _ => tt) (fun _ => left a) (destroy a) (Val tt)) -> balanced f init g destroy left.
Proof.
  intros Hi Hd r. specialize (Hi r (held r)). rewrite (left_id_L ∅ (⊎)) in Hi. specialize (Hi eq_refl). destruct g as [b| |]; [|exact Hi..].
  destruct Hi as (r1 & a & E & Hb & H1). destruct (Hd a r1 (held r) H1) as (r2 & [] & E2 & _ & H2). eauto 10.
Qed.

(** A failed start has nothing to destroy. *)
Definition destroy_some {V X} (destroy : V * X -> M resources unit) (o : option (V * X)) : M resources unit :=
  match o with Some h => destroy h | None => ret tt end.

Definition nothing_left {A : Type} (_ : A) : assertion := ∅.


(** ** A concrete daemon *)
Definition sample_builtin : string := to_text (JObject [
  ("data_dir", Some (JString "/data")); ("queue_size_kib", Some (JInt 1)); ("enable_data_collection", Some (JBool true));
  ("base_url", Some (JString "https://t")); ("software_type", Some (JString "main")); ("software_version", Some (JString "1"));
  ("coredump_plugin", Some (JObject [("rate_limit_count", Some (JInt 5)); ("rate_limit_duration_seconds", Some (JInt 3600))]))]).

(** The device reports its identity twice, the queue and the limiter's history have files. *)
Definition sample_main : main_env :=
  MkMainEnv true 10 true true sample_builtin (Opened (bytes_of_string (to_text (JObject [("project_key", Some (JString "k"))]))))
    (fun _ => Opened (bytes_of_string (to_text (JObject [])))) true
    (Some ["TICOS_DEVICE_ID=a"; "TICOS_HARDWARE_VERSION=hw"; "TICOS_DEVICE_ID=b"]) true
    (fun _ => MkInitEnv true true (Some []) true true true) true true true (fun _ => true)
    (MkCoreInitEnv true (fun _ => false) true true true (MkLimiterEnv true true (Some "/data/coredump_rate_limit") true))
    {["/data/coredump_rate_limit" := bytes_of_string "1 2 3"]} [].

Definition ended {A : Type} (m : outcome (resources * option A)) : bool := match m with Val (_, Some _) => true | _ => false end.

Example sample_main_starts : ended (start_main sample_main no_resources) = true.
Proof. vm_compute. reflexivity. Qed.

(** Two things stay behind: the handle of the attributes plugin and the first identity. *)
Example sample_main_leaves_two :
  (let! (r, h) := start_main sample_main no_resources in
   match h with Some h => let! (r', _) := end_main true h r in Val (how_many (held r), how_many (held r')) | None => Fault end) =
  Val (23%nat, 2%nat).
Proof. vm_compute. reflexivity. Qed.

Definition sample_start : resources * option handles :=
  match start_main sample_main no_resources with Val r => r | _ => (no_resources, None) end.
Definition sample_handles : handles :=
  match sample_start.2 with
  | Some h => h
  | None => MkHandles 0 (MkConfigBlocks 0 None None) (0%nat, MkSettingsBlocks None None [])
      (MkQueue false 0 [] 0 0 0 false, MkQueueBlocks 0 None None)
      (MkNetwork (MkSettings EmptyString EmptyString) false [] EmptyString EmptyString EmptyString EmptyString, MkNetworkBlocks 0 None None) []
  end.

Lemma sample_start_runs : start_main sample_main no_resources = Val (sample_start.1, Some sample_handles).
Proof. vm_compute. reflexivity. Qed.

