(* ===== verification/Console.v ===== *)
(** * What the programs print, and how they are told apart

    src/main.c (one binary under two names), src/util/version.c, src/util/dump_settings.c with
    [ticosd_config_dump_config], the two usage texts, and the crashes of src/ticosctl/crash.c.
    After them the names and the process that log lines show (src/network.c, the core dump
    plugin), and the loop of the sample application for statsd.
    Output is the string a function prints; the pieces of the build (version and commit) and
    the text json-c prints for a tree are parameters. *)
From stdpp Require Import gmap.
From S2P Require Import Prelude CLib Json Network Config TicosCtl.
#[local] Open Scope string_scope.
#[local] Open Scope list_scope.
#[local] Open Scope Z_scope.

(** A line of output. *)
Definition ln (s : string) : string := s +:+ String "010" EmptyString.

Definition slen (s : string) : Z := Z.of_nat (String.length s).

(** ** main.c *)

(** basename(3) of <libgen.h>: the last component that is not empty, a slash if there is none.
    [best] is the last complete component, [cur] the one being read. *)
Fixpoint last_component (best cur s : string) : string :=
  let best' := match cur with EmptyString => best | _ => cur end in
  match s with
  | EmptyString => best'
  | String "/" r => last_component best' EmptyString r
  | String a r => last_component best (cur +:+ String a EmptyString) r
  end.

Definition basename (path : option string) : string :=
  match path with
  | None | Some EmptyString => "."
  | Some p => last_component "/" EmptyString p
  end.

(** [argv0] is [None] when the program is started without a name. *)
Definition main {A} (ticosd_main ticosctl_main : A) (argv0 : option string) : A :=
  let cmd_name := basename argv0 in
  if String.eqb cmd_name "ticosd" then ticosd_main else ticosctl_main.

Definition no_slash (s : string) : Prop := Forall (fun a => a <> "/"%char) (list_ascii_of_string s).

Lemma last_component_word best cur w : no_slash w -> cur +:+ w <> EmptyString -> last_component best cur w = cur +:+ w.
Proof.
  revert cur. induction w as [|a w IH]; intros cur Hw Hne.
  - rewrite string_app_nil_r in *. cbn. now destruct cur.
  - inversion Hw as [|? ? Ha Hr]; subst. transitivity (last_component best (cur +:+ String a EmptyString) w).
    + destruct (ascii_dec a "/"%char) as [->|Hn]; [done|]. cbn.
      destruct a as [[] [] [] [] [] [] [] []]; try done.
    + rewrite IH; [now rewrite string_app_assoc|done|]. rewrite string_app_assoc. cbn. now destruct cur.
Qed.

Lemma last_component_path dir : forall best cur w, no_slash w -> w <> EmptyString ->
  last_component best cur (dir +:+ String "/" w) = w.
Proof.
  induction dir as [|a dir IH]; intros best cur w Hw Hne; cbn [String.append].
  - cbn [last_component]. now apply (last_component_word _ EmptyString).
  - cbn [last_component]. destruct a as [[] [] [] [] [] [] [] []]; now apply IH.
Qed.

(** Whatever directory the binary lies in, the name of the link decides. *)
Lemma main_by_name {A} (d c : A) dir name : no_slash name -> name <> EmptyString ->
  main d c (Some (dir +:+ String "/" name)) = main d c (Some name) /\
  (main d c (Some name) = if String.eqb name "ticosd" then d else c).
Proof.
  intros Hw Hne. unfold main, basename.
  assert (E : forall s, s <> EmptyString -> match s with EmptyString => "." | _ => last_component "/" EmptyString s end =
    last_component "/" EmptyString s) by now intros [].
  assert (P : dir +:+ String "/" name <> EmptyString) by now destruct dir.
  rewrite !E by done. rewrite last_component_path, last_component_word by done. done.
Qed.

Example names : map (fun p => main true false p)
  [Some "ticosd"; Some "/usr/bin/ticosd"; Some "./ticosd/"; Some "ticosctl"; Some "/usr/bin/ticosctl"; Some "/"; None] =
  [true; true; true; false; false; false; false].
Proof. reflexivity. Qed.

(** ** version.c *)
Section Version.
Context (VERSION GITCOMMIT : string).

Definition ticosd_sdk_version : string := VERSION.

Definition ticos_version_print_info : string := ln ("VERSION=" +:+ VERSION) +:+ ln ("GIT COMMIT=" +:+ GITCOMMIT).

(** ** dump_settings.c *)
Context `{JsonC} (json_object_to_json_string : option json_object -> string).

Definition ticosd_config_dump_config (handle : sTicosdConfig) (file : string) : string :=
  ln ("Base configuration (" +:+ file +:+ "):") +:+
  ln (ln ("  " +:+ json_object_to_json_string (base handle))) +:+
  ln "Runtime configuration:" +:+
  ln (ln ("  " +:+ json_object_to_json_string (runtime handle))).

(** [g_plugins] are the names of the table; those without a name are left out. *)
Definition ticosd_dump_settings (g_plugins : list string) (settings : option sTicosdDeviceSettings) (config : sTicosdConfig)
    (config_file : string) : string :=
  ticosd_config_dump_config config config_file +:+
  match settings with
  | Some settings =>
      ln "Device configuration from ticos-device-info:" +:+
      ln ("  TICOS_DEVICE_ID=" +:+ device_id settings) +:+
      ln ("  TICOS_HARDWARE_VERSION=" +:+ hardware_version settings)
  | None => ln "Device configuration from ticos-device-info: IS NOT AVAILABLE."
  end +:+
  ln EmptyString +:+
  ticos_version_print_info +:+ ln EmptyString +:+
  ln "Plugin enabled:" +:+
  foldr (fun name rest => match name with EmptyString => rest | _ => ln ("  " +:+ name) +:+ rest end) EmptyString g_plugins +:+
  ln EmptyString.
End Version.

(** ** The usage texts *)
Definition prv_ticosd_usage : string :=
  ln (ln "Usage: ticosd [OPTION]...") +:+
  ln "      --config-file <file>       : Configuration file" +:+
  ln "      --daemonize                : Daemonize process" +:+
  ln "      --enable-data-collection   : Enable data collection, will restart the main ticosd service" +:+
  ln "      --disable-data-collection  : Disable data collection, will restart the main ticosd service" +:+
  ln "      --enable-dev-mode          : Enable developer mode (restarts ticosd)" +:+
  ln "      --disable-dev-mode         : Disable developer mode (restarts ticosd)" +:+
  ln "  -h, --help                     : Display this help and exit" +:+
  ln "  -s, --show-settings            : Show settings" +:+
  ln "  -v, --version                  : Show version information".

(** The printed columns of the command table; the functions are in [TicosCtl.cmds]. *)
Record sTicosCmd := MkCmd { cmd_name : string; example_args : option string; help : string }.

Definition cmd_table : list sTicosCmd := [
  MkCmd "enable-data-collection" None "Enable data collection and restart ticosd";
  MkCmd "disable-data-collection" None "Disable data collection and restart ticosd";
  MkCmd "enable-dev-mode" None "Enable developer mode and restart ticosd";
  MkCmd "disable-dev-mode" None "Disable developer mode and restart ticosd";
  MkCmd "reboot" (Some "[--reason <n>]") "Register reboot reason and call 'reboot'";
  MkCmd "request-metrics" None "Flush collectd metrics to Ticos now";
  MkCmd "show-settings" None "Show ticosd settings";
  MkCmd "sync" None "Flush ticosd queue to Ticos now";
  MkCmd "trigger-coredump" (Some "[segfault|divide-by-zero]")
    "Trigger a coredump and immediately reports it to Ticos (defaults to segfault)";
  MkCmd "write-attributes" (Some "<VAR1=VAL1 ...>") "Write device attribute(s) to Ticosd" ].

Definition extra_spacing_with_arguments : Z := 1.

(** [len] of one command, an int. *)
Definition cmd_width (c : sTicosCmd) : Z :=
  i32 (slen (cmd_name c) + match example_args c with None => 0 | Some args => extra_spacing_with_arguments + slen args end).

(** The loop that finds the longest. *)
Fixpoint format_width (width : Z) (cmds : list sTicosCmd) : Z :=
  match cmds with
  | [] => width
  | c :: cmds => let len := cmd_width c in format_width (if len >? width then len else width) cmds
  end.

(** [%-*s]: padded on the right; a negative width counts by its absolute value. *)
Definition pad (width : Z) (s : string) : string :=
  s +:+ string_of_bytes (replicate (Z.to_nat (Z.abs width - slen s)) 32).

Definition command_line (width : Z) (c : sTicosCmd) : string :=
  match example_args c with
  | None => ln ("  " +:+ pad width (cmd_name c) +:+ " : " +:+ help c)
  | Some args =>
      ln ("  " +:+ cmd_name c +:+ " " +:+ pad (width - i32 (slen (cmd_name c)) - extra_spacing_with_arguments) args
          +:+ " : " +:+ help c)
  end.

Definition prv_ticosctl_usage (cmds : list sTicosCmd) : string :=
  let width := format_width 0 cmds in
  ln (ln "Usage: ticosctl [OPTION] <COMMAND> ...") +:+
  ln ("  " +:+ pad width "-c <config file>" +:+ " : Use configuration file") +:+
  ln ("  " +:+ pad width "-h" +:+ " : Display this help and exit") +:+
  ln ("  " +:+ pad width "-v" +:+ " : Show version information") +:+
  ln EmptyString +:+
  ln "Commands:" +:+
  foldr (fun c rest => command_line width c +:+ rest) EmptyString cmds +:+
  ln EmptyString.

(** Every command the program accepts is in the help, in the same order, and no other. *)
Lemma usage_lists_commands `{JsonTree, !JsonArray} : map cmd_name cmd_table = map fst cmds.
Proof. reflexivity. Qed.

Lemma slen_app a b : slen (a +:+ b) = slen a + slen b.
Proof.
  unfold slen. induction a as [|c a IH]; [done|]. change (String c a +:+ b) with (String c (a +:+ b)).
  cbn [String.length]. lia.
Qed.

Lemma slen_pad width s : slen s <= width -> slen (pad width s) = width.
Proof.
  intros H. unfold pad. rewrite slen_app.
  assert (E : forall n, slen (string_of_bytes (replicate n 32)) = Z.of_nat n).
  { induction n as [|n IH]; [done|]. cbn [replicate string_of_bytes]. unfold slen in *. cbn [String.length]. lia. }
  rewrite E. unfold slen in *. lia.
Qed.

Lemma format_width_max cmds : forall w, w <= format_width w cmds /\ Forall (fun c => cmd_width c <= format_width w cmds) cmds.
Proof.
  induction cmds as [|c cmds IH]; intros w; cbn [format_width]; [split; [lia|constructor]|].
  destruct (Z.gtb_spec (cmd_width c) w) as [Hc|Hc].
  - destruct (IH (cmd_width c)) as [Hw Hf]. split; [lia|]. now constructor.
  - destruct (IH w) as [Hw Hf]. split; [lia|]. constructor; [lia|done].
Qed.

(** The colons of the command lines are in one column, whatever the table. *)
Lemma usage_aligned cmds :
  Forall (fun c => slen (cmd_name c) + slen (default EmptyString (example_args c)) + 1 < 2 ^ 31) cmds ->
  let width := format_width 0 cmds in
  Forall (fun c => exists left, slen left = width + 2 /\ command_line width c = ln (left +:+ " : " +:+ help c)) cmds.
Proof.
  intros Hb width. destruct (format_width_max cmds 0) as [_ Hw]. fold width in Hw.
  rewrite Forall_forall in Hb, Hw |- *. intros c Hc. specialize (Hb c Hc). specialize (Hw c Hc).
  unfold cmd_width, command_line, extra_spacing_with_arguments in *.
  assert (0 <= slen (cmd_name c)) by (unfold slen; lia).
  destruct (example_args c) as [args|]; unfold default, id in Hb; cbn [from_option] in Hb.
  - assert (0 <= slen args) by (unfold slen; lia). rewrite i32_small in Hw by lia. rewrite i32_small by lia.
    exists ("  " +:+ cmd_name c +:+ " " +:+ pad (width - slen (cmd_name c) - 1) args). split.
    + rewrite !slen_app, slen_pad by lia. change (slen "  ") with 2. change (slen " ") with 1. lia.
    + now rewrite !string_app_assoc.
  - change (slen EmptyString) with 0 in Hb. rewrite i32_small in Hw by lia.
    exists ("  " +:+ pad width (cmd_name c)). split.
    + rewrite slen_app, slen_pad by lia. change (slen "  ") with 2. lia.
    + now rewrite !string_app_assoc.
Qed.

(** The table's longest line is that of trigger-coredump. *)
Example usage_width : format_width 0 cmd_table = 42.
Proof. reflexivity. Qed.

(** ** crash.c *)

(** What becomes of the process: the parent, or no fork, goes on; a child ends with a code. *)
Inductive crash_result :=
| ParentContinues
| ChildExits (code : Z).

(** [pid] is what fork returns, -1 included.  The child increments the int at address 0, or
    divides by its own zero [pid]; both are undefined. Only a value outside of the
    enumeration, [None], reaches the exit. *)
Definition ticos_trigger_crash (pid : Z) (e : option eErrorType) : outcome crash_result :=
  if pid =? 0 then
    match e with
    | Some eErrorTypeSegFault => Fault
    | Some eErrorTypeFPException => if pid =? 0 then Fault else Val (ChildExits (-1))
    | None => Val (ChildExits (-1))
    end
  else Val ParentContinues.

(** The child of every error type crashes; the parent goes on, also when there is no child. *)
Lemma trigger_crash pid e :
  ticos_trigger_crash pid (Some e) = if pid =? 0 then Fault else Val ParentContinues.
Proof. unfold ticos_trigger_crash. destruct (pid =? 0); [now destruct e|done]. Qed.

(** ** Log lines *)

(** network.c; the enumeration has no other values. *)
Definition prv_method_as_string (method : eTicosdHttpMethod) : string :=
  match method with
  | kTicosdHttpMethod_POST => "POST"
  | kTicosdHttpMethod_PATCH => "PATCH"
  | kTicosdHttpMethod_GET => "GET"
  end.

(** fgets into [n] bytes: up to a line feed, the line feed included; [None] for NULL. *)
Fixpoint fgets_bytes (n : nat) (bytes : list Z) : list Z :=
  match n, bytes with
  | O, _ | _, [] => []
  | S n, b :: bytes => if b =? 10 then [b] else b :: fgets_bytes n bytes
  end.

Definition fgets (n : Z) (bytes : list Z) : option (list Z) :=
  match bytes with [] => None | _ => Some (fgets_bytes (Z.to_nat (n - 1)) bytes) end.

Definition PATH_MAX : Z := 4096.

(** coredump.c: what is logged about a core.  [cmdline] is the file of the process, [None] when it
    cannot be opened; its arguments are separated by NULs. *)
Definition prv_log_coredump_request (cmdline : option (list Z)) (pid : Z) : outcome string :=
  let! process :=
    match cmdline ≫= fgets PATH_MAX with
    | None => Val "???"
    | Some line => c_string (take (Z.to_nat (PATH_MAX - 1)) (line ++ [0]) ++ [0])
    end in
  vsprintf "coredump:: Received corefile for PID %d, process '%s'" [ArgZ pid; ArgS (Some process)].

(** Of the command line only the program's name, if it is no longer than a path and has no line feed. *)
Lemma logs_program_name name args pid : no_nul name -> Forall (fun b => b <> 10) (bytes_of_string name) -> name <> EmptyString ->
  slen name < PATH_MAX - 1 ->
  prv_log_coredump_request (Some (bytes_of_string name ++ 0 :: args)) pid =
  vsprintf "coredump:: Received corefile for PID %d, process '%s'" [ArgZ pid; ArgS (Some name)].
Proof.
  intros Hn Hl He Hs. assert (Ln : zlen (bytes_of_string name) = slen name).
  { unfold slen. clear. induction name as [|a s IH]; cbn [bytes_of_string length String.length]; lia. }
  assert (F : forall n bs r, Forall (fun b => b <> 10) bs -> (length bs < n)%nat -> exists r', fgets_bytes n (bs ++ 0 :: r) = bs ++ 0 :: r').
  { clear. intros n bs. revert n. induction bs as [|b bs IH]; intros n r Hb Hn; (destruct n as [|n]; [cbn in Hn; lia|]); cbn [app fgets_bytes].
    - eauto.
    - apply Forall_cons_1 in Hb as [Hb Hbs]. destruct (Z.eqb_spec b 10); [done|]. destruct (IH n r Hbs ltac:(cbn in Hn; lia)) as [r' ->]. eauto. }
  unfold prv_log_coredump_request, fgets. cbn [mbind option_bind]. destruct (bytes_of_string name ++ 0 :: args) as [|b0 l0] eqn:E0; [now destruct (bytes_of_string name)|].
  rewrite <- E0. destruct (F (Z.to_nat (PATH_MAX - 1)) (bytes_of_string name) args Hl) as [r' ->]; [lia|].
  assert (T : take (Z.to_nat (PATH_MAX - 1)) ((bytes_of_string name ++ 0 :: r') ++ [0]) ++ [0] =
    bytes_of_string name ++ 0 :: (take (Z.to_nat (PATH_MAX - 1) - length (bytes_of_string name) - 1) (r' ++ [0]) ++ [0])).
  { rewrite <- app_assoc. cbn [app]. rewrite take_app_ge by lia.
    replace (Z.to_nat (PATH_MAX - 1) - length (bytes_of_string name))%nat with (S (Z.to_nat (PATH_MAX - 1) - length (bytes_of_string name) - 1)) by lia.
    cbn [take]. rewrite <- app_assoc. cbn [app]. now rewrite Nat.sub_succ, Nat.sub_0_r. }
  rewrite T, c_string_of_bytes by done. reflexivity.
Qed.

(** ** The sample application (meta-ticos-example, statsd-sampleapp-c/files/main.c) *)
Definition MAX_LINE_LEN : Z := 200.
Definition PKT_LEN : Z := 1400.

(** The client library: statsd_prepare prints a metric into a buffer of the given length, as
    snprintf does. *)
Class Statsd := { statsd_prepare : string -> Z -> string -> Z -> string }.
Class StatsdLaws `{Statsd} := {
  prepare_fits stat value type buflen : 0 < buflen -> slen (statsd_prepare stat value type buflen) < buflen }.

(** strncat to a buffer of [size] bytes that holds [dest]: at most [n] characters and a NUL,
    wherever that ends. *)
Definition strncat (size : Z) (dest src : string) (n : Z) : outcome string :=
  let appended := dest +:+ String.substring 0 (Z.to_nat n) src in
  if slen appended <? size then Val appended else Fault.

Definition timeval : Type := Z * Z.

(** [(end - start)] in milliseconds, as an int; the quotient is that of C. *)
Definition elapsed_ms (start end_ : timeval) : Z :=
  i32 ((end_.1 - start.1) * 1000 + Z.quot (end_.2 - start.2) 1000).

(** One turn of the endless loop: the packet it sends.  [rand] are the answers of rand. *)
Definition sample_turn `{Statsd} (rand : Z * Z) (start end_ : timeval) : outcome string :=
  let! pkt := strncat PKT_LEN EmptyString (statsd_prepare "mycount" (rand.1 mod 3) "c" MAX_LINE_LEN) (PKT_LEN - 1) in
  let! pkt := strncat PKT_LEN pkt (statsd_prepare "mygauge" (rand.2 mod 100) "g" MAX_LINE_LEN) (PKT_LEN - 1) in
  strncat PKT_LEN pkt (statsd_prepare "mytime" (elapsed_ms start end_) "ms" MAX_LINE_LEN) (PKT_LEN - 1).

Lemma substring_all s n : (String.length s <= n)%nat -> String.substring 0 n s = s.
Proof.
  revert n. induction s as [|a s IH]; intros n Hn; [now destruct n|]. destruct n as [|n]; [cbn in Hn; lia|].
  cbn in Hn |- *. now rewrite IH by lia.
Qed.

(** The bound given to strncat is not the room that is left, but three lines always fit. *)
Lemma sample_turn_fits `{StatsdLaws} rand start end_ :
  sample_turn rand start end_ = Val (statsd_prepare "mycount" (rand.1 mod 3) "c" MAX_LINE_LEN +:+
    statsd_prepare "mygauge" (rand.2 mod 100) "g" MAX_LINE_LEN +:+ statsd_prepare "mytime" (elapsed_ms start end_) "ms" MAX_LINE_LEN).
Proof.
  assert (L : forall stat value type, 0 <= slen (statsd_prepare stat value type MAX_LINE_LEN) < 200)
    by (intros; split; [unfold slen; lia|now apply (prepare_fits stat value type MAX_LINE_LEN)]).
  assert (A : forall dest stat value type, slen dest < 600 -> strncat PKT_LEN dest (statsd_prepare stat value type MAX_LINE_LEN) (PKT_LEN - 1) =
    Val (dest +:+ statsd_prepare stat value type MAX_LINE_LEN)).
  { intros dest stat value type Hd. specialize (L stat value type). unfold strncat. rewrite substring_all by (unfold slen, PKT_LEN in *; lia).
    rewrite slen_app. unfold PKT_LEN in *. test_true (slen dest + slen (statsd_prepare stat value type MAX_LINE_LEN) <? 1400). reflexivity. }
  unfold sample_turn. rewrite A by done. cbn [obind]. rewrite A.
  2: { specialize (L "mycount" (rand.1 mod 3) "c"). change (slen (statsd_prepare "mycount" (rand.1 mod 3) "c" MAX_LINE_LEN) < 600). lia. }
  cbn [obind]. rewrite A.
  2: { rewrite slen_app. pose proof (L "mycount" (rand.1 mod 3) "c"). pose proof (L "mygauge" (rand.2 mod 100) "g").
       change (slen (EmptyString +:+ ?x)) with (slen x). lia. }
  now rewrite string_app_assoc.
Qed.
