(* ===== verification/MemoryIO.v ===== *)
(** * The devices of the unit tests (test/core_elf_memory_io.c, test/hex2bin.c)

    The tests of the core dump code read and write memory buffers instead of descriptors.
    The write device fulfils the contract of [ElfWriterSpec], so that the writer's theorems
    hold for it too; the read device hands out [next_read_size] bytes at a time and, unlike
    a descriptor, can skip.  [ticos_hex2bin] turns the tests' hexadecimal strings into
    bytes.  The tests themselves are replayed in [UnitTests]. *)
From S2P Require Import Prelude CLib Elf ElfNote ElfWriter ElfWriterSpec ElfReader.
#[local] Open Scope string_scope.
#[local] Open Scope list_scope.
#[local] Open Scope Z_scope.

(** ** Reading from memory *)

(** [end] and [cursor] are offsets in [buffer]; errno is never assigned, [mio_eintr] tells
    whether it happens to be EINTR. *)
Record sTicosCoreElfReadMemoryIO := MkReadMemoryIO {
  mio_buffer : list Z;
  mio_end : Z;
  mio_cursor : Z;
  next_read_size : Z;
  mio_eintr : bool }.

Definition ticos_core_elf_read_memory_io_init (buffer : list Z) (buffer_size : Z) (eintr : bool)
    : sTicosCoreElfReadMemoryIO := MkReadMemoryIO buffer buffer_size 0 1 eintr.

(** A negative size, which only a [buffer_size] of 2^63 and more leads to, is returned as an
    error without a buffer and is a huge [memcpy] with one. *)
Definition prv_mio_read (mio : sTicosCoreElfReadMemoryIO) (buffered : bool) (buffer_size : Z)
    : outcome (sTicosCoreElfReadMemoryIO * read_result) :=
  let size_to_read := Z.min (i64 buffer_size) (mio_end mio - mio_cursor mio) in
  let size := Z.min size_to_read (next_read_size mio) in
  let moved := MkReadMemoryIO (mio_buffer mio) (mio_end mio) (mio_cursor mio + size) (next_read_size mio) (mio_eintr mio) in
  if size <? 0 then if buffered then Fault else Val (moved, ReadError)
  else
    let! bs := load (mio_buffer mio) (mio_cursor mio) size in
    Val (moved, ReadBytes bs).

#[export] Instance read_mio : ReadIO sTicosCoreElfReadMemoryIO := {
  io_read := prv_mio_read;
  read_errno_is_EINTR := mio_eintr }.

Definition read_mio_ok (mio : sTicosCoreElfReadMemoryIO) : Prop :=
  0 <= mio_cursor mio <= mio_end mio /\ mio_end mio = zlen (mio_buffer mio) /\ 0 < next_read_size mio.

Definition mio_rest (mio : sTicosCoreElfReadMemoryIO) : list Z := drop (Z.to_nat (mio_cursor mio)) (mio_buffer mio).

(** A read hands out a prefix of what is left, with or without a buffer, and an empty one
    only at the end. *)
Lemma mio_read_ok mio buffered n : read_mio_ok mio -> 0 < n < 2 ^ 63 ->
  exists mio' bs, prv_mio_read mio buffered n = Val (mio', ReadBytes bs) /\ read_mio_ok mio' /\
    mio_rest mio = bs ++ mio_rest mio' /\ zlen bs = Z.min n (Z.min (zlen (mio_rest mio)) (next_read_size mio)).
Proof.
  intros (Hc & He & Hn) Hs. unfold prv_mio_read.
  replace (i64 n) with n by (unfold i64, swrap; rewrite Z.mod_small by lia; lia).
  set (k := Z.min _ (next_read_size mio)). assert (Hk : 0 <= k) by lia. test_false (k <? 0).
  unfold load. test_true ((0 <=? mio_cursor mio) && (0 <=? k) && (mio_cursor mio + k <=? zlen (mio_buffer mio))).
  eexists _, _. split; [reflexivity|]. unfold read_mio_ok, mio_rest. cbn. rewrite length_take, !length_drop. split; [lia|].
  split; [|lia].
  replace (Z.to_nat (mio_cursor mio + k)) with (Z.to_nat (mio_cursor mio) + Z.to_nat k)%nat by lia.
  now rewrite <- drop_drop, take_drop.
Qed.

(** ** Writing to memory *)
Record sTicosCoreElfWriteMemoryIO := MkWriteMemoryIO {
  out_buffer : list Z;
  out_end : Z;
  out_cursor : Z;
  out_eintr : bool }.

Definition ticos_core_elf_write_memory_io_init (buffer : list Z) (buffer_size : Z) (eintr : bool)
    : sTicosCoreElfWriteMemoryIO := MkWriteMemoryIO buffer buffer_size 0 eintr.

Definition prv_mio_write (mio : sTicosCoreElfWriteMemoryIO) (data : list Z) : outcome (sTicosCoreElfWriteMemoryIO * Z) :=
  let size := zlen data in
  if out_cursor mio + size >? out_end mio then Val (mio, -1)
  else
    let! buffer := store (out_buffer mio) (out_cursor mio) data in
    Val (MkWriteMemoryIO buffer (out_end mio) (out_cursor mio + size) (out_eintr mio), i64 size).

Definition prv_mio_sync (mio : sTicosCoreElfWriteMemoryIO) : outcome (sTicosCoreElfWriteMemoryIO * bool) := Val (mio, true).

#[export] Instance write_mio : WriteIO sTicosCoreElfWriteMemoryIO := {
  io_write := prv_mio_write;
  io_sync := prv_mio_sync;
  errno_is_EINTR := out_eintr }.

Definition write_mio_ok (mio : sTicosCoreElfWriteMemoryIO) : Prop :=
  0 <= out_cursor mio <= out_end mio /\ out_end mio <= zlen (out_buffer mio) < 2 ^ 63.

Definition mio_written (mio : sTicosCoreElfWriteMemoryIO) : list Z := take (Z.to_nat (out_cursor mio)) (out_buffer mio).

Definition mio_room (mio : sTicosCoreElfWriteMemoryIO) : Z := out_end mio - out_cursor mio.

(** A write that fits is complete; one that does not fit changes nothing. *)
Lemma mio_write_ok mio data : write_mio_ok mio -> zlen data <= mio_room mio ->
  exists mio', prv_mio_write mio data = Val (mio', zlen data) /\ write_mio_ok mio' /\
    mio_written mio' = mio_written mio ++ data /\ mio_room mio' = mio_room mio - zlen data.
Proof.
  unfold mio_room. intros (Hc & He) Hd. unfold prv_mio_write. test_false (out_cursor mio + zlen data >? out_end mio).
  unfold store. test_true ((0 <=? out_cursor mio) && (out_cursor mio + zlen data <=? zlen (out_buffer mio))). cbn [obind].
  replace (i64 (zlen data)) with (zlen data) by (unfold i64, swrap; rewrite Z.mod_small by lia; lia).
  eexists. split; [reflexivity|]. unfold write_mio_ok, mio_written. cbn. rewrite !length_app, length_drop, length_take.
  split; [lia|]. split; [|lia]. rewrite app_assoc, take_app_length'; [done|]. rewrite length_app, length_take. lia.
Qed.

Lemma mio_write_full mio data : mio_room mio < zlen data -> prv_mio_write mio data = Val (mio, -1).
Proof. unfold mio_room. intros Hd. unfold prv_mio_write. now test_true (out_cursor mio + zlen data >? out_end mio). Qed.

#[export] Program Instance write_mio_spec : WriteIOSpec sTicosCoreElfWriteMemoryIO := {
  io_ok := write_mio_ok;
  io_content := mio_written;
  io_room := mio_room;
  io_credit := fun _ => 0%nat;
  io_synced := fun _ => True }.
Next Obligation.
  intros s d Hok Hd. destruct (mio_write_ok s d Hok) as (s' & E & Hok' & Hw & Hr); [lia|].
  exists s', (zlen d). split; [exact E|]. split; [exact Hok'|]. left. rewrite Hw, Hr, Nat2Z.id, take_ge by lia.
  repeat split; lia || done.
Qed.
Next Obligation. intros s Hok. now exists s. Qed.

(** ** Hexadecimal strings *)
Definition hex_digit (a : ascii) : option Z :=
  let b := byte_of_ascii a in
  if (48 <=? b) && (b <=? 57) then Some (b - 48)
  else if (97 <=? b) && (b <=? 102) then Some (b - 87)
  else if (65 <=? b) && (b <=? 70) then Some (b - 55)
  else None.

Fixpoint scan_hex (acc : Z) (s : string) : Z :=
  match s with
  | String a r => match hex_digit a with Some d => scan_hex (16 * acc + d) r | None => acc end
  | EmptyString => acc
  end.

(** [strtol(s, NULL, 16)] of a string too short to overflow or to hold a digit behind 0x. *)
Definition strtol16 (s : string) : Z :=
  match skip_spaces s with
  | String "-" r => - scan_hex 0 r
  | String "+" r => scan_hex 0 r
  | r => scan_hex 0 r
  end.

(** The loop, two characters a turn. *)
Fixpoint hex_loop (hex_string : string) : list Z :=
  match hex_string with
  | String a (String b r) => u8 (strtol16 (String a (String b EmptyString))) :: hex_loop r
  | _ => []
  end.

(** The result of [malloc] is not checked. *)
Definition ticos_hex2bin (malloc_ok : bool) (hex_string : string) : outcome (list Z) :=
  let hex_len := String.length hex_string in
  if negb (hex_len mod 2 =? 0)%nat then Fault  (* assert *)
  else if negb malloc_ok && negb (hex_len =? 0)%nat then Fault
  else Val (hex_loop hex_string).

(** The file afterwards, [None] if there is none; [written] bounds what write(2) takes.  The
    file is not truncated, and no result is checked. *)
Definition ticos_hex2bin_file (malloc_ok open_ok : bool) (written : Z) (file : option (list Z)) (hex_contents : string)
    : outcome (option (list Z)) :=
  let! contents := ticos_hex2bin malloc_ok hex_contents in
  if negb open_ok then Val file
  else
    let old := default [] file in
    let new := take (Z.to_nat written) contents in
    Val (Some (new ++ drop (length new) old)).

Definition hex_char (d : Z) : ascii := ascii_of_byte (if d <? 10 then 48 + d else 87 + d).

Fixpoint print_hex (bs : list Z) : string :=
  match bs with
  | [] => EmptyString
  | b :: bs => String (hex_char (b / 16)) (String (hex_char (b mod 16)) (print_hex bs))
  end.

Lemma strtol16_byte b : is_byte b ->
  strtol16 (String (hex_char (b / 16)) (String (hex_char (b mod 16)) EmptyString)) = b.
Proof.
  intros Hb. apply Z.eqb_eq. revert b Hb. apply forall_byte. vm_compute. reflexivity.
Qed.

(** Reading back what [print_hex] prints. *)
Lemma hex2bin_print bs : bytes_ok bs -> ticos_hex2bin true (print_hex bs) = Val bs.
Proof.
  intros H. unfold ticos_hex2bin.
  assert (E : String.length (print_hex bs) = (length bs * 2)%nat).
  { clear H. induction bs as [|b bs IH]; [done|]. cbn [print_hex String.length length]. rewrite IH. lia. }
  rewrite E, Nat.Div0.mod_mul. cbn [Nat.eqb negb andb]. f_equal. clear E.
  induction H as [|b bs Hb _ IH]; [done|]. cbn [print_hex hex_loop]. rewrite strtol16_byte, IH by done.
  f_equal. unfold u8. apply Z.mod_small. exact Hb.
Qed.
