(* ===== verification/UnitTests.v ===== *)
(** * The unit tests of the repository, replayed on the model

    The expectations of the programs under test/ as examples: each is an evaluation of the
    model on the inputs of the C++ test, so that the model is held against the same facts as
    the code.  Test names are kept.  Where a test expects something else than the code
    does, the example states what the code does, and a second one that the test's
    expectation is not met. *)
From stdpp Require Import gmap.
From S2P Require Import Prelude CLib Cbor CborSpec ElfNote ElfMetadata Elf ElfWriter ElfWriterSpec ElfReader ElfTransformer.
From S2P Require Import MemoryIO Network RateLimiter DeviceSettings CollectdSpec Reboot.
#[local] Open Scope string_scope.
#[local] Open Scope list_scope.
#[local] Open Scope Z_scope.

(** ** cbor.test.cpp *)

(** The buffer a sequence of calls leaves behind, the result and the encoded size. *)
Definition run_encoder (buf_len : Z) (cs : list call) : outcome (list Z * bool * Z) :=
  let! (e, ok) := run_calls (ticos_cbor_encoder_init (Some (prv_write_cbor_to_buffer_cb 0)) (zeros buf_len) buf_len) cs in
  Val (write_cb_ctx e, ok, ticos_cbor_encoder_deinit e).

Definition encodes (cs : list call) (expected : string) : bool :=
  match ticos_hex2bin true expected with
  | Val bs =>
      match run_encoder (zlen bs) cs with
      | Val (result, ok, n) => ok && (n =? zlen bs) && bool_decide (result = bs)
      | _ => false
      end
  | _ => false
  end.

Definition text (s : string) : call := EncString (bytes_of_string s).

Example Test_EncodeUnsignedInt : forallb (fun '(v, s) => encodes [EncUnsigned v] s)
  [(0, "00"); (1, "01"); (10, "0a"); (23, "17"); (24, "1818"); (25, "1819"); (100, "1864"); (1000, "1903e8");
   (1000000, "1a000f4240"); (2 ^ 32 - 1, "1affffffff")] = true.
Proof. vm_compute. reflexivity. Qed.

Example Test_EncodeArray : forallb (fun '(vs, s) => encodes (EncArray (zlen vs) :: map EncUnsigned vs) s)
  [([], "80"); ([1; 2; 3], "83010203");
   (seqZ 1 25, "98190102030405060708090a0b0c0d0e0f101112131415161718181819")] = true.
Proof. vm_compute. reflexivity. Qed.

Example Test_EncodeSignedInt : forallb (fun '(v, s) => encodes [EncSigned v] s)
  [(-1, "20"); (-10, "29"); (-100, "3863"); (-1000, "3903e7"); (1000000, "1a000f4240"); (- 2 ^ 31, "3a7fffffff")] = true.
Proof. vm_compute. reflexivity. Qed.

Example Test_EncodeLongSignedInt : forallb (fun '(v, s) => encodes [EncLongSigned v] s)
  [(-1, "20"); (1000000, "1a000f4240"); (- 2 ^ 31, "3a7fffffff"); (1000000000000, "1b000000e8d4a51000");
   (-123456789101112, "3b00007048860f3a37")] = true.
Proof. vm_compute. reflexivity. Qed.

Example Test_EncodeString : forallb (fun '(v, s) => encodes [text v] s)
  [(EmptyString, "60"); ("a", "6161"); ("IETF", "6449455446"); (String "034" "\", "62225c")] = true.
Proof. vm_compute. reflexivity. Qed.

Example Test_EncodeBinaryString : forallb (fun '(v, s) => encodes [EncByteString v] s)
  [([], "40"); ([1; 2; 3; 4], "4401020304")] = true.
Proof. vm_compute. reflexivity. Qed.

(** The doubles 1.0e+300 and -4.1, as the test hands them over: bit by bit. *)
Example Test_EncodeFLoatString : forallb (fun '(v, s) => encodes [EncDouble v] s)
  [(0x7e37e43c8800759c, "fb7e37e43c8800759c"); (0xc010666666666666, "fbc010666666666666")] = true.
Proof. vm_compute. reflexivity. Qed.

Definition test_dictionary : list call :=
  EncDictionary 5 :: flat_map (fun '(a, b) => [text a; text b])
    [("a", "A"); ("b", "B"); ("c", "C"); ("d", "D"); ("e", "E")].

(** The size first, with an encoder that only counts. *)
Example Test_EncodeDictionary :
  (let! (e, ok) := run_calls (ticos_cbor_encoder_size_only_init tt) test_dictionary in
   Val (ticos_cbor_encoder_deinit e, ok)) = Val (21, true) /\
  encodes test_dictionary "a56161614161626142616361436164614461656145" = true.
Proof. vm_compute. split; reflexivity. Qed.

Example Test_EncodeNestedDictionary :
  encodes [EncDictionary 1; text "a"; EncDictionary 1; text "b"; text "c"] "a16161a161626163" = true.
Proof. vm_compute. reflexivity. Qed.

Example Test_BufTooSmall : (let! (_, ok, _) := run_encoder 1 [text "a"] in Val ok) = Val false.
Proof. vm_compute. reflexivity. Qed.

(** What one encoder wrote is joined into another one. *)
Example Test_Join :
  (let! (ints, ok2, n) := run_encoder 3 [EncUnsigned 1; EncUnsigned 2; EncUnsigned 3] in
   let! (e, ok1) := ticos_cbor_encode_array_begin
     (ticos_cbor_encoder_init (Some (prv_write_cbor_to_buffer_cb 0)) (zeros 4) 4) 3 in
   let! (e, ok) := ticos_cbor_join e (take (Z.to_nat n) ints) in
   Val (write_cb_ctx e, ticos_cbor_encoder_deinit e, ok1 && ok2 && ok)) = Val ([0x83; 1; 2; 3], 4, true).
Proof. vm_compute. reflexivity. Qed.

(** ** core_elf_note.test.cpp *)
Definition note_case (owner_name : string) (description_size : Z) (expected : string) : bool :=
  let owner := Some (bytes_of_string owner_name) in
  let run :=
    let! bs := ticos_hex2bin true expected in
    let size := ticos_core_elf_note_calculate_size owner description_size in
    let! (b, desc) := ticos_core_elf_note_init (replicate (Z.to_nat size) 0xaa) 0 owner description_size 0x12345678 in
    let! b := store b desc (replicate (Z.to_nat description_size) 0xff) in
    Val ((size =? zlen bs) && bool_decide (b = bs)) in
  match run with Val ok => ok | _ => false end.

Example Test_NoteWriting : forallb (fun '(name, n, s) => note_case name n s)
  [(EmptyString, 0, "000000000000000078563412"); (EmptyString, 1, "000000000100000078563412FF000000");
   (EmptyString, 4, "000000000400000078563412FFFFFFFF"); ("ABC", 0, "04000000000000007856341241424300");
   ("A", 1, "02000000010000007856341241000000FF000000")] = true.
Proof. vm_compute. reflexivity. Qed.

(** ** core_elf_metadata.test.cpp *)

(** The test's name size, description size, type and name; the CBOR data is as expected. *)
Definition test_note_hex : string :=
  "09000000" +:+ "2B000000" +:+ "4D4554414D656D6661756C7400" +:+ "000000" +:+
  "A701010265302E342E30031A63205A48046731323334414243056365767406646D61696E0765312E322E33" +:+ "00".

(** The note is four bytes shorter than the test's: another name, and not the same bytes. *)
Example Test_WriteMetadata_expectation :
  (let! bs := ticos_hex2bin true test_note_hex in
   let! n := ticos_core_elf_metadata_note_calculate_size test_metadata in
   let! (note, _) := ticos_core_elf_metadata_note_write test_metadata (replicate (Z.to_nat n) 0xaa) n in
   Val (zlen bs, n, bool_decide (drop 24 bs = drop 20 note), bool_decide (bs = note),
        string_of_bytes (take 8 (drop 12 bs)), string_of_bytes (take 5 (drop 12 note)))) =
  Val (68, 64, true, false, "Memfault", "Ticos").
Proof. vm_compute. reflexivity. Qed.

(** ** core_elf_reader.test.cpp *)
Definition test_ident (mag3 data : Z) : list Z := [ELFMAG0; ELFMAG1; ELFMAG2; mag3; ELFCLASS; data; EV_CURRENT] ++ zeros 9.

Definition EM_X86_64 : Z := 62.
Definition ET_EXEC : Z := 2.
Definition PT_DYNAMIC : Z := 2.

(** The template of the tests with the fields they vary. *)
Definition test_ehdr (e_type e_phoff e_phnum : Z) : Elf_Ehdr :=
  MkEhdr (test_ident ELFMAG3 ELFDATA) e_type EM_X86_64 EV_CURRENT 0 e_phoff 0 0 sizeof_Ehdr sizeof_Phdr e_phnum 0 0 0.

Definition validity_case (mag3 type ehsize phentsize : Z) : bool :=
  ticos_core_elf_reader_is_valid_core_elf
    (Some (ehdr_bytes (MkEhdr (test_ident mag3 0) type 0 EV_CURRENT 0 0 0 0 ehsize phentsize 0 0 0 0))) sizeof_Ehdr.

Example Test_ElfIsValid :
  ticos_core_elf_reader_is_valid_core_elf None 1024 = false /\
  ticos_core_elf_reader_is_valid_core_elf (Some [ELFMAG0; ELFMAG1; ELFMAG2; ELFMAG3; 0]) 5 = false /\
  validity_case 86 ET_CORE sizeof_Ehdr sizeof_Phdr = false /\
  validity_case ELFMAG3 ET_EXEC sizeof_Ehdr sizeof_Phdr = false /\
  validity_case ELFMAG3 ET_CORE sizeof_Ehdr (sizeof_Phdr - 4) = false /\
  validity_case ELFMAG3 ET_CORE (sizeof_Ehdr - 4) sizeof_Phdr = false /\
  validity_case ELFMAG3 ET_CORE sizeof_Ehdr sizeof_Phdr = true.
Proof. vm_compute. split_and!; reflexivity. Qed.

(** The mock handler: the calls it saw, and the hook of the tests that read on from the
    handler of the segments: a position, a size and what the read gave. *)
Inductive mock_call :=
| SawHeader (h : Elf_Ehdr)
| SawSegments (hs : list Elf_Phdr)
| SawWarning (w : reader_warning)
| SawDone.

Record mock := MkMock { actual_calls : list mock_call; hook : option (Z * Z); hooked : option (list Z) }.

Definition actual_call (c : mock_call) (m : mock) : mock := MkMock (actual_calls m ++ [c]) (hook m) (hooked m).

#[local] Instance mock_warning : WarningHandler mock := { handle_warning := fun m w => Val (actual_call (SawWarning w) m) }.
#[local] Instance mock_handler : ReaderHandler sTicosCoreElfReadMemoryIO mock := {
  handle_elf_header := fun m h => Val (actual_call (SawHeader h) m);
  handle_segments := fun reader m hs =>
    let m := actual_call (SawSegments hs) m in
    match hook m with
    | None => Val (reader, m)
    | Some (pos, n) =>
        let! (reader, m, bs) := ticos_core_elf_reader_read_segment_data 1000 reader m pos n in
        Val (reader, MkMock (actual_calls m) (hook m) (Some bs))
    end;
  handle_done := fun m => Val (actual_call SawDone m) }.

(** Every test reads its buffer one byte at a time. *)
Definition read_core (hook : option (Z * Z)) (elf : list Z) : outcome (list mock_call * option (list Z)) :=
  let! (_, m, _) := ticos_core_elf_reader_read_all 1000 true
    (ticos_core_elf_reader_init (ticos_core_elf_read_memory_io_init elf (zlen elf) false)) (MkMock [] hook None) in
  Val (actual_calls m, hooked m).

Example Test_WarningForUnexpectedEOF :
  read_core None (take 1 (ehdr_bytes (test_ehdr ET_CORE 0 0))) = Val ([SawWarning WarnShortElfHeader; SawDone], None).
Proof. vm_compute. reflexivity. Qed.

Example Test_WarningForInvalidHeader :
  read_core None (ehdr_bytes (test_ehdr ET_EXEC 0 0)) = Val ([SawWarning WarnNotACore; SawDone], None).
Proof. vm_compute. reflexivity. Qed.

Example Test_ElfHeaderOk : let h := test_ehdr ET_CORE 0 0 in
  read_core None (ehdr_bytes h) = Val ([SawHeader h; SawWarning WarnSegmentTableOffset; SawDone], None).
Proof. vm_compute. reflexivity. Qed.

Definition test_phdr (p_type p_offset p_vaddr p_filesz : Z) : Elf_Phdr := MkPhdr p_type 0 p_offset p_vaddr 0 p_filesz 0 0.

(** The memory device skips the gap, which a descriptor cannot ([descriptor_cannot_skip]). *)
Example Test_WarnIfDataBetweenHeaderAndSegmentTable :
  let h := test_ehdr ET_CORE 72 1 in let p := test_phdr 0 128 0 0 in
  read_core None (ehdr_bytes h ++ zeros 8 ++ phdr_bytes p) =
    Val ([SawHeader h; SawWarning WarnIgnoringData; SawSegments [p]; SawDone], None).
Proof. vm_compute. reflexivity. Qed.

Example Test_IncompleteSegmentsTable : let h := test_ehdr ET_CORE 64 1 in
  read_core None (ehdr_bytes h ++ take 55 (phdr_bytes (test_phdr 0 119 0 0))) =
    Val ([SawHeader h; SawWarning WarnShortSegmentHeaders; SawDone], None).
Proof. vm_compute. reflexivity. Qed.

Example Test_HandleSegments :
  let h := test_ehdr ET_CORE 64 2 in let ps := [test_phdr 0 176 0 1234; test_phdr 0 176 0 5678] in
  read_core None (ehdr_bytes h ++ phdrs_bytes ps) = Val ([SawHeader h; SawSegments ps; SawDone], None).
Proof. vm_compute. reflexivity. Qed.

(** Four bytes of data behind an empty segment table, and reads of a size at a position:
    behind the stream, ahead of it, past the end, and further than the end. *)
Definition read_test_segment (pos n : Z) : outcome (option (list Z)) :=
  let! (_, r) := read_core (Some (pos, n)) (ehdr_bytes (test_ehdr ET_CORE 64 0) ++ bytes_of_string "ABCD") in Val r.

Example Test_ReadSegmentData :
  read_test_segment 0 1 = Val (Some []) /\
  read_test_segment (64 + 2) 2 = Val (Some (bytes_of_string "CD")) /\
  read_test_segment (64 + 5) 1 = Val (Some []) /\
  read_test_segment 64 10 = Val (Some (bytes_of_string "ABCD")).
Proof. vm_compute. split_and!; reflexivity. Qed.

(** ** core_elf_writer.test.cpp *)
Section Writer.
#[local] Abbreviation writer_t := (sTicosCoreElfWriter sTicosCoreElfWriteMemoryIO).

Definition test_writer : writer_t :=
  ticos_core_elf_writer_set_elf_header_fields
    (ticos_core_elf_writer_init (ticos_core_elf_write_memory_io_init (zeros 1024) 1024 false)) EM_X86_64 7.

Definition test_segment (align : Z) : Elf_Phdr := MkPhdr PT_LOAD 0xff 0 0x12345678 0 4 0 align.

(** The bytes written after adding segments with [add]. *)
Definition write_core (add : writer_t -> outcome (writer_t * bool)) : outcome (list Z * bool) :=
  let! (w, added) := add test_writer in
  let! (w, ok) := ticos_core_elf_writer_write 1000 w in
  Val (mio_written (io (out w)), added && ok).

Definition add_buffer (align : Z) (w : writer_t) : outcome (writer_t * bool) :=
  ticos_core_elf_writer_add_segment_with_buffer true w (test_segment align) (bytes_of_string "ABCD").

Definition prv_segment_data_callback (o : sWriterOut sTicosCoreElfWriteMemoryIO) (segment : Elf_Phdr)
    : outcome (sWriterOut sTicosCoreElfWriteMemoryIO * bool) :=
  if (PT_LOAD =? p_type segment) && (0xff =? p_flags segment) && (0x12345678 =? p_vaddr segment) then
    let! (o, _) := ticos_core_elf_writer_write_segment_data 1000 o (bytes_of_string "ABCD") in Val (o, true)
  else Fault.

Definition add_callback (w : writer_t) : outcome (writer_t * bool) :=
  ticos_core_elf_writer_add_segment_with_callback true w (test_segment 0) prv_segment_data_callback.

Example Test_WriteEmptyElf : write_core (fun w => Val (w, true)) =
  Val (ehdr_bytes (MkEhdr (test_ident ELFMAG3 ELFDATA) ET_CORE EM_X86_64 EV_CURRENT 0 0 0 7 sizeof_Ehdr 0 0 0 0 0), true).
Proof. vm_compute. reflexivity. Qed.

(** The segment header at 64 and the data where it says. *)
Definition segment_written (p_offset align : Z) (r : outcome (list Z * bool)) : bool :=
  match r with
  | Val (bs, true) =>
      bool_decide (take 56 (drop 64 bs) = phdr_bytes (set_p_offset (test_segment align) p_offset)) &&
      bool_decide (drop (Z.to_nat p_offset) bs = bytes_of_string "ABCD")
  | _ => false
  end.

Example Test_WriteSegmentDataWithBuffer : segment_written (64 + 56) 0 (write_core (add_buffer 0)) = true.
Proof. vm_compute. reflexivity. Qed.

Example Test_WriteSegmentDataWithCallback : segment_written (64 + 56) 0 (write_core add_callback) = true.
Proof. vm_compute. reflexivity. Qed.

Example Test_WriteSegmentDataRequiringPadding :
  segment_written (TICOS_ALIGN_UP (64 + 56) 128) 128 (write_core (add_buffer 128)) = true.
Proof. vm_compute. reflexivity. Qed.
End Writer.

(** ** core_elf_transformer.test.cpp *)

(** [copy_proc_mem] of the test: the inverted addresses, eight bytes each. *)
Definition inverted_addresses (vaddr size : Z) : option (list Z) :=
  Some (concat (map (fun k => le_bytes 8 (u64 (Z.lnot (vaddr + 8 * k)))) (seqZ 0 (size / 8)))).

Definition transform_elf (elf : list Z) : outcome (list Z * bool) :=
  let! (_, t, ok) := ticos_core_elf_transformer_run 1000 (fun n => zeros n) true
    (ticos_core_elf_reader_init (ticos_core_elf_read_memory_io_init elf (zlen elf) false))
    (ticos_core_elf_transformer_init (ticos_core_elf_write_memory_io_init (zeros (16 * 1024)) (16 * 1024) false)
       test_metadata inverted_addresses []) in
  Val (mio_written (io (out (writer t))), ok).

Definition written_segments (elf : list Z) : list Elf_Phdr :=
  let h := parse_ehdr elf in parse_phdrs (Z.to_nat (e_phnum h)) (drop (Z.to_nat (e_phoff h)) elf).

Definition segment_bytes (elf : list Z) (p : Elf_Phdr) : list Z :=
  take (Z.to_nat (p_filesz p)) (drop (Z.to_nat (p_offset p)) elf).

(** A note segment that starts with a note of the name "Ticos". *)
Definition written_ticos_metadata_note (elf : list Z) : bool :=
  existsb (fun p => (p_type p =? PT_NOTE) &&
    match parse_note (segment_bytes elf p) with
    | Some (name, _, _, _) => bool_decide (name = bytes_of_string "Ticos" ++ [0])
    | None => false
    end) (written_segments elf).

Definition transformed (elf : list Z) (check : list Z -> list Elf_Phdr -> bool) : bool :=
  match transform_elf elf with
  | Val (written, true) => written_ticos_metadata_note written && check written (written_segments written)
  | _ => false
  end.

Definition test_elf (p : Elf_Phdr) (data : list Z) : list Z := ehdr_bytes (test_ehdr ET_CORE 64 1) ++ phdr_bytes p ++ data.

Example Test_UnexpectedSegmentType :
  transformed (test_elf (test_phdr PT_DYNAMIC 0 0 0) (zeros 4)) (fun _ ps => (length ps =? 1)%nat) = true.
Proof. vm_compute. reflexivity. Qed.

Example Test_CopyNoteSegmentVerbatim :
  transformed (test_elf (test_phdr PT_NOTE 120 0 4) (bytes_of_string "ABCD")) (fun written ps =>
    match ps with
    | [note; _] => (p_type note =? PT_NOTE) && (p_filesz note =? 4) &&
                   bool_decide (segment_bytes written note = bytes_of_string "ABCD")
    | _ => false
    end) = true.
Proof. vm_compute. reflexivity. Qed.

(** Two chunks of memory, read through the callback and not from the stream. *)
Example Test_CopyLoadSegmentUsingCallback :
  let data_size := 2 * TICOS_CORE_ELF_TRANSFORMER_PROC_MEM_COPY_BUFFER_SIZE_BYTES in
  transformed (test_elf (test_phdr PT_LOAD 120 5 data_size) []) (fun written ps =>
    match ps with
    | [seg; _] => (p_type seg =? PT_LOAD) && (p_filesz seg =? data_size) && (p_vaddr seg =? 5) &&
                  bool_decide (Some (segment_bytes written seg) = inverted_addresses 5 data_size)
    | _ => false
    end) = true.
Proof. vm_compute. reflexivity. Qed.

(** ** rate_limiter.test.cpp *)
Definition limiter_files (content : option string) : files :=
  match content with Some s => {[ "ratelimit" := bytes_of_string s ]} | None => ∅ end.

Definition limiter_test_env : limiter_env := MkLimiterEnv true true (Some "ratelimit") true.

Definition init_history (filename : bool) (content : option string) : outcome (option (list Z)) :=
  let! limiter := ticosd_rate_limiter_init limiter_test_env true 5 3600 filename (limiter_files content) in
  Val (history <$> limiter).

Example InitFailures :
  ticosd_rate_limiter_init limiter_test_env false 5 3600 false ∅ = Val None /\
  ticosd_rate_limiter_init limiter_test_env true 0 3600 false ∅ = Val None /\
  ticosd_rate_limiter_init limiter_test_env true 5 0 false ∅ = Val None.
Proof. vm_compute. split_and!; reflexivity. Qed.

Example InitSuccess :
  init_history false None = Val (Some [0; 0; 0; 0; 0]) /\ init_history true None = Val (Some [0; 0; 0; 0; 0]) /\
  init_history true (Some "500 400 300 200 100 ") = Val (Some [500; 400; 300; 200; 100]).
Proof. vm_compute. split_and!; reflexivity. Qed.

(** One event at [now], with the file behind it. *)
Definition event_at (now : Z) (handle : option sTicosdRateLimiter) (content : option string)
    : outcome (bool * option (list Z) * option string) :=
  let! (h, fs, ok) := ticosd_rate_limiter_check_event now true handle (limiter_files content) in
  Val (ok, history <$> h, string_of_bytes <$> fs !! "ratelimit").

Example EventSuccessHistoryUpdated : let old := "500 400 300 200 100 " in
  (let! limiter := ticosd_rate_limiter_init limiter_test_env true 5 3600 true (limiter_files (Some old)) in
   event_at 1663064648 limiter (Some old)) =
    Val (true, Some [1663064648; 500; 400; 300; 200], Some "1663064648 500 400 300 200 ").
Proof. vm_compute. reflexivity. Qed.

Example EventLimit : let now := 1663064648 in
  let limiter oldest := Some (MkRateLimiter 5 3600 [0; 0; 0; 0; oldest] None) in
  (let! (ok, _, _) := event_at now None None in Val ok) = Val true /\
  (let! (ok, _, _) := event_at now (limiter (now - 3600 + 2)) None in Val ok) = Val false /\
  (let! (ok, _, _) := event_at now (limiter (now - 3600 - 2)) None in Val ok) = Val true.
Proof. vm_compute. split_and!; reflexivity. Qed.

(** ** coredump_ratelimiter.test.cpp *)
Example CoreDumpRateLimiter :
  (let! r := coredump_create_rate_limiter limiter_test_env false (Some 42) (Some 60) ∅ in
   Val (count <$> r, duration <$> r)) = Val (Some 42, Some 60) /\
  coredump_create_rate_limiter limiter_test_env true (Some 42) (Some 60) ∅ = Val None.
Proof. vm_compute. split; reflexivity. Qed.

(** ** device_settings.test.cpp *)
Example DeviceSettingsTests :
  ticosd_device_settings_init (Some ["TICOS_DEVICE_ID=device_id"; "TICOS_HARDWARE_VERSION=hardware_version"]) =
    Val (Some (MkSettings "device_id" "hardware_version")) /\
  ticosd_device_settings_init (Some ["TICOS_DEVICE_ID = device_id"]) = Val None /\
  ticosd_device_settings_init None = Val None.
Proof. vm_compute. split_and!; reflexivity. Qed.

(** ** collectd.test.cpp *)

(** The header is the expected one.  The footer is not: the test expects the device in the
    URL, where the code sends it in headers. *)
Definition expected_url_line : string :=
  "    URL " +:+ quoted "https://example.com/api/v0/collectd/device_id/hw_version/sw_type/123.456".

Definition test_footer : string :=
  write_http_text 3600 "https://example.com" "projectkey" (MkSettings "device_id" "hw_version") "sw_type" "123.456" 65536.

Fixpoint contains (pat s : string) : bool :=
  String.prefix pat s || match s with String _ r => contains pat r | EmptyString => false end.

Example Test_DataCommsEnabled :
  header_text 3600 = "Interval 3600" +:+ String "010" (String "010" EmptyString) /\
  contains expected_url_line test_footer = false /\
  contains ("    URL " +:+ quoted "https://example.com/logstash") test_footer = true /\
  contains ("    Header " +:+ quoted "deviceId: device_id") test_footer = true.
Proof. vm_compute. split_and!; reflexivity. Qed.

(** ** reboot_last_boot_id.test.cpp *)
Definition current_boot_id : string := "12764a0c-f27b-48b3-8fe2-10fa14fa1917".

(** Whether the boot id is untracked, and the file afterwards. *)
Definition track (fopen_ok : bool) (content : option (list Z)) (boot_id : string) : outcome (bool * option string) :=
  let fs : files := match content with Some bs => {[ "last" := bs ]} | None => ∅ end in
  let! (fs, untracked) := ticos_reboot_is_untracked_boot_id (MkIdFileEnv fopen_ok true true true true true) "last"
                            (bytes_of_string boot_id ++ [0]) fs in
  Val (untracked, string_of_bytes <$> fs !! "last").

(** The test writes a string with its NUL. *)
Example LastBootId :
  track false None current_boot_id = Val (false, None) /\
  track true None current_boot_id = Val (true, Some current_boot_id) /\
  track true (Some (bytes_of_string "NOT A UUID" ++ [0])) current_boot_id = Val (true, Some current_boot_id) /\
  (let! (untracked, _) := track true (Some (bytes_of_string current_boot_id ++ [0])) current_boot_id in Val untracked) = Val false /\
  track true (Some (bytes_of_string "f85c1473-2457-48da-9a13-4f903627f610")) "951dada5-763a-4382-847f-173d8deb3fc9" =
    Val (true, Some "951dada5-763a-4382-847f-173d8deb3fc9").
Proof. vm_compute. split_and!; reflexivity. Qed.

(** ** reboot_process_pstore.test.cpp *)

(** Every file found on the walk is removed; a directory is left alone, what is outside of
    the directory too. *)
Example ProcessPstore :
  let fs : files := {[ "/pstore/.dotfile" := [1]; "/pstore/subdir/regular_file" := [2]; "/tmp/target" := [3] ]} in
  let walk := [MkFtsent FTS_OTHER "/pstore"; MkFtsent FTS_F "/pstore/.dotfile"; MkFtsent FTS_SL "/pstore/ext_symlink";
               MkFtsent FTS_OTHER "/pstore/subdir"; MkFtsent FTS_F "/pstore/subdir/regular_file"] in
  ticos_reboot_process_pstore_files (fun _ => true) (Some walk) fs = {[ "/tmp/target" := [3] ]}.
Proof. vm_compute. reflexivity. Qed.
